(* ===== verification/_CoqProject ===== *)
-Q . S2P
Prelude.v
Mem.v
CString.v
Idt.v
Tty.v
Consoles.v
Interrupt.v
Font.v
Graphics.v
Ports.v
Cpu.v
Disk.v
Timer.v
Vga.v
Keyboard.v
Typing.v
Shell.v
Display.v
Login.v
Terminal.v
Session.v
Monitor.v
History.v
Boot.v
Drafts.v
Installer.v
BootDisk.v
Layout.v
Headers.v
Io.v
Cursor.v
