(* ===== verification/Prelude.v ===== *)
(** * 88os: a verification library for the C sources of the 88os kernel

    88os collects the parts of a small i386 kernel.  They do not form one image:
    the repository has several entry points, each with its own screen, shell and
    drivers, that share a few libraries.  The development follows the sources, one
    file per component, and states for each what it does on every input, including
    where the C code has no defined behaviour.

    ** Parts of the program and files

    Libraries.
    - [Prelude]: outcomes, machine integers, loops, automation.
    - [Mem]: the byte-addressed memory of the C code, its views ([bytes_at],
      [cstring], [wrote]) and arrays.
    - [History]: programs that call the rest of the machine, with the history of
      their calls, and the rules about runs ([runs], [ends]).
    - [Ports]: port input and output, and the ATA drive behind the ports.
    - [Cpu]: the registers and the IN and OUT instructions on a bus, for the two
      files that wrap them: [Io], [include/io.c], an instance of [Ports], and [Vga].
    - [Display]: the reporting macros of [include/display.h], which [Terminal] and
      [Boot.Late] expand.
    - [Layout] and [Headers]: structures in memory under the i386 ABI, and the ones
      the headers declare (the multiboot structures, descriptor gates and wrappers,
      interrupt frames, PCI and ELF headers).

    The text console kernel.
    - [CString]: [lib/string.c], the string routines, used by [Terminal].
    - [Idt]: [include/idt.c], the descriptor table at a fixed address
      ([FixedIdt]) and the array of gates ([GateArray]).
    - [Tty]: [kernel/tty.c] and [kernel/tty.h], the eight virtual terminals.
    - [Consoles]: sequences of calls of the interface of [kernel/tty.h].
    - [Interrupt]: [include/interrupt.c], the dispatcher; its exception report is
      printed on the terminals of [Tty].
    - [Timer]: [include/timer.c].
    - [Vga]: [kernel/kernel.c] and [kernel/kerneltesting.c], their printing, their
      port functions and the reading of the cursor.
    - [Cursor]: the cursor task of [kernel/main.c], run on the functions of [Io] and
      read back as [Vga] does.
    - [Shell]: [include/shell.c], three command interpreters ([Prompt],
      [Commands], [Ls]).
    - [Login] and [Terminal]: the login prompt, the test device and the terminal
      task of [kernel/main.c].  [Terminal] runs on the routines of [CString];
      [Session] composes its keys and commands into whole lines.
    - [Boot]: [kmain.c] and the start of [kernel/main.c].  [Boot.Device] calls the
      read routine of [Login.TestDevice].
    - [Drafts]: [kernel.c], the drafts of an entry point.

    The graphical kernel, [kernel_main.c].
    - [Font] and [Graphics]: the frame buffer, its shapes and its text.
    - [Disk]: the disk driver, on the drive of [Ports].
    - [Keyboard]: the keyboard interrupt, which draws with [Graphics]; [Typing]: a
      session of such interrupts.
    - [Monitor]: [main], the debug monitor, and [isr_default].

    The installer and the kernel with PCI drivers.
    - [Installer]: [install.cpp].
    - [BootDisk]: [kernel/src/kernel_main.cpp].

    ** How the code is modelled

    A function of the source is a definition of the same name; a long function is
    split where the source has a loop, a branch or a command.  Integers are [Z]
    with the conversions [u8], [u16], [u32], [u64], [s8] written where the source
    converts; arithmetic on [int] goes through [int32], which is [Undef] on
    overflow.  A pointer is an address of a [mem]; an access outside the allocated
    bytes is [Undef].  Arrays that no pointer leaves are lists with checked access
    ([array_get], [array_put]).  State that several functions share (the console
    table, the line buffers, the monitor's variables, the terminal's statics) is a
    record that is passed along.

    Code that is not in the repository (drivers, allocators, file systems, the
    monitor library, [printf], libparted) is a class of operations on a device
    state [D]; what a theorem needs of it is a second class of laws or a hypothesis
    of a section, and each such theorem has a witness with a concrete instance.

    Loops are bounded by fuel, and [Fuel] is the outcome that says the bound ran
    out.  The bounds that are computed: the string routines take the number of
    allocated bytes, which a loop over mapped bytes cannot exceed; [sqrt] and the
    circle columns take their range; the decimal digits of a 64-bit number are at
    most 20; replacing in a string takes its length; the AHCI and EHCI loops the
    number of disks and ports.  Loops that wait for hardware or for a user take
    their fuel from the caller, and the theorems say how much is enough: the time
    the drive is busy ([Disk]), the number of keys ([Login], [Terminal]), of
    lines ([Installer]), of rows or bytes ([Monitor]).  The endless loops at the end
    of [late_init] and of [kernel_main.cpp] run for a number of rounds that is a
    parameter; their theorems hold for all of them.

    ** What the theorems show

    Well-formed states: sequences of drawing, printing, switching and selecting calls
    keep the table of terminals well formed and never fail, as long as no label
    needs more padding than its counter can count ([Consoles]); initialisation
    establishes it ([Tty]); the command shell never reaches its panic while the
    other files store only the values of its flag it knows ([Shell]).

    Refinements of an abstract machine: printing implements an abstract terminal
    and an exception shows exactly its report ([Tty], [Interrupt]); installing an
    interrupt updates a table of vectors ([Idt]); the terminal's key handler is a
    line editor ([Terminal]), and so is the keyboard interrupt over a whole queue of
    scan codes ([Typing]); a session of [cd] lines follows a specification of
    the working directory, up to a [cd] for which there is no memory ([Session]); the
    boot search answers the first disk with the signature ([BootDisk]); an installed interrupt reads through the declared
    structures as its gate and its wrapper ([Headers]).

    Structures: the two multiboot headers describe the same bytes, field by field, and
    the fields of a structure without a union do not overlap ([Headers], on [Layout]).

    Functional results: disk reads and writes move the right sectors and a read
    gives back what was written ([Disk]); shapes and glyphs paint exactly their
    pixels ([Graphics]); the string routines split, compare and convert
    ([CString]); the shells and the login run the right command on the words typed
    ([Shell], [Login], [Keyboard]); dump and fill of the monitor print and store
    the right bytes ([Monitor]); the port functions reach the port they are given
    ([Io]) and the cursor task leaves its position in the controller ([Cursor]); the
    memory map is read back and added up ([BootDisk]);
    replacing in a string is a single pass ([Installer]).

    Order and safety of calls: the installer formats only the partition the user chose
    from the list, after a yes to the question about it, and kills the registry
    server it started as its last act; a question ends at the first line it accepts
    ([Installer]); a process is created last and from a found file, the late
    kernel sets the machine up in order and panics only when the tasks did not
    start, and the login waits for four of the drivers only ([Boot]); a boot comes
    to one of three results, and each round of the schedule runs the handlers that
    are due, whatever handlers and interrupts do to the table ([BootDisk]).

    Where the code fails: the login buffer, the line buffers, the block of the echo
    command and the words the shell passes for pointers ([Shell]), the long
    environment variable and the empty line of the installer ([Installer]), the
    blocks nobody tests for null ([Login], [Session]), the paths of [write]
    and [touch], the disk bounds check that wraps, the padding loop that never
    ends, the circle that uses a missing square root, the numbers [atoi] cannot
    read, the rates the timer cannot have, the missing EHCI controller, the long
    port functions with an immediate port, the port functions of kernel.c that send a
    stale register ([Vga]), the Backspace key that stays in the line ([Typing]).

    ** Not modelled

    The assembly files (the loaders and entry stubs) and the link scripts.  Of the
    headers: constants, prototypes, the classes of [kernel/include/IO], which have
    no bodies, and the two structures that name a member twice (DISPLAY and the ELF
    section header); of [include/io.h] the bit fields of a scan code.  [idt_store],
    which stores the register at the stack pointer, whatever object lies there, and
    the second copy of the fixed table in [include/idt.c].  The text-mode half of
    [kernel_main.cpp], which the configuration with GRAPHICS_MODE leaves out; an
    interrupt between the reads of one look at its schedule table.  The files under
    [build] are products of CMake. *)

From Stdlib Require Export ZArith Lia.
From stdpp Require Export base option list gmap numbers strings.

#[global] Open Scope Z_scope.

#[global] Arguments Z.eqb : simpl never.
#[global] Arguments Z.ltb : simpl never.
#[global] Arguments Z.leb : simpl never.
#[global] Arguments Z.add : simpl never.
#[global] Arguments Z.sub : simpl never.
#[global] Arguments Z.mul : simpl never.
#[global] Arguments Z.shiftl : simpl never.
#[global] Arguments Z.shiftr : simpl never.
#[global] Arguments Z.land : simpl never.
#[global] Arguments Z.lor : simpl never.
#[global] Arguments Z.div : simpl never.
#[global] Arguments Z.modulo : simpl never.

(** ** Outcomes

    [Ok a]: the C code finishes with [a].  [Undef]: it performs an operation
    with no defined behaviour (an access outside the allocated objects, a signed
    overflow, a division by zero).  [Fuel]: the bound given to a loop ran out. *)
Inductive res (A : Type) : Type :=
  | Ok (a : A)
  | Undef
  | Fuel.
Arguments Ok {A} a.
Arguments Undef {A}.
Arguments Fuel {A}.

#[export] Instance res_ret : MRet res := fun A a => Ok a.

#[export] Instance res_bind : MBind res := fun A B f m =>
  match m with Ok a => f a | Undef => Undef | Fuel => Fuel end.

Definition is_ok {A} (r : res A) : bool :=
  match r with Ok _ => true | _ => false end.

#[export] Instance res_eq_dec {A} `{EqDecision A} : EqDecision (res A).
Proof. solve_decision. Defined.

(** ** Machine integers

    An integer of the source is a [Z]; [wrap w] is the conversion to the
    unsigned type of [w] bits, [swrap w] the conversion to the signed one. *)
Definition wrap (w x : Z) : Z := x mod 2 ^ w.
Definition swrap (w x : Z) : Z := (x + 2 ^ (w - 1)) mod 2 ^ w - 2 ^ (w - 1).

#[global] Arguments wrap : simpl never.
#[global] Arguments swrap : simpl never.

Abbreviation u8 := (wrap 8).
Abbreviation u16 := (wrap 16).
Abbreviation u32 := (wrap 32).
Abbreviation u64 := (wrap 64).
Abbreviation s8 := (swrap 8).
Abbreviation s32 := (swrap 32).

(** The result of a signed [int] operation: undefined when it overflows. *)
Definition int32 (x : Z) : res Z :=
  if decide (- 2 ^ 31 <= x < 2 ^ 31) then Ok x else Undef.

(** ** Loops

    [for_loop n i f s] runs [f i], [f (i+1)], ..., [n] times. *)
Fixpoint for_loop {S} (n : nat) (i : Z) (f : Z -> S -> res S) (s : S) : res S :=
  match n with
  | O => Ok s
  | Datatypes.S n' => s' ← f i s; for_loop n' (i + 1) f s'
  end.

(** [for (i = a; i < b; i++) f(i)] for a body that leaves [i] and [b] alone. *)
Definition for_range {S} (a b : Z) (f : Z -> S -> res S) (s : S) : res S :=
  for_loop (Z.to_nat (b - a)) a f s.

(** [while]: [body] answers [inl] to go round again and [inr] to leave. *)
Fixpoint while_loop {S R} (fuel : nat) (body : S -> res (S + R)) (s : S) : res R :=
  match fuel with
  | O => Fuel
  | Datatypes.S fuel' =>
      r ← body s;
      match r with
      | inl s' => while_loop fuel' body s'
      | inr r' => Ok r'
      end
  end.

(** ** Automation *)
Create HintDb os88.
Create Rewrite HintDb os88.

Ltac destruct_res :=
  match goal with
  | H : context [match ?r with Ok _ => _ | Undef => _ | Fuel => _ end] |- _ =>
      let E := fresh "E" in destruct r eqn:E; simpl in *; try discriminate
  | H : mbind _ ?r = Ok _ |- _ =>
      let E := fresh "E" in destruct r eqn:E; simpl in H; try discriminate
  end.

Ltac case_bool :=
  match goal with
  | |- context [if (?x =? ?y) then _ else _] => destruct (Z.eqb_spec x y)
  | |- context [if (?x <? ?y) then _ else _] => destruct (Z.ltb_spec x y)
  | |- context [if (?x <=? ?y) then _ else _] => destruct (Z.leb_spec x y)
  end.

(** Decide the comparisons of the goal that [lia] settles. *)
Ltac zbool :=
  repeat match goal with
  | |- context [?x =? ?y] =>
      first [rewrite (proj2 (Z.eqb_eq x y)) by lia | rewrite (proj2 (Z.eqb_neq x y)) by lia]
  | |- context [?x <? ?y] =>
      first [rewrite (proj2 (Z.ltb_lt x y)) by lia | rewrite (proj2 (Z.ltb_ge x y)) by lia]
  | |- context [?x <=? ?y] =>
      first [rewrite (proj2 (Z.leb_le x y)) by lia | rewrite (proj2 (Z.leb_gt x y)) by lia]
  end.

(** [lia] with the width of the machine types made explicit. *)
Ltac width_lia := unfold wrap, swrap in *; simpl (2 ^ _) in *; Z.div_mod_to_equations; lia.

(** ** Lemmas on outcomes *)
Lemma res_bind_ok {A B} (m : res A) (f : A -> res B) b :
  m ≫= f = Ok b -> exists a, m = Ok a /\ f a = Ok b.
Proof. destruct m; simpl; intros; try discriminate; eauto. Qed.

Lemma int32_ok x : - 2 ^ 31 <= x < 2 ^ 31 -> int32 x = Ok x.
Proof. intros. unfold int32. by rewrite decide_True. Qed.

Lemma int32_undef x : ~ (- 2 ^ 31 <= x < 2 ^ 31) -> int32 x = Undef.
Proof. intros. unfold int32. by rewrite decide_False. Qed.

Lemma int32_cases x : int32 x = Ok x \/ int32 x = Undef.
Proof. unfold int32. case_decide; auto. Qed.

(** ** Lemmas on machine integers *)
Lemma wrap_range w x : 0 <= w -> 0 <= wrap w x < 2 ^ w.
Proof. intros. apply Z.mod_pos_bound. by apply Z.pow_pos_nonneg. Qed.

Lemma wrap_small w x : 0 <= x < 2 ^ w -> wrap w x = x.
Proof. apply Z.mod_small. Qed.

Lemma wrap_idemp w x : wrap w (wrap w x) = wrap w x.
Proof. apply Zmod_mod. Qed.

Lemma wrap_add_l w x y : wrap w (wrap w x + y) = wrap w (x + y).
Proof. unfold wrap. by rewrite Zplus_mod_idemp_l. Qed.

Lemma wrap_land w x : 0 <= w -> wrap w x = Z.land x (Z.ones w).
Proof. intros. by rewrite Z.land_ones. Qed.

Lemma swrap_small w x : 0 < w -> - 2 ^ (w - 1) <= x < 2 ^ (w - 1) -> swrap w x = x.
Proof.
  intros Hw Hx. unfold swrap. rewrite Z.mod_small; [lia|].
  replace (2 ^ w) with (2 * 2 ^ (w - 1)); [lia|].
  rewrite <- Z.pow_succ_r by lia. f_equal. lia.
Qed.

Lemma swrap_wrap w x : wrap w (swrap w x) = wrap w x.
Proof.
  unfold wrap, swrap. rewrite Zminus_mod_idemp_l. f_equal. lia.
Qed.

(** A byte and the [char] it is read as determine each other. *)
Lemma s8_eq_iff b c :
  0 <= b < 256 -> s8 b = s8 c <-> b = u8 c.
Proof.
  intros Hb. split.
  - intros H. rewrite <- (wrap_small 8 b) by done.
    by rewrite <- swrap_wrap, H, swrap_wrap.
  - intros ->. unfold wrap, swrap. by rewrite Zplus_mod_idemp_l.
Qed.

Lemma s8_zero b : 0 <= b < 256 -> s8 b = 0 <-> b = 0.
Proof. intros. apply (s8_eq_iff b 0 H). Qed.

(** *** Packing two fields in a word *)
Lemma testbit_above n x i : 0 <= x < 2 ^ n -> 0 <= n <= i -> Z.testbit x i = false.
Proof.
  intros Hx Hi. rewrite <- (Z.mod_small x (2 ^ n)) by done.
  apply Z.mod_pow2_bits_high. lia.
Qed.

Lemma land_shiftl_disjoint n lo hi :
  0 <= n -> 0 <= lo < 2 ^ n -> Z.land lo (Z.shiftl hi n) = 0.
Proof.
  intros Hn Hlo. apply Z.bits_inj'. intros i Hi.
  rewrite Z.land_spec, Z.bits_0, Z.shiftl_spec by done.
  destruct (Z.lt_ge_cases i n).
  - by rewrite (Z.testbit_neg_r hi), andb_false_r by lia.
  - by rewrite (testbit_above n lo) by lia.
Qed.

Lemma lor_pack n lo hi :
  0 <= n -> 0 <= lo < 2 ^ n -> Z.lor lo (Z.shiftl hi n) = lo + hi * 2 ^ n.
Proof.
  intros Hn Hlo. pose proof (land_shiftl_disjoint n lo hi Hn Hlo) as H.
  rewrite <- Z.lxor_lor by done. rewrite <- Z.add_nocarry_lxor by done.
  by rewrite Z.shiftl_mul_pow2.
Qed.

Lemma unpack_lo n lo hi : 0 <= n -> 0 <= lo < 2 ^ n -> wrap n (lo + hi * 2 ^ n) = lo.
Proof.
  intros. unfold wrap. rewrite Z.mod_add by lia. by apply Z.mod_small.
Qed.

Lemma unpack_hi n lo hi : 0 <= n -> 0 <= lo < 2 ^ n -> Z.shiftr (lo + hi * 2 ^ n) n = hi.
Proof.
  intros. rewrite Z.shiftr_div_pow2, Z.div_add by lia. rewrite Z.div_small; lia.
Qed.

(** A decidable fact about the integers below a bound, by evaluation. *)
Lemma below_forallb (n : nat) (f : Z -> bool) :
  forallb (fun k => f (Z.of_nat k)) (seq 0 n) = true ->
  forall x, 0 <= x < Z.of_nat n -> f x = true.
Proof.
  intros H x Hx. rewrite forallb_forall in H.
  rewrite <- (Z2Nat.id x) by lia. apply H, in_seq. lia.
Qed.

(** ** Lemmas on loops *)
Lemma for_loop_inv {S} (P : Z -> S -> Prop) (f : Z -> S -> res S) n : forall i s,
  P i s ->
  (forall j s, i <= j < i + Z.of_nat n -> P j s ->
     exists s', f j s = Ok s' /\ P (j + 1) s') ->
  exists s', for_loop n i f s = Ok s' /\ P (i + Z.of_nat n) s'.
Proof.
  induction n as [|n IH]; intros i s Hi Hstep; simpl.
  - exists s. split; [done|]. by rewrite Z.add_0_r.
  - destruct (Hstep i s) as (s1 & -> & H1); [lia|done|]. simpl.
    destruct (IH (i + 1) s1 H1) as (s2 & -> & H2).
    { intros j s' Hj. apply Hstep. lia. }
    exists s2. split; [done|]. by replace (i + Z.of_nat (Datatypes.S n)) with (i + 1 + Z.of_nat n) by lia.
Qed.

Lemma for_range_inv {S} (P : Z -> S -> Prop) (f : Z -> S -> res S) a b s :
  a <= b ->
  P a s ->
  (forall j s, a <= j < b -> P j s -> exists s', f j s = Ok s' /\ P (j + 1) s') ->
  exists s', for_range a b f s = Ok s' /\ P b s'.
Proof.
  intros Hab Ha Hstep. unfold for_range.
  destruct (for_loop_inv P f (Z.to_nat (b - a)) a s Ha) as (s' & -> & H).
  - intros j s' Hj. apply Hstep. lia.
  - exists s'. split; [done|]. by replace (a + Z.of_nat (Z.to_nat (b - a))) with b in H by lia.
Qed.

Lemma for_range_empty {S} a b (f : Z -> S -> res S) s :
  b <= a -> for_range a b f s = Ok s.
Proof. intros. unfold for_range. by replace (Z.to_nat (b - a)) with O by lia. Qed.

Lemma for_range_step {S} a b (f : Z -> S -> res S) s :
  a < b -> for_range a b f s = (s' ← f a s; for_range (a + 1) b f s').
Proof.
  intros. unfold for_range.
  replace (Z.to_nat (b - a)) with (Datatypes.S (Z.to_nat (b - (a + 1)))) by lia. done.
Qed.

Lemma for_loop_split {S} (f : Z -> S -> res S) n k : forall i s,
  for_loop (n + k) i f s = (s' ← for_loop n i f s; for_loop k (i + Z.of_nat n) f s').
Proof.
  induction n as [|n IH]; intros i s; simpl; [by rewrite Z.add_0_r|].
  destruct (f i s) as [s1| |]; [|done..]. simpl. rewrite IH.
  by replace (i + 1 + Z.of_nat n) with (i + Z.of_nat (Datatypes.S n)) by lia.
Qed.

#[export] Hint Resolve wrap_range wrap_small : os88.
