(* ===== verification/Mem.v ===== *)
(** The byte-addressed memory the C code runs on.

    A [mem] holds the bytes of the allocated objects; an access at any other
    address has no defined behaviour.  [bytes_at], [cstring] and [write_list]
    are the views of a memory the component files state their theorems with. *)

From S2P Require Import Prelude.

Abbreviation mem := (gmap Z Z).

(** ** Accesses *)
Definition load8 (m : mem) (a : Z) : res Z :=
  match m !! a with Some b => Ok b | None => Undef end.

Definition store8 (m : mem) (a v : Z) : res mem :=
  match m !! a with Some _ => Ok (<[a := u8 v]> m) | None => Undef end.

(** A [char] is signed on the i386 targets of the build files. *)
Definition load_char (m : mem) (a : Z) : res Z := b ← load8 m a; Ok (s8 b).

Fixpoint store_le (n : nat) (m : mem) (a v : Z) : res mem :=
  match n with
  | O => Ok m
  | S n' => m' ← store8 m a v; store_le n' m' (a + 1) (Z.shiftr v 8)
  end.

Fixpoint load_le (n : nat) (m : mem) (a : Z) : res Z :=
  match n with
  | O => Ok 0
  | S n' => b ← load8 m a; r ← load_le n' m (a + 1); Ok (Z.lor b (Z.shiftl r 8))
  end.

(** A structure copied byte by byte. *)
Fixpoint store_bytes (m : mem) (a : Z) (l : list Z) : res mem :=
  match l with
  | [] => Ok m
  | b :: l' => m' ← store8 m a b; store_bytes m' (a + 1) l'
  end.

Fixpoint load_bytes (n : nat) (m : mem) (a : Z) : res (list Z) :=
  match n with
  | O => Ok []
  | S n' => b ← load8 m a; l ← load_bytes n' m (a + 1); Ok (b :: l)
  end.

(** [memset(p, v, n)], and [memcpy(dst, src, n)] between disjoint objects. *)
Definition memset (m : mem) (p v n : Z) : res mem := store_bytes m p (replicate (Z.to_nat n) v).

Definition memcpy (m : mem) (dst src n : Z) : res mem :=
  l ← load_bytes (Z.to_nat n) m src; store_bytes m dst l.

(** ** Views *)
Definition bytes_at (m : mem) (p : Z) (l : list Z) : Prop :=
  forall i b, l !! i = Some b -> m !! (p + Z.of_nat i) = Some b.

Definition cstring (m : mem) (p : Z) (s : list Z) : Prop :=
  Forall (fun b => 0 < b < 256) s /\ bytes_at m p (s ++ [0]).

(** [n] bytes are allocated from [p] on. *)
Definition mapped (m : mem) (p n : Z) : Prop :=
  forall i, 0 <= i < n -> is_Some (m !! (p + i)).

Fixpoint write_list (m : mem) (p : Z) (l : list Z) : mem :=
  match l with
  | [] => m
  | b :: l' => write_list (<[p := b]> m) (p + 1) l'
  end.

(** A memory holding exactly the bytes [l] at [p]. *)
Definition mem_of (p : Z) (l : list Z) : mem := write_list ∅ p l.

(** The bytes of an ASCII literal of the source. *)
Fixpoint str_bytes (s : String.string) : list Z :=
  match s with
  | String.EmptyString => []
  | String.String c s' => Z.of_N (Ascii.N_of_ascii c) :: str_bytes s'
  end.

(** The little-endian bytes of a word, and the word bytes denote. *)
Fixpoint le_bytes (n : nat) (v : Z) : list Z :=
  match n with
  | O => []
  | S n' => u8 v :: le_bytes n' (Z.shiftr v 8)
  end.

Fixpoint le_value (l : list Z) : Z :=
  match l with
  | [] => 0
  | b :: l' => Z.lor b (Z.shiftl (le_value l') 8)
  end.

(** [m'] is [m] with the bytes [l] at [p]. *)
Definition wrote (m m' : mem) (p : Z) (l : list Z) : Prop :=
  bytes_at m' p l /\ forall a, ~ (p <= a < p + Z.of_nat (length l)) -> m' !! a = m !! a.

(** Decision procedures, for concrete memories. *)
Fixpoint bytes_atb (m : mem) (p : Z) (l : list Z) : bool :=
  match l with
  | [] => true
  | b :: l' => bool_decide (m !! p = Some b) && bytes_atb m (p + 1) l'
  end.

Definition cstringb (m : mem) (p : Z) (s : list Z) : bool :=
  forallb (fun b => (0 <? b) && (b <? 256)) s && bytes_atb m p (s ++ [0]).

(** ** Arrays

    A global or local array of the source is the list of its elements; an
    access out of range is undefined. *)

Definition array_get (l : list Z) (i : Z) : res Z :=
  if 0 <=? i then match l !! Z.to_nat i with Some c => Ok c | None => Undef end else Undef.

Definition array_put (l : list Z) (i c : Z) : res (list Z) :=
  if (0 <=? i) && (i <? Z.of_nat (length l)) then Ok (<[Z.to_nat i := c]> l) else Undef.

(** [strcmp(a, b) == 0] for a terminated [a]: bytes are read up to the first
    difference or the end; running out of [b] is an access outside the array. *)
Fixpoint strcmp_eq (a b : list Z) : res bool :=
  match a with
  | [] => Undef
  | x :: a' =>
      match b with
      | [] => Undef
      | y :: b' => if x =? y then (if x =? 0 then Ok true else strcmp_eq a' b') else Ok false
      end
  end.

(** ** Lemmas *)
Lemma load8_ok m a b : m !! a = Some b -> load8 m a = Ok b.
Proof. unfold load8. by intros ->. Qed.

Lemma load8_undef m a : m !! a = None -> load8 m a = Undef.
Proof. unfold load8. by intros ->. Qed.

Lemma store8_ok m a v : is_Some (m !! a) -> store8 m a v = Ok (<[a := u8 v]> m).
Proof. unfold store8. by intros [b ->]. Qed.

Lemma store8_undef m a v : m !! a = None -> store8 m a v = Undef.
Proof. unfold store8. by intros ->. Qed.

Lemma load_char_ok m a b : m !! a = Some b -> load_char m a = Ok (s8 b).
Proof. intros H. unfold load_char. by rewrite (load8_ok _ _ _ H). Qed.

Lemma load_char_undef m a : m !! a = None -> load_char m a = Undef.
Proof. intros H. unfold load_char. by rewrite (load8_undef _ _ H). Qed.

Lemma bytes_at_cons m p b l :
  bytes_at m p (b :: l) <-> m !! p = Some b /\ bytes_at m (p + 1) l.
Proof.
  split.
  - intros H. split.
    + rewrite <- (Z.add_0_r p). by apply (H 0%nat).
    + intros i c Hi. replace (p + 1 + Z.of_nat i) with (p + Z.of_nat (S i)) by lia.
      by apply H.
  - intros [H0 Hl] [|i] c Hi; simpl in Hi.
    + rewrite Z.add_0_r. congruence.
    + replace (p + Z.of_nat (S i)) with (p + 1 + Z.of_nat i) by lia. by apply Hl.
Qed.

Lemma bytes_at_app m p l1 l2 :
  bytes_at m p (l1 ++ l2) <-> bytes_at m p l1 /\ bytes_at m (p + Z.of_nat (length l1)) l2.
Proof.
  revert p. induction l1 as [|b l1 IH]; intros p.
  - rewrite Z.add_0_r. split; [|by intros [_ ?]]. intros H. split; [|done]. intros i c Hi.
    by rewrite lookup_nil in Hi.
  - rewrite <- app_comm_cons, !bytes_at_cons, IH. simpl.
    replace (p + 1 + Z.of_nat (length l1)) with (p + Z.of_nat (S (length l1))) by lia.
    tauto.
Qed.

Lemma cstring_nil m p : cstring m p [] <-> m !! p = Some 0.
Proof.
  unfold cstring. split.
  - intros [_ H]. rewrite <- (Z.add_0_r p). by apply (H 0%nat).
  - intros H. split; [constructor|]. apply bytes_at_cons. split; [done|].
    intros i c Hi. by rewrite lookup_nil in Hi.
Qed.

Lemma cstring_cons m p b s :
  cstring m p (b :: s) <-> 0 < b < 256 /\ m !! p = Some b /\ cstring m (p + 1) s.
Proof.
  unfold cstring. rewrite <- app_comm_cons, bytes_at_cons, list.Forall_cons. tauto.
Qed.

Lemma cstring_range m p s b : cstring m p s -> b ∈ s -> 0 < b < 256.
Proof. intros [H _] Hb. rewrite list.Forall_forall in H. auto. Qed.


Lemma write_list_lookup_ne m p l a :
  ~ (p <= a < p + Z.of_nat (length l)) -> write_list m p l !! a = m !! a.
Proof.
  revert m p. induction l as [|b l IH]; intros m p Ha; simpl in *; [done|].
  rewrite IH by lia. rewrite lookup_insert_ne; [done|lia].
Qed.

Lemma write_list_lookup m p l i b :
  l !! i = Some b -> write_list m p l !! (p + Z.of_nat i) = Some b.
Proof.
  revert m p i. induction l as [|c l IH]; intros m p i Hi; [by rewrite lookup_nil in Hi|].
  destruct i as [|i]; simpl in *.
  - rewrite write_list_lookup_ne by lia. rewrite Z.add_0_r, lookup_insert_eq. done.
  - replace (p + Z.of_nat (S i)) with (p + 1 + Z.of_nat i) by lia. by apply IH.
Qed.

Lemma write_list_bytes_at m p l : bytes_at (write_list m p l) p l.
Proof. intros i b Hi. by apply write_list_lookup. Qed.

(** The bytes at [p] are as many distinct allocated addresses. *)
Lemma bytes_at_size m p l : bytes_at m p l -> (length l <= size m)%nat.
Proof.
  revert m p. induction l as [|b l IH]; intros m p H; simpl; [lia|].
  apply bytes_at_cons in H as [Hp Hl].
  assert (size m = S (size (delete p m))) as ->.
  { rewrite map_size_delete_Some by eauto. pose proof (map_size_ne_0_lookup_2 m p).
    assert (size m ≠ 0%nat) by eauto. lia. }
  apply le_n_S, (IH _ (p + 1)). intros i c Hi. rewrite lookup_delete_ne by lia. by apply Hl.
Qed.

Lemma cstring_size m p s : cstring m p s -> (length s < size m)%nat.
Proof.
  intros [_ H]. apply bytes_at_size in H. rewrite length_app in H. simpl in H. lia.
Qed.

(** Writing inside or outside a string's bytes. *)
Lemma bytes_at_insert_ne m p l a v :
  ~ (p <= a < p + Z.of_nat (length l)) -> bytes_at m p l -> bytes_at (<[a := v]> m) p l.
Proof.
  intros Ha H i b Hi. apply lookup_lt_Some in Hi as Hlt.
  rewrite lookup_insert_ne by lia. by apply H.
Qed.

Lemma cstring_insert_below m p s a v :
  a < p -> cstring m p s -> cstring (<[a := v]> m) p s.
Proof. intros Ha [Hs H]. split; [done|]. apply bytes_at_insert_ne; [lia|done]. Qed.

Lemma cstring_char m p b s :
  cstring m p (b :: s) -> load_char m p = Ok (s8 b) /\ (s8 b =? 0) = false.
Proof.
  intros [Hb [Hp _]]%cstring_cons. split; [by apply load_char_ok|].
  apply Z.eqb_neq. rewrite s8_zero; lia.
Qed.

Lemma cstring_end m p : cstring m p [] -> load_char m p = Ok 0.
Proof. intros H%cstring_nil. by rewrite (load_char_ok _ _ _ H). Qed.

Lemma cstring_tail m p b s : cstring m p (b :: s) -> cstring m (p + 1) s.
Proof. intros H. apply cstring_cons in H. tauto. Qed.

(** The bytes of a string from its [k]-th one on. *)
Lemma cstring_drop m p s k :
  (k <= length s)%nat -> cstring m p s -> cstring m (p + Z.of_nat k) (drop k s).
Proof.
  revert p s. induction k as [|k IH]; intros p s Hk H.
  - by rewrite Z.add_0_r.
  - destruct s as [|b s]; simpl in *; [lia|].
    replace (p + Z.of_nat (S k)) with (p + 1 + Z.of_nat k) by lia.
    apply IH; [lia|]. by apply (cstring_tail _ _ b).
Qed.

Lemma write_list_app m p l1 l2 :
  write_list m p (l1 ++ l2) = write_list (write_list m p l1) (p + Z.of_nat (length l1)) l2.
Proof.
  revert m p. induction l1 as [|b l1 IH]; intros m p; simpl.
  - by rewrite Z.add_0_r.
  - rewrite IH. f_equal. lia.
Qed.

Lemma bytes_at_mapped m p l : bytes_at m p l -> mapped m p (Z.of_nat (length l)).
Proof.
  intros H i Hi. destruct (lookup_lt_is_Some_2 l (Z.to_nat i)) as [b Hb]; [lia|].
  exists b. rewrite <- (H _ _ Hb). f_equal. lia.
Qed.

Lemma mem_of_cstring p s :
  Forall (fun b => 0 < b < 256) s -> cstring (mem_of p (s ++ [0])) p s.
Proof. intros. split; [done|]. apply write_list_bytes_at. Qed.

Lemma le_bytes_length n v : length (le_bytes n v) = n.
Proof. revert v. induction n as [|n IH]; intros v; simpl; [done|by rewrite IH]. Qed.

Lemma le_value_le_bytes n : forall v, le_value (le_bytes n v) = v mod 2 ^ (8 * Z.of_nat n).
Proof.
  induction n as [|n IH]; intros v; simpl; [by rewrite Z.mod_1_r|].
  rewrite IH, lor_pack by (done || by apply wrap_range).
  replace (8 * Z.of_nat (S n)) with (8 + 8 * Z.of_nat n) by lia.
  rewrite Z.pow_add_r, Z.rem_mul_r by lia. rewrite Z.shiftr_div_pow2 by lia.
  unfold wrap. lia.
Qed.

Lemma load_le_ok m p l : bytes_at m p l -> load_le (length l) m p = Ok (le_value l).
Proof.
  revert p. induction l as [|b l IH]; intros p H; simpl; [done|].
  apply bytes_at_cons in H as [Hb Hl]. rewrite (load8_ok _ _ _ Hb). simpl.
  by rewrite (IH _ Hl).
Qed.

Lemma load_le_word m p n v :
  bytes_at m p (le_bytes n v) -> load_le n m p = Ok (v mod 2 ^ (8 * Z.of_nat n)).
Proof.
  intros H. apply load_le_ok in H. rewrite le_bytes_length in H.
  by rewrite H, le_value_le_bytes.
Qed.

Lemma wrote_refl m p : wrote m m p [].
Proof. split; [|done]. intros i b Hi. by rewrite lookup_nil in Hi. Qed.

Lemma wrote_write_list m p l : wrote m (write_list m p l) p l.
Proof. split; [apply write_list_bytes_at|]. intros a Ha. by apply write_list_lookup_ne. Qed.

(** What was written elsewhere stays. *)
Lemma wrote_bytes_at m m' p l q l' :
  wrote m m' p l ->
  q + Z.of_nat (length l') <= p \/ p + Z.of_nat (length l) <= q ->
  bytes_at m q l' -> bytes_at m' q l'.
Proof.
  intros [_ H] Hd Hb i b Hi. apply lookup_lt_Some in Hi as Hlt. rewrite H by lia. by apply Hb.
Qed.

Lemma wrote_mapped m m' p l q n : wrote m m' p l -> mapped m q n -> mapped m' q n.
Proof.
  intros [Hin Hout] Hm i Hi. destruct (decide (p <= q + i < p + Z.of_nat (length l))) as [Hr|Hr].
  - apply bytes_at_mapped in Hin. specialize (Hin (q + i - p) ltac:(lia)).
    by replace (p + (q + i - p)) with (q + i) in Hin by lia.
  - rewrite Hout by done. by apply Hm.
Qed.

Lemma mapped_sub m p n q k : mapped m p n -> p <= q -> q + k <= p + n -> mapped m q k.
Proof.
  intros H H1 H2 i Hi. replace (q + i) with (p + (q - p + i)) by lia. apply H. lia.
Qed.

(** Two adjacent pieces, written in either order. *)
Lemma wrote_app m m1 m2 p l1 l2 :
  wrote m m1 p l1 -> wrote m1 m2 (p + Z.of_nat (length l1)) l2 -> wrote m m2 p (l1 ++ l2).
Proof.
  intros H1 H2. split.
  - apply bytes_at_app. split; [|apply H2]. apply (wrote_bytes_at _ _ _ _ _ _ H2); [lia|apply H1].
  - intros a Ha. rewrite length_app in Ha. destruct H1 as [_ H1], H2 as [_ H2].
    rewrite H2, H1 by lia. done.
Qed.

Lemma store_le_wrote n : forall m p v,
  mapped m p (Z.of_nat n) ->
  exists m', store_le n m p v = Ok m' /\ wrote m m' p (le_bytes n v).
Proof.
  induction n as [|n IH]; intros m p v Hm; simpl; [exists m; split; [done|apply wrote_refl]|].
  rewrite store8_ok.
  - simpl. destruct (IH (<[p := u8 v]> m) (p + 1) (Z.shiftr v 8)) as (m' & -> & Hw).
    + apply (wrote_mapped m _ p [u8 v]); [apply (wrote_write_list m p [u8 v])|].
      eapply mapped_sub; eauto; lia.
    + exists m'. split; [done|].
      apply (wrote_app m (<[p := u8 v]> m) m' p [u8 v]); [apply (wrote_write_list m p [u8 v])|done].
  - rewrite <- (Z.add_0_r p). apply Hm. lia.
Qed.

Lemma store_bytes_wrote l : forall m p,
  mapped m p (Z.of_nat (length l)) ->
  exists m', store_bytes m p l = Ok m' /\ wrote m m' p (map u8 l).
Proof.
  induction l as [|b l IH]; intros m p Hm; simpl; [exists m; split; [done|apply wrote_refl]|].
  simpl in Hm. rewrite store8_ok.
  - simpl. destruct (IH (<[p := u8 b]> m) (p + 1)) as (m' & -> & Hw).
    + apply (wrote_mapped m _ p [u8 b]); [apply (wrote_write_list m p [u8 b])|].
      eapply mapped_sub; eauto; lia.
    + exists m'. split; [done|].
      apply (wrote_app m (<[p := u8 b]> m) m' p [u8 b]); [apply (wrote_write_list m p [u8 b])|done].
  - rewrite <- (Z.add_0_r p). apply Hm. lia.
Qed.

Lemma load_bytes_ok m l : forall p, bytes_at m p l -> load_bytes (length l) m p = Ok l.
Proof.
  induction l as [|b l IH]; intros p Hl; [done|]. apply bytes_at_cons in Hl as [Hb Hl].
  simpl. rewrite (load8_ok _ _ b) by done. simpl. by rewrite IH.
Qed.

Lemma memset_wrote m p v n :
  0 <= n -> mapped m p n -> exists m', memset m p v n = Ok m' /\ wrote m m' p (replicate (Z.to_nat n) (u8 v)).
Proof.
  intros Hn Hm. unfold memset.
  destruct (store_bytes_wrote (replicate (Z.to_nat n) v) m p) as (m' & E & Hw).
  - by rewrite length_replicate, Z2Nat.id.
  - exists m'. split; [done|]. by rewrite <- (fmap_replicate u8).
Qed.

Lemma memcpy_wrote m dst src l :
  bytes_at m src l -> Forall (fun b => 0 <= b < 256) l -> mapped m dst (Z.of_nat (length l)) ->
  exists m', memcpy m dst src (Z.of_nat (length l)) = Ok m' /\ wrote m m' dst l.
Proof.
  intros Hl Hb Hm. unfold memcpy. rewrite Nat2Z.id, load_bytes_ok by done. simpl.
  destruct (store_bytes_wrote l m dst Hm) as (m' & E & Hw). exists m'. split; [done|].
  replace l with (map u8 l) at 1; [done|]. etransitivity; [|apply map_id].
  apply map_ext_in. intros b Hin%list_elem_of_In. rewrite list.Forall_forall in Hb.
  apply wrap_small. apply (Hb b Hin).
Qed.

Lemma load_le_ext n m m' a :
  (forall x, a <= x < a + Z.of_nat n -> m' !! x = m !! x) -> load_le n m' a = load_le n m a.
Proof.
  revert a. induction n as [|n IH]; intros a H; simpl; [done|].
  unfold load8. rewrite H by lia. rewrite IH; [done|]. intros x Hx. apply H. lia.
Qed.

#[export] Hint Resolve cstring_tail cstring_insert_below write_list_bytes_at : os88.

Lemma bytes_atb_true m p l : bytes_atb m p l = true -> bytes_at m p l.
Proof.
  revert p. induction l as [|b l IH]; intros p H.
  - intros i c Hi. by rewrite lookup_nil in Hi.
  - simpl in H. apply andb_prop in H as [H1 H2]. apply bool_decide_eq_true in H1.
    apply bytes_at_cons. auto.
Qed.

Lemma cstringb_true m p s : cstringb m p s = true -> cstring m p s.
Proof.
  intros [H1 H2]%andb_prop. split; [|by apply bytes_atb_true].
  rewrite forallb_forall in H1. apply List.Forall_forall. intros b Hb.
  specialize (H1 b Hb). lia.
Qed.
#[global] Arguments store_le : simpl never.
#[global] Arguments load_le : simpl never.
#[global] Arguments store_bytes : simpl never.
#[global] Arguments le_bytes : simpl never.
#[global] Arguments str_bytes : simpl never.

(** ** Lemmas on arrays *)
Lemma array_get_ok l i c : 0 <= i -> l !! Z.to_nat i = Some c -> array_get l i = Ok c.
Proof. intros Hi Hc. unfold array_get. zbool. by rewrite Hc. Qed.

Lemma array_get_out l i : Z.of_nat (length l) <= i -> array_get l i = Undef.
Proof. intros Hi. unfold array_get. zbool. by rewrite lookup_ge_None_2 by lia. Qed.

Lemma array_put_ok l i c :
  0 <= i < Z.of_nat (length l) -> array_put l i c = Ok (<[Z.to_nat i := c]> l).
Proof. intros Hi. unfold array_put. by zbool. Qed.

Lemma array_put_out l i c : Z.of_nat (length l) <= i -> array_put l i c = Undef.
Proof. intros Hi. unfold array_put. zbool. by rewrite andb_false_r. Qed.

(** Comparing a literal with a terminated array decides their equality. *)
Lemma strcmp_eq_array (w s rest : list Z) :
  Forall (fun c => c <> 0) w -> Forall (fun c => c <> 0) s ->
  strcmp_eq (w ++ [0]) (s ++ 0 :: rest) = Ok (bool_decide (w = s)).
Proof.
  intros Hw. revert s. induction Hw as [|x w Hx Hw IH]; intros s Hs; destruct Hs as [|y s Hy Hs]; simpl.
  - done.
  - by rewrite (proj2 (Z.eqb_neq 0 y)) by congruence.
  - by rewrite (proj2 (Z.eqb_neq x 0)) by done.
  - destruct (Z.eqb_spec x y) as [->|Hne].
    + rewrite (proj2 (Z.eqb_neq y 0)), IH by done. f_equal.
      apply bool_decide_ext. split; [by intros ->|by intros [=]].
    + rewrite bool_decide_false; [done|]. by intros [=].
Qed.
