(* ===== verification/CString.v ===== *)
(** [lib/string.c]: the kernel's C string routines.

    Every routine reads and writes the memory it is given, as in the source.
    A loop is bounded by the number of allocated bytes: each round reads a byte
    further from the start than the last one, so a loop that is still running
    after [size m] rounds has left the allocated memory.  [size_t] is the 32-bit
    unsigned type of the i386 build.  Missing semicolons of the source are read
    as present. *)

From S2P Require Import Prelude Mem.

(** ** Definitions *)

Fixpoint strlen_loop (fuel : nat) (m : mem) (str i : Z) : res Z :=
  match fuel with
  | O => Fuel
  | S fuel' =>
      c ← load_char m (str + i);
      if c =? 0 then Ok i else strlen_loop fuel' m str (u32 (i + 1))
  end.

Definition strlen (m : mem) (str : Z) : res Z := strlen_loop (S (size m)) m str 0.

(** [k = (k<<3)+(k<<1)+( *str)-'0']: [int] arithmetic, each operation checked. *)
Definition atoi_step (k c : Z) : res Z :=
  a ← (if k <? 0 then Undef else int32 (Z.shiftl k 3));
  b ← int32 (Z.shiftl k 1);
  ab ← int32 (a + b);
  abc ← int32 (ab + c);
  int32 (abc - 48).

Fixpoint atoi_loop (fuel : nat) (m : mem) (str k : Z) : res Z :=
  match fuel with
  | O => Fuel
  | S fuel' =>
      c ← load_char m str;
      if c =? 0 then Ok k
      else k' ← atoi_step k c; atoi_loop fuel' m (str + 1) k'
  end.

(** The value stored through the pointer argument [a]. *)
Definition atoi (m : mem) (str : Z) : res Z := atoi_loop (S (size m)) m str 0.

Fixpoint strcrl_loop (fuel : nat) (m : mem) (str what with_ i : Z) : res (Z * mem) :=
  match fuel with
  | O => Fuel
  | S fuel' =>
      c ← load_char m (str + i);
      if c =? 0 then Ok (i, m)
      else
        m' ← (if c =? what then store8 m (str + i) with_ else Ok m);
        strcrl_loop fuel' m' str what with_ (u32 (i + 1))
  end.

Definition strcrl (m : mem) (str what with_ : Z) : res (Z * mem) :=
  strcrl_loop (S (size m)) m str what with_ 0.

(** [while ( *str-- ) if ( *str == c) i++]: the pointer moves down. *)
Fixpoint strcount_loop (fuel : nat) (m : mem) (str c i : Z) : res Z :=
  match fuel with
  | O => Fuel
  | S fuel' =>
      b ← load_char m str;
      if b =? 0 then Ok i
      else
        b' ← load_char m (str - 1);
        strcount_loop fuel' m (str - 1) c (if b' =? c then u32 (i + 1) else i)
  end.

Definition strcount (m : mem) (str c : Z) : res Z := strcount_loop (S (size m)) m str c 0.

(** The value is [None] where control runs off the end of the function.  The
    body of the [while] returns on both paths, so it runs at most once. *)
Definition str_backspace (m : mem) (str c : Z) : res (option Z * mem) :=
  n ← strlen m str;
  let i := u32 (n - 1) in
  if i =? 0 then Ok (None, m)
  else
    let i := u32 (i - 1) in
    b ← load_char m (str + i);
    if b =? c then
      m' ← store8 m (str + u32 (i + 1)) 0;
      Ok (Some 1, m')
    else Ok (Some 0, m).

Fixpoint strsplit_loop (fuel : nat) (m : mem) (str delim n i : Z) : res (Z * mem) :=
  match fuel with
  | O => Fuel
  | S fuel' =>
      c ← load_char m (str + i);
      if c =? 0 then Ok (u32 (n + 1), m)
      else if c =? delim then
        m' ← store8 m (str + i) 0;
        strsplit_loop fuel' m' str delim (u32 (n + 1)) (u32 (i + 1))
      else strsplit_loop fuel' m str delim n (u32 (i + 1))
  end.

Definition strsplit (m : mem) (str delim : Z) : res (Z * mem) :=
  strsplit_loop (S (size m)) m str delim 0 0.

Fixpoint str_begins_with_loop (fuel : nat) (m : mem) (str with_ i j : Z) : res Z :=
  match fuel with
  | O => Fuel
  | S fuel' =>
      w ← load_char m (with_ + j);
      if w =? 0 then Ok 1
      else
        a ← load_char m (str + i);
        b ← load_char m (with_ + i);
        if negb (a =? b) then Ok 0
        else str_begins_with_loop fuel' m str with_ (u32 (i + 1)) (u32 (j - 1))
  end.

Definition str_begins_with (m : mem) (str with_ : Z) : res Z :=
  j ← strlen m with_;
  str_begins_with_loop (S (size m)) m str with_ 0 j.

Fixpoint strcmp_loop (fuel : nat) (m : mem) (str1 str2 : Z) : res Z :=
  match fuel with
  | O => Fuel
  | S fuel' =>
      a ← load8 m str1;
      b ← load8 m str2;
      let r := u32 (a - b) in
      if negb (r =? 0) then Ok r
      else
        b' ← load_char m str2;
        if b' =? 0 then Ok r else strcmp_loop fuel' m (str1 + 1) (str2 + 1)
  end.

Definition strcmp (m : mem) (str1 str2 : Z) : res Z := strcmp_loop (S (size m)) m str1 str2.

(** [strcmp(p, "...") == 0] for a literal [w]: where the literal is stored does
    not matter. *)
Fixpoint strcmp_lit (m : mem) (p : Z) (w : list Z) : res bool :=
  a ← load8 m p;
  match w with
  | [] => Ok (a =? 0)
  | c :: w' => if a =? c then strcmp_lit m (p + 1) w' else Ok false
  end.

(** ** Reference definitions *)

(** The value of a list of ASCII digits, most significant first. *)
Definition dec_value (ds : list Z) : Z := fold_left (fun k c => 10 * k + (c - 48)) ds 0.

(** [strcrl] and [strsplit] rewrite each byte of the string on its own. *)
Definition subst_char (what with_ : Z) (b : Z) : Z := if s8 b =? what then u8 with_ else b.

Definition count_char (c : Z) (s : list Z) : Z :=
  Z.of_nat (length (filter (fun b => s8 b = c) s)).

(** The difference of the first bytes two terminated strings differ at. *)
Fixpoint diff_at (s1 s2 : list Z) : Z :=
  match s1, s2 with
  | [], [] => 0
  | [], b :: _ => - b
  | a :: _, [] => a
  | a :: s1', b :: s2' => if a =? b then diff_at s1' s2' else a - b
  end.

(** The fields of a string cut at every [delim]; there is always at least one. *)
Fixpoint fields (delim : Z) (s : list Z) : list (list Z) :=
  match s with
  | [] => [[]]
  | b :: s' =>
      if s8 b =? delim then [] :: fields delim s'
      else match fields delim s' with
           | f :: fs => (b :: f) :: fs
           | [] => [[b]]
           end
  end.

(** Strings laid out one after the other, each with its terminator. *)
Fixpoint cstrings (m : mem) (p : Z) (fs : list (list Z)) : Prop :=
  match fs with
  | [] => True
  | f :: fs' => cstring m p f /\ cstrings m (p + Z.of_nat (length f) + 1) fs'
  end.

Definition is_digit (c : Z) : Prop := 48 <= c <= 57.

(** ** Lemmas *)

Lemma strlen_loop_ok m str s : forall fuel i,
  (length s < fuel)%nat -> 0 <= i -> i + Z.of_nat (length s) < 2 ^ 32 ->
  cstring m (str + i) s ->
  strlen_loop fuel m str i = Ok (i + Z.of_nat (length s)).
Proof.
  induction s as [|b s IH]; intros [|fuel] i Hf Hi Hlen Hs; simpl in *; try lia.
  - rewrite (cstring_end _ _ Hs). simpl. f_equal. lia.
  - destruct (cstring_char _ _ _ _ Hs) as [-> Hb]. simpl. rewrite Hb.
    rewrite wrap_small by lia. rewrite IH; try lia; [f_equal; lia|].
    rewrite Z.add_assoc. eauto with os88.
Qed.

Lemma strlen_ok m str s :
  Z.of_nat (length s) < 2 ^ 32 -> cstring m str s -> strlen m str = Ok (Z.of_nat (length s)).
Proof.
  intros Hlen Hs. pose proof (cstring_size _ _ _ Hs).
  unfold strlen. rewrite (strlen_loop_ok _ _ s); try lia; [done|]. by rewrite Z.add_0_r.
Qed.

Lemma u32_sub_zero a b : 0 <= a < 256 -> 0 <= b < 256 -> (u32 (a - b) =? 0) = (a =? b).
Proof.
  intros. apply eq_true_iff_eq. rewrite !Z.eqb_eq. unfold wrap.
  destruct (decide (a < b)).
  - replace ((a - b) mod 2 ^ 32) with (a - b + 2 ^ 32); [lia|].
    apply Zmod_unique with (-1); lia.
  - rewrite Z.mod_small by lia. lia.
Qed.

(** One round of [strcmp] on the first bytes of two strings. *)
Definition head_byte (s : list Z) : Z := match s with [] => 0 | b :: _ => b end.

Lemma cstring_head m p s : cstring m p s -> load8 m p = Ok (head_byte s) /\ 0 <= head_byte s < 256.
Proof.
  destruct s as [|b s]; simpl; intros H.
  - apply cstring_nil in H. split; [by apply load8_ok|lia].
  - apply cstring_cons in H as (Hb & Hp & _). split; [by apply load8_ok|lia].
Qed.

Lemma strcmp_loop_ok m s1 : forall fuel p1 p2 s2,
  (length s1 < fuel)%nat -> cstring m p1 s1 -> cstring m p2 s2 ->
  strcmp_loop fuel m p1 p2 = Ok (u32 (diff_at s1 s2)).
Proof.
  induction s1 as [|a s1 IH]; intros [|fuel] p1 p2 s2 Hf H1 H2; simpl in *; try lia;
    destruct (cstring_head _ _ _ H1) as [E1 R1]; destruct (cstring_head _ _ _ H2) as [E2 R2];
    rewrite E1, E2; simpl; rewrite u32_sub_zero by done;
    unfold load_char; rewrite E2; simpl; destruct s2 as [|b s2]; simpl in *; try done.
  - apply cstring_cons in H2 as [Hb _].
    replace (0 =? b) with false by lia. by rewrite Z.sub_0_l.
  - apply cstring_cons in H1 as [Ha _].
    replace (a =? 0) with false by lia. by rewrite Z.sub_0_r.
  - destruct (a =? b) eqn:E; simpl; [|done].
    destruct (cstring_char _ _ _ _ H2) as [_ ->]. apply IH; [lia|eauto with os88..].
Qed.

Lemma diff_at_zero s1 s2 :
  Forall (fun b => 0 < b < 256) s1 -> Forall (fun b => 0 < b < 256) s2 ->
  (diff_at s1 s2 = 0 <-> s1 = s2) /\ - 256 < diff_at s1 s2 < 256.
Proof.
  revert s2. induction s1 as [|a s1 IH]; intros [|b s2] H1 H2; simpl.
  - done.
  - apply list.Forall_cons in H2 as [Hb _]. split; [|lia]. split; [lia|done].
  - apply list.Forall_cons in H1 as [Ha _]. split; [|lia]. split; [lia|done].
  - apply list.Forall_cons in H1 as [Ha H1]. apply list.Forall_cons in H2 as [Hb H2].
    destruct (IH s2 H1 H2) as [IHe IHr]. destruct (Z.eqb_spec a b) as [->|Hne].
    + split; [|done]. rewrite IHe. split; congruence.
    + split; [|lia]. split; [lia|congruence].
Qed.

Lemma strcmp_ok m p1 p2 s1 s2 :
  cstring m p1 s1 -> cstring m p2 s2 -> strcmp m p1 p2 = Ok (u32 (diff_at s1 s2)).
Proof.
  intros H1 H2. apply (strcmp_loop_ok m s1 _ p1 p2 s2); [|done|done].
  pose proof (cstring_size _ _ _ H1). lia.
Qed.

Lemma strcmp_zero m p1 p2 s1 s2 :
  cstring m p1 s1 -> cstring m p2 s2 ->
  exists r, strcmp m p1 p2 = Ok r /\ (r = 0 <-> s1 = s2).
Proof.
  intros H1 H2. exists (u32 (diff_at s1 s2)). split; [by apply strcmp_ok|].
  destruct (diff_at_zero s1 s2 (proj1 H1) (proj1 H2)) as [<- Hr].
  unfold wrap. destruct (decide (0 <= diff_at s1 s2)).
  - rewrite Z.mod_small by lia. done.
  - rewrite <- (Z.mod_add _ 1) by lia. rewrite Z.mod_small; lia.
Qed.

Lemma atoi_step_digit k c :
  0 <= k -> is_digit c ->
  atoi_step k c = if decide (10 * k + c < 2 ^ 31) then Ok (10 * k + (c - 48)) else Undef.
Proof.
  unfold is_digit. intros Hk Hc. unfold atoi_step.
  replace (k <? 0) with false by lia.
  rewrite !Z.shiftl_mul_pow2 by lia. unfold int32.
  repeat (case_decide; simpl; try lia); try done.
  f_equal. lia.
Qed.

Lemma dec_from_mono ds k :
  0 <= k -> Forall is_digit ds ->
  k <= fold_left (fun k c => 10 * k + (c - 48)) ds k.
Proof.
  revert k. induction ds as [|c ds IH]; intros k Hk Hd; simpl; [lia|].
  apply list.Forall_cons in Hd as [Hc Hd]. unfold is_digit in Hc.
  specialize (IH (10 * k + (c - 48)) ltac:(lia) Hd). lia.
Qed.

Lemma atoi_loop_ok m ds : forall fuel p k,
  (length ds < fuel)%nat -> 0 <= k -> k + 48 < 2 ^ 31 ->
  Forall is_digit ds -> cstring m p ds ->
  let v := fold_left (fun k c => 10 * k + (c - 48)) ds k in
  atoi_loop fuel m p k = if decide (v + 48 < 2 ^ 31) then Ok v else Undef.
Proof.
  induction ds as [|c ds IH]; intros [|fuel] p k Hf Hk Hk' Hd Hs; simpl in *; try lia.
  - rewrite (cstring_end _ _ Hs). simpl. by rewrite decide_True by lia.
  - apply list.Forall_cons in Hd as [Hc Hd].
    destruct (cstring_char _ _ _ _ Hs) as [-> Hb]. simpl. rewrite Hb.
    rewrite swrap_small by (unfold is_digit in Hc; lia).
    rewrite atoi_step_digit by done. unfold is_digit in Hc.
    pose proof (dec_from_mono ds (10 * k + (c - 48)) ltac:(lia) Hd).
    case_decide; simpl; [|by rewrite decide_False by lia].
    apply IH; try done; try lia. eauto with os88.
Qed.

(** Rewriting a byte of a string with itself or with its substitute. *)
Lemma subst_char_step (m : mem) p b what with_ :
  m !! p = Some b ->
  (if s8 b =? what then <[p := u8 with_]> m else m) = <[p := subst_char what with_ b]> m.
Proof. intros H. unfold subst_char. destruct (_ =? _); [done|]. by rewrite insert_id. Qed.

Lemma strcrl_loop_ok str what with_ s : forall fuel m i,
  (length s < fuel)%nat -> 0 <= i -> i + Z.of_nat (length s) < 2 ^ 32 ->
  cstring m (str + i) s ->
  strcrl_loop fuel m str what with_ i =
    Ok (i + Z.of_nat (length s), write_list m (str + i) (map (subst_char what with_) s)).
Proof.
  induction s as [|b s IH]; intros [|fuel] m i Hf Hi Hlen Hs; simpl in *; try lia.
  - rewrite (cstring_end _ _ Hs). simpl. do 2 f_equal. lia.
  - destruct (cstring_char _ _ _ _ Hs) as [-> Hb]. simpl. rewrite Hb.
    pose proof (proj1 (cstring_cons _ _ _ _) Hs) as (_ & Hp & Ht).
    rewrite <- (subst_char_step m _ b what with_ Hp). rewrite wrap_small by lia.
    destruct (s8 b =? what); rewrite ?store8_ok by eauto; simpl;
      (rewrite IH; [|lia..|rewrite Z.add_assoc]);
      rewrite ?Z.add_assoc; eauto with os88; do 2 f_equal; try lia.
    apply cstring_insert_below; [lia|done].
Qed.

Lemma strcrl_ok m str what with_ s :
  Z.of_nat (length s) < 2 ^ 32 -> cstring m str s ->
  strcrl m str what with_ =
    Ok (Z.of_nat (length s), write_list m str (map (subst_char what with_) s)).
Proof.
  intros Hl Hs. pose proof (cstring_size _ _ _ Hs). unfold strcrl.
  rewrite (strcrl_loop_ok _ _ _ s); rewrite ?Z.add_0_r; try lia; done.
Qed.

Lemma strsplit_loop_ok str delim s : forall fuel m n i,
  (length s < fuel)%nat -> 0 <= i -> i + Z.of_nat (length s) < 2 ^ 32 - 1 ->
  0 <= n <= i ->
  cstring m (str + i) s ->
  strsplit_loop fuel m str delim n i =
    Ok (n + count_char delim s + 1, write_list m (str + i) (map (subst_char delim 0) s)).
Proof.
  induction s as [|b s IH]; intros [|fuel] m n i Hf Hi Hlen Hn Hs; simpl in *; try lia.
  - rewrite (cstring_end _ _ Hs). simpl. rewrite wrap_small by lia.
    unfold count_char. simpl. do 2 f_equal. lia.
  - destruct (cstring_char _ _ _ _ Hs) as [-> Hb]. simpl. rewrite Hb.
    pose proof (proj1 (cstring_cons _ _ _ _) Hs) as (_ & Hp & Ht).
    rewrite <- (subst_char_step m _ b delim 0 Hp).
    unfold count_char. rewrite filter_cons.
    destruct (Z.eqb_spec (s8 b) delim) as [E|E].
    + rewrite decide_True by done. rewrite store8_ok by eauto. simpl.
      rewrite !wrap_small by lia. change (u8 0) with 0.
      rewrite IH; rewrite ?Z.add_assoc; try lia; [|by apply cstring_insert_below; [lia|]].
      unfold count_char. do 2 f_equal. lia.
    + rewrite decide_False by done. rewrite wrap_small by lia.
      rewrite IH; rewrite ?Z.add_assoc; try lia; done.
Qed.

Lemma fields_nonempty delim s : fields delim s <> [].
Proof. destruct s as [|b s]; simpl; [done|]. destruct (_ =? _); [done|]. by destruct (fields _ _). Qed.

Lemma fields_length delim s : Z.of_nat (length (fields delim s)) = count_char delim s + 1.
Proof.
  unfold count_char. induction s as [|b s IH]; [done|].
  simpl fields. rewrite filter_cons. destruct (Z.eqb_spec (s8 b) delim).
  - rewrite decide_True by done. cbn [length]. lia.
  - rewrite decide_False by done. pose proof (fields_nonempty delim s).
    destruct (fields delim s); [done|]. simpl in *. lia.
Qed.

(** Overwriting every delimiter by a terminator lays the fields out. *)
Lemma write_fields delim s : forall m p,
  cstring m p s ->
  cstrings (write_list m p (map (subst_char delim 0) s)) p (fields delim s).
Proof.
  induction s as [|b s IH]; intros m p Hs; [done|].
  pose proof (proj1 (cstring_cons _ _ _ _) Hs) as (Hb & _ & Ht).
  assert (Ht' : cstring (<[p := subst_char delim 0 b]> m) (p + 1) s)
    by (apply cstring_insert_below; [lia|done]).
  specialize (IH _ _ Ht'). simpl.
  set (M := write_list _ (p + 1) _) in *.
  assert (HM : M !! p = Some (subst_char delim 0 b)).
  { unfold M. rewrite write_list_lookup_ne by lia. by rewrite lookup_insert_eq. }
  unfold subst_char in HM. destruct (s8 b =? delim).
  - split; [by apply cstring_nil|]. by rewrite Z.add_0_r.
  - pose proof (fields_nonempty delim s). destruct (fields delim s) as [|f fs]; [done|].
    destruct IH as [H1 H2]. split; [by apply cstring_cons|].
    replace (p + Z.of_nat (length (b :: f)) + 1) with (p + 1 + Z.of_nat (length f) + 1)
      by (simpl; lia). done.
Qed.

Lemma strsplit_ok m str delim s :
  Z.of_nat (length s) < 2 ^ 32 - 1 -> cstring m str s ->
  strsplit m str delim =
    Ok (Z.of_nat (length (fields delim s)), write_list m str (map (subst_char delim 0) s)).
Proof.
  intros Hl Hs. pose proof (cstring_size _ _ _ Hs). unfold strsplit.
  rewrite (strsplit_loop_ok _ _ s); rewrite ?Z.add_0_r; try lia; [|done].
  by rewrite fields_length.
Qed.

(** The byte of a string at a given position. *)
Lemma cstring_byte m p s1 b s2 :
  cstring m p (s1 ++ b :: s2) -> load_char m (p + Z.of_nat (length s1)) = Ok (s8 b).
Proof.
  intros H. apply (cstring_drop _ _ _ (length s1)) in H; [|rewrite length_app; lia].
  rewrite drop_app_length in H. by apply cstring_char in H as [-> _].
Qed.

Lemma cstring_mapped m p s i :
  cstring m p s -> 0 <= i <= Z.of_nat (length s) -> is_Some (m !! (p + i)).
Proof.
  intros [_ H] Hi. apply (bytes_at_mapped _ _ _ H). rewrite length_app. simpl. lia.
Qed.

(** [str_backspace] on a string of two characters or more. *)
Lemma str_backspace_ok m str c s x y :
  Z.of_nat (length s) + 2 < 2 ^ 32 -> cstring m str (s ++ [x; y]) ->
  str_backspace m str c =
    if s8 x =? c then Ok (Some 1, <[str + Z.of_nat (length s) + 1 := 0]> m)
    else Ok (Some 0, m).
Proof.
  intros Hl Hs. unfold str_backspace.
  assert (Hn : Z.of_nat (length (s ++ [x; y])) = Z.of_nat (length s) + 2)
    by (rewrite length_app; simpl; lia).
  rewrite (strlen_ok _ _ (s ++ [x; y]) ltac:(lia) Hs). simpl. rewrite Hn.
  rewrite (wrap_small _ (_ + 2 - 1)) by lia. rewrite (proj2 (Z.eqb_neq _ 0)) by lia.
  replace (Z.of_nat (length s) + 2 - 1 - 1) with (Z.of_nat (length s)) by lia.
  rewrite (wrap_small 32 (Z.of_nat (length s))), wrap_small by lia.
  rewrite (cstring_byte _ _ _ _ _ Hs). simpl.
  destruct (_ =? _); [|done].
  rewrite store8_ok.
  - simpl. by rewrite Z.add_assoc.
  - apply (cstring_mapped _ _ _ _ Hs). lia.
Qed.

Lemma strcmp_lit_ok m w : forall p s,
  cstring m p s -> Forall (fun c => 0 < c < 256) w -> strcmp_lit m p w = Ok (bool_decide (s = w)).
Proof.
  induction w as [|c w IH]; intros p s Hs Hw; simpl.
  - destruct s as [|b s].
    + apply cstring_nil in Hs. by rewrite (load8_ok _ _ 0).
    + apply cstring_cons in Hs as (Hb & E & _). rewrite (load8_ok _ _ b) by done. simpl. by zbool.
  - apply list.Forall_cons in Hw as [Hc Hw]. destruct s as [|b s].
    + apply cstring_nil in Hs. rewrite (load8_ok _ _ 0) by done. simpl. by zbool.
    + apply cstring_cons in Hs as (Hb & E & Ht). rewrite (load8_ok _ _ b) by done. simpl.
      destruct (Z.eqb_spec b c) as [->|Hne].
      * rewrite (IH _ s) by done. f_equal. apply bool_decide_ext. split; [by intros ->|by intros [= ->]].
      * rewrite bool_decide_false; [done|]. by intros [= -> _].
Qed.

(** It agrees with [strcmp] on the stored literal. *)
Lemma strcmp_lit_strcmp m p q s w :
  cstring m p s -> cstring m q w ->
  exists r, strcmp m p q = Ok r /\ strcmp_lit m p w = Ok (bool_decide (r = 0)).
Proof.
  intros Hs Hw. destruct (strcmp_zero _ _ _ _ _ Hs Hw) as (r & Hr & Hz). exists r. split; [done|].
  rewrite (strcmp_lit_ok m w p s Hs) by apply Hw. f_equal. by apply bool_decide_ext.
Qed.

(** ** Properties *)

(** [strcmp] on two terminated strings always finishes, and answers zero
    exactly when the strings are equal; otherwise it answers the difference of
    the first bytes they differ at, converted to the unsigned [size_t]. *)
Theorem strcmp_decides_equality (m : mem) (str1 str2 : Z) (s1 s2 : list Z) :
  cstring m str1 s1 -> cstring m str2 s2 ->
  exists r, strcmp m str1 str2 = Ok r /\ r = u32 (diff_at s1 s2) /\ (r = 0 <-> s1 = s2).
Proof.
  intros H1 H2. destruct (strcmp_zero _ _ _ _ _ H1 H2) as (r & Hr & Hz).
  exists r. split; [done|]. split; [|done].
  rewrite (strcmp_ok _ _ _ _ _ H1 H2) in Hr. by injection Hr.
Qed.

(** C33. [atoi] on a string of decimal digits stores the number they denote when
    that number plus ['0'] fits an [int], and overflows a signed addition
    otherwise: the digit is added before ['0'] is subtracted. *)
Theorem atoi_decimal (m : mem) (str : Z) (ds : list Z) :
  Forall is_digit ds -> cstring m str ds ->
  atoi m str = if decide (dec_value ds + 48 < 2 ^ 31) then Ok (dec_value ds) else Undef.
Proof.
  intros Hd Hs. apply atoi_loop_ok; try done.
  pose proof (cstring_size _ _ _ Hs). lia.
Qed.

(** C19. [strsplit] returns the number of fields the delimiter cuts the string
    into, leaves the fields in memory one after the other, each a terminated
    string, and changes no byte outside the string. *)
Theorem strsplit_lays_out_fields (m : mem) (str delim : Z) (s : list Z) :
  Z.of_nat (length s) < 2 ^ 32 - 1 -> cstring m str s ->
  exists m', strsplit m str delim = Ok (Z.of_nat (length (fields delim s)), m') /\
    cstrings m' str (fields delim s) /\
    (forall a, ~ (str <= a < str + Z.of_nat (length s)) -> m' !! a = m !! a).
Proof.
  intros Hl Hs. eexists. split; [by apply strsplit_ok|].
  split; [by apply write_fields|]. intros a Ha. apply write_list_lookup_ne.
  by rewrite length_map.
Qed.

(** [str_backspace] looks at one character only, the last but one: when it is
    [c] the string is cut after it and the call answers 1, and otherwise the
    memory is left as it was and the call answers 0, wherever else [c] occurs.
    On a one-character string no value is returned. *)
Theorem str_backspace_looks_once (m : mem) (str c : Z) (s : list Z) (x y : Z) :
  Z.of_nat (length s) + 2 < 2 ^ 32 ->
  (cstring m str (s ++ [x; y]) ->
     str_backspace m str c =
       if s8 x =? c then Ok (Some 1, <[str + Z.of_nat (length s) + 1 := 0]> m)
       else Ok (Some 0, m)) /\
  (cstring m str [x] -> str_backspace m str c = Ok (None, m)).
Proof.
  intros Hl. split; intros Hs; [by apply (str_backspace_ok _ _ _ s x y)|].
  unfold str_backspace. by rewrite (strlen_ok _ _ [x] ltac:(done) Hs).
Qed.

(** [str_begins_with] answers 1 whatever the two strings are: its loop tests
    the terminator of [with] first and never compares a character. *)
Theorem str_begins_with_constant (m : mem) (str with_ : Z) (s w : list Z) :
  Z.of_nat (length w) < 2 ^ 32 ->
  cstring m str s -> cstring m with_ w -> str_begins_with m str with_ = Ok 1.
Proof.
  intros Hl Hs Hw. unfold str_begins_with. rewrite (strlen_ok _ _ _ Hl Hw). simpl.
  apply (cstring_drop _ _ _ (length w)) in Hw; [|lia].
  rewrite drop_all in Hw. by rewrite (cstring_end _ _ Hw).
Qed.

(** [strcrl] replaces every [what] by [with] and answers the length. *)
Theorem strcrl_replaces (m : mem) (str what with_ : Z) (s : list Z) :
  Z.of_nat (length s) < 2 ^ 32 -> cstring m str s ->
  strcrl m str what with_ =
    Ok (Z.of_nat (length s), write_list m str (map (subst_char what with_) s)).
Proof. apply strcrl_ok. Qed.

(** [strcount] walks down from the start of its argument: on a string that
    starts its object it reads the byte before the object. *)
Theorem strcount_leaves_object (m : mem) (str c b : Z) (s : list Z) :
  cstring m str (b :: s) -> m !! (str - 1) = None -> strcount m str c = Undef.
Proof.
  intros Hs Hn. unfold strcount. simpl.
  destruct (cstring_char _ _ _ _ Hs) as [-> Hb]. simpl. rewrite Hb.
  by rewrite load_char_undef.
Qed.

(** ** Witnesses *)

(** ["dir"] at 100, ["dim"] at 200, ["42"] at 300, ["cd usr bin"] at 400,
    ["/bin/"] at 500. *)
Definition sample : mem :=
  write_list (write_list (write_list (write_list (mem_of 100 (str_bytes "dir" ++ [0]))
    200 (str_bytes "dim" ++ [0])) 300 (str_bytes "42" ++ [0]))
    400 (str_bytes "cd usr bin" ++ [0])) 500 (str_bytes "/bin/" ++ [0]).

Lemma strcmp_decides_equality_witness :
  exists r, strcmp sample 100 200 = Ok r /\ r = u32 5 /\
    (r = 0 <-> str_bytes "dir" = str_bytes "dim").
Proof.
  apply (strcmp_decides_equality sample 100 200 (str_bytes "dir") (str_bytes "dim"));
    apply cstringb_true; vm_compute; reflexivity.
Defined.

Lemma atoi_decimal_witness : atoi sample 300 = Ok 42.
Proof.
  refine (atoi_decimal sample 300 (str_bytes "42") _ _).
  - repeat constructor; discriminate.
  - apply cstringb_true. vm_compute. reflexivity.
Defined.

Lemma strsplit_lays_out_fields_witness :
  exists m', strsplit sample 400 32 = Ok (3, m') /\
    cstrings m' 400 [str_bytes "cd"; str_bytes "usr"; str_bytes "bin"] /\
    (forall a, ~ (400 <= a < 410) -> m' !! a = sample !! a).
Proof.
  apply (strsplit_lays_out_fields sample 400 32 (str_bytes "cd usr bin")); [reflexivity|].
  apply cstringb_true. vm_compute. reflexivity.
Defined.

(** ["/bin/"] is not cut back to ["/"]. *)
Lemma str_backspace_looks_once_witness : str_backspace sample 500 47 = Ok (Some 0, sample).
Proof.
  apply (proj1 (str_backspace_looks_once sample 500 47 (str_bytes "/bi") 110 47 eq_refl)).
  apply cstringb_true. vm_compute. reflexivity.
Defined.

Lemma str_begins_with_constant_witness : str_begins_with sample 100 500 = Ok 1.
Proof.
  apply (str_begins_with_constant sample 100 500 (str_bytes "dir") (str_bytes "/bin/"));
    [reflexivity|apply cstringb_true; vm_compute; reflexivity..].
Defined.

Lemma strcrl_replaces_witness :
  strcrl sample 500 47 46 = Ok (5, write_list sample 500 (str_bytes ".bin.")).
Proof.
  apply (strcrl_replaces sample 500 47 46 (str_bytes "/bin/")); [reflexivity|].
  apply cstringb_true. vm_compute. reflexivity.
Defined.

Lemma strcount_leaves_object_witness : strcount sample 100 105 = Undef.
Proof.
  apply (strcount_leaves_object sample 100 105 100 (str_bytes "ir")); [|reflexivity].
  apply cstringb_true. vm_compute. reflexivity.
Defined.
