(* ===== verification/Idt.v ===== *)
(** [include/idt.c] and [include/idt.h]: the two interrupt descriptor tables.

    [FixedIdt] is the table at the hard-coded address [IDT_BASE] with its array
    of wrapper routines, built in byte-addressed memory.  [GateArray] is the
    [idt] array of the second half of the file.  The file holds the first part
    twice, word for word; it is modelled once.  The opcodes the wrappers are made
    of come from [asm.h], which the repository does not have: they are
    parameters.  The processor's IDT register is a field of [GateArray]'s state:
    the [idt_load] that [idt_install] calls is the one of the first part, which
    loads the register from [idtr_info].  [idt_store] is not modelled. *)

From S2P Require Import Prelude Mem.

Module FixedIdt.
Section FixedIdt.

(** Opcodes of [asm.h]. *)
Variables PUSHAD_OPCODE CLD_OPCODE CALL_FAR_OPCODE POPAD_OPCODE IRET_OPCODE : Z.

Definition IDT_BASE : Z := 0x6c00.
Definition ISR_WRAPPER_BASE : Z := 0x7400.

(** [struct idt_gate_descriptor], packed: the offset of each field. *)
Definition GATE_SIZE : Z := 8.
Definition off_offset_low : Z := 0.
Definition off_segment_selector : Z := 2.
Definition off_zero : Z := 4.
Definition off_type_attr : Z := 5.
Definition off_offset_high : Z := 6.

(** [struct isr_wrapper_struct], packed. *)
Record isr_wrapper := mk_wrapper {
  w_pushad : Z;
  w_cld : Z;
  w_call_far : Z;
  w_isr_addr : Z;
  w_segment : Z;
  w_popad : Z;
  w_iretd : Z
}.
Definition WRAPPER_SIZE : Z := 11.

Definition wrapper_bytes (w : isr_wrapper) : list Z :=
  [w_pushad w; w_cld w; w_call_far w] ++ le_bytes 4 (w_isr_addr w) ++
  le_bytes 2 (w_segment w) ++ [w_popad w; w_iretd w].

(** The memory and the static variables of the file. *)
Record state := mk_state {
  smem : mem;
  generic_wrapper : isr_wrapper;
  idt_gate_count : Z;
  idtr_length : Z
}.

Definition init_generic_wrapper : isr_wrapper :=
  mk_wrapper PUSHAD_OPCODE CLD_OPCODE CALL_FAR_OPCODE 0 0x08 POPAD_OPCODE IRET_OPCODE.

(** The statics as the loader leaves them. *)
Definition boot_state (m : mem) : state := mk_state m init_generic_wrapper 0 0.

(** Pointer arithmetic on [idt_ptr] and [isr_wrapper_ptr]. *)
Definition gate_at (i : Z) : Z := IDT_BASE + i * GATE_SIZE.
Definition wrapper_at (i : Z) : Z := ISR_WRAPPER_BASE + i * WRAPPER_SIZE.

Definition set_isr_addr (w : isr_wrapper) (a : Z) : isr_wrapper :=
  mk_wrapper (w_pushad w) (w_cld w) (w_call_far w) a (w_segment w) (w_popad w) (w_iretd w).

Definition __set_isr_wrapper (s : state) (wrapper_ptr isr_addr : Z) : res state :=
  let g := set_isr_addr (generic_wrapper s) isr_addr in
  m ← store_bytes (smem s) wrapper_ptr (wrapper_bytes g);
  Ok (mk_state m g (idt_gate_count s) (idtr_length s)).

Definition __set_idt_gate (s : state) (gate isr_wrapper_offset segment type_attr : Z) : res state :=
  let tmp_offset := u32 isr_wrapper_offset in
  let tmp_offset := u32 (Z.shiftl tmp_offset 16) in
  let tmp_offset := Z.shiftr tmp_offset 16 in
  m ← store_le 2 (smem s) (gate + off_offset_low) (u16 tmp_offset);
  let tmp_offset := u32 isr_wrapper_offset in
  let tmp_offset := Z.shiftr tmp_offset 16 in
  m ← store_le 2 m (gate + off_offset_high) (u16 tmp_offset);
  m ← store_le 2 m (gate + off_segment_selector) segment;
  m ← store_le 1 m (gate + off_zero) 0;
  m ← store_le 1 m (gate + off_type_attr) type_attr;
  Ok (mk_state m (generic_wrapper s) (idt_gate_count s) (idtr_length s)).

Definition set_gate_count (s : state) (n : Z) : state :=
  mk_state (smem s) (generic_wrapper s) n (idtr_length s).

(** One round of the loop of [add_null_gates]. *)
Definition null_gate (s : state) (interrupt_number : Z) : res state :=
  s ← __set_idt_gate s (gate_at (idt_gate_count s)) (wrapper_at interrupt_number) 0 0;
  s ← __set_isr_wrapper s (wrapper_at interrupt_number) 0;
  Ok (set_gate_count s (idt_gate_count s + 1)).

Definition add_null_gates (fuel : nat) (s : state) (interrupt_number : Z) : res state :=
  while_loop fuel (fun s =>
    if interrupt_number - idt_gate_count s =? 0 then Ok (inr s)
    else s ← null_gate s interrupt_number; Ok (inl s)) s.

Definition idt_install_interrupt (fuel : nat) (s : state) (interrupt_number isr type_attr : Z)
    : res state :=
  s ← (if idt_gate_count s <=? interrupt_number then
         s ← add_null_gates fuel s interrupt_number;
         Ok (set_gate_count s (idt_gate_count s + 1))
       else Ok s);
  s ← __set_idt_gate s (gate_at interrupt_number) (wrapper_at interrupt_number) 0x08 type_attr;
  s ← __set_isr_wrapper s (wrapper_at interrupt_number) (u32 isr);
  Ok (mk_state (smem s) (generic_wrapper s) (idt_gate_count s) (u16 (8 * idt_gate_count s - 1))).

(** ** Reading the tables back, as the processor does *)
Record gate := mk_gate { g_offset : Z; g_segment : Z; g_zero : Z; g_type : Z }.

Definition read_gate (m : mem) (i : Z) : res gate :=
  lo ← load_le 2 m (gate_at i + off_offset_low);
  seg ← load_le 2 m (gate_at i + off_segment_selector);
  z ← load_le 1 m (gate_at i + off_zero);
  ty ← load_le 1 m (gate_at i + off_type_attr);
  hi ← load_le 2 m (gate_at i + off_offset_high);
  Ok (mk_gate (Z.lor lo (Z.shiftl hi 16)) seg z ty).

Definition gate_bytes (offset segment type_attr : Z) : list Z :=
  le_bytes 2 (u16 offset) ++ le_bytes 2 segment ++ le_bytes 1 0 ++ le_bytes 1 type_attr ++
  le_bytes 2 (u16 (Z.shiftr offset 16)).

(** The memory both tables need: 256 gates, then 256 wrappers. *)
Definition tables_mapped (m : mem) : Prop :=
  mapped m IDT_BASE (256 * GATE_SIZE + 256 * WRAPPER_SIZE).

(** ** Abstract table: what has been installed, by vector *)
Abbreviation table := (gmap Z (Z * Z)).

(** Vector [i] below the limit answers as the abstract table says: an installed
    routine has a gate on its wrapper, in code segment 8 with its attributes, and
    the wrapper calls it; any other gate is not present. *)
Definition vector_ok (m : mem) (a : table) (i : Z) : Prop :=
  match a !! i with
  | Some (isr, ty) =>
      read_gate m i = Ok (mk_gate (wrapper_at i) 8 0 ty) /\
      bytes_at m (wrapper_at i) (map u8 (wrapper_bytes (set_isr_addr init_generic_wrapper isr)))
  | None => exists off, read_gate m i = Ok (mk_gate off 0 0 0)
  end.

Definition represents (s : state) (a : table) : Prop :=
  tables_mapped (smem s) /\ 0 <= idt_gate_count s <= 256 /\
  (exists addr, generic_wrapper s = set_isr_addr init_generic_wrapper addr) /\
  (forall i, is_Some (a !! i) -> 0 <= i < idt_gate_count s) /\
  (forall i, 0 <= i < idt_gate_count s -> vector_ok (smem s) a i).

(** ** Lemmas *)

(** The address arithmetic of the two tables. *)
Ltac tables := unfold gate_at, wrapper_at, IDT_BASE, ISR_WRAPPER_BASE, GATE_SIZE, WRAPPER_SIZE,
  off_offset_low, off_segment_selector, off_zero, off_type_attr, off_offset_high in *.

(** The two memories agree on the gate and the wrapper of vector [k]. *)
Definition same_vec (m m' : mem) (k : Z) : Prop :=
  forall x, gate_at k <= x < gate_at k + GATE_SIZE \/
            wrapper_at k <= x < wrapper_at k + WRAPPER_SIZE -> m' !! x = m !! x.

Lemma same_vec_refl m k : same_vec m m k.
Proof. by intros x. Qed.

Lemma same_vec_trans m1 m2 m3 k : same_vec m1 m2 k -> same_vec m2 m3 k -> same_vec m1 m3 k.
Proof. intros H1 H2 x Hx. by rewrite H2, H1. Qed.

Lemma same_vec_gate m m' j k l :
  wrote m m' (gate_at j) l -> Z.of_nat (length l) = GATE_SIZE ->
  0 <= j < 256 -> 0 <= k < 256 -> j <> k -> same_vec m m' k.
Proof. intros [_ H] Hl Hj Hk Hjk x Hx. apply H. rewrite Hl. tables. lia. Qed.

Lemma same_vec_wrapper m m' j k l :
  wrote m m' (wrapper_at j) l -> Z.of_nat (length l) = WRAPPER_SIZE ->
  0 <= j < 256 -> 0 <= k < 256 -> j <> k -> same_vec m m' k.
Proof. intros [_ H] Hl Hj Hk Hjk x Hx. apply H. rewrite Hl. tables. lia. Qed.

Lemma read_gate_ext m m' i :
  (forall x, gate_at i <= x < gate_at i + GATE_SIZE -> m' !! x = m !! x) ->
  read_gate m' i = read_gate m i.
Proof.
  intros H. unfold read_gate.
  by repeat rewrite (load_le_ext _ m m') by (intros; apply H; tables; lia).
Qed.

Lemma vector_ok_same m m' a k : same_vec m m' k -> vector_ok m a k -> vector_ok m' a k.
Proof.
  intros H. unfold vector_ok.
  rewrite (read_gate_ext m m') by (intros x Hx; apply H; by left).
  destruct (a !! k) as [[isr ty]|]; [|done]. intros [Hg Hw]. split; [done|].
  intros i b Hi. rewrite H; [by apply Hw|]. apply lookup_lt_Some in Hi.
  right. simpl in Hi. tables. lia.
Qed.

Lemma low_half w : u16 (Z.shiftr (u32 (Z.shiftl w 16)) 16) = u16 w.
Proof.
  unfold wrap. rewrite Z.shiftl_mul_pow2, Z.shiftr_div_pow2 by lia.
  change (2 ^ 32) with (2 ^ 16 * 2 ^ 16). rewrite Z.mul_mod_distr_r by lia.
  by rewrite Z.div_mul, Z.mod_mod by lia.
Qed.

Lemma set_idt_gate_ok s g w seg ty :
  mapped (smem s) g GATE_SIZE ->
  exists m, __set_idt_gate s g w seg ty =
      Ok (mk_state m (generic_wrapper s) (idt_gate_count s) (idtr_length s)) /\
    wrote (smem s) m g (gate_bytes (u32 w) seg ty).
Proof.
  intros Hm. unfold __set_idt_gate. rewrite low_half.
  destruct (store_le_wrote 2 (smem s) (g + off_offset_low) (u16 (u32 w))) as (m1 & -> & W1);
    [eapply mapped_sub; eauto; tables; lia|]. simpl.
  pose proof (wrote_mapped _ _ _ _ _ _ W1 Hm) as M1.
  destruct (store_le_wrote 2 m1 (g + off_offset_high) (u16 (Z.shiftr (u32 w) 16))) as (m2 & -> & W2);
    [eapply mapped_sub; eauto; tables; lia|]. simpl.
  pose proof (wrote_mapped _ _ _ _ _ _ W2 M1) as M2.
  destruct (store_le_wrote 2 m2 (g + off_segment_selector) seg) as (m3 & -> & W3);
    [eapply mapped_sub; eauto; tables; lia|]. simpl.
  pose proof (wrote_mapped _ _ _ _ _ _ W3 M2) as M3.
  destruct (store_le_wrote 1 m3 (g + off_zero) 0) as (m4 & -> & W4);
    [eapply mapped_sub; eauto; tables; lia|]. simpl.
  pose proof (wrote_mapped _ _ _ _ _ _ W4 M3) as M4.
  destruct (store_le_wrote 1 m4 (g + off_type_attr) ty) as (m5 & -> & W5);
    [eapply mapped_sub; eauto; tables; lia|]. simpl.
  exists m5. split; [done|]. tables. rewrite Z.add_0_r in W1. split.
  - unfold gate_bytes. rewrite !bytes_at_app, !le_bytes_length.
    repeat split; rewrite <- ?Z.add_assoc.
    + repeat (eapply wrote_bytes_at; [eassumption|rewrite ?le_bytes_length; lia|]). apply W1.
    + repeat (eapply wrote_bytes_at; [eassumption|rewrite ?le_bytes_length; lia|]). apply W3.
    + eapply wrote_bytes_at; [eassumption|rewrite ?le_bytes_length; lia|]. apply W4.
    + apply W5.
    + do 3 (eapply wrote_bytes_at; [eassumption|rewrite ?le_bytes_length; lia|]). apply W2.
  - intros x Hx. unfold gate_bytes in Hx. rewrite !length_app, !le_bytes_length in Hx.
    rewrite (proj2 W5), (proj2 W4), (proj2 W3), (proj2 W2), (proj2 W1)
      by (rewrite le_bytes_length; lia). done.
Qed.

Lemma set_isr_wrapper_ok s p addr :
  mapped (smem s) p WRAPPER_SIZE ->
  let g := set_isr_addr (generic_wrapper s) addr in
  exists m, __set_isr_wrapper s p addr = Ok (mk_state m g (idt_gate_count s) (idtr_length s)) /\
    wrote (smem s) m p (map u8 (wrapper_bytes g)).
Proof.
  intros Hm g. unfold __set_isr_wrapper.
  destruct (store_bytes_wrote (wrapper_bytes g) (smem s) p) as (m & E & W);
    [by simpl|]. fold g. rewrite E. by exists m.
Qed.

Lemma read_gate_bytes m i off seg ty :
  0 <= off < 2 ^ 32 -> 0 <= seg < 2 ^ 16 -> 0 <= ty < 2 ^ 8 ->
  bytes_at m (gate_at i) (gate_bytes off seg ty) -> read_gate m i = Ok (mk_gate off seg 0 ty).
Proof.
  intros Ho Hs Ht H. unfold gate_bytes in H.
  rewrite !bytes_at_app, !le_bytes_length, <- !Z.add_assoc in H.
  destruct H as (H1 & H2 & H3 & H4 & H5). unfold read_gate.
  replace (gate_at i + off_offset_low) with (gate_at i) by (tables; lia).
  replace (gate_at i + off_segment_selector) with (gate_at i + Z.of_nat 2) by (tables; lia).
  replace (gate_at i + off_zero) with (gate_at i + (Z.of_nat 2 + Z.of_nat 2)) by (tables; lia).
  replace (gate_at i + off_type_attr) with (gate_at i + (Z.of_nat 2 + (Z.of_nat 2 + Z.of_nat 1)))
    by (tables; lia).
  replace (gate_at i + off_offset_high)
    with (gate_at i + (Z.of_nat 2 + (Z.of_nat 2 + (Z.of_nat 1 + Z.of_nat 1)))) by (tables; lia).
  rewrite (load_le_word _ _ _ _ H1), (load_le_word _ _ _ _ H2), (load_le_word _ _ _ _ H3),
    (load_le_word _ _ _ _ H4), (load_le_word _ _ _ _ H5). simpl.
  change (8 * Z.of_nat 2) with 16. change (8 * Z.of_nat 1) with 8.
  fold (u16 (u16 off)) (u16 seg) (u16 (u16 (Z.shiftr off 16))) (u8 0) (u8 ty).
  rewrite !wrap_idemp, (wrap_small 16 seg), (wrap_small 8 ty) by done.
  do 2 f_equal. rewrite lor_pack by (done || by apply wrap_range).
  unfold wrap. rewrite Z.shiftr_div_pow2 by lia.
  rewrite (Z.mod_small (off / 2 ^ 16)) by (split; [apply Z.div_pos|apply Z.div_lt_upper_bound]; lia).
  pose proof (Z.div_mod off (2 ^ 16)). lia.
Qed.

(** ** The loop of [add_null_gates] *)

Definition generic_ok (s : state) : Prop :=
  exists addr, generic_wrapper s = set_isr_addr init_generic_wrapper addr.

Lemma tables_gate m i : tables_mapped m -> 0 <= i < 256 -> mapped m (gate_at i) GATE_SIZE.
Proof. intros H Hi. eapply mapped_sub; eauto; tables; lia. Qed.

Lemma tables_wrapper m i : tables_mapped m -> 0 <= i < 256 -> mapped m (wrapper_at i) WRAPPER_SIZE.
Proof. intros H Hi. eapply mapped_sub; eauto; tables; lia. Qed.

Lemma wrapper_at_u32 i : 0 <= i < 256 -> u32 (wrapper_at i) = wrapper_at i /\ 0 <= wrapper_at i < 2 ^ 32.
Proof. intros. assert (0 <= wrapper_at i < 2 ^ 32) by (tables; lia). split; [by apply wrap_small|done]. Qed.

(** Gate [j], then the wrapper of vector [n]. *)
Lemma gate_and_wrapper s j n seg ty addr :
  tables_mapped (smem s) -> generic_ok s -> 0 <= j < 256 -> 0 <= n < 256 ->
  0 <= seg < 2 ^ 16 -> 0 <= ty < 256 ->
  exists m, let g := set_isr_addr init_generic_wrapper addr in
    (s1 ← __set_idt_gate s (gate_at j) (wrapper_at n) seg ty;
     __set_isr_wrapper s1 (wrapper_at n) addr) =
      Ok (mk_state m g (idt_gate_count s) (idtr_length s)) /\
    tables_mapped m /\
    read_gate m j = Ok (mk_gate (wrapper_at n) seg 0 ty) /\
    bytes_at m (wrapper_at n) (map u8 (wrapper_bytes g)) /\
    (forall k, 0 <= k < 256 -> k <> j -> k <> n -> same_vec (smem s) m k) /\
    (forall k, 0 <= k < 256 -> k <> j -> read_gate m k = read_gate (smem s) k).
Proof.
  intros Hm [a0 Ha0] Hj Hn Hseg Hty.
  destruct (set_idt_gate_ok s (gate_at j) (wrapper_at n) seg ty (tables_gate _ _ Hm Hj))
    as (m1 & -> & W1). simpl.
  pose proof (wrote_mapped _ _ _ _ _ _ W1 Hm) as Hm1.
  destruct (set_isr_wrapper_ok (mk_state m1 (generic_wrapper s) (idt_gate_count s) (idtr_length s))
    (wrapper_at n) addr (tables_wrapper _ _ Hm1 Hn)) as (m2 & E2 & W2).
  cbn [smem generic_wrapper idt_gate_count idtr_length] in E2, W2. rewrite Ha0 in *.
  change (set_isr_addr (set_isr_addr init_generic_wrapper a0) addr)
    with (set_isr_addr init_generic_wrapper addr) in *.
  rewrite E2. exists m2.
  destruct (wrapper_at_u32 n Hn) as [Hu Hr]. rewrite Hu in W1.
  assert (HL1 : Z.of_nat (length (gate_bytes (wrapper_at n) seg ty)) = GATE_SIZE)
    by (unfold gate_bytes; by rewrite !length_app, !le_bytes_length).
  set (g := set_isr_addr init_generic_wrapper addr) in *.
  assert (HL2 : Z.of_nat (length (map u8 (wrapper_bytes g))) = WRAPPER_SIZE)
    by (rewrite length_map; unfold wrapper_bytes; by rewrite !length_app, !le_bytes_length).
  assert (Hg : forall k, 0 <= k < 256 -> read_gate m2 k = read_gate m1 k).
  { intros k Hk. apply read_gate_ext. intros x Hx. apply W2. rewrite HL2. tables. lia. }
  split; [done|]. split; [by apply (wrote_mapped _ _ _ _ _ _ W2)|].
  split; [rewrite Hg by done; apply read_gate_bytes; [done..|apply W1]|].
  split; [apply W2|]. split.
  - intros k Hk Hkj Hkn. eapply same_vec_trans; [eapply same_vec_gate|eapply same_vec_wrapper]; eauto.
  - intros k Hk Hkj. rewrite Hg by done. apply read_gate_ext. intros x Hx. apply W1.
    rewrite HL1. tables. lia.
Qed.

Lemma null_gate_ok s n :
  tables_mapped (smem s) -> generic_ok s -> 0 <= idt_gate_count s <= n -> n < 256 ->
  exists s', null_gate s n = Ok s' /\ idt_gate_count s' = idt_gate_count s + 1 /\
    tables_mapped (smem s') /\ generic_ok s' /\
    read_gate (smem s') (idt_gate_count s) = Ok (mk_gate (wrapper_at n) 0 0 0) /\
    (forall k, 0 <= k < 256 -> k <> idt_gate_count s -> k <> n -> same_vec (smem s) (smem s') k).
Proof.
  intros Hm Hg Hc Hn. unfold null_gate.
  destruct (gate_and_wrapper s (idt_gate_count s) n 0 0 0 Hm Hg) as (m & E & Hm' & Hr & _ & Hs & _);
    try lia.
  destruct (__set_idt_gate s (gate_at (idt_gate_count s)) (wrapper_at n) 0 0) as [s1| |]; try done.
  simpl in E |- *. rewrite E. simpl. eexists. split; [done|]. simpl.
  split; [done|]. split; [done|]. split; [by exists 0|]. by split.
Qed.

Lemma null_loop n d : forall fuel s,
  (d < fuel)%nat -> n - idt_gate_count s = Z.of_nat d -> 0 <= idt_gate_count s -> n < 256 ->
  tables_mapped (smem s) -> generic_ok s ->
  exists s', add_null_gates fuel s n = Ok s' /\ idt_gate_count s' = n /\
    tables_mapped (smem s') /\ generic_ok s' /\
    (forall k, 0 <= k < idt_gate_count s -> same_vec (smem s) (smem s') k) /\
    (forall k, idt_gate_count s <= k < n -> exists off, read_gate (smem s') k = Ok (mk_gate off 0 0 0)).
Proof.
  induction d as [|d IH]; intros [|fuel] s Hf Hd Hc Hn Hm Hg; try lia;
    unfold add_null_gates in *; simpl.
  - rewrite (proj2 (Z.eqb_eq _ _)) by lia. simpl. exists s. split; [done|]. split; [lia|].
    split; [done|]. split; [done|]. split; [intros; apply same_vec_refl|intros; lia].
  - rewrite (proj2 (Z.eqb_neq _ _)) by lia.
    destruct (null_gate_ok s n Hm Hg) as (s1 & -> & C1 & M1 & G1 & R1 & S1); [lia..|]. simpl.
    destruct (IH fuel s1) as (s2 & -> & C2 & M2 & G2 & S2 & R2); [lia..|done|done|].
    exists s2. split; [done|]. split; [done|]. split; [done|]. split; [done|]. split.
    + intros k Hk. eapply same_vec_trans; [apply S1; lia|apply S2; lia].
    + intros k Hk. destruct (decide (k = idt_gate_count s)) as [->|Hne]; [|apply R2; lia].
      exists (wrapper_at n). rewrite <- R1. apply read_gate_ext. intros x Hx.
      apply (S2 (idt_gate_count s)); [lia|by left].
Qed.

(** The first half of [idt_install_interrupt]: room for the vector. *)
Lemma grow_ok fuel s a n :
  represents s a -> 0 <= n < 256 -> n - idt_gate_count s < Z.of_nat fuel ->
  exists s', (if idt_gate_count s <=? n then
         s ← add_null_gates fuel s n;
         Ok (set_gate_count s (idt_gate_count s + 1))
       else Ok s) = Ok s' /\
    idt_gate_count s' = Z.max (idt_gate_count s) (n + 1) /\
    tables_mapped (smem s') /\ generic_ok s' /\
    (forall i, 0 <= i < idt_gate_count s' -> i <> n -> vector_ok (smem s') a i).
Proof.
  intros (Hm & Hc & Hg & Hdom & Hvec) Hn Hf.
  destruct (Z.leb_spec (idt_gate_count s) n) as [Hle|Hgt].
  - destruct (null_loop n (Z.to_nat (n - idt_gate_count s)) fuel s)
      as (s1 & -> & C1 & M1 & G1 & S1 & R1); [lia..|done|done|].
    simpl. eexists. split; [done|]. simpl. split; [lia|]. split; [done|]. split; [done|].
    intros i Hi Hne. destruct (decide (i < idt_gate_count s)) as [Hlt|Hge].
    + eapply vector_ok_same; [apply S1; lia|apply Hvec; lia].
    + unfold vector_ok. destruct (a !! i) eqn:Ea; [|apply R1; lia].
      assert (0 <= i < idt_gate_count s) by (apply Hdom; rewrite Ea; eauto). lia.
  - exists s. split; [done|]. split; [lia|]. split; [done|]. split; [done|].
    intros i Hi _. by apply Hvec.
Qed.

(** ** Properties *)

(** C6. [idt_install_interrupt] implements the update of the abstract table: from any
    state that represents a table, installing a routine for a vector below 256
    represents the table with that entry, the gates added in between being not
    present; the table's length covers the highest vector installed, and no other
    vector changes.  The loop adds at most 256 gates, so 257 rounds are enough. *)
Theorem idt_install_interrupt_refines (s : state) (a : table) (n isr ty : Z) :
  represents s a -> 0 <= n < 256 -> 0 <= isr < 2 ^ 32 -> 0 <= ty < 256 ->
  exists s', idt_install_interrupt 257 s n isr ty = Ok s' /\
    represents s' (<[n := (isr, ty)]> a) /\
    idt_gate_count s' = Z.max (idt_gate_count s) (n + 1) /\
    idtr_length s' = 8 * idt_gate_count s' - 1.
Proof.
  intros Hrep Hn Hisr Hty. pose proof Hrep as (_ & Hc & _ & Hdom & _).
  unfold idt_install_interrupt.
  destruct (grow_ok 257 s a n Hrep Hn) as (s1 & -> & C1 & M1 & G1 & V1); [lia|]. simpl.
  rewrite (wrap_small 32 isr) by done.
  destruct (gate_and_wrapper s1 n n 8 ty isr M1 G1) as (m & E & M & R & B & S & _); [lia..|].
  destruct (__set_idt_gate s1 (gate_at n) (wrapper_at n) 8 ty) as [s2| |]; try done.
  simpl in E |- *. rewrite E. simpl. eexists. split; [done|].
  unfold represents. simpl. rewrite wrap_small by lia.
  split; [|by split]. split; [done|]. split; [lia|]. split; [by exists isr|]. split.
  - intros i Hi. destruct (decide (i = n)) as [->|Hne]; [lia|].
    rewrite lookup_insert_ne in Hi by done. specialize (Hdom i Hi). lia.
  - intros i Hi. unfold vector_ok. destruct (decide (i = n)) as [->|Hne].
    + rewrite lookup_insert_eq. by split.
    + rewrite lookup_insert_ne by done. eapply (vector_ok_same (smem s1)); [apply S; lia|].
      by apply V1.
Qed.

(** The state the loader leaves represents the empty table. *)
Lemma boot_represents m : tables_mapped m -> represents (boot_state m) ∅.
Proof.
  intros Hm. unfold represents. simpl. split; [done|]. split; [lia|].
  split; [by exists 0|]. split; [|intros; lia].
  intros i Hi. rewrite lookup_empty in Hi. by destruct Hi.
Qed.

End FixedIdt.

(** Zeroed tables, and the keyboard's vector installed in them. *)
Definition blank : mem := write_list ∅ IDT_BASE (replicate 4864 0).

Lemma blank_mapped : tables_mapped blank.
Proof. apply (bytes_at_mapped blank IDT_BASE (replicate 4864 0)), write_list_bytes_at. Qed.

Lemma idt_install_interrupt_refines_witness :
  exists s', idt_install_interrupt 257 (boot_state 0x60 0xFC 0x9A 0x61 0xCF blank) 33 0x100000 0x8E
      = Ok s' /\
    represents 0x60 0xFC 0x9A 0x61 0xCF s' {[33 := (0x100000, 0x8E)]} /\
    idt_gate_count s' = 34 /\ idtr_length s' = 271.
Proof.
  destruct (idt_install_interrupt_refines 0x60 0xFC 0x9A 0x61 0xCF
    (boot_state 0x60 0xFC 0x9A 0x61 0xCF blank) ∅ 33 0x100000 0x8E
    (boot_represents _ _ _ _ _ blank blank_mapped)) as (s' & E & R & C & L); [lia..|].
  simpl in C. exists s'. split; [exact E|]. split; [exact R|]. split; [exact C|].
  rewrite L, C. reflexivity.
Defined.

End FixedIdt.

Module GateArray.

Record idt_entry := mk_entry {
  base_lo : Z;
  sel : Z;
  always0 : Z;
  flags : Z;
  base_hi : Z
}.

Definition zero_entry : idt_entry := mk_entry 0 0 0 0 0.
Definition SIZEOF_IDT_ENTRY : Z := 8.

(** The array, [idtp], the [idtr_info] of the first part of the file (its length
    and address), and the processor's IDT register (limit and base). *)
Record state := mk_state {
  idt : list idt_entry;
  idtp : Z * Z;
  idtr_info : Z * Z;
  idtr : option (Z * Z)
}.

Definition idt_set_gate (s : state) (num base sel flags : Z) : res state :=
  match idt s !! Z.to_nat (u8 num) with
  | Some _ =>
      let e := mk_entry (Z.land base 0xFFFF) sel 0 flags (Z.land (Z.shiftr base 16) 0xFFFF) in
      Ok (mk_state (<[Z.to_nat (u8 num) := e]> (idt s)) (idtp s) (idtr_info s) (idtr s))
  | None => Undef
  end.

(** [lidt [idtr_info]] *)
Definition idt_load (s : state) : state :=
  mk_state (idt s) (idtp s) (idtr_info s) (Some (idtr_info s)).

Definition idt_install (idt_addr : Z) (s : state) : state :=
  let idtp := (u16 (SIZEOF_IDT_ENTRY * 256 - 1), idt_addr) in
  idt_load (mk_state (replicate 256 zero_entry) idtp (idtr_info s) (idtr s)).

(** The handler address the processor takes from an entry. *)
Definition entry_base (e : idt_entry) : Z := Z.lor (base_lo e) (Z.shiftl (base_hi e) 16).

(** [idt_set_gate] writes the entry of its vector and no other, and the entry
    gives back the handler address, the selector and the flags. *)
Theorem idt_set_gate_roundtrip (s : state) (num base sl fl : Z) :
  length (idt s) = 256%nat -> 0 <= num < 256 -> 0 <= base < 2 ^ 32 ->
  exists s' e, idt_set_gate s num base sl fl = Ok s' /\
    idt s' !! Z.to_nat num = Some e /\ entry_base e = base /\ sel e = sl /\ flags e = fl /\
    always0 e = 0 /\ (forall j, j <> Z.to_nat num -> idt s' !! j = idt s !! j) /\
    length (idt s') = 256%nat.
Proof.
  intros Hl Hn Hb. unfold idt_set_gate. rewrite (wrap_small 8 num) by done.
  destruct (lookup_lt_is_Some_2 (idt s) (Z.to_nat num)) as [e0 ->]; [lia|].
  eexists _, _. split; [done|]. simpl.
  split; [apply list_lookup_insert_eq; lia|]. simpl.
  split; [|do 3 (split; [done|]); split; [intros; by apply list_lookup_insert_ne|by rewrite length_insert]].
  change 0xFFFF with (Z.ones 16). rewrite !Z.land_ones by lia. unfold entry_base. simpl.
  rewrite lor_pack by (done || by apply Z.mod_pos_bound).
  rewrite Z.shiftr_div_pow2 by lia.
  rewrite (Z.mod_small (base / 2 ^ 16)) by (split; [apply Z.div_pos|apply Z.div_lt_upper_bound]; lia).
  pose proof (Z.div_mod base (2 ^ 16)). lia.
Qed.

(** [idt_install] clears the array and prepares [idtp] for it, with the limit of
    256 entries, but the register it loads is [idtr_info]: the processor keeps
    using the table at the fixed address, whatever [idt_set_gate] does. *)
Theorem idt_install_loads_other_table (s : state) (addr : Z) :
  let s' := idt_install addr s in
  idtp s' = (256 * 8 - 1, addr) /\ (forall e, e ∈ idt s' -> e = zero_entry) /\
  length (idt s') = 256%nat /\ idtr s' = Some (idtr_info s).
Proof.
  split; [done|]. split; [|done].
  intros e He. unfold idt_install, idt_load in He. cbn [idt] in He.
  by apply elem_of_replicate in He as [-> _].
Qed.

Lemma idt_set_gate_roundtrip_witness :
  exists s' e, idt_set_gate (mk_state (replicate 256 zero_entry) (0, 0) (0, 0) None)
      33 0xC0101234 8 0x8E = Ok s' /\ idt s' !! 33%nat = Some e /\ entry_base e = 0xC0101234.
Proof.
  destruct (idt_set_gate_roundtrip (mk_state (replicate 256 zero_entry) (0, 0) (0, 0) None)
    33 0xC0101234 8 0x8E) as (s' & e & E & He & Hb & _); [reflexivity|lia|lia|].
  exists s', e. split; [exact E|]. split; [exact He|exact Hb].
Defined.

End GateArray.
