(* ===== verification/Tty.v ===== *)
(** [kernel/tty.c] and [kernel/tty.h]: the virtual terminals.

    The driver callbacks, the spinlock, [thread_current] and the number
    formatters of [stdlib/string.h] are not part of the repository: they are the
    fields of [tty_driver] and of the class [TtyEnv], over a device state [D] the
    callbacks act on.  A callback sees the terminal it is given and changes only
    the device state, except [init], which gives the terminal its buffer.
    A character buffer is a list of 16-bit cells; the 32-bit accesses of the
    source touch two of them.  [size_t] is the 32-bit unsigned type. *)

From S2P Require Import Prelude.

(** ** Constants of tty.h *)
Definition TTY_COLOR_BLACK := 0.
Definition TTY_COLOR_RED := 4.
Definition TTY_COLOR_LIGHTGREY := 7.
Definition TTY_MKCOLOR (f b : Z) : Z := Z.lor (Z.shiftl b 4) f.
Definition TTY_COLOR_DEFAULT : Z := TTY_MKCOLOR TTY_COLOR_LIGHTGREY TTY_COLOR_BLACK.
Definition TTY_COUNT : nat := 8.
Definition TTY_CMD_SET_COLOR := 1.
Definition TTY_SET_DEFAULT_COLOR : list Z := [1; 7].
Definition TTY_SET_OK_COLOR : list Z := [1; 2].
Definition TTY_SET_FAIL_COLOR : list Z := [1; 4].

(** ** External code *)
Class TtyEnv (D : Type) := {
  spinlock : Type;
  spinlock_init : spinlock;
  spinlock_wait_and_lock : spinlock -> res spinlock;
  spinlock_release : spinlock -> spinlock;
  (** The terminal of [thread_current()], when there is a current thread. *)
  thread_current : D -> option nat;
  utoh : Z -> list Z;
  utob : Z -> list Z;
  itos : Z -> list Z;
  utos : Z -> list Z;
  ultoh : Z -> list Z;
  btoh : Z -> list Z;
}.

Section Tty.
Context {D : Type} `{!TtyEnv D}.

(** ** State *)
Record tty := mk_tty {
  tlock : spinlock;
  tx : Z;
  ty : Z;
  tcolor : Z;
  tmem : option (list Z)
}.

Record tty_driver := mk_driver {
  drv_width : Z;
  drv_height : Z;
  drv_init : option (tty -> nat -> D -> tty * D);
  drv_rerender : option (nat -> tty -> D -> D);
  drv_switch_handler : option (nat -> tty -> D -> D);
  drv_update_cursor_location : option (nat -> tty -> D -> D);
  drv_set_char : option (nat -> tty -> Z -> Z -> Z -> Z -> D -> D)
}.

(** The static variables of tty.c.  A pointer to a terminal is its index. *)
Record kst := mk_kst {
  ttys : list tty;
  current_screen : option nat;
  current_tty : option nat;
  tty_width : Z;
  tty_height : Z;
  driver : tty_driver;
  dev : D
}.

Definition default_tty : nat := 0.

Definition set_ttys (st : kst) (l : list tty) : kst :=
  mk_kst l (current_screen st) (current_tty st) (tty_width st) (tty_height st) (driver st) (dev st).
Definition set_dev (st : kst) (d : D) : kst :=
  mk_kst (ttys st) (current_screen st) (current_tty st) (tty_width st) (tty_height st) (driver st) d.
Definition set_screen (st : kst) (id : nat) : kst :=
  mk_kst (ttys st) (Some id) (current_tty st) (tty_width st) (tty_height st) (driver st) (dev st).
Definition set_current (st : kst) (o : option nat) : kst :=
  mk_kst (ttys st) (current_screen st) o (tty_width st) (tty_height st) (driver st) (dev st).

Definition set_xy (t : tty) (x y : Z) : tty := mk_tty (tlock t) x y (tcolor t) (tmem t).
Definition set_color (t : tty) (c : Z) : tty := mk_tty (tlock t) (tx t) (ty t) c (tmem t).
Definition set_mem (t : tty) (m : list Z) : tty := mk_tty (tlock t) (tx t) (ty t) (tcolor t) (Some m).
Definition set_lock (t : tty) (l : spinlock) : tty := mk_tty l (tx t) (ty t) (tcolor t) (tmem t).

Definition get_tty (st : kst) (id : nat) : res tty :=
  match ttys st !! id with Some t => Ok t | None => Undef end.
Definition put_tty (st : kst) (id : nat) (t : tty) : kst := set_ttys st (<[id := t]> (ttys st)).

Definition get_mem (t : tty) : res (list Z) :=
  match tmem t with Some m => Ok m | None => Undef end.

(** ** Buffer accesses *)
Definition cell_load (m : list Z) (i : Z) : res Z :=
  if i <? 0 then Undef
  else match m !! Z.to_nat i with Some v => Ok v | None => Undef end.

Definition cell_store (m : list Z) (i v : Z) : res (list Z) :=
  if (0 <=? i) && (i <? Z.of_nat (length m)) then Ok (<[Z.to_nat i := u16 v]> m) else Undef.

(** [gm_int[i]], the buffer seen as an array of [uint32_t]. *)
Definition int_load (m : list Z) (i : Z) : res Z :=
  lo ← cell_load m (2 * i);
  hi ← cell_load m (2 * i + 1);
  Ok (Z.lor lo (Z.shiftl hi 16)).

Definition int_store (m : list Z) (i v : Z) : res (list Z) :=
  m' ← cell_store m (2 * i) v;
  cell_store m' (2 * i + 1) (Z.shiftr v 16).

(** ** Operations *)
Definition tty_update_cursor_location (st : kst) : res kst :=
  match drv_update_cursor_location (driver st) with
  | Some f =>
      match current_screen st with
      | Some id => t ← get_tty st id; Ok (set_dev st (f id t (dev st)))
      | None => Undef
      end
  | None => Ok st
  end.

Definition is_current (st : kst) (id : nat) : bool := bool_decide (current_screen st = Some id).

Definition rerender (st : kst) (id : nat) : res kst :=
  match drv_rerender (driver st) with
  | Some f => t ← get_tty st id; Ok (set_dev st (f id t (dev st)))
  | None => Ok st
  end.

(** The tail of [tty_fill_color] and [tty_scroll]. *)
Definition refresh (st : kst) (id : nat) : res kst :=
  if is_current st id then st' ← rerender st id; tty_update_cursor_location st' else Ok st.

Definition tty_init (t : tty) : tty :=
  mk_tty spinlock_init 0 0 TTY_COLOR_DEFAULT None.

Definition tty_enter (st : kst) (id : nat) : res kst :=
  t ← get_tty st id;
  l ← spinlock_wait_and_lock (tlock t);
  Ok (put_tty st id (set_lock t l)).

Definition tty_leave (st : kst) (id : nat) : res kst :=
  t ← get_tty st id;
  Ok (put_tty st id (set_lock t (spinlock_release (tlock t)))).

(** [&ttys[id]]: a terminal is its index; the address past the last one is the
    greatest that may be formed. *)
Definition tty_select (id : nat) : res nat := if decide (id <= TTY_COUNT)%nat then Ok id else Undef.

Definition tty_switch (st : kst) (id : nat) : res kst :=
  if is_current st id then Ok st
  else
    let st := set_screen st id in
    st ← match drv_switch_handler (driver st) with
         | Some f => t ← get_tty st id; Ok (set_dev st (f id t (dev st)))
         | None => Ok st
         end;
    tty_update_cursor_location st.

Definition init_one (st : kst) (i : nat) : res kst :=
  t ← get_tty st i;
  let st := put_tty st i (tty_init t) in
  match drv_init (driver st) with
  | Some f =>
      t ← get_tty st i;
      let '(t', d') := f t i (dev st) in
      Ok (set_dev (put_tty st i t') d')
  | None => Ok st
  end.

(** The loop over [ttys] and the final switch of [init_tty]. *)
Definition init_tty (st : kst) (drv : tty_driver) : res kst :=
  let st := mk_kst (ttys st) (current_screen st) (current_tty st)
              (drv_width drv) (drv_height drv) drv (dev st) in
  st ← for_range 0 (Z.of_nat TTY_COUNT) (fun i st => init_one st (Z.to_nat i)) st;
  tty_switch st default_tty.

Definition tty_current_screen (st : kst) : option nat := current_screen st.

Definition tty_current_process (st : kst) : nat :=
  match current_tty st with
  | Some id => id
  | None => match thread_current (dev st) with Some id => id | None => default_tty end
  end.

Definition tty_set_current (st : kst) (o : option nat) : kst := set_current st o.

Definition fill_word (color : Z) : Z :=
  Z.lor (Z.lor 0x00200020 (u32 (Z.shiftl color 24))) (u32 (Z.shiftl color 8)).

Definition tty_fill_color (st : kst) (id : nat) (color : Z) : res kst :=
  t ← get_tty st id;
  m ← get_mem t;
  m' ← for_range 0 (u32 (tty_width st * tty_height st) / 2)
         (fun i m => int_store m i (fill_word color)) m;
  refresh (put_tty st id (set_xy (set_mem t m') 0 0)) id.

Definition tty_clear (st : kst) (id : nat) : res kst := tty_fill_color st id 0.

Definition tty_scroll (st : kst) (id : nat) : res kst :=
  t ← get_tty st id;
  m ← get_mem t;
  let kept := u32 (tty_width st * u32 (tty_height st - 1)) / 2 in
  m ← for_range 0 kept
        (fun i m => v ← int_load m (i + tty_width st / 2); int_store m i v) m;
  m ← for_range kept (u32 (tty_width st * tty_height st) / 2) (fun i m => int_store m i 0) m;
  refresh (put_tty st id (set_mem t m)) id.

Definition tty_newline (st : kst) (id : nat) : res kst :=
  t ← get_tty st id;
  let st := put_tty st id (set_xy t 0 (u32 (ty t + 1))) in
  if tty_height st <=? u32 (ty t + 1) then
    st ← tty_scroll st id;
    t ← get_tty st id;
    Ok (put_tty st id (set_xy t (tx t) (u32 (tty_height st - 1))))
  else Ok st.

(** The cell [(color << 8) | ch] of a signed [char]. *)
Definition mk_cell (color ch : Z) : Z := u16 (Z.lor (Z.shiftl color 8) ch).

Definition tty_set_char (st : kst) (id : nat) (x y ch color : Z) : res kst :=
  t ← get_tty st id;
  m ← get_mem t;
  m' ← cell_store m (u32 (x + u32 (y * tty_width st))) (mk_cell color ch);
  let st := put_tty st id (set_mem t m') in
  if is_current st id then
    match drv_set_char (driver st) with
    | Some f => t ← get_tty st id; Ok (set_dev st (f id t x y ch color (dev st)))
    | None => Ok st
    end
  else Ok st.

Fixpoint set_string_loop (st : kst) (id : nat) (x_offset y_offset width : Z)
    (str : list Z) (color i : Z) : res kst :=
  match str with
  | [] => Ok st
  | c :: str' =>
      if width =? 0 then Undef
      else
        st ← tty_set_char st id (u32 (x_offset + i mod width)) (u32 (y_offset + i / width)) c color;
        set_string_loop st id x_offset y_offset width str' color (i + 1)
  end.

Definition tty_set_string (st : kst) (id : nat) (x_offset y_offset width : Z)
    (str : list Z) (color : Z) : res kst :=
  set_string_loop st id x_offset y_offset width str color 0.

(** The printable-character case of [tty_print]. *)
Definition put_char (st : kst) (id : nat) (c : Z) : res kst :=
  t ← get_tty st id;
  st ← tty_set_char st id (tx t) (ty t) c (tcolor t);
  t ← get_tty st id;
  let st := put_tty st id (set_xy t (u32 (tx t + 1)) (ty t)) in
  if tty_width st <=? u32 (tx t + 1) then tty_newline st id else Ok st.

(** The loop of [tty_print] over the characters of [str] up to its terminator. *)
Fixpoint print_loop (st : kst) (id : nat) (str : list Z) (i : Z) : res (Z * kst) :=
  match str with
  | [] => Ok (i, st)
  | c :: str' =>
      if c =? TTY_CMD_SET_COLOR then
        match str' with
        | [] => Ok (u32 (i + 1), st)
        | c' :: str'' =>
            t ← get_tty st id;
            print_loop (put_tty st id (set_color t (u8 c'))) id str'' (u32 (u32 (i + 1) + 1))
        end
      else if c =? 10 then
        st ← tty_newline st id; print_loop st id str' (u32 (i + 1))
      else if c =? 13 then
        t ← get_tty st id;
        print_loop (put_tty st id (set_xy t 0 (ty t))) id str' (u32 (i + 1))
      else if c =? 8 then
        t ← get_tty st id;
        let x := if tx t =? 0 then tx t else tx t - 1 in
        print_loop (put_tty st id (set_xy t x (ty t))) id str' (u32 (i + 1))
      else
        st ← put_char st id c; print_loop st id str' (u32 (i + 1))
  end.

Definition tty_print (st : kst) (id : nat) (str : list Z) : res (Z * kst) :=
  '(i, st) ← print_loop st id str 0;
  if is_current st id then st ← tty_update_cursor_location st; Ok (i, st) else Ok (i, st).

(** ** The [k*] functions, on the terminal of the current process *)
Definition ktty_enter (st : kst) : res kst := tty_enter st (tty_current_process st).
Definition ktty_leave (st : kst) : res kst := tty_leave st (tty_current_process st).
Definition kclear (st : kst) : res kst := tty_clear st (tty_current_process st).
Definition kfill_color (st : kst) (color : Z) : res kst :=
  tty_fill_color st (tty_current_process st) color.
Definition kget_color (st : kst) : res Z :=
  t ← get_tty st (tty_current_process st); Ok (tcolor t).
Definition kset_color (st : kst) (color : Z) : res kst :=
  t ← get_tty st (tty_current_process st);
  Ok (put_tty st (tty_current_process st) (set_color t color)).
Definition kprint (st : kst) (str : list Z) : res (Z * kst) :=
  tty_print st (tty_current_process st) str.
Definition kput_char (st : kst) (ch : Z) : res kst :=
  '(_, st) ← kprint st (if ch =? 0 then [] else [ch]); Ok st.

(** Print a prefix, then a formatted number: the common body of the printers. *)
Definition kprint_prefixed (st : kst) (prefix digits : list Z) : res (Z * kst) :=
  '(_, st) ← kprint st prefix;
  '(n, st) ← kprint st digits;
  Ok (u8 (n + 2), st).

Definition kprint_hex (st : kst) (x : Z) : res (Z * kst) := kprint_prefixed st [48; 120] (utoh x).
Definition kprint_bin (st : kst) (x : Z) : res (Z * kst) := kprint_prefixed st [48; 98] (utob x).
Definition kprint_hex_long (st : kst) (x : Z) : res (Z * kst) := kprint_prefixed st [48; 120] (ultoh x).
Definition kprint_byte (st : kst) (x : Z) : res (Z * kst) := kprint_prefixed st [48; 120] (btoh x).
Definition kprint_int (st : kst) (x : Z) : res (Z * kst) :=
  '(n, st) ← kprint st (itos x); Ok (u8 n, st).
Definition kprint_uint (st : kst) (x : Z) : res (Z * kst) :=
  '(n, st) ← kprint st (utos x); Ok (u8 n, st).

(** [for (uint8_t i = 0; i < bound; ++i) kprint(" ")] *)
Fixpoint pad_loop (fuel : nat) (st : kst) (bound i : Z) : res kst :=
  match fuel with
  | O => Fuel
  | S fuel' =>
      if i <? bound then '(_, st) ← kprint st [32]; pad_loop fuel' st bound (u8 (i + 1))
      else Ok st
  end.

(** The two labels: [OK] and [FAIL] with their colour commands. *)
Definition label (ok : bool) : list Z :=
  if ok then [91] ++ TTY_SET_OK_COLOR ++ [79; 75] ++ TTY_SET_DEFAULT_COLOR ++ [93]
  else [91] ++ TTY_SET_FAIL_COLOR ++ [70; 65; 73; 76] ++ TTY_SET_DEFAULT_COLOR ++ [93].

Definition kprint_ok_fail (fuel : nat) (st : kst) (str : list Z) (ok : bool) : res (Z * kst) :=
  '(len, st) ← kprint st str;
  let ok_length := if ok then 4 else 6 in
  st ← pad_loop fuel st (u32 (tty_width st - len - ok_length)) 0;
  old_color ← kget_color st;
  '(_, st) ← kprint st (label ok);
  st ← kset_color st old_color;
  Ok (tty_width st, st).

(** ** Abstract terminal

    What the operations promise: a screen of [w * h] cells with a cursor and a
    colour, driven by commands. *)
Record vt := mk_vt { vx : Z; vy : Z; vcolor : Z; vcells : list Z }.

Inductive cmd :=
  | CColor (c : Z)
  | CNewline
  | CReturn
  | CBackspace
  | CPut (ch : Z).

(** How [tty_print] reads its argument. *)
Fixpoint parse (str : list Z) : list cmd :=
  match str with
  | [] => []
  | c :: str' =>
      if c =? TTY_CMD_SET_COLOR then
        match str' with [] => [] | c' :: str'' => CColor (u8 c') :: parse str'' end
      else
        (if c =? 10 then CNewline
         else if c =? 13 then CReturn
         else if c =? 8 then CBackspace
         else CPut c) :: parse str'
  end.

Definition scroll_cells (w : Z) (l : list Z) : list Z :=
  drop (Z.to_nat w) l ++ replicate (Z.to_nat w) 0.

Definition vt_newline (w h : Z) (v : vt) : vt :=
  if vy v + 1 <? h then mk_vt 0 (vy v + 1) (vcolor v) (vcells v)
  else mk_vt 0 (h - 1) (vcolor v) (scroll_cells w (vcells v)).

Definition vt_put (w h ch : Z) (v : vt) : vt :=
  let v' := mk_vt (vx v + 1) (vy v) (vcolor v)
              (<[Z.to_nat (vy v * w + vx v) := mk_cell (vcolor v) ch]> (vcells v)) in
  if vx v + 1 <? w then v' else vt_newline w h v'.

Definition vt_cmd (w h : Z) (v : vt) (c : cmd) : vt :=
  match c with
  | CColor c => mk_vt (vx v) (vy v) c (vcells v)
  | CNewline => vt_newline w h v
  | CReturn => mk_vt 0 (vy v) (vcolor v) (vcells v)
  | CBackspace => mk_vt (Z.max 0 (vx v - 1)) (vy v) (vcolor v) (vcells v)
  | CPut ch => vt_put w h ch v
  end.

Definition vt_run (w h : Z) (v : vt) (cs : list cmd) : vt := fold_left (vt_cmd w h) cs v.

Definition vt_ok (w h : Z) (v : vt) : Prop :=
  0 <= vx v < w /\ 0 <= vy v < h /\ 0 <= vcolor v < 256 /\
  Z.of_nat (length (vcells v)) = w * h /\ Forall (fun c => 0 <= c < 2 ^ 16) (vcells v).

(** The terminal [id] shows the abstract terminal [v]. *)
Definition shows (st : kst) (id : nat) (v : vt) : Prop :=
  exists l, ttys st !! id = Some (mk_tty l (vx v) (vy v) (vcolor v) (Some (vcells v))).

(** The screen size the driver may report, and a valid current screen. *)
Definition st_ok (st : kst) : Prop :=
  (exists k, tty_width st = 2 * k) /\ 0 < tty_width st /\ 0 < tty_height st /\
  tty_width st * tty_height st < 2 ^ 32 /\ tty_width st < 2 ^ 32 - 1 /\
  (exists i t, current_screen st = Some i /\ ttys st !! i = Some t).

Definition Inv (st : kst) (id : nat) (v : vt) : Prop := st_ok st /\ shows st id v.

(** What an operation on terminal [id] leaves alone. *)
Definition frame (id : nat) (st st' : kst) : Prop :=
  current_screen st' = current_screen st /\ current_tty st' = current_tty st /\
  tty_width st' = tty_width st /\ tty_height st' = tty_height st /\ driver st' = driver st /\
  (forall j, j <> id -> ttys st' !! j = ttys st !! j) /\
  (forall t, ttys st !! id = Some t -> exists t', ttys st' !! id = Some t' /\ tlock t' = tlock t).

(** The call finishes, and takes the abstract terminal to [v]. *)
Definition yields (r : res kst) (id : nat) (st : kst) (v : vt) : Prop :=
  exists st', r = Ok st' /\ Inv st' id v /\ frame id st st'.

(** ** Lemmas: the buffer *)
Lemma cell_load_ok (m : list Z) i v :
  0 <= i -> m !! Z.to_nat i = Some v -> cell_load m i = Ok v.
Proof. intros Hi Hv. unfold cell_load. rewrite (proj2 (Z.ltb_ge i 0)) by lia. by rewrite Hv. Qed.

Lemma cell_store_ok (m : list Z) i v :
  0 <= i < Z.of_nat (length m) -> cell_store m i v = Ok (<[Z.to_nat i := u16 v]> m).
Proof.
  intros Hi. unfold cell_store.
  by rewrite (proj2 (Z.leb_le 0 i)), (proj2 (Z.ltb_lt i _)) by lia.
Qed.

Lemma int_store_ok (m : list Z) i v :
  0 <= i -> 2 * i + 1 < Z.of_nat (length m) ->
  int_store m i v =
    Ok (<[Z.to_nat (2 * i + 1) := u16 (Z.shiftr v 16)]> (<[Z.to_nat (2 * i) := u16 v]> m)).
Proof.
  intros Hi Hl. unfold int_store. rewrite cell_store_ok by lia. simpl.
  by rewrite cell_store_ok by (rewrite length_insert; lia).
Qed.

Lemma int_load_ok (m : list Z) i lo hi :
  0 <= i -> m !! Z.to_nat (2 * i) = Some lo -> m !! Z.to_nat (2 * i + 1) = Some hi ->
  0 <= lo < 2 ^ 16 -> int_load m i = Ok (lo + hi * 2 ^ 16).
Proof.
  intros Hi Hlo Hhi Hr. unfold int_load.
  rewrite (cell_load_ok m (2 * i) lo) by (done || lia). simpl.
  rewrite (cell_load_ok m (2 * i + 1) hi) by (done || lia). simpl.
  by rewrite lor_pack.
Qed.

(** A loop that stores a pair of cells [f i] in round [i] rewrites the cells it
    passes over and no others. *)
Lemma pair_loop (g : nat -> Z) (f : Z -> list Z -> res (list Z)) a b (m0 : list Z) :
  0 <= a <= b -> 2 * b <= Z.of_nat (length m0) ->
  (forall i (m : list Z), a <= i < b -> length m = length m0 ->
     (forall j, (Z.to_nat (2 * i) <= j)%nat -> m !! j = m0 !! j) ->
     f i m = Ok (<[Z.to_nat (2 * i + 1) := g (Z.to_nat (2 * i + 1))]>
                  (<[Z.to_nat (2 * i) := g (Z.to_nat (2 * i))]> m))) ->
  exists m', for_range a b f m0 = Ok m' /\ length m' = length m0 /\
    (forall j, (Z.to_nat (2 * a) <= j < Z.to_nat (2 * b))%nat -> m' !! j = Some (g j)) /\
    (forall j, ~ (Z.to_nat (2 * a) <= j < Z.to_nat (2 * b))%nat -> m' !! j = m0 !! j).
Proof.
  intros Hab Hl Hf.
  destruct (for_range_inv (fun i m => length m = length m0 /\
    (forall j, (Z.to_nat (2 * a) <= j < Z.to_nat (2 * i))%nat -> m !! j = Some (g j)) /\
    (forall j, ~ (Z.to_nat (2 * a) <= j < Z.to_nat (2 * i))%nat -> m !! j = m0 !! j)) f a b m0)
    as (m' & Hm & Hlen & Hin & Hout); eauto; [lia| |].
  - split; [done|]. split; [lia|done].
  - intros i m Hi (Hlen & Hin & Hout). rewrite Hf; [|done..|intros; apply Hout; lia].
    eexists. split; [done|]. split; [by rewrite !length_insert|]. split; intros j Hj.
    + destruct (decide (j = Z.to_nat (2 * i + 1))) as [->|H1].
      { rewrite list_lookup_insert_eq; [done|]. rewrite length_insert. lia. }
      rewrite list_lookup_insert_ne by done.
      destruct (decide (j = Z.to_nat (2 * i))) as [->|H2].
      { rewrite list_lookup_insert_eq; [done|]. lia. }
      rewrite list_lookup_insert_ne by done. apply Hin. lia.
    + rewrite !list_lookup_insert_ne by lia. apply Hout. lia.
Qed.

Lemma fill_word_cells color :
  0 <= color < 256 ->
  u16 (fill_word color) = mk_cell color 32 /\
  u16 (Z.shiftr (fill_word color) 16) = mk_cell color 32 /\
  mk_cell color 32 = color * 256 + 32.
Proof.
  intros Hc.
  pose proof (below_forallb 256 (fun c => (u16 (fill_word c) =? mk_cell c 32)
    && (u16 (Z.shiftr (fill_word c) 16) =? mk_cell c 32)
    && (mk_cell c 32 =? c * 256 + 32)) ltac:(vm_compute; reflexivity) color Hc) as H.
  simpl in H. rewrite !andb_true_iff, !Z.eqb_eq in H. tauto.
Qed.

(** The loop of [tty_fill_color] on a buffer of an even number of cells. *)
Lemma fill_loop color (m : list Z) n :
  0 <= color < 256 -> 0 <= n -> Z.of_nat (length m) = 2 * n ->
  for_range 0 n (fun i m => int_store m i (fill_word color)) m =
    Ok (replicate (length m) (mk_cell color 32)).
Proof.
  intros Hc Hn Hl. destruct (fill_word_cells color Hc) as (Hlo & Hhi & _).
  destruct (pair_loop (fun _ => mk_cell color 32)
    (fun i m => int_store m i (fill_word color)) 0 n m) as (m' & -> & Hlen & Hin & _); try lia.
  - intros i m' Hi Hlen _. rewrite int_store_ok by lia. by rewrite Hlo, Hhi.
  - f_equal. apply list_eq_same_length with (length m);
      [by rewrite length_replicate|done|]. intros j x y Hj Hx Hy.
    rewrite Hin in Hx by lia. apply lookup_replicate in Hy as [-> _]. congruence.
Qed.

(** The two loops of [tty_scroll] on a screen of [h] lines of [2 * k] cells. *)
Lemma scroll_loops k h (m : list Z) :
  0 < k -> 0 < h -> Z.of_nat (length m) = 2 * k * h ->
  Forall (fun c => 0 <= c < 2 ^ 16) m ->
  exists m1,
    for_range 0 (k * (h - 1)) (fun i m => v ← int_load m (i + k); int_store m i v) m = Ok m1 /\
    for_range (k * (h - 1)) (k * h) (fun i m => int_store m i 0) m1 =
      Ok (scroll_cells (2 * k) m).
Proof.
  intros Hk Hh Hl Hm. set (g := fun j => default 0 (m !! (j + Z.to_nat (2 * k))%nat)).
  assert (Hkh : k * h = k * (h - 1) + k) by lia. assert (0 <= k * (h - 1)) by nia.
  rewrite <- Z.mul_assoc, Hkh in Hl. rewrite Hkh.
  set (a := k * (h - 1)) in *. clearbody a. clear Hkh.
  destruct (pair_loop g (fun i m => v ← int_load m (i + k); int_store m i v)
    0 a m) as (m1 & E1 & L1 & I1 & O1); [lia..| |].
  - intros i m' Hi Hlen Hrest.
    destruct (lookup_lt_is_Some_2 m (Z.to_nat (2 * (i + k)))) as [lo Hlo]; [lia|].
    destruct (lookup_lt_is_Some_2 m (Z.to_nat (2 * (i + k) + 1))) as [hi Hhi]; [lia|].
    pose proof (Forall_lookup_1 _ _ _ _ Hm Hlo) as Rlo. pose proof (Forall_lookup_1 _ _ _ _ Hm Hhi) as Rhi.
    rewrite (int_load_ok m' (i + k) lo hi); [|lia|by rewrite Hrest by lia..|done]. simpl.
    rewrite int_store_ok by lia. rewrite unpack_lo, unpack_hi, wrap_small by (done || lia).
    unfold g. replace (Z.to_nat (2 * i + 1) + Z.to_nat (2 * k))%nat
      with (Z.to_nat (2 * (i + k) + 1)) by lia.
    replace (Z.to_nat (2 * i) + Z.to_nat (2 * k))%nat with (Z.to_nat (2 * (i + k))) by lia.
    by rewrite Hlo, Hhi.
  - exists m1. split; [done|].
    destruct (pair_loop (fun _ => 0) (fun i m => int_store m i 0) a (a + k) m1)
      as (m2 & -> & L2 & I2 & O2); [lia..| |].
    + intros i m' Hi Hlen _. by rewrite int_store_ok by lia.
    + f_equal. apply list_eq. intros j. unfold scroll_cells.
      destruct (decide (j < Z.to_nat (2 * a))%nat) as [Hj|Hj];
        [|destruct (decide (j < Z.to_nat (2 * (a + k)))%nat) as [Hj'|Hj']].
      * rewrite O2, I1, lookup_app_l, lookup_drop by (rewrite ?length_drop; lia).
        unfold g. rewrite Nat.add_comm.
        by destruct (lookup_lt_is_Some_2 m (Z.to_nat (2 * k) + j)%nat) as [x ->]; [lia|].
      * rewrite I2 by lia. rewrite lookup_app_r by (rewrite length_drop; lia).
        symmetry. apply lookup_replicate. split; [done|]. rewrite length_drop. lia.
      * rewrite !lookup_ge_None_2; [done| |lia].
        rewrite length_app, length_drop, length_replicate. lia.
Qed.

(** The cell of an ASCII character, and of a negative [char]. *)
Lemma mk_cell_value color ch :
  - 128 <= ch < 128 -> 0 <= color < 256 ->
  mk_cell color ch = if 0 <=? ch then color * 256 + ch else 0xFF * 256 + u8 ch.
Proof.
  intros Hch Hc. unfold mk_cell. rewrite Z.lor_comm. destruct (Z.leb_spec 0 ch).
  - rewrite lor_pack by lia. rewrite wrap_small by lia. lia.
  - assert (E : u8 ch = ch + 256).
    { unfold wrap. rewrite <- (Z.mod_add _ 1) by lia. apply Z.mod_small. lia. }
    assert (Hp : ch = Z.lor (u8 ch) (Z.shiftl (-1) 8)) by (rewrite lor_pack by lia; lia).
    rewrite Hp at 1. rewrite <- Z.lor_assoc, <- Z.shiftl_lor, Z.lor_m1_l, lor_pack by lia.
    unfold wrap at 1. rewrite <- (Z.mod_add _ 1) by lia. rewrite Z.mod_small; lia.
Qed.

(** ** Lemmas: geometry and frames *)
Lemma scroll_cells_length w (l : list Z) :
  0 <= w <= Z.of_nat (length l) -> length (scroll_cells w l) = length l.
Proof. intros H. unfold scroll_cells. rewrite length_app, length_drop, length_replicate. lia. Qed.

Lemma scroll_cells_u16 w (l : list Z) :
  Forall (fun c => 0 <= c < 2 ^ 16) l -> Forall (fun c => 0 <= c < 2 ^ 16) (scroll_cells w l).
Proof.
  intros H. apply Forall_app_2; [by apply Forall_drop|]. apply Forall_replicate. lia.
Qed.

(** [vt_ok] without the bound on the column. *)
Definition vt_body (w h : Z) (v : vt) : Prop :=
  0 <= vy v < h /\ 0 <= vcolor v < 256 /\
  Z.of_nat (length (vcells v)) = w * h /\ Forall (fun c => 0 <= c < 2 ^ 16) (vcells v).

Lemma vt_newline_ok w h v : 0 < w -> vt_body w h v -> vt_ok w h (vt_newline w h v).
Proof.
  intros Hw (Hy & Hc & Hl & Hu). unfold vt_newline.
  destruct (Z.ltb_spec (vy v + 1) h); unfold vt_ok; simpl; [auto with lia|].
  rewrite scroll_cells_length by nia. split; [lia|]. split; [lia|]. split; [done|].
  split; [done|]. by apply scroll_cells_u16.
Qed.

Lemma vt_put_ok w h ch v : vt_ok w h v -> vt_ok w h (vt_put w h ch v).
Proof.
  intros (Hx & Hy & Hc & Hl & Hu). unfold vt_put.
  assert (Hu' : Forall (fun c => 0 <= c < 2 ^ 16)
    (<[Z.to_nat (vy v * w + vx v) := mk_cell (vcolor v) ch]> (vcells v))).
  { apply Forall_insert; [done|]. by apply wrap_range. }
  destruct (Z.ltb_spec (vx v + 1) w); [|apply vt_newline_ok; [lia|]];
    unfold vt_ok, vt_body; simpl; rewrite length_insert; auto with lia.
Qed.

Lemma frame_refl id st : frame id st st.
Proof. unfold frame. eauto 10. Qed.

Lemma frame_trans id st1 st2 st3 : frame id st1 st2 -> frame id st2 st3 -> frame id st1 st3.
Proof.
  intros (A1 & A2 & A3 & A4 & A5 & A6 & A7) (B1 & B2 & B3 & B4 & B5 & B6 & B7).
  unfold frame. repeat split; try congruence.
  - intros j Hj. rewrite B6, A6; done.
  - intros t Ht. destruct (A7 t Ht) as (t1 & Ht1 & El1).
    destruct (B7 t1 Ht1) as (t2 & Ht2 & El2). exists t2. split; [done|congruence].
Qed.

Lemma frame_set_dev id st d : frame id st (set_dev st d).
Proof. unfold frame. simpl. eauto 10. Qed.

Lemma frame_put id st t t' :
  ttys st !! id = Some t -> tlock t' = tlock t -> frame id st (put_tty st id t').
Proof.
  intros Ht Hl. unfold frame, put_tty, set_ttys. simpl. repeat split; try done.
  - intros j Hj. by rewrite list_lookup_insert_ne.
  - intros t0 Ht0. exists t'. rewrite list_lookup_insert_eq by (by eapply lookup_lt_Some).
    split; [done|congruence].
Qed.

Lemma frame_st_ok id st st' t : ttys st !! id = Some t -> frame id st st' -> st_ok st -> st_ok st'.
Proof.
  intros Ht (A1 & A2 & A3 & A4 & A5 & A6 & A7) (H1 & H2 & H3 & H4 & H5 & i & ti & Hi & Hti).
  unfold st_ok. rewrite A1, A3, A4. repeat split; try done.
  exists i. destruct (decide (i = id)) as [->|Hne].
  - destruct (A7 _ Ht) as (t' & Ht' & _). eauto.
  - exists ti. split; [done|]. by rewrite A6.
Qed.

Lemma yields_ok id st v : Inv st id v -> yields (Ok st) id st v.
Proof. intros H. exists st. split; [done|]. split; [done|apply frame_refl]. Qed.

Lemma yields_dev id st v d : Inv st id v -> yields (Ok (set_dev st d)) id st v.
Proof.
  intros [Hok Hs]. eexists. split; [done|]. split; [|apply frame_set_dev].
  split; [|done]. destruct Hs as [l Hl]. eapply frame_st_ok; eauto using frame_set_dev.
Qed.

Lemma yields_bind id st v v' (r : res kst) f :
  yields r id st v ->
  (forall st', Inv st' id v -> frame id st st' -> yields (f st') id st' v') ->
  yields (r ≫= f) id st v'.
Proof.
  intros (st1 & -> & HI & HF) Hf. simpl. destruct (Hf st1 HI HF) as (st2 & -> & HI2 & HF2).
  exists st2. split; [done|]. split; [done|]. by eapply frame_trans.
Qed.

(** Replacing the terminal's fields, the lock apart. *)
Lemma yields_put id st v v' l :
  Inv st id v -> ttys st !! id = Some (mk_tty l (vx v) (vy v) (vcolor v) (Some (vcells v))) ->
  yields (Ok (put_tty st id (mk_tty l (vx v') (vy v') (vcolor v') (Some (vcells v'))))) id st v'.
Proof.
  intros [Hok Hs] Hl. eexists. split; [done|].
  assert (HF : frame id st (put_tty st id (mk_tty l (vx v') (vy v') (vcolor v') (Some (vcells v')))))
    by (by eapply frame_put).
  split; [|done]. split; [by eapply frame_st_ok|].
  exists l. simpl. apply list_lookup_insert_eq. by eapply lookup_lt_Some.
Qed.

Lemma get_tty_ok st id t : ttys st !! id = Some t -> get_tty st id = Ok t.
Proof. intros H. unfold get_tty. by rewrite H. Qed.

Lemma yields_cursor id st v : Inv st id v -> yields (tty_update_cursor_location st) id st v.
Proof.
  intros HI. unfold tty_update_cursor_location.
  destruct (drv_update_cursor_location _) as [f|]; [|by apply yields_ok].
  pose proof HI as [(_ & _ & _ & _ & _ & i & t & -> & Ht) _].
  rewrite (get_tty_ok _ _ _ Ht). simpl. by apply yields_dev.
Qed.

Lemma yields_refresh id st v : Inv st id v -> yields (refresh st id) id st v.
Proof.
  intros HI. unfold refresh. destruct (is_current st id); [|by apply yields_ok].
  apply (yields_bind _ _ v); [|intros st' HI' _; by apply yields_cursor].
  unfold rerender. destruct (drv_rerender _) as [f|]; [|by apply yields_ok].
  pose proof HI as [_ [l Hl]]. rewrite (get_tty_ok _ _ _ Hl). simpl. by apply yields_dev.
Qed.

Lemma yields_scroll id st v :
  Inv st id v -> Z.of_nat (length (vcells v)) = tty_width st * tty_height st ->
  Forall (fun c => 0 <= c < 2 ^ 16) (vcells v) ->
  yields (tty_scroll st id) id st
    (mk_vt (vx v) (vy v) (vcolor v) (scroll_cells (tty_width st) (vcells v))).
Proof.
  intros HI Hl Hu. pose proof HI as [((k & Hk) & Hw & Hh & Hwh & _) [l Ht]].
  unfold tty_scroll. rewrite (get_tty_ok _ _ _ Ht). simpl.
  rewrite (wrap_small 32 (tty_height st - 1)) by nia.
  rewrite !wrap_small by nia.
  assert (E1 : tty_width st * (tty_height st - 1) / 2 = k * (tty_height st - 1)).
  { rewrite Hk, <- Z.mul_assoc, Z.mul_comm. by apply Z.div_mul. }
  assert (E2 : tty_width st * tty_height st / 2 = k * tty_height st).
  { rewrite Hk, <- Z.mul_assoc, Z.mul_comm. by apply Z.div_mul. }
  assert (E3 : tty_width st / 2 = k) by (rewrite Hk, Z.mul_comm; by apply Z.div_mul).
  rewrite E1, E2, E3.
  destruct (scroll_loops k (tty_height st) (vcells v)) as (m1 & L1 & L2); [lia..|done|].
  rewrite L1. simpl. rewrite L2. simpl. set (v' := mk_vt _ _ _ _).
  destruct (yields_put id st v v' l HI Ht) as (st1 & [= <-] & HI1 & HF1).
  destruct (yields_refresh _ _ _ HI1) as (st2 & E & HI2 & HF2).
  exists st2. rewrite <- Hk in *. split; [exact E|]. split; [done|]. by eapply frame_trans.
Qed.

(** The state after one of these steps has the screen size it had before. *)
Lemma frame_size id st st' :
  frame id st st' -> tty_width st' = tty_width st /\ tty_height st' = tty_height st.
Proof. intros (_ & _ & Hw & Hh & _). done. Qed.

Lemma yields_newline id st v :
  Inv st id v -> vt_body (tty_width st) (tty_height st) v ->
  yields (tty_newline st id) id st (vt_newline (tty_width st) (tty_height st) v).
Proof.
  intros HI (Hy & Hc & Hl & Hu).
  pose proof HI as [(_ & Hw & Hh & Hwh & _) [l Ht]].
  unfold tty_newline. rewrite (get_tty_ok _ _ _ Ht). simpl. unfold set_xy. simpl.
  rewrite wrap_small by nia. unfold vt_newline.
  set (v1 := mk_vt 0 (vy v + 1) (vcolor v) (vcells v)).
  destruct (yields_put id st v v1 l HI Ht) as (st1 & [= E1] & HI1 & HF1).
  simpl in E1. rewrite E1. destruct (frame_size _ _ _ HF1) as [W1 H1].
  destruct (Z.leb_spec (tty_height st) (vy v + 1)); [rewrite (proj2 (Z.ltb_ge _ _)) by lia
    |rewrite (proj2 (Z.ltb_lt _ _)) by lia; exists st1; done].
  destruct (yields_scroll id st1 v1 HI1) as (st2 & -> & HI2 & HF2); [by rewrite W1, H1|done|].
  destruct (frame_size _ _ _ HF2) as [W2 H2].
  pose proof HI2 as [_ [l2 Ht2]]. simpl. rewrite (get_tty_ok _ _ _ Ht2). simpl.
  unfold set_xy. simpl. rewrite wrap_small by nia.
  destruct (yields_put id st2 _ (mk_vt 0 (tty_height st - 1) (vcolor v)
    (scroll_cells (tty_width st) (vcells v))) l2 HI2 Ht2) as (st3 & E3 & HI3 & HF3).
  exists st3. simpl in *. rewrite W1, H2, H1. split; [exact E3|]. split; [done|].
  eauto using frame_trans.
Qed.

Lemma yields_set_char id st v x y ch color :
  Inv st id v -> 0 <= x < tty_width st -> 0 <= y < tty_height st ->
  Z.of_nat (length (vcells v)) = tty_width st * tty_height st ->
  yields (tty_set_char st id x y ch color) id st
    (mk_vt (vx v) (vy v) (vcolor v)
       (<[Z.to_nat (y * tty_width st + x) := mk_cell color ch]> (vcells v))).
Proof.
  intros HI Hx Hy Hl. pose proof HI as [(_ & Hw & Hh & Hwh & _) [l Ht]].
  unfold tty_set_char. rewrite (get_tty_ok _ _ _ Ht). simpl.
  rewrite (wrap_small 32 (y * tty_width st)), wrap_small by nia.
  rewrite cell_store_ok by nia. simpl. rewrite (Z.add_comm x).
  rewrite (wrap_idemp 16 _ : u16 (mk_cell color ch) = mk_cell color ch).
  set (v1 := mk_vt _ _ _ _).
  destruct (yields_put id st v v1 l HI Ht) as (st1 & [= E1] & HI1 & HF1).
  unfold set_mem. simpl in *. rewrite E1.
  apply (yields_bind id st v1 v1 (Ok st1) (fun st' => _)); [by exists st1|].
  clear E1 HI1 HF1. intros st' HI1 _.
  destruct (is_current st' id); [|by apply yields_ok].
  destruct (drv_set_char _) as [f|]; [|by apply yields_ok].
  pose proof HI1 as [_ [l1 Ht1]]. rewrite (get_tty_ok _ _ _ Ht1). simpl. by apply yields_dev.
Qed.

Lemma yields_put_char id st v ch :
  Inv st id v -> vt_ok (tty_width st) (tty_height st) v ->
  yields (put_char st id ch) id st (vt_put (tty_width st) (tty_height st) ch v).
Proof.
  intros HI (Hx & Hy & Hc & Hl & Hu). pose proof HI as [(_ & Hw & _ & _ & Hw32 & _) [l Ht]].
  unfold put_char. rewrite (get_tty_ok _ _ _ Ht). simpl.
  eapply yields_bind; [by apply yields_set_char|].
  intros st1 HI1 HF1. destruct (frame_size _ _ _ HF1) as [W1 H1].
  pose proof HI1 as [_ [l1 Ht1]]. rewrite (get_tty_ok _ _ _ Ht1). simpl.
  unfold set_xy. simpl. rewrite wrap_small by lia. unfold vt_put.
  set (v2 := mk_vt (vx v + 1) _ _ _).
  destruct (yields_put id st1 _ v2 l1 HI1 Ht1) as (st2 & [= E2] & HI2 & HF2).
  simpl in E2. rewrite E2. destruct (frame_size _ _ _ HF2) as [W2 H2]. rewrite W1.
  destruct (Z.leb_spec (tty_width st) (vx v + 1)); [rewrite (proj2 (Z.ltb_ge _ _)) by lia
    |rewrite (proj2 (Z.ltb_lt _ _)) by lia; exists st2; done].
  destruct (yields_newline id st2 v2 HI2) as (st3 & E3 & HI3 & HF3).
  - rewrite W2, H2, W1, H1. unfold vt_body. simpl. rewrite length_insert.
    repeat split; try lia. apply Forall_insert; [done|]. by apply wrap_range.
  - exists st3. rewrite W2, H2, W1, H1 in HI3. split; [done|]. split; [done|].
    by eapply frame_trans.
Qed.

Lemma vt_cmd_ok w h v c :
  vt_ok w h v -> (forall k, c = CColor k -> 0 <= k < 256) -> vt_ok w h (vt_cmd w h v c).
Proof.
  intros Hv Hc. destruct c; simpl; [| |..].
  - destruct Hv as (Hx & Hy & _ & H). unfold vt_ok. simpl. eauto.
  - apply vt_newline_ok; [|by destruct Hv as (_ & H)]. destruct Hv. lia.
  - destruct Hv as (Hx & H). unfold vt_ok. simpl. split; [lia|done].
  - destruct Hv as (Hx & H). unfold vt_ok. simpl. split; [lia|done].
  - by apply vt_put_ok.
Qed.

Lemma parse_colors str : forall k, In (CColor k) (parse str) -> 0 <= k < 256.
Proof.
  remember (length str) as n eqn:Hn. assert (length str <= n)%nat as Hle by lia. clear Hn.
  revert str Hle. induction n as [|n IH]; intros [|c str] Hle k Hk; simpl in *; try lia; try done.
  destruct (c =? TTY_CMD_SET_COLOR).
  - destruct str as [|c' str]; [done|]. simpl in *. destruct Hk as [[= <-]|Hk].
    + by apply wrap_range.
    + apply (IH str); [lia|done].
  - destruct Hk as [Hk|Hk]; [|by apply (IH str); [lia|]].
    by repeat destruct (c =? _).
Qed.

Lemma vt_run_ok w h cs : forall v,
  vt_ok w h v -> (forall k, In (CColor k) cs -> 0 <= k < 256) -> vt_ok w h (vt_run w h v cs).
Proof.
  induction cs as [|c cs IH]; intros v Hv Hc; simpl; [done|].
  apply IH; [|intros k Hk; apply Hc; by right].
  apply vt_cmd_ok; [done|]. intros k ->. apply Hc. by left.
Qed.

(** What [print_loop] promises on the characters [str] from index [i] on. *)
Definition prints (r : res (Z * kst)) (id : nat) (st : kst) (v : vt) (n : Z) (cs : list cmd) : Prop :=
  exists st', r = Ok (u32 n, st') /\
    Inv st' id (vt_run (tty_width st) (tty_height st) v cs) /\ frame id st st'.

(** One character of [print_loop]: the state changes as the command says. *)
Lemma prints_step id st v (r : res kst) c f n cs :
  vt_ok (tty_width st) (tty_height st) v ->
  (forall k, c = CColor k -> 0 <= k < 256) ->
  yields r id st (vt_cmd (tty_width st) (tty_height st) v c) ->
  (forall st' v', Inv st' id v' -> vt_ok (tty_width st') (tty_height st') v' ->
     prints (f st') id st' v' n cs) ->
  prints (r ≫= f) id st v n (c :: cs).
Proof.
  intros Hv Hk (st1 & -> & HI & HF) H. destruct (frame_size _ _ _ HF) as [W1 H1].
  destruct (H st1 _ HI) as (st2 & E & HI2 & HF2); [rewrite W1, H1; by apply vt_cmd_ok|].
  exists st2. rewrite W1, H1 in HI2. split; [done|]. split; [done|]. by eapply frame_trans.
Qed.

Lemma print_loop_ok id n : forall str st v i,
  (length str <= n)%nat ->
  Inv st id v -> vt_ok (tty_width st) (tty_height st) v ->
  prints (print_loop st id str (u32 i)) id st v (i + Z.of_nat (length str)) (parse str).
Proof.
  assert (Hnil : forall st v i j, Inv st id v -> u32 i = u32 j -> prints (Ok (u32 i, st)) id st v j []).
  { intros st v i j HI ->. exists st. split; [done|]. split; [done|apply frame_refl]. }
  induction n as [|n IH]; intros [|c str] st v i Hle HI Hv; simpl in Hle; try lia;
    [apply Hnil; [done|by rewrite Z.add_0_r]..|].
  pose proof HI as [_ [l Ht]]. cbn [print_loop parse].
  replace (i + Z.of_nat (length (c :: str))) with (i + 1 + Z.of_nat (length str)) by (simpl; lia).
  rewrite (get_tty_ok _ _ _ Ht), !wrap_add_l.
  assert (Hgo : forall st' v', Inv st' id v' -> vt_ok (tty_width st') (tty_height st') v' ->
    prints (print_loop st' id str (u32 (i + 1))) id st' v' (i + 1 + Z.of_nat (length str)) (parse str))
    by (intros; apply IH; [lia|done..]).
  destruct (c =? TTY_CMD_SET_COLOR).
  { destruct str as [|c' str]; [apply Hnil; [done|f_equal; simpl; lia]|].
    eapply (prints_step id st v (Ok _) (CColor (u8 c')) (fun st' => print_loop st' id str _));
      [done| |by apply (yields_put id st v (mk_vt (vx v) (vy v) (u8 c') (vcells v)) l)|].
    - intros k [= <-]. by apply wrap_range.
    - intros st' v' HI' Hv'.
      replace (i + 1 + Z.of_nat (length (c' :: str))) with (i + 1 + 1 + Z.of_nat (length str))
        by (simpl; lia).
      apply IH; [simpl in Hle; lia|done..]. }
  destruct (c =? 10).
  { eapply prints_step; [done|done| |exact Hgo].
    apply yields_newline; [done|]. by destruct Hv. }
  destruct (c =? 13); [|destruct (c =? 8)].
  - eapply (prints_step id st v (Ok _) CReturn (fun st' => print_loop st' id str _));
      [done|done|by apply (yields_put id st v (mk_vt 0 (vy v) (vcolor v) (vcells v)) l)|exact Hgo].
  - eapply (prints_step id st v (Ok _) CBackspace (fun st' => print_loop st' id str _));
      [done|done| |exact Hgo].
    simpl. replace (if vx v =? 0 then vx v else vx v - 1) with (Z.max 0 (vx v - 1)).
    + by apply (yields_put id st v (mk_vt (Z.max 0 (vx v - 1)) (vy v) (vcolor v) (vcells v)) l).
    + destruct Hv as [Hx _]. destruct (Z.eqb_spec (vx v) 0); lia.
  - eapply prints_step; [done|done| |exact Hgo]. by apply yields_put_char.
Qed.

Lemma tty_print_ok id st v str :
  Inv st id v -> vt_ok (tty_width st) (tty_height st) v ->
  prints (tty_print st id str) id st v (Z.of_nat (length str)) (parse str).
Proof.
  intros HI Hv. destruct (print_loop_ok id (length str) str st v 0 ltac:(lia) HI Hv)
    as (st1 & E & HI1 & HF1).
  unfold tty_print. change 0 with (u32 0). rewrite E. simpl.
  destruct (is_current st1 id); [|by exists st1].
  destruct (yields_cursor _ _ _ HI1) as (st2 & -> & HI2 & HF2).
  exists st2. split; [done|]. split; [done|]. by eapply frame_trans.
Qed.

(** ** Lemmas: filling, initialising, padding *)
Lemma yields_fill_color id st v color :
  Inv st id v -> vt_ok (tty_width st) (tty_height st) v -> 0 <= color < 256 ->
  yields (tty_fill_color st id color) id st
    (mk_vt 0 0 (vcolor v)
       (replicate (length (vcells v)) (color * 256 + 32))).
Proof.
  intros HI (_ & _ & _ & Hl & _) Hc.
  pose proof HI as [((k & Hk) & Hw & Hh & Hwh & _) [l Ht]].
  unfold tty_fill_color. rewrite (get_tty_ok _ _ _ Ht). simpl.
  rewrite wrap_small by nia.
  assert (E : tty_width st * tty_height st / 2 = k * tty_height st).
  { rewrite Hk, <- Z.mul_assoc, Z.mul_comm. by apply Z.div_mul. }
  rewrite E, fill_loop by nia. simpl.
  destruct (fill_word_cells color Hc) as (_ & _ & ->).
  set (v' := mk_vt 0 0 _ _).
  destruct (yields_put id st v v' l HI Ht) as (st1 & [= E1] & HI1 & HF1).
  unfold set_xy, set_mem. simpl in *. rewrite E1.
  destruct (yields_refresh _ _ _ HI1) as (st2 & E2 & HI2 & HF2).
  exists st2. split; [done|]. split; [done|]. by eapply frame_trans.
Qed.

(** The process keeps terminal [id] whatever the device does. *)
Definition owns (st : kst) (id : nat) : Prop := forall d, tty_current_process (set_dev st d) = id.

Lemma owns_current st id : owns st id -> tty_current_process st = id.
Proof. intros H. specialize (H (dev st)). by destruct st. Qed.

Lemma owns_frame id st st' : frame id st st' -> owns st id -> owns st' id.
Proof.
  intros (_ & Hc & _) H d. specialize (H d). unfold tty_current_process in *. simpl in *.
  by rewrite Hc.
Qed.

Lemma kprint_ok id st v str :
  owns st id -> Inv st id v -> vt_ok (tty_width st) (tty_height st) v ->
  prints (kprint st str) id st v (Z.of_nat (length str)) (parse str).
Proof. intros Ho HI Hv. unfold kprint. rewrite (owns_current _ _ Ho). by apply tty_print_ok. Qed.

(** [vt_ok] after a print, at the size of the state that results. *)
Lemma vt_ok_print id st st' v str :
  frame id st st' -> vt_ok (tty_width st) (tty_height st) v ->
  vt_ok (tty_width st') (tty_height st') (vt_run (tty_width st) (tty_height st) v (parse str)).
Proof.
  intros HF Hv. destruct (frame_size _ _ _ HF) as [-> ->].
  apply vt_run_ok; [done|]. intros k. apply parse_colors.
Qed.

Lemma pad_loop_ok id n : forall fuel st v b i,
  (n < fuel)%nat -> 0 <= i -> i + Z.of_nat n = b -> b < 256 ->
  owns st id -> Inv st id v -> vt_ok (tty_width st) (tty_height st) v ->
  yields (pad_loop fuel st b i) id st
    (vt_run (tty_width st) (tty_height st) v (replicate n (CPut 32))).
Proof.
  induction n as [|n IH]; intros [|fuel] st v b i Hf Hi Hb Hb256 Ho HI Hv; try lia; simpl.
  - rewrite (proj2 (Z.ltb_ge i b)) by lia. by apply yields_ok.
  - rewrite (proj2 (Z.ltb_lt i b)) by lia.
    destruct (kprint_ok id st v [32] Ho HI Hv) as (st1 & -> & HI1 & HF1). simpl.
    rewrite wrap_small by lia.
    destruct (IH fuel st1 _ b (i + 1) ltac:(lia) ltac:(lia) ltac:(lia) Hb256
      (owns_frame _ _ _ HF1 Ho) HI1 (vt_ok_print _ _ _ _ _ HF1 Hv)) as (st2 & -> & HI2 & HF2).
    destruct (frame_size _ _ _ HF1) as [W1 H1]. rewrite W1, H1 in HI2.
    exists st2. split; [done|]. split; [done|]. by eapply frame_trans.
Qed.

(** The 8-bit counter never reaches a bound above 255. *)
Lemma pad_loop_diverges id fuel : forall st v b i,
  0 <= i < 256 -> 255 < b ->
  owns st id -> Inv st id v -> vt_ok (tty_width st) (tty_height st) v ->
  pad_loop fuel st b i = Fuel.
Proof.
  induction fuel as [|fuel IH]; intros st v b i Hi Hb Ho HI Hv; [done|]. simpl.
  rewrite (proj2 (Z.ltb_lt i b)) by lia.
  destruct (kprint_ok id st v [32] Ho HI Hv) as (st1 & -> & HI1 & HF1). simpl.
  eapply IH; eauto using owns_frame, vt_ok_print. by apply wrap_range.
Qed.

Definition pad_count (w : Z) (str : list Z) (ok : bool) : Z :=
  u32 (w - u32 (Z.of_nat (length str)) - (if ok then 4 else 6)).

(** Message, padding, label, and the colour the message left. *)
Definition vt_ok_fail (w h : Z) (v : vt) (str : list Z) (ok : bool) : vt :=
  let v1 := vt_run w h v (parse str) in
  let v2 := vt_run w h v1 (replicate (Z.to_nat (pad_count w str ok)) (CPut 32)) in
  let v3 := vt_run w h v2 (parse (label ok)) in
  mk_vt (vx v3) (vy v3) (vcolor v2) (vcells v3).

Lemma parse_spaces n : parse (replicate n 32) = replicate n (CPut 32).
Proof. induction n as [|n IH]; [done|]. simpl. by rewrite IH. Qed.

Lemma yields_ok_fail fuel id st v str ok :
  pad_count (tty_width st) str ok < 256 -> (256 <= fuel)%nat ->
  owns st id -> Inv st id v -> vt_ok (tty_width st) (tty_height st) v ->
  exists st', kprint_ok_fail fuel st str ok = Ok (tty_width st, st') /\
    Inv st' id (vt_ok_fail (tty_width st) (tty_height st) v str ok) /\ frame id st st'.
Proof.
  intros Hb Hf Ho HI Hv. unfold kprint_ok_fail.
  destruct (kprint_ok id st v str Ho HI Hv) as (st1 & -> & HI1 & HF1). simpl.
  pose proof (owns_frame _ _ _ HF1 Ho) as Ho1. pose proof (vt_ok_print _ _ _ _ str HF1 Hv) as Hv1.
  destruct (frame_size _ _ _ HF1) as [W1 H1]. rewrite W1.
  change (u32 (tty_width st - u32 (Z.of_nat (length str)) - (if ok then 4 else 6)))
    with (pad_count (tty_width st) str ok).
  set (n := Z.to_nat (pad_count (tty_width st) str ok)).
  assert (Hn : 0 <= pad_count (tty_width st) str ok) by (apply wrap_range; lia).
  destruct (pad_loop_ok id n fuel st1 _ (pad_count (tty_width st) str ok) 0
    ltac:(lia) ltac:(lia) ltac:(lia) Hb Ho1 HI1 Hv1) as (st2 & -> & HI2 & HF2).
  pose proof (owns_frame _ _ _ HF2 Ho1) as Ho2.
  pose proof (vt_ok_print _ _ _ _ (replicate n 32) HF2 Hv1) as Hv2. rewrite parse_spaces in Hv2.
  simpl. unfold kget_color. rewrite (owns_current _ _ Ho2).
  pose proof HI2 as [_ [l2 Ht2]]. rewrite (get_tty_ok _ _ _ Ht2). simpl.
  destruct (kprint_ok id st2 _ (label ok) Ho2 HI2 Hv2) as (st3 & E3 & HI3 & HF3).
  rewrite E3. simpl. unfold kset_color. rewrite (owns_current _ _ (owns_frame _ _ _ HF3 Ho2)).
  destruct (frame_size _ _ _ HF2) as [W2 H2]. destruct (frame_size _ _ _ HF3) as [W3 H3].
  rewrite W2, H2, W1, H1 in HI3. pose proof HI3 as [_ [l3 Ht3]].
  rewrite (get_tty_ok _ _ _ Ht3). simpl.
  destruct (yields_put id st3 _ (vt_ok_fail (tty_width st) (tty_height st) v str ok) l3 HI3 Ht3)
    as (st4 & E4 & HI4 & HF4).
  exists st4. split; [|split; [done|]; eauto using frame_trans].
  injection E4 as <-. simpl. by rewrite W3, W2, ?W1, ?H1, ?W1.
Qed.

(** A driver whose [init] gives each terminal a buffer of the screen's size, with
    the contents [P]. *)
Definition drv_ok (P : nat -> list Z -> Prop) (drv : tty_driver) : Prop :=
  (exists k, drv_width drv = 2 * k) /\ 0 < drv_width drv < 2 ^ 32 - 1 /\ 0 < drv_height drv /\
  drv_width drv * drv_height drv < 2 ^ 32 /\
  exists f, drv_init drv = Some f /\ forall t i d, exists m d', f t i d = (set_mem t m, d') /\
    Z.of_nat (length m) = drv_width drv * drv_height drv /\ Forall (fun c => 0 <= c < 2 ^ 16) m /\ P i m.

(** A terminal as [tty_init] and the driver leave it. *)
Definition fresh (P : nat -> list Z -> Prop) (drv : tty_driver) (st : kst) (id : nat) : Prop :=
  exists m, shows st id (mk_vt 0 0 TTY_COLOR_DEFAULT m) /\
    vt_ok (drv_width drv) (drv_height drv) (mk_vt 0 0 TTY_COLOR_DEFAULT m) /\ P id m.

Lemma fresh_put P drv st i j t : fresh P drv st j -> j <> i -> fresh P drv (put_tty st i t) j.
Proof.
  intros (m & [l Hl] & Hm) Hne. exists m. split; [|done]. exists l. simpl.
  by rewrite list_lookup_insert_ne.
Qed.

Lemma init_one_ok P drv st i :
  drv_ok P drv -> driver st = drv -> (i < length (ttys st))%nat ->
  exists t d, init_one st i = Ok (set_dev (put_tty st i t) d) /\
    fresh P drv (set_dev (put_tty st i t) d) i.
Proof.
  intros (_ & Hw & Hh & _ & f & Hf & Hinit) Hd Hi. unfold init_one, get_tty.
  destruct (lookup_lt_is_Some_2 (ttys st) i Hi) as [t0 Ht0]. rewrite Ht0. simpl.
  rewrite Hd, Hf, list_lookup_insert_eq by done. simpl.
  destruct (Hinit (tty_init t0) i (dev st)) as (m & d' & -> & Hm & Hu & HP).
  exists (set_mem (tty_init t0) m), d'. split.
  - unfold put_tty, set_dev, set_ttys. simpl. by rewrite list_insert_insert_eq.
  - exists m. split.
    + eexists. simpl. by rewrite list_lookup_insert_eq.
    + split; [|done]. unfold vt_ok. simpl. split; [lia|]. split; [lia|]. split; [|done].
      unfold TTY_COLOR_DEFAULT. vm_compute. split; congruence.
Qed.

Lemma init_loop_ok P drv st :
  drv_ok P drv -> driver st = drv -> length (ttys st) = TTY_COUNT ->
  exists st', for_range 0 (Z.of_nat TTY_COUNT) (fun i st => init_one st (Z.to_nat i)) st = Ok st' /\
    length (ttys st') = TTY_COUNT /\ driver st' = drv /\
    current_screen st' = current_screen st /\ current_tty st' = current_tty st /\
    tty_width st' = tty_width st /\ tty_height st' = tty_height st /\
    (forall j, (j < TTY_COUNT)%nat -> fresh P drv st' j).
Proof.
  intros Hdrv Hd Hl.
  destruct (for_range_inv (fun i s => length (ttys s) = TTY_COUNT /\ driver s = drv /\
    current_screen s = current_screen st /\ current_tty s = current_tty st /\
    tty_width s = tty_width st /\ tty_height s = tty_height st /\
    (forall j, (j < Z.to_nat i)%nat -> fresh P drv s j))
    (fun i st => init_one st (Z.to_nat i)) 0 (Z.of_nat TTY_COUNT) st)
    as (st' & -> & H); [lia| | |].
  - repeat split; try done. simpl. lia.
  - intros i s Hi (Hs & Hds & H1 & H2 & H3 & H4 & Hfr).
    destruct (init_one_ok P drv s (Z.to_nat i) Hdrv Hds ltac:(lia)) as (t & d & -> & Hnew).
    eexists. split; [done|]. simpl. rewrite length_insert. do 6 (split; [done|]).
    intros j Hj. destruct (decide (j = Z.to_nat i)) as [->|Hne]; [done|].
    destruct (fresh_put P drv s (Z.to_nat i) j t) as (m & Hm); [apply Hfr; lia|done|].
    by exists m.
  - exists st'. rewrite Nat2Z.id in H. tauto.
Qed.

(** Switching to another terminal keeps every terminal as it is. *)
Lemma tty_switch_ok st id :
  (id < length (ttys st))%nat ->
  exists d, tty_switch st id = Ok (set_dev (set_screen st id) d).
Proof.
  intros Hid. destruct (lookup_lt_is_Some_2 _ _ Hid) as [t Ht]. unfold tty_switch, is_current.
  case_bool_decide as Hc.
  { exists (dev st). destruct st. simpl in *. by subst. }
  unfold tty_update_cursor_location, get_tty. simpl. rewrite Ht.
  destruct (drv_switch_handler (driver st)) as [f|]; simpl;
    destruct (drv_update_cursor_location (driver st)) as [g|];
    simpl; rewrite ?Ht; simpl; eexists; try done; by destruct st.
Qed.

(** ** Properties *)

(** C1. [tty_print] on a terminal that shows the abstract terminal [v] always
    finishes without leaving the character buffer, answers the length of the
    string, changes no other terminal, and leaves the terminal showing what the
    commands of the string make of [v]: colours, new lines that scroll, carriage
    returns, backspaces and characters that wrap. *)
Theorem tty_print_refines (st : kst) (id : nat) (v : vt) (str : list Z) :
  st_ok st -> shows st id v -> vt_ok (tty_width st) (tty_height st) v ->
  exists st', tty_print st id str = Ok (u32 (Z.of_nat (length str)), st') /\
    shows st' id (vt_run (tty_width st) (tty_height st) v (parse str)) /\
    vt_ok (tty_width st') (tty_height st') (vt_run (tty_width st) (tty_height st) v (parse str)) /\
    st_ok st' /\ (forall j, j <> id -> ttys st' !! j = ttys st !! j).
Proof.
  intros Hok Hs Hv.
  destruct (tty_print_ok id st v str (conj Hok Hs) Hv) as (st' & E & [Hok' Hs'] & HF).
  exists st'. split; [done|]. split; [done|]. split; [by eapply vt_ok_print|].
  split; [done|]. apply HF.
Qed.

(** C32. [init_tty] with a driver that gives the terminals their buffers puts the
    module in the state the other operations expect: terminal 0 on the screen, and
    eight terminals with the cursor at the origin and the default colour, each
    showing the cells its driver put into its buffer, whatever is known of them
    ([P]). *)
Theorem init_tty_establishes (P : nat -> list Z -> Prop) (st : kst) (drv : tty_driver) :
  drv_ok P drv -> length (ttys st) = TTY_COUNT ->
  exists st', init_tty st drv = Ok st' /\ st_ok st' /\ current_screen st' = Some default_tty /\
    length (ttys st') = TTY_COUNT /\ tty_width st' = drv_width drv /\ tty_height st' = drv_height drv /\
    (forall id, (id < TTY_COUNT)%nat -> exists m, shows st' id (mk_vt 0 0 TTY_COLOR_DEFAULT m) /\
       vt_ok (tty_width st') (tty_height st') (mk_vt 0 0 TTY_COLOR_DEFAULT m) /\ P id m).
Proof.
  intros Hdrv Hl. unfold init_tty. set (st0 := mk_kst _ _ _ _ _ _ _).
  destruct (init_loop_ok P drv st0 Hdrv eq_refl Hl)
    as (st1 & -> & L1 & D1 & C1 & T1 & W1 & H1 & F1). simpl.
  destruct (tty_switch_ok st1 default_tty) as (d & ->); [by rewrite L1; vm_compute; lia|].
  eexists. split; [done|]. simpl in *.
  destruct Hdrv as (Hk & Hw & Hh & Hwh & _).
  split; [|split; [done|split; [done|split; [done|split; [done|]]]]].
  - unfold st_ok. simpl. rewrite W1, H1. repeat split; try done; try lia.
    destruct (F1 default_tty) as (m & [l Hm] & _); [vm_compute; lia|]. eauto.
  - intros id Hid. rewrite W1, H1. exact (F1 id Hid).
Qed.

(** [tty_fill_color] turns every cell of the buffer into a blank of the given
    colour and puts the cursor at the origin. *)
Theorem tty_fill_color_blanks (st : kst) (id : nat) (v : vt) (color : Z) :
  st_ok st -> shows st id v -> vt_ok (tty_width st) (tty_height st) v -> 0 <= color < 256 ->
  exists st', tty_fill_color st id color = Ok st' /\
    shows st' id (mk_vt 0 0 (vcolor v)
      (replicate (Z.to_nat (tty_width st * tty_height st)) (color * 256 + 32))) /\
    st_ok st' /\ (forall j, j <> id -> ttys st' !! j = ttys st !! j).
Proof.
  intros Hok Hs Hv Hc.
  destruct (yields_fill_color id st v color (conj Hok Hs) Hv Hc) as (st' & E & [Hok' Hs'] & HF).
  destruct Hv as (_ & _ & _ & Hl & _). rewrite <- Hl, Nat2Z.id.
  exists st'. split; [done|]. split; [done|]. split; [done|]. apply HF.
Qed.

(** [tty_set_char] of an ASCII character stores the character under the
    colour it is given; of a character above 127, which is a negative [char], it
    stores colour 0xFF whatever the colour was. *)
Theorem tty_set_char_cell (st : kst) (id : nat) (v : vt) (x y ch color : Z) :
  st_ok st -> shows st id v -> vt_ok (tty_width st) (tty_height st) v ->
  0 <= x < tty_width st -> 0 <= y < tty_height st -> - 128 <= ch < 128 -> 0 <= color < 256 ->
  exists st', tty_set_char st id x y ch color = Ok st' /\
    shows st' id (mk_vt (vx v) (vy v) (vcolor v)
      (<[Z.to_nat (y * tty_width st + x) :=
          if 0 <=? ch then color * 256 + ch else 0xFF * 256 + u8 ch]> (vcells v))).
Proof.
  intros Hok Hs (_ & _ & _ & Hl & _) Hx Hy Hch Hc.
  destruct (yields_set_char id st v x y ch color (conj Hok Hs) Hx Hy Hl) as (st' & E & [_ Hs'] & _).
  exists st'. split; [done|].
  by rewrite <- mk_cell_value.
Qed.

(** C36. [kprint_ok_fail] prints the message, pads the line and ends with the
    coloured label, giving back the screen width and the colour the message left,
    when the padding it computes is below 256; when it is not, as for every
    message too long for the line, the loop never ends. *)
Theorem kprint_ok_fail_pads_or_hangs (st : kst) (id : nat) (v : vt) (str : list Z) (ok : bool) :
  st_ok st -> shows st id v -> vt_ok (tty_width st) (tty_height st) v -> owns st id ->
  let n := pad_count (tty_width st) str ok in
  (n < 256 -> forall fuel, (256 <= fuel)%nat ->
     exists st', kprint_ok_fail fuel st str ok = Ok (tty_width st, st') /\
       shows st' id (vt_ok_fail (tty_width st) (tty_height st) v str ok)) /\
  (256 <= n -> forall fuel, kprint_ok_fail fuel st str ok = Fuel).
Proof.
  intros Hok Hs Hv Ho n. split; intros Hn fuel.
  - intros Hf. destruct (yields_ok_fail fuel id st v str ok Hn Hf Ho (conj Hok Hs) Hv)
      as (st' & E & [_ Hs'] & _). by exists st'.
  - unfold kprint_ok_fail.
    destruct (kprint_ok id st v str Ho (conj Hok Hs) Hv) as (st1 & -> & HI1 & HF1). simpl.
    destruct (frame_size _ _ _ HF1) as [W1 H1].
    rewrite (pad_loop_diverges id fuel st1 _ _ 0) by
      (first [lia | eassumption | rewrite W1; unfold n, pad_count in Hn; lia
             | by eapply owns_frame | by eapply vt_ok_print]). done.
Qed.

End Tty.

(** ** Witnesses *)

(** A device that logs the callbacks, on a screen of 2 lines of 4 columns. *)
#[export] Instance demo_env : TtyEnv (list Z) := {|
  spinlock := bool;
  spinlock_init := false;
  spinlock_wait_and_lock l := if l : bool then Fuel else Ok true;
  spinlock_release _ := false;
  thread_current _ := None;
  utoh x := [Z.shiftr x 4 mod 16 + 48; x mod 16 + 48];
  utob x := [x mod 2 + 48];
  itos x := [x mod 10 + 48];
  utos x := [x mod 10 + 48];
  ultoh x := [x mod 16 + 48];
  btoh x := [x mod 16 + 48]
|}.

Definition demo_driver : tty_driver (D := list Z) :=
  mk_driver 4 2 (Some (fun t _ d => (set_mem t (replicate 8 0x0720), d)))
    (Some (fun i _ d => d ++ [Z.of_nat i; 1])) None
    (Some (fun i _ d => d ++ [Z.of_nat i; 2])) None.

Definition demo_vt : vt := mk_vt 0 0 7 (replicate 8 0x0720).

Definition demo_tty : tty (D := list Z) := mk_tty false 0 0 7 (Some (replicate 8 0x0720)).

Definition demo_st : kst (D := list Z) :=
  mk_kst (replicate TTY_COUNT demo_tty) (Some 0%nat) None 4 2 demo_driver [].

Lemma demo_st_ok : st_ok demo_st.
Proof.
  unfold st_ok. simpl. split; [by exists 2|]. repeat split; try lia. by exists 0%nat, demo_tty.
Qed.

Lemma demo_shows : shows demo_st 1 demo_vt.
Proof. by exists false. Qed.

Lemma demo_vt_ok : vt_ok 4 2 demo_vt.
Proof. unfold vt_ok. simpl. repeat split; try lia. repeat constructor; lia. Qed.

(** ["ab"], a red ["c"], a new line and ["d"]. *)
Lemma tty_print_refines_witness :
  exists st', tty_print demo_st 1 [97; 98; 1; 4; 99; 10; 100] = Ok (7, st') /\
    shows st' 1 (mk_vt 1 1 4 [0x761; 0x762; 0x463; 0x720; 0x464; 0x720; 0x720; 0x720]).
Proof.
  destruct (tty_print_refines demo_st 1 demo_vt [97; 98; 1; 4; 99; 10; 100]
    demo_st_ok demo_shows demo_vt_ok) as (st' & E & Hs & _).
  exists st'. split; [exact E|exact Hs].
Defined.

Lemma init_tty_establishes_witness :
  exists st', init_tty demo_st demo_driver = Ok st' /\ st_ok st' /\
    forall id, (id < TTY_COUNT)%nat -> shows st' id demo_vt.
Proof.
  destruct (init_tty_establishes (fun _ m => m = replicate 8 0x0720) demo_st demo_driver)
    as (st' & E & Hok & _ & _ & _ & _ & Hs).
  - split; [by exists 2|]. simpl. repeat split; try lia. eexists. split; [reflexivity|].
    intros t i d. exists (replicate 8 0x0720), d. split; [reflexivity|]. split; [reflexivity|].
    split; [repeat constructor; lia|reflexivity].
  - reflexivity.
  - exists st'. split; [exact E|]. split; [exact Hok|]. intros id Hid.
    destruct (Hs id Hid) as (m & Hm & _ & ->). exact Hm.
Defined.

Lemma tty_fill_color_blanks_witness :
  exists st', tty_fill_color demo_st 1 0x47 = Ok st' /\ shows st' 1 (mk_vt 0 0 7 (replicate 8 0x4720)).
Proof.
  destruct (tty_fill_color_blanks demo_st 1 demo_vt 0x47 demo_st_ok demo_shows demo_vt_ok)
    as (st' & E & Hs & _); [lia|].
  exists st'. split; [exact E|exact Hs].
Defined.

(** Character 0xE9 on colour 7. *)
Lemma tty_set_char_cell_witness :
  exists st', tty_set_char demo_st 1 2 0 (-23) 7 = Ok st' /\
    shows st' 1 (mk_vt 0 0 7 [0x720; 0x720; 0xFFE9; 0x720; 0x720; 0x720; 0x720; 0x720]).
Proof.
  destruct (tty_set_char_cell demo_st 1 demo_vt 2 0 (-23) 7 demo_st_ok demo_shows demo_vt_ok)
    as (st' & E & Hs); [simpl; lia..|].
  exists st'. split; [exact E|exact Hs].
Defined.

(** On this narrow screen even the empty message and ["[FAIL]"] do not fit. *)
Lemma kprint_ok_fail_pads_or_hangs_witness :
  (exists st', kprint_ok_fail 256 demo_st [] true = Ok (4, st')) /\
  kprint_ok_fail 1000 demo_st [] false = Fuel.
Proof.
  assert (H : shows demo_st 0 demo_vt) by (by exists false).
  assert (Ho : owns demo_st 0) by done.
  split.
  - destruct (kprint_ok_fail_pads_or_hangs demo_st 0 demo_vt [] true demo_st_ok H demo_vt_ok Ho)
      as [Hfit _]. destruct (Hfit ltac:(vm_compute; reflexivity) 256%nat ltac:(lia)) as (st' & E & _).
    exists st'. exact E.
  - apply (proj2 (kprint_ok_fail_pads_or_hangs demo_st 0 demo_vt [] false
      demo_st_ok H demo_vt_ok Ho)). vm_compute. discriminate.
Defined.
