(* ===== verification/Consoles.v ===== *)
(** Sequences of console calls: the interface [kernel/tty.h] gives to the rest of the
    kernel.

    [call] has a constructor for each function of the interface that draws, prints,
    switches or selects; [exec] runs it.  The others are [init_tty] and [tty_init],
    which make a table and take a terminal's buffer away, and the two that take and
    release a lock, which can wait for ever.  A table is well formed ([wf]) when it
    has the eight terminals, each with a buffer of the size of the screen and its
    cursor inside, and the screen and the current terminal are among them. *)

From S2P Require Import Prelude Mem Tty.

Section Consoles.
Context {D : Type} `{!TtyEnv D}.
Implicit Types st : kst (D := D).

Inductive call :=
  | Print (id : nat) (str : list Z)
  | FillColor (id : nat) (color : Z)
  | Clear (id : nat)
  | Scroll (id : nat)
  | Newline (id : nat)
  | SetChar (id : nat) (x y ch color : Z)
  | SetString (id : nat) (x_offset y_offset width : Z) (str : list Z) (color : Z)
  | Switch (id : nat)
  | SetCurrent (o : option nat)
  | KPrint (str : list Z)
  | KPutChar (ch : Z)
  | KFillColor (color : Z)
  | KClear
  | KSetColor (color : Z)
  | KPrintHex (x : Z) | KPrintBin (x : Z) | KPrintInt (x : Z) | KPrintUint (x : Z)
  | KPrintHexLong (x : Z) | KPrintByte (x : Z)
  | KPrintOkFail (str : list Z) (ok : bool)
  | UpdateCursorLocation.

(** The state a call leaves, without the number of characters it printed. *)
Definition state_of (r : res (Z * kst (D := D))) : res (kst (D := D)) := '(_, st) ← r; Ok st.

Definition exec (c : call) st : res (kst (D := D)) :=
  match c with
  | Print id str => state_of (tty_print st id str)
  | FillColor id color => tty_fill_color st id color
  | Clear id => tty_clear st id
  | Scroll id => tty_scroll st id
  | Newline id => tty_newline st id
  | SetChar id x y ch color => tty_set_char st id x y ch color
  | SetString id x y width str color => tty_set_string st id x y width str color
  | Switch id => tty_switch st id
  | SetCurrent o => Ok (tty_set_current st o)
  | KPrint str => state_of (kprint st str)
  | KPutChar ch => kput_char st ch
  | KFillColor color => kfill_color st color
  | KClear => kclear st
  | KSetColor color => kset_color st color
  | KPrintHex x => state_of (kprint_hex st x)
  | KPrintBin x => state_of (kprint_bin st x)
  | KPrintInt x => state_of (kprint_int st x)
  | KPrintUint x => state_of (kprint_uint st x)
  | KPrintHexLong x => state_of (kprint_hex_long st x)
  | KPrintByte x => state_of (kprint_byte st x)
  | KPrintOkFail str ok => state_of (kprint_ok_fail 256 st str ok)
  | UpdateCursorLocation => tty_update_cursor_location st
  end.

Fixpoint exec_all (cs : list call) st : res (kst (D := D)) :=
  match cs with
  | [] => Ok st
  | c :: cs' => st ← exec c st; exec_all cs' st
  end.

(** What a caller has to respect on a screen of [w] columns and [h] lines: terminals
    that exist, cells on the screen, colours of a byte, and for the label a padding
    its 8-bit counter can count. *)
Definition valid (w h : Z) (c : call) : Prop :=
  match c with
  | Print id _ | Clear id | Scroll id | Newline id | Switch id => (id < TTY_COUNT)%nat
  | FillColor id color => (id < TTY_COUNT)%nat /\ 0 <= color < 256
  | SetChar id x y _ _ => (id < TTY_COUNT)%nat /\ 0 <= x < w /\ 0 <= y < h
  | SetString id x y width str _ =>
      (id < TTY_COUNT)%nat /\ 0 <= x /\ 0 <= y /\ 0 < width /\
      forall i, 0 <= i < Z.of_nat (length str) -> x + i mod width < w /\ y + i / width < h
  | SetCurrent o => forall id, o = Some id -> (id < TTY_COUNT)%nat
  | KFillColor color | KSetColor color => 0 <= color < 256
  | KPrintOkFail str ok => pad_count w str ok < 256
  | _ => True
  end.

(** The terminal of a thread is one of the eight. *)
Hypothesis threads_have_terminals : forall d id, thread_current d = Some id -> (id < TTY_COUNT)%nat.

Record wf st : Prop := {
  wf_ok : st_ok st;
  wf_count : length (ttys st) = TTY_COUNT;
  wf_current : forall id, current_tty st = Some id -> (id < TTY_COUNT)%nat;
  wf_tty : forall id, (id < TTY_COUNT)%nat ->
    exists v, shows st id v /\ vt_ok (tty_width st) (tty_height st) v
}.

(** A call of which the table is well formed afterwards, at the same size. *)
Definition safe st (r : res (kst (D := D))) : Prop :=
  exists st', r = Ok st' /\ wf st' /\ tty_width st' = tty_width st /\ tty_height st' = tty_height st.

Lemma safe_inv st id : wf st -> (id < TTY_COUNT)%nat ->
  exists v, Inv st id v /\ vt_ok (tty_width st) (tty_height st) v.
Proof. intros H Hid. destruct (wf_tty _ H id Hid) as (v & Hs & Hv). exists v. split; [split|]; [apply H|done|done]. Qed.

Lemma same_size {X} (l l' : list X) :
  (forall j, is_Some (l' !! j) <-> is_Some (l !! j)) -> length l' = length l.
Proof.
  intros H. apply Nat.le_antisymm; apply Nat.nlt_ge; intros Hlt.
  - apply lookup_lt_is_Some in Hlt. apply H, lookup_lt_is_Some in Hlt. lia.
  - apply lookup_lt_is_Some in Hlt. apply H, lookup_lt_is_Some in Hlt. lia.
Qed.

(** An operation on one terminal keeps the others. *)
Lemma wf_frame st id v v' st' :
  wf st -> Inv st id v -> Inv st' id v' -> frame id st st' -> vt_ok (tty_width st) (tty_height st) v' -> wf st'.
Proof.
  intros [H1 H2 H3 H4] [_ [l Hl]] [Hok' Hs'] (F1 & F2 & F3 & F4 & F5 & F6 & F7) Hv'. split.
  - done.
  - rewrite <- H2. apply same_size. intros j. destruct (decide (j = id)) as [->|Hne]; [|by rewrite F6].
    destruct Hs' as [l' Hl']. by rewrite Hl, Hl'.
  - by rewrite F2.
  - intros j Hj. rewrite F3, F4. destruct (decide (j = id)) as [->|Hne]; [by exists v'|].
    destruct (H4 j Hj) as (w & [lw Hw] & Hok). exists w. split; [|done]. exists lw. by rewrite F6.
Qed.

Lemma safe_yields st id v v' r :
  wf st -> Inv st id v -> yields r id st v' -> vt_ok (tty_width st) (tty_height st) v' -> safe st r.
Proof.
  intros H HI (st' & -> & HI' & HF) Hv. exists st'. split; [done|].
  split; [by eapply wf_frame|by apply (frame_size id)].
Qed.

Lemma safe_bind st r f :
  safe st r -> (forall st', wf st' -> tty_width st' = tty_width st -> tty_height st' = tty_height st -> safe st' (f st')) ->
  safe st (r ≫= f).
Proof.
  intros (st1 & -> & H1 & W1 & E1) Hf. cbn [mbind res_bind].
  destruct (Hf st1 H1 W1 E1) as (st2 & -> & H2 & W2 & E2). exists st2.
  split; [done|]. split; [done|]. by rewrite W2, E2.
Qed.

(** Printing, and the same after another print. *)
Definition printing st (r : res (Z * kst (D := D))) : Prop := exists n, exists st', r = Ok (n, st') /\ safe st (Ok st').

Lemma print_safe st id str : wf st -> (id < TTY_COUNT)%nat -> printing st (tty_print st id str).
Proof.
  intros H Hid. destruct (safe_inv st id H Hid) as (v & HI & Hv).
  destruct (tty_print_ok id st v str HI Hv) as (st' & -> & HI' & HF). eexists _, st'. split; [done|].
  eapply (safe_yields st id v); [done|done|by exists st'|].
  apply vt_run_ok; [done|]. apply parse_colors.
Qed.

Lemma process_below st : wf st -> (tty_current_process st < TTY_COUNT)%nat.
Proof.
  intros H. unfold tty_current_process. destruct (current_tty st) eqn:E; [by apply H|].
  destruct (thread_current (dev st)) eqn:E'; [by eapply threads_have_terminals|]. unfold default_tty, TTY_COUNT. lia.
Qed.

Lemma kprint_safe st str : wf st -> printing st (kprint st str).
Proof. intros H. apply print_safe; [done|]. by apply process_below. Qed.

Lemma state_of_safe st r : printing st r -> safe st (state_of r).
Proof. by intros (n & st' & -> & H). Qed.

Lemma printing_bind st r f :
  printing st r ->
  (forall n st', wf st' -> tty_width st' = tty_width st -> tty_height st' = tty_height st -> printing st' (f (n, st'))) ->
  printing st (r ≫= f).
Proof.
  intros (n & st1 & -> & (? & [= <-] & H1 & W1 & E1)) Hf. cbn [mbind res_bind].
  destruct (Hf n st1 H1 W1 E1) as (n2 & st2 & -> & (? & [= <-] & H2 & W2 & E2)).
  exists n2, st2. split; [done|]. exists st2. by rewrite W2, E2.
Qed.

Lemma printing_ok st n : wf st -> printing st (Ok (n, st)).
Proof. intros H. exists n, st. split; [done|]. by exists st. Qed.

Lemma prefixed_safe st prefix digits : wf st -> printing st (kprint_prefixed st prefix digits).
Proof.
  intros H. unfold kprint_prefixed. apply printing_bind; [by apply kprint_safe|]. intros n st1 H1 _ _.
  apply printing_bind; [by apply kprint_safe|]. intros m st2 H2 _ _. by apply printing_ok.
Qed.

Lemma kprint_bind_safe st str f :
  wf st -> printing st ('(n, st) ← kprint st str; Ok (f n, st)).
Proof.
  intros H. apply printing_bind; [by apply kprint_safe|]. intros n st1 H1 _ _. by apply printing_ok.
Qed.

Lemma fill_safe st id color : wf st -> (id < TTY_COUNT)%nat -> 0 <= color < 256 -> safe st (tty_fill_color st id color).
Proof.
  intros H Hid Hc. destruct (safe_inv st id H Hid) as (v & HI & Hv).
  eapply (safe_yields st id v); [done|done|by apply yields_fill_color|].
  destruct Hv as (Hx & Hy & Hcol & Hl & _). unfold vt_ok. simpl. rewrite length_replicate.
  split_and!; try lia. apply Forall_replicate. lia.
Qed.

Lemma newline_safe st id : wf st -> (id < TTY_COUNT)%nat -> safe st (tty_newline st id).
Proof.
  intros H Hid. destruct (safe_inv st id H Hid) as (v & HI & Hv). pose proof Hv as (Hx & Hb).
  eapply (safe_yields st id v); [done|done|by apply yields_newline|]. apply vt_newline_ok; [lia|done].
Qed.

Lemma scroll_safe st id : wf st -> (id < TTY_COUNT)%nat -> safe st (tty_scroll st id).
Proof.
  intros H Hid. destruct (safe_inv st id H Hid) as (v & HI & Hv). destruct Hv as (Hx & Hy & Hc & Hl & Hu).
  eapply (safe_yields st id v); [done|done|by apply yields_scroll|].
  unfold vt_ok. simpl. rewrite scroll_cells_length by nia. split_and!; try lia. by apply scroll_cells_u16.
Qed.

Lemma set_char_safe st id x y ch color :
  wf st -> (id < TTY_COUNT)%nat -> 0 <= x < tty_width st -> 0 <= y < tty_height st ->
  safe st (tty_set_char st id x y ch color).
Proof.
  intros H Hid Hx Hy. destruct (safe_inv st id H Hid) as (v & HI & Hv). destruct Hv as (Hvx & Hvy & Hc & Hl & Hu).
  eapply (safe_yields st id v); [done|done|by apply yields_set_char|].
  unfold vt_ok. simpl. rewrite length_insert. split_and!; try lia. apply Forall_insert; [done|]. by apply wrap_range.
Qed.

Lemma set_string_safe id x y width color str : forall i st,
  wf st -> (id < TTY_COUNT)%nat -> 0 <= x -> 0 <= y -> 0 < width -> 0 <= i ->
  (forall k, i <= k < i + Z.of_nat (length str) -> x + k mod width < tty_width st /\ y + k / width < tty_height st) ->
  safe st (set_string_loop st id x y width str color i).
Proof.
  induction str as [|c str IH]; intros i st H Hid Hx Hy Hw Hi Hb; simpl; [by exists st|].
  rewrite (proj2 (Z.eqb_neq width 0)) by lia. simpl in Hb.
  destruct (Hb i ltac:(lia)) as [Bx By]. pose proof (wf_ok _ H) as (_ & W & E & WE & W32 & _).
  pose proof (Z.mod_pos_bound i width Hw). pose proof (Z.div_pos i width Hi Hw).
  rewrite !wrap_small by nia. apply safe_bind; [apply set_char_safe; [done|done|lia|lia]|].
  intros st1 Hst1 W1 E1. apply IH; [done..|lia|]. intros k Hk. rewrite W1, E1. apply Hb. lia.
Qed.

Lemma switch_safe st id : wf st -> (id < TTY_COUNT)%nat -> safe st (tty_switch st id).
Proof.
  intros H Hid. destruct (tty_switch_ok st id) as [d ->]; [by rewrite (wf_count _ H)|].
  eexists. split; [reflexivity|]. split; [|done]. destruct H as [(E1 & E2 & E3 & E4 & E5 & _) H2 H3 H4].
  split; [|done|done|exact H4]. repeat split; try done.
  destruct (H4 id Hid) as (v & [l Hl] & _). eexists id, _. split; [done|exact Hl].
Qed.

Lemma set_color_safe st color : wf st -> 0 <= color < 256 -> safe st (kset_color st color).
Proof.
  intros H Hc. pose proof (process_below st H) as Hid. unfold kset_color.
  destruct (safe_inv st _ H Hid) as (v & HI & Hv). pose proof HI as [_ [l Hl]].
  rewrite (get_tty_ok _ _ _ Hl). cbn [mbind res_bind].
  eapply (safe_yields st _ v (mk_vt (vx v) (vy v) color (vcells v))); [done|done|exact (yields_put _ _ _ (mk_vt (vx v) (vy v) color (vcells v)) l HI Hl)|].
  destruct Hv as (Hx & Hy & _ & Hl' & Hu). unfold vt_ok. simpl. split_and!; lia || done.
Qed.

Lemma set_current_safe st o :
  wf st -> (forall id, o = Some id -> (id < TTY_COUNT)%nat) -> safe st (Ok (tty_set_current st o)).
Proof. intros [H1 H2 H3 H4] Ho. eexists. split; [reflexivity|]. split; [|done]. by split. Qed.

Lemma printing_safe st r f :
  printing st r -> (forall n st', wf st' -> tty_width st' = tty_width st -> tty_height st' = tty_height st -> safe st' (f (n, st'))) ->
  safe st (r ≫= f).
Proof.
  intros (n & st1 & -> & (? & [= <-] & H1 & W1 & E1)) Hf. cbn [mbind res_bind].
  destruct (Hf n st1 H1 W1 E1) as (st2 & E & H2 & W2 & E2). exists st2. by rewrite E, W2, E2.
Qed.

Lemma pad_loop_safe n : forall fuel st b i,
  (n < fuel)%nat -> 0 <= i -> i + Z.of_nat n = b -> b < 256 -> wf st -> safe st (pad_loop fuel st b i).
Proof.
  induction n as [|n IH]; intros [|fuel] st b i Hf Hi Hb Hb256 H; try lia; cbn [pad_loop].
  - rewrite (proj2 (Z.ltb_ge i b)) by lia. by exists st.
  - rewrite (proj2 (Z.ltb_lt i b)) by lia. apply printing_safe; [by apply kprint_safe|].
    intros m st1 H1 _ _. rewrite wrap_small by lia. apply IH; done || lia.
Qed.

Lemma get_color_ok st : wf st -> exists c, kget_color st = Ok c /\ 0 <= c < 256.
Proof.
  intros H. destruct (safe_inv st _ H (process_below st H)) as (v & [_ [l Hl]] & (_ & _ & Hc & _)).
  unfold kget_color. rewrite (get_tty_ok _ _ _ Hl). cbn [mbind res_bind]. by eexists.
Qed.

Lemma int_safe st str : wf st -> printing st ('(n, st) ← kprint st str; Ok (u8 n, st)).
Proof. apply (kprint_bind_safe st str u8). Qed.

Lemma ok_fail_safe st str ok :
  wf st -> pad_count (tty_width st) str ok < 256 -> safe st (state_of (kprint_ok_fail 256 st str ok)).
Proof.
  intros H Hp. apply state_of_safe. unfold kprint_ok_fail.
  destruct (safe_inv st _ H (process_below st H)) as (v & HI & Hv).
  destruct (tty_print_ok _ st v str HI Hv) as (st1 & E1 & _ & _).
  destruct (kprint_safe st str H) as (n & st1' & E1' & (? & [= <-] & H1 & W1 & Hh1)).
  assert (Ek : kprint st str = Ok (u32 (Z.of_nat (length str)), st1)) by exact E1.
  rewrite Ek in E1' |- *. injection E1' as <- <-. cbn [mbind res_bind]. rewrite W1.
  change (u32 (tty_width st - u32 (Z.of_nat (length str)) - (if ok then 4 else 6)))
    with (pad_count (tty_width st) str ok).
  assert (Hn : 0 <= pad_count (tty_width st) str ok) by (apply wrap_range; lia).
  destruct (pad_loop_safe (Z.to_nat (pad_count (tty_width st) str ok)) 256 st1 (pad_count (tty_width st) str ok) 0)
    as (st2 & E2 & H2 & W2 & Hh2); [lia..|done|]. rewrite E2. cbn [mbind res_bind].
  destruct (get_color_ok st2 H2) as (c & -> & Hc). cbn [mbind res_bind].
  destruct (kprint_safe st2 (label ok) H2) as (k & st3 & -> & (? & [= <-] & H3 & W3 & Hh3)). cbn [mbind res_bind].
  destruct (set_color_safe st3 c H3 Hc) as (st4 & -> & H4 & W4 & Hh4). cbn [mbind res_bind].
  eexists _, st4. split; [reflexivity|]. exists st4.
  split; [done|]. split; [done|]. by rewrite W4, W3, W2, W1, Hh4, Hh3, Hh2, Hh1.
Qed.

Lemma update_cursor_safe st : wf st -> safe st (tty_update_cursor_location st).
Proof.
  intros [H1 H2 H3 H4]. unfold tty_update_cursor_location.
  destruct (drv_update_cursor_location (driver st)) as [f|]; [|by exists st].
  destruct H1 as (E1 & E2 & E3 & E4 & E5 & (id & t & Hs & Ht)). rewrite Hs.
  unfold get_tty. rewrite Ht. cbn [mbind res_bind]. eexists. split; [reflexivity|]. split; [|done].
  split; [|done..]. repeat split; try done. by exists id, t.
Qed.

#[local] Hint Resolve ok_fail_safe update_cursor_safe state_of_safe print_safe kprint_safe prefixed_safe int_safe fill_safe newline_safe
  scroll_safe switch_safe set_color_safe set_current_safe process_below : core.

Lemma exec_safe c st : wf st -> valid (tty_width st) (tty_height st) c -> safe st (exec c st).
Proof.
  intros H Hc. destruct c; simpl in *; try match type of Hc with _ /\ _ => destruct Hc as [Hid Hc] end; unfold kclear, kfill_color, tty_clear;
    eauto using Z.le_refl.
  - apply fill_safe; [done|done|lia].
  - apply set_char_safe; tauto.
  - destruct Hc as (Hx & Hy & Hw & Hb). apply set_string_safe; [done..|lia|]. intros k Hk. apply Hb. lia.
  - apply state_of_safe, kprint_safe, H.
  - apply fill_safe; [done|by apply process_below|lia].
  - by apply state_of_safe, prefixed_safe.
  - by apply state_of_safe, prefixed_safe.
  - by apply state_of_safe, int_safe.
  - by apply state_of_safe, int_safe.
  - by apply state_of_safe, prefixed_safe.
  - by apply state_of_safe, prefixed_safe.
Qed.

(** C2. Calls that respect the screen never fail, whatever their order: from a
    well-formed table of terminals every sequence of drawing, printing, switching
    and selecting calls that are [valid] ends, in a well-formed table of the same
    size.  For the label of [kprint_ok_fail] a call is valid when its padding is below
    256: beyond it the call never ends. *)
Theorem console_calls_safe (cs : list call) st :
  wf st -> Forall (valid (tty_width st) (tty_height st)) cs ->
  exists st', exec_all cs st = Ok st' /\ wf st' /\
    tty_width st' = tty_width st /\ tty_height st' = tty_height st.
Proof.
  revert st. induction cs as [|c cs IH]; intros st H Hcs; simpl; [by exists st|].
  apply list.Forall_cons in Hcs as [Hc Hcs].
  apply (safe_bind st (exec c st) (exec_all cs)); [by apply exec_safe|].
  intros st1 H1 W1 E1. apply IH; [done|]. by rewrite W1, E1.
Qed.
End Consoles.

(** On the small screen of [Tty]'s examples: text that scrolls, a string laid out in
    two columns, another terminal to the front, and a number in hexadecimal. *)
Definition demo_calls : list call :=
  [Print 1 [97; 98; 10; 99; 10; 100]; SetString 0 1 0 2 [120; 121; 122] 7; Switch 1; KPrintHex 0x4F; Scroll 3;
   SetCurrent (Some 2%nat); KFillColor 0x47; KPutChar 33; KPrintOkFail [] true; UpdateCursorLocation].

Lemma demo_wf : wf demo_st.
Proof.
  split; [exact demo_st_ok|reflexivity|done|].
  intros id Hid. exists demo_vt. split; [|exact demo_vt_ok]. exists false.
  exact (lookup_replicate_2 TTY_COUNT demo_tty id Hid).
Qed.

Lemma console_calls_safe_witness :
  exists st', exec_all demo_calls demo_st = Ok st' /\ wf st' /\ current_screen st' = Some 1%nat.
Proof.
  assert (T : forall (d : list Z) id, thread_current d = Some id -> (id < TTY_COUNT)%nat) by (intros d id [=]).
  destruct (console_calls_safe T demo_calls demo_st demo_wf) as (st' & E & H & _).
  - unfold demo_calls. repeat apply list.Forall_cons_2; simpl; unfold TTY_COUNT; try lia; [| |by vm_compute|by constructor].
    + split_and!; try lia. intros i Hi.
      assert (i = 0 \/ i = 1 \/ i = 2) as [-> | [-> | ->]] by lia; vm_compute; done.
    + intros id [= <-]. lia.
  - exists st'. split; [exact E|]. split; [exact H|].
    pose proof (f_equal (fun r => match r with Ok st => current_screen st | _ => None end) E) as C.
    symmetry. etransitivity; [|exact C]. vm_compute. reflexivity.
Defined.
