(* ===== verification/Interrupt.v ===== *)
(** [include/interrupt.c] and [include/interrupt.h]: the interrupt dispatcher.

    The registered handlers, [syscall_dispatch], [send_eoi], [get_pid] and
    [mm_page_fault_va] are not part of the repository: handlers are functions on
    the saved frame and the terminals' state, the others the fields of
    [InterruptEnv].  The exception path prints on the default terminal through the
    functions of [Tty] and then halts the processor. *)

From S2P Require Import Prelude Mem Tty.

(** ** interrupt.h *)
Record interrupt_frame := mk_frame {
  isr_esp : Z; gs : Z; fs : Z; es : Z; ds : Z;
  edi : Z; esi : Z; ebp : Z; unused : Z; ebx : Z; edx : Z; ecx : Z; eax : Z;
  errorcode : Z; eip : Z; cs : Z; eflags : Z; esp : Z; ss : Z
}.

Definition INTERRUPT_VECTOR_IRQ0 := 0x20.
Definition INTERRUPT_VECTOR_IRQ7 := INTERRUPT_VECTOR_IRQ0 + 7.
Definition INTERRUPT_VECTOR_IRQ8 := 0x28.
Definition INTERRUPT_VECTOR_IRQ15 := INTERRUPT_VECTOR_IRQ8 + 7.
Definition INTERRUPT_VECTOR_IRQ_COUNT : nat := 16.
Definition INTERRUPT_EXCEPTION_COUNT := 32.
Definition INTERRUPT_VECTOR_SYSCALL := 0x80.
Definition IRQ_MOUSE := 12.

Definition cpu_exception_strings : list String.string := [
  "#DE Divide-by-zero Error";
  "#DB Debug";
  "--- Non-maskable Interrupt";
  "#BP Breakpoint";
  "#OF Overflow";
  "#BR Bound Range Exceeded";
  "#UD Invalid Opcode";
  "#NM Device Not Available";
  "#DF Double Fault";
  "--- Coprocessor Segment Overrun";
  "#TS Invalid TSS";
  "#NP Segment Not Present";
  "#SS Stack-Segment Fault";
  "#GP General Protection Fault";
  "#PF Page Fault";
  "--- [Reserved]";
  "#MF x87 Floating-Point Exception";
  "#AC Alignment Check";
  "#MC Machine Check";
  "#XM/#XF SIMD Floating-Point Exception";
  "#VE Virtualization Exception";
  "--- [Reserved]";
  "--- [Reserved]";
  "--- [Reserved]";
  "--- [Reserved]";
  "--- [Reserved]";
  "--- [Reserved]";
  "--- [Reserved]";
  "--- [Reserved]";
  "--- [Reserved]";
  "#SX Security Exception";
  "--- [Reserved]"
]%string.

Section Interrupt.
Context {D : Type} `{!TtyEnv D}.

Class InterruptEnv := {
  syscall_dispatch : Z -> interrupt_frame -> kst (D := D) -> res (interrupt_frame * kst (D := D));
  send_eoi : Z -> D -> D;
  get_pid : D -> Z;
  mm_page_fault_va : D -> Z
}.
Context `{!InterruptEnv}.

(** A handler may change the frame it is given and the terminals. *)
Definition irq_handler : Type :=
  Z -> interrupt_frame -> kst (D := D) -> res (interrupt_frame * kst (D := D)).

Record ist := mk_ist {
  tts : kst (D := D);
  irq_handlers : list (option irq_handler)
}.

(** The handler returns to the interrupted code, or the processor is halted. *)
Inductive outcome :=
  | Return (frame : interrupt_frame) (s : ist)
  | Halted (s : ist).

Definition register_irq_handler (s : ist) (irq : Z) (h : option irq_handler) : res ist :=
  if (0 <=? irq) && (irq <? Z.of_nat (length (irq_handlers s))) then
    Ok (mk_ist (tts s) (<[Z.to_nat irq := h]> (irq_handlers s)))
  else Undef.

Definition eoi (irq : Z) (st : kst) : kst := set_dev st (send_eoi irq (dev st)).

Definition str (s : String.string) : list Z := str_bytes s.

(** What the dispatcher prints when nobody handles [irq]. *)
Definition report_unhandled (st : kst) (irq : Z) : res kst :=
  let st := tty_set_current st (Some default_tty) in
  '(_, st) ← kprint st (str "[KDEBUG] No handler for IRQ #");
  '(_, st) ← kprint_int st irq;
  '(_, st) ← kprint st [10];
  Ok (tty_set_current st None).

Definition get_handler (s : ist) (irq : Z) : option (option irq_handler) :=
  irq_handlers s !! Z.to_nat irq.

Definition irq_dispatch (s : ist) (irq : Z) (frame : interrupt_frame) : res (interrupt_frame * ist) :=
  match get_handler s irq with
  | None => Undef
  | Some (Some h) =>
      '(frame, st) ← h irq frame (tts s);
      Ok (frame, mk_ist (eoi irq st) (irq_handlers s))
  | Some None =>
      st ← (if 1 <=? irq then report_unhandled (tts s) irq else Ok (tts s));
      Ok (frame, mk_ist (eoi irq st) (irq_handlers s))
  end.

(** A call of the exception report: [kprint], [kprint_int] or [kprint_hex]. *)
Inductive piece :=
  | PStr (s : list Z)
  | PInt (x : Z)
  | PHex (x : Z).

Definition print_piece (st : kst) (p : piece) : res kst :=
  match p with
  | PStr s => '(_, st) ← kprint st s; Ok st
  | PInt x => '(_, st) ← kprint_int st x; Ok st
  | PHex x => '(_, st) ← kprint_hex st x; Ok st
  end.

Fixpoint print_pieces (st : kst) (ps : list piece) : res kst :=
  match ps with
  | [] => Ok st
  | p :: ps' => st ← print_piece st p; print_pieces st ps'
  end.

(** The calls in their order; [frame_addr] is [&frame].  The values of [get_pid]
    and [mm_page_fault_va] do not change while the terminal is being printed on,
    so they are read once. *)
Definition exception_report (vec : Z) (f : interrupt_frame) (frame_addr pid pfla : Z) : list piece :=
  [PStr (str "[pid="); PInt pid; PStr (str "] Exception #"); PInt vec; PStr (str ": ");
   PStr (str (nth (Z.to_nat vec) cpu_exception_strings ""%string)); PStr [10]] ++
  (if vec =? 14 then
     [PStr (str "-> page fault linear address="); PHex pfla;
      PStr (str ", flags="); PHex (errorcode f); PStr [10]]
   else []) ++
  [PStr (str "-> errorcode="); PHex (errorcode f); PStr (str ", frame="); PHex frame_addr;
   PStr ([10] ++ str "-> cs:eip="); PHex (cs f); PStr (str ":"); PHex (eip f);
   PStr (str ", eflags="); PHex (eflags f)] ++
  (if negb (Z.land (cs f) 3 =? 0) then
     [PStr ([10] ++ str "-> ss:esp="); PHex (ss f); PStr (str ":"); PHex (esp f)]
   else []) ++
  [PStr ([10] ++ str "-> eax="); PHex (eax f); PStr (str ", ebx="); PHex (ebx f);
   PStr (str ", ecx="); PHex (ecx f); PStr (str ", edx="); PHex (edx f);
   PStr ([10] ++ str "-> ebp="); PHex (ebp f); PStr (str ", esi="); PHex (esi f);
   PStr (str ", edi="); PHex (edi f); PStr (str ", isr_esp="); PHex (isr_esp f); PStr [10]].

Definition EXCEPTION_COLOR : Z := TTY_MKCOLOR TTY_COLOR_LIGHTGREY TTY_COLOR_RED.

Definition interrupt_handler (frame_addr : Z) (s : ist) (vec : Z) (frame : interrupt_frame)
    : res outcome :=
  if vec =? INTERRUPT_VECTOR_SYSCALL then
    '(frame, st) ← syscall_dispatch (eax frame) frame (tts s);
    Ok (Return frame (mk_ist st (irq_handlers s)))
  else if vec <? INTERRUPT_EXCEPTION_COUNT then
    st ← tty_switch (tts s) default_tty;
    let st := tty_set_current st (Some default_tty) in
    st ← kfill_color st EXCEPTION_COLOR;
    st ← kset_color st EXCEPTION_COLOR;
    st ← print_pieces st (exception_report vec frame frame_addr (get_pid (dev st))
                            (mm_page_fault_va (dev st)));
    Ok (Halted (mk_ist st (irq_handlers s)))
  else if (INTERRUPT_VECTOR_IRQ0 <=? vec) && (vec <=? INTERRUPT_VECTOR_IRQ7) then
    '(frame, s) ← irq_dispatch s (u8 (vec - INTERRUPT_VECTOR_IRQ0)) frame;
    Ok (Return frame s)
  else if (INTERRUPT_VECTOR_IRQ8 <=? vec) && (vec <=? INTERRUPT_VECTOR_IRQ15) then
    '(frame, s) ← irq_dispatch s (u8 (vec - INTERRUPT_VECTOR_IRQ8)) frame;
    Ok (Return frame s)
  else Ok (Return frame s).

#[local] Arguments exception_report : simpl never.
#[local] Opaque exception_report.

(** ** Lemmas *)

(** The strings a call prints, and the commands they amount to. *)
Definition piece_texts (p : piece) : list (list Z) :=
  match p with
  | PStr s => [s]
  | PInt x => [itos x]
  | PHex x => [[48; 120]; utoh x]
  end.

Definition piece_cmds (p : piece) : list cmd := flat_map parse (piece_texts p).

Lemma vt_run_app w h v cs1 cs2 : vt_run w h v (cs1 ++ cs2) = vt_run w h (vt_run w h v cs1) cs2.
Proof. apply fold_left_app. Qed.

Lemma texts_colors ts k : In (CColor k) (flat_map parse ts) -> 0 <= k < 256.
Proof. intros (t & _ & Ht)%in_flat_map. by eapply parse_colors. Qed.

Lemma pieces_colors ps k : In (CColor k) (flat_map piece_cmds ps) -> 0 <= k < 256.
Proof. intros (p & _ & Hp)%in_flat_map. by eapply texts_colors. Qed.

(** One [kprint] whose count is dropped, and what follows it. *)
Lemma yields_kprint id st v v' str (f : Z * kst -> res kst) :
  owns st id -> Inv st id v -> vt_ok (tty_width st) (tty_height st) v ->
  (forall n st', owns st' id -> Inv st' id (vt_run (tty_width st) (tty_height st) v (parse str)) ->
     vt_ok (tty_width st') (tty_height st') (vt_run (tty_width st) (tty_height st) v (parse str)) ->
     frame id st st' -> yields (f (n, st')) id st' v') ->
  yields (kprint st str ≫= f) id st v'.
Proof.
  intros Ho HI Hv Hf. destruct (kprint_ok id st v str Ho HI Hv) as (st1 & -> & HI1 & HF1). simpl.
  destruct (Hf (u32 (Z.of_nat (length str))) st1 (owns_frame _ _ _ HF1 Ho) HI1
    (vt_ok_print _ _ _ _ _ HF1 Hv) HF1) as (st2 & E & HI2 & HF2).
  exists st2. split; [done|]. split; [done|]. by eapply frame_trans.
Qed.

Lemma print_piece_ok id st v p :
  owns st id -> Inv st id v -> vt_ok (tty_width st) (tty_height st) v ->
  yields (print_piece st p) id st (vt_run (tty_width st) (tty_height st) v (piece_cmds p)).
Proof.
  intros Ho HI Hv. destruct p as [s|x|x]; unfold piece_cmds; simpl; rewrite app_nil_r.
  - eapply yields_kprint; eauto. intros n st1 _ HI1 _ _. by apply yields_ok.
  - destruct (kprint_ok id st v (itos x) Ho HI Hv) as (st1 & E1 & HI1 & HF1).
    unfold kprint_int. rewrite E1. simpl. by exists st1.
  - destruct (kprint_ok id st v [48; 120] Ho HI Hv) as (st1 & E1 & HI1 & HF1).
    pose proof (vt_ok_print _ _ _ _ [48; 120] HF1 Hv) as Hv1.
    destruct (kprint_ok id st1 _ (utoh x) (owns_frame _ _ _ HF1 Ho) HI1 Hv1)
      as (st2 & E2 & HI2 & HF2).
    destruct (frame_size _ _ _ HF1) as [W1 H1]. rewrite W1, H1 in HI2.
    unfold kprint_hex, kprint_prefixed. rewrite E1. simpl. rewrite E2. simpl.
    exists st2. split; [done|]. split; [done|]. by eapply frame_trans.
Qed.

Lemma print_pieces_ok id ps : forall st v,
  owns st id -> Inv st id v -> vt_ok (tty_width st) (tty_height st) v ->
  yields (print_pieces st ps) id st
    (vt_run (tty_width st) (tty_height st) v (flat_map piece_cmds ps)).
Proof.
  induction ps as [|p ps IH]; intros st v Ho HI Hv; simpl; [by apply yields_ok|].
  destruct (print_piece_ok id st v p Ho HI Hv) as (st1 & -> & HI1 & HF1). simpl.
  destruct (frame_size _ _ _ HF1) as [W1 H1].
  destruct (IH st1 _ (owns_frame _ _ _ HF1 Ho) HI1) as (st2 & -> & HI2 & HF2).
  - rewrite W1, H1. apply vt_run_ok; [done|]. apply texts_colors.
  - rewrite W1, H1, <- vt_run_app in HI2. exists st2. split; [done|]. split; [done|].
    by eapply frame_trans.
Qed.

Lemma get_handler_eq st l irq h :
  0 <= irq < Z.of_nat (length l) ->
  get_handler (mk_ist st (<[Z.to_nat irq := h]> l)) irq = Some h.
Proof. intros Hi. apply list_lookup_insert_eq. lia. Qed.

Lemma get_handler_ne s irq k h :
  0 <= k < irq ->
  get_handler (mk_ist (tts s) (<[Z.to_nat irq := h]> (irq_handlers s))) k = get_handler s k.
Proof. intros Hi. apply list_lookup_insert_ne. lia. Qed.

(** The state in which the exception report starts. *)
Lemma exception_screen st v :
  Inv st default_tty v -> vt_ok (tty_width st) (tty_height st) v ->
  exists st1 st2, tty_switch st default_tty = Ok st1 /\
    (st ← kfill_color (tty_set_current st1 (Some default_tty)) EXCEPTION_COLOR;
     kset_color st EXCEPTION_COLOR) = Ok st2 /\
    tty_width st2 = tty_width st /\ tty_height st2 = tty_height st /\
    current_screen st2 = Some default_tty /\ owns st2 default_tty /\
    Inv st2 default_tty (mk_vt 0 0 EXCEPTION_COLOR
      (replicate (Z.to_nat (tty_width st * tty_height st)) (EXCEPTION_COLOR * 256 + 32))).
Proof.
  intros [Hok [l Hl]] Hv.
  destruct (tty_switch_ok st default_tty) as (d & E); [by eapply lookup_lt_Some|].
  exists (set_dev (set_screen st default_tty) d).
  set (st1 := tty_set_current (set_dev (set_screen st default_tty) d) (Some default_tty)).
  assert (HI1 : Inv st1 default_tty v).
  { split; [|by exists l]. destruct Hok as (H1 & H2 & H3 & H4 & H5 & _).
    unfold st_ok. simpl. eauto 10. }
  destruct (yields_fill_color default_tty st1 v EXCEPTION_COLOR HI1 Hv ltac:(vm_compute; split; congruence))
    as (st2 & E2 & HI2 & HF2).
  unfold kfill_color. change (tty_current_process st1) with default_tty. rewrite E2. cbn [mbind res_bind].
  assert (Ho2 : owns st2 default_tty) by (by apply (owns_frame _ st1)).
  unfold kset_color. rewrite (owns_current _ _ Ho2).
  pose proof HI2 as [_ [l2 Hl2]]. rewrite (get_tty_ok _ _ _ Hl2). simpl.
  destruct (yields_put default_tty st2 _ (mk_vt 0 0 EXCEPTION_COLOR
    (replicate (length (vcells v)) (EXCEPTION_COLOR * 256 + 32))) l2 HI2 Hl2)
    as (st3 & E3 & HI3 & HF3).
  destruct (frame_size _ _ _ HF2) as [W2 H2]. destruct (frame_size _ _ _ HF3) as [W3 H3].
  destruct Hv as (_ & _ & _ & Hlen & _). rewrite <- Hlen, Nat2Z.id.
  exists st3. split; [exact E|]. split; [exact E3|]. simpl in W2, H2.
  split; [congruence|]. split; [congruence|].
  destruct HF2 as (C2 & _). pose proof HF3 as (C3 & _).
  split; [by rewrite C3, C2|]. split; [by apply (owns_frame _ st2)|done].
Qed.

(** ** Properties *)

(** C3. A processor exception ends in a halt with the default terminal on the screen,
    filled with the exception colour and showing the whole report: the process,
    the exception's name, the fault address for a page fault, the error code, the
    interrupted address, the interrupted stack when the code was not in ring 0,
    and the registers. *)
Theorem interrupt_handler_exception (addr : Z) (s : ist) (vec : Z) (f : interrupt_frame) (v : vt) :
  0 <= vec < INTERRUPT_EXCEPTION_COUNT ->
  st_ok (tts s) -> shows (tts s) default_tty v ->
  vt_ok (tty_width (tts s)) (tty_height (tts s)) v ->
  let w := tty_width (tts s) in let h := tty_height (tts s) in
  exists s' d, interrupt_handler addr s vec f = Ok (Halted s') /\
    current_screen (tts s') = Some default_tty /\ irq_handlers s' = irq_handlers s /\
    shows (tts s') default_tty
      (vt_run w h (mk_vt 0 0 EXCEPTION_COLOR (replicate (Z.to_nat (w * h)) (EXCEPTION_COLOR * 256 + 32)))
         (flat_map piece_cmds (exception_report vec f addr (get_pid d) (mm_page_fault_va d)))).
Proof.
  intros Hvec Hok Hs Hv w h.
  destruct (exception_screen (tts s) v (conj Hok Hs) Hv)
    as (st1 & st2 & E1 & E2 & W2 & H2 & C2 & Ho2 & HI2).
  unfold interrupt_handler, INTERRUPT_VECTOR_SYSCALL, INTERRUPT_EXCEPTION_COUNT in *.
  rewrite (proj2 (Z.eqb_neq vec _)), (proj2 (Z.ltb_lt vec _)) by lia.
  rewrite E1. cbn [mbind res_bind].
  destruct (kfill_color (tty_set_current st1 (Some default_tty)) EXCEPTION_COLOR) as [st1'| |];
    try done. cbn [mbind res_bind] in E2 |- *. rewrite E2. cbn [mbind res_bind].
  destruct (print_pieces_ok default_tty (exception_report vec f addr (get_pid (dev st2))
    (mm_page_fault_va (dev st2))) st2 _ Ho2 HI2) as (st3 & -> & [_ Hs3] & HF3).
  - rewrite W2, H2. destruct Hv as (Hx & Hy & _ & Hl & _). unfold vt_ok. simpl.
    rewrite length_replicate, Z2Nat.id by lia.
    assert (EXCEPTION_COLOR = 71) as -> by reflexivity.
    do 4 (split; [lia|]). apply Forall_replicate. lia.
  - cbn [mbind res_bind]. exists (mk_ist st3 (irq_handlers s)), (dev st2).
    split; [done|]. cbn [tts irq_handlers]. destruct HF3 as (C3 & _).
    split; [by rewrite C3, C2|]. split; [done|]. rewrite W2, H2 in Hs3. exact Hs3.
Qed.

(** The second interrupt controller's vectors are dispatched with numbers 0 to 7:
    each behaves in every state exactly like the corresponding vector of the
    first controller, so a handler registered for IRQ 8 to 15 (the mouse is 12)
    is never called: registering it changes no call's outcome. *)
Theorem interrupt_handler_slave_irqs (addr : Z) (s : ist) (frame : interrupt_frame) (k : Z) :
  0 <= k < 8 ->
  interrupt_handler addr s (INTERRUPT_VECTOR_IRQ8 + k) frame =
    interrupt_handler addr s (INTERRUPT_VECTOR_IRQ0 + k) frame /\
  (forall irq h s', 8 <= irq -> register_irq_handler s irq h = Ok s' ->
     interrupt_handler addr s' (INTERRUPT_VECTOR_IRQ8 + k) frame =
     match interrupt_handler addr s (INTERRUPT_VECTOR_IRQ8 + k) frame with
     | Ok (Return f r) => Ok (Return f (mk_ist (tts r) (irq_handlers s')))
     | Ok (Halted r) => Ok (Halted r)
     | Undef => Undef
     | Fuel => Fuel
     end).
Proof.
  intros Hk.
  assert (Hd : forall s, interrupt_handler addr s (INTERRUPT_VECTOR_IRQ8 + k) frame =
    ('(frame, s) ← irq_dispatch s k frame; Ok (Return frame s))).
  { intros s0. unfold interrupt_handler, INTERRUPT_VECTOR_SYSCALL, INTERRUPT_EXCEPTION_COUNT,
      INTERRUPT_VECTOR_IRQ15, INTERRUPT_VECTOR_IRQ7, INTERRUPT_VECTOR_IRQ8, INTERRUPT_VECTOR_IRQ0.
    zbool. simpl. by replace (u8 (40 + k - 40)) with k by (rewrite wrap_small; lia). }
  split.
  - rewrite Hd. unfold interrupt_handler, INTERRUPT_VECTOR_SYSCALL, INTERRUPT_EXCEPTION_COUNT,
      INTERRUPT_VECTOR_IRQ7, INTERRUPT_VECTOR_IRQ0.
    zbool. simpl. by replace (u8 (32 + k - 32)) with k by (rewrite wrap_small; lia).
  - intros irq h s' Hirq Hreg. rewrite !Hd. unfold register_irq_handler in Hreg.
    destruct (_ && _) eqn:E; [|done]. injection Hreg as <-.
    unfold irq_dispatch. rewrite get_handler_ne by lia. cbn [tts irq_handlers].
    destruct (get_handler s k) as [o|]; [|done]. destruct o as [g|].
    + destruct (g k frame (tts s)) as [p| |]; [by destruct p|done..].
    + destruct (1 <=? k); [|done]. by destruct (report_unhandled (tts s) k).
Qed.

(** C31. Any of the sixteen interrupt vectors calls the handler registered for its line
    modulo 8 once, with that number and the saved frame, and then acknowledges
    that number: lines 0 to 7 run their own handlers, and line [k + 8] runs the one
    of line [k]. *)
Theorem interrupt_handler_calls_registered (addr : Z) (s s1 : ist) (frame : interrupt_frame)
    (k : Z) (h : irq_handler) :
  0 <= k < Z.of_nat INTERRUPT_VECTOR_IRQ_COUNT -> register_irq_handler s (k mod 8) (Some h) = Ok s1 ->
  interrupt_handler addr s1 (INTERRUPT_VECTOR_IRQ0 + k) frame =
    ('(frame', st) ← h (k mod 8) frame (tts s);
     Ok (Return frame' (mk_ist (set_dev st (send_eoi (k mod 8) (dev st))) (irq_handlers s1)))).
Proof.
  unfold INTERRUPT_VECTOR_IRQ_COUNT. intros Hk Hreg.
  assert (interrupt_handler addr s1 (INTERRUPT_VECTOR_IRQ0 + k) frame =
    ('(frame, s) ← irq_dispatch s1 (k mod 8) frame; Ok (Return frame s))) as ->.
  { unfold interrupt_handler, INTERRUPT_VECTOR_SYSCALL, INTERRUPT_EXCEPTION_COUNT,
      INTERRUPT_VECTOR_IRQ15, INTERRUPT_VECTOR_IRQ7, INTERRUPT_VECTOR_IRQ8, INTERRUPT_VECTOR_IRQ0.
    destruct (decide (k < 8)); zbool; simpl.
    - replace (u8 (32 + k - 32)) with (k mod 8); [done|].
      rewrite wrap_small by lia. Z.div_mod_to_equations. lia.
    - replace (u8 (32 + k - 40)) with (k mod 8); [done|].
      rewrite wrap_small by lia. Z.div_mod_to_equations. lia. }
  unfold register_irq_handler in Hreg. destruct (_ && _) eqn:E; [|done]. injection Hreg as <-.
  apply andb_prop in E as [E0%Z.leb_le E%Z.ltb_lt].
  unfold irq_dispatch. rewrite get_handler_eq by lia. simpl.
  by destruct (h (k mod 8) frame (tts s)) as [[f st]| |].
Qed.

End Interrupt.

(** ** Witnesses *)

(** The device logs the acknowledged interrupts; system calls return 0. *)
#[export] Instance demo_interrupt_env : InterruptEnv := {|
  syscall_dispatch n f st := Ok (f, st);
  send_eoi irq d := d ++ [irq];
  get_pid d := 7;
  mm_page_fault_va d := 0x1234
|}.

Definition demo_ist : ist := mk_ist demo_st (replicate INTERRUPT_VECTOR_IRQ_COUNT None).

Definition demo_frame : interrupt_frame :=
  mk_frame 1 0x10 0x10 0x10 0x10 2 3 4 0 5 6 7 8 9 0x100 0x1B 0x202 0x900 0x23.

(** A handler that logs the interrupt number on the device. *)
Definition demo_handler : irq_handler (D := list Z) :=
  fun irq f st => Ok (f, set_dev st (dev st ++ [100 + irq])).

Lemma interrupt_handler_exception_witness :
  exists s', interrupt_handler 0 demo_ist 14 demo_frame = Ok (Halted s') /\
    current_screen (tts s') = Some default_tty.
Proof.
  destruct (interrupt_handler_exception 0 demo_ist 14 demo_frame demo_vt)
    as (s' & d & E & C & _).
  - split; [discriminate|reflexivity].
  - exact demo_st_ok.
  - by exists false.
  - exact demo_vt_ok.
  - exists s'. split; [exact E|exact C].
Defined.

Lemma interrupt_handler_slave_irqs_witness :
  interrupt_handler 0 demo_ist (INTERRUPT_VECTOR_IRQ8 + 4) demo_frame =
    interrupt_handler 0 demo_ist (INTERRUPT_VECTOR_IRQ0 + 4) demo_frame /\
  match register_irq_handler demo_ist IRQ_MOUSE (Some demo_handler) with
  | Ok s1 =>
      match interrupt_handler 0 s1 (INTERRUPT_VECTOR_IRQ8 + 4) demo_frame with
      | Ok (Return _ r) => last (dev (tts r)) = Some 4
      | _ => False
      end
  | _ => False
  end.
Proof.
  destruct (interrupt_handler_slave_irqs 0 demo_ist demo_frame 4) as [E1 E2]; [lia|].
  split; [exact E1|].
  destruct (register_irq_handler demo_ist IRQ_MOUSE (Some demo_handler)) as [s1| |] eqn:R;
    [|discriminate R..].
  rewrite (E2 IRQ_MOUSE (Some demo_handler) s1 ltac:(discriminate) R).
  vm_compute. reflexivity.
Defined.

(** The handler of line 1 on the vector of line 9. *)
Lemma interrupt_handler_calls_registered_witness :
  exists s1 r, register_irq_handler demo_ist 1 (Some demo_handler) = Ok s1 /\
    interrupt_handler 0 s1 (INTERRUPT_VECTOR_IRQ0 + 9) demo_frame = Ok (Return demo_frame r) /\
    dev (tts r) = [101; 1].
Proof.
  destruct (register_irq_handler demo_ist 1 (Some demo_handler)) as [s1| |] eqn:R;
    [|discriminate R..].
  eexists s1, _. split; [reflexivity|].
  rewrite (interrupt_handler_calls_registered 0 demo_ist s1 demo_frame 9 demo_handler ltac:(unfold INTERRUPT_VECTOR_IRQ_COUNT; lia) R).
  split; reflexivity.
Defined.
