(* ===== verification/Graphics.v ===== *)
(** The frame-buffer drawing routines of [kernel_main.c]: [setpixel], [fillrect],
    [drawline], [drawcircle], [sqrt], [drawtext] and [cleanscreen].

    The frame buffer is the memory from [video] on, 1280 pixels of four bytes per
    line; how many lines are mapped is a parameter of the theorems.  Arithmetic
    on [int] is checked ([int32]); the byte offsets are 32-bit unsigned. *)

From S2P Require Import Prelude Mem Font.

(** ** Data *)
Definition video : Z := 0xF0000000.

(** The globals [width] and [height] are the text cursor. *)
Record gst := mk_gst { gmem : mem; width : Z; height : Z }.

Definition set_gmem (s : gst) (m : mem) : gst := mk_gst m (width s) (height s).
Definition set_cursor (s : gst) (w h : Z) : gst := mk_gst (gmem s) w h.

(** [video[offset] = v] *)
Definition video_store (m : mem) (offset v : Z) : res mem := store8 m (video + offset) v.

(** The four bytes of the pixel at [offset]. *)
Definition store_pixel (m : mem) (offset b g r : Z) : res mem :=
  m ← video_store m offset b;
  m ← video_store m (u32 (offset + 1)) g;
  m ← video_store m (u32 (offset + 2)) r;
  video_store m (u32 (offset + 3)) 0.

(** [(x + y * 1280) * 4], an [int] stored in an [unsigned int]. *)
Definition pixel_offset (x y : Z) : res Z :=
  t ← int32 (y * 1280);
  s ← int32 (x + t);
  o ← int32 (s * 4);
  Ok (u32 o).

Definition int_div (a b : Z) : res Z := if b =? 0 then Undef else int32 (Z.quot a b).

(** ** Operations *)
Definition setpixel (m : mem) (x y b g r : Z) : res mem :=
  offset ← pixel_offset x y;
  store_pixel m offset b g r.

(** One line of [fillrect]. *)
Definition fillrect_line (m : mem) (offset w b g r : Z) : res mem :=
  for_range 0 w (fun j m => k ← int32 (j * 4); store_pixel m (u32 (offset + k)) b g r) m.

Definition fillrect (m : mem) (x y w h b g r : Z) : res mem :=
  offset ← pixel_offset x y;
  '(m, _) ← for_range 0 h (fun _ '(m, offset) =>
    m ← fillrect_line m offset w b g r;
    Ok (m, u32 (offset + 5120))) (m, offset);
  Ok m.

Definition cleanscreen (m : mem) : res mem := fillrect m 0 35 1280 996 255 255 255.

(** [-d] when [d] is negative. *)
Definition int_abs (d : Z) : res Z := if d <? 0 then int32 (- d) else Ok d.

(** A round of either loop of [drawline]: [from + delta * (p - start) / len]. *)
Definition line_coord (from delta len start p : Z) : res Z :=
  d ← int32 (p - start);
  t ← int32 (delta * d);
  q ← int_div t len;
  int32 (from + q).

Definition drawline (m : mem) (x1 y1 x2 y2 b g r : Z) : res mem :=
  dx ← int32 (x2 - x1);
  dy ← int32 (y2 - y1);
  dxabs ← int_abs dx;
  dyabs ← int_abs dy;
  if dyabs <=? dxabs then
    let '(x1, x2) := if x2 <? x1 then (x2, x1) else (x1, x2) in
    for_range x1 (x2 + 1) (fun px m =>
      py ← line_coord y1 dy dxabs x1 px;
      m ← setpixel m px py b g r;
      _ ← int32 (px + 1); Ok m) m
  else
    let '(y1, y2) := if y2 <? y1 then (y2, y1) else (y1, y2) in
    for_range y1 (y2 + 1) (fun py m =>
      px ← line_coord x1 dx dyabs y1 py;
      m ← setpixel m px py b g r;
      _ ← int32 (py + 1); Ok m) m.

(** The loop of [sqrt].  Every caller uses the value, so running past the end of
    the function has no defined behaviour. *)
Definition sqrt_body (square i : Z) : res (Z + Z) :=
  if i <? square then
    a ← int32 (i * i);
    if a <=? square then
      c ← int32 (i + 1);
      b ← int32 (c * c);
      Ok (if square <=? b then inr i else inl (i + 1))
    else Ok (inl (i + 1))
  else Undef.

Definition sqrt (square : Z) : res Z :=
  while_loop (Z.to_nat square + 1) (sqrt_body square) 0.

(** [radius*radius - d*d], and the two pixels at that distance. *)
Definition circle_half (radius d : Z) : res Z :=
  rr ← int32 (radius * radius);
  dd ← int32 (d * d);
  temps ← int32 (rr - dd);
  sqrt temps.

(** The pixels above and below the centre line in column [px]; [d] is the
    difference the loop squares. *)
Definition circle_column (yc radius b g r px d : Z) (m : mem) : res mem :=
  d ← int32 d;
  s ← circle_half radius d;
  py1 ← int32 (yc - s);
  py2 ← int32 (yc + s);
  m ← setpixel m px py1 b g r;
  setpixel m px py2 b g r.

Definition circle_row (xc radius b g r py d : Z) (m : mem) : res mem :=
  d ← int32 d;
  s ← circle_half radius d;
  px1 ← int32 (xc - s);
  px2 ← int32 (xc + s);
  m ← setpixel m px1 py b g r;
  setpixel m px2 py b g r.

(** [for (p = a; p >= b; p--)], a loop that counts down. *)
Definition for_down {S} (a b : Z) (f : Z -> S -> res S) (s : S) : res S :=
  for_range 0 (a - b + 1) (fun k s => f (a - k) s) s.

Definition drawcircle (m : mem) (xc yc radius b g r : Z) : res mem :=
  right ← int32 (xc + radius);
  m ← for_down right xc (fun px => circle_column yc radius b g r px (px - xc)) m;
  left ← int32 (xc - radius);
  m ← for_down xc left (fun px => circle_column yc radius b g r px (xc - px)) m;
  top ← int32 (yc - radius);
  m ← for_range top (yc + 1) (fun py => circle_row xc radius b g r py (py - yc)) m;
  bottom ← int32 (yc + radius);
  for_range yc (bottom + 1) (fun py => circle_row xc radius b g r py (yc - py)) m.

(** The two adjustments of the cursor every call of [drawtext] starts with. *)
Definition wrap_cursor (s : gst) : res gst :=
  s ← (if 1260 <? width s then h ← int32 (height s + 16); Ok (set_cursor s 0 h) else Ok s);
  if (width s <? -2) && (34 <? height s) then Ok (set_cursor s 1250 (height s - 16)) else Ok s.

(** The branch [charnum == -1]: a black cell. *)
Definition blank_cell (s : gst) : res gst :=
  m ← fillrect (gmem s) (width s) (height s) 16 16 0 0 0;
  w ← int32 (width s + 16);
  Ok (mk_gst m w (height s)).

Definition drawtext_blank (s : gst) : res gst := s ← wrap_cursor s; blank_cell s.

(** A set bit [i] of row [k]: a square of two by two white pixels. *)
Definition draw_dot (w0 h0 k i : Z) (m : mem) : res mem :=
  for_range (2 * (8 - i)) (2 * (8 - i) + 2) (fun w m =>
    for_range (2 * k) (2 * k + 2) (fun h m =>
      x ← int32 (w + w0);
      y ← int32 (h + h0);
      setpixel m x y 255 255 255) m) m.

Definition draw_glyph (charnum w0 h0 : Z) (m : mem) : res mem :=
  for_range 0 8 (fun k m =>
    for_range 0 8 (fun i m =>
      t ← int32 (charnum * 8);
      n ← int32 (t + k);
      row ← font_row n;
      if Z.land row (Z.shiftl 1 i) =? 0 then Ok m else draw_dot w0 h0 k i m) m) m.

Definition drawtext (s : gst) (charnum : Z) : res gst :=
  s ← wrap_cursor s;
  if charnum =? -1 then blank_cell s
  else if charnum =? 10 then
    s ← drawtext_blank s;
    h ← int32 (height s + 16);
    Ok (set_cursor s 0 h)
  else if charnum =? 8 then
    s ← drawtext_blank s;
    w ← int32 (width s - 32);
    s ← drawtext_blank (set_cursor s w (height s));
    s ← drawtext_blank s;
    w ← int32 (width s - 32);
    Ok (set_cursor s w (height s))
  else
    m ← draw_glyph charnum (width s) (height s) (gmem s);
    w ← int32 (width s + 16);
    Ok (mk_gst m w (height s)).

(** ** Abstract screen *)

(** [H] lines of the frame buffer are mapped. *)
Definition vmem_ok (m : mem) (H : Z) : Prop := mapped m video (1280 * H * 4) /\ 0 <= H <= 32768.

Definition on_screen (H : Z) (p : Z * Z) : Prop := 0 <= p.1 < 1280 /\ 0 <= p.2 < H.

Definition px_addr (x y : Z) : Z := video + (x + y * 1280) * 4.

Definition pixel (b g r : Z) : list Z := [u8 b; u8 g; u8 r; 0].

Definition set_px (b g r : Z) (m : mem) (p : Z * Z) : mem :=
  write_list m (px_addr p.1 p.2) (pixel b g r).

(** Drawing the points [pts] in one colour. *)
Definition plot (b g r : Z) (m : mem) (pts : list (Z * Z)) : mem := fold_left (set_px b g r) pts m.

Definition pixel_at (m : mem) (x y : Z) : list (option Z) :=
  map (fun i => m !! (px_addr x y + i)) [0; 1; 2; 3].

Definition rect_points (x y w h : Z) : list (Z * Z) :=
  flat_map (fun i => map (fun j => (x + j, y + i)) (seqZ 0 w)) (seqZ 0 h).

(** ** Lemmas: pixels *)
Lemma int32_small x : - 2 ^ 31 <= x < 2 ^ 31 -> int32 x = Ok x.
Proof. apply int32_ok. Qed.

Lemma pixel_offset_ok x y :
  0 <= x < 1280 -> 0 <= y < 32768 -> pixel_offset x y = Ok ((x + y * 1280) * 4).
Proof.
  intros Hx Hy. unfold pixel_offset. rewrite (int32_ok (y * 1280)) by lia. simpl.
  rewrite int32_ok by lia. simpl. rewrite int32_ok by lia. simpl.
  by rewrite wrap_small by lia.
Qed.

Lemma store8_next (m : mem) a v a' v' :
  is_Some (m !! a') -> store8 (<[a := v]> m) a' v' = Ok (<[a' := u8 v']> (<[a := v]> m)).
Proof. intros Hs. apply store8_ok. apply lookup_insert_is_Some'. by right. Qed.

Lemma store_pixel_ok m x y H b g r :
  vmem_ok m H -> on_screen H (x, y) ->
  store_pixel m ((x + y * 1280) * 4) b g r = Ok (set_px b g r m (x, y)).
Proof.
  intros [Hm HH] [Hx Hy]. simpl in *. unfold store_pixel, video_store.
  assert (Hin : forall i, 0 <= i < 4 -> is_Some (m !! (video + ((x + y * 1280) * 4 + i)))).
  { intros i Hi. apply Hm. lia. }
  rewrite !(wrap_small 32) by lia.
  rewrite store8_ok by (rewrite <- (Z.add_0_r ((x + y * 1280) * 4)); apply Hin; lia). simpl.
  rewrite !store8_next by (rewrite ?lookup_insert_is_Some'; auto with lia). simpl.
  rewrite !store8_next by (rewrite ?lookup_insert_is_Some'; auto with lia). simpl.
  rewrite !store8_next by (rewrite ?lookup_insert_is_Some'; auto with lia). simpl.
  unfold set_px, px_addr, pixel. simpl. rewrite !Z.add_assoc, <- !(Z.add_assoc _ 1). done.
Qed.

Lemma setpixel_ok m x y H b g r :
  vmem_ok m H -> on_screen H (x, y) -> setpixel m x y b g r = Ok (set_px b g r m (x, y)).
Proof.
  intros Hm Hp. unfold setpixel. pose proof Hm as [_ HH]. pose proof Hp as [Hx Hy]. simpl in *.
  rewrite pixel_offset_ok by lia. simpl. by eapply store_pixel_ok.
Qed.

Lemma vmem_set_px b g r m p H : vmem_ok m H -> vmem_ok (set_px b g r m p) H.
Proof.
  intros [Hm HH]. split; [|done]. eapply wrote_mapped; [|done]. apply wrote_write_list.
Qed.

Lemma vmem_plot b g r pts : forall m H, vmem_ok m H -> vmem_ok (plot b g r m pts) H.
Proof.
  induction pts as [|p pts IH]; intros m H Hm; [done|]. simpl. by apply IH, vmem_set_px.
Qed.

Lemma plot_app b g r m pts pts' : plot b g r m (pts ++ pts') = plot b g r (plot b g r m pts) pts'.
Proof. apply fold_left_app. Qed.

Lemma pixel_set_px_eq b g r m x y :
  pixel_at (set_px b g r m (x, y)) x y = map Some (pixel b g r).
Proof.
  unfold set_px, pixel_at. change [0; 1; 2; 3] with (map Z.of_nat [0; 1; 2; 3]%nat).
  cbn [map fst snd].
  pose proof (fun i c => write_list_lookup m (px_addr x y) (pixel b g r) i c) as Hl.
  rewrite (Hl 0%nat _ eq_refl), (Hl 1%nat _ eq_refl), (Hl 2%nat _ eq_refl), (Hl 3%nat _ eq_refl).
  done.
Qed.

Lemma pixel_set_px_ne b g r m x y x' y' :
  0 <= x < 1280 -> 0 <= x' < 1280 -> (x, y) <> (x', y') ->
  pixel_at (set_px b g r m (x, y)) x' y' = pixel_at m x' y'.
Proof.
  intros Hx Hx' Hne. unfold set_px, pixel_at, px_addr. cbn [map fst snd].
  assert (x <> x' \/ y <> y') by (destruct (decide (x = x')), (decide (y = y')); subst; auto).
  rewrite !write_list_lookup_ne by (simpl length; lia). done.
Qed.

(** What is on the screen after drawing points. *)
Lemma pixel_plot b g r pts : forall m x y,
  Forall (fun p => 0 <= p.1 < 1280) pts -> 0 <= x < 1280 ->
  pixel_at (plot b g r m pts) x y =
    if decide ((x, y) ∈ pts) then map Some (pixel b g r) else pixel_at m x y.
Proof.
  induction pts as [|[x0 y0] pts IH]; intros m x y Hp Hx.
  { rewrite decide_False; [done|]. apply not_elem_of_nil. }
  apply list.Forall_cons in Hp as [Hx0 Hp]. simpl in *. rewrite IH by done.
  destruct (decide ((x, y) ∈ pts)) as [Hin|Hin].
  { rewrite decide_True; [done|]. by right. }
  destruct (decide ((x0, y0) = (x, y))) as [E|E].
  - injection E as -> ->. rewrite decide_True by left. apply pixel_set_px_eq.
  - rewrite decide_False; [by apply pixel_set_px_ne|].
    intros [?|?]%elem_of_cons; [congruence|done].
Qed.

(** Memory outside the lines drawn on stays. *)
Lemma plot_outside b g r H pts : forall m a,
  Forall (on_screen H) pts -> ~ (video <= a < video + 1280 * H * 4) ->
  plot b g r m pts !! a = m !! a.
Proof.
  induction pts as [|[x0 y0] pts IH]; intros m a Hp Ha; [done|].
  apply list.Forall_cons in Hp as [[Hx Hy] Hp]. simpl in *. rewrite IH by done.
  unfold set_px, px_addr. cbn [fst snd]. apply write_list_lookup_ne. simpl. lia.
Qed.

(** ** Lemmas: loops that draw *)
Lemma plot_loop b g r H (pts : Z -> list (Z * Z)) (f : Z -> mem -> res mem) n : forall a m,
  vmem_ok m H ->
  (forall i m, a <= i < a + Z.of_nat n -> vmem_ok m H -> f i m = Ok (plot b g r m (pts i))) ->
  for_loop n a f m = Ok (plot b g r m (flat_map pts (seqZ a (Z.of_nat n)))).
Proof.
  induction n as [|n IH]; intros a m Hm Hf; [done|].
  simpl for_loop. rewrite Hf by (done || lia). simpl.
  rewrite IH; [|by apply vmem_plot|intros; apply Hf; [lia|done]].
  rewrite (seqZ_cons a) by lia. simpl. rewrite plot_app.
  replace (Z.pred (Z.of_nat (Datatypes.S n))) with (Z.of_nat n) by lia. done.
Qed.

Lemma plot_range b g r H (pts : Z -> list (Z * Z)) (f : Z -> mem -> res mem) a e m :
  vmem_ok m H ->
  (forall i m, a <= i < e -> vmem_ok m H -> f i m = Ok (plot b g r m (pts i))) ->
  for_range a e f m = Ok (plot b g r m (flat_map pts (seqZ a (e - a)))).
Proof.
  intros Hm Hf. unfold for_range. rewrite (plot_loop b g r H pts); [|done|intros i m' Hi; apply Hf; lia].
  destruct (decide (0 <= e - a)); [by rewrite Z2Nat.id|].
  rewrite !seqZ_nil by lia. done.
Qed.

Lemma in_rect x y w h x' y' :
  (x', y') ∈ rect_points x y w h <-> x <= x' < x + w /\ y <= y' < y + h.
Proof.
  unfold rect_points. rewrite list_elem_of_In, in_flat_map. split.
  - intros (i & Hi & Hj). apply list_elem_of_In, elem_of_seqZ in Hi.
    apply in_map_iff in Hj as (j & [= <- <-] & Hj).
    apply list_elem_of_In, elem_of_seqZ in Hj. lia.
  - intros [Hx Hy]. exists (y' - y). split.
    + apply list_elem_of_In, elem_of_seqZ. lia.
    + apply in_map_iff. exists (x' - x). split; [f_equal; lia|].
      apply list_elem_of_In, elem_of_seqZ. lia.
Qed.

Lemma rect_columns x y w h :
  0 <= x -> x + w <= 1280 -> Forall (fun p => 0 <= p.1 < 1280) (rect_points x y w h).
Proof.
  intros Hx Hw. apply list.Forall_forall. intros [x' y'] Hp%in_rect. simpl. lia.
Qed.

Lemma fillrect_line_ok m H x y w b g r :
  vmem_ok m H -> 0 <= x -> x + w <= 1280 -> 0 <= y < H ->
  fillrect_line m ((x + y * 1280) * 4) w b g r =
    Ok (plot b g r m (map (fun j => (x + j, y)) (seqZ 0 w))).
Proof.
  intros Hm Hx Hw Hy. unfold fillrect_line.
  assert (E : map (fun j => (x + j, y)) (seqZ 0 w) = flat_map (fun j => [(x + j, y)]) (seqZ 0 (w - 0))).
  { rewrite Z.sub_0_r. induction (seqZ 0 w) as [|j l IH]; [done|]. simpl. by rewrite IH. }
  rewrite E. apply (plot_range b g r H); [done|]. intros j m' Hj Hm'.
  pose proof Hm as [_ HH]. rewrite int32_ok by lia. simpl. rewrite wrap_small by lia.
  replace ((x + y * 1280) * 4 + j * 4) with ((x + j + y * 1280) * 4) by lia.
  apply (store_pixel_ok m' (x + j) y H); [done|]. split; simpl; lia.
Qed.

(** The loop of [fillrect]: the offset follows the lines. *)
Lemma fillrect_loop H x w b g r n : forall y k m,
  vmem_ok m H -> 0 <= x < 1280 -> x + w <= 1280 -> 0 <= y -> y + Z.of_nat n <= H ->
  for_loop n k (fun _ '(m, offset) =>
      m ← fillrect_line m offset w b g r; Ok (m, u32 (offset + 5120))) (m, (x + y * 1280) * 4) =
    Ok (plot b g r m (rect_points x y w (Z.of_nat n)), (x + (y + Z.of_nat n) * 1280) * 4).
Proof.
  induction n as [|n IH]; intros y k m Hm Hx Hw Hy Hn; simpl for_loop.
  { change (rect_points x y w (Z.of_nat 0)) with (@nil (Z * Z)). cbn [plot fold_left].
    do 2 f_equal. lia. }
  pose proof Hm as [_ HH].
  rewrite (fillrect_line_ok m H) by (done || lia). simpl.
  rewrite (wrap_small 32 ((x + y * 1280) * 4 + 5120)) by lia.
  replace ((x + y * 1280) * 4 + 5120) with ((x + (y + 1) * 1280) * 4) by lia.
  rewrite IH by (try apply vmem_plot; done || lia). do 2 f_equal; [|lia].
  unfold rect_points. rewrite (seqZ_cons 0 (Z.of_nat (Datatypes.S n))) by lia.
  rewrite <- plot_app. simpl. f_equal. f_equal.
  - apply map_ext. intros j. f_equal. lia.
  - replace (Z.pred (Z.of_nat (Datatypes.S n))) with (Z.of_nat n) by lia.
    change (Z.succ 0) with (1 + 0). rewrite <- (fmap_add_seqZ 1 0), !flat_map_concat_map.
    change (Z.add 1 <$> seqZ 0 (Z.of_nat n)) with (map (Z.add 1) (seqZ 0 (Z.of_nat n))).
    rewrite map_map. f_equal. apply map_ext. intros i. apply map_ext. intros j. f_equal. lia.
Qed.

Lemma fillrect_ok m H x y w h b g r :
  vmem_ok m H -> 0 <= x < 1280 -> x + w <= 1280 -> 0 <= y -> 0 <= h -> y + h <= H -> y < 32768 ->
  fillrect m x y w h b g r = Ok (plot b g r m (rect_points x y w h)).
Proof.
  intros Hm Hx Hw Hy Hh HyH Hy'. unfold fillrect. rewrite pixel_offset_ok by lia. simpl.
  unfold for_range. rewrite (fillrect_loop H) by (done || lia). simpl.
  by rewrite Z.sub_0_r, Z2Nat.id.
Qed.

Lemma fillrect_line_undef m x y w b g r :
  0 < w -> 0 <= x < 1280 -> 0 <= y < 32768 -> m !! (video + (x + y * 1280) * 4) = None ->
  fillrect_line m ((x + y * 1280) * 4) w b g r = Undef.
Proof.
  intros Hw Hx Hy Hm. unfold fillrect_line. rewrite for_range_step by lia.
  change (int32 (0 * 4)) with (Ok 0). cbn [mbind res_bind].
  unfold store_pixel, video_store. rewrite Z.add_0_r, (wrap_small 32 ((x + y * 1280) * 4)) by lia.
  by rewrite store8_undef.
Qed.

Lemma pixel_rect b g r m x y w h x' y' :
  0 <= x -> x + w <= 1280 -> 0 <= x' < 1280 ->
  pixel_at (plot b g r m (rect_points x y w h)) x' y' =
    if (x <=? x') && (x' <? x + w) && (y <=? y') && (y' <? y + h)
    then map Some (pixel b g r) else pixel_at m x' y'.
Proof.
  intros Hx Hw Hx'. rewrite pixel_plot by (try apply rect_columns; done).
  destruct ((x <=? x') && (x' <? x + w) && (y <=? y') && (y' <? y + h)) eqn:E.
  - rewrite decide_True; [done|]. apply in_rect.
    repeat (apply andb_prop in E as [E ?]). lia.
  - rewrite decide_False; [done|]. rewrite in_rect. intros Hr.
    apply not_true_iff_false in E. apply E. zbool. done.
Qed.

(** ** Lemmas: [sqrt] *)
Lemma sqrt_body_step n i :
  0 <= i < n -> i < 46340 -> i * i <= n ->
  sqrt_body n i = Ok (if n <=? (i + 1) * (i + 1) then inr i else inl (i + 1)).
Proof.
  intros Hi Hb Hsq. unfold sqrt_body.
  assert ((i + 1) * (i + 1) <= 46340 * 46340) by nia.
  assert (0 <= i * i) by nia. assert (i * i <= 46340 * 46340) by nia.
  zbool. rewrite (int32_ok (i * i)) by lia. simpl. zbool.
  rewrite (int32_ok (i + 1)) by lia. simpl. by rewrite (int32_ok ((i + 1) * (i + 1))) by lia.
Qed.

Lemma sqrt_body_overflow n : 46340 * 46340 < n -> sqrt_body n 46340 = Undef.
Proof.
  intros Hn. unfold sqrt_body. rewrite (proj2 (Z.ltb_lt 46340 n)) by lia.
  change (int32 (46340 * 46340)) with (Ok (46340 * 46340)). cbn [mbind res_bind].
  by rewrite (proj2 (Z.leb_le (46340 * 46340) n)) by lia.
Qed.

(** The rounds up to the square root of [n - 1]. *)
Lemma sqrt_loop_skip n s k : forall fuel i,
  0 <= i -> i + Z.of_nat k = s -> s <= 46340 -> s * s <= n - 1 -> (k <= fuel)%nat ->
  while_loop fuel (sqrt_body n) i = while_loop (fuel - k) (sqrt_body n) s.
Proof.
  induction k as [|k IH]; intros fuel i Hi Hs Hb Hn Hf.
  { rewrite Nat.sub_0_r. f_equal. lia. }
  destruct fuel as [|fuel]; [lia|]. simpl while_loop.
  assert ((i + 1) * (i + 1) <= s * s) by nia. assert (i * i <= s * s) by nia.
  assert (s <= s * s) by nia.
  rewrite sqrt_body_step by lia. zbool. simpl. apply IH; lia.
Qed.

(** ** Lemmas: lines *)
Lemma quot_between d k len :
  0 < len -> 0 <= k <= len ->
  (0 <= d -> 0 <= Z.quot (d * k) len <= d) /\ (d <= 0 -> d <= Z.quot (d * k) len <= 0) /\
  Z.abs (Z.quot (d * k) len * len - d * k) < len.
Proof.
  intros Hlen Hk. pose proof (Z.quot_rem' (d * k) len) as E.
  pose proof (Z.rem_bound_abs (d * k) len ltac:(lia)) as Hr.
  set (q := Z.quot (d * k) len) in *. set (m := Z.rem (d * k) len) in *.
  split; [|split; [|lia]]; intros Hd.
  - pose proof (Z.rem_nonneg (d * k) len ltac:(lia) ltac:(nia)). fold m in H. nia.
  - pose proof (Z.rem_nonpos (d * k) len ltac:(lia) ltac:(nia)). fold m in H. nia.
Qed.

Lemma line_coord_ok from delta len start p :
  0 < len <= 32768 -> Z.abs delta <= 32768 -> start <= p <= start + len ->
  0 <= start <= 32768 -> 0 <= from <= 32768 ->
  line_coord from delta len start p = Ok (from + Z.quot (delta * (p - start)) len).
Proof.
  intros Hlen Hd Hp Hs Hf. destruct (quot_between delta (p - start) len) as (H1 & H2 & _); [lia..|].
  unfold line_coord, int_div. rewrite int32_ok by lia. simpl. rewrite int32_ok by nia. simpl.
  zbool. rewrite int32_ok by lia. simpl. by rewrite int32_ok by lia.
Qed.

(** The second coordinate the loops of [drawline] compute for the first one. *)
Definition line_at (from delta len start p : Z) : Z := from + Z.quot (delta * (p - start)) len.

Lemma line_at_between from delta len start p :
  0 < len -> start <= p <= start + len ->
  Z.min from (from + delta) <= line_at from delta len start p <= Z.max from (from + delta) /\
  Z.abs ((line_at from delta len start p - from) * len - delta * (p - start)) < len.
Proof.
  intros Hlen Hp. unfold line_at.
  destruct (quot_between delta (p - start) len) as (H1 & H2 & H3); [lia..|].
  rewrite Z.add_simpl_l. split; [|done]. lia.
Qed.

Lemma line_at_start from delta len start : line_at from delta len start start = from.
Proof. unfold line_at. rewrite Z.sub_diag, Z.mul_0_r. destruct len; apply Z.add_0_r. Qed.

Lemma line_at_end from delta len start :
  0 < len -> line_at from delta len start (start + len) = from + delta.
Proof.
  intros. unfold line_at. rewrite Z.add_simpl_l, Z.quot_mul by lia. done.
Qed.

Lemma int_abs_ok d : Z.abs d < 2 ^ 31 -> int_abs d = Ok (Z.abs d).
Proof.
  intros Hd. unfold int_abs. case_bool; [rewrite int32_ok by lia|]; f_equal; lia.
Qed.

(** The loop over the columns, and the one over the lines. *)
Lemma line_loop H m b g r from delta len start (flip : bool) :
  vmem_ok m H -> 0 < len -> 0 <= start ->
  let swap p c := if flip then (c, p) else (p, c) in
  (forall p, start <= p <= start + len ->
     on_screen H (swap p (line_at from delta len start p))) ->
  0 <= from <= 32768 -> Z.abs delta <= 32768 -> start + len < 32768 ->
  for_range start (start + len + 1) (fun p m =>
    c ← line_coord from delta len start p;
    m ← setpixel m (swap p c).1 (swap p c).2 b g r;
    _ ← int32 (p + 1); Ok m) m =
  Ok (plot b g r m (map (fun p => swap p (line_at from delta len start p)) (seqZ start (len + 1)))).
Proof.
  intros Hm Hlen Hs swap Hon Hf Hd Hb.
  assert (E : forall l, map (fun p => swap p (line_at from delta len start p)) l =
    flat_map (fun p => [swap p (line_at from delta len start p)]) l).
  { induction l as [|p l IH]; [done|]. simpl. by rewrite IH. }
  rewrite E. replace (len + 1) with (start + len + 1 - start) by lia.
  apply (plot_range b g r H); [done|]. intros p m' Hp Hm'.
  rewrite line_coord_ok by lia. fold (line_at from delta len start p).
  pose proof (Hon p ltac:(lia)) as Hq. simpl.
  destruct (swap p (line_at from delta len start p)) as [px py] eqn:Eq. simpl.
  rewrite (setpixel_ok m' px py H) by done. simpl. by rewrite int32_ok by lia.
Qed.

(** ** Lemmas: text *)
Lemma land_bit_zero x i : 0 <= i -> (Z.land x (Z.shiftl 1 i) =? 0) = negb (Z.testbit x i).
Proof.
  intros Hi.
  assert (Hb : forall j, 0 <= j -> Z.testbit (Z.land x (Z.shiftl 1 i)) j = Z.testbit x j && (j =? i)).
  { intros j Hj. rewrite Z.land_spec. f_equal. rewrite Z.shiftl_1_l, Z.pow2_bits_eqb by done.
    apply Z.eqb_sym. }
  destruct (Z.testbit x i) eqn:E; simpl.
  - apply Z.eqb_neq. intros H0. specialize (Hb i Hi). rewrite H0, E, Z.bits_0, Z.eqb_refl in Hb. done.
  - apply Z.eqb_eq, Z.bits_inj'. intros j Hj. rewrite Hb, Z.bits_0 by done.
    destruct (Z.eqb_spec j i) as [->|]; [by rewrite E|apply andb_false_r].
Qed.

Lemma s8_testbit v i : 0 <= i < 8 -> Z.testbit (s8 v) i = Z.testbit v i.
Proof.
  intros Hi. rewrite <- (Z.mod_pow2_bits_low (s8 v) 8 i), <- (Z.mod_pow2_bits_low v 8 i) by lia.
  f_equal. apply swrap_wrap.
Qed.

(** Whether the font has a dot in row [k], bit [i] of a character. *)
Definition font_bit (charnum k i : Z) : bool :=
  Z.testbit (nth (Z.to_nat (charnum * 8 + k)) textarray 0) i.

(** The dot of the glyph that covers column [dx], line [dy] of its cell. *)
Definition glyph_pixel (charnum dx dy : Z) : bool :=
  (2 <=? dx) && (dx <? 18) && (0 <=? dy) && (dy <? 16) &&
  font_bit charnum (dy / 2) (8 - dx / 2).

(** [f] draws points that satisfy exactly [Q]. *)
Definition draws (b g r H : Z) (f : mem -> res mem) (Q : Z * Z -> Prop) : Prop :=
  forall m, vmem_ok m H -> exists pts, f m = Ok (plot b g r m pts) /\ forall p, p ∈ pts <-> Q p.

Lemma draws_loop b g r H (f : Z -> mem -> res mem) (Q : Z -> Z * Z -> Prop) n : forall a,
  (forall i, a <= i < a + Z.of_nat n -> draws b g r H (f i) (Q i)) ->
  draws b g r H (for_loop n a f) (fun p => exists i, a <= i < a + Z.of_nat n /\ Q i p).
Proof.
  induction n as [|n IH]; intros a Hf m Hm.
  - exists []. split; [done|]. intros p. split; [by intros ?%not_elem_of_nil|].
    intros (i & Hi & _). lia.
  - destruct (Hf a ltac:(lia) m Hm) as (p1 & E1 & H1).
    destruct (IH (a + 1) ltac:(intros i Hi; apply Hf; lia) _ (vmem_plot b g r p1 m H Hm))
      as (p2 & E2 & H2).
    exists (p1 ++ p2). split; [by simpl; rewrite E1; simpl; rewrite E2, plot_app|].
    intros p. rewrite elem_of_app, H1, H2. split.
    + intros [Hq|(i & Hi & Hq)]; [exists a|exists i]; (split; [lia|done]).
    + intros (i & Hi & Hq). destruct (decide (i = a)) as [->|]; [by left|right].
      exists i. split; [lia|done].
Qed.

Lemma draws_range b g r H (f : Z -> mem -> res mem) (Q : Z -> Z * Z -> Prop) a e :
  a <= e -> (forall i, a <= i < e -> draws b g r H (f i) (Q i)) ->
  draws b g r H (for_range a e f) (fun p => exists i, a <= i < e /\ Q i p).
Proof.
  intros Hae Hf. pose proof (draws_loop b g r H f Q (Z.to_nat (e - a)) a) as Hl.
  rewrite Z2Nat.id, Zplus_minus in Hl by lia. by apply Hl.
Qed.

Lemma draws_point b g r H x y : on_screen H (x, y) ->
  draws b g r H (fun m => setpixel m x y b g r) (fun p => p = (x, y)).
Proof.
  intros Hon m Hm. exists [(x, y)]. split; [by apply (setpixel_ok _ _ _ H)|].
  intros p. by rewrite list_elem_of_singleton.
Qed.

Lemma draws_dot H w0 h0 k i :
  -2 <= w0 <= 1260 -> 0 <= h0 -> h0 + 16 <= H <= 32768 -> 0 <= k < 8 -> 0 <= i < 8 ->
  draws 255 255 255 H (draw_dot w0 h0 k i) (fun p =>
    exists w, 2 * (8 - i) <= w < 2 * (8 - i) + 2 /\
      exists h, 2 * k <= h < 2 * k + 2 /\ p = (w + w0, h + h0)).
Proof.
  intros Hw Hh HH Hk Hi. apply draws_range; [lia|]. intros w Hw1.
  apply (draws_range _ _ _ _ _ (fun h p => p = (w + w0, h + h0))); [lia|]. intros h Hh1 m Hm.
  destruct (draws_point 255 255 255 H (w + w0) (h + h0)) with m as (pts & E & Hp);
    [split; simpl; lia|done|].
  exists pts. split; [|done]. rewrite int32_ok by lia. simpl. by rewrite int32_ok by lia.
Qed.

Lemma draws_glyph H c w0 h0 :
  0 <= c < 256 -> -2 <= w0 <= 1260 -> 0 <= h0 -> h0 + 16 <= H <= 32768 ->
  draws 255 255 255 H (draw_glyph c w0 h0)
    (fun p => glyph_pixel c (p.1 - w0) (p.2 - h0) = true).
Proof.
  intros Hc Hw Hh HH m Hm.
  destruct (draws_range 255 255 255 H (fun k m => for_range 0 8 (fun i m =>
      t ← int32 (c * 8); n ← int32 (t + k); row ← font_row n;
      if Z.land row (Z.shiftl 1 i) =? 0 then Ok m else draw_dot w0 h0 k i m) m)
    (fun k p => exists i, 0 <= i < 8 /\ font_bit c k i = true /\
      exists w, 2 * (8 - i) <= w < 2 * (8 - i) + 2 /\
      exists h, 2 * k <= h < 2 * k + 2 /\ p = (w + w0, h + h0)) 0 8) with m as (pts & E & Hp);
    [lia| |done|].
  - intros k Hk. apply draws_range; [lia|]. intros i Hi m' Hm'.
    rewrite int32_ok by lia. simpl. rewrite int32_ok by lia. simpl.
    unfold font_row, textarray_size. zbool. simpl. rewrite land_bit_zero, s8_testbit by lia.
    fold (font_bit c k i). destruct (font_bit c k i); simpl.
    + destruct (draws_dot H w0 h0 k i) with m' as (pts & E & Hp); [lia..|done|].
      exists pts. split; [done|]. intros p. rewrite Hp. tauto.
    + exists []. split; [done|]. intros p. split; [by intros ?%not_elem_of_nil|]. by intros [? _].
  - exists pts. split; [exact E|]. intros [x y]. rewrite Hp. unfold glyph_pixel. simpl.
    rewrite !andb_true_iff, !Z.leb_le, !Z.ltb_lt. split.
    + intros (k & Hk & i & Hi & Hb & w & Hw1 & h & Hh1 & [= -> ->]).
      replace (8 - (w + w0 - w0) / 2) with i by (Z.div_mod_to_equations; lia).
      replace ((h + h0 - h0) / 2) with k by (Z.div_mod_to_equations; lia).
      split; [lia|done].
    + intros [Hr Hb]. exists ((y - h0) / 2). split; [Z.div_mod_to_equations; lia|].
      exists (8 - (x - w0) / 2). split; [Z.div_mod_to_equations; lia|]. split; [done|].
      exists (x - w0). split; [Z.div_mod_to_equations; lia|].
      exists (y - h0). split; [Z.div_mod_to_equations; lia|]. f_equal; lia.
Qed.

(** Two lists of points with the same elements show the same picture. *)
Lemma pixel_plot_dec b g r m pts x y (P : bool) :
  Forall (fun p => 0 <= p.1 < 1280) pts -> 0 <= x < 1280 -> ((x, y) ∈ pts <-> P = true) ->
  pixel_at (plot b g r m pts) x y = if P then map Some (pixel b g r) else pixel_at m x y.
Proof.
  intros Hp Hx HP. rewrite pixel_plot by done.
  destruct P; [rewrite decide_True by tauto|rewrite decide_False by (rewrite HP; done)]; done.
Qed.

Lemma plot_columns b g r m pts x y (P : bool) H :
  (forall p, p ∈ pts -> on_screen H p) -> 0 <= x < 1280 -> ((x, y) ∈ pts <-> P = true) ->
  pixel_at (plot b g r m pts) x y = if P then map Some (pixel b g r) else pixel_at m x y.
Proof.
  intros Hp. apply pixel_plot_dec. apply list.Forall_forall. intros p Hin. by destruct (Hp p Hin).
Qed.

(** The cell where [drawtext] starts, after the line wrap. *)
Definition cell_start (s : gst) : Z * Z :=
  if 1260 <? width s then (0, height s + 16) else (width s, height s).

Lemma wrap_cursor_ok s :
  -2 <= width s -> 0 <= height s < 32768 ->
  wrap_cursor s = Ok (mk_gst (gmem s) (cell_start s).1 (cell_start s).2).
Proof.
  intros Hw Hh. unfold wrap_cursor, cell_start. destruct (Z.ltb_spec 1260 (width s)).
  - rewrite int32_ok by lia. simpl. done.
  - simpl. replace (width s <? -2) with false by (symmetry; apply Z.ltb_ge; lia). by destruct s.
Qed.

(** A printable character at a cell on the screen. *)
Lemma drawtext_char_ok H s c :
  vmem_ok (gmem s) H -> 0 <= c < 256 -> c <> 8 -> c <> 10 -> -2 <= width s -> 0 <= height s ->
  (cell_start s).2 + 16 <= H ->
  let w0 := (cell_start s).1 in let h0 := (cell_start s).2 in
  exists m', drawtext s c = Ok (mk_gst m' (w0 + 16) h0) /\ vmem_ok m' H /\
    (forall x y, 0 <= x < 1280 -> pixel_at m' x y =
      if glyph_pixel c (x - w0) (y - h0) then map Some (pixel 255 255 255)
      else pixel_at (gmem s) x y) /\
    (forall a, ~ (video <= a < video + 1280 * H * 4) -> m' !! a = gmem s !! a).
Proof.
  intros Hm Hc H8 H10 Hw Hh HH w0 h0. pose proof Hm as [_ HHr].
  assert (Hw0 : -2 <= w0 <= 1260 /\ 0 <= h0 /\ height s <= h0).
  { unfold w0, h0, cell_start. destruct (Z.ltb_spec 1260 (width s)); simpl; lia. }
  fold h0 in HH. unfold drawtext. rewrite wrap_cursor_ok by lia. fold w0 h0. simpl. zbool.
  destruct (draws_glyph H c w0 h0 Hc) with (gmem s) as (pts & -> & Hp); [lia..|done|]. simpl.
  rewrite int32_ok by lia. simpl.
  assert (Hon : forall p, p ∈ pts -> on_screen H p).
  { intros [x y] Hin. apply Hp in Hin. simpl in Hin. unfold glyph_pixel in Hin.
    rewrite !andb_true_iff, !Z.leb_le, !Z.ltb_lt in Hin. split; simpl; lia. }
  eexists. split; [done|]. split; [by apply vmem_plot|]. split.
  - intros x y Hx. apply (plot_columns _ _ _ _ _ _ _ _ H); [done|done|apply (Hp (x, y))].
  - intros a Ha. apply (plot_outside _ _ _ H); [|done]. by apply list.Forall_forall.
Qed.

(** Blanking the cell at the cursor, where no wrap happens. *)
Lemma drawtext_blank_ok H s :
  vmem_ok (gmem s) H -> 0 <= width s <= 1260 -> 0 <= height s -> height s + 16 <= H ->
  drawtext_blank s = Ok (mk_gst (plot 0 0 0 (gmem s) (rect_points (width s) (height s) 16 16))
                           (width s + 16) (height s)).
Proof.
  intros Hm Hw Hh HH. pose proof Hm as [_ HHr]. unfold drawtext_blank.
  rewrite wrap_cursor_ok by lia. unfold cell_start. rewrite (proj2 (Z.ltb_ge 1260 _)) by lia. simpl.
  unfold blank_cell. cbn [gmem width height].
  rewrite (fillrect_ok _ H) by (done || lia). cbn [mbind res_bind]. by rewrite int32_ok by lia.
Qed.

(** The three cells a backspace blanks: the cursor's, the one before, and the
    cursor's again. *)
Lemma drawtext_backspace_ok H s :
  vmem_ok (gmem s) H -> 16 <= width s <= 1260 -> 0 <= height s -> height s + 16 <= H ->
  drawtext s 8 = Ok (mk_gst (plot 0 0 0 (gmem s)
    (rect_points (width s) (height s) 16 16 ++ rect_points (width s - 16) (height s) 16 16 ++
     rect_points (width s) (height s) 16 16)) (width s - 16) (height s)).
Proof.
  intros Hm Hw Hh HH. pose proof Hm as [_ HHr]. unfold drawtext.
  rewrite wrap_cursor_ok by lia. unfold cell_start. rewrite (proj2 (Z.ltb_ge 1260 _)) by lia.
  cbn [mbind res_bind fst snd]. zbool.
  rewrite (drawtext_blank_ok H) by (simpl; done || lia). cbn [mbind res_bind gmem width height].
  rewrite int32_ok by lia. cbn [mbind res_bind]. unfold set_cursor. cbn [gmem width height].
  rewrite (drawtext_blank_ok H) by (try apply vmem_plot; simpl; done || lia).
  cbn [mbind res_bind gmem width height].
  rewrite (drawtext_blank_ok H) by (try apply vmem_plot; try apply vmem_plot; simpl; done || lia).
  cbn [mbind res_bind gmem width height].
  rewrite int32_ok by lia. cbn [mbind res_bind]. rewrite !plot_app.
  replace (width s + 16 - 32) with (width s - 16) by lia.
  replace (width s - 16 + 16) with (width s) by lia. do 2 f_equal. lia.
Qed.

(** ** Properties *)

(** [fillrect] colours the pixels of the rectangle and no other memory, for
    every rectangle inside the mapped lines. *)
Theorem fillrect_paints (m : mem) (H x y w h b g r : Z) :
  vmem_ok m H -> 0 <= x < 1280 -> x + w <= 1280 -> 0 <= y -> 0 <= h -> y + h <= H -> y < 32768 ->
  exists m', fillrect m x y w h b g r = Ok m' /\ vmem_ok m' H /\
    (forall x' y', 0 <= x' < 1280 ->
       pixel_at m' x' y' =
         if (x <=? x') && (x' <? x + w) && (y <=? y') && (y' <? y + h)
         then map Some (pixel b g r) else pixel_at m x' y') /\
    (forall a, ~ (video <= a < video + 1280 * H * 4) -> m' !! a = m !! a).
Proof.
  intros Hm Hx Hw Hy Hh HH Hy'. rewrite (fillrect_ok m H) by done.
  eexists. split; [done|]. split; [by apply vmem_plot|]. split.
  - intros x' y' Hx'. apply pixel_rect; lia.
  - intros a Ha. apply (plot_outside _ _ _ H); [|done]. apply list.Forall_forall.
    intros [x' y'] Hp%in_rect. split; simpl; lia.
Qed.

(** [sqrt] of a positive number is the square root of the number before it, so
    one less than the root of a perfect square; it runs past the end of the
    function for 0 and negative numbers, and overflows above 46340 * 46340. *)
Theorem sqrt_floor_pred (n : Z) :
  n < 2 ^ 31 ->
  sqrt n = if (1 <=? n) && (n <=? 46340 * 46340) then Ok (Z.sqrt (n - 1)) else Undef.
Proof.
  intros Hn. unfold sqrt. destruct (Z.leb_spec 1 n); cbn [andb].
  2: { rewrite Nat.add_1_r. simpl. unfold sqrt_body. by zbool. }
  set (s := Z.sqrt (n - 1)).
  assert (Hs : 0 <= s /\ s * s <= n - 1 < (s + 1) * (s + 1)).
  { split; [apply Z.sqrt_nonneg|]. apply (Z.sqrt_spec (n - 1)). lia. }
  destruct (Z.leb_spec n (46340 * 46340)).
  - assert (s < 46340) by nia. assert (s <= s * s) by nia.
    rewrite (sqrt_loop_skip n s (Z.to_nat s)) by lia.
    replace (Z.to_nat n + 1 - Z.to_nat s)%nat with (Datatypes.S (Z.to_nat n - Z.to_nat s)) by lia.
    simpl. rewrite sqrt_body_step by lia. by zbool.
  - rewrite (sqrt_loop_skip n 46340 (Z.to_nat 46340)) by lia.
    replace (Z.to_nat n + 1 - Z.to_nat 46340)%nat
      with (Datatypes.S (Z.to_nat n - Z.to_nat 46340)) by lia.
    simpl while_loop. by rewrite sqrt_body_overflow by lia.
Qed.

(** C30. A line at least as wide as high between two different points on the screen is
    drawn with one pixel per column, at the height [y1] plus the interpolated rise
    truncated towards zero, so less than one pixel from the straight line from
    [(min x1 x2, y1)] to [(max x1 x2, y2)], which it starts and ends with.  That
    is the line asked for when [x1 < x2]; when [x2 < x1] it is its mirror image,
    since [x1] and [x2] are exchanged and [y1] and [y2] are not.  Equal points
    divide by zero. *)
Theorem drawline_flat (m : mem) (H x1 y1 x2 y2 b g r : Z) :
  vmem_ok m H -> on_screen H (x1, y1) -> on_screen H (x2, y2) ->
  let len := Z.abs (x2 - x1) in let lo := Z.min x1 x2 in
  Z.abs (y2 - y1) <= len ->
  (len = 0 -> drawline m x1 y1 x2 y2 b g r = Undef) /\
  (0 < len ->
     let pts := map (fun x => (x, y1 + Z.quot ((y2 - y1) * (x - lo)) len)) (seqZ lo (len + 1)) in
     drawline m x1 y1 x2 y2 b g r = Ok (plot b g r m pts) /\
     Forall (on_screen H) pts /\
     (forall x y, (x, y) ∈ pts -> Z.abs ((y - y1) * len - (y2 - y1) * (x - lo)) < len) /\
     (lo, y1) ∈ pts /\ (Z.max x1 x2, y2) ∈ pts).
Proof.
  intros Hm [Hx1 Hy1] [Hx2 Hy2] len lo Hflat. pose proof Hm as [_ HH]. simpl in *.
  assert (E : drawline m x1 y1 x2 y2 b g r =
    for_range lo (lo + len + 1) (fun px m =>
      py ← line_coord y1 (y2 - y1) len lo px;
      m ← setpixel m px py b g r; _ ← int32 (px + 1); Ok m) m).
  { unfold drawline. rewrite (int32_ok (x2 - x1)), (int32_ok (y2 - y1)) by lia.
    cbn [mbind res_bind]. rewrite !int_abs_ok by lia. cbn [mbind res_bind]. fold len. zbool.
    destruct (Z.ltb_spec x2 x1).
    - replace (x1 + 1) with (lo + len + 1) by lia. by replace x2 with lo by lia.
    - replace (x2 + 1) with (lo + len + 1) by lia. by replace x1 with lo by lia. }
  split; intros Hlen.
  - rewrite E, Hlen, for_range_step by lia. unfold line_coord. rewrite Z.sub_diag. cbn [mbind res_bind].
    rewrite (int32_ok 0) by lia. cbn [mbind res_bind]. rewrite Z.mul_0_r.
    by rewrite (int32_ok 0) by lia.
  - assert (Hin : forall p, lo <= p <= lo + len -> on_screen H (p, line_at y1 (y2 - y1) len lo p)).
    { intros p Hp. destruct (line_at_between y1 (y2 - y1) len lo p Hlen Hp) as [Hb _].
      split; simpl; lia. }
    pose proof (line_loop H m b g r y1 (y2 - y1) len lo false Hm Hlen ltac:(lia) Hin
      ltac:(lia) ltac:(lia) ltac:(lia)) as L. simpl in L. rewrite E, L.
    split; [done|]. split; [|split; [|split]].
    + apply list.Forall_forall. intros p (q & -> & Hq%elem_of_seqZ)%list_elem_of_fmap. apply Hin. lia.
    + intros x y (q & [= -> ->] & Hq%elem_of_seqZ)%list_elem_of_fmap.
      apply line_at_between; lia.
    + apply list_elem_of_fmap. exists lo. split; [|apply elem_of_seqZ; lia].
      f_equal. symmetry. apply line_at_start.
    + apply list_elem_of_fmap. exists (lo + len). split; [|apply elem_of_seqZ; lia].
      f_equal; [lia|]. etransitivity; [|symmetry; by apply line_at_end]. lia.
Qed.

(** The steep counterpart of [drawline_flat]: one pixel per line, from
    [(x1, min y1 y2)] to [(x2, max y1 y2)], the mirror image when [y2 < y1]. *)
Theorem drawline_steep (m : mem) (H x1 y1 x2 y2 b g r : Z) :
  vmem_ok m H -> on_screen H (x1, y1) -> on_screen H (x2, y2) -> 
  let len := Z.abs (y2 - y1) in let lo := Z.min y1 y2 in
  Z.abs (x2 - x1) < len ->
  exists pts, drawline m x1 y1 x2 y2 b g r = Ok (plot b g r m pts) /\
     Forall (on_screen H) pts /\ map snd pts = seqZ lo (len + 1) /\
     (forall x y, (x, y) ∈ pts -> Z.abs ((x - x1) * len - (x2 - x1) * (y - lo)) < len) /\
     (x1, lo) ∈ pts /\ (x2, Z.max y1 y2) ∈ pts.
Proof.
  intros Hm [Hx1 Hy1] [Hx2 Hy2] len lo Hst. pose proof Hm as [_ HH]. simpl in *.
  assert (E : drawline m x1 y1 x2 y2 b g r =
    for_range lo (lo + len + 1) (fun py m =>
      px ← line_coord x1 (x2 - x1) len lo py;
      m ← setpixel m px py b g r; _ ← int32 (py + 1); Ok m) m).
  { unfold drawline. rewrite (int32_ok (x2 - x1)), (int32_ok (y2 - y1)) by lia.
    cbn [mbind res_bind]. rewrite !int_abs_ok by lia. cbn [mbind res_bind]. fold len.
    rewrite (proj2 (Z.leb_gt len _)) by lia.
    destruct (Z.ltb_spec y2 y1).
    - replace (y1 + 1) with (lo + len + 1) by lia. by replace y2 with lo by lia.
    - replace (y2 + 1) with (lo + len + 1) by lia. by replace y1 with lo by lia. }
  assert (Hlen : 0 < len) by lia.
  assert (Hin : forall p, lo <= p <= lo + len -> on_screen H (line_at x1 (x2 - x1) len lo p, p)).
  { intros p Hp. destruct (line_at_between x1 (x2 - x1) len lo p Hlen Hp) as [Hb _].
    split; simpl; lia. }
  pose proof (line_loop H m b g r x1 (x2 - x1) len lo true Hm Hlen ltac:(lia) Hin
    ltac:(lia) ltac:(lia) ltac:(lia)) as L. simpl in L. rewrite E, L.
  eexists. split; [done|]. split; [|split; [|split; [|split]]].
  - apply list.Forall_forall. intros p (q & -> & Hq%elem_of_seqZ)%list_elem_of_fmap. apply Hin. lia.
  - rewrite map_map. apply map_id.
  - intros x y (q & [= -> ->] & Hq%elem_of_seqZ)%list_elem_of_fmap. apply line_at_between; lia.
  - apply list_elem_of_fmap. exists lo. split; [by rewrite line_at_start|apply elem_of_seqZ; lia].
  - apply list_elem_of_fmap. exists (lo + len). split; [|apply elem_of_seqZ; lia].
    rewrite line_at_end by done. f_equal; lia.
Qed.

(** [drawcircle] has no defined behaviour for any radius from 0 on: its first
    pixel takes [sqrt(0)], which returns no value.  The boot code draws one. *)
Theorem drawcircle_undefined (m : mem) (xc yc radius b g r : Z) :
  0 <= radius -> drawcircle m xc yc radius b g r = Undef.
Proof.
  intros Hr. unfold drawcircle.
  destruct (int32_cases (xc + radius)) as [-> | ->]; [|done].
  cbn [mbind res_bind]. unfold for_down. rewrite for_range_step by lia. unfold circle_column.
  replace (xc + radius - 0 - xc) with radius by lia.
  destruct (int32_cases radius) as [-> | ->]; [|done].
  cbn [mbind res_bind]. unfold circle_half.
  destruct (int32_cases (radius * radius)) as [-> | ->]; [|done].
  cbn [mbind res_bind]. by rewrite Z.sub_diag.
Qed.

(** C14. [drawtext] of a printable character shows the font's 8 by 8 pattern in white,
    every dot doubled, in columns 2 to 17 and lines 0 to 15 of the cell at the
    cursor, changes no other pixel, and moves the cursor by 16; a cursor past
    column 1260 first goes to the start of the next line. *)
Theorem drawtext_glyph (s : gst) (H c : Z) :
  vmem_ok (gmem s) H -> 0 <= c < 256 -> c <> 8 -> c <> 10 -> -2 <= width s -> 0 <= height s ->
  (cell_start s).2 + 16 <= H ->
  exists m', drawtext s c = Ok (mk_gst m' ((cell_start s).1 + 16) (cell_start s).2) /\
    (forall x y, 0 <= x < 1280 -> pixel_at m' x y =
      if glyph_pixel c (x - (cell_start s).1) (y - (cell_start s).2)
      then map Some (pixel 255 255 255) else pixel_at (gmem s) x y) /\
    (forall a, ~ (video <= a < video + 1280 * H * 4) -> m' !! a = gmem s !! a).
Proof.
  intros Hm Hc H8 H10 Hw Hh HH.
  destruct (drawtext_char_ok H s c Hm Hc H8 H10 Hw Hh HH) as (m' & E & _ & Hp & Ha).
  by exists m'.
Qed.

(** A character followed by a backspace leaves the cursor where it was and the
    two cells from there on black, with the rest of the screen as it was. *)
Theorem drawtext_backspace_erases (s : gst) (H c : Z) :
  vmem_ok (gmem s) H -> 0 <= c < 256 -> c <> 8 -> c <> 10 ->
  0 <= width s <= 1244 -> 0 <= height s -> height s + 16 <= H ->
  exists m', (s1 ← drawtext s c; drawtext s1 8) = Ok (mk_gst m' (width s) (height s)) /\
    forall x y, 0 <= x < 1280 -> pixel_at m' x y =
      if (width s <=? x) && (x <? width s + 32) && (height s <=? y) && (y <? height s + 16)
      then map Some (pixel 0 0 0) else pixel_at (gmem s) x y.
Proof.
  intros Hm Hc H8 H10 Hw Hh HH.
  assert (Hcs : cell_start s = (width s, height s))
    by (unfold cell_start; rewrite (proj2 (Z.ltb_ge 1260 (width s))) by lia; done).
  destruct (drawtext_char_ok H s c Hm Hc H8 H10) as (m1 & -> & Hm1 & Hp1 & _);
    [lia..|rewrite Hcs; simpl; lia|].
  rewrite Hcs in *. cbn [mbind res_bind fst snd] in *.
  rewrite (drawtext_backspace_ok H) by (simpl; done || lia). cbn [gmem width height].
  rewrite Z.add_simpl_r. eexists. split; [done|]. intros x y Hx.
  set (P := (width s <=? x) && (x <? width s + 32) && (height s <=? y) && (y <? height s + 16)).
  rewrite (plot_columns _ _ _ _ _ _ _ P H); [| |done|].
  - destruct P eqn:EP; [done|]. rewrite Hp1 by done.
    destruct (glyph_pixel c (x - width s) (y - height s)) eqn:EG; [|done].
    unfold glyph_pixel in EG. rewrite !andb_true_iff, !Z.leb_le, !Z.ltb_lt in EG.
    apply not_true_iff_false in EP. exfalso. apply EP. unfold P. zbool. done.
  - intros [x' y'] Hin. rewrite !elem_of_app, !in_rect in Hin. split; simpl; lia.
  - rewrite !elem_of_app, !in_rect. unfold P. rewrite !andb_true_iff, !Z.leb_le, !Z.ltb_lt. lia.
Qed.

(** [cleanscreen] whitens lines 35 to 1030, so it needs 1031 lines: with just the
    1024 of the video mode it leaves the frame buffer. *)
Theorem cleanscreen_lines (m : mem) (H : Z) :
  vmem_ok m H ->
  (1031 <= H -> exists m', cleanscreen m = Ok m' /\
     forall x y, 0 <= x < 1280 -> pixel_at m' x y =
       if (35 <=? y) && (y <? 1031) then map Some (pixel 255 255 255) else pixel_at m x y) /\
  (H = 1024 -> (forall a, video + 1280 * 1024 * 4 <= a -> m !! a = None) -> cleanscreen m = Undef).
Proof.
  intros Hm. split; intros HH.
  - unfold cleanscreen. rewrite (fillrect_ok m H) by (done || lia). eexists. split; [done|].
    intros x y Hx. rewrite pixel_rect by lia. by zbool.
  - subst H. intros Hout. unfold cleanscreen, fillrect. rewrite pixel_offset_ok by lia.
    cbn [mbind res_bind]. unfold for_range. rewrite Z.sub_0_r.
    replace (Z.to_nat 996) with (989 + 7)%nat by lia. rewrite for_loop_split.
    rewrite (fillrect_loop 1024) by (done || lia). cbn [mbind res_bind].
    change 7%nat with (Datatypes.S 6). cbn [for_loop].
    rewrite fillrect_line_undef; [done|lia..|].
    rewrite (plot_outside _ _ _ 1024); [apply Hout; lia| |lia].
    apply list.Forall_forall. intros [x y] Hp%in_rect. split; simpl; lia.
Qed.

(** ** Witnesses *)

(** A black frame buffer of [H] lines. *)
Definition demo_vmem (H : Z) : mem := mem_of video (replicate (Z.to_nat (1280 * H * 4)) 0).

Lemma demo_vmem_ok H : 0 <= H <= 32768 -> vmem_ok (demo_vmem H) H.
Proof.
  intros HH. split; [|done]. pose proof (write_list_bytes_at ∅ video (replicate (Z.to_nat (1280 * H * 4)) 0)) as Hb.
  apply bytes_at_mapped in Hb. rewrite length_replicate, Z2Nat.id in Hb by lia. exact Hb.
Qed.

Lemma demo_vmem_outside H a : 0 <= H -> video + 1280 * H * 4 <= a -> demo_vmem H !! a = None.
Proof.
  intros HH Ha. unfold demo_vmem, mem_of. rewrite write_list_lookup_ne; [apply lookup_empty|].
  rewrite length_replicate, Z2Nat.id by lia. lia.
Qed.

(** The blue banner at the top of the boot screen. *)
Lemma fillrect_paints_witness :
  exists m', fillrect (demo_vmem 1024) 0 0 1280 28 255 0 0 = Ok m' /\
    pixel_at m' 640 27 = [Some 255; Some 0; Some 0; Some 0].
Proof.
  destruct (fillrect_paints (demo_vmem 1024) 1024 0 0 1280 28 255 0 0)
    as (m' & E & _ & Hp & _); [apply demo_vmem_ok; lia|lia..|].
  exists m'. split; [exact E|]. rewrite Hp by lia. reflexivity.
Defined.

Lemma sqrt_floor_pred_witness : sqrt 145 = Ok 12 /\ sqrt 144 = Ok 11 /\ sqrt 0 = Undef.
Proof.
  split; [|split]; [rewrite (sqrt_floor_pred 145)|rewrite (sqrt_floor_pred 144)|
    rewrite (sqrt_floor_pred 0)]; try lia; reflexivity.
Defined.

(** The base of the triangle on the boot screen. *)
Lemma drawline_flat_witness :
  drawline (demo_vmem 1024) 390 683 890 683 255 255 255 =
    Ok (plot 255 255 255 (demo_vmem 1024) (map (fun x => (x, 683 + Z.quot (0 * (x - 390)) 500)) (seqZ 390 501))).
Proof.
  destruct (drawline_flat (demo_vmem 1024) 1024 390 683 890 683 255 255 255) as [_ Hl];
    [apply demo_vmem_ok; lia|split; simpl; lia..|lia|].
  destruct Hl as (E & _); [lia|]. exact E.
Defined.

(** Its left side. *)
Lemma drawline_steep_witness :
  exists pts, drawline (demo_vmem 1024) 640 250 390 683 255 255 255 =
      Ok (plot 255 255 255 (demo_vmem 1024) pts) /\ (640, 250) ∈ pts /\ (390, 683) ∈ pts.
Proof.
  destruct (drawline_steep (demo_vmem 1024) 1024 640 250 390 683 255 255 255)
    as (pts & E & _ & _ & _ & H1 & H2); [apply demo_vmem_ok; lia|split; simpl; lia..|lia|].
  exists pts. split; [exact E|]. split; [exact H1|exact H2].
Defined.

(** The inscribed circle of the boot screen. *)
Lemma drawcircle_undefined_witness :
  drawcircle (demo_vmem 1024) 640 538 145 255 255 255 = Undef.
Proof. apply (drawcircle_undefined (demo_vmem 1024) 640 538 145 255 255 255). lia. Defined.

(** The first character of the greeting; its top line starts with two dots. *)
Lemma drawtext_glyph_witness :
  exists m', drawtext (mk_gst (demo_vmem 1024) 480 6) 87 = Ok (mk_gst m' 496 6) /\
    pixel_at m' 482 6 = [Some 255; Some 255; Some 255; Some 0].
Proof.
  destruct (drawtext_glyph (mk_gst (demo_vmem 1024) 480 6) 1024 87) as (m' & E & Hp & _);
    [apply demo_vmem_ok; lia|simpl; lia..|].
  exists m'. split; [exact E|]. rewrite Hp by lia.
  assert (glyph_pixel 87 2 0 = true) as HG by (vm_compute; reflexivity).
  change (482 - _) with 2. change (6 - _) with 0. rewrite HG. reflexivity.
Defined.

Lemma drawtext_backspace_erases_witness :
  exists m', (s1 ← drawtext (mk_gst (demo_vmem 1024) 0 35) 65; drawtext s1 8) =
      Ok (mk_gst m' 0 35) /\ pixel_at m' 4 35 = [Some 0; Some 0; Some 0; Some 0].
Proof.
  destruct (drawtext_backspace_erases (mk_gst (demo_vmem 1024) 0 35) 1024 65) as (m' & E & Hp);
    [apply demo_vmem_ok; lia|simpl; lia..|].
  exists m'. split; [exact E|]. rewrite Hp by lia. reflexivity.
Defined.

Lemma cleanscreen_lines_witness :
  (exists m', cleanscreen (demo_vmem 1031) = Ok m') /\ cleanscreen (demo_vmem 1024) = Undef.
Proof.
  split.
  - destruct (cleanscreen_lines (demo_vmem 1031) 1031) as [H1 _]; [apply demo_vmem_ok; lia|].
    destruct (H1 ltac:(lia)) as (m' & E & _). exists m'. exact E.
  - apply (cleanscreen_lines (demo_vmem 1024) 1024); [apply demo_vmem_ok; lia|reflexivity|].
    intros a Ha. apply demo_vmem_outside; lia.
Defined.
