(* ===== verification/Ports.v ===== *)
(** The processor's I/O ports, and the ATA drive behind ports 0x1F0 to 0x1F7.

    The port instructions are inline assembler and the devices are hardware:
    [PortIO] and [Console] are the operations the C code calls, over a device
    state [D].  [AtaDrive] states what the disk code relies on of a drive
    (ATA command set, 28-bit PIO): the task-file registers, the data phase of
    READ SECTORS (0x20) and WRITE SECTORS (0x30), and the status register while
    the drive is busy and when it is ready. *)

From S2P Require Import Prelude Mem.

Class PortIO (D : Type) := {
  inb : Z -> D -> Z * D;
  outb : Z -> Z -> D -> D;
  inw : Z -> D -> Z * D;
  outw : Z -> Z -> D -> D
}.

(** [printss] of the monitor library, on a string without its terminator. *)
Class Console (D : Type) := { printss : list Z -> D -> D }.

(** ** The drive *)
Inductive transfer :=
  | Idle
  | Reading (words : list Z)
  | Writing (lba : Z) (blocks : nat) (words : list Z).

Record drive := mk_drive {
  sectors : Z -> list Z;
  regs : Z -> Z;
  xfer : transfer
}.

Definition ATA_DATA := 0x1F0.
Definition ATA_COUNT := 0x1F2.
Definition ATA_LBA0 := 0x1F3.
Definition ATA_LBA1 := 0x1F4.
Definition ATA_LBA2 := 0x1F5.
Definition ATA_DEVICE := 0x1F6.
Definition ATA_COMMAND := 0x1F7.

Definition ata_reg (port : Z) : bool := (0x1F1 <=? port) && (port <=? 0x1F6).

Definition fupd (f : Z -> Z) (k v : Z) : Z -> Z := fun x => if x =? k then v else f x.

(** The LBA and the number of sectors the registers select. *)
Definition drive_lba (v : drive) : Z :=
  regs v ATA_LBA0 + regs v ATA_LBA1 * 2 ^ 8 + regs v ATA_LBA2 * 2 ^ 16 +
  (regs v ATA_DEVICE mod 16) * 2 ^ 24.

Definition drive_count (v : drive) : nat :=
  if regs v ATA_COUNT =? 0 then 256%nat else Z.to_nat (regs v ATA_COUNT).

(** The contents of [n] sectors from [lba] on. *)
Fixpoint sector_words (f : Z -> list Z) (lba : Z) (n : nat) : list Z :=
  match n with
  | O => []
  | S n' => f lba ++ sector_words f (lba + 1) n'
  end.

Definition set_xfer (v : drive) (x : transfer) : drive := mk_drive (sectors v) (regs v) x.

Definition drive_outb (port val : Z) (v : drive) : drive :=
  if ata_reg port then mk_drive (sectors v) (fupd (regs v) port (u8 val)) (xfer v)
  else if port =? ATA_COMMAND then
    if val =? 0x20 then set_xfer v (Reading (sector_words (sectors v) (drive_lba v) (drive_count v)))
    else if val =? 0x30 then set_xfer v (Writing (drive_lba v) (drive_count v) [])
    else v
  else v.

Definition store_sector (f : Z -> list Z) (lba : Z) (words : list Z) : Z -> list Z :=
  fun x => if x =? lba then words else f x.

(** A word of the data phase arrives; the 256th completes the sector. *)
Definition drive_outw (val : Z) (v : drive) : drive :=
  match xfer v with
  | Writing lba (S n) words =>
      let words := words ++ [u16 val] in
      if (length words =? 256)%nat then
        mk_drive (store_sector (sectors v) lba words) (regs v)
          (match n with O => Idle | _ => Writing (lba + 1) n [] end)
      else set_xfer v (Writing lba (S n) words)
  | _ => v
  end.

Class AtaDrive (D : Type) `{!PortIO D, !Console D} := {
  abs : D -> drive;
  (** The number of status reads that still find the drive busy. *)
  busy : D -> nat;
  max_busy : nat;
  busy_max d : (busy d <= max_busy)%nat;
  sector_size d lba : length (sectors (abs d) lba) = 256%nat;
  sector_range d lba : Forall (fun w => 0 <= w < 2 ^ 16) (sectors (abs d) lba);
  (** Commands and data. *)
  outb_abs port val d : abs (outb port val d) = drive_outb port val (abs d);
  outw_abs val d : busy d = 0%nat -> abs (outw ATA_DATA val d) = drive_outw val (abs d);
  (** Between two sectors the drive may be busy again, inside one it is not. *)
  outw_busy val d lba n words :
    busy d = 0%nat -> xfer (abs d) = Writing lba n words -> (length words < 255)%nat ->
    busy (outw ATA_DATA val d) = 0%nat;
  inw_abs d w words :
    busy d = 0%nat -> xfer (abs d) = Reading (w :: words) ->
    (inw ATA_DATA d).1 = w /\ abs (inw ATA_DATA d).2 = set_xfer (abs d) (Reading words);
  inw_busy d w words :
    busy d = 0%nat -> xfer (abs d) = Reading (w :: words) -> (length words mod 256 <> 0)%nat ->
    busy (inw ATA_DATA d).2 = 0%nat;
  (** The status register: BSY without DRQ and ERR, then ready. *)
  status_busy d : busy d <> 0%nat ->
    Z.land (inb ATA_COMMAND d).1 0x89 = 0x80 /\ (busy (inb ATA_COMMAND d).2 < busy d)%nat;
  status_ready d : busy d = 0%nat ->
    Z.land (inb ATA_COMMAND d).1 0x80 = 0 /\
    (match xfer (abs d) with
     | Reading [] | Idle => True
     | _ => Z.land (inb ATA_COMMAND d).1 0xC9 = 0x48
     end) /\ busy (inb ATA_COMMAND d).2 = 0%nat;
  status_abs d : abs (inb ATA_COMMAND d).2 = abs d;
  (** Ports of other devices. *)
  inb_other port d : ~ (0x1F0 <= port <= 0x1F7) ->
    abs (inb port d).2 = abs d /\ (busy (inb port d).2 <= busy d)%nat;
  printss_abs s d : abs (printss s d) = abs d;
  printss_busy s d : (busy (printss s d) <= busy d)%nat
}.

(** ** Lemmas *)
Lemma sector_words_length f lba n :
  (forall k, length (f k) = 256%nat) -> length (sector_words f lba n) = (256 * n)%nat.
Proof.
  intros Hf. revert lba. induction n as [|n IH]; intros lba; simpl; [done|].
  rewrite length_app, Hf, IH. lia.
Qed.

Lemma fupd_eq f k v : fupd f k v k = v.
Proof. unfold fupd. by rewrite Z.eqb_refl. Qed.

Lemma fupd_ne f k v j : j <> k -> fupd f k v j = f j.
Proof. intros H. unfold fupd. by rewrite (proj2 (Z.eqb_neq j k)). Qed.

Lemma drive_outb_reg port val v :
  ata_reg port = true ->
  drive_outb port val v = mk_drive (sectors v) (fupd (regs v) port (u8 val)) (xfer v).
Proof. unfold drive_outb. by intros ->. Qed.
