(* ===== verification/Cpu.v ===== *)
(** The processor's side of a port access: registers, the IN and OUT instructions,
    and how a compiler fills the operands of an inline instruction.

    [Bus] is what lies behind the ports.  The C sources wrap these instructions in
    functions of their own: [include/io.c] ([Io]) and [kernel/kernel.c] ([Vga]).
    A wrapper fixes only the registers its constraints name; the others hold
    whatever the compiler left there. *)

From S2P Require Import Prelude Mem.

(** Widths are in bytes. *)
Class Bus (D : Type) := {
  bus_in : nat -> Z -> D -> Z * D;
  bus_out : nat -> Z -> Z -> D -> D
}.

Record cpu := mk_cpu { eax : Z; edx : Z }.

Definition low (w : nat) (v : Z) : Z := wrap (8 * Z.of_nat w) v.

(** The low [w] bytes of a register are replaced, the others stay. *)
Definition set_low (w : nat) (reg v : Z) : Z := reg - low w reg + low w v.

Inductive operand := Imm (n : Z) | Dx.
Inductive instruction := In (w : nat) (port : operand) | Out (w : nat) (port : operand).

(** How the compiler passes the port. *)
Inductive choice := InDx | Immediate.

Definition allowed (c : choice) (port : Z) : Prop :=
  match c with InDx => True | Immediate => 0 <= port < 256 end.

Definition printed (c : choice) (port : Z) : operand :=
  match c with InDx => Dx | Immediate => Imm port end.

Definition pass_port (c : choice) (port : Z) (r : cpu) : cpu :=
  match c with InDx => mk_cpu (eax r) (set_low 2 (edx r) port) | Immediate => r end.

Definition pass_value (w : nat) (v : Z) (r : cpu) : cpu := mk_cpu (set_low w (eax r) v) (edx r).

Section Cpu.
Context {D : Type} `{!Bus D}.

Definition port_of (op : operand) (r : cpu) : Z :=
  match op with Imm n => n | Dx => low 2 (edx r) end.

Definition exec (i : instruction) (s : cpu * D) : cpu * D :=
  let '(r, d) := s in
  match i with
  | Out w op => (r, bus_out w (port_of op r) (low w (eax r)) d)
  | In w op => let '(v, d) := bus_in w (port_of op r) d in (mk_cpu (set_low w (eax r) v) (edx r), d)
  end.

(** The function's value is what its output operand, the low part of %eax, holds. *)
Definition result (w : nat) (s : cpu * D) : Z * (cpu * D) := (low w (eax s.1), s).

(** The device answers [v], of which the function returns [w] bytes. *)
Definition reads (w : nat) (port : Z) (d : D) (r : Z * (cpu * D)) : Prop :=
  r.1 = low w (bus_in w port d).1 /\ r.2.2 = (bus_in w port d).2.

Lemma low_set_low w reg v : low w (set_low w reg v) = low w v.
Proof.
  unfold set_low, low, wrap. set (n := 2 ^ (8 * Z.of_nat w)).
  assert (0 < n) by (apply Z.pow_pos_nonneg; lia).
  rewrite Z.add_mod_idemp_r by lia. replace (reg - reg mod n + v) with (v + reg / n * n)
    by (pose proof (Z.div_mod reg n); lia). apply Z.mod_add. lia.
Qed.

Lemma passed_port c port r : 0 <= port < 2 ^ 16 -> allowed c port -> port_of (printed c port) (pass_port c port r) = port.
Proof. intros Hp Hc. destruct c; [|done]. unfold pass_port, printed, port_of.
  cbn [edx]. rewrite low_set_low. by apply wrap_small. Qed.

Lemma exec_in_reads w op r d p :
  port_of op r = p -> reads w p d (result w (exec (In w op) (r, d))).
Proof.
  intros <-. unfold reads, result. simpl. destruct (bus_in w _ d) as [v d']. simpl.
  by rewrite low_set_low.
Qed.

(** An OUT of [w] bytes of the value reaches the port its operand names. *)
Lemma out_reaches w op v r d p :
  port_of op r = p -> (exec (Out w op) (pass_value w v r, d)).2 = bus_out w p (low w v) d.
Proof.
  intros <-. unfold exec, pass_value. cbn [snd eax]. rewrite low_set_low. by destruct op.
Qed.

(** An OUT whose value nothing loads sends what %eax held. *)
Lemma out_unloaded w port r d : 0 <= port < 2 ^ 16 ->
  (exec (Out w Dx) (pass_port InDx port r, d)).2 = bus_out w port (low w (eax r)) d.
Proof. intros Hp. pose proof (passed_port InDx port r Hp I) as E. simpl in E |- *. by rewrite E. Qed.

Lemma in_reads w port r d : 0 <= port < 2 ^ 16 ->
  reads w port d (result w (exec (In w Dx) (pass_port InDx port r, d))).
Proof. intros Hp. by apply exec_in_reads, (passed_port InDx). Qed.

End Cpu.
