(* ===== verification/Disk.v ===== *)
(** The disk driver of [kernel_main.c]: [int13h_read_o], [int13h_write_o] and
    their wrappers, which move sectors of the booted partition by 28-bit PIO.

    [DISK_READ_LOCATION] and [DISK_WRITE_LOCATION] are addresses defined in
    FAT.h, which is not part of the repository.  [unsigned long] has 32 bits.
    The polling loops take a fuel; the theorems give the one that is enough. *)

From S2P Require Import Prelude Mem Ports.

Section Disk.
Context {D : Type} `{!PortIO D, !Console D}.
Variables DISK_READ_LOCATION DISK_WRITE_LOCATION : Z.

(** The globals [part_start_lba] and [part_length], two [int]s. *)
Record partition := mk_partition { part_start_lba : Z; part_length : Z }.

Definition out_of_partition (p : partition) (sector_offset num_blocks : Z) : bool :=
  u32 (part_length p) <? u32 (sector_offset + num_blocks).

(** The seven register writes of both routines; [NULL] is sent as 0. *)
Definition send_command (lba num_blocks command : Z) (d : D) : D :=
  let d := outb 0x1F1 0 d in
  let d := outb 0x1F2 num_blocks d in
  let d := outb 0x1F3 (u8 lba) d in
  let d := outb 0x1F4 (u8 (Z.shiftr lba 8)) d in
  let d := outb 0x1F5 (u8 (Z.shiftr lba 16)) d in
  let d := outb 0x1F6 (u8 (Z.lor 0xE0 (Z.land (Z.shiftr lba 24) 0x0F))) d in
  outb 0x1F7 command d.

(** [while (!(inb(0x1F7) & 0x08)) {}] *)
Definition wait_data (fuel : nat) (d : D) : res D :=
  while_loop fuel (fun d =>
    let '(s, d) := inb 0x1F7 d in
    Ok (if Z.land s 0x08 =? 0 then inl d else inr d)) d.

Definition read_block (buffer : Z) (md : mem * D) : res (mem * D) :=
  for_range 0 256 (fun idx '(m, d) =>
    let '(v, d) := inw 0x1F0 d in
    m ← store_le 2 m (buffer + 2 * idx) v;
    Ok (m, d)) md.

Definition int13h_read_o (fuel : nat) (p : partition) (sector_offset num_blocks readLocationOffset : Z)
    (m : mem) (d : D) : res (Z * (mem * D)) :=
  if out_of_partition p sector_offset num_blocks then Ok (-1, (m, d))
  else if 0x7F <? num_blocks then Ok (-1, (m, d))
  else
    let lba := u32 (sector_offset + part_start_lba p) in
    let d := send_command lba num_blocks 0x20 d in
    let buffer := u32 (DISK_READ_LOCATION + readLocationOffset) in
    md ← for_range 0 num_blocks (fun iterator '(m, d) =>
      d ← wait_data fuel d;
      read_block (buffer + 512 * iterator) (m, d)) (m, d);
    Ok (0, md).

(** A round of the [while (1)] that waits before a sector is written: [inl] to
    go round again, [inr] for the [break]. *)
Definition write_poll (d : D) : res (D + D) :=
  let '(s, d) := inb 0x1F7 d in
  if Z.land s 0x01 =? 0x01 then Ok (inl (printss (str_bytes "error1" ++ [10]) d))
  else
    let '(s, d) := inb 0x1F7 d in
    if negb (Z.land s 0x40 =? 0x40) then Ok (inl (printss (str_bytes "Not ready!" ++ [10]) d))
    else
      let '(s, d) := inb 0x1F7 d in
      if Z.land s 0x80 =? 0x80 then Ok (inl (printss (str_bytes "Busy!" ++ [10]) d))
      else
        let '(s, d) := inb 0x1F7 d in
        if negb (Z.land s 0x08 =? 0x08) then
          Ok (inl (printss (str_bytes "Have no data/not ready to recieve PIO!" ++ [10]) d))
        else Ok (inr d).

(** Send a sector, with three reads of port 0x323 as a delay after each word. *)
Definition write_block (buffer : Z) (m : mem) (d : D) : res D :=
  for_range 0 256 (fun idx d =>
    v ← load_le 2 m (buffer + 2 * idx);
    let d := outw 0x1F0 v d in
    let d := (inb 0x323 d).2 in
    let d := (inb 0x323 d).2 in
    Ok (inb 0x323 d).2) d.

(** [while (inb(0x1F7) & 0x80) {}] *)
Definition wait_flush (fuel : nat) (d : D) : res D :=
  while_loop fuel (fun d =>
    let '(s, d) := inb 0x1F7 d in
    Ok (if Z.land s 0x80 =? 0 then inr d else inl d)) d.

Definition int13h_write_o (fuel : nat) (p : partition)
    (sector_offset num_blocks writeLocationOffset : Z) (m : mem) (d : D) : res (Z * D) :=
  if out_of_partition p sector_offset num_blocks then Ok (-1, d)
  else if 0x7F <? num_blocks then Ok (-1, d)
  else
    let lba := u32 (sector_offset + part_start_lba p) in
    let d := send_command lba num_blocks 0x30 d in
    let buffer := u32 (DISK_WRITE_LOCATION + writeLocationOffset) in
    d ← for_range 0 num_blocks (fun iterator d =>
      d ← while_loop fuel write_poll d;
      write_block (buffer + 512 * iterator) m d) d;
    let d := outb 0x1F7 0xE7 d in
    d ← wait_flush fuel d;
    Ok (0, d).

Definition int13h_read (fuel : nat) (p : partition) (sector_offset num_blocks : Z) (m : mem) (d : D)
    : res (Z * (mem * D)) := int13h_read_o fuel p sector_offset num_blocks 0 m d.

Definition int13h_write (fuel : nat) (p : partition) (sector_offset num_blocks : Z) (m : mem) (d : D)
    : res (Z * D) := int13h_write_o fuel p sector_offset num_blocks 0 m d.

(** ** Views *)

(** The little-endian bytes of 16-bit words. *)
Definition words_bytes (ws : list Z) : list Z := flat_map (le_bytes 2) ws.

Context `{!AtaDrive D}.

(** [send_command] selects and starts a transfer of [num_blocks] sectors. *)
Definition selected (lba : Z) : Z := lba mod 2 ^ 28.

(** ** Lemmas: the command *)
Lemma device_bits x : u8 (Z.lor 0xE0 (Z.land x 0x0F)) mod 16 = x mod 16.
Proof.
  change 0x0F with (Z.ones 4). rewrite Z.land_ones by lia. rewrite Z.lor_comm.
  change 0xE0 with (Z.shiftl 14 4).
  rewrite lor_pack by (lia || (apply Z.mod_pos_bound; lia)).
  change (2 ^ 4) with 16. unfold wrap. Z.div_mod_to_equations. lia.
Qed.

Lemma lba_bytes lba :
  0 <= lba ->
  u8 (u8 lba) + u8 (u8 (Z.shiftr lba 8)) * 2 ^ 8 + u8 (u8 (Z.shiftr lba 16)) * 2 ^ 16 +
  (u8 (u8 (Z.lor 0xE0 (Z.land (Z.shiftr lba 24) 0x0F))) mod 16) * 2 ^ 24 = selected lba.
Proof.
  intros Hl. rewrite !wrap_idemp, device_bits, !Z.shiftr_div_pow2 by lia.
  unfold wrap, selected. simpl (2 ^ _). Z.div_mod_to_equations. lia.
Qed.

Lemma send_command_abs lba n command d :
  0 <= lba -> 1 <= n <= 0x7F ->
  exists r, abs (send_command lba n command d) =
    drive_outb ATA_COMMAND command (mk_drive (sectors (abs d)) r (xfer (abs d))) /\
    drive_lba (mk_drive (sectors (abs d)) r (xfer (abs d))) = selected lba /\
    drive_count (mk_drive (sectors (abs d)) r (xfer (abs d))) = Z.to_nat n.
Proof.
  intros Hl Hn. unfold send_command. rewrite !outb_abs.
  rewrite (drive_outb_reg 0x1F1), (drive_outb_reg 0x1F2), (drive_outb_reg 0x1F3),
    (drive_outb_reg 0x1F4), (drive_outb_reg 0x1F5), (drive_outb_reg 0x1F6) by done.
  cbn [sectors regs xfer]. eexists. split; [reflexivity|].
  unfold drive_lba, drive_count, ATA_LBA0, ATA_LBA1, ATA_LBA2, ATA_DEVICE, ATA_COUNT.
  cbn [regs]. split.
  - rewrite (fupd_ne _ 0x1F6 _ 0x1F3), (fupd_ne _ 0x1F5 _ 0x1F3), (fupd_ne _ 0x1F4 _ 0x1F3),
      (fupd_ne _ 0x1F6 _ 0x1F4), (fupd_ne _ 0x1F5 _ 0x1F4), (fupd_ne _ 0x1F6 _ 0x1F5), !fupd_eq
      by done.
    by apply lba_bytes.
  - rewrite (fupd_ne _ 0x1F6 _ 0x1F2), (fupd_ne _ 0x1F5 _ 0x1F2), (fupd_ne _ 0x1F4 _ 0x1F2),
      (fupd_ne _ 0x1F3 _ 0x1F2), fupd_eq, wrap_small by (done || lia).
    by rewrite (proj2 (Z.eqb_neq n 0)) by lia.
Qed.

(** ** Lemmas: reading *)
Lemma mask_sub s k c : 0 <= k -> Z.land k 0xC9 = k -> Z.land s 0xC9 = c -> Z.land s k = Z.land c k.
Proof.
  intros Hk Hs <-. rewrite <- Z.land_assoc. by rewrite (Z.land_comm 0xC9 k), Hs.
Qed.

Lemma wait_data_ok n : forall fuel d w ws,
  xfer (abs d) = Reading (w :: ws) -> (busy d <= n)%nat -> (n < fuel)%nat ->
  exists d', wait_data fuel d = Ok d' /\ abs d' = abs d /\ busy d' = 0%nat.
Proof.
  unfold wait_data.
  induction n as [|n IH]; intros fuel d w ws Hx Hb Hf; (destruct fuel as [|fuel]; [lia|]);
    simpl while_loop; pose proof (status_abs d) as Ha;
    destruct (decide (busy d = 0%nat)) as [H0|H0]; try lia.
  1, 2: pose proof (status_ready d H0) as (_ & Hr & Hb'); rewrite Hx in Hr;
    destruct (inb 0x1F7 d) as [s d1] eqn:E; unfold ATA_COMMAND in *; rewrite E in *; simpl in *;
    rewrite (mask_sub s 8 _ ltac:(lia) eq_refl Hr); simpl; by exists d1.
  pose proof (status_busy d H0) as [Hr Hb'].
  destruct (inb 0x1F7 d) as [s d1] eqn:E; unfold ATA_COMMAND in *; rewrite E in *; simpl in *.
  assert (Z.land s 8 = 0) as ->.
  { change 8 with (Z.land 0x89 8). by rewrite Z.land_assoc, Hr. }
  simpl. destruct (IH fuel d1 w ws) as (d' & -> & Ha' & Hb2); [by rewrite Ha|lia..|].
  exists d'. by rewrite Ha', Ha.
Qed.

Lemma words_bytes_app a b : words_bytes (a ++ b) = words_bytes a ++ words_bytes b.
Proof. apply flat_map_app. Qed.

Lemma words_bytes_length ws : length (words_bytes ws) = (2 * length ws)%nat.
Proof.
  induction ws as [|w ws IH]; [done|].
  change (words_bytes (w :: ws)) with (le_bytes 2 w ++ words_bytes ws).
  rewrite length_app, le_bytes_length, IH. simpl. lia.
Qed.

(** One sector, in the order it arrives. *)
Lemma read_block_loop ws : forall n idx m d rest buffer,
  length ws = n -> (n <= 256)%nat -> (length rest mod 256 = 0)%nat ->
  xfer (abs d) = Reading (ws ++ rest) -> (ws <> [] -> busy d = 0%nat) ->
  mapped m (buffer + 2 * idx) (2 * Z.of_nat n) ->
  exists m' d', for_loop n idx (fun idx '(m, d) =>
      let '(v, d) := inw 0x1F0 d in
      m ← store_le 2 m (buffer + 2 * idx) v; Ok (m, d)) (m, d) = Ok (m', d') /\
    wrote m m' (buffer + 2 * idx) (words_bytes ws) /\
    abs d' = set_xfer (abs d) (Reading rest).
Proof.
  induction ws as [|w ws IH]; intros n idx m d rest buffer Hn Hle Hr Hx Hb Hm; subst n; simpl length.
  - exists m, d. split; [done|]. split; [apply wrote_refl|].
    simpl in Hx. destruct (abs d). simpl in *. by rewrite Hx.
  - specialize (Hb ltac:(done)). simpl length in *. cbn [for_loop].
    destruct (inw_abs d w (ws ++ rest) Hb Hx) as [Hw Ha].
    assert (Hb' : ws <> [] -> busy (inw ATA_DATA d).2 = 0%nat).
    { intros Hne. apply (inw_busy d w (ws ++ rest) Hb Hx). rewrite length_app.
      destruct ws as [|w2 ws]; [done|]. simpl length in *.
      rewrite Nat.Div0.add_mod, Hr, Nat.add_0_r, Nat.Div0.mod_mod, Nat.mod_small by lia. lia. }
    unfold ATA_DATA in *. destruct (inw 0x1F0 d) as [v d1] eqn:E. simpl in Hw, Ha, Hb'. subst v.
    destruct (store_le_wrote 2 m (buffer + 2 * idx) w) as (m1 & -> & Hw1).
    { eapply mapped_sub; [exact Hm|lia|lia]. }
    cbn [mbind res_bind].
    destruct (IH (length ws) (idx + 1) m1 d1 rest buffer eq_refl ltac:(lia) Hr) as (m2 & d2 & -> & Hw2 & Ha2).
    + by rewrite Ha.
    + done.
    + eapply mapped_sub; [eapply wrote_mapped; [exact Hw1|exact Hm]|lia|lia].
    + exists m2, d2. split; [done|]. split; [|by rewrite Ha2, Ha].
      change (words_bytes (w :: ws)) with (le_bytes 2 w ++ words_bytes ws).
      apply (wrote_app m m1); [done|]. rewrite le_bytes_length.
      by replace (buffer + 2 * idx + Z.of_nat 2) with (buffer + 2 * (idx + 1)) by lia.
Qed.

Lemma read_block_ok ws m d rest buffer :
  length ws = 256%nat -> (length rest mod 256 = 0)%nat ->
  xfer (abs d) = Reading (ws ++ rest) -> busy d = 0%nat -> mapped m buffer 512 ->
  exists m' d', read_block buffer (m, d) = Ok (m', d') /\
    wrote m m' buffer (words_bytes ws) /\ abs d' = set_xfer (abs d) (Reading rest).
Proof.
  intros Hl Hr Hx Hb Hm.
  destruct (read_block_loop ws 256 0 m d rest buffer Hl ltac:(lia) Hr Hx ltac:(done))
    as (m' & d' & E & Hw & Ha); [by rewrite Z.mul_0_r, Z.add_0_r|].
  rewrite Z.mul_0_r, Z.add_0_r in Hw. exists m', d'. split; [exact E|done].
Qed.

(** The sectors one after the other. *)
Lemma read_loop fuel n : forall lba it m d buffer,
  (max_busy < fuel)%nat ->
  xfer (abs d) = Reading (sector_words (sectors (abs d)) lba n) ->
  mapped m (buffer + 512 * it) (512 * Z.of_nat n) ->
  exists m' d', for_loop n it (fun iterator '(m, d) =>
      d ← wait_data fuel d; read_block (buffer + 512 * iterator) (m, d)) (m, d) = Ok (m', d') /\
    wrote m m' (buffer + 512 * it) (words_bytes (sector_words (sectors (abs d)) lba n)) /\
    abs d' = set_xfer (abs d) (Reading []).
Proof.
  induction n as [|n IH]; intros lba it m d buffer Hf Hx Hm.
  - exists m, d. split; [done|]. split; [apply wrote_refl|].
    simpl in Hx. destruct (abs d). simpl in *. by rewrite Hx.
  - cbn [for_loop]. simpl sector_words in Hx |- *. set (ws := sectors (abs d) lba) in *.
    assert (Hws : length ws = 256%nat) by apply sector_size.
    destruct ws as [|w ws0] eqn:Ews; [done|]. rewrite <- Ews in *.
    destruct (wait_data_ok max_busy fuel d w (ws0 ++ sector_words (sectors (abs d)) (lba + 1) n))
      as (d1 & -> & Ha1 & Hb1); [by rewrite Hx, Ews|apply busy_max|done|]. cbn [mbind res_bind].
    destruct (read_block_ok ws m d1 (sector_words (sectors (abs d)) (lba + 1) n) (buffer + 512 * it))
      as (m2 & d2 & -> & Hw2 & Ha2); [done| |by rewrite Ha1|done| |].
    { rewrite sector_words_length by apply sector_size. rewrite Nat.mul_comm. apply Nat.Div0.mod_mul. }
    { eapply mapped_sub; [exact Hm|lia|lia]. }
    cbn [mbind res_bind].
    assert (Hs2 : sectors (abs d2) = sectors (abs d)) by (by rewrite Ha2, Ha1).
    destruct (IH (lba + 1) (it + 1) m2 d2 buffer Hf) as (m3 & d3 & -> & Hw3 & Ha3).
    + by rewrite Ha2, Ha1.
    + eapply mapped_sub; [eapply wrote_mapped; [exact Hw2|exact Hm]|lia|lia].
    + exists m3, d3. split; [done|]. rewrite Ha3, Ha2, Ha1. split; [|done].
      rewrite words_bytes_app. apply (wrote_app m m2); [done|].
      rewrite words_bytes_length, Hws. rewrite Hs2 in Hw3.
      by replace (buffer + 512 * it + Z.of_nat (2 * 256)) with (buffer + 512 * (it + 1)) by lia.
Qed.

(** ** Lemmas: writing *)
Definition sending (d : D) : Prop :=
  match xfer (abs d) with Writing _ _ _ => True | _ => False end.

(** What one read of the status register answers while data is awaited. *)
Lemma status_cases d : sending d ->
  abs (inb 0x1F7 d).2 = abs d /\ Z.land (inb 0x1F7 d).1 0x01 = 0 /\
  ((busy d = 0%nat /\ busy (inb 0x1F7 d).2 = 0%nat /\ Z.land (inb 0x1F7 d).1 0x40 = 0x40 /\
    Z.land (inb 0x1F7 d).1 0x80 = 0 /\ Z.land (inb 0x1F7 d).1 0x08 = 0x08) \/
   ((busy (inb 0x1F7 d).2 < busy d)%nat /\ Z.land (inb 0x1F7 d).1 0x80 = 0x80)).
Proof.
  intros Hs. pose proof (status_abs d) as Ha. unfold ATA_COMMAND in Ha. split; [exact Ha|].
  destruct (decide (busy d = 0%nat)) as [H0|H0].
  - destruct (status_ready d H0) as (_ & Hr & Hb). unfold ATA_COMMAND in *. unfold sending in Hs.
    destruct (xfer (abs d)) as [|ws|l n ws]; [done..|].
    split; [by rewrite (mask_sub _ 0x01 _ ltac:(lia) eq_refl Hr)|]. left.
    rewrite (mask_sub _ 0x40 _ ltac:(lia) eq_refl Hr), (mask_sub _ 0x80 _ ltac:(lia) eq_refl Hr),
      (mask_sub _ 0x08 _ ltac:(lia) eq_refl Hr). done.
  - destruct (status_busy d H0) as [Hr Hb]. unfold ATA_COMMAND in *. set (s := (inb 0x1F7 d).1) in *.
    split; [change 1 with (Z.land 0x89 1); by rewrite Z.land_assoc, Hr|]. right. split; [done|].
    change 0x80 with (Z.land 0x89 0x80) at 1. by rewrite Z.land_assoc, Hr.
Qed.

(** A round of the wait ends it, or has seen the drive busy. *)
Lemma write_poll_cases d : sending d ->
  (exists d', write_poll d = Ok (inr d') /\ abs d' = abs d /\ busy d' = 0%nat) \/
  (exists d', write_poll d = Ok (inl d') /\ abs d' = abs d /\ (busy d' < busy d)%nat).
Proof.
  intros Hs. unfold write_poll.
  destruct (status_cases d Hs) as (A1 & E1 & C1). destruct (inb 0x1F7 d) as [s1 d1]. simpl in *.
  rewrite E1. simpl. assert (Hs1 : sending d1) by (by unfold sending; rewrite A1).
  destruct (status_cases d1 Hs1) as (A2 & E2 & C2). destruct (inb 0x1F7 d1) as [s2 d2]. simpl in *.
  assert (Hs2 : sending d2) by (by unfold sending; rewrite A2).
  destruct (Z.eqb_spec (Z.land s2 0x40) 0x40) as [E|E]; simpl.
  2: { right. eexists. split; [done|]. split; [by rewrite printss_abs, A2|].
    eapply Nat.le_lt_trans; [apply printss_busy|].
    destruct C2 as [(_ & _ & ? & _)|[? _]]; [done|]. destruct C1 as [(? & ? & _)|[? _]]; lia. }
  destruct (status_cases d2 Hs2) as (A3 & E3 & C3). destruct (inb 0x1F7 d2) as [s3 d3]. simpl in *.
  assert (Hs3 : sending d3) by (by unfold sending; rewrite A3).
  assert (B2 : (busy d2 <= busy d)%nat)
    by (destruct C1 as [(? & ? & _)|[? _]], C2 as [(? & ? & _)|[? _]]; lia).
  destruct C3 as [(Z3 & Z3' & _ & Hr & _)|[Hb Hr]]; rewrite Hr; simpl.
  2: { right. eexists. split; [done|]. split; [by rewrite printss_abs, A3, A2|].
    eapply Nat.le_lt_trans; [apply printss_busy|lia]. }
  destruct (status_cases d3 Hs3) as (A4 & E4 & C4). destruct (inb 0x1F7 d3) as [s4 d4]. simpl in *.
  destruct C4 as [(_ & Z4 & _ & _ & Hr4)|[? _]]; [|lia]. rewrite Hr4. simpl.
  left. exists d4. split; [done|]. split; [by rewrite A4, A3, A2|done].
Qed.

Lemma write_wait_ok n : forall fuel d,
  sending d -> (busy d <= n)%nat -> (n < fuel)%nat ->
  exists d', while_loop fuel write_poll d = Ok d' /\ abs d' = abs d /\ busy d' = 0%nat.
Proof.
  induction n as [|n IH]; intros fuel d Hs Hb Hf; (destruct fuel as [|fuel]; [lia|]);
    simpl while_loop; destruct (write_poll_cases d Hs) as [(d1 & -> & A & B)|(d1 & -> & A & B)];
    simpl; [by exists d1|lia|by exists d1|].
  destruct (IH fuel d1) as (d2 & -> & A2 & B2); [by unfold sending; rewrite A|lia|lia|].
  exists d2. by rewrite A2, A.
Qed.

(** The delay after a word. *)
Lemma delay_ok d : busy d = 0%nat ->
  abs (inb 0x323 (inb 0x323 (inb 0x323 d).2).2).2 = abs d /\
  busy (inb 0x323 (inb 0x323 (inb 0x323 d).2).2).2 = 0%nat.
Proof.
  intros H0. assert (Hp : ~ (0x1F0 <= 0x323 <= 0x1F7)) by lia.
  destruct (inb_other 0x323 d Hp) as [A1 B1].
  destruct (inb_other 0x323 (inb 0x323 d).2 Hp) as [A2 B2].
  destruct (inb_other 0x323 (inb 0x323 (inb 0x323 d).2).2 Hp) as [A3 B3].
  split; [by rewrite A3, A2|lia].
Qed.

Definition wrote_sector (v : drive) (lba : Z) (n : nat) (ws : list Z) : drive :=
  mk_drive (store_sector (sectors v) lba ws) (regs v)
    (match n with O => Idle | _ => Writing (lba + 1) n [] end).

Lemma write_block_loop m buffer lba n ws : forall dn idx d,
  (length dn + length ws = 256)%nat -> ws <> [] -> busy d = 0%nat ->
  xfer (abs d) = Writing lba (S n) dn ->
  bytes_at m (buffer + 2 * idx) (words_bytes ws) -> Forall (fun w => 0 <= w < 2 ^ 16) ws ->
  exists d', for_loop (length ws) idx (fun idx d =>
      v ← load_le 2 m (buffer + 2 * idx);
      let d := outw 0x1F0 v d in
      let d := (inb 0x323 d).2 in
      let d := (inb 0x323 d).2 in
      Ok (inb 0x323 d).2) d = Ok d' /\ abs d' = wrote_sector (abs d) lba n (dn ++ ws).
Proof.
  induction ws as [|w ws IH]; intros dn idx d Hl Hne H0 Hx Hb Hr; [done|]. clear Hne.
  change (words_bytes (w :: ws)) with (le_bytes 2 w ++ words_bytes ws) in Hb.
  apply bytes_at_app in Hb as [Hw Hb]. rewrite le_bytes_length in Hb.
  apply list.Forall_cons in Hr as [Hrw Hr]. cbn [length] in Hl. cbn [for_loop length].
  rewrite (load_le_word _ _ _ _ Hw), Z.mod_small by (simpl; lia). cbn [mbind res_bind].
  pose proof (outw_abs w d H0) as Ha. unfold drive_outw in Ha. rewrite Hx in Ha.
  rewrite (wrap_small 16 w) in Ha by done. unfold ATA_DATA in Ha.
  rewrite length_app in Ha. cbn [length] in Ha.
  destruct ws as [|w2 ws].
  - cbn [length] in *. replace (length dn + 1 =? 256)%nat with true in Ha by (symmetry; apply Nat.eqb_eq; lia).
    assert (Hd : forall x, abs (inb 0x323 x).2 = abs x) by (intros x; apply inb_other; lia).
    eexists. split; [reflexivity|]. rewrite !Hd, Ha. done.
  - replace (length dn + 1 =? 256)%nat with false in Ha
      by (symmetry; apply Nat.eqb_neq; cbn [length] in Hl; lia).
    assert (B0 : busy (outw 0x1F0 w d) = 0%nat).
    { apply (outw_busy w d lba (S n) dn H0 Hx). cbn [length] in Hl. lia. }
    destruct (delay_ok _ B0) as [Ad Bd].
    destruct (IH (dn ++ [w]) (idx + 1) (inb 0x323 (inb 0x323 (inb 0x323 (outw 0x1F0 w d)).2).2).2)
      as (d' & E & A).
    + rewrite length_app. cbn [length] in *. lia.
    + done.
    + exact Bd.
    + rewrite Ad, Ha. done.
    + by replace (buffer + 2 * (idx + 1)) with (buffer + 2 * idx + Z.of_nat 2) by lia.
    + done.
    + exists d'. split; [exact E|]. rewrite A, Ad, Ha. unfold wrote_sector. simpl.
      by rewrite <- app_assoc.
Qed.

Fixpoint store_sectors (f : Z -> list Z) (lba : Z) (blocks : list (list Z)) : Z -> list Z :=
  match blocks with
  | [] => f
  | b :: bs => store_sectors (store_sector f lba b) (lba + 1) bs
  end.

Definition block_ok (b : list Z) : Prop := length b = 256%nat /\ Forall (fun w => 0 <= w < 2 ^ 16) b.

Lemma write_loop fuel m buffer blocks : forall lba it d,
  (max_busy < fuel)%nat -> blocks <> [] ->
  xfer (abs d) = Writing lba (length blocks) [] -> Forall block_ok blocks ->
  bytes_at m (buffer + 512 * it) (words_bytes (concat blocks)) ->
  exists d', for_loop (length blocks) it (fun iterator d =>
      d ← while_loop fuel write_poll d; write_block (buffer + 512 * iterator) m d) d = Ok d' /\
    sectors (abs d') = store_sectors (sectors (abs d)) lba blocks.
Proof.
  induction blocks as [|b bs IH]; intros lba it d Hf Hne Hx Hok Hb; [done|]. clear Hne.
  apply list.Forall_cons in Hok as [[Hl Hr] Hok]. cbn [concat] in Hb.
  rewrite words_bytes_app in Hb. apply bytes_at_app in Hb as [Hb1 Hb].
  rewrite words_bytes_length, Hl in Hb. cbn [for_loop length] in *.
  destruct (write_wait_ok max_busy fuel d) as (d1 & -> & A1 & B1);
    [by unfold sending; rewrite Hx|apply busy_max|done|]. cbn [mbind res_bind].
  destruct (write_block_loop m (buffer + 512 * it) lba (length bs) b [] 0 d1) as (d2 & E2 & A2);
    [done|by destruct b|done|by rewrite A1|by rewrite Z.mul_0_r, Z.add_0_r|done|].
  rewrite Hl in E2.
  assert (write_block (buffer + 512 * it) m d1 = Ok d2) as -> by exact E2. cbn [mbind res_bind store_sectors]. rewrite A1 in A2.
  destruct bs as [|b2 bs]; [exists d2; by rewrite A2|].
  destruct (IH (lba + 1) (it + 1) d2 Hf) as (d3 & -> & A3); [done|by rewrite A2|done| |].
  - by replace (buffer + 512 * (it + 1)) with (buffer + 512 * it + Z.of_nat (2 * 256)) by lia.
  - exists d3. by rewrite A3, A2.
Qed.

Lemma wait_flush_ok n : forall fuel d,
  (busy d <= n)%nat -> (n < fuel)%nat ->
  exists d', wait_flush fuel d = Ok d' /\ abs d' = abs d.
Proof.
  unfold wait_flush.
  induction n as [|n IH]; intros fuel d Hb Hf; (destruct fuel as [|fuel]; [lia|]);
    simpl while_loop; pose proof (status_abs d) as Ha; unfold ATA_COMMAND in Ha;
    destruct (decide (busy d = 0%nat)) as [H0|H0]; try lia.
  1, 2: pose proof (status_ready d H0) as (Hr & _); unfold ATA_COMMAND in Hr;
    destruct (inb 0x1F7 d) as [s d1]; simpl in *; rewrite Hr; simpl; by exists d1.
  pose proof (status_busy d H0) as [Hr Hb']. unfold ATA_COMMAND in *.
  destruct (inb 0x1F7 d) as [s d1]; simpl in *.
  assert (Z.land s 0x80 = 0x80) as ->.
  { change 0x80 with (Z.land 0x89 0x80) at 1. by rewrite Z.land_assoc, Hr. }
  simpl. destruct (IH fuel d1) as (d' & -> & A); [lia..|]. exists d'. by rewrite A, Ha.
Qed.

Lemma store_sectors_out blocks : forall f lba x,
  ~ (lba <= x < lba + Z.of_nat (length blocks)) -> store_sectors f lba blocks x = f x.
Proof.
  induction blocks as [|b bs IH]; intros f lba x Hx; [done|]. simpl in *. rewrite IH by lia.
  unfold store_sector. by rewrite (proj2 (Z.eqb_neq x lba)) by lia.
Qed.

Lemma sector_words_stored blocks : forall f lba,
  sector_words (store_sectors f lba blocks) lba (length blocks) = concat blocks.
Proof.
  induction blocks as [|b bs IH]; intros f lba; [done|]. simpl. rewrite IH. f_equal.
  rewrite store_sectors_out by lia. unfold store_sector. by rewrite Z.eqb_refl.
Qed.

(** The state the first round of either routine starts in. *)
Lemma command_xfer lba n command d :
  0 <= lba -> 1 <= n <= 0x7F -> command = 0x20 \/ command = 0x30 ->
  sectors (abs (send_command lba n command d)) = sectors (abs d) /\
  xfer (abs (send_command lba n command d)) =
    if command =? 0x20 then Reading (sector_words (sectors (abs d)) (selected lba) (Z.to_nat n))
    else Writing (selected lba) (Z.to_nat n) [].
Proof.
  intros Hl Hn Hc. destruct (send_command_abs lba n command d Hl Hn) as (r & -> & E1 & E2).
  unfold drive_outb. simpl. destruct Hc as [-> | ->]; simpl; by rewrite E1, ?E2.
Qed.

Lemma read_sectors fuel p off n loc m d :
  (max_busy < fuel)%nat -> 1 <= n <= 0x7F -> out_of_partition p off n = false ->
  let buffer := u32 (DISK_READ_LOCATION + loc) in
  mapped m buffer (512 * n) ->
  exists m' d', int13h_read_o fuel p off n loc m d = Ok (0, (m', d')) /\
    wrote m m' buffer (words_bytes (sector_words (sectors (abs d))
      (selected (u32 (off + part_start_lba p))) (Z.to_nat n))) /\
    sectors (abs d') = sectors (abs d).
Proof.
  intros Hf Hn Hp buffer Hm. unfold int13h_read_o. rewrite Hp. zbool. fold buffer.
  set (lba := u32 (off + part_start_lba p)).
  assert (Hl : 0 <= lba) by (apply wrap_range; lia).
  destruct (command_xfer lba n 0x20 d Hl Hn ltac:(auto)) as [Es Ex]. cbn [Z.eqb Pos.eqb] in Ex.
  destruct (read_loop fuel (Z.to_nat n) (selected lba) 0 m (send_command lba n 0x20 d) buffer Hf)
    as (m' & d' & E & Hw & Ha).
  - by rewrite Es, Ex.
  - rewrite Z.mul_0_r, Z.add_0_r, Z2Nat.id by lia. done.
  - exists m', d'. unfold for_range. rewrite Z.sub_0_r, E. split; [done|].
    rewrite Z.mul_0_r, Z.add_0_r, Es in Hw. split; [done|]. by rewrite Ha, <- Es.
Qed.

Lemma write_sectors fuel p off n loc m d blocks :
  (max_busy < fuel)%nat -> 1 <= n <= 0x7F -> out_of_partition p off n = false ->
  Z.of_nat (length blocks) = n -> Forall block_ok blocks ->
  bytes_at m (u32 (DISK_WRITE_LOCATION + loc)) (words_bytes (concat blocks)) ->
  exists d', int13h_write_o fuel p off n loc m d = Ok (0, d') /\
    sectors (abs d') =
      store_sectors (sectors (abs d)) (selected (u32 (off + part_start_lba p))) blocks.
Proof.
  intros Hf Hn Hp Hlen Hok Hb. unfold int13h_write_o. rewrite Hp. zbool.
  set (lba := u32 (off + part_start_lba p)).
  assert (Hl : 0 <= lba) by (apply wrap_range; lia).
  destruct (command_xfer lba n 0x30 d Hl Hn ltac:(auto)) as [Es Ex]. cbn [Z.eqb Pos.eqb] in Ex.
  destruct (write_loop fuel m (u32 (DISK_WRITE_LOCATION + loc)) blocks (selected lba) 0
    (send_command lba n 0x30 d) Hf) as (d1 & E & Ha).
  - destruct blocks; [simpl in Hlen; lia|done].
  - rewrite Ex. f_equal. lia.
  - done.
  - by rewrite Z.mul_0_r, Z.add_0_r.
  - unfold for_range. rewrite Z.sub_0_r, <- Hlen, Nat2Z.id, Hlen, E. cbn [mbind res_bind].
    destruct (wait_flush_ok max_busy fuel (outb 0x1F7 0xE7 d1)) as (d2 & -> & A2);
      [apply busy_max|done|].
    exists d2. split; [done|]. rewrite A2, outb_abs. unfold drive_outb. simpl. by rewrite Ha, Es.
Qed.

(** The bounds check on values that do not wrap. *)
Lemma in_partition p off n :
  0 <= off -> 0 <= n -> off + n <= part_length p < 2 ^ 31 -> out_of_partition p off n = false.
Proof.
  intros Ho Hn Hl. unfold out_of_partition. rewrite !wrap_small by lia. by zbool.
Qed.

(** ** Properties *)

(** C7. Reading up to 127 sectors inside the partition ends with 0 once the
    fuel exceeds the time the drive stays busy: memory holds the bytes of the
    sectors from [part_start_lba + sector_offset] on (modulo 2 ^ 28, what LBA28
    can address) at the read location plus the offset, and is otherwise as before;
    the drive's contents do not change. *)
Theorem int13h_read_o_places_sectors (fuel : nat) (p : partition) (off n loc : Z) (m : mem) (d : D) :
  (max_busy < fuel)%nat -> 0 <= off -> 1 <= n <= 0x7F -> off + n <= part_length p < 2 ^ 31 ->
  let buffer := u32 (DISK_READ_LOCATION + loc) in
  mapped m buffer (512 * n) ->
  exists m' d', int13h_read_o fuel p off n loc m d = Ok (0, (m', d')) /\
    wrote m m' buffer (words_bytes (sector_words (sectors (abs d))
      (u32 (off + part_start_lba p) mod 2 ^ 28) (Z.to_nat n))) /\
    sectors (abs d') = sectors (abs d).
Proof. intros Hf Ho Hn Hp. apply read_sectors; [done|done|]. apply in_partition; lia. Qed.

(** C16. Writing up to 127 sectors inside the partition ends with 0: the drive's
    sectors from [part_start_lba + sector_offset] on hold the words in memory at
    the write location plus the offset, and every other sector is as before. *)
Theorem int13h_write_o_stores_sectors (fuel : nat) (p : partition) (off n loc : Z) (m : mem) (d : D)
    (blocks : list (list Z)) :
  (max_busy < fuel)%nat -> 0 <= off -> 1 <= n <= 0x7F -> off + n <= part_length p < 2 ^ 31 ->
  Z.of_nat (length blocks) = n -> Forall block_ok blocks ->
  bytes_at m (u32 (DISK_WRITE_LOCATION + loc)) (words_bytes (concat blocks)) ->
  let lba := u32 (off + part_start_lba p) mod 2 ^ 28 in
  exists d', int13h_write_o fuel p off n loc m d = Ok (0, d') /\
    sector_words (sectors (abs d')) lba (length blocks) = concat blocks /\
    (forall x, ~ (lba <= x < lba + n) -> sectors (abs d') x = sectors (abs d) x).
Proof.
  intros Hf Ho Hn Hp Hlen Hok Hb lba.
  destruct (write_sectors fuel p off n loc m d blocks Hf Hn) as (d' & E & Hs); try done.
  { apply in_partition; lia. }
  exists d'. split; [done|]. rewrite Hs. split; [apply sector_words_stored|].
  intros x Hx. apply store_sectors_out. by rewrite Hlen.
Qed.

(** C17. Sectors written and read back give the same bytes, whatever other memory
    they are read into. *)
Theorem int13h_roundtrip (fuel : nat) (p : partition) (off n loc loc' : Z) (m m2 : mem) (d : D)
    (blocks : list (list Z)) :
  (max_busy < fuel)%nat -> 0 <= off -> 1 <= n <= 0x7F -> off + n <= part_length p < 2 ^ 31 ->
  Z.of_nat (length blocks) = n -> Forall block_ok blocks ->
  bytes_at m (u32 (DISK_WRITE_LOCATION + loc)) (words_bytes (concat blocks)) ->
  mapped m2 (u32 (DISK_READ_LOCATION + loc')) (512 * n) ->
  exists d' m' d'', int13h_write_o fuel p off n loc m d = Ok (0, d') /\
    int13h_read_o fuel p off n loc' m2 d' = Ok (0, (m', d'')) /\
    bytes_at m' (u32 (DISK_READ_LOCATION + loc')) (words_bytes (concat blocks)).
Proof.
  intros Hf Ho Hn Hp Hlen Hok Hb Hm.
  assert (Hin : out_of_partition p off n = false) by (apply in_partition; lia).
  destruct (write_sectors fuel p off n loc m d blocks Hf Hn Hin Hlen Hok Hb) as (d' & E & Hs).
  destruct (read_sectors fuel p off n loc' m2 d' Hf Hn Hin Hm) as (m' & d'' & E2 & [Hw _] & _).
  exists d', m', d''. split; [done|]. split; [done|].
  rewrite <- Hlen, Nat2Z.id, Hs, sector_words_stored in Hw. done.
Qed.

(** C35. A request past the end of the partition, or for more than 127 sectors, is
    refused with -1 before any port or memory is touched.  But the check wraps: a
    request that starts [k] sectors below 2 ^ 32 is accepted, and reads the [k]
    sectors in front of the partition. *)
Theorem int13h_bounds (fuel : nat) (p : partition) (off n loc : Z) (m : mem) (d : D) :
  0 <= off < 2 ^ 32 -> 0 <= n < 256 -> 0 <= part_length p < 2 ^ 31 ->
  (part_length p < off + n < 2 ^ 32 \/ 0x7F < n ->
     int13h_read_o fuel p off n loc m d = Ok (-1, (m, d)) /\
     int13h_write_o fuel p off n loc m d = Ok (-1, d)) /\
  (forall k, off = 2 ^ 32 - k -> 1 <= k <= n -> n <= 0x7F -> n - k <= part_length p ->
     k <= part_start_lba p < 2 ^ 28 ->
     (max_busy < fuel)%nat -> mapped m (u32 (DISK_READ_LOCATION + loc)) (512 * n) ->
     exists m' d', int13h_read_o fuel p off n loc m d = Ok (0, (m', d')) /\
       wrote m m' (u32 (DISK_READ_LOCATION + loc)) (words_bytes (sector_words (sectors (abs d))
         (part_start_lba p - k) (Z.to_nat n)))).
Proof.
  intros Ho Hn Hp. split.
  - intros H. unfold int13h_read_o, int13h_write_o, out_of_partition.
    rewrite (wrap_small 32 (part_length p)) by lia.
    destruct (decide (0x7F < n)) as [Hb|Hb].
    + rewrite (proj2 (Z.ltb_lt 0x7F n)) by lia. by destruct (_ <? u32 (off + n)).
    + destruct H as [H|H]; [|done]. rewrite wrap_small by lia. by zbool.
  - intros k Hk Hk1 Hn1 Hl Hs Hf Hm.
    destruct (read_sectors fuel p off n loc m d Hf ltac:(lia)) as (m' & d' & E & Hw & _).
    + unfold out_of_partition. rewrite (wrap_small 32 (part_length p)) by lia.
      replace (u32 (off + n)) with (n - k); [by zbool|].
      unfold wrap. rewrite <- (Z.mod_add _ (-1)) by lia. rewrite Z.mod_small; lia.
    + done.
    + exists m', d'. split; [done|]. unfold selected in Hw.
      replace (u32 (off + part_start_lba p)) with (part_start_lba p - k) in Hw.
      * rewrite Z.mod_small in Hw by lia. done.
      * unfold wrap. rewrite <- (Z.mod_add _ (-1)) by lia. rewrite Z.mod_small; lia.
Qed.

End Disk.

(** ** Witnesses *)

(** A drive that is busy for two status reads after each command and between
    two sectors. *)
Definition words_ok (ws : list Z) : Prop := Forall (fun w => 0 <= w < 2 ^ 16) ws.

Record demo_drive := mk_demo {
  ddrive : drive;
  dbusy : nat;
  dbusy_ok : (dbusy <= 2)%nat;
  dsize_ok : forall lba, length (sectors ddrive lba) = 256%nat;
  drange_ok : forall lba, words_ok (sectors ddrive lba);
  dwords_ok : match xfer ddrive with Writing _ _ ws => words_ok ws | _ => True end
}.

Definition demo_status (d : demo_drive) : Z :=
  if (dbusy d =? 0)%nat
  then match xfer (ddrive d) with Idle | Reading [] => 0x50 | _ => 0x58 end
  else 0x80.

Program Definition demo_set_busy (d : demo_drive) (n : nat) (Hn : (n <= 2)%nat) : demo_drive :=
  mk_demo (ddrive d) n Hn (dsize_ok d) (drange_ok d) (dwords_ok d).

Program Definition demo_set_read (d : demo_drive) (ws : list Z) : demo_drive :=
  mk_demo (set_xfer (ddrive d) (Reading ws)) (if (length ws mod 256 =? 0)%nat then 2 else 0)
    _ (dsize_ok d) (drange_ok d) I.
Next Obligation. intros. destruct (_ =? _)%nat; lia. Qed.

Program Definition demo_outb (port val : Z) (d : demo_drive) : demo_drive :=
  mk_demo (drive_outb port val (ddrive d)) (if port =? ATA_COMMAND then 2 else dbusy d) _ _ _ _.
Next Obligation. intros. pose proof (dbusy_ok d). destruct (_ =? _); lia. Qed.
Next Obligation.
  intros. unfold drive_outb. repeat case_match; apply dsize_ok.
Qed.
Next Obligation.
  intros. unfold drive_outb. repeat case_match; apply drange_ok.
Qed.
Next Obligation.
  intros. unfold drive_outb. destruct (ata_reg port); [exact (dwords_ok d)|].
  destruct (port =? ATA_COMMAND); [|exact (dwords_ok d)]. destruct (val =? 0x20); [done|].
  destruct (val =? 0x30); [apply List.Forall_nil|exact (dwords_ok d)].
Qed.

Lemma drive_outw_ok val (v : drive) :
  (forall lba, length (sectors v lba) = 256%nat) -> (forall lba, words_ok (sectors v lba)) ->
  match xfer v with Writing _ _ ws => words_ok ws | _ => True end ->
  (forall lba, length (sectors (drive_outw val v) lba) = 256%nat) /\
  (forall lba, words_ok (sectors (drive_outw val v) lba)) /\
  match xfer (drive_outw val v) with Writing _ _ ws => words_ok ws | _ => True end.
Proof.
  intros Hs Hr Hw. unfold drive_outw. destruct (xfer v) as [|ws|l [|n] ws] eqn:E;
    try (by rewrite E); [].
  assert (Hws : words_ok (ws ++ [u16 val])).
  { apply Forall_app. split; [done|]. constructor; [apply wrap_range; lia|constructor]. }
  destruct (length (ws ++ [u16 val]) =? 256)%nat eqn:El; simpl.
  - apply Nat.eqb_eq in El. unfold store_sector.
    split; [intros lba; by destruct (lba =? l)|]. split; [intros lba; by destruct (lba =? l)|].
    destruct n; [done|apply List.Forall_nil].
  - done.
Qed.

Definition demo_outw_busy (d : demo_drive) : nat :=
  match xfer (ddrive d) with
  | Writing _ _ ws => if (length ws <? 255)%nat then dbusy d else 2
  | _ => dbusy d
  end.

Lemma demo_outw_busy_ok d : (demo_outw_busy d <= 2)%nat.
Proof.
  pose proof (dbusy_ok d). unfold demo_outw_busy.
  destruct (xfer (ddrive d)) as [|ws|l n ws]; try lia. destruct (length ws <? 255)%nat; lia.
Qed.

Program Definition demo_outw (port val : Z) (d : demo_drive) : demo_drive :=
  mk_demo (drive_outw val (ddrive d)) (demo_outw_busy d) (demo_outw_busy_ok d) _ _ _.
Next Obligation. intros. by apply drive_outw_ok; destruct d. Qed.
Next Obligation. intros. by apply drive_outw_ok; destruct d. Qed.
Next Obligation. intros. by apply drive_outw_ok; destruct d. Qed.

#[export] Instance demo_ports : PortIO demo_drive := {|
  inb port d :=
    if port =? ATA_COMMAND then
      (demo_status d, demo_set_busy d (pred (dbusy d)) (Nat.le_trans _ _ _ (Nat.le_pred_l _) (dbusy_ok d)))
    else (0, d);
  outb := demo_outb;
  inw port d :=
    match xfer (ddrive d) with
    | Reading (w :: ws) => (w, demo_set_read d ws)
    | _ => (0, d)
    end;
  outw := demo_outw
|}.

#[export] Instance demo_console : Console demo_drive := {| printss _ d := d |}.

#[export] Program Instance demo_ata : AtaDrive demo_drive := {|
  abs := ddrive; busy := dbusy; max_busy := 2
|}.
Next Obligation. exact dbusy_ok. Qed.
Next Obligation. exact dsize_ok. Qed.
Next Obligation. exact drange_ok. Qed.
Next Obligation. done. Qed.
Next Obligation. done. Qed.
Next Obligation. intros val d lba n ws H0 Hx Hl. simpl. unfold demo_outw_busy. rewrite Hx. by rewrite (proj2 (Nat.ltb_lt _ _)). Qed.
Next Obligation. intros d w ws H0 Hx. simpl. by rewrite Hx. Qed.
Next Obligation.
  intros d w ws H0 Hx Hl. simpl. rewrite Hx. simpl. by rewrite (proj2 (Nat.eqb_neq _ _)).
Qed.
Next Obligation.
  intros d H0. simpl. unfold demo_status. rewrite (proj2 (Nat.eqb_neq _ _)) by done. split; [done|lia].
Qed.
Next Obligation.
  intros d H0. simpl. unfold demo_status. rewrite H0. simpl.
  destruct (xfer (ddrive d)) as [|[|]|]; done.
Qed.
Next Obligation. done. Qed.
Next Obligation.
  intros port d Hp. simpl. unfold ATA_COMMAND. by rewrite (proj2 (Z.eqb_neq port _)) by lia.
Qed.
Next Obligation. done. Qed.
Next Obligation. done. Qed.

(** Sector [lba] is filled with the word [lba]. *)
Program Definition demo_disk : demo_drive :=
  mk_demo (mk_drive (fun lba => replicate 256 (u16 lba)) (fun _ => 0) Idle) 0 _ _ _ _.
Next Obligation. lia. Qed.
Next Obligation. intros. apply length_replicate. Qed.
Next Obligation. intros. apply Forall_replicate, wrap_range. lia. Qed.
Next Obligation. done. Qed.

Definition demo_part : partition := mk_partition 100 50.
Definition demo_buffer : mem := mem_of 0x40000 (replicate 1024 0).
Definition demo_blocks : list (list Z) := [replicate 256 0x1234; replicate 256 0xABCD].
Definition demo_data : mem := mem_of 0x40000 (words_bytes (concat demo_blocks)).

Lemma demo_blocks_ok : Forall block_ok demo_blocks.
Proof. repeat constructor; simpl; lia. Qed.

Lemma demo_buffer_mapped : mapped demo_buffer (u32 (0x40000 + 0)) (512 * 2).
Proof.
  change (u32 (0x40000 + 0)) with 0x40000. change (512 * 2) with (Z.of_nat (length (replicate 1024 0))).
  apply bytes_at_mapped, write_list_bytes_at.
Qed.

Lemma demo_data_bytes : bytes_at demo_data (u32 (0x40000 + 0)) (words_bytes (concat demo_blocks)).
Proof. change (u32 (0x40000 + 0)) with 0x40000. apply write_list_bytes_at. Qed.

Lemma int13h_read_o_places_sectors_witness :
  exists m' d', int13h_read_o 0x40000 3 demo_part 3 2 0 demo_buffer demo_disk = Ok (0, (m', d')) /\
    m' !! 0x40200 = Some 104.
Proof.
  destruct (int13h_read_o_places_sectors 0x40000 3 demo_part 3 2 0 demo_buffer demo_disk)
    as (m' & d' & E & [Hw _] & _); [simpl; lia..|exact demo_buffer_mapped|].
  exists m', d'. split; [exact E|]. exact (Hw 512%nat 104 eq_refl).
Defined.

Lemma int13h_write_o_stores_sectors_witness :
  exists d', int13h_write_o 0x40000 3 demo_part 3 2 0 demo_data demo_disk = Ok (0, d') /\
    sector_words (sectors (abs d')) 103 2 = concat demo_blocks.
Proof.
  destruct (int13h_write_o_stores_sectors 0x40000 3 demo_part 3 2 0 demo_data demo_disk demo_blocks)
    as (d' & E & Hs & _); [simpl; lia..|exact demo_blocks_ok|exact demo_data_bytes|].
  exists d'. split; [exact E|exact Hs].
Defined.

Lemma int13h_roundtrip_witness :
  exists d' m' d'', int13h_write_o 0x40000 3 demo_part 3 2 0 demo_data demo_disk = Ok (0, d') /\
    int13h_read_o 0x40000 3 demo_part 3 2 0 demo_buffer d' = Ok (0, (m', d'')) /\
    m' !! 0x40000 = Some 0x34.
Proof.
  destruct (int13h_roundtrip 0x40000 0x40000 3 demo_part 3 2 0 0 demo_data demo_buffer demo_disk demo_blocks)
    as (d' & m' & d'' & E1 & E2 & Hb);
    [simpl; lia..|exact demo_blocks_ok|exact demo_data_bytes|exact demo_buffer_mapped|].
  exists d', m', d''. split; [exact E1|]. split; [exact E2|]. exact (Hb 0%nat 0x34 eq_refl).
Defined.

(** Sector 49 of 50 is the last; [0xFFFFFFFF] is taken for the one before the first. *)
Lemma int13h_bounds_witness :
  int13h_read_o 0x40000 3 demo_part 49 2 0 demo_buffer demo_disk = Ok (-1, (demo_buffer, demo_disk)) /\
  exists m' d', int13h_read_o 0x40000 3 demo_part 0xFFFFFFFF 2 0 demo_buffer demo_disk = Ok (0, (m', d')) /\
    m' !! 0x40000 = Some 99.
Proof.
  split.
  - destruct (int13h_bounds 0x40000 0x40000 3 demo_part 49 2 0 demo_buffer demo_disk)
      as [[E _] _]; [simpl; lia..|exact E].
  - destruct (int13h_bounds 0x40000 0x40000 3 demo_part 0xFFFFFFFF 2 0 demo_buffer demo_disk)
      as [_ H]; [simpl; lia..|].
    destruct (H 1) as (m' & d' & E & [Hw _]); [simpl; lia..|exact demo_buffer_mapped|].
    exists m', d'. split; [exact E|]. exact (Hw 0%nat 99 eq_refl).
Defined.
