(* ===== verification/Timer.v ===== *)
(** [include/timer.c]: the programmable interval timer.

    The text monitor ([monitor_*], [kdec]), [register_interrupt_handler] and the
    timer chip are not part of the repository: [TimerEnv] has the operations,
    [TimerLaws] what the theorems use of them, which is how the monitor moves its
    cursor and how the 8254 takes a 16-bit reload value in two bytes.  [tick] is
    declared nowhere; it is read as a 32-bit counter. *)

From S2P Require Import Prelude Mem Ports.

(** Channel 0 of the chip: waiting for a byte, and the value it counts from. *)
Inductive pit_latch := LatchNone | LatchLow | LatchHigh (low : Z).
Record pit := mk_pit { latch : pit_latch; reload : Z }.

Definition pit_outb (port val : Z) (p : pit) : pit :=
  if port =? 0x43 then (if val =? 0x36 then mk_pit LatchLow (reload p) else p)
  else if port =? 0x40 then
    match latch p with
    | LatchLow => mk_pit (LatchHigh (u8 val)) (reload p)
    | LatchHigh low => mk_pit LatchLow (low + u8 val * 256)
    | LatchNone => p
    end
  else p.

Class TimerEnv (D : Type) := {
  monitor_get_cursor : D -> Z * Z;
  monitor_move_cursor : Z -> Z -> D -> D;
  monitor_write : list Z -> D -> D;
  monitor_put : Z -> D -> D;
  kdec : Z -> D -> D;
  register_interrupt_handler : Z -> D -> D;
  timer_outb : Z -> Z -> D -> D
}.

Section Timer.
Context {D : Type} `{!TimerEnv D}.

Record timer_state := mk_timer { tick : Z; tdev : D }.

Definition IRQ0 : Z := 32.

(** [for (i = 0; i < 80 - monitor_get_cursor()[0]; i++) monitor_put(' ')] *)
Definition clear_line (fuel : nat) (d : D) : res D :=
  while_loop fuel (fun '(i, d) =>
    Ok (if i <? 80 - (monitor_get_cursor d).1 then inl (i + 1, monitor_put 32 d) else inr d)) (0, d).

Definition timer_callback (fuel : nat) (s : timer_state) : res timer_state :=
  let tick := u32 (tick s + 1) in
  let '(x, y) := monitor_get_cursor (tdev s) in
  let origX := u8 x in
  let origY := u8 y in
  let d := monitor_move_cursor 0 0 (tdev s) in
  let d := monitor_write (str_bytes "Tick: ") d in
  let d := kdec tick d in
  d ← clear_line fuel d;
  Ok (mk_timer tick (monitor_move_cursor origX origY d)).

Definition init_timer (frequency : Z) (d : D) : res D :=
  let d := monitor_write (str_bytes "Setting up the timer..." ++ [10]) d in
  let d := register_interrupt_handler IRQ0 d in
  if frequency =? 0 then Undef
  else
    let divisor := 1193180 / frequency in
    let d := timer_outb 0x43 0x36 d in
    let l := u8 (Z.land divisor 0xFF) in
    let h := u8 (Z.land (Z.shiftr divisor 8) 0xFF) in
    let d := timer_outb 0x40 l d in
    Ok (timer_outb 0x40 h d).

(** ** External behaviour *)
Class TimerLaws := {
  pit_of : D -> pit;
  timer_outb_pit port val d : pit_of (timer_outb port val d) = pit_outb port val (pit_of d);
  move_cursor_at x y d : monitor_get_cursor (monitor_move_cursor x y d) = (x, y);
  put_space_at x y d : monitor_get_cursor d = (x, y) -> x < 79 ->
    monitor_get_cursor (monitor_put 32 d) = (x + 1, y)
}.
Context {Laws : TimerLaws}.

(** ** Lemmas *)
Lemma byte_mask x : u8 (u8 (Z.land x 0xFF)) = x mod 2 ^ 8.
Proof.
  rewrite wrap_idemp. change 0xFF with (Z.ones 8). rewrite Z.land_ones by lia. apply wrap_small.
  apply Z.mod_pos_bound. lia.
Qed.

(** The loop writes one space for every two columns that are left. *)
Lemma clear_line_loop k : forall fuel i x y d,
  monitor_get_cursor d = (x, y) -> 0 <= 2 * Z.of_nat k - (80 - x - i) <= 1 ->
  x + Z.of_nat k <= 79 -> (k < fuel)%nat ->
  exists d', while_loop fuel (fun '(i, d) =>
      Ok (if i <? 80 - (monitor_get_cursor d).1 then inl (i + 1, monitor_put 32 d) else inr d))
      (i, d) = Ok d' /\ monitor_get_cursor d' = (x + Z.of_nat k, y).
Proof.
  induction k as [|k IH]; intros fuel i x y d Hc Hk Hx Hf;
    (destruct fuel as [|fuel]; [lia|]); simpl while_loop; rewrite Hc; cbn [fst].
  - rewrite (proj2 (Z.ltb_ge i (80 - x))) by lia. exists d. by rewrite Z.add_0_r.
  - rewrite (proj2 (Z.ltb_lt i (80 - x))) by lia. cbn [mbind res_bind].
    destruct (IH fuel (i + 1) (x + 1) y (monitor_put 32 d)) as (d' & E & H); [|lia..|].
    + apply put_space_at; [done|lia].
    + exists d'. split; [exact E|]. rewrite H. f_equal. lia.
Qed.

(** ** Properties *)

(** For frequencies the chip can be divided down to, 19 Hz to 1193180 Hz,
    [init_timer] loads the exact quotient, so the interrupt rate is the requested
    one rounded up to the next rate the chip has; a frequency of 0 divides by
    zero, and below 19 Hz the quotient does not fit and only its low 16 bits are
    loaded. *)
Theorem init_timer_reload (f : Z) (d : D) :
  0 <= f < 2 ^ 32 ->
  (f = 0 -> init_timer f d = Undef) /\
  (0 < f -> exists d', init_timer f d = Ok d' /\
     reload (pit_of d') = (1193180 / f) mod 2 ^ 16 /\
     (19 <= f <= 1193180 -> let n := reload (pit_of d') in
        0 < n < 2 ^ 16 /\ n * f <= 1193180 < (n + 1) * f)).
Proof.
  intros Hf. unfold init_timer. split; intros H; [by rewrite (proj2 (Z.eqb_eq f 0))|].
  rewrite (proj2 (Z.eqb_neq f 0)) by lia. eexists. split; [done|].
  set (q := 1193180 / f). rewrite !timer_outb_pit.
  assert (E : forall p, reload (pit_outb 0x40 (u8 (Z.land (Z.shiftr q 8) 0xFF))
      (pit_outb 0x40 (u8 (Z.land q 0xFF)) (pit_outb 0x43 0x36 p))) = q mod 2 ^ 16).
  { intros p. unfold pit_outb. simpl. rewrite !byte_mask, Z.shiftr_div_pow2 by lia.
    change (2 ^ 16) with (2 ^ 8 * 2 ^ 8). rewrite Z.rem_mul_r by lia. lia. }
  rewrite E. split; [done|]. intros Hr. cbv zeta.
  assert (0 < q < 2 ^ 16 /\ q * f <= 1193180 < (q + 1) * f) as [Hq1 Hq2].
  { unfold q. pose proof (Z.div_mod 1193180 f ltac:(lia)). pose proof (Z.mod_pos_bound 1193180 f ltac:(lia)).
    split; [|nia]. split; [apply Z.div_str_pos; lia|]. apply Z.div_lt_upper_bound; lia. }
  by rewrite Z.mod_small by lia.
Qed.

(** A tick is counted and shown, and the cursor goes back to where it was.  The
    loop that should blank the rest of the line stops half way: its bound shrinks
    while its counter grows, so from column [x] it reaches column
    [x + (81 - x) / 2] only. *)
Theorem timer_callback_pads_half (fuel : nat) (s : timer_state) (x0 y0 x y : Z) :
  monitor_get_cursor (tdev s) = (x0, y0) ->
  let d := kdec (u32 (tick s + 1)) (monitor_write (str_bytes "Tick: ")
             (monitor_move_cursor 0 0 (tdev s))) in
  monitor_get_cursor d = (x, y) -> 0 <= x <= 78 -> (41 <= fuel)%nat ->
  exists d1, clear_line fuel d = Ok d1 /\
    monitor_get_cursor d1 = (x + (81 - x) / 2, y) /\
    timer_callback fuel s = Ok (mk_timer (u32 (tick s + 1)) (monitor_move_cursor (u8 x0) (u8 y0) d1)) /\
    monitor_get_cursor (monitor_move_cursor (u8 x0) (u8 y0) d1) = (u8 x0, u8 y0).
Proof.
  intros H0 d Hd Hx Hf.
  destruct (clear_line_loop (Z.to_nat ((81 - x) / 2)) fuel 0 x y d Hd) as (d1 & E & Hc);
    [Z.div_mod_to_equations; lia..|].
  rewrite Z2Nat.id in Hc by (apply Z.div_pos; lia).
  exists d1. split; [exact E|]. split; [done|]. unfold timer_callback. rewrite H0. fold d.
  unfold clear_line. rewrite E. split; [done|]. apply move_cursor_at.
Qed.

End Timer.

(** ** Witnesses *)

(** A monitor that keeps its cursor and a timer chip; a decimal takes one column. *)
Definition demo_timer : Type := (Z * Z) * pit.

#[export] Instance demo_timer_env : TimerEnv demo_timer := {|
  monitor_get_cursor d := d.1;
  monitor_move_cursor x y d := ((x, y), d.2);
  monitor_write s d := ((d.1.1 + Z.of_nat (length s), d.1.2), d.2);
  monitor_put _ d := ((if d.1.1 <? 79 then (d.1.1 + 1, d.1.2) else (0, d.1.2 + 1)), d.2);
  kdec _ d := ((d.1.1 + 1, d.1.2), d.2);
  register_interrupt_handler _ d := d;
  timer_outb port val d := (d.1, pit_outb port val d.2)
|}.

#[export] Program Instance demo_timer_laws : TimerLaws := {| pit_of := snd |}.
Next Obligation. done. Qed.
Next Obligation. done. Qed.
Next Obligation.
  intros x y d E Hx. simpl in *. rewrite E. simpl. by rewrite (proj2 (Z.ltb_lt x 79)).
Qed.

Definition demo_timer_dev : demo_timer := ((5, 3), mk_pit LatchNone 0).

(** 100 Hz, and 18 Hz, whose quotient 66287 is loaded as 751. *)
Lemma init_timer_reload_witness :
  (exists d, init_timer 100 demo_timer_dev = Ok d /\ reload (pit_of d) = 11931) /\
  (exists d, init_timer 18 demo_timer_dev = Ok d /\ reload (pit_of d) = 751).
Proof.
  split.
  - destruct (init_timer_reload 100 demo_timer_dev ltac:(lia)) as [_ H].
    destruct (H ltac:(lia)) as (d & E & R & _). exists d. split; [exact E|exact R].
  - destruct (init_timer_reload 18 demo_timer_dev ltac:(lia)) as [_ H].
    destruct (H ltac:(lia)) as (d & E & R & _). exists d. split; [exact E|exact R].
Defined.

Lemma timer_callback_pads_half_witness :
  exists s', timer_callback 41 (mk_timer 7 demo_timer_dev) = Ok s' /\ tick s' = 8 /\
    monitor_get_cursor (tdev s') = (5, 3).
Proof.
  destruct (timer_callback_pads_half 41 (mk_timer 7 demo_timer_dev) 5 3 7 0)
    as (d1 & _ & _ & E & C); [vm_compute; reflexivity..|lia|lia|].
  eexists. split; [exact E|]. split; [reflexivity|exact C].
Defined.
