(* ===== verification/Vga.v ===== *)
(** The text-mode screen routines: [kernel/kernel.c] and [kernel/kerneltesting.c]
    ([print_at], [print_at_color], [print_vertical], [length], [vga_entry],
    [term_init], the port functions, the two [main]s and [kernel_main]).
    kerneltesting.c repeats the printing and port functions of kernel.c word for
    word; one definition stands for both copies.

    Text memory is part of the byte-addressed memory of [Mem].  The port functions
    are instructions of [Cpu] with the operands their constraints give them;
    the display controller ([Crtc]) is what the ports 0x3D4 and 0x3D5 reach. *)

From S2P Require Import Prelude Mem Ports Cpu.

(** ** Strings on the screen *)

(** [length(str)]; [x] is an [int]. *)
Fixpoint length_loop (fuel : nat) (m : mem) (str x : Z) : res Z :=
  match fuel with
  | O => Fuel
  | S fuel' =>
      c ← load_char m (str + x);
      if c =? 0 then Ok x else x' ← int32 (x + 1); length_loop fuel' m str x'
  end.

Definition length (m : mem) (str : Z) : res Z := length_loop (S (size m)) m str 0.

(** The loop the three printing functions share: the length is computed again in
    every round; [put] stores character [c] of index [x]. *)
Fixpoint print_loop (fuel : nat) (put : mem -> Z -> Z -> res mem) (m : mem) (str x : Z) : res mem :=
  match fuel with
  | O => Fuel
  | S fuel' =>
      n ← length m str;
      if x <? n then
        c ← load_char m (str + x);
        m ← put m x c;
        print_loop fuel' put m str (x + 1)
      else Ok m
  end.

Definition print_at (m : mem) (str pos : Z) : res mem :=
  print_loop (S (size m)) (fun m x c => store8 m (u32 pos + 0x2 * x) c) m str 0.

Definition print_at_color (m : mem) (str pos color : Z) : res mem :=
  print_loop (S (size m)) (fun m x c =>
    m ← store8 m (u32 pos + 2 * x) c;
    store8 m (u32 pos + (2 * x + 1)) color) m str 0.

Definition print_vertical (m : mem) (str pos : Z) : res mem :=
  print_loop (S (size m)) (fun m x c => store8 m (u32 pos + 0xa0 * x) c) m str 0.

(** ** kernel.c: the terminal buffer *)
Definition VGA_HEIGHT : Z := 24.
Definition VGA_WIDTH : Z := 80.
Definition term_color : Z := 7.
Definition term_buf : Z := 0xB8000.

(** [c] is a [char]: converting a negative one to [uint16_t] sets the high byte. *)
Definition vga_entry (c color : Z) : Z := Z.lor (u16 c) (u16 (Z.shiftl color 8)).

Definition term_init (m : mem) : res mem :=
  for_range 0 VGA_HEIGHT (fun y m =>
    for_range 0 VGA_HEIGHT (fun x m =>
      let index := y * VGA_WIDTH + x in
      store_le 2 m (term_buf + 2 * index) (vga_entry 120 term_color)) m) m.

(** [kernel_main] of kernel.c. *)
Definition kernel_main (m : mem) : res mem := term_init m.

(** ** The port functions and the hardware cursor *)
Section Cursor.
Context {D : Type} `{!Bus D}.

(** The registers the compiler left before a call with this port and value.  The
    port is an input operand and loads %edx; the value of the two writing
    functions is only an output operand, so nothing loads it into %eax. *)
Variable stale : Z -> Z -> D -> cpu.

Definition port_byte_in (port : Z) (d : D) : Z * D :=
  let '(v, s) := result 1 (exec (In 1 Dx) (pass_port InDx port (stale port 0 d), d)) in (v, s.2).

Definition port_word_in (port : Z) (d : D) : Z * D :=
  let '(v, s) := result 2 (exec (In 2 Dx) (pass_port InDx port (stale port 0 d), d)) in (v, s.2).

Definition port_byte_out (port data : Z) (d : D) : D :=
  (exec (Out 1 Dx) (pass_port InDx port (stale port data d), d)).2.

Definition port_word_out (port data : Z) (d : D) : D :=
  (exec (Out 2 Dx) (pass_port InDx port (stale port data d), d)).2.

Definition REG_SCREEN_CTRL : Z := 0x3D4.
Definition REG_SCREEN_DATA : Z := 0x3D5.

(** The cursor position the two [main]s read. *)
Definition read_cursor (d : D) : Z * D :=
  let d := port_byte_out REG_SCREEN_CTRL 14 d in
  let '(hi, d) := port_byte_in REG_SCREEN_DATA d in
  let position := Z.shiftl hi 8 in
  let d := port_byte_out REG_SCREEN_CTRL 15 d in
  let '(lo, d) := port_byte_in REG_SCREEN_DATA d in
  (position + lo, d).

(** [main] of kernel.c; [green] and the string's address come from headers and
    the linker. *)
Definition main (VIDEO_ADDRESS GREEN str88os : Z) (m : mem) (d : D) : res (Z * (mem * D)) :=
  let '(position, d) := read_cursor d in
  m ← print_at_color m str88os (VIDEO_ADDRESS + 0xa00) GREEN;
  Ok (position, (m, d)).

(** [main] of kerneltesting.c: an [X] at the cursor, a [Y] after it. *)
Definition main_testing (m : mem) (d : D) : res (mem * D) :=
  let vga := 0xb8000 in
  let '(position, d) := read_cursor d in
  m ← store8 m (vga + position * 2) 88;
  m ← store8 m (vga + position * 2 + 1) 0x0f;
  let '(position, d) := read_cursor d in
  m ← store8 m (vga + position * 2 + 2) 89;
  m ← store8 m (vga + position * 2 + 3) 0x12;
  Ok (m, d).

(** The display controller: an index register selects the register the data
    port reaches. *)
Class Crtc := {
  crtc_index : D -> Z;
  crtc_reg : D -> Z -> Z;
  crtc_select v d : crtc_index (bus_out 1 0x3D4 v d) = v /\ crtc_reg (bus_out 1 0x3D4 v d) = crtc_reg d;
  crtc_write v d : crtc_index (bus_out 1 0x3D5 v d) = crtc_index d /\
    crtc_reg (bus_out 1 0x3D5 v d) = fupd (crtc_reg d) (crtc_index d) v;
  crtc_read d : (bus_in 1 0x3D5 d).1 = crtc_reg d (crtc_index d) /\
    crtc_index (bus_in 1 0x3D5 d).2 = crtc_index d /\ crtc_reg (bus_in 1 0x3D5 d).2 = crtc_reg d
}.

(** *** Lemmas *)

(** What a write sends: the low byte or word that %eax held. *)
Definition al (port data : Z) (d : D) : Z := u8 (eax (stale port data d)).
Definition ax (port data : Z) (d : D) : Z := u16 (eax (stale port data d)).

Lemma port_byte_in_reads port d : 0 <= port < 2 ^ 16 ->
  port_byte_in port d = (u8 (bus_in 1 port d).1, (bus_in 1 port d).2).
Proof.
  intros Hp. unfold port_byte_in. destruct (in_reads 1 port (stale port 0 d) d Hp) as [V S].
  destruct (result 1 _) as [v s]. simpl in V, S |- *. by rewrite V, S.
Qed.

Lemma port_byte_out_sends port data d : 0 <= port < 2 ^ 16 ->
  port_byte_out port data d = bus_out 1 port (al port data d) d.
Proof. apply out_unloaded. Qed.

Context {C : Crtc}.

Lemma read_cursor_ok d :
  let d1 := (port_byte_in REG_SCREEN_DATA (port_byte_out REG_SCREEN_CTRL 14 d)).2 in
  (read_cursor d).1 =
    u8 (crtc_reg d (al REG_SCREEN_CTRL 14 d)) * 2 ^ 8 + u8 (crtc_reg d (al REG_SCREEN_CTRL 15 d1)) /\
  crtc_reg (read_cursor d).2 = crtc_reg d.
Proof.
  unfold read_cursor, REG_SCREEN_CTRL, REG_SCREEN_DATA. cbv zeta.
  rewrite port_byte_out_sends, port_byte_in_reads by lia. cbn [snd].
  set (i := al 0x3D4 14 d). destruct (crtc_select i d) as [I1 R1].
  destruct (crtc_read (bus_out 1 0x3D4 i d)) as (V2 & I2 & R2).
  destruct (bus_in 1 0x3D5 (bus_out 1 0x3D4 i d)) as [hi d1]. cbn [fst snd] in V2, I2, R2 |- *.
  rewrite port_byte_out_sends, port_byte_in_reads by lia.
  set (j := al 0x3D4 15 d1). destruct (crtc_select j d1) as [I3 R3].
  destruct (crtc_read (bus_out 1 0x3D4 j d1)) as (V4 & I4 & R4).
  destruct (bus_in 1 0x3D5 (bus_out 1 0x3D4 j d1)) as [lo d2]. cbn [fst snd] in V4, I4, R4 |- *.
  split; [|congruence]. rewrite Z.shiftl_mul_pow2 by lia.
  rewrite V2, V4, I1, R1, I3, R3, R2, R1. done.
Qed.

(** *** Properties *)

(** C27. The port functions of [kernel.c] read the port they are given, but write
    what %eax happens to hold: [data] is declared as an output of the
    instruction, so no operand loads it.  Reading the cursor therefore combines
    the two registers of the controller that the stale %al selects; it is the cursor
    position, registers 14 and 15, only where the compiler left the value in %al. *)
Theorem read_cursor_follows_al (d : D) :
  let d1 := (port_byte_in REG_SCREEN_DATA (port_byte_out REG_SCREEN_CTRL 14 d)).2 in
  let h := al REG_SCREEN_CTRL 14 d in
  let l := al REG_SCREEN_CTRL 15 d1 in
  (forall port data d', 0 <= port < 2 ^ 16 ->
     port_byte_out port data d' = bus_out 1 port (al port data d') d' /\
     port_word_out port data d' = bus_out 2 port (ax port data d') d' /\
     port_byte_in port d' = (u8 (bus_in 1 port d').1, (bus_in 1 port d').2) /\
     port_word_in port d' = (u16 (bus_in 2 port d').1, (bus_in 2 port d').2)) /\
  (read_cursor d).1 = u8 (crtc_reg d h) * 2 ^ 8 + u8 (crtc_reg d l) /\
  (forall k, crtc_reg (read_cursor d).2 k = crtc_reg d k) /\
  (h = 14 -> l = 15 -> 0 <= crtc_reg d 14 < 256 -> 0 <= crtc_reg d 15 < 256 ->
   (read_cursor d).1 = crtc_reg d 14 * 256 + crtc_reg d 15).
Proof.
  intros d1 h l. split.
  - intros port data d' Hp. split; [by apply port_byte_out_sends|]. split; [|split; [by apply port_byte_in_reads|]].
    + by apply out_unloaded.
    + unfold port_word_in. destruct (in_reads 2 port (stale port 0 d') d' Hp) as [V S].
      destruct (result 2 _) as [v s]. simpl in V, S |- *. by rewrite V, S.
  - destruct (read_cursor_ok d) as [E R]. fold d1 in E. fold h l in E.
    split; [exact E|]. split; [intros k; by rewrite R|].
    intros Eh El H1 H2. rewrite E, Eh, El. by rewrite !(wrap_small 8) by lia.
Qed.

End Cursor.
Arguments Crtc D {_}.

(** ** Lemmas *)
Lemma length_loop_ok m str s : forall fuel x,
  cstring m (str + x) s -> (List.length s < fuel)%nat -> 0 <= x ->
  x + Z.of_nat (List.length s) < 2 ^ 31 ->
  length_loop fuel m str x = Ok (x + Z.of_nat (List.length s)).
Proof.
  induction s as [|b s IH]; intros fuel x Hs Hf Hx Hb; (destruct fuel as [|fuel]; [simpl in Hf; lia|]);
    simpl length_loop.
  - rewrite (cstring_end _ _ Hs). simpl. by rewrite Z.add_0_r.
  - destruct (cstring_char _ _ _ _ Hs) as [-> E]. simpl in *. rewrite E, int32_ok by lia. simpl.
    rewrite IH; [f_equal; lia| |lia..].
    replace (str + (x + 1)) with (str + x + 1) by lia. by eapply cstring_tail.
Qed.

Lemma length_ok m str s :
  cstring m str s -> Z.of_nat (List.length s) < 2 ^ 31 -> length m str = Ok (Z.of_nat (List.length s)).
Proof.
  intros Hs Hb. unfold length. rewrite (length_loop_ok m str s); [done|by rewrite Z.add_0_r| |lia..].
  pose proof (cstring_size _ _ _ Hs). lia.
Qed.

Lemma cstring_nth m p s i c : cstring m p s -> s !! i = Some c ->
  load_char m (p + Z.of_nat i) = Ok (s8 c) /\ 0 < c < 256.
Proof.
  intros Hs Hi. split.
  - apply load_char_ok. destruct Hs as [_ Hb]. apply Hb. by apply lookup_app_l_Some.
  - eapply cstring_range; [done|]. by eapply list_elem_of_lookup_2.
Qed.

Lemma u8_s8 c : 0 <= c < 256 -> u8 (s8 c) = c.
Proof. intros Hc. rewrite swrap_wrap. by apply wrap_small. Qed.

(** The loop over the rest of a string, when [put] keeps an invariant that
    protects the string; [I x] holds before character [x] is stored. *)
Lemma text_print_loop_ok (put : mem -> Z -> Z -> res mem) (I : nat -> mem -> Prop) str s :
  Z.of_nat (List.length s) < 2 ^ 31 ->
  (forall x m, I x m -> cstring m str s) ->
  (forall x m c, I x m -> s !! x = Some c ->
     exists m', put m (Z.of_nat x) (s8 c) = Ok m' /\ I (S x) m') ->
  forall n x m fuel, (x + n = List.length s)%nat -> I x m -> (n < fuel)%nat ->
  exists m', print_loop fuel put m str (Z.of_nat x) = Ok m' /\ I (List.length s) m'.
Proof.
  intros Hb HI Hput. induction n as [|n IH]; intros x m fuel Hn Hx Hf;
    (destruct fuel as [|fuel]; [lia|]); simpl print_loop;
    rewrite (length_ok m str s) by eauto; cbn [mbind res_bind].
  - rewrite (proj2 (Z.ltb_ge _ _)) by lia. exists m. split; [done|].
    by replace (List.length s) with x by lia.
  - rewrite (proj2 (Z.ltb_lt _ _)) by lia.
    destruct (lookup_lt_is_Some_2 s x) as [c Hc]; [lia|].
    destruct (cstring_nth m str s x c (HI _ _ Hx) Hc) as [-> _]. cbn [mbind res_bind].
    destruct (Hput x m c Hx Hc) as (m1 & -> & H1). cbn [mbind res_bind].
    replace (Z.of_nat x + 1) with (Z.of_nat (S x)) by lia. apply IH; [lia|done|lia].
Qed.

Lemma insert_keeps_cstring m str s a v :
  ~ (str <= a <= str + Z.of_nat (List.length s)) -> cstring m str s -> cstring (<[a := v]> m) str s.
Proof.
  intros Ha [Hs H]. split; [done|]. apply bytes_at_insert_ne; [|done].
  rewrite length_app. simpl. lia.
Qed.

(** Every [k]th byte from [p] on. *)
Definition strided (m m' : mem) (p k : Z) (n : nat) (s : list Z) : Prop :=
  (forall i c, (i < n)%nat -> s !! i = Some c -> m' !! (p + k * Z.of_nat i) = Some c) /\
  (forall a, (forall i, (i < n)%nat -> a <> p + k * Z.of_nat i) -> m' !! a = m !! a).

Lemma strided_step m m1 p k n s c :
  0 < k -> s !! n = Some c -> 0 <= c < 256 -> strided m m1 p k n s ->
  strided m (<[p + k * Z.of_nat n := u8 (s8 c)]> m1) p k (S n) s.
Proof.
  intros Hk Hc Hr [Hin Hout]. split.
  - intros i d Hi Hd. destruct (decide (i = n)) as [->|].
    + rewrite lookup_insert_eq, u8_s8 by done. congruence.
    + rewrite lookup_insert_ne by nia. apply Hin; [lia|done].
  - intros a Ha. rewrite lookup_insert_ne by (intros E; apply (Ha n); [lia|done]).
    apply Hout. intros i Hi. apply Ha. lia.
Qed.

Lemma print_strided m str s p k :
  cstring m str s -> Z.of_nat (List.length s) < 2 ^ 31 -> 0 < k ->
  (forall i, (i < List.length s)%nat -> is_Some (m !! (p + k * Z.of_nat i)) /\
     ~ (str <= p + k * Z.of_nat i <= str + Z.of_nat (List.length s))) ->
  exists m', print_loop (S (size m)) (fun m x c => store8 m (p + k * x) c) m str 0 = Ok m' /\
    strided m m' p k (List.length s) s.
Proof.
  intros Hs Hb Hk Hm.
  destruct (text_print_loop_ok (fun m x c => store8 m (p + k * x) c)
    (fun x m' => cstring m' str s /\ strided m m' p k x s) str s Hb) with
    (n := List.length s) (x := O) (m := m) (fuel := S (size m)) as (m' & E & _ & H).
  - by intros x m' [H _].
  - intros x m1 c [H1 H2] Hc. pose proof (lookup_lt_Some _ _ _ Hc) as Hx.
    destruct (Hm x Hx) as [Hmap Hdis].
    rewrite store8_ok.
    + eexists. split; [done|]. split; [by apply insert_keeps_cstring|].
      apply strided_step; try done. pose proof (cstring_nth m str s x c Hs Hc). lia.
    + destruct H2 as [_ Hout]. rewrite Hout; [done|]. intros i Hi. nia.
  - lia.
  - split; [done|]. split; [intros i c Hi; lia|done].
  - pose proof (cstring_size _ _ _ Hs). lia.
  - by exists m'.
Qed.

(** ** Properties *)

(** [print_at] and [print_vertical] put the characters of a string into every
    second byte, or one line of 80 cells apart, from the position on, and change
    nothing else: the colours stay. *)
Theorem print_places_characters (m : mem) (str pos : Z) (s : list Z) (k : Z) :
  k = 2 \/ k = 0xa0 ->
  cstring m str s -> Z.of_nat (List.length s) < 2 ^ 31 -> 0 <= pos < 2 ^ 31 ->
  (forall i, (i < List.length s)%nat -> is_Some (m !! (pos + k * Z.of_nat i)) /\
     ~ (str <= pos + k * Z.of_nat i <= str + Z.of_nat (List.length s))) ->
  exists m', (if k =? 2 then print_at m str pos else print_vertical m str pos) = Ok m' /\
    (forall i c, s !! i = Some c -> m' !! (pos + k * Z.of_nat i) = Some c) /\
    (forall a, (forall i, (i < List.length s)%nat -> a <> pos + k * Z.of_nat i) ->
       m' !! a = m !! a).
Proof.
  intros Hk Hs Hb Hp Hm.
  destruct (print_strided m str s pos k Hs Hb) as (m' & E & Hin & Hout); [lia|done|].
  exists m'. split.
  - unfold print_at, print_vertical. rewrite wrap_small by lia. by destruct Hk as [-> | ->].
  - split; [|done]. intros i c Hc. apply Hin; [|done]. by eapply lookup_lt_Some.
Qed.

(** [print_at_color] puts each character with the colour byte after it, in
    consecutive cells, and changes nothing else. *)
Theorem print_at_color_cells (m : mem) (str pos color : Z) (s : list Z) :
  cstring m str s -> Z.of_nat (List.length s) < 2 ^ 31 -> 0 <= pos < 2 ^ 31 ->
  mapped m pos (2 * Z.of_nat (List.length s)) ->
  pos + 2 * Z.of_nat (List.length s) <= str \/ str + Z.of_nat (List.length s) < pos ->
  exists m', print_at_color m str pos color = Ok m' /\
    wrote m m' pos (flat_map (fun c => [c; u8 color]) s).
Proof.
  intros Hs Hb Hp Hm Hd. unfold print_at_color. rewrite wrap_small by lia.
  set (cells := fun l => flat_map (fun c => [c; u8 color]) l).
  assert (Hlen : forall l, List.length (cells l) = (2 * List.length l)%nat).
  { induction l as [|c l IH]; [done|]. simpl. fold (cells l). rewrite IH. lia. }
  destruct (text_print_loop_ok (fun m x c =>
      m ← store8 m (pos + 2 * x) c; store8 m (pos + (2 * x + 1)) color)
    (fun x m' => cstring m' str s /\ wrote m m' pos (cells (take x s))) str s Hb) with
    (n := List.length s) (x := O) (m := m) (fuel := S (size m)) as (m' & E & _ & H).
  - by intros x m' [H _].
  - intros x m1 c [H1 H2] Hc. pose proof (lookup_lt_Some _ _ _ Hc) as Hx.
    destruct (cstring_nth m str s x c Hs Hc) as [_ Hr].
    assert (Hmx : mapped m1 (pos + 2 * Z.of_nat x) 2).
    { eapply mapped_sub; [eapply wrote_mapped; [exact H2|exact Hm]|lia|lia]. }
    rewrite store8_ok by (rewrite <- (Z.add_0_r (pos + _)); apply Hmx; lia). cbn [mbind res_bind].
    rewrite store8_ok.
    2: { rewrite lookup_insert_ne by lia. rewrite Z.add_assoc. apply Hmx. lia. }
    eexists. split; [done|]. split; [by do 2 (apply insert_keeps_cstring; [lia|])|].
    rewrite (take_S_r _ _ _ Hc). unfold cells. rewrite flat_map_app.
    eapply wrote_app; [exact H2|]. fold (cells (take x s)). rewrite Hlen, length_take.
    replace (pos + Z.of_nat (2 * (x `min` List.length s))) with (pos + 2 * Z.of_nat x) by lia.
    rewrite u8_s8 by lia. rewrite Z.add_assoc.
    apply (wrote_write_list m1 (pos + 2 * Z.of_nat x) [c; u8 color]).
  - lia.
  - split; [done|apply wrote_refl].
  - pose proof (cstring_size _ _ _ Hs). lia.
  - exists m'. split; [exact E|]. by rewrite firstn_all in H.
Qed.

(** [vga_entry] packs an ASCII character with its colour; a negative [char]
    takes colour 0xFF. *)
Lemma vga_entry_value (c color : Z) :
  - 128 <= c < 128 -> 0 <= color < 256 ->
  vga_entry c color = if 0 <=? c then color * 256 + c else 0xFF * 256 + u8 c.
Proof.
  intros Hc Hk. unfold vga_entry. rewrite Z.shiftl_mul_pow2 by lia.
  rewrite (wrap_small 16 (color * 2 ^ 8)) by lia. rewrite <- Z.shiftl_mul_pow2 by lia.
  destruct (Z.leb_spec 0 c).
  - rewrite (wrap_small 16) by lia. rewrite lor_pack by lia. lia.
  - assert (E : u16 c = u8 c + 0xFF * 2 ^ 8).
    { unfold wrap. rewrite <- (Z.mod_add c 1 (2 ^ 16)), <- (Z.mod_add c 1 (2 ^ 8)) by lia.
      rewrite !Z.mod_small by lia. lia. }
    rewrite E, <- (lor_pack 8 (u8 c) 0xFF) by (try apply wrap_range; lia).
    rewrite <- Z.lor_assoc, <- Z.shiftl_lor.
    replace (Z.lor 0xFF color) with 0xFF.
    + rewrite lor_pack by (try apply wrap_range; lia). lia.
    + symmetry. apply Z.bits_inj'. intros i Hi. rewrite Z.lor_spec.
      change 0xFF with (Z.ones 8). destruct (Z.lt_ge_cases i 8).
      * by rewrite Z.ones_spec_low by lia.
      * rewrite Z.ones_spec_high by lia. by rewrite (testbit_above 8 color i) by lia.
Qed.

(** The bytes [term_init] has stored when it is in line [Y], before column [X]. *)
Definition init_covered (Y X a : Z) : bool :=
  let i := (a - term_buf) / 2 in
  (term_buf <=? a) &&
  (((i / 80 <? Y) && (i mod 80 <? 24)) || ((i / 80 =? Y) && (i mod 80 <? X))).

Definition init_byte (a : Z) : Z := if (a - term_buf) mod 2 =? 0 then 0x78 else 0x07.

Definition init_upto (m m' : mem) (Y X : Z) : Prop :=
  forall a, m' !! a = if init_covered Y X a then Some (init_byte a) else m !! a.

(** Two [bool]s equal because they decide equivalent arithmetic. *)
Ltac bool_arith :=
  apply eq_bool_prop_intro;
  rewrite ?andb_True, ?orb_True, ?andb_True, ?orb_True, ?Is_true_true, ?Is_true_false,
    ?Z.leb_le, ?Z.ltb_lt, ?Z.eqb_eq;
  Z.div_mod_to_equations; lia.

Lemma init_covered_step Y X a :
  0 <= Y -> 0 <= X < 80 ->
  init_covered Y (X + 1) a =
    init_covered Y X a || (a =? term_buf + 2 * (Y * 80 + X)) || (a =? term_buf + 2 * (Y * 80 + X) + 1).
Proof. intros HY HX. unfold init_covered, term_buf. bool_arith. Qed.

Lemma init_covered_next Y a : 0 <= Y -> init_covered Y 24 a = init_covered (Y + 1) 0 a.
Proof. intros HY. unfold init_covered, term_buf. bool_arith. Qed.

Lemma init_covered_cell y x b :
  0 <= y < 24 -> 0 <= x < 80 -> 0 <= b < 2 ->
  init_covered 24 0 (term_buf + 2 * (y * 80 + x) + b) = (x <? 24).
Proof. intros Hy Hx Hb. unfold init_covered, term_buf. bool_arith. Qed.

Lemma init_covered_outside Y a :
  0 <= Y <= 24 -> ~ (term_buf <= a < term_buf + 3840) \/ Y = 0 -> init_covered Y 0 a = false.
Proof.
  intros HY Ha. apply not_true_iff_false. unfold init_covered, term_buf in *.
  rewrite andb_true_iff, orb_true_iff, !andb_true_iff, Z.leb_le, !Z.ltb_lt, Z.eqb_eq.
  Z.div_mod_to_equations. lia.
Qed.

Lemma init_store m m1 Y X :
  0 <= Y < 24 -> 0 <= X < 24 -> mapped m term_buf 3840 -> init_upto m m1 Y X ->
  exists m2, store_le 2 m1 (term_buf + 2 * (Y * 80 + X)) (vga_entry 120 term_color) = Ok m2 /\
    init_upto m m2 Y (X + 1).
Proof.
  intros HY HX Hm Hup.
  assert (Hm1 : mapped m1 (term_buf + 2 * (Y * 80 + X)) (Z.of_nat 2)).
  { intros i Hi. rewrite Hup. destruct (init_covered _ _ _); [by eexists|].
    rewrite <- Z.add_assoc. apply Hm. lia. }
  destruct (store_le_wrote 2 m1 _ (vga_entry 120 term_color) Hm1) as (m2 & -> & Hb & Hout).
  exists m2. split; [done|]. intros a. rewrite init_covered_step by lia.
  change (le_bytes 2 (vga_entry 120 term_color)) with [0x78; 0x07] in *.
  destruct (Z.eqb_spec a (term_buf + 2 * (Y * 80 + X))) as [->|H1];
    [|destruct (Z.eqb_spec a (term_buf + 2 * (Y * 80 + X) + 1)) as [->|H2]].
  - rewrite orb_true_r, orb_true_l. pose proof (Hb 0%nat _ eq_refl) as H.
    rewrite Z.add_0_r in H. rewrite H. f_equal. unfold init_byte.
    by rewrite (proj2 (Z.eqb_eq _ 0)) by (Z.div_mod_to_equations; lia).
  - rewrite orb_true_r. pose proof (Hb 1%nat _ eq_refl) as H. change (Z.of_nat 1) with 1 in H. rewrite H. f_equal. unfold init_byte.
    by rewrite (proj2 (Z.eqb_neq _ 0)) by (Z.div_mod_to_equations; lia).
  - rewrite !orb_false_r, Hout by (simpl; lia). apply Hup.
Qed.

Lemma init_cell_value m m' y x :
  init_upto m m' 24 0 -> 0 <= y < 24 -> 0 <= x < 80 ->
  load_le 2 m' (term_buf + 2 * (y * 80 + x)) =
    if x <? 24 then Ok 0x0778 else load_le 2 m (term_buf + 2 * (y * 80 + x)).
Proof.
  intros Hup Hy Hx. set (p := term_buf + 2 * (y * 80 + x)).
  assert (Hc : forall b, 0 <= b < 2 -> m' !! (p + b) =
    if x <? 24 then Some (if b =? 0 then 0x78 else 0x07) else m !! (p + b)).
  { intros b Hb. unfold p. rewrite Hup, init_covered_cell by lia. unfold init_byte.
    destruct (x <? 24); [|done]. do 2 f_equal. unfold p.
    replace ((_ - term_buf) mod 2) with b by (Z.div_mod_to_equations; lia). done. }
  destruct (x <? 24).
  - apply (load_le_word _ _ 2 0x778). apply bytes_at_cons. split.
    + rewrite <- (Z.add_0_r p). by rewrite Hc by lia.
    + apply bytes_at_cons. split; [by rewrite Hc by lia|].
      intros i b Hi. by rewrite lookup_nil in Hi.
  - apply load_le_ext. intros a Ha. replace a with (p + (a - p)) by lia. apply Hc. lia.
Qed.

(** [term_init] fills columns 0 to 23 of the 24 lines with a grey [x] and
    touches no other cell: its inner loop is bounded by [VGA_HEIGHT], so the other
    56 columns of each line keep what they held. *)
Theorem term_init_columns (m : mem) :
  mapped m term_buf 3840 ->
  exists m', term_init m = Ok m' /\
    (forall y x, 0 <= y < 24 -> 0 <= x < 80 ->
       load_le 2 m' (term_buf + 2 * (y * 80 + x)) =
         if x <? 24 then Ok 0x0778 else load_le 2 m (term_buf + 2 * (y * 80 + x))) /\
    (forall a, ~ (term_buf <= a < term_buf + 3840) -> m' !! a = m !! a).
Proof.
  intros Hm.
  destruct (for_range_inv (fun Y m' => init_upto m m' Y 0) (fun y m =>
    for_range 0 24 (fun x m => let index := y * 80 + x in
      store_le 2 m (term_buf + 2 * index) (vga_entry 120 term_color)) m) 0 24 m)
    as (m' & E & Hup); [lia| | |].
  - intros a. by rewrite init_covered_outside by (lia || auto).
  - intros y m1 Hy H1.
    destruct (for_range_inv (fun X m' => init_upto m m' y X) (fun x m =>
      let index := y * 80 + x in
      store_le 2 m (term_buf + 2 * index) (vga_entry 120 term_color)) 0 24 m1) as (m2 & E & H2);
      [lia|done|intros x m3 Hx H3; by apply init_store|].
    exists m2. split; [exact E|]. intros a. rewrite H2. by rewrite init_covered_next by lia.
  - exists m'. split; [exact E|]. split; [intros y x Hy Hx; by apply init_cell_value|].
    intros a Ha. by rewrite Hup, init_covered_outside by (lia || auto).
Qed.

(** ** Witnesses *)

(** A controller with an index register. *)
Record demo_crtc := mk_crtc { ci : Z; cr : Z -> Z }.

#[export] Instance demo_crtc_bus : Bus demo_crtc := {|
  bus_in _ port d := (if port =? 0x3D5 then cr d (ci d) else 0, d);
  bus_out _ port v d :=
    if port =? 0x3D4 then mk_crtc v (cr d)
    else if port =? 0x3D5 then mk_crtc (ci d) (fupd (cr d) (ci d) v) else d
|}.

#[export] Program Instance demo_crtc_ok : Crtc demo_crtc := {| crtc_index := ci; crtc_reg := cr |}.
Next Obligation. done. Qed.
Next Obligation. done. Qed.
Next Obligation. done. Qed.

(** Registers that hold the value, and registers that hold something else. *)
Definition value_in_al (port data : Z) (d : demo_crtc) : cpu := mk_cpu data 0.
Definition other_in_al (port data : Z) (d : demo_crtc) : cpu := mk_cpu 12 0.

(** Start address in registers 12 and 13, cursor position 805 in 14 and 15. *)
Definition demo_controller : demo_crtc :=
  mk_crtc 0 (fun k => if k =? 14 then 3 else if k =? 15 then 37 else 1).

Lemma read_cursor_follows_al_witness :
  (read_cursor value_in_al demo_controller).1 = 805 /\ (read_cursor other_in_al demo_controller).1 = 257.
Proof.
  split.
  - destruct (read_cursor_follows_al value_in_al demo_controller) as (_ & _ & _ & H).
    apply H; reflexivity || (simpl; lia).
  - destruct (read_cursor_follows_al other_in_al demo_controller) as (_ & E & _). exact E.
Defined.

(** A screen of 4000 bytes at 0xB8000 and the string ["88os"] at 0x1000. *)
Definition demo_text : mem :=
  write_list (mem_of 0xB8000 (replicate 4000 7)) 0x1000 (str_bytes "88os" ++ [0]).

Lemma demo_text_string : cstring demo_text 0x1000 (str_bytes "88os").
Proof.
  split; [repeat constructor; lia|]. apply write_list_bytes_at.
Qed.

Lemma demo_text_mapped : mapped demo_text 0xB8000 4000.
Proof.
  eapply wrote_mapped; [apply wrote_write_list|].
  change 4000 with (Z.of_nat (List.length (replicate 4000 7))).
  apply bytes_at_mapped, write_list_bytes_at.
Qed.

Lemma print_places_characters_witness :
  exists m', print_vertical demo_text 0x1000 0xB8680 = Ok m' /\ m' !! 0xB8720 = Some 56.
Proof.
  destruct (print_places_characters demo_text 0x1000 0xB8680 (str_bytes "88os") 0xa0)
    as (m' & E & H & _); [auto|exact demo_text_string|reflexivity|lia| |].
  - intros i Hi. change (List.length (str_bytes "88os")) with 4%nat in *.
    split; [|lia]. replace (0xB8680 + 0xa0 * Z.of_nat i) with (0xB8000 + (0x680 + 0xa0 * Z.of_nat i)) by lia.
    apply demo_text_mapped. lia.
  - assert ((0xa0 =? 2) = false) as F by reflexivity. rewrite F in E. exists m'. split; [exact E|exact (H 1%nat 56 eq_refl)].
Defined.

Lemma print_at_color_cells_witness :
  exists m', print_at_color demo_text 0x1000 0xB8A00 0x0F = Ok m' /\
    bytes_at m' 0xB8A00 [56; 15; 56; 15; 111; 15; 115; 15].
Proof.
  destruct (print_at_color_cells demo_text 0x1000 0xB8A00 0x0F (str_bytes "88os"))
    as (m' & E & [Hb _]); [exact demo_text_string|reflexivity|lia| | |].
  - eapply mapped_sub; [exact demo_text_mapped|lia|].
    change (List.length (str_bytes "88os")) with 4%nat. lia.
  - right. change (List.length (str_bytes "88os")) with 4%nat. lia.
  - exists m'. split; [exact E|exact Hb].
Defined.

Lemma term_init_columns_witness :
  exists m', term_init demo_text = Ok m' /\ load_le 2 m' (term_buf + 2 * (3 * 80 + 23)) = Ok 0x778.
Proof.
  destruct (term_init_columns demo_text) as (m' & E & H & _).
  - eapply mapped_sub; [exact demo_text_mapped|unfold term_buf; lia..].
  - exists m'. split; [exact E|]. rewrite (H 3 23) by lia. reflexivity.
Defined.
