(* ===== verification/Keyboard.v ===== *)
(** The keyboard interrupt of [kernel_main.c]: [isr_keyb], with the line buffer
    [inp], its counter [cntr], the echo on the graphics screen and the two
    commands ["dir"] and ["demo"]; the timer interrupt [isr_pit].

    The console ([putcc], [_printf], [printsss], the [d_print*] functions) and the
    FAT library are not part of the repository: [KeybEnv] has their operations,
    over the pair of the drawing state and a device state [D]. *)

From S2P Require Import Prelude Mem Ports Graphics.

Definition kbdus_init : list Z := [
  0; 27; 49; 50; 51; 52; 53; 54; 55; 56;
  57; 48; 45; 61; 8;
  9;
  113; 119; 101; 114;
  116; 121; 117; 105; 111; 112; 91; 93; 10;
  0;
  97; 115; 100; 102; 103; 104; 106; 107; 108; 59;
  39; 96; 0;
  92; 122; 120; 99; 118; 98; 110;
  109; 44; 46; 47; 0;
  42;
  0;
  32;
  0;
  0;
  0; 0; 0; 0; 0; 0; 0; 0;
  0;
  0;
  0;
  0;
  0;
  0;
  45;
  0;
  0;
  0;
  43;
  0;
  0;
  0;
  0;
  0;
  0; 0; 0;
  0;
  0;
  0
].

(** [kbdus[buf]]; the initialiser leaves the end of the 128 entries zero. *)
Definition kbdus (buf : Z) : Z := nth (Z.to_nat buf) kbdus_init 0.

Definition inp_size : Z := 100.

(** The arrays [dir] and [demo], terminators included. *)
Definition dir : list Z := str_bytes "dir" ++ [10; 0].
Definition demo : list Z := str_bytes "demo" ++ [10; 0].

Section Keyboard.
Context {D : Type} `{!PortIO D}.

(** The drawing state and the device. *)
Abbreviation gd := (gst * D)%type.

Class KeybEnv := {
  putcc : Z -> D -> D;
  _printf : list Z -> D -> D;
  printsss : list Z -> Z -> D -> D;
  d_printss : list Z -> gd -> gd;
  d_printhex : Z -> Z -> gd -> gd;
  (** [d_printss] and [d_printsss] of the text at [DISK_READ_LOCATION]. *)
  d_print_disk : option Z -> gd -> gd;
  strcpy_disk : list Z -> gd -> gd;
  memset_disk : Z -> Z -> gd -> gd;
  dir_entry : Type;
  GET_CLUSTER_FROM_ENTRY : dir_entry -> Z;
  getFile : list Z -> gd -> (list Z * dir_entry) * gd;
  directoryList : Z -> gd -> gd;
  sectors_per_cluster : gd -> Z;
  allocateFreeFAT : gd -> Z * gd;
  FATRead : Z -> gd -> Z * gd;
  FATWrite : Z -> Z -> gd -> Z * gd;
  FREE_CLUSTER_32 : Z;
  clusterRead : Z -> Z -> gd -> gd;
  clusterWrite : Z -> Z -> Z -> gd -> gd;
  (** The string it returns and the new contents of its argument. *)
  convertToFATFormat : list Z -> list Z * list Z;
  testIfFATFormat : list Z -> Z;
  convertFromFATFormat : list Z -> list Z
}.
Context {E : KeybEnv}.

Record kb := mk_kb { kg : gst; inp : list Z; cntr : Z; kdev : D }.

Definition set_kg (s : kb) (g : gst) : kb := mk_kb g (inp s) (cntr s) (kdev s).
Definition set_inp (s : kb) (l : list Z) : kb := mk_kb (kg s) l (cntr s) (kdev s).
Definition set_cntr (s : kb) (n : Z) : kb := mk_kb (kg s) (inp s) n (kdev s).
Definition set_kdev (s : kb) (d : D) : kb := mk_kb (kg s) (inp s) (cntr s) d.
Definition set_gd (s : kb) (x : gd) : kb := mk_kb x.1 (inp s) (cntr s) x.2.

Definition inp_get (s : kb) (i : Z) : res Z :=
  if 0 <=? i then match inp s !! Z.to_nat i with Some c => Ok c | None => Undef end else Undef.

Definition inp_put (s : kb) (i c : Z) : res kb :=
  if (0 <=? i) && (i <? Z.of_nat (length (inp s)))
  then Ok (set_inp s (<[Z.to_nat i := c]> (inp s))) else Undef.

Definition kb_drawtext (s : kb) (c : Z) : res kb :=
  g ← drawtext (kg s) c; Ok (set_kg s g).

(** [width = width + n] *)
Definition move_cursor (s : kb) (n : Z) : res kb :=
  w ← int32 (width (kg s) + n); Ok (set_kg s (set_cursor (kg s) w (height (kg s)))).

Definition isr_pit (d : D) : D := outb 0x20 0x20 d.

(** [for (l = 0; l < cntr; l++) inp[l] = '\0'] *)
Definition clear_inp (s : kb) : res kb := for_range 0 (cntr s) (fun l s => inp_put s l 0) s.

(** [for (k = 0; k < cntr; k++)]: the line is echoed again. *)
Definition echo_char (k : Z) (s : kb) : res kb :=
  c ← inp_get s k;
  s ← kb_drawtext s c;
  let s := set_kdev s (putcc c (kdev s)) in
  let s := set_kdev s (_printf [10] (kdev s)) in
  Ok (set_kdev s (printsss (inp s) 10 (kdev s))).

Definition echo_line (s : kb) : res kb := for_range 0 (cntr s) echo_char s.

(** The branch of ["dir"]. *)
Definition run_dir (s : kb) : res kb :=
  let '((_, fileMeta), x) := getFile (str_bytes "C:\") (kg s, kdev s) in
  let s := set_gd s (directoryList (GET_CLUSTER_FROM_ENTRY fileMeta) x) in
  let s := set_kdev s (_printf (str_bytes "CORRECT! IMPLEMENT DIR CODE HERE" ++ [10]) (kdev s)) in
  s ← kb_drawtext s 32;
  s ← kb_drawtext s 79;
  s ← kb_drawtext s 32;
  clear_inp s.

Definition nl : list Z := [10].
Definition quoted (s : list Z) : list Z := [34] ++ s ++ [34].

(** The part of the branch of ["demo"] that [goto end_of_demo] can leave early:
    [inl] when the first [FATWrite] fails. *)
Definition demo_fat (x : gd) : gd + Z * gd :=
  let x := d_printss (nl ++ nl ++ nl ++ str_bytes "Beginning FAT code demonstration... " ++ nl) x in
  let x := d_printss (str_bytes "The FAT code first requires retrieval of data from the disk to figure out the FAT type." ++ nl ++
    str_bytes "This is handled by FATInitialize(), which was called at the beginning of execution." ++ nl ++
    str_bytes "Note: only FAT32 is currently supported." ++ nl) x in
  let x := d_printss (str_bytes "Sectors Per Cluster ( from FATInitialize() ): 0x") x in
  let x := d_printhex (swrap 16 (sectors_per_cluster x)) 2 x in
  let x := d_printss (nl ++ nl ++ str_bytes "The function FATRead() is capable of reading entries in the main FAT table and returning the number of the next cluster in a file's chain." ++ nl) x in
  let x := d_printss (str_bytes "The function FATWrite() writes cluster numbers to the main FAT table (but not the secondary FAT table)." ++ nl) x in
  let x := d_printss (str_bytes "The function allocateFreeFAT() will find a free cluster, and write 0xFFFFFFF8 (END_CLUSTER_32) to it, to indicate the block's usage." ++ nl) x in
  let '(a_cluster, x) := allocateFreeFAT x in
  let x := d_printss (str_bytes "allocateFreeFAT() found the cluster 0x") x in
  let x := d_printhex a_cluster 8 x in
  let x := d_printss (str_bytes " for our demonstration. FATRead() reads the value 0x") x in
  let '(v, x) := FATRead a_cluster x in
  let x := d_printhex v 8 x in
  let x := d_printss (str_bytes " from that cluster." ++ nl) x in
  let x := d_printss (str_bytes "Now using FATWrite(), we will write 0x01234567 to that cluster entry." ++ nl) x in
  let '(r, x) := FATWrite a_cluster 0x1234567 x in
  if negb (r =? 0) then
    inl (d_printss (str_bytes "This demonstration encountered an error. Aborting..." ++ nl) x)
  else
    let x := d_printss (str_bytes "FATRead() reads ") x in
    let '(v, x) := FATRead a_cluster x in
    let x := d_printhex v 8 x in
    let x := d_printss (str_bytes " from that cluster entry, as expected." ++ nl) x in
    let '(_, x) := FATWrite a_cluster FREE_CLUSTER_32 x in
    inr (a_cluster, x).

(** The rest of it, up to the label. *)
Definition demo_files (a_cluster : Z) (x : gd) : gd :=
  let works := str_bytes "clusterWrite() works!" in
  let x := d_printss (str_bytes "clusterRead() and clusterWrite() will read and write data from a FAT cluster. Currently, in the cluster we found earlier, this is the first 20 characters found in there: " ++ nl) x in
  let x := clusterRead a_cluster 0 x in
  let x := d_print_disk (Some 20) x in
  let x := d_printss (str_bytes "Now to write " ++ quoted works ++ str_bytes " to disk... Filling memory location with zeros..." ++ nl ++ str_bytes " New contents: ") x in
  let x := strcpy_disk works x in
  let x := clusterWrite (Z.of_nat (length works)) 0 a_cluster x in
  let x := memset_disk 0 30 x in
  let x := clusterRead a_cluster 0 x in
  let x := d_print_disk None x in
  let x := d_printss nl x in
  let test := str_bytes "test.txt" in
  let x := d_printss (str_bytes "convertToFATFormat() converts test.txt into ") x in
  let '(converted, test) := convertToFATFormat test in
  let x := d_printss converted x in
  let x := d_printss nl x in
  let x := d_printss (str_bytes "testIfFATFormat() checks to ensure a value obeys FAT specifications. The converted file name above is flagged as ") x in
  let x := d_printss (if testIfFATFormat test =? 0 then str_bytes "valid" else str_bytes "invalid") x in
  let x := d_printss (str_bytes " by testIfFATFormat()." ++ nl ++ str_bytes "convertFromFATFormat converts that back to ") x in
  let x := d_printss (convertFromFATFormat test) x in
  let x := d_printss nl x in
  let x := d_printss (str_bytes "the function getFile() utilitizes all the functions above, plus directorySearch(which uses the functions above to look for a file in a directory) to display the contents of a file." ++ nl ++
    str_bytes "Please make sure a file named " ++ quoted (str_bytes "test.txt") ++ str_bytes " is in the " ++ quoted (str_bytes "Documents and Settings") ++
    str_bytes " folder, to demonstrate it's ability to also search subdirectories." ++ nl ++ str_bytes "Starting getFile..." ++ nl ++ nl) x in
  let '((fileContents, _), x) := getFile (str_bytes "C:\DOCUME~1\test.txt") x in
  let x := d_printss fileContents x in
  d_printss (nl ++ str_bytes "A shout-out to strcpy(), strncpy(), strncmp(), strcmp(), and the read and write disk drivers (all written by me) for making this possible!" ++ nl) x.

Definition run_demo (s : kb) : res kb :=
  let s := set_kg s (set_cursor (kg s) 5 50) in
  let x := match demo_fat (kg s, kdev s) with inl x => x | inr (a_cluster, x) => demo_files a_cluster x end in
  let s := set_gd s (d_printss (nl ++ nl ++ str_bytes "This concludes the demonstration." ++ nl) x) in
  clear_inp s.

(** The three branches after the line is echoed. *)
Definition run_line (s : kb) : res kb :=
  is_dir ← strcmp_eq dir (inp s);
  if is_dir : bool then run_dir s
  else
    is_demo ← strcmp_eq demo (inp s);
    if is_demo : bool then run_demo s else clear_inp s.

(** The end of the key-press branch: the cursor [_] is drawn two pixels to the
    left. *)
Definition draw_caret (s : kb) : res kb :=
  s ← move_cursor s (-2);
  s ← kb_drawtext s 95;
  move_cursor s 2.

Definition key_pressed (s : kb) (buf : Z) : res kb :=
  s ← move_cursor s (-16);
  s ← kb_drawtext s (-1);
  s ← move_cursor s (-16);
  s ← inp_put s (cntr s) (kbdus buf);
  c ← inp_get s (cntr s);
  let s := set_kdev s (putcc c (kdev s)) in
  s ← kb_drawtext s c;
  s ← (if c =? 10 then
         let s := set_kdev s (_printf (str_bytes "ENTERKEY" ++ nl) (kdev s)) in
         s ← echo_line s;
         s ← run_line s;
         Ok (set_cntr s 0)
       else Ok (set_cntr s (cntr s + 1)));
  draw_caret s.

Definition isr_keyb (s : kb) : res kb :=
  let '(buf, d) := inb 0x60 (kdev s) in
  let s := set_kdev s d in
  s ← (if Z.land buf 0x80 =? 0 then key_pressed s buf else Ok s);
  Ok (set_kdev s (outb 0x20 0x20 (kdev s))).

(** ** The line discipline *)

(** What a key does to the buffer and the counter. *)
Definition line_step (b : list Z * Z) (c : Z) : list Z * Z :=
  let l := <[Z.to_nat b.2 := c]> b.1 in
  if c =? 10 then (replicate (Z.to_nat b.2) 0 ++ drop (Z.to_nat b.2) l, 0) else (l, b.2 + 1).

Definition line_keys (b : list Z * Z) (cs : list Z) : list Z * Z := fold_left line_step cs b.

(** The buffer is intact and the text cursor has room for a few more characters. *)
Definition kb_ok (H : Z) (s : kb) (room : Z) : Prop :=
  vmem_ok (gmem (kg s)) H /\ 16 <= width (kg s) /\ width (kg s) + room <= 1260 /\
  0 <= height (kg s) /\ height (kg s) + 16 <= H /\ Z.of_nat (length (inp s)) = inp_size /\
  0 <= cntr s.

(** ** Lemmas *)
Lemma kbdus_range buf : 0 <= kbdus buf < 128.
Proof.
  unfold kbdus. destruct (le_lt_dec (length kbdus_init) (Z.to_nat buf)) as [Hl|Hl].
  - rewrite nth_overflow by done. lia.
  - assert (HF : Forall (fun c => 0 <= c < 128) kbdus_init) by (repeat constructor; lia).
    rewrite list.Forall_forall in HF. apply HF. apply list_elem_of_In. by apply nth_In.
Qed.

Lemma inp_put_ok s i c :
  0 <= i < Z.of_nat (length (inp s)) -> inp_put s i c = Ok (set_inp s (<[Z.to_nat i := c]> (inp s))).
Proof. intros Hi. unfold inp_put. by zbool. Qed.

Lemma inp_get_ok s i c : 0 <= i -> inp s !! Z.to_nat i = Some c -> inp_get s i = Ok c.
Proof. intros Hi Hc. unfold inp_get. zbool. by rewrite Hc. Qed.

(** The start of a key press: the cursor cell is blanked and the code stored. *)
Lemma drawtext_blank_cell H g :
  vmem_ok (gmem g) H -> 0 <= width g <= 1260 -> 0 <= height g -> height g + 16 <= H ->
  drawtext g (-1) = Ok (mk_gst (plot 0 0 0 (gmem g) (rect_points (width g) (height g) 16 16))
                          (width g + 16) (height g)).
Proof. apply drawtext_blank_ok. Qed.

Lemma kb_drawtext_ok s c g : drawtext (kg s) c = Ok g -> kb_drawtext s c = Ok (set_kg s g).
Proof. unfold kb_drawtext. by intros ->. Qed.

Definition caret_blanked (s : kb) : kb :=
  set_kg s (mk_gst (plot 0 0 0 (gmem (kg s)) (rect_points (width (kg s) - 16) (height (kg s)) 16 16))
    (width (kg s) - 16) (height (kg s))).

Lemma key_pressed_start H s buf :
  kb_ok H s 0 ->
  key_pressed s buf = (
    s ← inp_put (caret_blanked s) (cntr s) (kbdus buf);
    c ← inp_get s (cntr s);
    let s := set_kdev s (putcc c (kdev s)) in
    s ← kb_drawtext s c;
    s ← (if c =? 10 then
           let s := set_kdev s (_printf (str_bytes "ENTERKEY" ++ nl) (kdev s)) in
           s ← echo_line s;
           s ← run_line s;
           Ok (set_cntr s 0)
         else Ok (set_cntr s (cntr s + 1)));
    draw_caret s).
Proof.
  intros (Hm & Hw & Hw' & Hh & HH & Hl & Hc). unfold key_pressed, move_cursor.
  rewrite int32_ok by lia. cbn [mbind res_bind].
  set (s1 := set_kg s (set_cursor (kg s) (width (kg s) + -16) (height (kg s)))).
  rewrite (kb_drawtext_ok s1 _ _ (drawtext_blank_cell H (kg s1) Hm ltac:(simpl; lia) Hh HH)).
  unfold s1.
  cbn [mbind res_bind kg set_kg width height gmem set_cursor].
  rewrite int32_ok by lia. cbn [mbind res_bind]. unfold caret_blanked, set_kg. cbn [kg inp cntr kdev gmem height].
  by replace (width (kg s) + -16 + 16 + -16) with (width (kg s) - 16) by lia.
Qed.

(** A printable character drawn at the cursor, on a line with room for it. *)
Lemma kb_char_ok H s c :
  vmem_ok (gmem (kg s)) H -> 0 <= c < 256 -> c <> 8 -> c <> 10 -> -2 <= width (kg s) <= 1260 ->
  0 <= height (kg s) -> height (kg s) + 16 <= H ->
  exists m', kb_drawtext s c = Ok (set_kg s (mk_gst m' (width (kg s) + 16) (height (kg s)))) /\
    vmem_ok m' H /\
    (forall x y, 0 <= x < 1280 -> pixel_at m' x y =
      if glyph_pixel c (x - width (kg s)) (y - height (kg s)) then map Some (pixel 255 255 255)
      else pixel_at (gmem (kg s)) x y).
Proof.
  intros Hm Hc H8 H10 Hw Hh HH.
  assert (Hcs : cell_start (kg s) = (width (kg s), height (kg s)))
    by (unfold cell_start; rewrite (proj2 (Z.ltb_ge 1260 (width (kg s)))) by lia; done).
  destruct (drawtext_char_ok H (kg s) c Hm Hc H8 H10) as (m' & Ed & Hm' & Hp & _);
    [lia..|rewrite Hcs; simpl; lia|].
  rewrite Hcs in Ed, Hp. exists m'. split; [by apply kb_drawtext_ok|]. by split.
Qed.

Lemma draw_caret_ok H s :
  vmem_ok (gmem (kg s)) H -> 0 <= width (kg s) <= 1262 ->
  0 <= height (kg s) -> height (kg s) + 16 <= H ->
  exists m', draw_caret s = Ok (set_kg s (mk_gst m' (width (kg s) + 16) (height (kg s)))) /\
    vmem_ok m' H /\
    (forall x y, 0 <= x < 1280 -> pixel_at m' x y =
      if glyph_pixel 95 (x - (width (kg s) - 2)) (y - height (kg s)) then map Some (pixel 255 255 255)
      else pixel_at (gmem (kg s)) x y).
Proof.
  intros Hm Hw Hh HH. unfold draw_caret, move_cursor.
  rewrite int32_ok by lia. cbn [mbind res_bind].
  destruct (kb_char_ok H (set_kg s (set_cursor (kg s) (width (kg s) + -2) (height (kg s)))) 95)
    as (m' & -> & Hm' & Hp); try done; try (simpl; lia).
  cbn [mbind res_bind kg set_kg width height set_cursor gmem inp cntr kdev].
  rewrite int32_ok by lia. exists m'. cbn [mbind res_bind]. unfold set_cursor. cbn [gmem].
  split; [|done]. replace (width (kg s) + -2 + 16 + 2) with (width (kg s) + 16) by lia. done.
Qed.

(** *** The echo of a line *)
Definition printable (c : Z) : Prop := 0 <= c < 256 /\ c <> 8 /\ c <> 10.

(** The column after a character, and whether it can be drawn in this line. *)
Definition advance (w c : Z) : Z := if c =? 8 then w - 16 else w + 16.

Definition fits (w c : Z) : bool :=
  (0 <=? c) && (c <? 256) && negb (c =? 10) && (w <=? 1260) && ((if c =? 8 then 16 else 0) <=? w).

Definition echo_column (w : Z) (l : list Z) : Z := fold_left advance l w.

Fixpoint echo_fits (w : Z) (l : list Z) : bool :=
  match l with
  | [] => true
  | c :: l' => fits w c && echo_fits (advance w c) l'
  end.

Lemma printable_echo l : forall w, Forall printable l -> 0 <= w -> w + 16 * Z.of_nat (length l) <= 1276 ->
  echo_fits w l = true /\ echo_column w l = w + 16 * Z.of_nat (length l).
Proof.
  induction l as [|c l IH]; intros w Hl Hw Hb; [split; [done|simpl; lia]|].
  apply list.Forall_cons in Hl as [(Hr & H8 & H10) Hl]. cbn [length] in Hb.
  assert (Ea : advance w c = w + 16) by (unfold advance; by rewrite (proj2 (Z.eqb_neq c 8))).
  cbn [echo_fits echo_column fold_left]. rewrite Ea. fold (echo_column (w + 16) l).
  destruct (IH (w + 16) Hl) as [-> ->]; [lia..|]. rewrite andb_true_r. cbn [length].
  split; [|lia]. unfold fits. rewrite (proj2 (Z.eqb_neq c 8)), (proj2 (Z.eqb_neq c 10)) by done. by zbool.
Qed.

(** What the console output cannot disturb. *)
Definition echo_keeps (P : D -> Prop) : Prop :=
  (forall c d, P d -> P (putcc c d)) /\ (forall t d, P d -> P (_printf t d)) /\
  (forall l n d, P d -> P (printsss l n d)).

(** Any character but a new line, drawn where it fits. *)
Lemma kb_draw_ok H s c :
  vmem_ok (gmem (kg s)) H -> fits (width (kg s)) c = true ->
  0 <= height (kg s) -> height (kg s) + 16 <= H ->
  exists m', kb_drawtext s c = Ok (set_kg s (mk_gst m' (advance (width (kg s)) c) (height (kg s)))) /\
    vmem_ok m' H.
Proof.
  intros Hm Hf Hh HH. unfold fits in Hf.
  rewrite !andb_true_iff, negb_true_iff, !Z.leb_le, Z.ltb_lt, Z.eqb_neq in Hf.
  revert Hf. unfold advance. destruct (Z.eqb_spec c 8) as [->|H8]; intros Hf.
  - eexists. split; [apply kb_drawtext_ok, (drawtext_backspace_ok H); done || lia|]. by apply vmem_plot.
  - destruct (kb_char_ok H s c) as (m' & -> & Hm' & _); [done|lia..|]. by exists m'.
Qed.

Lemma echo_loop H l : forall k s,
  vmem_ok (gmem (kg s)) H -> 0 <= k -> 0 <= height (kg s) -> height (kg s) + 16 <= H ->
  echo_fits (width (kg s)) l = true ->
  (forall i c, l !! i = Some c -> inp s !! (Z.to_nat k + i)%nat = Some c) ->
  exists g d, for_loop (length l) k echo_char s = Ok (mk_kb g (inp s) (cntr s) d) /\
    vmem_ok (gmem g) H /\ width g = echo_column (width (kg s)) l /\ height g = height (kg s) /\
    (forall P, echo_keeps P -> P (kdev s) -> P d).
Proof.
  induction l as [|c l IH]; intros k s Hm Hk Hh HH Hf Hc.
  - exists (kg s), (kdev s). split; [by destruct s|]. split; [done|]. split; [done|]. by split.
  - cbn [echo_fits] in Hf. apply andb_prop in Hf as [Hf Hf']. cbn [length for_loop].
    assert (exists m' d', echo_char k s =
        Ok (mk_kb (mk_gst m' (advance (width (kg s)) c) (height (kg s))) (inp s) (cntr s) d') /\
        vmem_ok m' H /\ (forall P, echo_keeps P -> P (kdev s) -> P d')) as (m' & d' & -> & Hm' & HP).
    { unfold echo_char. rewrite (inp_get_ok s k c) by (try rewrite <- (Hc O c eq_refl); f_equal; lia).
      cbn [mbind res_bind]. destruct (kb_draw_ok H s c) as (m' & -> & Hm'); [done..|].
      eexists m', _. split; [reflexivity|]. split; [done|].
      intros P (H1 & H2 & H3) HP. by apply H3, H2, H1. }
    cbn [mbind res_bind].
    destruct (IH (k + 1) (mk_kb (mk_gst m' (advance (width (kg s)) c) (height (kg s))) (inp s) (cntr s) d'))
      as (g & d & -> & Hg & Wg & Hhg & HP'); cbn [kg gmem width height inp cntr]; try done; try lia.
    + intros i c' Hi. rewrite <- (Hc (S i) c' Hi). f_equal. lia.
    + exists g, d. repeat (split; [done|]). intros P H1 H2. by apply HP', HP.
Qed.

Lemma clear_inp_ok s :
  0 <= cntr s <= Z.of_nat (length (inp s)) ->
  clear_inp s = Ok (set_inp s (replicate (Z.to_nat (cntr s)) 0 ++ drop (Z.to_nat (cntr s)) (inp s))).
Proof.
  intros Hc. unfold clear_inp.
  destruct (for_range_inv (fun i s' =>
    s' = set_inp s (replicate (Z.to_nat i) 0 ++ drop (Z.to_nat i) (inp s)) /\ 0 <= i)
    (fun l s => inp_put s l 0) 0 (cntr s) s) as (s' & -> & -> & _); [lia| | |done].
  - split; [by destruct s|lia].
  - intros j s' Hj [-> Hj0]. rewrite inp_put_ok.
    2: { simpl. rewrite length_app, length_replicate, length_drop. lia. }
    eexists. split; [done|]. split; [|lia]. simpl. unfold set_inp. simpl. f_equal.
    destruct (lookup_lt_is_Some_2 (inp s) (Z.to_nat j)) as [c Hcj]; [lia|].
    rewrite (drop_S _ _ _ Hcj). replace (Z.to_nat (j + 1)) with (S (Z.to_nat j)) by lia.
    rewrite insert_app_r_alt, length_replicate, Nat.sub_diag by (rewrite length_replicate; lia).
    rewrite replicate_S_end, <- app_assoc. done.
Qed.

Lemma make_code buf : 0 <= buf < 128 -> Z.land buf 0x80 = 0.
Proof.
  intros Hb. apply Z.eqb_eq. change 0x80 with (Z.shiftl 1 7).
  rewrite land_bit_zero by lia. by rewrite (testbit_above 7 buf 7) by lia.
Qed.

Lemma kb_ok_blanked H s room : kb_ok H s room ->
  vmem_ok (gmem (kg (caret_blanked s))) H /\ width (kg (caret_blanked s)) = width (kg s) - 16 /\
  height (kg (caret_blanked s)) = height (kg s).
Proof. intros (Hm & _). split; [by apply vmem_plot|done]. Qed.

Lemma drawtext_enter_ok H g :
  vmem_ok (gmem g) H -> 0 <= width g <= 1260 -> 0 <= height g -> height g + 16 <= H ->
  exists m', drawtext g 10 = Ok (mk_gst m' 0 (height g + 16)) /\ vmem_ok m' H.
Proof.
  intros Hm Hw Hh HH. pose proof Hm as [_ HHr]. unfold drawtext. rewrite wrap_cursor_ok by lia.
  unfold cell_start. rewrite (proj2 (Z.ltb_ge 1260 (width g))) by lia. cbn [mbind res_bind fst snd].
  change (10 =? -1) with false. change (10 =? 10) with true. cbn match.
  rewrite (drawtext_blank_ok H) by done. cbn [mbind res_bind height width gmem].
  rewrite int32_ok by lia. eexists. split; [reflexivity|]. by apply vmem_plot.
Qed.

(** *** A key press *)

(** A key that types a character. *)
Lemma key_types H s buf :
  let c := kbdus buf in let b := line_step (inp s, cntr s) c in
  kb_ok H s 0 -> cntr s < inp_size -> fits (width (kg s) - 16) c = true ->
  exists m', key_pressed s buf =
      Ok (mk_kb (mk_gst m' (advance (width (kg s)) c) (height (kg s))) b.1 b.2 (putcc c (kdev s))) /\
    vmem_ok m' H /\
    (c <> 8 -> forall x y, 0 <= x < 1280 -> pixel_at m' x y =
      if glyph_pixel 95 (x - (width (kg s) - 2)) (y - height (kg s)) ||
         glyph_pixel c (x - (width (kg s) - 16)) (y - height (kg s))
      then map Some (pixel 255 255 255)
      else if (width (kg s) - 16 <=? x) && (x <? width (kg s)) &&
              (height (kg s) <=? y) && (y <? height (kg s) + 16)
      then map Some (pixel 0 0 0) else pixel_at (gmem (kg s)) x y).
Proof.
  intros c b Hk Hc Hf. rewrite (key_pressed_start H) by done.
  destruct (kb_ok_blanked H s 0 Hk) as (Hm & Hw & Hh).
  destruct Hk as (_ & Hw1 & Hw2 & Hh1 & HH & Hl & Hc0). unfold inp_size in Hl, Hc.
  rewrite inp_put_ok by (simpl; lia). cbn [mbind res_bind]. fold c.
  rewrite (inp_get_ok _ _ c); [|simpl; lia|simpl; apply list_lookup_insert_eq; lia].
  cbn [mbind res_bind]. set (s1 := set_kdev (set_inp (caret_blanked s) _) _).
  assert (N : c <> 10 /\ 0 <= c < 256 /\ -16 <= advance (width (kg s) - 16) c <= 1260 /\
    (c = 8 -> 32 <= width (kg s))).
  { revert Hf. unfold fits, advance. rewrite !andb_true_iff, negb_true_iff, !Z.leb_le, Z.ltb_lt, Z.eqb_neq.
    destruct (Z.eqb_spec c 8); lia. }
  destruct N as (N & Nr & Nw & N8).
  destruct (kb_draw_ok H s1 c Hm Hf Hh1 HH) as (m1 & Ed & Hm1). rewrite Ed.
  cbn [mbind res_bind]. rewrite (proj2 (Z.eqb_neq c 10)) by done. cbn [mbind res_bind].
  set (s2 := set_cntr (set_kg s1 _) _).
  assert (W2 : width (kg s2) = advance (width (kg s) - 16) c) by done.
  destruct (draw_caret_ok H s2) as (m2 & -> & Hm2 & Hp2); [done| |done..|].
  { rewrite W2. revert Hf Nw. unfold fits, advance.
    rewrite !andb_true_iff, !Z.leb_le. destruct (Z.eqb_spec c 8); lia. }
  exists m2. split; [|split; [done|]].
  - unfold b, line_step, s2, s1. cbn [fst snd]. rewrite (proj2 (Z.eqb_neq c 10)) by done.
    unfold set_kdev, set_cntr, set_kg. simpl. do 3 f_equal. unfold advance. destruct (c =? 8); lia.
  - intros H8 x y Hx. rewrite Hp2, W2 by done. unfold advance. rewrite (proj2 (Z.eqb_neq c 8)) by done.
    unfold s2, s1. cbn [kg set_cntr set_kg width height gmem set_kdev set_inp caret_blanked].
    replace (width (kg s) - 16 + 16 - 2) with (width (kg s) - 2) by lia.
    destruct (glyph_pixel 95 _ _); [done|]. simpl orb.
    destruct (kb_char_ok H s1 c) as (m1' & Ed' & _ & Hp1); try done; try (simpl; lia).
    rewrite Ed in Ed'. injection Ed' as <- _. rewrite Hp1 by done.
    unfold s1. cbn [kg set_kdev set_inp caret_blanked set_kg gmem width height].
    destruct (glyph_pixel c _ _); [done|].
    rewrite pixel_rect by lia. by replace (width (kg s) - 16 + 16) with (width (kg s)) by lia.
Qed.

(** The state in which the line is examined. *)
Lemma enter_start H s buf :
  let line := take (Z.to_nat (cntr s)) (inp s) in
  kb_ok H s 0 -> height (kg s) + 32 <= H -> cntr s < inp_size -> kbdus buf = 10 -> echo_fits 0 line = true ->
  exists g d, key_pressed s buf =
      (s2 ← run_line (mk_kb g (<[Z.to_nat (cntr s) := 10]> (inp s)) (cntr s) d);
       draw_caret (set_cntr s2 0)) /\
    vmem_ok (gmem g) H /\ width g = echo_column 0 line /\ height g = height (kg s) + 16 /\
    (forall P, echo_keeps P -> P (kdev s) -> P d).
Proof.
  intros line Hk HH2 Hc Hbuf Hp. rewrite (key_pressed_start H) by done.
  destruct (kb_ok_blanked H s 0 Hk) as (Hm & Hw & Hh).
  destruct Hk as (_ & Hw1 & Hw2 & Hh1 & HH & Hl & Hc0). unfold inp_size in Hl, Hc.
  rewrite inp_put_ok by (simpl; lia). cbn [mbind res_bind]. rewrite Hbuf.
  rewrite (inp_get_ok _ _ 10); [|simpl; lia|simpl; apply list_lookup_insert_eq; lia].
  cbn [mbind res_bind].
  destruct (drawtext_enter_ok H (kg (caret_blanked s)) Hm) as (m' & Ed & Hm'); [lia..|].
  set (s1 := set_kdev (set_inp (caret_blanked s) _) _).
  rewrite (kb_drawtext_ok s1 10 _ Ed). cbn [mbind res_bind]. change (10 =? 10) with true. cbn match.
  set (s2 := set_kdev (set_kg s1 _) _).
  assert (Ln : Z.of_nat (length line) = cntr s) by (unfold line; rewrite length_take; lia).
  destruct (echo_loop H line 0 s2) as (g & d & Ee & Hg & Wg & Hgh & HP);
    cbn [kg s2 set_kdev set_kg gmem width height]; try done; try lia.
  - intros i c Hi. pose proof (lookup_lt_Some _ _ _ Hi) as Hi'. simpl.
    rewrite list_lookup_insert_ne by (unfold line in Hi'; rewrite length_take in Hi'; lia).
    unfold line in Hi. by apply lookup_take_Some in Hi as [Hi _].
  - assert (echo_line s2 = Ok (mk_kb g (inp s2) (cntr s2) d)) as ->.
    { unfold echo_line, for_range. rewrite Z.sub_0_r.
      replace (Z.to_nat (cntr s2)) with (length line) by (simpl; lia). exact Ee. }
    exists g, d. split; [|split; [done|split; [exact Wg|split]]].
    + cbn [mbind res_bind]. by destruct (run_line _).
    + rewrite Hgh. done.
    + intros P H1 H2. apply HP; [done|]. destruct H1 as (A1 & A2 & _). by apply A2, A1.
Qed.

(** A line that is no command is cleared. *)
Lemma key_enters H s buf :
  let line := take (Z.to_nat (cntr s)) (inp s) in
  let l := <[Z.to_nat (cntr s) := 10]> (inp s) in
  kb_ok H s 0 -> height (kg s) + 32 <= H -> cntr s < inp_size -> kbdus buf = 10 ->
  echo_fits 0 line = true -> 0 <= echo_column 0 line <= 1262 ->
  strcmp_eq dir l = Ok false -> strcmp_eq demo l = Ok false ->
  exists m' d, key_pressed s buf =
      Ok (mk_kb (mk_gst m' (echo_column 0 line + 16) (height (kg s) + 16)) (line_step (inp s, cntr s) 10).1 0 d) /\
    vmem_ok m' H /\ (forall P, echo_keeps P -> P (kdev s) -> P d).
Proof.
  intros line l Hk HH2 Hc Hbuf Hf He Hdir Hdemo.
  destruct (enter_start H s buf Hk HH2 Hc Hbuf Hf) as (g & d & -> & Hm & Wg & Hg & HP).
  fold line in Wg. fold l. unfold run_line. cbn [inp]. rewrite Hdir, Hdemo. cbn [mbind res_bind].
  destruct Hk as (_ & _ & _ & Hh & _ & Hl & Hc0). unfold inp_size in Hl, Hc.
  rewrite clear_inp_ok by (simpl; unfold l; rewrite length_insert; lia). cbn [mbind res_bind].
  match goal with |- context [draw_caret ?s2] =>
    destruct (draw_caret_ok H s2) as (m' & -> & Hm' & _); [exact Hm|simpl; lia..|] end.
  exists m', d. split; [|done]. cbn [mbind res_bind set_kdev set_kg set_cntr set_inp kg inp cntr kdev].
  by rewrite Wg, Hg.
Qed.

(** The line discipline on a line without Enter, and on its end. *)
Lemma line_keys_typed cs : forall l n,
  Forall (fun c => c <> 10) cs -> (n + length cs <= length l)%nat ->
  line_keys (l, Z.of_nat n) cs =
    (take n l ++ cs ++ drop (n + length cs) l, Z.of_nat (n + length cs)).
Proof.
  induction cs as [|c cs IH]; intros l n Hcs Hn.
  { simpl. by rewrite Nat.add_0_r, take_drop. }
  apply list.Forall_cons in Hcs as [Hc Hcs]. simpl length in *.
  change (line_keys (l, Z.of_nat n) (c :: cs)) with
    (line_keys (line_step (l, Z.of_nat n) c) cs).
  unfold line_step. cbn [fst snd]. rewrite (proj2 (Z.eqb_neq c 10) Hc), Nat2Z.id.
  replace (Z.of_nat n + 1) with (Z.of_nat (S n)) by lia.
  rewrite IH by (rewrite ?length_insert; done || lia). f_equal; [|lia].
  rewrite (take_S_r _ _ c) by (apply list_lookup_insert_eq; lia).
  rewrite take_insert_ge, <- app_assoc, drop_insert_lt by lia. simpl.
  by replace (S (n + length cs)) with (n + S (length cs))%nat by lia.
Qed.

Lemma line_keys_app b cs cs' : line_keys b (cs ++ cs') = line_keys (line_keys b cs) cs'.
Proof. apply fold_left_app. Qed.

(** A finished first line leaves its new line alone in the empty buffer. *)
Lemma first_line w :
  (length w <= 99)%nat -> Forall (fun c => c <> 10) w ->
  line_keys (replicate 100 0, 0) (w ++ [10]) = (<[length w := 10]> (replicate 100 0), 0).
Proof.
  intros Hk Hw. rewrite line_keys_app. change 0 with (Z.of_nat 0) at 2.
  rewrite line_keys_typed by (rewrite ?length_replicate; done || lia).
  cbn [line_keys fold_left take Nat.add app]. unfold line_step. cbn [fst snd].
  change (10 =? 10) with true. cbn match. rewrite Nat2Z.id. f_equal.
  change (take 0 (replicate 100 0)) with (@nil Z). cbn [app].
  rewrite insert_app_r_alt, Nat.sub_diag, drop_app_length, drop_replicate by lia.
  replace (100 - length w)%nat with (S (99 - length w)) by lia. simpl replicate at 2.
  cbn [insert list_insert].
  rewrite (insert_take_drop (replicate 100 0)) by (rewrite length_replicate; lia).
  rewrite take_replicate, drop_replicate, Nat.min_l by lia. done.
Qed.

(** Whether ["dir"] and ["demo"] are recognised, for every place of the old new line. *)
Lemma commands_after : forall k, (k <= 98)%nat ->
  let b := (<[k := 10]> (replicate 100 0), 0) in
  let after cs := let b' := line_keys b cs in <[Z.to_nat b'.2 := 10]> b'.1 in
  strcmp_eq dir (after (str_bytes "dir")) = Ok (negb (k =? 4)%nat) /\
  strcmp_eq demo (after (str_bytes "demo")) = Ok (negb (k =? 5)%nat).
Proof.
  assert (Hall : forallb (fun k =>
    let b := (<[k := 10]> (replicate 100 0), 0) in
    let after cs := let b' := line_keys b cs in <[Z.to_nat b'.2 := 10]> b'.1 in
    bool_decide (strcmp_eq dir (after (str_bytes "dir")) = Ok (negb (k =? 4)%nat)) &&
    bool_decide (strcmp_eq demo (after (str_bytes "demo")) = Ok (negb (k =? 5)%nat))) (seq 0 99) = true)
    by (vm_compute; reflexivity).
  intros k Hk b after. rewrite forallb_forall in Hall. specialize (Hall k ltac:(apply in_seq; lia)).
  apply andb_prop in Hall as [H1 H2]. split.
  - exact (bool_decide_eq_true_1 _ H1).
  - exact (bool_decide_eq_true_1 _ H2).
Qed.

(** ** Properties *)

(** C15. A key that types a character, on a line with room, stores its code and
    moves on as the line discipline says, echoes it to the console, draws it over
    the cursor's cell with the new cursor after it, and acknowledges the
    interrupt. *)
Theorem isr_keyb_types_character (s : kb) (H buf : Z) (d : D) :
  inb 0x60 (kdev s) = (buf, d) -> 0 <= buf < 128 -> kbdus buf <> 8 -> kbdus buf <> 10 ->
  kb_ok H s 0 -> cntr s < inp_size ->
  let c := kbdus buf in let b := line_step (inp s, cntr s) c in
  exists m', isr_keyb s =
      Ok (mk_kb (mk_gst m' (width (kg s) + 16) (height (kg s))) b.1 b.2 (outb 0x20 0x20 (putcc c d))) /\
    forall x y, 0 <= x < 1280 -> pixel_at m' x y =
      if glyph_pixel 95 (x - (width (kg s) - 2)) (y - height (kg s)) ||
         glyph_pixel c (x - (width (kg s) - 16)) (y - height (kg s))
      then map Some (pixel 255 255 255)
      else if (width (kg s) - 16 <=? x) && (x <? width (kg s)) &&
              (height (kg s) <=? y) && (y <? height (kg s) + 16)
      then map Some (pixel 0 0 0) else pixel_at (gmem (kg s)) x y.
Proof.
  intros Hin Hb H8 H10 Hk Hc c b. pose proof (kbdus_range buf) as Hr. fold c in H8, H10, Hr.
  unfold isr_keyb. rewrite Hin, (make_code buf Hb). change (0 =? 0) with true. cbn match.
  pose proof Hk as (_ & Hw1 & Hw2 & _).
  destruct (key_types H (set_kdev s d) buf) as (m' & -> & _ & Hp); [exact Hk|exact Hc| |].
  { unfold fits. fold c. rewrite (proj2 (Z.eqb_neq c 8)), (proj2 (Z.eqb_neq c 10)) by done.
    cbn [kg set_kdev]. by zbool. }
  exists m'. split; [|by apply Hp]. cbn [mbind res_bind]. fold c. unfold advance.
  by rewrite (proj2 (Z.eqb_neq c 8)).
Qed.

(** The Enter key decides the command by comparing the whole buffer, the new
    line included, with ["dir\n"] and ["demo\n"]; any other line is echoed, its
    bytes before the new line are cleared and the counter returns to 0, the cursor
    standing after the echo on the next line. *)
Theorem isr_keyb_enter (s : kb) (H buf : Z) (d : D) :
  inb 0x60 (kdev s) = (buf, d) -> 0 <= buf < 128 -> kbdus buf = 10 ->
  kb_ok H s 0 -> height (kg s) + 32 <= H -> cntr s <= 78 ->
  Forall printable (take (Z.to_nat (cntr s)) (inp s)) ->
  let l := <[Z.to_nat (cntr s) := 10]> (inp s) in
  exists g d1, let s1 := mk_kb g l (cntr s) d1 in
    let finish s2 := (s3 ← draw_caret (set_cntr s2 0); Ok (set_kdev s3 (outb 0x20 0x20 (kdev s3)))) in
    (strcmp_eq dir l = Ok true -> isr_keyb s = (s2 ← run_dir s1; finish s2)) /\
    (strcmp_eq dir l = Ok false -> strcmp_eq demo l = Ok true ->
       isr_keyb s = (s2 ← run_demo s1; finish s2)) /\
    (strcmp_eq dir l = Ok false -> strcmp_eq demo l = Ok false ->
       exists m' d', isr_keyb s =
         Ok (mk_kb (mk_gst m' (16 * cntr s + 16) (height (kg s) + 16))
               (line_step (inp s, cntr s) 10).1 0 d')).
Proof.
  intros Hin Hb Hbuf Hk HH Hc Hp l. unfold isr_keyb. rewrite Hin, (make_code buf Hb).
  change (0 =? 0) with true. cbn match. pose proof Hk as (_ & _ & _ & _ & _ & Hl & Hc0).
  unfold inp_size in Hl.
  assert (Ln : Z.of_nat (length (take (Z.to_nat (cntr s)) (inp s))) = cntr s) by (rewrite length_take; lia).
  destruct (printable_echo _ 0 Hp) as [Hf He]; [lia..|]. rewrite Ln in He.
  destruct (enter_start H (set_kdev s d) buf Hk HH) as (g & d1 & Ek & _); [simpl; unfold inp_size; lia|done..|].
  exists g, d1. cbv zeta. unfold run_line in Ek. cbn [set_kdev inp cntr kg] in Ek. fold l in Ek.
  split; [|split].
  - intros Hd. rewrite Ek, Hd. cbn [mbind res_bind]. by destruct (run_dir _).
  - intros Hd Hm. rewrite Ek, Hd, Hm. cbn [mbind res_bind]. by destruct (run_demo _).
  - intros Hd Hm.
    destruct (key_enters H (set_kdev s d) buf Hk HH) as (m' & d' & -> & _ & _);
      cbn [set_kdev inp cntr kg]; try done; [unfold inp_size; lia|lia|].
    exists m'. eexists. cbn [mbind res_bind]. cbn [set_kdev kg inp cntr kdev]. rewrite He. reflexivity.
Qed.

(** Nothing bounds the counter: with the buffer full, the next key press stores
    outside it, whatever the key. *)
Theorem isr_keyb_overflow (s : kb) (H buf : Z) (d : D) :
  inb 0x60 (kdev s) = (buf, d) -> 0 <= buf < 128 -> kb_ok H s 0 -> inp_size <= cntr s ->
  isr_keyb s = Undef.
Proof.
  intros Hin Hb Hk Hc. unfold isr_keyb. rewrite Hin, (make_code buf Hb).
  change (0 =? 0) with true. cbn match. rewrite (key_pressed_start H) by exact Hk.
  destruct Hk as (_ & _ & _ & _ & _ & Hl & _). unfold inp_put.
  rewrite (proj2 (Z.ltb_ge (cntr _) _)) by (simpl; lia). by rewrite andb_false_r.
Qed.

(** The new line of a finished line stays in the buffer.  On a buffer that starts
    empty, a line of [k] characters and then ["dir"] is recognised as the
    command unless [k] is 4, and ["demo"] unless [k] is 5: then the old new line
    stands where the end of the string should be. *)
Theorem stale_newline_hides_command (w : list Z) :
  let k := length w in
  (k <= 98)%nat -> Forall (fun c => c <> 10) w ->
  let b := line_keys (replicate 100 0, 0) (w ++ [10]) in
  let after cs := let b' := line_keys b cs in <[Z.to_nat b'.2 := 10]> b'.1 in
  b.2 = 0 /\
  strcmp_eq dir (after (str_bytes "dir")) = Ok (negb (k =? 4)%nat) /\
  strcmp_eq demo (after (str_bytes "demo")) = Ok (negb (k =? 5)%nat).
Proof.
  intros k Hk Hw b after. unfold b, k in *. rewrite first_line by (done || lia).
  split; [done|]. unfold after, b. rewrite first_line by (done || lia). by apply commands_after.
Qed.

End Keyboard.

(** ** Witnesses *)

(** A keyboard with a queue of scan codes; the log takes acknowledgements and
    console characters.  The FAT library finds nothing. *)
Record demo_kbd := mk_kbd { scancodes : list Z; klog : list Z; kacks : nat }.

#[export] Instance demo_kbd_ports : PortIO demo_kbd := {|
  inb port d := match scancodes d with c :: r => (c, mk_kbd r (klog d) (kacks d)) | [] => (0x80, d) end;
  outb port v d := mk_kbd (scancodes d) (klog d ++ [v]) (S (kacks d));
  inw _ d := (0, d);
  outw _ _ d := d
|}.

#[export] Instance demo_keyb_env : KeybEnv (D := demo_kbd) := {|
  putcc c d := mk_kbd (scancodes d) (klog d ++ [c]) (kacks d);
  _printf _ d := d;
  printsss _ _ d := d;
  d_printss _ x := x;
  d_printhex _ _ x := x;
  d_print_disk _ x := x;
  strcpy_disk _ x := x;
  memset_disk _ _ x := x;
  dir_entry := unit;
  GET_CLUSTER_FROM_ENTRY _ := 2;
  getFile _ x := (([], tt), x);
  directoryList _ x := x;
  sectors_per_cluster _ := 8;
  allocateFreeFAT x := (5, x);
  FATRead _ x := (0, x);
  FATWrite _ _ x := (0, x);
  FREE_CLUSTER_32 := 0;
  clusterRead _ _ x := x;
  clusterWrite _ _ _ x := x;
  convertToFATFormat s := (s, s);
  testIfFATFormat _ := 0;
  convertFromFATFormat s := s
|}.

(** The state after boot: an empty line on line 35, the next key [code]. *)
Definition demo_kb (l : list Z) (n code : Z) : kb :=
  mk_kb (mk_gst (demo_vmem 1024) 16 35) l n (mk_kbd [code] [] 0).

Lemma demo_kb_ok l n code :
  Z.of_nat (length l) = 100 -> 0 <= n -> kb_ok 1024 (demo_kb l n code) 0.
Proof. intros Hl Hn. split; [apply demo_vmem_ok; lia|]. simpl. unfold inp_size. lia. Qed.

Definition empty_inp : list Z := replicate 100 0.

(** Scan code 32 is ["d"]. *)
Lemma isr_keyb_types_character_witness :
  exists s', isr_keyb (demo_kb empty_inp 0 32) = Ok s' /\
    inp s' = 100 :: replicate 99 0 /\ cntr s' = 1 /\ klog (kdev s') = [100; 0x20].
Proof.
  destruct (isr_keyb_types_character (demo_kb empty_inp 0 32) 1024 32 (mk_kbd [] [] 0))
    as (m' & E & _); [reflexivity|lia|discriminate|discriminate|apply demo_kb_ok; done|done|].
  eexists. split; [exact E|]. split; [reflexivity|]. split; reflexivity.
Defined.

(** Enter (scan code 28) after ["ab"]. *)
Lemma isr_keyb_enter_witness :
  exists s', isr_keyb (demo_kb (97 :: 98 :: replicate 98 0) 2 28) = Ok s' /\
    inp s' = 0 :: 0 :: 10 :: replicate 97 0 /\ cntr s' = 0.
Proof.
  destruct (isr_keyb_enter (demo_kb (97 :: 98 :: replicate 98 0) 2 28) 1024 28 (mk_kbd [] [] 0))
    as (g & d1 & _ & _ & H); try done; try (simpl; lia).
  - apply demo_kb_ok; done.
  - change (take _ _) with [97; 98]. repeat constructor; lia.
  - destruct (H eq_refl eq_refl) as (m' & d' & E).
    eexists. split; [exact E|]. split; reflexivity.
Defined.

Lemma isr_keyb_overflow_witness : isr_keyb (demo_kb empty_inp 100 32) = Undef.
Proof.
  apply (isr_keyb_overflow (demo_kb empty_inp 100 32) 1024 32 (mk_kbd [] [] 0));
    [reflexivity|lia|apply demo_kb_ok; done|reflexivity].
Defined.

(** After ["help"] the command ["dir"] is not recognised; after ["hi"] it is. *)
Lemma stale_newline_hides_command_witness :
  let after w := let b := line_keys (line_keys (replicate 100 0, 0) (w ++ [10])) (str_bytes "dir") in
    <[Z.to_nat b.2 := 10]> b.1 in
  strcmp_eq dir (after (str_bytes "help")) = Ok false /\ strcmp_eq dir (after (str_bytes "hi")) = Ok true.
Proof.
  split.
  - apply (stale_newline_hides_command (str_bytes "help")).
    + vm_compute. lia.
    + repeat constructor; vm_compute; discriminate.
  - apply (stale_newline_hides_command (str_bytes "hi")).
    + vm_compute. lia.
    + repeat constructor; vm_compute; discriminate.
Defined.
