(* ===== verification/Typing.v ===== *)
(** A typing session: the keyboard interrupts of [kernel_main.c] one after the other.

    The specification [editor] is a line buffer with its counter and the cell of
    the text cursor; a scan code moves it by [press].  [QueuedKeyboard] is what
    [isr_keyb] relies on of the hardware: port 0x60 hands out the scan codes in
    order, and each write of 0x20 to port 0x20 is an end of interrupt. *)

From S2P Require Import Prelude Mem Ports Graphics Keyboard.

Section Typing.
Context {D : Type} `{!PortIO D, E : !KeybEnv (D := D)}.

Class QueuedKeyboard := {
  pending : D -> list Z;
  acks : D -> nat;
  next_code d c r : pending d = c :: r ->
    (inb 0x60 d).1 = c /\ pending (inb 0x60 d).2 = r /\ acks (inb 0x60 d).2 = acks d;
  acknowledge d : pending (outb 0x20 0x20 d) = pending d /\ acks (outb 0x20 0x20 d) = S (acks d);
  (** The console does not touch the keyboard or the interrupt controller. *)
  putcc_quiet c d : pending (putcc c d) = pending d /\ acks (putcc c d) = acks d;
  printf_quiet t d : pending (_printf t d) = pending d /\ acks (_printf t d) = acks d;
  printsss_quiet l n d : pending (printsss l n d) = pending d /\ acks (printsss l n d) = acks d
}.
Context {Q : QueuedKeyboard}.

(** ** The specification *)
Record editor := mk_editor { buffer : list Z; count : Z; column : Z; row : Z }.

Definition released (code : Z) : bool := negb (Z.land code 0x80 =? 0).

(** The line that is typed, without what follows it in the buffer. *)
Definition line_of (e : editor) : list Z := take (Z.to_nat (count e)) (buffer e).

Definition press (e : editor) (code : Z) : editor :=
  if released code then e
  else
    let c := kbdus code in
    let b := line_step (buffer e, count e) c in
    if c =? 10 then mk_editor b.1 b.2 (echo_column 0 (line_of e) + 16) (row e + 16)
    else mk_editor b.1 b.2 (advance (column e) c) (row e).

Definition is_ok_false (r : res bool) : bool := match r with Ok false => true | _ => false end.

(** The line with its new line is no command. *)
Definition ordinary (e : editor) : bool :=
  let l := <[Z.to_nat (count e) := 10]> (buffer e) in
  is_ok_false (strcmp_eq dir l) && is_ok_false (strcmp_eq demo l).

(** The key stays inside the buffer and on a screen of [H] lines. *)
Definition can_press (H : Z) (e : editor) (code : Z) : bool :=
  released code ||
  (let c := kbdus code in
   (0 <=? code) && (code <? 128) && (column e <=? 1260) && (count e <? inp_size) &&
   (if c =? 10 then
      (row e + 32 <=? H) && echo_fits 0 (line_of e) && (0 <=? echo_column 0 (line_of e)) &&
      (echo_column 0 (line_of e) <=? 1260) && ordinary e
    else fits (column e - 16) c)).

Fixpoint can_type (H : Z) (e : editor) (codes : list Z) : bool :=
  match codes with
  | [] => true
  | code :: codes' => can_press H e code && can_type H (press e code) codes'
  end.

(** ** The implementation *)

(** [n] keyboard interrupts. *)
Fixpoint interrupts (n : nat) (s : kb) : res (kb (D := D)) :=
  match n with
  | O => Ok s
  | S n' => s ← isr_keyb s; interrupts n' s
  end.

Definition editor_of (s : kb (D := D)) : editor :=
  mk_editor (inp s) (cntr s) (width (kg s)) (height (kg s)).

Definition keyb_inv (H : Z) (s : kb (D := D)) : Prop :=
  vmem_ok (gmem (kg s)) H /\ 16 <= width (kg s) /\ 0 <= height (kg s) /\ height (kg s) + 16 <= H /\
  Z.of_nat (length (inp s)) = inp_size /\ 0 <= cntr s.

(** ** Lemmas *)
Definition quiet (r : list Z) (a : nat) (d : D) : Prop := pending d = r /\ acks d = a.

Lemma echo_keeps_quiet r a : echo_keeps (quiet r a).
Proof.
  unfold quiet. split; [|split].
  - intros c d [<- <-]. apply putcc_quiet.
  - intros t d [<- <-]. apply printf_quiet.
  - intros l n d [<- <-]. apply printsss_quiet.
Qed.

Lemma line_step_length (b : list Z * Z) c :
  0 <= b.2 < Z.of_nat (length b.1) ->
  length (line_step b c).1 = length b.1 /\ 0 <= (line_step b c).2.
Proof.
  intros Hb. unfold line_step. destruct (c =? 10); cbn [fst snd].
  - split; [|lia]. rewrite length_app, length_replicate, length_drop, length_insert. lia.
  - split; [apply length_insert|lia].
Qed.

Lemma is_ok_false_true r : is_ok_false r = true -> r = Ok false.
Proof. by destruct r as [[]| |]. Qed.

Lemma strcmp_other_line w : forall line r,
  Forall (fun c => c <> 0 /\ c <> 10) w -> Forall (fun c => c <> 10) line -> w <> line ->
  strcmp_eq (w ++ [10; 0]) (line ++ 10 :: r) = Ok false.
Proof.
  induction w as [|x w IH]; intros [|y line] r Hw Hl Hne; [done|..];
    try apply list.Forall_cons in Hw as [[H0 H10] Hw]; try apply list.Forall_cons in Hl as [Hy Hl]; simpl.
  - by rewrite (proj2 (Z.eqb_neq 10 y)) by congruence.
  - by rewrite (proj2 (Z.eqb_neq x 10)).
  - destruct (Z.eqb_spec x y) as [->|]; [|done]. rewrite (proj2 (Z.eqb_neq y 0)) by done.
    apply IH; [done..|]. congruence.
Qed.

(** A typed line other than the two commands, character by character, is none. *)
Lemma other_line_ordinary e :
  0 <= count e < Z.of_nat (length (buffer e)) -> Forall (fun c => c <> 10) (line_of e) ->
  line_of e <> str_bytes "dir" -> line_of e <> str_bytes "demo" -> ordinary e = true.
Proof.
  intros Hc Hl Hdir Hdemo. unfold ordinary. rewrite insert_take_drop by lia. fold (line_of e).
  change dir with (str_bytes "dir" ++ [10; 0]). change demo with (str_bytes "demo" ++ [10; 0]).
  rewrite !strcmp_other_line; try done.
  - repeat constructor; vm_compute; discriminate.
  - repeat constructor; vm_compute; discriminate.
Qed.

(** A key press of a session. *)
Lemma press_key H s code :
  keyb_inv H s -> released code = false -> can_press H (editor_of s) code = true ->
  exists s', key_pressed s code = Ok s' /\ editor_of s' = press (editor_of s) code /\ keyb_inv H s' /\
    (forall r a, quiet r a (kdev s) -> quiet r a (kdev s')).
Proof.
  intros (Hm & Hw & Hh & HH & Hl & Hc) Hr Hp. unfold can_press in Hp. unfold press. rewrite Hr in *.
  cbn [orb editor_of buffer count column row] in *. rewrite !andb_true_iff in Hp.
  destruct Hp as ((((_ & _) & Hw2) & Hc2) & Hp). rewrite Z.leb_le in Hw2. rewrite Z.ltb_lt in Hc2.
  assert (Hk : kb_ok H s 0) by (split; [done|lia]).
  destruct (line_step_length (inp s, cntr s) (kbdus code)) as [Ll Lc]; [cbn [fst snd]; lia|].
  destruct (Z.eqb_spec (kbdus code) 10) as [E10|N10].
  - rewrite !andb_true_iff, !Z.leb_le in Hp. destruct Hp as ((((Hrow & Hf) & He0) & He1) & Ho).
    apply andb_prop in Ho as [Hdir Hdemo].
    destruct (key_enters H s code Hk) as (m' & d & -> & Hm' & HP); try done.
    + unfold line_of, editor_of in *. cbn [buffer count] in *. lia.
    + by apply is_ok_false_true.
    + by apply is_ok_false_true.
    + eexists. split; [reflexivity|]. split; [|split].
      * unfold editor_of. cbn [inp cntr kg width height]. rewrite E10. unfold line_step. by rewrite Z.eqb_refl.
      * unfold keyb_inv. cbn [kg gmem width height inp cntr]. rewrite E10 in Ll. cbn [fst] in Ll.
        unfold line_of, editor_of in *. cbn [buffer count] in *. rewrite Ll. split; [done|lia].
      * intros r a. apply HP, echo_keeps_quiet.
  - destruct (key_types H s code Hk) as (m' & -> & Hm' & _); [done|exact Hp|].
    eexists. split; [reflexivity|]. split; [done|]. split.
    + unfold keyb_inv. cbn [kg gmem width height inp cntr]. rewrite Ll. cbn [fst].
      assert (16 <= advance (width (kg s)) (kbdus code)).
      { revert Hp. unfold fits, advance. rewrite !andb_true_iff, !Z.leb_le. destruct (Z.eqb_spec (kbdus code) 8); lia. }
      split; [done|lia].
    + intros r a. cbn [kdev]. apply (echo_keeps_quiet r a).
Qed.

Lemma interrupt_step H s code r :
  keyb_inv H s -> pending (kdev s) = code :: r -> can_press H (editor_of s) code = true ->
  exists s', isr_keyb s = Ok s' /\ editor_of s' = press (editor_of s) code /\ keyb_inv H s' /\
    pending (kdev s') = r /\ acks (kdev s') = S (acks (kdev s)).
Proof.
  intros Hi Hq Hp. destruct (next_code _ _ _ Hq) as (E1 & E2 & E3). unfold isr_keyb.
  destruct (inb 0x60 (kdev s)) as [buf d]. cbn [fst snd] in E1, E2, E3. subst buf.
  assert (exists s1, (if Z.land code 0x80 =? 0 then key_pressed (set_kdev s d) code else Ok (set_kdev s d)) = Ok s1 /\
    editor_of s1 = press (editor_of s) code /\ keyb_inv H s1 /\ quiet r (acks (kdev s)) (kdev s1))
    as (s1 & -> & He & Hi1 & Hq1).
  { destruct (Z.land code 0x80 =? 0) eqn:Er.
    - destruct (press_key H (set_kdev s d) code) as (s1 & -> & He & Hi1 & Hq1);
        [done|unfold released; by rewrite Er|done|].
      exists s1. repeat (split; [done|]). by apply Hq1.
    - exists (set_kdev s d). split; [done|]. unfold press, released. rewrite Er. repeat (split; [done|]). done. }
  cbn [mbind res_bind]. eexists. split; [reflexivity|]. split; [exact He|]. split; [exact Hi1|].
  destruct Hq1 as [Q1 Q2]. destruct (acknowledge (kdev s1)) as [A1 A2]. cbn [set_kdev kdev].
  by rewrite A1, A2, Q1, Q2.
Qed.

(** ** Property *)

(** C10. The keyboard interrupt implements the line editor: for every sequence of
    scan codes that stays inside the line buffer and on the screen, releases and
    lines that are no command included, one interrupt per code ends without
    undefined behaviour in the state the editor reaches; the codes are
    consumed in order, the rest of the queue is left, and every interrupt is
    acknowledged exactly once. *)
Theorem typing_refines_editor (H : Z) (codes rest : list Z) (s : kb (D := D)) :
  keyb_inv H s -> pending (kdev s) = codes ++ rest -> can_type H (editor_of s) codes = true ->
  exists s', interrupts (length codes) s = Ok s' /\
    editor_of s' = fold_left press codes (editor_of s) /\ keyb_inv H s' /\
    pending (kdev s') = rest /\ acks (kdev s') = (acks (kdev s) + length codes)%nat.
Proof.
  revert s. induction codes as [|code codes IH]; intros s Hi Hq Hc.
  - exists s. split; [done|]. repeat (split; [done|]). simpl. lia.
  - cbn [can_type] in Hc. apply andb_prop in Hc as [Hp Hc].
    destruct (interrupt_step H s code (codes ++ rest) Hi Hq Hp) as (s1 & E1 & He & Hi1 & Hq1 & Ha1).
    rewrite <- He in Hc. destruct (IH s1 Hi1 Hq1 Hc) as (s2 & E2 & He2 & Hi2 & Hq2 & Ha2).
    exists s2. cbn [interrupts length]. rewrite E1. cbn [mbind res_bind]. split; [done|].
    cbn [fold_left]. rewrite <- He. repeat (split; [done|]). rewrite Ha2, Ha1. lia.
Qed.

(** Backspace corrects the screen and not the line: a line it was used in is not
    recognised as a command, whatever the screen shows. *)
Theorem backspace_hides_command (e : editor) :
  0 <= count e < Z.of_nat (length (buffer e)) -> Forall (fun c => c <> 10) (line_of e) ->
  8 ∈ line_of e -> ordinary e = true.
Proof.
  intros Hc Hl H8. apply other_line_ordinary; [done..| |]; intros E8; rewrite E8 in H8;
    apply list_elem_of_In in H8; vm_compute in H8; decompose [or] H8; done.
Qed.

End Typing.

(** ** Witness *)

(** ["dix"], Backspace and ["r"] on the screen is ["dir"]. *)
Lemma backspace_hides_command_witness :
  let e := mk_editor (str_bytes "dix" ++ [8; 114] ++ replicate 95 0) 5 64 35 in
  ordinary e = true /\ ordinary (mk_editor (str_bytes "dir" ++ replicate 97 0) 3 64 35) = false.
Proof.
  split; [|reflexivity]. apply backspace_hides_command.
  - split; reflexivity || discriminate.
  - vm_compute. repeat constructor; discriminate.
  - apply list_elem_of_In. vm_compute. tauto.
Defined.

#[export] Program Instance demo_queue : QueuedKeyboard (D := demo_kbd) := {| pending := scancodes; acks := kacks |}.
Next Obligation. intros d c r Hq. simpl. by rewrite Hq. Qed.
Next Obligation. done. Qed.
Next Obligation. done. Qed.
Next Obligation. done. Qed.
Next Obligation. done. Qed.

(** ["x"] is pressed and released, taken back and replaced by ["d"]; the buffer
    holds all three codes and the screen only ["d"]. *)
Lemma typing_refines_editor_witness :
  let s := mk_kb (mk_gst (demo_vmem 1024) 16 35) empty_inp 0 (mk_kbd [45; 173; 14; 32; 23] [] 0) in
  kbdus 14 = 8 /\ can_type 1024 (editor_of s) [45; 173; 14; 32] = true /\
  exists s', interrupts 4 s = Ok s' /\ inp s' = [120; 8; 100] ++ replicate 97 0 /\
    cntr s' = 3 /\ width (kg s') = 32 /\ scancodes (kdev s') = [23] /\ kacks (kdev s') = 4%nat.
Proof.
  intros s. split; [reflexivity|]. split; [reflexivity|].
  destruct (typing_refines_editor 1024 [45; 173; 14; 32] [23] s) as (s' & E & He & _ & Hq & Ha).
  - split; [apply demo_vmem_ok; lia|]. simpl. unfold inp_size. lia.
  - reflexivity.
  - reflexivity.
  - exists s'. split; [exact E|].
    split; [exact (f_equal buffer He)|]. split; [exact (f_equal count He)|].
    split; [exact (f_equal column He)|]. split; [exact Hq|exact Ha].
Defined.
