(* ===== verification/Shell.v ===== *)
(** [include/shell.c]: three command interpreters.

    [Module Prompt] is the interactive shell ([shell_buffer*], [shell_command_*],
    [shell_interpreter], [InitializeShell]); [Module Commands] the kernel shell
    [shell] with its [dis_print] flag; [Module Ls] the user shell [main],
    [handle_input] and [handle_ls].  The terminal, the file system and the other drivers they
    call are not part of the repository: they are classes of operations over a
    device state.  [SHELL_BUFFER_SIZE] is defined nowhere and is a parameter. *)

From S2P Require Import Prelude Mem.

Module Prompt.

Class TermEnv (D : Type) := {
  terminal_writestring : list Z -> D -> D;
  terminal_putchar : Z -> D -> D;
  terminal_clearscreen : D -> D;
  terminal_setcolor : Z -> D -> D;
  make_color_s : Z -> Z -> Z;
  itoa : Z -> Z -> list Z;
  atoi : list Z -> Z;
  getchar : D -> Z * D;
  (** The string the machine's memory holds at an address. *)
  string_at : Z -> D -> res (list Z)
}.

Section Prompt.
Context {D : Type} `{!TermEnv D}.
Variable SHELL_BUFFER_SIZE : Z.

Record sh := mk_sh {
  shell_buffer : list Z;
  shell_buffersize : Z;
  running : bool;
  term : D
}.

Definition set_buf (s : sh) (l : list Z) (n : Z) : sh := mk_sh l n (running s) (term s).
Definition set_running (s : sh) (b : bool) : sh :=
  mk_sh (shell_buffer s) (shell_buffersize s) b (term s).
Definition set_term (s : sh) (d : D) : sh :=
  mk_sh (shell_buffer s) (shell_buffersize s) (running s) d.

Definition print (s : sh) (t : list Z) : sh := set_term s (terminal_writestring t (term s)).
Definition put (s : sh) (c : Z) : sh := set_term s (terminal_putchar c (term s)).

(** ** The line buffer *)
Definition shell_bufferclear (s : sh) : sh := set_buf s (shell_buffer s) 0.

Definition shell_bufferpush (s : sh) (c : Z) : res sh :=
  if shell_buffersize s <? SHELL_BUFFER_SIZE then
    l ← array_put (shell_buffer s) (shell_buffersize s) c;
    Ok (set_buf s l (u16 (shell_buffersize s + 1)))
  else Ok s.

Definition shell_bufferpop (s : sh) : res (Z * sh) :=
  if shell_buffersize s =? 0 then Ok (0, s)
  else
    let n := u16 (shell_buffersize s - 1) in
    c ← array_get (shell_buffer s) n;
    Ok (c, set_buf s (shell_buffer s) n).

Definition shell_bufferread (s : sh) : res (list Z * sh) :=
  s ← shell_bufferpush s 0;
  Ok (shell_buffer s, s).

Definition shell_clear (s : sh) : sh := shell_bufferclear (print s (str_bytes "mato:myos/$ ")).

Definition shell_exit (s : sh) : sh :=
  let s := shell_bufferclear s in set_term s (terminal_clearscreen (term s)).

(** ** Commands.  [argv] holds the arguments that have been written. *)
Definition arg (argv : list (list Z)) (i : nat) : res (list Z) :=
  match argv !! i with Some a => Ok a | None => Undef end.

Definition shell_command_help (s : sh) : sh :=
  let s := print s (str_bytes "Syntax: help <prikaz>" ++ [10]) in
  print s (str_bytes "clear -> Vycisti obrazovku" ++ [10]).

Definition shell_command_clear (s : sh) : sh :=
  shell_bufferclear (set_term s (terminal_clearscreen (term s))).

(** [argv] is a [char[32][32]], but the commands take it as a [char *[]]: their
    [argv[i]] is the four bytes from [4 * i] on of the rows, as an address.  The rest of a
    row behind its terminator is not initialised. *)
Definition argv_bytes (argv : list (list Z)) : list (option Z) :=
  flat_map (fun w => map Some (map u8 w ++ [0]) ++ replicate (31 - length w) None) argv.

Definition argv_pointer (argv : list (list Z)) (i : nat) : res Z :=
  match mapM (fun j => mjoin (argv_bytes argv !! (4 * i + j)%nat)) (seq 0 4) with
  | Some bytes => Ok (le_value bytes)
  | None => Undef
  end.

Definition argv_string (s : sh) (argv : list (list Z)) (i : nat) : res (list Z) :=
  p ← argv_pointer argv i; string_at p (term s).

Definition shell_command_color (s : sh) (argc : Z) (argv : list (list Z)) : res sh :=
  if argc =? 2 then
    a1 ← argv_string s argv 1;
    a2 ← argv_string s argv 2;
    Ok (set_term s (terminal_setcolor (make_color_s (u8 (atoi a1)) (u8 (atoi a2))) (term s)))
  else
    let s := print s (str_bytes "Zadal si nepravny pocet argumentov: ") in
    let s := print s (itoa argc 10) in
    Ok (put s 10).

Definition shell_command_test (s : sh) (argv : list (list Z)) : res sh :=
  let s := print s (str_bytes "Test message!" ++ [10]) in
  a0 ← argv_string s argv 0;
  Ok (put (print s a0) 10).

Definition shell_command_exit (s : sh) : sh :=
  print (set_running s false) (str_bytes "[+]Exiting...").

(** ** The interpreter *)

(** [argv[argc][j] = command[i]] for the characters of a token, then the
    terminator; the row has 32 bytes. *)
Definition copy_token (command : list Z) (start current : Z) : res (list Z) :=
  row ← for_range start current (fun i row =>
    c ← array_get command i;
    if Z.of_nat (length row) <? 32 then Ok (row ++ [c]) else Undef) [];
  if Z.of_nat (length row) <? 32 then Ok row else Undef.

Fixpoint token_loop (fuel : nat) (command : list Z) (start current : Z) (argv : list (list Z))
    : res (list (list Z)) :=
  match fuel with
  | O => Fuel
  | S fuel' =>
      c ← array_get command current;
      if c =? 0 then Ok argv
      else if (c =? 32) || (c =? 10) then
        if Z.of_nat (length argv) <? 32 then
          t ← copy_token command start current;
          token_loop fuel' command (current + 1) (current + 1) (argv ++ [t])
        else Undef
      else token_loop fuel' command start (current + 1) argv
  end.

Definition tokens (command : list Z) : res (list (list Z)) :=
  token_loop (S (length command)) command 0 0 [].

(** The comparisons with the command names, on the first argument. *)
Definition dispatch (s : sh) (argv : list (list Z)) : res sh :=
  let argc := Z.of_nat (length argv) - 1 in
  a0 ← arg argv 0;
  if bool_decide (a0 = str_bytes "test") then shell_command_test s argv
  else if bool_decide (a0 = str_bytes "help") then Ok (shell_command_help s)
  else if bool_decide (a0 = str_bytes "color") then shell_command_color s argc argv
  else if bool_decide (a0 = str_bytes "clear") then Ok (shell_command_clear s)
  else if bool_decide (a0 = str_bytes "exit") then Ok (shell_command_exit s)
  else if bool_decide (a0 = []) then Ok s
  else Ok (print (print s a0) (str_bytes ": Prikaz nebol najdeny" ++ [10])).

Definition shell_interpreter (s : sh) (command : list Z) : res sh :=
  argv ← tokens command;
  s ← dispatch s argv;
  Ok (shell_clear s).

(** ** The main loop *)

(** What [InitializeShell] does with a character. *)
Definition shell_key (s : sh) (c : Z) : res sh :=
  if c =? 0 then Ok s
  else
    s ← (if c =? 8 then
           '(p, s) ← shell_bufferpop s;
           Ok (if p =? 0 then s else put s 8)
         else s ← shell_bufferpush s c; Ok (put s c));
    if c =? 10 then
      '(command, s) ← shell_bufferread s;
      shell_interpreter s command
    else Ok s.

Definition shell_round (s : sh) : res (sh + sh) :=
  if running s then
    let '(c, d) := getchar (term s) in
    s ← shell_key (set_term s d) c;
    Ok (inl s)
  else Ok (inr (shell_exit s)).

Definition InitializeShell (fuel : nat) (s : sh) : res sh :=
  let s := print s (str_bytes "MatoOS" ++ [10]) in
  let s := print s (str_bytes "Pre pomoc pouzi prikaz help" ++ [10]) in
  let s := shell_clear s in
  while_loop fuel shell_round (set_running s true).

(** ** Specification *)

(** What has been typed on the line. *)
Definition contents (s : sh) : list Z := take (Z.to_nat (shell_buffersize s)) (shell_buffer s).

Definition sh_ok (s : sh) : Prop :=
  Z.of_nat (length (shell_buffer s)) = SHELL_BUFFER_SIZE /\
  0 <= shell_buffersize s <= SHELL_BUFFER_SIZE.
















Lemma push_ok s c :
  sh_ok s -> SHELL_BUFFER_SIZE < 2 ^ 16 ->
  exists s', shell_bufferpush s c = Ok s' /\ sh_ok s' /\ running s' = running s /\ term s' = term s /\
    contents s' = if shell_buffersize s <? SHELL_BUFFER_SIZE then contents s ++ [c] else contents s.
Proof.
  intros [Hl Hn] HS. unfold shell_bufferpush. destruct (Z.ltb_spec (shell_buffersize s) SHELL_BUFFER_SIZE).
  - unfold array_put. zbool. simpl. rewrite wrap_small by lia. eexists. split; [done|].
    unfold sh_ok, contents. simpl. rewrite length_insert. split; [lia|]. do 2 (split; [done|]).
    replace (Z.to_nat (shell_buffersize s + 1)) with (S (Z.to_nat (shell_buffersize s))) by lia.
    rewrite (take_S_r _ _ c) by (apply list_lookup_insert_eq; lia). by rewrite take_insert_ge by lia.
  - by exists s.
Qed.

Lemma contents_length s : sh_ok s -> Z.of_nat (length (contents s)) = shell_buffersize s.
Proof. intros [Hl Hn]. unfold contents. rewrite length_take. lia. Qed.


Lemma contents_prefix s : sh_ok s ->
  shell_buffer s = contents s ++ drop (Z.to_nat (shell_buffersize s)) (shell_buffer s).
Proof. intros _. unfold contents. by rewrite take_drop. Qed.





(** ** Properties *)

(** The buffer is a bounded stack of characters: [shell_bufferpush] appends, or
    drops the character when the buffer is full; [shell_bufferpop] takes the last
    one back; [shell_bufferread] gives the typed line as a terminated string only
    while there is room for the terminator. *)
Theorem shell_buffer_stack (s : sh) (c : Z) :
  sh_ok s -> SHELL_BUFFER_SIZE < 2 ^ 16 ->
  (exists s', shell_bufferpush s c = Ok s' /\ sh_ok s' /\
     contents s' = if shell_buffersize s <? SHELL_BUFFER_SIZE then contents s ++ [c] else contents s) /\
  (exists s', shell_bufferpop s = Ok (default 0 (last (contents s)), s') /\ sh_ok s' /\
     contents s' = take (length (contents s) - 1) (contents s)) /\
  (exists command s', shell_bufferread s = Ok (command, s') /\
     (shell_buffersize s < SHELL_BUFFER_SIZE -> exists rest, command = contents s ++ 0 :: rest) /\
     (shell_buffersize s = SHELL_BUFFER_SIZE -> command = contents s)).
Proof.
  intros Hs HS. split; [|split].
  - destruct (push_ok s c Hs HS) as (s' & E & H1 & _ & _ & H2). by exists s'.
  - pose proof (contents_length s Hs) as Hl. destruct Hs as [Hb Hn]. unfold shell_bufferpop.
    destruct (Z.eqb_spec (shell_buffersize s) 0) as [E|E].
    + exists s. assert (contents s = []) as Hc by (apply length_zero_iff_nil; lia).
      rewrite Hc. done.
    + rewrite wrap_small by lia.
      destruct (lookup_lt_is_Some_2 (contents s) (Z.to_nat (shell_buffersize s - 1))) as [x Hx]; [lia|].
      rewrite (array_get_ok _ _ x); [|lia|].
      2: { unfold contents in Hx. by apply lookup_take_Some in Hx as [Hx _]. }
      simpl. rewrite last_lookup.
      replace (pred (length (contents s))) with (Z.to_nat (shell_buffersize s - 1)) by lia.
      rewrite Hx. eexists. split; [done|]. unfold sh_ok, contents in *. simpl. split; [lia|].
      rewrite take_take. f_equal. lia.
  - destruct (push_ok s 0 Hs HS) as (s' & E & H1 & _ & _ & H2). unfold shell_bufferread. rewrite E.
    simpl. exists (shell_buffer s'), s'. split; [done|]. split; intros Hn.
    + rewrite (proj2 (Z.ltb_lt _ _)) in H2 by done. rewrite (contents_prefix s' H1), H2, <- app_assoc.
      by eexists.
    + rewrite (proj2 (Z.ltb_ge _ _)) in H2 by lia. rewrite (contents_prefix s' H1), H2.
      pose proof (contents_length s' H1) as L. rewrite H2, (contents_length s Hs) in L.
      destruct H1 as [H1 _]. rewrite drop_ge by lia. by rewrite app_nil_r.
Qed.


(** No command reads the words it is called with: ["test"] prints the string at
    the address its own name spells, and ["color"] with two arguments uses bytes of its
    row that nothing has written. *)
Theorem arguments_are_misread (s : sh) (ws : list (list Z)) (a b : list Z) :
  dispatch s (str_bytes "test" :: ws) =
    (let s1 := print s (str_bytes "Test message!" ++ [10]) in
     t ← string_at 0x74736574 (term s1); Ok (put (print s1 t) 10)) /\
  dispatch s [str_bytes "color"; a; b] = Undef.
Proof. split; [|reflexivity]. unfold dispatch. cbn [arg lookup list_lookup mbind res_bind]. done. Qed.

End Prompt.

(** *** Witnesses *)

(** A terminal that logs what it shows. *)
#[export] Instance demo_term : TermEnv (list Z) := {|
  terminal_writestring t d := d ++ t;
  terminal_putchar c d := d ++ [c];
  terminal_clearscreen d := [];
  terminal_setcolor c d := d ++ [c];
  make_color_s f b := b * 16 + f;
  itoa x _ := [48 + x];
  atoi t := match t with c :: _ => c - 48 | [] => 0 end;
  getchar d := (0, d);
  string_at _ _ := Undef
|}.

Definition demo_sh : sh (D := list Z) := mk_sh (replicate 16 0) 0 true [].

Lemma demo_sh_ok : sh_ok 16 demo_sh.
Proof. unfold sh_ok. simpl. lia. Qed.

Lemma shell_buffer_stack_witness :
  exists s', shell_bufferpush 16 demo_sh 97 = Ok s' /\ contents s' = [97].
Proof.
  destruct (shell_buffer_stack 16 demo_sh 97 demo_sh_ok eq_refl) as [(s' & E & _ & C) _].
  exists s'. split; [exact E|exact C].
Defined.


End Prompt.

Module Commands.

Section State.
Context {D : Type}.
(** [dis_print] is a global that other files can change. *)
Record state := mk_state { dis_print : Z; kdev : D }.
Definition set_dis_print (v : Z) (s : state) : state := mk_state v (kdev s).
End State.
Arguments state : clear implicits.

(** What the shell calls; any of it may store to [dis_print]. *)
Class KernelEnv (D : Type) := {
  kprint : list Z -> state D -> state D;
  (** A formatted number between two texts. *)
  print_number : list Z -> Z -> list Z -> state D -> state D;
  aligned_alloc : Z -> Z -> state D -> Z * state D;
  clear_screen : state D -> state D;
  reboot : state D -> state D;
  acpi_shutdown : state D -> state D;
  cpudetect : state D -> state D;
  rtctime : state D -> state D;
  (** The bytes a fresh block happens to hold, or a null pointer. *)
  malloc : Z -> state D -> option (list Z) * state D;
  (** The bytes of the block that holds the string, after [append(sp, c)]. *)
  append : list Z -> Z -> res (list Z);
  globstatus : state D -> Z
}.

Section Commands.
Context {D : Type} `{!KernelEnv D}.
Local Abbreviation state := (state D).


(** The first [n] characters. *)
Definition strncmp_eq (n : nat) (a b : list Z) : bool := bool_decide (take n a = take n b).

Definition help_text : list Z :=
  str_bytes "Welcome to PawsOS, these are all the commands:" ++ [10] ++
  [34] ++ str_bytes "end" ++ [34] ++ str_bytes ": Halt the CPU." ++ [10] ++
  [34] ++ str_bytes "page" ++ [34] ++ str_bytes ": Request a malloc()." ++ [10] ++
  [34] ++ str_bytes "clear" ++ [34] ++ str_bytes ": Clear the screen." ++ [10] ++
  [34] ++ str_bytes "cpuinfo" ++ [34] ++ str_bytes ": Get information about your CPU." ++ [10] ++
  [34] ++ str_bytes "rtc" ++ [34] ++ str_bytes " Get the current time (in UTC)." ++ [10] ++
  [34] ++ str_bytes "reboot" ++ [34] ++ str_bytes ": Reboot your computer." ++ [10] ++
  [34] ++ str_bytes "echo [argument]" ++ [34] ++ str_bytes ": Print something on the screen." ++ [10] ++
  [34] ++ str_bytes "shutdown" ++ [34] ++ str_bytes ": Shutdown your computer." ++ [10] ++
  [34] ++ str_bytes "ver" ++ [34] ++ str_bytes ": Show current version." ++ [10] ++
  str_bytes "Press Left shift to enable AZERTY keyboard layout." ++ [10] ++
  str_bytes "Press the Up key to print last used command." ++ [10].

(** The string in a block; without a terminator it runs out of it. *)
Fixpoint block_string (block : list Z) : res (list Z) :=
  match block with
  | [] => Undef
  | c :: block' => if c =? 0 then Ok [] else t ← block_string block'; Ok (c :: t)
  end.

Fixpoint append_all (sp : list Z) (cs : list Z) : res (list Z) :=
  match cs with
  | [] => Ok sp
  | c :: cs' => sp ← append sp c; append_all sp cs'
  end.

(** The branch of [echo]. *)
Definition echo_command (input : list Z) (s : state) : res state :=
  let '(sp, s) := malloc 256 s in
  match sp with
  | None => Undef
  | Some sp =>
      sp ← append_all sp (drop 5 input);
      status ← strcmp_eq (str_bytes "\?" ++ [0]) sp;
      s ← (if status : bool then Ok (print_number [] (globstatus s) [] s)
           else t ← block_string sp; Ok (kprint t s));
      Ok (kprint [10] s)
  end.

(** The chain of comparisons, without the halt of ["end"]. *)
Definition run_command (input : list Z) (s : state) : res state :=
  let named name := bool_decide (input = str_bytes name) in
  if named "page" then
    let '(p, s) := aligned_alloc 1000 4 s in Ok (print_number (str_bytes "Page: 0x") p [10] s)
  else if named "clear" then Ok (set_dis_print 1 (clear_screen s))
  else if named "reboot" then Ok (reboot s)
  else if named "shutdown" then Ok (acpi_shutdown s)
  else if named "cpuinfo" then Ok (cpudetect s)
  else if named "rtc" then Ok (rtctime s)
  else if strncmp_eq 4 input (str_bytes "echo ") then echo_command input s
  else if named "help" then Ok (kprint help_text s)
  else if named "ver" then Ok (kprint (str_bytes "PawsOS Version 0.04 (unreleased)" ++ [10]) s)
  else Ok s.




(** The flag has one of the values the shell knows. *)
Definition flag_ok (s : state) : Prop := 0 <= dis_print s <= 2.

(** What the other files have to keep to: they store only such values. *)
Class FlagKept := {
  kprint_flag t s : flag_ok s -> flag_ok (kprint t s);
  print_number_flag p n q s : flag_ok s -> flag_ok (print_number p n q s);
  aligned_alloc_flag a n s : flag_ok s -> flag_ok (aligned_alloc a n s).2;
  clear_screen_flag s : flag_ok s -> flag_ok (clear_screen s);
  reboot_flag s : flag_ok s -> flag_ok (reboot s);
  acpi_shutdown_flag s : flag_ok s -> flag_ok (acpi_shutdown s);
  cpudetect_flag s : flag_ok s -> flag_ok (cpudetect s);
  rtctime_flag s : flag_ok s -> flag_ok (rtctime s);
  malloc_flag n s : flag_ok s -> flag_ok (malloc n s).2
}.

Create HintDb flag.
#[local] Hint Resolve kprint_flag print_number_flag clear_screen_flag reboot_flag acpi_shutdown_flag
  cpudetect_flag rtctime_flag : flag.

Section Flag.
Context {FK : FlagKept}.




(** [append] is a loop over a block. *)
Hypothesis append_returns : forall l c, append l c <> Fuel.




End Flag.

Section Append.
(** [append] stores a character and a terminator behind the string of a block. *)
Hypothesis append_fits : forall l x y r,
  Forall (fun c => c <> 0) l -> append (l ++ 0 :: y :: r) x = Ok (l ++ x :: 0 :: r).
Hypothesis append_full : forall l x, Forall (fun c => c <> 0) l -> append (l ++ [0]) x = Undef.

Lemma append_all_block cs : forall l r, Forall (fun c => c <> 0) l -> Forall (fun c => c <> 0) cs ->
  append_all (l ++ 0 :: r) cs =
    if (length cs <=? length r)%nat then Ok (l ++ cs ++ 0 :: drop (length cs) r) else Undef.
Proof.
  induction cs as [|c cs IH]; intros l r Hl Hcs; [done|]. apply list.Forall_cons in Hcs as [Hc Hcs].
  destruct r as [|y r]; cbn [append_all]; [by rewrite append_full|].
  rewrite append_fits by done. cbn [mbind res_bind].
  replace (l ++ c :: 0 :: r) with ((l ++ [c]) ++ 0 :: r) by (by rewrite <- app_assoc).
  rewrite IH; [|apply Forall_app; by repeat constructor|done]. cbn [length drop Nat.leb].
  by rewrite <- !app_assoc.
Qed.

Lemma block_string_ok t r : Forall (fun c => c <> 0) t -> block_string (t ++ 0 :: r) = Ok t.
Proof. induction 1 as [|c t Hc Ht IH]; simpl; [done|]. by rewrite (proj2 (Z.eqb_neq c 0)), IH. Qed.

(** Every input that starts with ["echo"] is an echo, with or without the blank
    the name in the source has.  On a block that happens to hold the empty string
    the characters after the fifth are printed when there are at most 255; one
    more is stored outside the block, and so is any without a block. *)
Theorem shell_echo (rest : list Z) (c : Z) (s : state) :
  Forall (fun c => c <> 0) rest -> rest <> str_bytes "\?" ->
  let input := str_bytes "echo" ++ [c] ++ rest in
  run_command input s =
    match (malloc 256 s).1 with
    | Some (0 :: block) =>
        if (length rest <=? length block)%nat then Ok (kprint [10] (kprint rest (malloc 256 s).2)) else Undef
    | Some _ => run_command input s
    | None => Undef
    end.
Proof.
  intros Hr Hne input.
  assert (Hn : forall name, take 4 (str_bytes name) <> str_bytes "echo" ->
    bool_decide (input = str_bytes name) = false).
  { intros name Hname. apply bool_decide_false. intros E. apply Hname. by rewrite <- E. }
  unfold run_command. rewrite !Hn by discriminate.
  assert (strncmp_eq 4 input (str_bytes "echo ") = true) as -> by reflexivity.
  unfold echo_command. destruct (malloc 256 s) as [[[|[] block]|] s1]; try done. cbn [fst snd].
  change (drop 5 input) with rest. pose proof (append_all_block rest [] block (List.Forall_nil _) Hr) as Ha.
  cbn [app] in Ha. rewrite Ha.
  destruct (_ <=? _)%nat; [|done]. cbn [app mbind res_bind].
  rewrite strcmp_eq_array by (done || (repeat constructor; vm_compute; discriminate)).
  rewrite bool_decide_false by congruence. cbn [mbind res_bind]. by rewrite block_string_ok.
Qed.
End Append.

End Commands.

(** *** Witnesses *)
(** A kernel whose blocks are clear. *)
Fixpoint demo_append (block : list Z) (c : Z) : res (list Z) :=
  match block with
  | 0 :: _ :: r => Ok (c :: 0 :: r)
  | x :: r => if x =? 0 then Undef else r' ← demo_append r c; Ok (x :: r')
  | [] => Undef
  end.

Definition demo_print (t : list Z) (s : state (list Z)) : state (list Z) := mk_state (dis_print s) (kdev s ++ t).

#[export] Instance demo_kernel : KernelEnv (list Z) := {|
  kprint := demo_print;
  print_number p x q := demo_print (p ++ [x] ++ q);
  aligned_alloc _ _ s := (0, s);
  clear_screen s := mk_state (dis_print s) [];
  reboot s := s;
  acpi_shutdown s := s;
  cpudetect s := set_dis_print 2 s;
  rtctime s := s;
  malloc n s := (Some (replicate (Z.to_nat n) 0), s);
  append := demo_append;
  globstatus s := 0
|}.

#[export] Instance demo_flag : FlagKept (D := list Z).
Proof. by split; unfold flag_ok; simpl; intros; lia. Defined.

Lemma demo_append_fits l x y r :
  Forall (fun c => c <> 0) l -> demo_append (l ++ 0 :: y :: r) x = Ok (l ++ x :: 0 :: r).
Proof. induction 1 as [|c l Hc Hl IH]; [done|]. simpl. rewrite (proj2 (Z.eqb_neq c 0)), IH by done. by destruct c. Qed.

Lemma demo_append_full l x : Forall (fun c => c <> 0) l -> demo_append (l ++ [0]) x = Undef.
Proof. induction 1 as [|c l Hc Hl IH]; [done|]. simpl. rewrite (proj2 (Z.eqb_neq c 0)), IH by done. by destruct c. Qed.



(** ["echo_hi"] prints ["hi"]; 256 characters do not fit. *)
Lemma shell_echo_witness :
  run_command (str_bytes "echo_hi") (mk_state 0 []) = Ok (mk_state 0 (str_bytes "hi" ++ [10])) /\
  run_command (str_bytes "echo " ++ replicate 256 97) (mk_state 0 []) = Undef.
Proof.
  split.
  - etransitivity; [apply (shell_echo (KernelEnv0 := demo_kernel) demo_append_fits demo_append_full
      (str_bytes "hi") 95 (mk_state 0 []))|reflexivity]; [repeat constructor|]; discriminate.
  - etransitivity; [apply (shell_echo (KernelEnv0 := demo_kernel) demo_append_fits demo_append_full
      (replicate 256 97) 32 (mk_state 0 []))|reflexivity]; [by apply Forall_replicate|discriminate].
Defined.

End Commands.

Module Ls.

Record file_t := mk_file { fname : list Z; fsize : Z }.

Class FsEnv (D : Type) := {
  printf : list Z -> D -> D;
  (** [printf("%s (%d bytes)\n", name, size)] *)
  printf_size : list Z -> Z -> D -> D;
  count_files : D -> Z;
  list_files : D -> list file_t;
  (** The keyboard driver keeps the handler and runs it on each input line. *)
  register_input_handler : (list Z -> D -> res D) -> D -> D
}.

Section Ls.
Context {D : Type} `{!FsEnv D}.

Definition print_prompt (d : D) : D := printf (str_bytes "> ") d.

Fixpoint skip_blanks (flag : list Z) : list Z :=
  match flag with
  | c :: rest => if c =? 32 then skip_blanks rest else flag
  | [] => []
  end.

(** [list_files(files)] fills the array of ten entries. *)
Definition fill_files (l : list file_t) : res (list file_t) :=
  if (length l <=? 10)%nat then Ok l else Undef.

Definition print_file (flag_long : bool) (f : file_t) (d : D) : D :=
  if flag_long then printf_size (fname f) (fsize f) d else printf (fname f ++ [10]) d.

Definition handle_ls (input : list Z) (d : D) : res D :=
  let flag := skip_blanks (drop 2 input) in
  let unknown := negb (bool_decide (flag = [])) && negb (bool_decide (take 2 flag = str_bytes "-l")) in
  if unknown then Ok (printf (str_bytes "Unrecognized flag `" ++ flag ++ str_bytes "`" ++ [10]) d)
  else
    let flag_long := negb (bool_decide (flag = [])) in
    let num_files := count_files d in
    files ← fill_files (list_files d);
    for_range 0 num_files (fun i d =>
      match files !! Z.to_nat i with
      | Some f => Ok (print_file flag_long f d)
      | None => Undef
      end) d.

Definition handle_input (input : list Z) (d : D) : res D :=
  d ← (if bool_decide (take 2 input = str_bytes "ls") then handle_ls input d
       else Ok (printf (str_bytes "Unknown command `" ++ input ++ str_bytes "`" ++ [10]) d));
  Ok (printf (str_bytes "> ") d).

(** The state in which [main] spins: from there on only the handler acts. *)
Definition main (d : D) : D := register_input_handler handle_input (print_prompt d).

Lemma skip_blanks_replicate n l :
  (forall c r, l = c :: r -> c <> 32) -> skip_blanks (replicate n 32 ++ l) = l.
Proof.
  intros Hl. induction n as [|n IH]; simpl; [|done].
  destruct l as [|c r]; [done|]. simpl. by rewrite (proj2 (Z.eqb_neq c 32)) by (by eapply Hl).
Qed.

(** The printing loop goes through the whole array. *)
Lemma list_print_loop_ok long files : forall k (d : D) rest,
  rest = drop k files ->
  for_loop (length rest) (Z.of_nat k) (fun i d =>
    match files !! Z.to_nat i with Some f => Ok (print_file long f d) | None => Undef end) d =
  Ok (fold_left (fun d f => print_file long f d) rest d).
Proof.
  intros k d rest. revert k d. induction rest as [|f rest IH]; intros k d E; [done|]. simpl.
  assert (Hk : files !! k = Some f).
  { rewrite <- (Nat.add_0_r k), <- lookup_drop, <- E. done. }
  rewrite Nat2Z.id, Hk. simpl. replace (Z.of_nat k + 1) with (Z.of_nat (S k)) by lia.
  apply IH. rewrite <- Nat.add_1_r, <- drop_drop, <- E. done.
Qed.

(** ["ls"], blanks and possibly a flag: without a flag or with one that starts
    with ["-l"] every file is listed, in order, when there are at most ten; an
    eleventh is written outside the array.  Any other flag is reported and nothing
    is listed. *)
Theorem handle_input_ls (n : nat) (flag : list Z) (d : D) :
  (forall c r, flag = c :: r -> c <> 32) -> count_files d = Z.of_nat (length (list_files d)) ->
  let input := str_bytes "ls" ++ replicate n 32 ++ flag in
  handle_input input d =
    if bool_decide (flag = []) || bool_decide (take 2 flag = str_bytes "-l") then
      if (length (list_files d) <=? 10)%nat then
        Ok (printf (str_bytes "> ")
          (fold_left (fun d f => print_file (negb (bool_decide (flag = []))) f d) (list_files d) d))
      else Undef
    else Ok (printf (str_bytes "> ")
           (printf (str_bytes "Unrecognized flag `" ++ flag ++ str_bytes "`" ++ [10]) d)).
Proof.
  intros Hf Hc input. unfold handle_input, handle_ls.
  assert (bool_decide (take 2 input = str_bytes "ls") = true) as -> by reflexivity.
  change (drop 2 input) with (replicate n 32 ++ flag). rewrite skip_blanks_replicate by done.
  rewrite <- negb_orb. destruct (bool_decide (flag = []) || _); [|done]. cbn [negb].
  rewrite Hc. unfold fill_files. destruct (length (list_files d) <=? 10)%nat; [|done].
  cbn [mbind res_bind]. unfold for_range. rewrite Z.sub_0_r, Nat2Z.id.
  by rewrite (list_print_loop_ok _ (list_files d) 0 d (list_files d)).
Qed.

End Ls.

(** *** Witnesses *)
#[export] Instance demo_fs : FsEnv (list Z) := {|
  printf t d := d ++ t;
  printf_size t n d := d ++ t ++ [n];
  count_files d := 2;
  list_files d := [mk_file [97] 3; mk_file [98] 5];
  register_input_handler _ d := d
|}.

Lemma handle_input_ls_witness :
  handle_input (str_bytes "ls  -l") [] = Ok ([97; 3; 98; 5] ++ str_bytes "> ").
Proof.
  rewrite (handle_input_ls 2 (str_bytes "-l") []); [reflexivity| |reflexivity].
  intros c r [= <- <-]. discriminate.
Defined.

End Ls.
