(* ===== verification/Display.v ===== *)
(** [include/display.h]: the macros that report on the display.

    A macro is the sequence of the calls it expands to; the tasks that use it run
    the sequence on their own state.  [Forever] is the endless loop a panic ends
    in: nothing after it runs. *)

From S2P Require Import Prelude Mem.

(** An argument of [kprintf]: a string in memory, a literal of the source, or a
    number. *)
Inductive arg := APtr (p : Z) | ALit (s : list Z) | ANum (n : Z).

Inductive report :=
  | set_task (pid : Z)
  | kprintf (fmt : list Z) (args : list arg)
  | __mprint (name fmt : list Z) (args : list arg)
  | Forever.

(** [__FILE__], [__LINE__] and [__func__] are the place of the call. *)
Record place := mk_place { file : list Z; line : Z; func : list Z }.

Definition PANIC : list Z := str_bytes "***KERNEL PANIC*** in %s at line %d in function: %s" ++ [10].
Definition OOPS : list Z := str_bytes "***KERNEL OOPS***: ".
Definition KERNEL_BUG : list Z := [10; 10] ++ str_bytes "*** KERNEL BUG***: ".

Definition panic (p : place) (fmt : list Z) (args : list arg) : list report :=
  [set_task 0; kprintf PANIC [ALit (file p); ANum (line p); ALit (func p)]; kprintf fmt args; Forever].

Definition mprint (module_name fmt : list Z) (args : list arg) : list report :=
  [__mprint module_name fmt args].

Definition kerror (fmt : list Z) (args : list arg) : list report := [kprintf OOPS []; kprintf fmt args].

Definition BUG (fmt : list Z) (args : list arg) : list report :=
  [set_task 0; kprintf KERNEL_BUG []; kprintf fmt args; Forever].
