(* ===== verification/Login.v ===== *)
(** [kernel/main.c]: the login prompt [__login] and the read routine of the test
    device.

    [Module Login] models the prompt as the code writes it, a loop that asks the
    keyboard driver for a key and yields the processor when there is none; the
    labels [retry] and the two [while (1)] are the two phases of its state.
    [Module TestDevice] models [test_device_read] over byte memory.  The display,
    the keyboard and the scheduler are not part of the repository and are a class
    of operations; [kprintf] is given the text after its [%s] are filled in. *)

From S2P Require Import Prelude Mem.

Module Login.

Class TaskEnv (D : Type) := {
  (** Whether there was a block of the size. *)
  malloc : Z -> D -> bool * D;
  kprintf : list Z -> D -> D;
  disp_putc : Z -> D -> D;
  keyboard_get_key : D -> Z * D;
  schedule_noirq : D -> D;
  _kill : D -> D
}.

Definition hostname : list Z := str_bytes "levex-levos".
Definition username : list Z := str_bytes "root".

Section Login.
Context {D : Type} `{!TaskEnv D}.

(** The locals [buffer] and [l], and the rest of the machine. *)
Record login := mk_login { buffer : list Z; l : Z; world : D }.

(** Which of the two loops is running. *)
Inductive phase := Name | Password.

Definition banner : list Z :=
  str_bytes "  _                 ____   _____ _  _   " ++ [10] ++
  str_bytes " | |               / __ \ / ____| || |  " ++ [10] ++
  str_bytes " | |     _____   _| |  | | (___ | || |_  " ++ [10] ++
  str_bytes " | |    / _ \ \ / / |  | |\___ \|__   _|" ++ [10] ++
  str_bytes " | |___|  __/\ V /| |__| |____) |  | |  " ++ [10] ++
  str_bytes " |______\___| \_/  \____/|_____/   |_|  " ++ [10].

Definition BUFFER_SIZE : nat := 64.

(** [memset], the prompt and the reset of [l], at [retry] and after the name. *)
Definition retry (d : D) : login :=
  mk_login (replicate BUFFER_SIZE 0) 0 (kprintf ([10] ++ hostname ++ str_bytes " login: ") d).

Definition ask_password (d : D) : login :=
  mk_login (replicate BUFFER_SIZE 0) 0
    (kprintf ([10] ++ username ++ [64] ++ hostname ++ str_bytes " password: ") d).

(** [buffer[l++] = c; buffer[l] = 0] *)
Definition append_key (s : login) (c : Z) : res login :=
  b ← array_put (buffer s) (l s) (u8 c);
  b ← array_put b (l s + 1) 0;
  Ok (mk_login b (l s + 1) (world s)).

(** A round of the first loop. *)
Definition name_round (s : login) : res (phase * login) :=
  let '(c, d) := keyboard_get_key (world s) in
  if c =? 0 then Ok (Name, mk_login (buffer s) (l s) (schedule_noirq d))
  else if c =? 10 then
    root ← strcmp_eq (str_bytes "root" ++ [0]) (buffer s);
    Ok (if root : bool then (Password, ask_password d) else (Name, retry d))
  else
    s ← append_key (mk_login (buffer s) (l s) d) c;
    Ok (Name, mk_login (buffer s) (l s) (disp_putc c (world s))).

(** A round of the second loop; [inr] is the call of [_kill]. *)
Definition password_round (s : login) : res (phase * login + D) :=
  let '(c, d) := keyboard_get_key (world s) in
  if c =? 0 then Ok (inl (Password, mk_login (buffer s) (l s) (schedule_noirq d)))
  else if c =? 10 then
    toor ← strcmp_eq (str_bytes "toor" ++ [0]) (buffer s);
    Ok (if toor : bool then inr (_kill (disp_putc 10 d)) else inl (Name, retry d))
  else
    s ← append_key (mk_login (buffer s) (l s) d) c;
    Ok (inl (Password, s)).

Definition round (x : phase * login) : res (phase * login + D) :=
  match x with
  | (Name, s) => y ← name_round s; Ok (inl y)
  | (Password, s) => password_round s
  end.

(** Nothing tests the block before [memset] fills it. *)
Definition __login (fuel : nat) (d : D) : res D :=
  let '(block, d) := malloc (Z.of_nat BUFFER_SIZE) d in
  let d := kprintf banner d in
  if block then while_loop fuel round (Name, retry d) else Undef.

(** ** The line automaton *)

(** What a finished line answers: the next phase, or [None] when the task ends. *)
Definition answer (ph : phase) (line : list Z) : option phase :=
  match ph with
  | Name => Some (if bool_decide (line = str_bytes "root") then Password else Name)
  | Password => if bool_decide (line = str_bytes "toor") then None else Some Name
  end.

Fixpoint logs_in (ph : phase) (lines : list (list Z)) : bool :=
  match lines with
  | [] => false
  | line :: lines' =>
      match answer ph line with
      | Some ph' => logs_in ph' lines'
      | None => true
      end
  end.

(** A [char] other than the terminator and the new line. *)
Definition typed (c : Z) : Prop := - 128 <= c < 128 /\ c <> 0 /\ c <> 10.

(** The keyboard driver hands out a queue of keys, 0 when it is empty or has
    nothing to say yet; nothing else the task calls takes a key from it. *)
Class KeyQueue := {
  pending : D -> list Z;
  get_key_nil d : pending d = [] ->
    (keyboard_get_key d).1 = 0 /\ pending (keyboard_get_key d).2 = [];
  get_key_cons d c ks : pending d = c :: ks ->
    (keyboard_get_key d).1 = c /\ pending (keyboard_get_key d).2 = ks;
  pending_malloc n d : pending (malloc n d).2 = pending d;
  pending_kprintf t d : pending (kprintf t d) = pending d;
  pending_putc c d : pending (disp_putc c d) = pending d;
  pending_schedule d : pending (schedule_noirq d) = pending d
}.

(** *** Lemmas *)

(** The buffer holds the line [w] and its terminator. *)
Definition holds (s : login) (w : list Z) : Prop :=
  Forall typed w /\ l s = Z.of_nat (length w) /\ length (buffer s) = BUFFER_SIZE /\
  exists rest, buffer s = map u8 w ++ 0 :: rest.

Definition full : Z := Z.of_nat BUFFER_SIZE - 1.

Lemma char_of_byte c : typed c -> s8 (u8 c) = c /\ u8 c <> 0.
Proof.
  intros (Hr & H0 & _). assert (s8 (u8 c) = c) as E by width_lia.
  split; [done|]. intros F. rewrite F in E. change (s8 0) with 0 in E. lia.
Qed.

Lemma chars_of_bytes w : Forall typed w -> map s8 (map u8 w) = w.
Proof. induction 1 as [|c w Hc Hw IH]; simpl; [done|]. by rewrite (proj1 (char_of_byte c Hc)), IH. Qed.

Lemma bytes_not_zero w : Forall typed w -> Forall (fun c => c <> 0) (map u8 w).
Proof. intros Hw. apply Forall_map. eapply Forall_impl; [exact Hw|]. intros c Hc. by destruct (char_of_byte c Hc). Qed.

(** Comparing the buffer with a literal of ASCII characters compares the line. *)
Lemma compare_line s w v :
  holds s w -> Forall (fun c => c <> 0) v -> map s8 v = v -> map u8 v = v ->
  strcmp_eq (v ++ [0]) (buffer s) = Ok (bool_decide (w = v)).
Proof.
  intros (Hw & _ & _ & rest & ->) Hz Hs Hu.
  rewrite strcmp_eq_array by (done || by apply bytes_not_zero).
  f_equal. apply bool_decide_ext. split; [|by intros ->].
  intros E. by rewrite <- Hs, E, chars_of_bytes.
Qed.

Lemma holds_retry d : holds (retry d) [].
Proof. do 3 (split; [done|]). by exists (replicate 63 0). Qed.

Lemma holds_password d : holds (ask_password d) [].
Proof. do 3 (split; [done|]). by exists (replicate 63 0). Qed.

Lemma append_key_ok s w c :
  holds s w -> typed c -> Z.of_nat (length w) < full ->
  exists s', append_key s c = Ok s' /\ holds s' (w ++ [c]) /\ world s' = world s.
Proof.
  intros (Hw & Hl & Hb & rest & E) Hc Hf. unfold append_key, full in *.
  rewrite array_put_ok by lia. cbn [mbind res_bind].
  rewrite array_put_ok by (rewrite length_insert; lia). cbn [mbind res_bind].
  eexists. split; [done|]. split; [|done].
  split; [by apply Forall_app; split; [|constructor]|]. simpl.
  split; [rewrite length_app; simpl; lia|]. split; [by rewrite !length_insert|].
  rewrite E, Hl in *. rewrite length_app, length_map in Hb. simpl in Hb.
  destruct rest as [|r rest]; [simpl in Hb; unfold BUFFER_SIZE in *; lia|].
  exists rest. rewrite map_app, <- app_assoc. simpl.
  rewrite (insert_app_r_alt (map u8 w)) by (rewrite length_map; lia).
  rewrite length_map. replace (Z.to_nat (Z.of_nat (length w)) - length w)%nat with O by lia. simpl.
  rewrite (insert_app_r_alt (map u8 w)) by (rewrite length_map; lia).
  rewrite length_map. by replace (Z.to_nat (Z.of_nat (length w) + 1) - length w)%nat with 1%nat by lia.
Qed.

Lemma append_key_full s w c :
  holds s w -> full <= Z.of_nat (length w) -> append_key s c = Undef.
Proof.
  intros (_ & Hl & Hb & rest & E) Hf. unfold append_key.
  destruct (decide (Z.of_nat (length w) = full)) as [Hw|].
  - rewrite array_put_ok by (unfold full in *; lia). cbn [mbind res_bind].
    by rewrite array_put_out by (rewrite length_insert; unfold full in *; lia).
  - by rewrite array_put_out by (unfold full in *; lia).
Qed.

Context {Q : KeyQueue}.

(** What a key does to the phase and the line. *)
Inductive reply := Go (ph : phase) (w : list Z) | Done | Crash.

Definition key_reply (ph : phase) (w : list Z) (c : Z) : reply :=
  if c =? 0 then Go ph w
  else if c =? 10 then
    match answer ph w with Some ph' => Go ph' [] | None => Done end
  else if Z.of_nat (length w) <? full then Go ph (w ++ [c]) else Crash.

Lemma holds_world s w d : holds s w -> holds (mk_login (buffer s) (l s) d) w.
Proof. done. Qed.

Lemma round_reply ph s w c ks :
  holds s w -> pending (world s) = c :: ks -> - 128 <= c < 128 ->
  match key_reply ph w c with
  | Go ph' w' => exists s', round (ph, s) = Ok (inl (ph', s')) /\ holds s' w' /\ pending (world s') = ks
  | Done => exists d, round (ph, s) = Ok (inr d)
  | Crash => round (ph, s) = Undef
  end.
Proof.
  intros Hs Hp Hc. destruct (get_key_cons _ _ _ Hp) as [Ek Ep]. unfold key_reply.
  destruct ph; simpl; [unfold name_round|unfold password_round];
    destruct (keyboard_get_key (world s)) as [k d]; simpl in Ek, Ep; subst k.
  all: destruct (Z.eqb_spec c 0) as [->|H0];
    [eexists; split; [done|]; split; [by apply holds_world|by simpl; rewrite pending_schedule]|].
  all: destruct (Z.eqb_spec c 10) as [->|H10].
  - rewrite (compare_line s w (str_bytes "root")) by (done || by repeat constructor).
    cbn [mbind res_bind]. case_bool_decide; eexists; (split; [reflexivity|]);
      (split; [apply holds_password || apply holds_retry|by simpl; rewrite pending_kprintf]).
  - pose proof (holds_world s w d Hs) as Hs'. destruct (Z.ltb_spec (Z.of_nat (length w)) full) as [Hf|Hf].
    + destruct (append_key_ok _ _ c Hs') as (s' & -> & H' & W'); [done..|].
      cbn [mbind res_bind]. eexists. split; [reflexivity|]. split; [done|].
      simpl. by rewrite pending_putc, W'.
    + by rewrite (append_key_full _ _ c Hs' Hf).
  - rewrite (compare_line s w (str_bytes "toor")) by (done || by repeat constructor).
    cbn [mbind res_bind]. case_bool_decide; [by eexists|].
    eexists; (split; [reflexivity|]).
    split; [apply holds_retry|by simpl; rewrite pending_kprintf].
  - pose proof (holds_world s w d Hs) as Hs'. destruct (Z.ltb_spec (Z.of_nat (length w)) full) as [Hf|Hf].
    + destruct (append_key_ok _ _ c Hs') as (s' & -> & H' & W'); [done..|].
      cbn [mbind res_bind]. eexists. split; [reflexivity|]. split; [done|]. by rewrite W'.
    + by rewrite (append_key_full _ _ c Hs' Hf).
Qed.

(** With no key left the prompt polls for ever. *)
Lemma idle fuel : forall ph s w,
  holds s w -> pending (world s) = [] -> while_loop fuel round (ph, s) = Fuel.
Proof.
  induction fuel as [|fuel IH]; intros ph s w Hs Hp; [done|]. simpl.
  destruct (get_key_nil _ Hp) as [Ek Ep].
  destruct ph; simpl; [unfold name_round|unfold password_round];
    destruct (keyboard_get_key (world s)) as [k d]; simpl in Ek, Ep; subst k; simpl;
    (eapply IH; [by apply (holds_world s w)|by simpl; rewrite pending_schedule]).
Qed.

(** The keys of a queue one after the other. *)
Fixpoint run (ph : phase) (w : list Z) (ks : list Z) : reply :=
  match ks with
  | [] => Go ph w
  | c :: ks' => match key_reply ph w c with Go ph' w' => run ph' w' ks' | r => r end
  end.

Lemma session ks : forall fuel ph s w,
  holds s w -> pending (world s) = ks -> Forall (fun c => - 128 <= c < 128) ks ->
  (length ks < fuel)%nat ->
  match run ph w ks with
  | Go _ _ => while_loop fuel round (ph, s) = Fuel
  | Done => exists d, while_loop fuel round (ph, s) = Ok d
  | Crash => while_loop fuel round (ph, s) = Undef
  end.
Proof.
  induction ks as [|c ks IH]; intros fuel ph s w Hs Hp Hk Hf; [by eapply idle|].
  destruct fuel as [|fuel]; [lia|]. apply list.Forall_cons in Hk as [Hc Hk].
  pose proof (round_reply ph s w c ks Hs Hp Hc) as R. simpl run.
  destruct (key_reply ph w c) as [ph' w'| |].
  - destruct R as (s' & E & Hs' & Hp'). cbn [while_loop]. rewrite E. cbn [mbind res_bind].
    apply IH; [done..|]. simpl in Hf. lia.
  - destruct R as (d & E). cbn [while_loop]. rewrite E. by eexists.
  - cbn [while_loop]. by rewrite R.
Qed.

Lemma run_polls ph ks : forall w, run ph w (filter (fun c => c <> 0) ks) = run ph w ks.
Proof.
  revert ph. induction ks as [|c ks IH]; intros ph w; [done|]. rewrite filter_cons.
  destruct (decide (c <> 0)) as [H|H]; cbn [run].
  - destruct (key_reply ph w c); [apply IH|done..].
  - assert (c = 0) as -> by lia. simpl. apply IH.
Qed.

Lemma run_line ph line ks : forall w,
  Forall typed line -> Z.of_nat (length w) + Z.of_nat (length line) <= full ->
  run ph w (line ++ ks) = run ph (w ++ line) ks.
Proof.
  induction line as [|c line IH]; intros w Hl Hf; simpl; [by rewrite app_nil_r|].
  apply list.Forall_cons in Hl as [(_ & H0 & H10) Hl]. unfold key_reply. simpl in Hf. zbool.
  rewrite IH; [|done|rewrite length_app; simpl; lia]. by rewrite <- app_assoc.
Qed.

(** A line the buffer has room for. *)
Definition line_ok (w : list Z) : Prop := Forall typed w /\ Z.of_nat (length w) <= full.

Definition keys_of (lines : list (list Z)) : list Z := flat_map (fun w => w ++ [10]) lines.

Lemma run_lines lines ks : forall ph,
  Forall line_ok lines ->
  if logs_in ph lines then run ph [] (keys_of lines ++ ks) = Done
  else exists ph', run ph [] (keys_of lines ++ ks) = run ph' [] ks.
Proof.
  induction lines as [|w lines IH]; intros ph Hl; simpl; [by eexists|].
  apply list.Forall_cons in Hl as [[Hw Hf] Hl].
  rewrite <- !app_assoc, run_line by (done || simpl; lia). simpl. unfold key_reply. simpl.
  destruct (answer ph w) as [ph'|]; [|done]. apply IH, Hl.
Qed.

Lemma login_session fuel d :
  (malloc 64 d).1 = true -> Forall (fun c => - 128 <= c < 128) (pending d) -> (length (pending d) < fuel)%nat ->
  match run Name [] (filter (fun c => c <> 0) (pending d)) with
  | Go _ _ => __login fuel d = Fuel
  | Done => exists d', __login fuel d = Ok d'
  | Crash => __login fuel d = Undef
  end.
Proof.
  intros Hb Hc Hf. rewrite run_polls. unfold __login. change (Z.of_nat BUFFER_SIZE) with 64.
  pose proof (pending_malloc 64 d) as Hp. destruct (malloc 64 d) as [b d1]. simpl in Hb, Hp. subst b.
  apply session; try done; [apply holds_retry|]. simpl. by rewrite !pending_kprintf.
Qed.

(** *** Properties *)

(** C12. The login task ends exactly when, read line by line, the keys contain a line
    [root] answered by the line [toor] that follows it; any other line asks for
    the name again.  Keys that are not there yet are waited for, and with too
    little typed the task is still at the prompt however long it runs.  Without
    a block for the line the task has no defined behaviour. *)
Theorem login_accepts (fuel : nat) (d : D) (lines : list (list Z)) :
  Forall line_ok lines -> filter (fun c => c <> 0) (pending d) = keys_of lines ->
  Forall (fun c => - 128 <= c < 128) (pending d) -> (length (pending d) < fuel)%nat ->
  if (malloc 64 d).1 then
    if logs_in Name lines then exists d', __login fuel d = Ok d' else __login fuel d = Fuel
  else __login fuel d = Undef.
Proof.
  intros Hl Hk Hc Hf. destruct (malloc 64 d).1 eqn:Hb.
  2: { unfold __login. change (Z.of_nat BUFFER_SIZE) with 64. destruct (malloc 64 d). simpl in Hb. by subst. }
  pose proof (login_session fuel d Hb Hc Hf) as S. rewrite Hk in S.
  pose proof (run_lines lines [] Name Hl) as R. rewrite app_nil_r in R.
  destruct (logs_in Name lines); [by rewrite R in S|].
  destruct R as [ph' R]. by rewrite R in S.
Qed.

(** The buffer has room for lines of 63 characters, and nothing checks it: a
    longer line, at either prompt, stores past its end. *)
Theorem login_overflow (fuel : nat) (d : D) (lines : list (list Z)) (line : list Z) :
  Forall line_ok lines -> logs_in Name lines = false ->
  Forall typed line -> Z.of_nat (length line) = full + 1 ->
  filter (fun c => c <> 0) (pending d) = keys_of lines ++ line ->
  Forall (fun c => - 128 <= c < 128) (pending d) -> (length (pending d) < fuel)%nat ->
  __login fuel d = Undef.
Proof.
  intros Hl Hn Ht Hlen Hk Hc Hf. destruct (malloc 64 d).1 eqn:Hb.
  2: { unfold __login. change (Z.of_nat BUFFER_SIZE) with 64. destruct (malloc 64 d). simpl in Hb. by subst. }
  pose proof (login_session fuel d Hb Hc Hf) as S. rewrite Hk in S.
  pose proof (run_lines lines line Name Hl) as R. rewrite Hn in R. destruct R as [ph R].
  rewrite R in S. destruct (exists_last (l := line)) as (w & c & ->); [by intros ->|].
  rewrite length_app in Hlen. simpl in Hlen. apply Forall_app in Ht as [Ht [(_ & H0 & H10) _]%list.Forall_cons].
  rewrite (run_line ph w [c] []) in S by (done || simpl; lia). simpl in S. unfold key_reply in S.
  rewrite (proj2 (Z.eqb_neq c 0)), (proj2 (Z.eqb_neq c 10)), (proj2 (Z.ltb_ge _ _)) in S by lia.
  exact S.
Qed.

End Login.

(** *** Witnesses *)

(** A machine that is its key queue. *)
#[local] Instance demo_tasks : TaskEnv (list Z) := {
  malloc _ d := (true, d); kprintf _ d := d; disp_putc _ d := d; keyboard_get_key d := (hd 0 d, tl d);
  schedule_noirq d := d; _kill d := d
}.

#[local] Instance demo_queue : KeyQueue (D := list Z).
Proof.
  refine {| pending := fun d : list Z => d |}; try done;
    [by intros d ->|by intros d c ks ->].
Defined.

Definition good_lines : list (list Z) := [str_bytes "guest"; str_bytes "root"; str_bytes "toor"].
Definition bad_lines : list (list Z) := [str_bytes "root"; str_bytes "guess"; str_bytes "toor"].

Lemma demo_line_ok w :
  forallb (fun c => (0 <? c) && (c <? 128) && negb (c =? 10)) w && (length w <=? 63)%nat = true ->
  line_ok w.
Proof.
  intros [Hw Hl]%andb_prop. split; [|apply Nat.leb_le in Hl; unfold full, BUFFER_SIZE; lia].
  apply list.Forall_forall. intros c Hc. rewrite forallb_forall in Hw.
  specialize (Hw c (proj1 (list_elem_of_In _ _) Hc)). unfold typed. lia.
Qed.

Lemma demo_chars ks :
  forallb (fun c => (- 128 <=? c) && (c <? 128)) ks = true -> Forall (fun c => - 128 <= c < 128) ks.
Proof.
  rewrite forallb_forall. intros H. apply list.Forall_forall. intros c Hc.
  specialize (H c (proj1 (list_elem_of_In _ _) Hc)). lia.
Qed.

Lemma login_accepts_witness :
  (exists d', __login 40 (0 :: keys_of good_lines) = Ok d') /\
  __login 40 (keys_of bad_lines) = Fuel.
Proof.
  split.
  - refine (login_accepts 40 (0 :: keys_of good_lines) good_lines _ _ _ _);
      [repeat (constructor; [by apply demo_line_ok|]); constructor|reflexivity
      |by apply demo_chars|simpl; lia].
  - refine (login_accepts 40 (keys_of bad_lines) bad_lines _ _ _ _);
      [repeat (constructor; [by apply demo_line_ok|]); constructor|reflexivity
      |by apply demo_chars|simpl; lia].
Defined.

Lemma login_overflow_witness :
  __login 80 (keys_of [str_bytes "root"] ++ replicate 64 97) = Undef.
Proof.
  apply (login_overflow 80 _ [str_bytes "root"] (replicate 64 97));
    [repeat (constructor; [by apply demo_line_ok|]); constructor|reflexivity
    |apply Forall_replicate; unfold typed; lia|reflexivity|reflexivity
    |by apply demo_chars|simpl; lia].
Defined.

End Login.

Module TestDevice.

(** The [switch] on [len % 5]. *)
Definition letter (k : Z) : Z :=
  if k =? 0 then 88 else if k =? 1 then 69 else if k =? 2 then 86 else if k =? 3 then 69 else 76.

(** A round of [while(len--)] on the memory, the pointer and [len]. *)
Definition read_round (x : mem * Z * Z) : res (mem * Z * Z + mem * Z) :=
  let '(m, buffer, len) := x in
  if len =? 0 then Ok (inr (m, buffer))
  else
    m ← store8 m buffer (letter ((len - 1) mod 5));
    Ok (inl (m, buffer + 1, len - 1)).

Definition test_device_read (fuel : nat) (m : mem) (buffer len : Z) : res mem :=
  '(m, buffer) ← while_loop fuel read_round (m, buffer, u32 (len - 1));
  store8 m buffer 0.

(** The [n] characters the loop stores. *)
Fixpoint device_text (n : nat) : list Z :=
  match n with
  | O => []
  | S n' => letter (Z.of_nat n' mod 5) :: device_text n'
  end.

(** *** Lemmas *)
Lemma letter_u8 k : u8 (letter k) = letter k.
Proof. unfold letter. repeat case_bool; done. Qed.

Lemma read_loop_ok n : forall fuel m p,
  mapped m p (Z.of_nat n) -> (n < fuel)%nat ->
  while_loop fuel read_round (m, p, Z.of_nat n) =
    Ok (write_list m p (device_text n), p + Z.of_nat n).
Proof.
  induction n as [|n IH]; intros fuel m p Hm Hf; (destruct fuel as [|fuel]; [lia|]).
  - cbn. by rewrite Z.add_0_r.
  - cbn [while_loop read_round device_text write_list]. zbool.
    replace (Z.of_nat (S n) - 1) with (Z.of_nat n) by lia.
    rewrite store8_ok by (rewrite <- (Z.add_0_r p); apply Hm; lia). cbn [mbind res_bind]. rewrite letter_u8, IH; [f_equal; f_equal; lia| |lia].
    intros a Ha. rewrite lookup_insert_ne by lia.
    replace (p + 1 + a) with (p + (1 + a)) by lia. apply Hm. lia.
Qed.

Lemma read_loop_undef n : forall fuel m p len,
  m !! (p + Z.of_nat n) = None -> Z.of_nat n < len -> (n < fuel)%nat ->
  while_loop fuel read_round (m, p, len) = Undef.
Proof.
  induction n as [|n IH]; intros fuel m p len Hm Hn Hf; (destruct fuel as [|fuel]; [lia|]);
    cbn [while_loop read_round]; zbool.
  - rewrite Z.add_0_r in Hm. by rewrite store8_undef.
  - destruct (m !! p) as [b|] eqn:Hp; [|by rewrite store8_undef].
    rewrite store8_ok by done. cbn [mbind res_bind]. apply IH; [|lia..].
    rewrite lookup_insert_ne by lia. by replace (p + 1 + Z.of_nat n) with (p + Z.of_nat (S n)) by lia.
Qed.

(** *** Properties *)

(** Reading [len] bytes, one at least, leaves [len - 1] letters of [LEVEX] counted
    down from the end and a terminator in the buffer, and nothing else changes;
    a read of 0 bytes counts down from [2^32 - 1] and leaves every buffer. *)
Theorem test_device_read_fills (fuel : nat) (m : mem) (buffer : Z) (n : nat) :
  Z.of_nat n + 1 < 2 ^ 32 -> (n < fuel)%nat ->
  (mapped m buffer (Z.of_nat n + 1) ->
     test_device_read fuel m buffer (Z.of_nat n + 1) =
       Ok (write_list m buffer (device_text n ++ [0]))) /\
  (m !! (buffer + Z.of_nat n) = None -> test_device_read fuel m buffer 0 = Undef).
Proof.
  intros Hn Hf. unfold test_device_read. split.
  - intros Hm. rewrite wrap_small by lia. replace (Z.of_nat n + 1 - 1) with (Z.of_nat n) by lia.
    rewrite read_loop_ok by (done || intros a Ha; apply Hm; lia). cbn [mbind res_bind].
    assert (length (device_text n) = n) as L by (clear; induction n; simpl; by f_equal).
    rewrite store8_ok.
    + rewrite write_list_app, L. done.
    + rewrite write_list_lookup_ne by lia. apply Hm. lia.
  - intros Hm. change (u32 (0 - 1)) with (2 ^ 32 - 1).
    by rewrite (read_loop_undef n) by (done || lia).
Qed.

(** [__read] asks for 32 bytes. *)
Lemma test_device_read_fills_witness :
  let m := mem_of 1000 (replicate 32 7) in
  test_device_read 32 m 1000 32 = Ok (write_list m 1000 (str_bytes "XLEVEXLEVEXLEVEXLEVEXLEVEXLEVEX" ++ [0])) /\
  test_device_read 33 m 1000 0 = Undef.
Proof.
  intros m. split.
  - apply (test_device_read_fills 32 m 1000 31); [lia..|].
    exact (bytes_at_mapped m 1000 (replicate 32 7) (write_list_bytes_at _ _ _)).
  - apply (test_device_read_fills 33 m 1000 32); [lia..|reflexivity].
Defined.

End TestDevice.
