(* ===== verification/Terminal.v ===== *)
(** [kernel/main.c]: the kernel terminal, the task [_test].

    The task reads keys into a 256-byte line buffer, and on Enter splits the line
    at its blanks and runs the command named by the first word: one definition per
    command, each ending where the source has [goto prompt].  The C statics are a
    record; memory is byte-addressed, so the string work of the commands (the
    split line, the working directory, the paths built for [write] and [touch])
    is done by the routines of [CString] on the bytes themselves.  The display,
    keyboard, scheduler, allocator, file system and devices are not part of the
    repository: they are a class of operations on memory and the rest of the
    machine.  [kprintf] is given its format and its arguments.  The line editor is
    stated on the row of cells the display shows ([editor]). *)

From S2P Require Import Prelude Mem CString Display.

Class SystemEnv (D : Type) := {
  kprintf : list Z -> list arg -> mem * D -> D;
  set_task : Z -> mem * D -> mem * D;
  __mprint : list Z -> list Z -> list arg -> mem * D -> D;
  (** The name the compiler is given for [kernel/main.c]. *)
  __FILE__ : list Z;
  disp_putc : Z -> D -> D;
  disp_clear : D -> D;
  con_cx : D -> Z;
  set_con_cx : Z -> D -> D;
  keyboard_enabled : mem * D -> Z * (mem * D);
  keyboard_get_key : mem * D -> Z * (mem * D);
  schedule_noirq : mem * D -> mem * D;
  START_AND_WAIT : list Z -> mem * D -> mem * D;
  is_pid_running : Z -> mem * D -> Z * (mem * D);
  kill : Z -> mem * D -> mem * D;
  exec_start : Z -> mem * D -> Z * (mem * D);
  outportb : Z -> Z -> mem * D -> mem * D;
  malloc : Z -> mem * D -> Z * (mem * D);
  free : Z -> mem * D -> mem * D;
  vfs_read : arg -> Z -> mem * D -> Z * (mem * D);
  vfs_ls : Z -> Z -> mem * D -> Z * (mem * D);
  vfs_exist_in_dir : Z -> Z -> mem * D -> Z * (mem * D);
  list_mount : mem * D -> mem * D;
  mm_print_out : mem * D -> mem * D;
  device_print_out : mem * D -> mem * D;
  module_call_func : list Z -> mem * D -> mem * D;
  device_get : Z -> mem * D -> Z * (mem * D);
  device_get_by_id : Z -> mem * D -> Z * (mem * D);
  device_try_to_mount : Z -> list Z -> mem * D -> Z * (mem * D);
  dev_name : Z -> mem * D -> arg;
  dev_unique_id : Z -> mem * D -> Z;
  dev_fs_name : Z -> mem * D -> arg;
  fs_writefile : Z -> arg -> Z -> Z -> mem * D -> mem * D;
  fs_touch : Z -> Z -> mem * D -> mem * D
}.

Definition hostname : list Z := str_bytes "levex-levos".
Definition username : list Z := str_bytes "root".
Definition prompt : list Z := str_bytes "(kernel) $ ".

Definition NO_PARAMETER : list Z := str_bytes "FATAL: no parameter." ++ [10].
Definition NO_ARGUMENT : list Z := str_bytes "FATAL: No argument supplied." ++ [10].
Definition NO_ROOT : list Z := str_bytes "FATAL: No root directory. Mount with 'fl'." ++ [10].

Section Terminal.
Context {D : Type} `{!SystemEnv D}.

(** The statics of the terminal, its local [prompt_size], and the machine: memory
    and the rest. *)
Record term := mk_term {
  mach : mem * D;
  buffer : Z;
  ls_buffer : Z;
  file_buf : Z;
  loc : Z;
  wd : Z;
  root_mounted : bool;
  prompt_size : Z
}.

Definition mem_of_term (s : term) : mem := (mach s).1.

Definition set_mach (s : term) (x : mem * D) : term :=
  mk_term x (buffer s) (ls_buffer s) (file_buf s) (loc s) (wd s) (root_mounted s) (prompt_size s).
Definition set_mem (s : term) (m : mem) : term := set_mach s (m, (mach s).2).
Definition set_loc (s : term) (n : Z) : term :=
  mk_term (mach s) (buffer s) (ls_buffer s) (file_buf s) n (wd s) (root_mounted s) (prompt_size s).
Definition set_prompt_size (s : term) (n : Z) : term :=
  mk_term (mach s) (buffer s) (ls_buffer s) (file_buf s) (loc s) (wd s) (root_mounted s) n.
Definition set_root (s : term) (p : Z) : term :=
  mk_term (mach s) (buffer s) (ls_buffer s) (file_buf s) (loc s) p true (prompt_size s).

Definition on_mach (f : mem * D -> mem * D) (s : term) : term := set_mach s (f (mach s)).
Definition on_dev (f : D -> D) (s : term) : term := set_mach s ((mach s).1, f (mach s).2).
Definition print (fmt : list Z) (args : list arg) (s : term) : term :=
  set_mach s ((mach s).1, kprintf fmt args (mach s)).

(** The pieces the commands share: a call that answers a number, the rest of the
    line after the command, the size of the prompt once a root is mounted, and
    the wait for a process. *)
Definition call (f : mem * D -> Z * (mem * D)) (s : term) : Z * term :=
  let '(r, x) := f (mach s) in (r, set_mach s x).

Definition get_arg (s : term) : res Z :=
  n ← strlen (mem_of_term s) (buffer s); Ok (buffer s + n + 1).

Definition no_arg (n : Z) : bool := (n =? 0) || (n =? 1).

Definition mounted_prompt (s : term) : res term :=
  n ← strlen (mem_of_term s) (wd s);
  Ok (set_prompt_size s (u8 (Z.of_nat (length username) + Z.of_nat (length hostname) + 4 + n))).

Definition wait_pid (fuel : nat) (pid : Z) (s : term) : res term :=
  while_loop fuel (fun s =>
    let '(r, s) := call (is_pid_running pid) s in
    Ok (if r =? 0 then inr s else inl (on_mach schedule_noirq s))) s.

(** [if(pid = exec_start(file_buf)) while(is_pid_running(pid)) ...] *)
Definition exec_file (fuel : nat) (s : term) : res term :=
  let '(pid, s) := call (exec_start (file_buf s)) s in
  if pid =? 0 then Ok s else wait_pid fuel pid s.

(** ** The commands *)
Definition cmd_help (s : term) : res term :=
  let s := print (str_bytes "LevOS4.0" ++ [10] ++ str_bytes "This is the kernel terminal." ++ [10] ++
                  str_bytes "Don't do anything stupid." ++ [10]) [] s in
  Ok (print (str_bytes "Commands available: help; reboot; read; malloc; ps; fl; cd; ls" ++ [10] ++
             str_bytes "clear; reset; time; v; kill" ++ [10]) [] s).

Definition cmd_reboot (s : term) : res term := Ok (on_mach (outportb 0x64 0xFE) s).

Definition cmd_malloc (s : term) : res term :=
  let '(p, s) := call (malloc 1337) s in
  let s := on_mach (free p) s in
  Ok (call (malloc 1337) s).2.

Definition cmd_uname (s : term) : res term :=
  if negb (root_mounted s) then Ok s
  else
    let '(_, s) := call (vfs_read (ALit (str_bytes "/proc/os/full")) (file_buf s)) s in
    let s := print (str_bytes "%s" ++ [10]) [APtr (file_buf s)] s in
    m ← memset (mem_of_term s) (file_buf s) 0 512;
    Ok (set_mem s m).

Definition cmd_cat (n : Z) (s : term) : res term :=
  if no_arg n then Ok (print NO_PARAMETER [] s)
  else
    a ← get_arg s;
    m ← memset (mem_of_term s) (file_buf s) 0 512;
    let '(r, s) := call (vfs_read (APtr a) (file_buf s)) (set_mem s m) in
    Ok (if r =? 0 then print (str_bytes "File not found." ++ [10]) [] s
        else print (str_bytes "%s" ++ [10]) [APtr (file_buf s)] s).

(** [cu_pid] is the process that moves the cursor. *)
Definition cmd_kill (fuel : nat) (cu_pid : Z) (s : term) : res term :=
  wait_pid fuel cu_pid (on_mach (kill cu_pid) s).

Definition cmd_ls (s : term) : res term :=
  if negb (root_mounted s) then Ok (print NO_ROOT [] s)
  else
    let '(r, s) := call (vfs_ls (wd s) (ls_buffer s)) s in
    Ok (if r =? 0 then print (str_bytes "Error." ++ [10]) [] s else s).

(** The new directory [wd ++ arg ++ "/"], built in a block of its own and copied
    back. *)
Definition enter_dir (a : Z) (s : term) : res term :=
  nw ← strlen (mem_of_term s) (wd s);
  na ← strlen (mem_of_term s) a;
  let size := u32 (nw + na + 2) in
  let '(w, s) := call (malloc size) s in
  m ← memset (mem_of_term s) w 0 size;
  nw ← strlen m (wd s);
  m ← memcpy m w (wd s) nw;
  nw ← strlen m (wd s);
  na ← strlen m a;
  m ← memcpy m (w + nw) a na;
  n ← strlen m w;
  m ← store_bytes m (w + n) [47; 0];
  n ← strlen m w;
  m ← memcpy m (wd s) w (u32 (n + 1));
  mounted_prompt (on_mach (free w) (set_mem s m)).

Definition cmd_cd (n : Z) (s : term) : res term :=
  if negb (root_mounted s) then Ok (print NO_ROOT [] s)
  else if no_arg n then Ok (print NO_PARAMETER [] s)
  else
    a ← get_arg s;
    dot ← strcmp_lit (mem_of_term s) a (str_bytes ".");
    if dot : bool then Ok s
    else
      dotdot ← strcmp_lit (mem_of_term s) a (str_bytes "..");
      if dotdot : bool then
        nw ← strlen (mem_of_term s) (wd s);
        if nw =? 1 then Ok s
        else
          '(_, m) ← str_backspace (mem_of_term s) (wd s) 47;
          mounted_prompt (set_mem s m)
      else
        let '(r, s) := call (vfs_exist_in_dir (wd s) a) s in
        if r =? 0 then Ok s else enter_dir a s.

Definition cmd_fl (n : Z) (s : term) : res term :=
  if no_arg n then
    Ok (print (str_bytes "FATAL: No id parameter, select root with devinfo" ++ [10]) [] s)
  else
    a ← get_arg s;
    devid ← atoi (mem_of_term s) a;
    let s := print (str_bytes "arg: %d" ++ [10]) [ANum devid] s in
    let '(d, s) := call (device_get devid) s in
    if d =? 0 then Ok (print (str_bytes "Unable to locate medium!" ++ [10]) [] s)
    else
      let '(r, s) := call (device_try_to_mount d (str_bytes "/")) s in
      let x := mach s in
      if r =? 0 then
        Ok (print (str_bytes "Unable to mount / on %s (%d)!" ++ [10])
              [dev_name d x; ANum (dev_unique_id d x)] s)
      else
        let s := print (str_bytes "Mounted / on %s (%d) with %s" ++ [10])
                   [dev_name d x; ANum (dev_unique_id d x); dev_fs_name d x] s in
        let '(p, s) := call (malloc 512) s in
        m ← store_bytes (mem_of_term s) p [47; 0];
        s ← mounted_prompt (set_root (set_mem s m) p);
        let '(d19, s) := call (device_get_by_id 19) s in
        let '(_, s) := call (device_try_to_mount d19 (str_bytes "/mnt/")) s in
        Ok (on_mach (START_AND_WAIT (str_bytes "devfs_init"))
              (on_mach (START_AND_WAIT (str_bytes "proc_init")) s)).

(** The file name [wd ++ arg] that [write] and [touch] build. *)
Definition build_path (a : Z) (s : term) : res (Z * term) :=
  nw ← strlen (mem_of_term s) (wd s);
  na ← strlen (mem_of_term s) a;
  let '(f, s) := call (malloc (u32 (nw + na + 1))) s in
  nw ← strlen (mem_of_term s) (wd s);
  m ← memcpy (mem_of_term s) f (wd s) nw;
  nw ← strlen m (wd s);
  na ← strlen m a;
  m ← memcpy m (f + nw) a (u32 (na + 1));
  nw ← strlen m (wd s);
  na ← strlen m a;
  m ← store8 m (f + u32 (nw + na + 1)) 0;
  Ok (f, set_mem s m).

Definition cmd_write (n : Z) (s : term) : res term :=
  if no_arg n then Ok (print NO_ARGUMENT [] s)
  else
    let '(d, s) := call (device_get_by_id 19) s in
    a ← get_arg s;
    '(f, s) ← build_path a s;
    let s := print (str_bytes "Writing 'levex is epic' to %s" ++ [10]) [APtr f] s in
    let my_buf := str_bytes "levex is epic" in
    let s := on_mach (fs_writefile f (ALit my_buf) (Z.of_nat (length my_buf) + 1) d) s in
    Ok (on_mach (free f) s).

Definition cmd_touch (n : Z) (s : term) : res term :=
  if no_arg n then Ok (print NO_ARGUMENT [] s)
  else
    let '(d, s) := call (device_get_by_id 19) s in
    a ← get_arg s;
    '(f, s) ← build_path a s;
    let s := print (str_bytes "Touching %s" ++ [10]) [APtr f] s in
    Ok (on_mach (free f) (on_mach (fs_touch f d) s)).

Definition cmd_lev (fuel : nat) (s : term) : res term :=
  let '(r, s) := call (vfs_read (ALit (str_bytes "/bin/hw")) (file_buf s)) s in
  if r =? 0 then Ok (print (str_bytes "Unable to read /bin/hw" ++ [10]) [] s)
  else exec_file fuel s.

(** Any other word is a file to run; an empty line is nothing. *)
Definition cmd_run (fuel : nat) (s : term) : res term :=
  b ← load8 (mem_of_term s) (buffer s);
  if b =? 0 then Ok s
  else
    let '(r, s) := call (vfs_read (APtr (buffer s)) (file_buf s)) s in
    if r =? 0 then Ok s else exec_file fuel s.

(** The chain of [strcmp]s: the first entry of the table the word equals. *)
Fixpoint dispatch (table : list (list Z * (term -> res term))) (other : term -> res term) (s : term)
    : res term :=
  match table with
  | [] => other s
  | (w, f) :: table' =>
      eq ← strcmp_lit (mem_of_term s) (buffer s) w;
      if eq : bool then f s else dispatch table' other s
  end.

Definition commands (fuel : nat) (cu_pid n : Z) : list (list Z * (term -> res term)) :=
  [ (str_bytes "help", cmd_help);
    (str_bytes "reboot", cmd_reboot);
    (str_bytes "read", fun s => Ok (on_mach (START_AND_WAIT (str_bytes "read")) s));
    (str_bytes "malloc", cmd_malloc);
    (str_bytes "mount", fun s => Ok (on_mach list_mount s));
    (str_bytes "uname", cmd_uname);
    (str_bytes "cat", cmd_cat n);
    (str_bytes "ps", fun s => Ok (on_mach (START_AND_WAIT (str_bytes "ps")) s));
    (str_bytes "time", fun s => Ok (on_mach (START_AND_WAIT (str_bytes "time")) s));
    (str_bytes "clear", fun s => Ok (on_dev disp_clear s));
    (str_bytes "reset", fun s => Ok (on_dev disp_clear s));
    (str_bytes "v", fun s => Ok (on_mach (module_call_func (str_bytes "__test")) s));
    (str_bytes "kill", cmd_kill fuel cu_pid);
    (str_bytes "ls", cmd_ls);
    (str_bytes "mem", fun s => Ok (on_mach mm_print_out s));
    (str_bytes "cd", cmd_cd n);
    (str_bytes "devinfo", fun s => Ok (on_mach device_print_out s));
    (str_bytes "fl", cmd_fl n);
    (str_bytes "write", cmd_write n);
    (str_bytes "lev", cmd_lev fuel);
    (str_bytes "touch", cmd_touch n) ].

Definition run_command (fuel : nat) (cu_pid n : Z) (s : term) : res term :=
  dispatch (commands fuel cu_pid n) (cmd_run fuel) s.

(** ** The line editor *)

(** The label [prompt]. *)
Definition show_prompt (s : term) : res term :=
  let s := if root_mounted s
           then print (str_bytes "%s@%s:%s$ ") [ALit username; ALit hostname; APtr (wd s)] s
           else print prompt [] s in
  m ← memset (mem_of_term s) (buffer s) 0 256;
  Ok (set_mem s m).

(** [buffer[loc] = c] *)
Definition put_buffer (s : term) (c : Z) : res term :=
  m ← store8 (mem_of_term s) (buffer s + loc s) c; Ok (set_mem s m).

Definition erase_key (s : term) : res term :=
  if con_cx (mach s).2 <=? prompt_size s then Ok s
  else
    let s := on_dev (set_con_cx (con_cx (mach s).2 - 1)) s in
    let s := on_dev (disp_putc 32) s in
    let s := on_dev (set_con_cx (con_cx (mach s).2 - 1)) s in
    s ← put_buffer s 0;
    Ok (set_loc s (u16 (loc s - 1))).

Definition enter_key (fuel : nat) (cu_pid : Z) (s : term) : res term :=
  s ← put_buffer (on_dev (disp_putc 10) s) 0;
  let s := set_loc s 0 in
  '(n, m) ← strsplit (mem_of_term s) (buffer s) 32;
  s ← run_command fuel cu_pid n (set_mem s m);
  show_prompt s.

Definition type_key (c : Z) (s : term) : res term :=
  s ← put_buffer s c;
  s ← put_buffer (set_loc s (u16 (loc s + 1))) 0;
  Ok (on_dev (disp_putc c) s).

Definition handle_key (fuel : nat) (cu_pid : Z) (s : term) (c : Z) : res term :=
  if c =? 13 then erase_key s
  else if c =? 10 then enter_key fuel cu_pid s
  else type_key c s.

(** A round of the endless loop. *)
Definition round (fuel : nat) (cu_pid : Z) (s : term) : res term :=
  let '(e, s) := call keyboard_enabled s in
  if e =? 0 then Ok (on_mach schedule_noirq s)
  else
    let '(c, s) := call keyboard_get_key s in
    if c =? 0 then Ok s else handle_key fuel cu_pid s c.

(** The calls of a macro of [display.h]; nothing follows [Forever]. *)
Fixpoint run_report (l : list report) (x : mem * D) : mem * D :=
  match l with
  | [] => x
  | Display.set_task pid :: l' => run_report l' (set_task pid x)
  | Display.kprintf fmt args :: l' => run_report l' (x.1, kprintf fmt args x)
  | Display.__mprint name fmt args :: l' => run_report l' (x.1, __mprint name fmt args x)
  | Forever :: _ => x
  end.

(** [_test] up to [rounds] rounds of its loop, from the statics a restarted task
    finds; [inr] is where the panic loops when there is no memory. *)
Definition _test (fuel rounds : nat) (cu_pid : Z) (s : term) : res (term + mem * D) :=
  let '(b, s) := call (malloc 256) s in
  let '(l, s) := call (malloc 1024) s in
  let '(f, s) := call (malloc 524288) s in
  if f =? 0 then
    let message := str_bytes "Kernel terminal has no memory available!" ++ [10] in
    Ok (inr (run_report (panic (mk_place __FILE__ 305 (str_bytes "_test")) message []) (mach s)))
  else
    let '(_, s) := call (malloc 512) s in
    let s := mk_term (mach s) b l f (loc s) (wd s) (root_mounted s)
               (u8 (Z.of_nat (length prompt))) in
    let s := print (str_bytes "Welcome to LevOS 4.0" ++ [10] ++
                    str_bytes "This is a very basic terminal." ++ [10] ++
                    str_bytes "Don't do anything stupid." ++ [10]) [] s in
    s ← show_prompt s;
    s ← for_loop rounds 0 (fun _ s => round fuel cu_pid s) s;
    Ok (inl s).

(** Keys one after the other. *)
Fixpoint handle_keys (fuel : nat) (cu_pid : Z) (s : term) (ks : list Z) : res term :=
  match ks with
  | [] => Ok s
  | c :: ks' => s ← handle_key fuel cu_pid s c; handle_keys fuel cu_pid s ks'
  end.

(** ** The edited line *)

Definition edit (line : list Z) (c : Z) : list Z :=
  if c =? 13 then removelast line else line ++ [c].

Definition key_ok (c : Z) : Prop := 32 <= c < 127 \/ c = 13.

(** The line stays on the row of the prompt, of 80 columns. *)
Fixpoint room (p : Z) (line ks : list Z) : Prop :=
  p + Z.of_nat (length line) <= 79 /\
  match ks with [] => True | c :: ks' => room p (edit line c) ks' end.

(** The terminal waits for a key, with [line] typed after the prompt. *)
Definition ready (s : term) (line : list Z) : Prop :=
  Forall (fun c => 32 <= c < 127) line /\
  0 <= prompt_size s /\ prompt_size s + Z.of_nat (length line) <= 79 /\
  loc s = Z.of_nat (length line) /\
  con_cx (mach s).2 = prompt_size s + Z.of_nat (length line) /\
  mapped (mem_of_term s) (buffer s) 256 /\ bytes_at (mem_of_term s) (buffer s) line.

(** Nothing but the line buffer, its counter and the machine changes. *)
Definition frame (s s' : term) : Prop :=
  (buffer s', ls_buffer s', file_buf s', wd s', root_mounted s', prompt_size s') =
  (buffer s, ls_buffer s, file_buf s, wd s, root_mounted s, prompt_size s) /\
  forall a, ~ (buffer s <= a < buffer s + 256) -> mem_of_term s' !! a = mem_of_term s !! a.

(** The console driver: a printable character is shown in the column of the cursor and
    moves it one column to the right, except in the last one; moving the cursor
    shows nothing. *)
Class ConsoleLaws := {
  (** What the row of the cursor shows in a column. *)
  con_cell : D -> Z -> Z;
  cx_putc c d : 32 <= c < 127 -> con_cx d < 79 -> con_cx (disp_putc c d) = con_cx d + 1;
  cell_putc c d x : 32 <= c < 127 -> 0 <= con_cx d < 79 ->
    con_cell (disp_putc c d) x = if x =? con_cx d then c else con_cell d x;
  cx_set v d : con_cx (set_con_cx v d) = v;
  cell_set v d x : con_cell (set_con_cx v d) x = con_cell d x
}.

(** The allocator: a block that is not the null pointer is new memory, the
    objects there are keep their bytes, and [free] touches its block only. *)
Class AllocLaws := {
  block_size : D -> Z -> Z;
  malloc_block n x p x' :
    malloc n x = (p, x') -> p <> 0 ->
    mapped x'.1 p n /\ block_size x'.2 p = n /\
    (forall a, p <= a < p + n -> x.1 !! a = None) /\
    (forall a, is_Some (x.1 !! a) -> x'.1 !! a = x.1 !! a);
  free_block p x a :
    ~ (p <= a < p + block_size x.2 p) -> (free p x).1 !! a = x.1 !! a
}.

(** A line editor: the line as it reads, the string its buffer holds, which after an
    erasure still has the erased character, and how far the line has reached. *)
Record editor := mk_editor { text : list Z; held : list Z; reach : Z }.

Definition press (e : editor) (c : Z) : editor :=
  if c =? 13 then
    match text e with [] => e | _ => mk_editor (removelast (text e)) (text e) (reach e) end
  else
    let l := text e ++ [c] in mk_editor l l (Z.max (reach e) (Z.of_nat (length l))).

(** The row with the line behind the [p] columns of the prompt and blanks where it has
    been, on the row as it was. *)
Definition row (p : Z) (e : editor) (row0 : Z -> Z) (x : Z) : Z :=
  if x <? p then row0 x
  else default (if x <? p + reach e then 32 else row0 x) (text e !! Z.to_nat (x - p)).

(** *** Lemmas *)
Context {L : ConsoleLaws}.

(** The buffer and the row are those of the editor. *)
Definition edited (s : term) (e : editor) (row0 : Z -> Z) : Prop :=
  cstring (mem_of_term s) (buffer s) (held e) /\ Z.of_nat (length (text e)) <= reach e /\
  forall x, con_cell (mach s).2 x = row (prompt_size s) e row0 x.

Lemma row_type p e row0 c x :
  (c =? 13) = false -> Z.of_nat (length (text e)) <= reach e ->
  row p (press e c) row0 x = if x =? p + Z.of_nat (length (text e)) then c else row p e row0 x.
Proof.
  intros Hc Hr. unfold row, press. rewrite Hc. cbn [text reach]. rewrite length_app. cbn [length].
  destruct (Z.ltb_spec x p); [by rewrite (proj2 (Z.eqb_neq _ _)) by lia|].
  destruct (Z.eqb_spec x (p + Z.of_nat (length (text e)))) as [->|Hx].
  - replace (Z.to_nat (p + Z.of_nat (length (text e)) - p)) with (length (text e)) by lia.
    by rewrite list_lookup_middle by done.
  - destruct (decide (x < p + Z.of_nat (length (text e)))).
    + rewrite lookup_app_l by lia.
      by destruct (lookup_lt_is_Some_2 (text e) (Z.to_nat (x - p))) as [b ->]; [lia|].
    + rewrite !(lookup_ge_None_2) by (rewrite ?length_app; simpl; lia).
      destruct (Z.ltb_spec x (p + reach e)); [by rewrite (proj2 (Z.ltb_lt _ _)) by lia|].
      by rewrite (proj2 (Z.ltb_ge _ _)) by lia.
Qed.

Lemma row_erase p l a h r row0 x :
  Z.of_nat (length (l ++ [a])) <= r ->
  row p (press (mk_editor (l ++ [a]) h r) 13) row0 x =
  if x =? p + Z.of_nat (length l) then 32 else row p (mk_editor (l ++ [a]) h r) row0 x.
Proof.
  rewrite length_app. cbn [length]. intros Hr. unfold press. change (13 =? 13) with true. cbn [text reach].
  assert ((match l ++ [a] with [] => mk_editor (l ++ [a]) h r | _ => mk_editor (removelast (l ++ [a])) (l ++ [a]) r end) =
    mk_editor l (l ++ [a]) r) as -> by (rewrite removelast_last; by destruct l).
  unfold row. cbn [text reach]. destruct (Z.ltb_spec x p); [by rewrite (proj2 (Z.eqb_neq _ _)) by lia|].
  destruct (Z.eqb_spec x (p + Z.of_nat (length l))) as [->|Hx].
  - by rewrite lookup_ge_None_2, (proj2 (Z.ltb_lt _ _)) by lia.
  - destruct (decide (x < p + Z.of_nat (length l))).
    + by rewrite lookup_app_l by lia.
    + by rewrite !lookup_ge_None_2 by (rewrite ?length_app; simpl; lia).
Qed.

Lemma term_frame_refl s : frame s s.
Proof. done. Qed.

Lemma term_frame_trans s1 s2 s3 : frame s1 s2 -> frame s2 s3 -> frame s1 s3.
Proof.
  intros [E1 H1] [E2 H2]. split; [by rewrite E2|]. intros a Ha.
  rewrite H2, H1; [done..|]. by injection E1 as -> _.
Qed.

Lemma put_buffer_ok s c :
  mapped (mem_of_term s) (buffer s) 256 -> 0 <= loc s < 256 ->
  exists s', put_buffer s c = Ok s' /\ frame s s' /\ loc s' = loc s /\ (mach s').2 = (mach s).2 /\
    mem_of_term s' = <[buffer s + loc s := u8 c]> (mem_of_term s).
Proof.
  intros Hm Hl. unfold put_buffer. rewrite store8_ok by (apply Hm; lia). cbn [mbind res_bind].
  eexists. split; [done|]. split; [|done]. split; [done|]. intros a Ha.
  apply lookup_insert_ne. lia.
Qed.

Lemma mapped_insert m p n a v : mapped m p n -> mapped (<[a := v]> m) p n.
Proof.
  intros Hm i Hi. destruct (decide (a = p + i)) as [->|]; [by rewrite lookup_insert_eq|].
  rewrite lookup_insert_ne by done. by apply Hm.
Qed.

Lemma bytes_at_snoc m p l c :
  bytes_at m p l -> bytes_at (<[p + Z.of_nat (length l) := c]> m) p (l ++ [c]).
Proof.
  intros Hl. apply bytes_at_app. split; [apply bytes_at_insert_ne; [lia|done]|].
  intros i b Hi. destruct i as [|i]; [|done]. injection Hi as <-.
  rewrite Z.add_0_r. apply lookup_insert_eq.
Qed.

Lemma type_key_ok s line c :
  ready s line -> 32 <= c < 127 -> prompt_size s + Z.of_nat (length (line ++ [c])) <= 79 ->
  exists s', type_key c s = Ok s' /\ ready s' (line ++ [c]) /\ frame s s' /\
    cstring (mem_of_term s') (buffer s) (line ++ [c]) /\ (mach s').2 = disp_putc c (mach s).2.
Proof.
  rewrite length_app. simpl. intros (Hk & Hp & Hr & Hl & Hc & Hm & Hb) Hkc Hf. unfold type_key.
  destruct (put_buffer_ok s c Hm) as (s1 & -> & F1 & L1 & D1 & M1); [lia|]. cbn [mbind res_bind].
  rewrite L1, wrap_small by lia.
  assert (buffer s1 = buffer s /\ prompt_size s1 = prompt_size s) as [B1 P1]
    by (destruct F1 as [F1 _]; by injection F1 as -> _ _ _ _ ->).
  destruct (put_buffer_ok (set_loc s1 (loc s + 1)) 0) as (s2 & -> & F2 & L2 & D2 & M2).
  { unfold mem_of_term in *. simpl. rewrite B1, M1. by apply mapped_insert. }
  { simpl. lia. }
  cbn [mbind res_bind]. eexists. split; [reflexivity|].
  unfold mem_of_term in *. simpl in M2, L2, D2.
  assert (buffer s2 = buffer s /\ prompt_size s2 = prompt_size s) as [B2 P2]
    by (destruct F2 as [F2 _]; injection F2 as -> _ _ _ _ ->; done).
  assert (Forall (fun c => 32 <= c < 127) (line ++ [c])) as Hk' by (by apply Forall_app; split; [|constructor]).
  assert (bytes_at (mach s2).1 (buffer s) ((line ++ [c]) ++ [0])) as Hb2.
  { rewrite M2, B1, M1, (wrap_small 8 c), Hl by lia. change (u8 0) with 0.
    replace (buffer s + (Z.of_nat (length line) + 1)) with (buffer s + Z.of_nat (length (line ++ [c])))
      by (rewrite length_app; simpl; lia). by do 2 apply bytes_at_snoc. }
  split; [|split; [apply (term_frame_trans s s1); [done|]; exact F2|split; [|simpl; congruence]]].
  2: { split; [eapply Forall_impl; [exact Hk'|simpl; intros; lia]|exact Hb2]. }
  unfold ready. rewrite length_app. simpl. rewrite B2, P2, L2, D2, D1. split; [done|].
  do 3 (split; [lia|]). split; [rewrite cx_putc by lia; lia|].
  unfold mem_of_term. simpl. split; [rewrite M2, M1; by do 2 apply mapped_insert|].
  by apply bytes_at_app in Hb2 as [? _].
Qed.

Lemma erase_key_ok s line :
  ready s line -> exists s', erase_key s = Ok s' /\ ready s' (removelast line) /\ frame s s' /\
    (line = [] -> s' = s) /\
    (line <> [] -> cstring (mem_of_term s') (buffer s) line /\
      forall x, con_cell (mach s').2 x =
        if x =? prompt_size s + Z.of_nat (length line) - 1 then 32 else con_cell (mach s).2 x).
Proof.
  intros (Hk & Hp & Hr & Hl & Hc & Hm & Hb). unfold erase_key. rewrite Hc.
  destruct line as [|x line] using rev_ind; [|clear IHline].
  - simpl in *. zbool. eexists. split; [reflexivity|]. split; [|done].
    by repeat split; unfold ready; simpl; auto.
  - rewrite removelast_last. rewrite length_app in *. simpl in *. zbool.
    unfold put_buffer, mem_of_term. simpl.
    rewrite store8_ok by (apply Hm; lia). cbn [mbind res_bind].
    eexists. split; [reflexivity|].
    assert (cstring (<[buffer s + loc s := u8 0]> (mach s).1) (buffer s) (line ++ [x])) as Hcs.
    { split; [eapply Forall_impl; [exact Hk|simpl; intros; lia]|]. replace (loc s) with (Z.of_nat (length (line ++ [x]))) by (rewrite length_app; simpl; lia).
      by apply bytes_at_snoc. }
    apply Forall_app in Hk as [Hk _]. apply bytes_at_app in Hb as [Hb _].
    split; [|split; [split; [done|intros a Ha; apply lookup_insert_ne; lia]|]].
    2: { split; [by destruct line|]. intros _. split; [exact Hcs|]. intros y. simpl.
      rewrite cell_set, cell_putc by (rewrite ?cx_set; lia). by rewrite cell_set, cx_set. }
    unfold ready, mem_of_term. simpl.
    split; [done|]. do 2 (split; [lia|]). split; [rewrite wrap_small; lia|].
    split; [rewrite cx_set, cx_putc by (rewrite ?cx_set; lia); rewrite cx_set; lia|].
    split; [by apply mapped_insert|]. apply bytes_at_insert_ne; [lia|done].
Qed.

Lemma text_press e c : text (press e c) = edit (text e) c.
Proof. unfold press, edit. destruct (c =? 13); [|done]. by destruct (text e) eqn:E. Qed.

Lemma text_presses ks e : text (fold_left press ks e) = fold_left edit ks (text e).
Proof. revert e. induction ks as [|c ks IH]; intros e; [done|]. simpl. by rewrite IH, text_press. Qed.

(** A key on the row does to the terminal what it does to the editor. *)
Lemma key_edits fuel cu_pid s line c :
  ready s line -> key_ok c -> prompt_size s + Z.of_nat (length (edit line c)) <= 79 ->
  exists s', handle_key fuel cu_pid s c = Ok s' /\ ready s' (edit line c) /\ frame s s' /\
    forall e row0, text e = line -> edited s e row0 -> edited s' (press e c) row0.
Proof.
  intros Hs Hc Hr. pose proof Hs as (_ & _ & _ & _ & Hcx & _). unfold handle_key, edit in *. destruct Hc as [Hc| ->].
  - assert ((c =? 13) = false) as E13 by lia. rewrite E13, (proj2 (Z.eqb_neq c 10)) in * by lia.
    destruct (type_key_ok s line c Hs Hc Hr) as (s' & E & Hs' & F & C & Dv).
    exists s'. do 3 (split; [done|]). intros e row0 <- (_ & Hre & Hrow).
    destruct F as [F _]. injection F as Eb _ _ _ _ Ep. unfold edited. rewrite Eb, Ep, Dv.
    split; [by unfold press; rewrite E13|]. split; [unfold press; rewrite E13; cbn [text reach]; lia|].
    rewrite length_app in Hr. simpl in Hr. destruct Hs as (_ & Hp & _).
    intros x. by rewrite cell_putc, row_type, Hcx, Hrow by (done || lia).
  - change (13 =? 13) with true in *. cbv iota in *. destruct (erase_key_ok s line Hs) as (s' & E & Hs' & F & H0 & H1).
    exists s'. do 3 (split; [done|]). intros [t h r] row0 Ht He. cbn [text] in Ht. subst t.
    destruct line as [|a line _] using rev_ind; [by rewrite (H0 eq_refl)|].
    destruct H1 as [C Hcell]; [by destruct line|]. destruct He as (_ & Hre & Hrow). cbn [text reach] in Hre.
    destruct F as [F _]. injection F as Eb _ _ _ _ Ep. unfold edited. rewrite Eb, Ep.
    assert (exists l', held (press (mk_editor (line ++ [a]) h r) 13) = line ++ [a] /\
      text (press (mk_editor (line ++ [a]) h r) 13) = l' /\ (length l' <= length (line ++ [a]))%nat /\
      reach (press (mk_editor (line ++ [a]) h r) 13) = r) as (l' & -> & -> & Hl' & ->).
    { unfold press. change (13 =? 13) with true. cbn [text]. destruct (line ++ [a]) as [|b l] eqn:El; [by destruct line|].
      eexists. split; [done|]. split; [reflexivity|]. split; [|done]. cbn [text]. rewrite <- El, removelast_last, length_app.
      lia. }
    split; [done|]. split; [lia|]. intros x. rewrite row_erase, Hcell, Hrow by done.
    rewrite length_app. cbn [length].
    by replace (prompt_size s + Z.of_nat (length line + 1) - 1) with (prompt_size s + Z.of_nat (length line)) by lia.
Qed.

Lemma edit_keys fuel cu_pid ks : forall s line,
  ready s line -> Forall key_ok ks -> room (prompt_size s) line ks ->
  exists s', handle_keys fuel cu_pid s ks = Ok s' /\ ready s' (fold_left edit ks line) /\ frame s s' /\
    forall e row0, text e = line -> edited s e row0 -> edited s' (fold_left press ks e) row0.
Proof.
  induction ks as [|c ks IH]; intros s line Hs Hk Hr; [by exists s|].
  apply list.Forall_cons in Hk as [Hc Hk]. destruct Hr as [_ Hr]. cbn [handle_keys fold_left].
  destruct (key_edits fuel cu_pid s line c Hs Hc) as (s1 & E & Hs1 & F1 & H1); [by destruct ks; destruct Hr|].
  rewrite E. cbn [mbind res_bind].
  destruct (IH s1 (edit line c) Hs1 Hk) as (s2 & -> & Hs2 & F2 & H2).
  - destruct F1 as [F1 _]. by injection F1 as _ _ _ _ _ ->.
  - exists s2. split; [done|]. split; [done|]. split; [by apply (term_frame_trans s s1)|].
    intros e row0 He Hed. apply H2; [|by apply H1]. by rewrite text_press, He.
Qed.

Lemma handle_keys_app fuel cu_pid s ks1 ks2 :
  handle_keys fuel cu_pid s (ks1 ++ ks2) =
  (s ← handle_keys fuel cu_pid s ks1; handle_keys fuel cu_pid s ks2).
Proof.
  revert s. induction ks1 as [|c ks1 IH]; intros s; [done|]. simpl.
  destruct (handle_key fuel cu_pid s c); simpl; [apply IH|done..].
Qed.

Lemma enter_key_ok fuel cu_pid s line :
  ready s line ->
  exists s1, enter_key fuel cu_pid s =
      (s2 ← run_command fuel cu_pid (Z.of_nat (length (fields 32 line))) s1; show_prompt s2) /\
    loc s1 = 0 /\ cstrings (mem_of_term s1) (buffer s) (fields 32 line) /\ frame s s1 /\
    mapped (mem_of_term s1) (buffer s) 256 /\ (mach s1).2 = disp_putc 10 (mach s).2.
Proof.
  intros (Hk & Hp & Hr & Hl & Hc & Hm & Hb). unfold enter_key.
  destruct (put_buffer_ok (on_dev (disp_putc 10) s) 0 Hm) as (s1 & -> & F1 & L1 & D1 & M1);
    [simpl; lia|]. cbn [mbind res_bind].
  assert (cstring (mem_of_term s1) (buffer s) line) as Hs.
  { split; [eapply Forall_impl; [exact Hk|intros c Hcc; simpl in Hcc; lia]|].
    rewrite M1. simpl. rewrite Hl. by apply bytes_at_snoc. }
  assert (buffer s1 = buffer s) as B1 by (destruct F1 as [F1 _]; by injection F1 as -> _).
  change (mem_of_term (set_loc s1 0)) with (mem_of_term s1). cbn [buffer set_loc]. rewrite B1.
  rewrite (strsplit_ok _ _ _ line) by (done || lia). cbn [mbind res_bind].
  eexists. split; [reflexivity|]. split; [done|]. split; [by apply write_fields|].
  split; [apply (term_frame_trans s s1); [exact F1|]; split; [done|]; intros a Ha;
    unfold mem_of_term; simpl; apply write_list_lookup_ne; rewrite length_map; rewrite B1 in Ha; lia|].
  split; [|done]. eapply wrote_mapped; [apply wrote_write_list|]. rewrite M1. by apply mapped_insert.
Qed.

(** *** Lemmas on the working directory *)
Context {A : AllocLaws}.

Lemma wrote_cstring m m' p l q w :
  wrote m m' p l -> q + Z.of_nat (length w) + 1 <= p \/ p + Z.of_nat (length l) <= q ->
  cstring m q w -> cstring m' q w.
Proof.
  intros Hw Hd [Hr Hb]. split; [done|]. eapply wrote_bytes_at; [exact Hw| |exact Hb].
  rewrite length_app. simpl. lia.
Qed.

Lemma kept_bytes_at m m' q l :
  (forall a, is_Some (m !! a) -> m' !! a = m !! a) -> bytes_at m q l -> bytes_at m' q l.
Proof. intros Hm Hl i b Hi. apply Hl in Hi. by rewrite Hm. Qed.

Lemma kept_mapped m m' q n :
  (forall a, is_Some (m !! a) -> m' !! a = m !! a) -> mapped m q n -> mapped m' q n.
Proof. intros Hm Hl i Hi. apply Hl in Hi. by rewrite Hm. Qed.

(** A new block shares no byte with an object. *)
Lemma fresh_disjoint m p n q k :
  (forall a, p <= a < p + n -> m !! a = None) -> mapped m q k -> 0 < n -> 0 < k ->
  q + k <= p \/ p + n <= q.
Proof.
  intros Hf Hm Hn Hk. destruct (decide (q + k <= p \/ p + n <= q)) as [|Ho]; [done|].
  exfalso. specialize (Hm (Z.max p q - q) ltac:(lia)).
  replace (q + (Z.max p q - q)) with (Z.max p q) in Hm by lia.
  rewrite Hf in Hm by lia. by destruct Hm.
Qed.

Lemma cstring_bytes m p w : cstring m p w -> bytes_at m p w /\ m !! (p + Z.of_nat (length w)) = Some 0.
Proof.
  intros [_ Hb]. apply bytes_at_app in Hb as [H1 H2]. split; [done|].
  specialize (H2 0%nat 0 eq_refl). by rewrite Z.add_0_r in H2.
Qed.

(** The name built in the block: the directory, the argument, a slash, the
    terminator. *)
Lemma copy_name m p q1 q2 w a :
  let size := Z.of_nat (length w) + Z.of_nat (length a) + 2 in
  size < 2 ^ 32 -> mapped m p size -> cstring m q1 w -> cstring m q2 a ->
  q1 + Z.of_nat (length w) + 1 <= p \/ p + size <= q1 ->
  q2 + Z.of_nat (length a) + 1 <= p \/ p + size <= q2 ->
  exists m1 m2 m3 m4,
    memset m p 0 size = Ok m1 /\ strlen m1 q1 = Ok (Z.of_nat (length w)) /\
    memcpy m1 p q1 (Z.of_nat (length w)) = Ok m2 /\
    strlen m2 q1 = Ok (Z.of_nat (length w)) /\ strlen m2 q2 = Ok (Z.of_nat (length a)) /\
    memcpy m2 (p + Z.of_nat (length w)) q2 (Z.of_nat (length a)) = Ok m3 /\
    strlen m3 p = Ok (Z.of_nat (length w) + Z.of_nat (length a)) /\
    store_bytes m3 (p + (Z.of_nat (length w) + Z.of_nat (length a))) [47; 0] = Ok m4 /\
    wrote m m4 p (w ++ a ++ [47; 0]).
Proof.
  intros size Hs Hm H1 H2 D1 D2.
  pose proof (Forall_impl _ (fun b => 0 <= b < 256) _ (proj1 H1) ltac:(simpl; intros; lia)) as Hw.
  pose proof (Forall_impl _ (fun b => 0 <= b < 256) _ (proj1 H2) ltac:(simpl; intros; lia)) as Ha.
  destruct (memset_wrote m p 0 size) as (m1 & E1 & W1); [lia|done|].
  change (u8 0) with 0 in W1. set (zs := replicate (Z.to_nat size) 0) in *.
  assert (Hz : Z.of_nat (length zs) = size) by (unfold zs; rewrite length_replicate; lia).
  pose proof (wrote_cstring _ _ _ _ q1 w W1 ltac:(lia) H1) as H1'.
  pose proof (wrote_cstring _ _ _ _ q2 a W1 ltac:(lia) H2) as H2'.
  pose proof (wrote_mapped _ _ _ _ p size W1 Hm) as Hm1.
  destruct (memcpy_wrote m1 p q1 w) as (m2 & E2 & W2);
    [by apply cstring_bytes|done|eapply mapped_sub; eauto; lia|].
  pose proof (wrote_cstring _ _ _ _ q1 w W2 ltac:(lia) H1') as H1''.
  pose proof (wrote_cstring _ _ _ _ q2 a W2 ltac:(lia) H2') as H2''.
  pose proof (wrote_mapped _ _ _ _ p size W2 Hm1) as Hm2.
  destruct (memcpy_wrote m2 (p + Z.of_nat (length w)) q2 a) as (m3 & E3 & W3);
    [by apply cstring_bytes|done|eapply mapped_sub; eauto; lia|].
  pose proof (wrote_mapped _ _ _ _ p size W3 Hm2) as Hm3.
  pose proof (wrote_app _ _ _ _ _ _ W2 W3) as W23.
  assert (H3 : cstring m3 p (w ++ a)).
  { split; [by apply Forall_app; split; [apply H1|apply H2]|]. apply bytes_at_app. split; [apply W23|].
    intros i b Hi. destruct i as [|i]; [|done]. injection Hi as <-.
    destruct W23 as [_ Ho]. rewrite Ho by lia. destruct W1 as [Hi _].
    replace (p + Z.of_nat (length (w ++ a)) + Z.of_nat 0)
      with (p + Z.of_nat (length w + length a)) by (rewrite length_app; lia).
    apply Hi. apply lookup_replicate_2. lia. }
  destruct (store_bytes_wrote [47; 0] m3 (p + (Z.of_nat (length w) + Z.of_nat (length a))))
    as (m4 & E4 & W4); [eapply mapped_sub; eauto; simpl; lia|].
  exists m1, m2, m3, m4. do 3 (split; [done || by apply strlen_ok; [lia|]|]).
  do 3 (split; [done || by apply strlen_ok; [lia|]|]).
  split; [rewrite <- Nat2Z.inj_add, <- length_app; apply strlen_ok; [rewrite length_app; lia|done]|].
  split; [done|]. rewrite app_assoc. split.
  - apply bytes_at_app. split.
    + eapply wrote_bytes_at; [exact W4|rewrite length_app; lia|apply W23].
    + rewrite length_app, Nat2Z.inj_add. apply W4.
  - intros x Hx. rewrite !length_app in Hx. simpl in Hx. destruct W4 as [_ H4], W23 as [_ H23], W1 as [_ H1o].
    rewrite H4, H23, H1o by (rewrite ?length_app; simpl; lia). done.
Qed.

(** The two objects [cd] works on: the directory [w], with room for [k] bytes, and
    the line [cd] with its argument [a]. *)
Definition cd_line (s : term) (w a : list Z) (k : Z) : Prop :=
  root_mounted s = true /\
  cstring (mem_of_term s) (wd s) w /\ mapped (mem_of_term s) (wd s) k /\
  cstring (mem_of_term s) (buffer s) (str_bytes "cd") /\
  cstring (mem_of_term s) (buffer s + 3) a /\
  (wd s + k <= buffer s \/ buffer s + Z.of_nat (length a) + 4 <= wd s) /\
  Z.of_nat (length w) + Z.of_nat (length a) + 2 <= k /\ k < 2 ^ 32.

Definition prompt_width (w : list Z) : Z := u8 (19 + Z.of_nat (length w)).

Lemma get_arg_cd s w a k : cd_line s w a k -> get_arg s = Ok (buffer s + 3).
Proof.
  intros (_ & _ & _ & H & _). unfold get_arg. rewrite (strlen_ok _ _ (str_bytes "cd")) by done.
  cbn [mbind res_bind]. f_equal. change (Z.of_nat (length (str_bytes "cd"))) with 2. lia.
Qed.

Lemma mounted_prompt_ok s w :
  Z.of_nat (length w) < 2 ^ 32 -> cstring (mem_of_term s) (wd s) w ->
  mounted_prompt s = Ok (set_prompt_size s (prompt_width w)).
Proof. intros Hl Hw. unfold mounted_prompt. by rewrite (strlen_ok _ _ _ Hl Hw). Qed.

(** The name copied back over the directory. *)
Lemma copy_back x m p q w a k :
  let name := w ++ a ++ [47] in
  wrote x m p (w ++ a ++ [47; 0]) -> Forall (fun b => 0 < b < 256) w -> Forall (fun b => 0 < b < 256) a ->
  mapped m q k -> Z.of_nat (length name) + 1 <= k -> k < 2 ^ 32 ->
  strlen m p = Ok (Z.of_nat (length name)) /\
  exists m', memcpy m q p (u32 (Z.of_nat (length name) + 1)) = Ok m' /\
    wrote m m' q (name ++ [0]) /\ cstring m' q name.
Proof.
  intros name W Hw Ha Hm Hk Hk32.
  assert (E : w ++ a ++ [47; 0] = name ++ [0]) by (unfold name; by rewrite <- !app_assoc).
  rewrite E in W. assert (R : Forall (fun b => 0 < b < 256) name).
  { unfold name. do 2 (apply Forall_app; split; [done|]). repeat constructor; lia. }
  split; [apply strlen_ok; [lia|split; [done|apply W]]|].
  assert (Ln : Z.of_nat (length (name ++ [0])) = Z.of_nat (length name) + 1)
    by (rewrite length_app; simpl; lia).
  destruct (memcpy_wrote m q p (name ++ [0])) as (m' & Em & W'); [apply W| | |].
  - apply Forall_app. split; [eapply Forall_impl; [exact R|simpl; intros; lia]|repeat constructor; lia].
  - rewrite Ln. eapply mapped_sub; [exact Hm|lia..].
  - rewrite wrap_small by lia. rewrite <- Ln. exists m'. split; [done|]. split; [done|].
    split; [done|apply W'].
Qed.

Lemma enter_dir_ok s w a k p x :
  cd_line s w a k ->
  malloc (Z.of_nat (length w) + Z.of_nat (length a) + 2) (mach s) = (p, x) -> p <> 0 ->
  exists s', enter_dir (buffer s + 3) s = Ok s' /\
    cstring (mem_of_term s') (wd s) (w ++ a ++ [47]) /\
    prompt_size s' = prompt_width (w ++ a ++ [47]) /\
    (buffer s', loc s', wd s', root_mounted s') = (buffer s, loc s, wd s, root_mounted s) /\
    (forall b, is_Some (mem_of_term s !! b) -> ~ (wd s <= b < wd s + k) ->
      mem_of_term s' !! b = mem_of_term s !! b) /\
    mapped (mem_of_term s') (wd s) k /\ exists m, mach s' = free p (m, x.2).
Proof.
  intros (_ & Hw & Hk & _ & Ha & Hd & Hlen & Hk32) Em Hp.
  destruct (malloc_block _ _ _ _ Em Hp) as (Hm & Hb & Hf & Hkeep). unfold mem_of_term in *.
  set (size := Z.of_nat (length w) + Z.of_nat (length a) + 2) in *.
  pose proof (bytes_at_mapped _ _ _ (proj2 Hw)) as Mw. pose proof (bytes_at_mapped _ _ _ (proj2 Ha)) as Ma.
  rewrite length_app in Mw, Ma. simpl in Mw, Ma.
  assert (H1 : cstring x.1 (wd s) w) by (split; [apply Hw|eapply kept_bytes_at; [done|apply Hw]]).
  assert (H2 : cstring x.1 (buffer s + 3) a) by (split; [apply Ha|eapply kept_bytes_at; [done|apply Ha]]).
  pose proof (fresh_disjoint _ p size _ _ Hf Hk ltac:(lia) ltac:(lia)) as D1.
  pose proof (fresh_disjoint _ p size _ _ Hf Ma ltac:(lia) ltac:(lia)) as D2.
  destruct (copy_name x.1 p (wd s) (buffer s + 3) w a ltac:(lia) Hm H1 H2 ltac:(lia) ltac:(lia))
    as (m1 & m2 & m3 & m4 & E1 & L1 & E2 & L2 & L3 & E3 & L4 & E4 & W4).
  set (name := w ++ a ++ [47]). assert (L5 : Z.of_nat (length name) + 1 = size)
    by (unfold name; rewrite !length_app; simpl; lia).
  assert (M4 : mapped m4 (wd s) k) by (eapply wrote_mapped; [exact W4|]; by eapply kept_mapped).
  destruct (copy_back x.1 m4 p (wd s) w a k W4 (proj1 Hw) (proj1 Ha) M4) as (L6 & m5 & E5 & W5 & S5);
    [fold name; lia..|]. fold name in L6, E5, W5, S5.
  set (y := (m5, x.2)).
  assert (Fr : forall b, ~ (p <= b < p + size) -> (free p y).1 !! b = m5 !! b).
  { intros b Hb'. apply free_block. simpl. by rewrite Hb. }
  unfold enter_dir, mem_of_term.
  rewrite (strlen_ok _ _ w ltac:(lia) Hw). cbn [mbind res_bind].
  rewrite (strlen_ok _ _ a ltac:(lia) Ha). cbn [mbind res_bind].
  rewrite (wrap_small 32) by lia. fold size. unfold call. rewrite Em. cbn [mach set_mach].
  fold size in E1. rewrite E1. cbn [mbind res_bind wd set_mach]. rewrite L1. cbn [mbind res_bind]. rewrite E2. cbn [mbind res_bind].
  rewrite L2. cbn [mbind res_bind]. rewrite L3. cbn [mbind res_bind]. rewrite E3. cbn [mbind res_bind].
  rewrite L4. cbn [mbind res_bind]. rewrite E4. cbn [mbind res_bind].
  rewrite L6. cbn [mbind res_bind]. rewrite E5. cbn [mbind res_bind].
  set (s1 := on_mach (free p) _).
  assert (C1 : cstring (mem_of_term s1) (wd s1) name).
  { split; [apply S5|]. intros i b Hi. apply lookup_lt_Some in Hi as Hlt.
    rewrite length_app in Hlt. simpl in Hlt. change (mem_of_term s1) with (free p y).1.
    change (wd s1) with (wd s). rewrite Fr by lia. apply (proj2 S5 _ _ Hi). }
  rewrite (mounted_prompt_ok s1 name ltac:(lia) C1). eexists. split; [reflexivity|].
  split; [exact C1|]. split; [done|]. split; [done|].
  change (mem_of_term (set_prompt_size s1 _)) with (free p y).1.
  split; [|split; [|by exists m5]].
  2: { intros i Hi. rewrite Fr by lia. by apply (wrote_mapped _ _ _ _ _ _ W5 M4). }
  intros b Hb1 Hb2.
  assert (Np : ~ (p <= b < p + size)) by (intros Hin; rewrite (Hf b Hin) in Hb1; by destruct Hb1).
  rewrite Fr by done. destruct W5 as [_ W5], W4 as [_ W4]. rewrite W5 by (rewrite length_app; simpl; lia).
  rewrite W4 by (rewrite !length_app; simpl; lia). by apply Hkeep.
Qed.

(** The file name built in the block of [build_path]. *)
Lemma copy_path m p q1 q2 w a :
  let size := Z.of_nat (length w) + Z.of_nat (length a) + 1 in
  size < 2 ^ 32 -> mapped m p size -> cstring m q1 w -> cstring m q2 a ->
  q1 + Z.of_nat (length w) + 1 <= p \/ p + size <= q1 ->
  q2 + Z.of_nat (length a) + 1 <= p \/ p + size <= q2 ->
  exists m1 m2,
    memcpy m p q1 (Z.of_nat (length w)) = Ok m1 /\
    strlen m1 q1 = Ok (Z.of_nat (length w)) /\ strlen m1 q2 = Ok (Z.of_nat (length a)) /\
    memcpy m1 (p + Z.of_nat (length w)) q2 (Z.of_nat (length a) + 1) = Ok m2 /\
    strlen m2 q1 = Ok (Z.of_nat (length w)) /\ strlen m2 q2 = Ok (Z.of_nat (length a)) /\
    wrote m m2 p (w ++ a ++ [0]).
Proof.
  intros size Hs Hm H1 H2 D1 D2.
  destruct (memcpy_wrote m p q1 w) as (m1 & E1 & W1); [by apply cstring_bytes| |eapply mapped_sub; eauto; lia|].
  { eapply Forall_impl; [apply H1|simpl; intros; lia]. }
  assert (La : Z.of_nat (length (a ++ [0])) = Z.of_nat (length a) + 1)
    by (rewrite length_app; simpl; lia).
  pose proof (wrote_cstring _ _ _ _ q1 w W1 ltac:(lia) H1) as H1'.
  pose proof (wrote_cstring _ _ _ _ q2 a W1 ltac:(lia) H2) as H2'.
  destruct (memcpy_wrote m1 (p + Z.of_nat (length w)) q2 (a ++ [0])) as (m2 & E2 & W2).
  { apply H2'. }
  { apply Forall_app. split; [eapply Forall_impl; [apply H2|simpl; intros; lia]|repeat constructor; lia]. }
  { rewrite La. eapply mapped_sub; [by eapply wrote_mapped|lia..]. }
  rewrite La in E2. exists m1, m2.
  pose proof (wrote_cstring _ _ _ _ q1 w W2 ltac:(lia) H1').
  pose proof (wrote_cstring _ _ _ _ q2 a W2 ltac:(lia) H2').
  do 6 (split; [done || by apply strlen_ok; [lia|]|]). by eapply wrote_app.
Qed.

(** ** Properties *)

(** C11. Editing at the prompt, characters typed and erased in any order as long
    as they stay on its row, is the line editor [press]: after any such keys the row
    shows the prompt, the line and blanks where erased characters were, the cursor
    is behind the line, and the buffer holds the editor's string, which after an
    erasure is the line with the character just erased.  Enter moves to the next row
    and gives the commands the line as it reads: the buffer holds its
    blank-separated words as terminated strings, the count is theirs, and nothing
    else of memory or of the terminal's statics changed. *)
Theorem terminal_edits_line (fuel : nat) (cu_pid : Z) (s : term) (ks : list Z) :
  ready s [] -> cstring (mem_of_term s) (buffer s) [] -> Forall key_ok ks -> room (prompt_size s) [] ks ->
  let e := fold_left press ks (mk_editor [] [] 0) in
  let words := fields 32 (text e) in
  exists s1 s2,
    (handle_keys fuel cu_pid s ks = Ok s1 /\
     cstring (mem_of_term s1) (buffer s) (held e) /\ loc s1 = Z.of_nat (length (text e)) /\
     (forall x, con_cell (mach s1).2 x = row (prompt_size s) e (con_cell (mach s).2) x) /\
     con_cx (mach s1).2 = prompt_size s + Z.of_nat (length (text e)) /\ frame s s1) /\
    handle_keys fuel cu_pid s (ks ++ [10]) =
      (s3 ← run_command fuel cu_pid (Z.of_nat (length words)) s2; show_prompt s3) /\
    loc s2 = 0 /\ cstrings (mem_of_term s2) (buffer s) words /\ frame s s2 /\
    (mach s2).2 = disp_putc 10 (mach s1).2.
Proof.
  intros Hs H0 Hk Hr e words. rewrite handle_keys_app.
  destruct (edit_keys fuel cu_pid ks s [] Hs Hk Hr) as (s1 & -> & Hs1 & F1 & Hed). cbn [mbind res_bind].
  pose proof (text_presses ks (mk_editor [] [] 0)) as Ht. cbn [text] in Ht. fold e in Ht.
  destruct (Hed (mk_editor [] [] 0) (con_cell (mach s).2)) as (C1 & _ & R1); [done| |].
  { split; [done|]. split; [done|]. intros x. unfold row. cbn [text reach].
    rewrite lookup_nil, Z.add_0_r. by destruct (x <? prompt_size s). }
  fold e in C1, R1. rewrite <- Ht in Hs1.
  destruct (enter_key_ok fuel cu_pid s1 _ Hs1) as (s2 & E & L2 & C2 & F2 & _ & D2).
  exists s1, s2. assert (buffer s1 = buffer s /\ prompt_size s1 = prompt_size s) as [B1 P1]
    by (destruct F1 as [F1 _]; by injection F1 as -> _ _ _ _ ->).
  rewrite B1 in C1, C2. rewrite P1 in R1. split.
  - destruct Hs1 as (_ & _ & _ & Hl & Hcx & _). rewrite P1 in Hcx. by do 5 (split; [done|]).
  - split; [|split; [done|]; split; [done|]; split; [by apply (term_frame_trans s s1)|done]].
    simpl. unfold handle_key. simpl. rewrite E.
    destruct (run_command _ _ _ s2) as [s3| |]; simpl; [|done..]. by destruct (show_prompt s3).
Qed.

(** [cd dir], for a directory other than [.] and [..] that exists in the working
    directory, appends the name and a slash to it, in place, and widens the prompt;
    no other object changes.  If there is no such directory nothing happens. *)
Theorem cd_enters_directory (s : term) (w a : list Z) (k n r p : Z) (x y : mem * D) :
  cd_line s w a k -> no_arg n = false -> a <> str_bytes "." -> a <> str_bytes ".." ->
  vfs_exist_in_dir (wd s) (buffer s + 3) (mach s) = (r, x) -> x.1 = (mach s).1 ->
  malloc (Z.of_nat (length w) + Z.of_nat (length a) + 2) x = (p, y) -> p <> 0 ->
  (r = 0 -> cmd_cd n s = Ok (set_mach s x)) /\
  (r <> 0 -> exists s', cmd_cd n s = Ok s' /\
    cstring (mem_of_term s') (wd s') (w ++ a ++ [47]) /\
    prompt_size s' = prompt_width (w ++ a ++ [47]) /\ wd s' = wd s /\
    forall b, is_Some (mem_of_term s !! b) -> ~ (wd s <= b < wd s + k) ->
      mem_of_term s' !! b = mem_of_term s !! b).
Proof.
  intros Hl Hn Hd Hdd Hv Hx Em Hp. pose proof Hl as (Hr & Hw & Hk & Hc & Ha & Hrest).
  unfold cmd_cd. rewrite Hr, Hn, (get_arg_cd s w a k Hl). cbn [negb mbind res_bind].
  rewrite !(strcmp_lit_ok _ _ _ a Ha) by (repeat constructor).
  rewrite bool_decide_false by done. cbn [mbind res_bind].
  rewrite bool_decide_false by done. cbn [mbind res_bind]. unfold call. rewrite Hv.
  split; intros H0; [by subst r|]. rewrite (proj2 (Z.eqb_neq r 0)) by done.
  destruct (enter_dir_ok (set_mach s x) w a k p y) as (s' & E & S' & P' & B' & F' & _); [|done..|].
  - unfold cd_line, mem_of_term in *. cbn [mach set_mach root_mounted wd buffer]. by rewrite Hx.
  - exists s'. injection B' as _ _ Bw _. cbn [buffer set_mach] in E. rewrite E, Bw.
    split; [done|]. split; [done|]. split; [done|]. split; [done|].
    intros b. unfold mem_of_term in *. cbn [mach set_mach wd] in F'. rewrite Hx in F'. apply F'.
Qed.

(** [cd ..] looks at the character before the last slash only: unless that is a
    slash too, the working directory, longer than ["/"], is left as it is. *)
Theorem cd_parent_stays (s : term) (w : list Z) (c1 c2 k n : Z) :
  cd_line s (w ++ [c1; c2]) (str_bytes "..") k -> no_arg n = false -> c1 <> 47 ->
  exists s', cmd_cd n s = Ok s' /\ mem_of_term s' = mem_of_term s /\ wd s' = wd s /\
    prompt_size s' = prompt_width (w ++ [c1; c2]).
Proof.
  intros Hl Hn H1. pose proof Hl as (Hr & Hw & Hk & Hc & Ha & Hd & Hlen & Hk32).
  assert (Ln : Z.of_nat (length (w ++ [c1; c2])) = Z.of_nat (length w) + 2)
    by (rewrite length_app; simpl; lia).
  unfold cmd_cd. rewrite Hr, Hn, (get_arg_cd s _ _ k Hl). cbn [negb mbind res_bind].
  rewrite !(strcmp_lit_ok _ _ _ _ Ha) by (repeat constructor).
  change (bool_decide (str_bytes ".." = str_bytes ".")) with false.
  rewrite bool_decide_true by done. cbn [mbind res_bind].
  rewrite (strlen_ok _ _ (w ++ [c1; c2]) ltac:(lia) Hw). cbn [mbind res_bind]. rewrite Ln. zbool.
  rewrite (str_backspace_ok _ _ _ w c1 c2 ltac:(lia) Hw).
  assert (Hc1 : 0 < c1 < 256) by (apply (cstring_range _ _ _ _ Hw), list_elem_of_In, in_or_app; right; by left).
  assert (s8 c1 <> 47) as Hs by (clear - Hc1 H1; width_lia). rewrite (proj2 (Z.eqb_neq _ _) Hs).
  cbn [mbind res_bind].
  rewrite (mounted_prompt_ok (set_mem s (mem_of_term s)) (w ++ [c1; c2]) ltac:(lia) Hw).
  by eexists.
Qed.

(** C39. [write] and [touch] build [wd ++ arg] in a block of exactly its size with the
    terminator, and then store another terminator one byte further: when that
    byte belongs to no object the store is undefined, and when it belongs to
    another object that object is changed. *)
Theorem write_path_overruns (s : term) (w a : list Z) (q p : Z) (x : mem * D) :
  let size := Z.of_nat (length w) + Z.of_nat (length a) + 1 in
  size < 2 ^ 32 -> cstring (mem_of_term s) (wd s) w -> cstring (mem_of_term s) q a ->
  malloc size (mach s) = (p, x) -> p <> 0 ->
  (x.1 !! (p + size) = None -> build_path q s = Undef) /\
  (is_Some (x.1 !! (p + size)) -> exists s', build_path q s = Ok (p, s') /\
     cstring (mem_of_term s') p (w ++ a) /\ mem_of_term s' !! (p + size) = Some 0).
Proof.
  intros size Hs Hw Ha Em Hp.
  destruct (malloc_block _ _ _ _ Em Hp) as (Hm & _ & Hf & Hkeep). unfold mem_of_term in *.
  pose proof (bytes_at_mapped _ _ _ (proj2 Hw)) as Mw. pose proof (bytes_at_mapped _ _ _ (proj2 Ha)) as Ma.
  rewrite length_app in Mw, Ma. simpl in Mw, Ma.
  assert (H1 : cstring x.1 (wd s) w) by (split; [apply Hw|eapply kept_bytes_at; [done|apply Hw]]).
  assert (H2 : cstring x.1 q a) by (split; [apply Ha|eapply kept_bytes_at; [done|apply Ha]]).
  pose proof (fresh_disjoint _ p size _ _ Hf Mw ltac:(lia) ltac:(lia)) as D1.
  pose proof (fresh_disjoint _ p size _ _ Hf Ma ltac:(lia) ltac:(lia)) as D2.
  destruct (copy_path x.1 p (wd s) q w a ltac:(lia) Hm H1 H2 ltac:(lia) ltac:(lia))
    as (m1 & m2 & E1 & L1 & L2 & E2 & L3 & L4 & W).
  assert (W0 : m2 !! (p + size) = x.1 !! (p + size))
    by (apply W; rewrite !length_app; simpl; lia).
  unfold build_path, mem_of_term. rewrite (strlen_ok _ _ w ltac:(lia) Hw). cbn [mbind res_bind].
  rewrite (strlen_ok _ _ a ltac:(lia) Ha). cbn [mbind res_bind].
  rewrite (wrap_small 32) by lia. fold size. unfold call. rewrite Em. cbn [mach set_mach wd].
  rewrite (strlen_ok _ _ w ltac:(lia) H1). cbn [mbind res_bind]. rewrite E1. cbn [mbind res_bind].
  rewrite L1. cbn [mbind res_bind]. rewrite L2. cbn [mbind res_bind].
  rewrite (wrap_small 32) by lia. rewrite E2. cbn [mbind res_bind].
  rewrite L3. cbn [mbind res_bind]. rewrite L4. cbn [mbind res_bind].
  rewrite (wrap_small 32) by lia. fold size. split; intros H0.
  - by rewrite store8_undef by congruence.
  - rewrite store8_ok by congruence. cbn [mbind res_bind]. eexists. split; [reflexivity|].
    split; [|apply lookup_insert_eq].
    split; [apply Forall_app; split; [apply Hw|apply Ha]|].
    apply bytes_at_insert_ne; [rewrite !length_app; simpl; lia|]. rewrite <- app_assoc. apply W.
Qed.

End Terminal.

(** ** Witnesses *)

(** A machine with a cursor and its row, an allocator that hands out the bytes from
    [next] on when they are new, and a file system where every name exists. *)
Record demo := mk_demo { dcx : Z; next : Z; sizes : Z -> Z; cells : Z -> Z }.

Definition demo_malloc (n : Z) (x : mem * demo) : Z * (mem * demo) :=
  let '(m, d) := x in
  let p := next d in
  if (0 <? p) && forallb (fun i => bool_decide (m !! (p + i) = None)) (seqZ 0 n) then
    (p, (write_list m p (replicate (Z.to_nat n) 0),
         mk_demo (dcx d) (p + n) (fun q => if q =? p then n else sizes d q) (cells d)))
  else (0, x).

#[local] Instance demo_system : SystemEnv demo := {
  kprintf _ _ x := x.2; set_task _ x := x; __mprint _ _ _ x := x.2; __FILE__ := str_bytes "main.c";
  disp_putc c d := mk_demo (if dcx d <? 79 then dcx d + 1 else 0) (next d) (sizes d)
    (fun x => if x =? dcx d then c else cells d x);
  disp_clear d := d; con_cx d := dcx d;
  set_con_cx v d := mk_demo v (next d) (sizes d) (cells d);
  keyboard_enabled x := (0, x); keyboard_get_key x := (0, x); schedule_noirq x := x;
  START_AND_WAIT _ x := x; is_pid_running _ x := (0, x); kill _ x := x; exec_start _ x := (0, x);
  outportb _ _ x := x; malloc := demo_malloc; free _ x := x;
  vfs_read _ _ x := (0, x); vfs_ls _ _ x := (0, x); vfs_exist_in_dir _ _ x := (1, x);
  list_mount x := x; mm_print_out x := x; device_print_out x := x; module_call_func _ x := x;
  device_get _ x := (0, x); device_get_by_id _ x := (0, x); device_try_to_mount _ _ x := (0, x);
  dev_name _ _ := ANum 0; dev_unique_id _ _ := 0; dev_fs_name _ _ := ANum 0;
  fs_writefile _ _ _ _ x := x; fs_touch _ _ x := x
}.

#[local] Instance demo_console : ConsoleLaws (D := demo).
Proof.
  refine {| con_cell d x := cells d x |}; try done.
  intros c d _ H. simpl in *. by rewrite (proj2 (Z.ltb_lt _ _) H).
Defined.

#[local] Instance demo_alloc : AllocLaws (D := demo).
Proof.
  refine {| block_size d p := sizes d p |}; [|done].
  intros n [m d] p [m' d'] E Hp. simpl in E.
  destruct ((0 <? next d) && forallb _ _) eqn:B; [|by injection E as <- _ _].
  apply andb_prop in B as [_ B]. injection E as <- <- <-. simpl. rewrite Z.eqb_refl.
  assert (F : forall a, next d <= a < next d + n -> m !! a = None).
  { intros a Ha. rewrite forallb_forall in B. specialize (B (a - next d)).
    rewrite <- list_elem_of_In, elem_of_seqZ in B. specialize (B ltac:(lia)).
    apply bool_decide_eq_true in B. by replace (next d + (a - next d)) with a in B by lia. }
  split; [|split; [done|split; [done|]]].
  - intros i Hi. pose proof (bytes_at_mapped _ _ _ (write_list_bytes_at m (next d) (replicate (Z.to_nat n) 0))) as M.
    apply M. rewrite length_replicate. lia.
  - intros a Ha. apply write_list_lookup_ne. rewrite length_replicate. intros Hr.
    rewrite F in Ha by lia. by destruct Ha.
Qed.

(** The line buffer at 1000 and the working directory [w] at 2000. *)
Definition demo_mem (line w : list Z) : mem :=
  write_list (write_list (mem_of 1000 (replicate 256 0)) 1000 line)
    2000 (w ++ replicate (64 - length w) 0).

Definition demo_term (line w : list Z) : term (D := demo) :=
  mk_term (demo_mem line w, mk_demo 11 5000 (fun _ => 0) (fun _ => 0)) 1000 0 0 0 2000 true 11.

Lemma demo_cd_line w a :
  cstringb (demo_mem (str_bytes "cd" ++ [0] ++ a) w) 2000 w &&
  cstringb (demo_mem (str_bytes "cd" ++ [0] ++ a) w) 1000 (str_bytes "cd") &&
  cstringb (demo_mem (str_bytes "cd" ++ [0] ++ a) w) 1003 a &&
  (Z.of_nat (length w) + Z.of_nat (length a) + 2 <=? 64) && (length w <=? 64)%nat = true ->
  cd_line (demo_term (str_bytes "cd" ++ [0] ++ a) w) w a 64.
Proof.
  intros [[[[H1 H2]%andb_prop H3]%andb_prop H4]%andb_prop H5]%andb_prop.
  apply Z.leb_le in H4. apply Nat.leb_le in H5.
  split; [done|]. split; [by apply cstringb_true|]. split.
  - pose proof (bytes_at_mapped _ _ _ (write_list_bytes_at
      (write_list (mem_of 1000 (replicate 256 0)) 1000 (str_bytes "cd" ++ [0] ++ a)) 2000
      (w ++ replicate (64 - length w) 0))) as M.
    rewrite length_app, length_replicate in M. eapply mapped_sub; [exact M|simpl; lia..].
  - split; [by apply cstringb_true|]. split; [by apply cstringb_true|]. simpl. lia.
Qed.

(** Typing [lsx] and erasing the [x], which stays in the buffer until Enter. *)
Lemma terminal_edits_line_witness :
  exists s1 s2,
    handle_keys 10 1 (demo_term [] (str_bytes "/")) (str_bytes "lsx" ++ [13]) = Ok s1 /\
    cstring (mem_of_term s1) 1000 (str_bytes "lsx") /\ cells (mach s1).2 12 = 115 /\ cells (mach s1).2 13 = 32 /\
    handle_keys 10 1 (demo_term [] (str_bytes "/")) ((str_bytes "lsx" ++ [13]) ++ [10]) =
      (s3 ← run_command 10 1 1 s2; show_prompt s3) /\
    cstrings (mem_of_term s2) 1000 [str_bytes "ls"].
Proof.
  destruct (terminal_edits_line 10 1 (demo_term [] (str_bytes "/")) (str_bytes "lsx" ++ [13]))
    as (s1 & s2 & (E1 & H1 & _ & R1 & _) & E2 & _ & C2 & _).
  - split; [constructor|]. do 4 (split; [done|]). split; [|by intros i b Hi].
    pose proof (bytes_at_mapped _ _ _ (write_list_bytes_at ∅ 1000 (replicate 256 0))) as M.
    eapply wrote_mapped; [apply wrote_write_list|exact M].
  - by apply cstringb_true.
  - repeat (constructor; [vm_compute; intuition discriminate|]). constructor.
  - vm_compute. intuition discriminate.
  - exists s1, s2. split; [exact E1|]. split; [exact H1|]. split; [exact (R1 12)|]. split; [exact (R1 13)|].
    split; [exact E2|exact C2].
Defined.

Lemma cd_enters_directory_witness :
  exists s', cmd_cd 2 (demo_term (str_bytes "cd" ++ [0] ++ str_bytes "bin") (str_bytes "/")) = Ok s' /\
    cstring (mem_of_term s') 2000 (str_bytes "/bin/").
Proof.
  set (s := demo_term _ _). destruct (demo_malloc 6 (mach s)) as [p y] eqn:Em.
  pose proof (f_equal fst Em) as Ep. vm_compute in Ep. subst p.
  destruct (cd_enters_directory s (str_bytes "/") (str_bytes "bin") 64 2 1 5000 (mach s) y)
    as [_ H]; [by apply demo_cd_line|done|by vm_compute|by vm_compute|done|done|exact Em|lia|].
  destruct H as (s' & E & C & _ & W & _); [lia|]. exists s'. split; [exact E|].
  rewrite W in C. exact C.
Defined.

Lemma cd_parent_stays_witness :
  exists s', cmd_cd 2 (demo_term (str_bytes "cd" ++ [0] ++ str_bytes "..") (str_bytes "/bin/")) = Ok s' /\
    cstring (mem_of_term s') 2000 (str_bytes "/bin/").
Proof.
  destruct (cd_parent_stays (demo_term (str_bytes "cd" ++ [0] ++ str_bytes "..") (str_bytes "/bin/"))
    (str_bytes "/bi") 110 47 64 2) as (s' & E & M & _); [by apply demo_cd_line|done|lia|].
  exists s'. split; [exact E|]. rewrite M. by apply cstringb_true.
Defined.

Lemma write_path_overruns_witness :
  build_path 1003 (demo_term (str_bytes "cd" ++ [0] ++ str_bytes "bin") (str_bytes "/")) = Undef.
Proof.
  set (s := demo_term _ _). destruct (demo_malloc 5 (mach s)) as [p y] eqn:Em.
  pose proof (f_equal fst Em) as Ep. pose proof (f_equal (fun r => r.2.1 !! 5005) Em) as Hn.
  vm_compute in Ep, Hn. subst p.
  apply (write_path_overruns s (str_bytes "/") (str_bytes "bin") 1003 5000 y);
    [done|by apply cstringb_true|by apply cstringb_true|exact Em|lia|exact (eq_sym Hn)].
Defined.
