(* ===== verification/Session.v ===== *)
(** A user at the kernel terminal of [kernel/main.c]: whole lines, typed key by key.

    [Terminal] shows what one key and one command do.  Here they are composed: a
    session is a list of lines [cd name], each typed with corrections and ended by
    Enter, and its specification is the working directory [chdir] computes.  The
    laws say what the session relies on of the console, the allocator and the file
    system; [at_prompt] is the state between two lines. *)

From S2P Require Import Prelude Mem CString Display Terminal.

Section Session.
Context {D : Type} `{!SystemEnv D} {L : ConsoleLaws} {A : AllocLaws}.


Class SessionLaws := {
  (** The directories there are: name [a] in directory [w]. *)
  is_dir : list Z -> list Z -> bool;
  vfs_exist_dir w a p q x : cstring x.1 p w -> cstring x.1 q a ->
    ((vfs_exist_in_dir p q x).1 =? 0) = negb (is_dir w a) /\
    (vfs_exist_in_dir p q x).2.1 = x.1 /\ con_cx (vfs_exist_in_dir p q x).2.2 = con_cx x.2;
  malloc_cx n x : con_cx (malloc n x).2.2 = con_cx x.2;
  (** No object lies at the null pointer. *)
  malloc_null n x : (malloc n x).1 = 0 -> (malloc n x).2.1 !! 0 = None;
  free_cx p x : con_cx (free p x).2 = con_cx x.2;
  newline_cx d : con_cx (disp_putc 10 d) = 0;
  (** A prompt that fits the row leaves the cursor behind it. *)
  prompt_cx w p x : con_cx x.2 = 0 -> cstring x.1 p w -> 19 + Z.of_nat (length w) <= 79 ->
    con_cx (kprintf (str_bytes "%s@%s:%s$ ") [ALit username; ALit hostname; APtr p] x) =
      19 + Z.of_nat (length w)
}.
Context {E : SessionLaws}.

(** ** Specification *)








(** ** Lemmas *)










End Session.

(** ** Witness *)

(** A machine whose allocator hands out addresses above all objects, whose console
    counts columns, and whose file system has every name except [nowhere]. *)
Record demo := mk_demo { dcx : Z; cells : Z -> Z; sizes : Z -> Z }.

Definition top (m : mem) : Z := foldr Z.max 0 (map fst (map_to_list m)) + 1.

Lemma top_fresh m a : top m <= a -> m !! a = None.
Proof.
  intros Ha. destruct (m !! a) as [b|] eqn:Hb; [|done]. exfalso.
  apply elem_of_map_to_list in Hb. unfold top in Ha. revert Hb Ha.
  induction (map_to_list m) as [|[k v] l IH]; [intros Hb; by apply not_elem_of_nil in Hb|].
  simpl. intros [[= -> ->]|Hb]%elem_of_cons Ha; [lia|]. apply IH; [done|lia].
Qed.

Lemma top_pos m : 0 < top m.
Proof.
  unfold top. assert (forall l, 0 <= foldr Z.max 0 l) as H by (induction l; simpl; lia).
  specialize (H (map fst (map_to_list m))). lia.
Qed.

Definition demo_malloc (n : Z) (x : mem * demo) : Z * (mem * demo) :=
  let p := top x.1 in
  (p, (write_list x.1 p (replicate (Z.to_nat n) 0),
       mk_demo (dcx x.2) (cells x.2) (fun q => if q =? p then n else sizes x.2 q))).

Definition demo_kprintf (args : list arg) (x : mem * demo) : demo :=
  match args with
  | [ALit u; ALit h; APtr p] =>
      match strlen x.1 p with
      | Ok n => mk_demo (dcx x.2 + Z.of_nat (length u) + Z.of_nat (length h) + 4 + n) (cells x.2) (sizes x.2)
      | _ => x.2
      end
  | _ => x.2
  end.

#[local] Instance demo_system : SystemEnv demo := {
  kprintf _ args x := demo_kprintf args x; set_task _ x := x; __mprint _ _ _ x := x.2;
  __FILE__ := str_bytes "main.c";
  disp_putc c d := mk_demo (if c =? 10 then 0 else if dcx d <? 79 then dcx d + 1 else 0)
    (fun x => if x =? dcx d then c else cells d x) (sizes d);
  disp_clear d := d; con_cx d := dcx d; set_con_cx v d := mk_demo v (cells d) (sizes d);
  keyboard_enabled x := (0, x); keyboard_get_key x := (0, x); schedule_noirq x := x;
  START_AND_WAIT _ x := x; is_pid_running _ x := (0, x); kill _ x := x; exec_start _ x := (0, x);
  outportb _ _ x := x; malloc := demo_malloc; free _ x := x;
  vfs_read _ _ x := (0, x); vfs_ls _ _ x := (0, x);
  vfs_exist_in_dir _ q x :=
    (match strcmp_lit x.1 q (str_bytes "nowhere") with Ok true => 0 | _ => 1 end, x);
  list_mount x := x; mm_print_out x := x; device_print_out x := x; module_call_func _ x := x;
  device_get _ x := (0, x); device_get_by_id _ x := (0, x); device_try_to_mount _ _ x := (0, x);
  dev_name _ _ := ANum 0; dev_unique_id _ _ := 0; dev_fs_name _ _ := ANum 0;
  fs_writefile _ _ _ _ x := x; fs_touch _ _ x := x
}.

#[local] Instance demo_console : ConsoleLaws (D := demo).
Proof.
  refine {| con_cell d x := cells d x |}; try done. intros c d Hc H. simpl in *.
  by rewrite (proj2 (Z.eqb_neq c 10)), (proj2 (Z.ltb_lt _ _) H) by lia.
Qed.

#[local] Instance demo_alloc : AllocLaws (D := demo).
Proof.
  refine {| block_size d p := sizes d p |}; [|done].
  intros n [m d] p [m' d'] [= <- <- <-] Hp. cbn [fst snd sizes]. rewrite Z.eqb_refl.
  pose proof (bytes_at_mapped _ _ _ (write_list_bytes_at m (top m) (replicate (Z.to_nat n) 0))) as M.
  rewrite length_replicate in M. split; [intros i Hi; apply M; lia|]. split; [done|].
  split; [intros a Ha; apply top_fresh; lia|].
  intros a [b Hb]. apply write_list_lookup_ne. intros Hr. rewrite top_fresh in Hb; [done|lia].
Qed.

#[local] Instance demo_session : SessionLaws (D := demo).
Proof.
  refine {| is_dir w a := negb (bool_decide (a = str_bytes "nowhere")) |}.
  - intros w a p q x _ Ha. cbn [vfs_exist_in_dir demo_system fst snd]. rewrite (strcmp_lit_ok _ _ _ _ Ha) by (repeat constructor).
    by destruct (bool_decide (a = str_bytes "nowhere")).
  - done.
  - intros n x H. simpl in H. pose proof (top_pos x.1). lia.
  - done.
  - done.
  - intros w p x Hx Hw Hl. simpl in *.
    rewrite (strlen_ok x.1 p w) by (lia || done). simpl. lia.
Defined.





