(* ===== verification/Monitor.v ===== *)
(** [kernel_main.c]: [main], the debug monitor on the serial line, and
    [isr_default].

    [main] draws its welcome screen with the routines of [Graphics] and then reads
    one-letter commands for ever; each command is a definition, and [command] the
    chain of [if]s.  The locals [addr] and [count] live across commands, as
    [gethex] may leave them as they were.  The monitor library ([printhex],
    [gethex], [putcc], ...) and the assembly routines are not part of the
    repository: they are a class of operations over memory and the rest of the
    machine.  Ports are 16 bits wide and port values 8. *)

From S2P Require Import Prelude Mem Ports Graphics.

Class MonitorEnv (D : Type) := {
  printhex : Z -> Z -> D -> D;
  putcc : Z -> D -> D;
  lowercase : Z -> Z;
  (** [gethex(p, digits, echo)]: the status and what is then stored at [p]. *)
  gethex : Z -> Z -> Z -> D -> Z * Z * D;
  get_eip : D -> Z;
  lgdt : D -> D;
  irq_disable : D -> D;
  irq_enable : D -> D;
  idt_install : D -> D;
  idt_set_gate : Z -> list Z -> Z -> Z -> D -> D;
  reset : D -> D;
  call_addr : Z -> mem * D -> mem * D;
  software_interrupt : Z -> mem * D -> mem * D;
  sidt : D -> Z * Z;
  irq_count : D -> Z -> Z;
  FATInitialize : mem * D -> Z * (mem * D);
  sizeof_ISR_Stack_Frame : Z
}.

Section Monitor.
Context {D : Type} `{!PortIO D, !Console D, !MonitorEnv D}.

(** The screen and memory, the locals of [main], and the rest of the machine. *)
Record mon := mk_mon { screen : gst; addr : Z; count : Z; mdev : D }.

Definition set_screen (s : mon) (g : gst) : mon := mk_mon g (addr s) (count s) (mdev s).
Definition set_mmem (s : mon) (m : mem) : mon := set_screen s (set_gmem (screen s) m).
Definition set_addr (s : mon) (a : Z) : mon := mk_mon (screen s) a (count s) (mdev s).
Definition set_count (s : mon) (n : Z) : mon := mk_mon (screen s) (addr s) n (mdev s).
Definition set_mdev (s : mon) (d : D) : mon := mk_mon (screen s) (addr s) (count s) d.
Definition mmem (s : mon) : mem := gmem (screen s).
Definition on_dev (f : D -> D) (s : mon) : mon := set_mdev s (f (mdev s)).
Definition on_mach (f : mem * D -> mem * D) (s : mon) : mon :=
  let '(m, d) := f (mmem s, mdev s) in set_mdev (set_mmem s m) d.

Definition say (t : list Z) (s : mon) : mon := on_dev (printss t) s.
Definition nl : list Z := [10].
Definition hex (v digits : Z) (s : mon) : mon := on_dev (printhex (u32 v) digits) s.

(** [gethex] into [addr] and into [count]: the status, and the variable written. *)
Definition gethex_addr (digits echo : Z) (s : mon) : Z * mon :=
  let '(r, v, d) := gethex digits echo (addr s) (mdev s) in (r, set_addr (set_mdev s d) (u32 v)).
Definition gethex_count (digits echo : Z) (s : mon) : Z * mon :=
  let '(r, v, d) := gethex digits echo (u32 (count s)) (mdev s) in
  (r, set_count (set_mdev s d) (s32 v)).

(** ** Commands

    [Bottom] goes on to the end of the loop's body, [Again] is [continue], and
    [Rebooted] is the [reset] that does not return. *)
Inductive flow := Bottom (s : mon) | Again (s : mon) | Rebooted (s : mon).

Definition cmd_reboot (s : mon) : res flow :=
  Ok (Rebooted (on_dev reset (say (nl ++ str_bytes "Rebooting!!" ++ nl) s))).

Definition cmd_call (s : mon) : res flow :=
  let '(r, s) := gethex_addr 8 (-1) s in
  Ok (if negb (r =? 0) then Again s else Bottom (on_mach (call_addr (addr s)) s)).

(** A row of the dump: the 16 bytes at [addr] in hexadecimal, and then as
    characters, which the checksum adds up. *)
Definition dump_hex (s : mon) : res mon :=
  for_range 0 16 (fun i s =>
    b ← load_char (mmem s) (addr s);
    Ok (set_addr (say [32] (hex b 2 s)) (u32 (addr s + 1)))) s.

Definition dump_chars (s : mon) (checksum : Z) : res (mon * Z) :=
  for_range 0 16 (fun i '(s, checksum) =>
    b ← load_char (mmem s) (addr s);
    Ok (set_addr (say [u8 b] s) (u32 (addr s + 1)), s8 (checksum + b))) (s, checksum).

Definition dump_row (s : mon) (checksum : Z) : res (mon * Z) :=
  let s := say [32] (hex (addr s) 8 (say nl s)) in
  s ← dump_hex s;
  '(s, checksum) ← dump_chars (set_addr s (u32 (addr s - 16))) checksum;
  Ok (set_count s (count s - 16), checksum).

Definition dump_rows (fuel : nat) (s : mon) : res (mon * Z) :=
  while_loop fuel (fun '(s, checksum) =>
    if 0 <? count s then x ← dump_row s checksum; Ok (inl x) else Ok (inr (s, checksum))) (s, 0).

Definition cmd_dump (fuel : nat) (s : mon) : res flow :=
  let '(r, s) := gethex_addr 8 (-1) s in
  if negb (r =? 0) then Ok (Again s)
  else
    let '(r, s) := gethex_count 8 (-1) s in
    if negb (r =? 0) then Ok (Again s)
    else
      let s := set_count s (s32 (u32 (count s) + Z.land (addr s) 0xF)) in
      let s := set_addr s (Z.land (addr s) 0xFFFFFFF0) in
      '(s, checksum) ← dump_rows fuel s;
      Ok (Bottom (hex checksum 2 (say (nl ++ str_bytes "Checksum = ") s))).

(** The endless loop of [f] and [s], up to the [break] when no byte is typed;
    [silent] is [buf == 's']. *)
Definition fill_head (silent : bool) (i : Z) (s : mon) : mon :=
  if (Z.rem i 16 =? 0) && negb silent then hex (addr s) 8 (say nl s) else s.

Definition fill_round (silent : bool) (x : mon * Z) : res (mon * Z + mon) :=
  let '(s, i) := x in
  let s := fill_head silent i s in
  let '(r, s) := gethex_count 2 (if silent then 0 else -1) s in
  if negb (r =? 0) then Ok (inr s)
  else
    m ← store8 (mmem s) (addr s) (u32 (count s));
    i ← int32 (i + 1);
    Ok (inl (set_addr (set_mmem s m) (u32 (addr s + 1)), i)).

Definition cmd_fill (fuel : nat) (silent : bool) (s : mon) : res flow :=
  let '(r, s) := gethex_addr 8 (if silent then 0 else -1) s in
  if negb (r =? 0) then Ok (Again s)
  else
    s ← while_loop fuel (fill_round silent) (set_addr s (Z.land (addr s) 0xFFFFFFF0), 0);
    Ok (Bottom s).

Definition cmd_in (s : mon) : res flow :=
  let '(r, s) := gethex_addr 4 (-1) s in
  if negb (r =? 0) then Ok (Again s)
  else
    let s := say nl s in
    let '(v, d) := inb (u16 (addr s)) (mdev s) in
    Ok (Bottom (hex v 2 (set_mdev s d))).

Definition cmd_out (s : mon) : res flow :=
  let '(r, s) := gethex_addr 4 (-1) s in
  if negb (r =? 0) then Ok (Again s)
  else
    let '(r, s) := gethex_count 2 (-1) s in
    if negb (r =? 0) then Ok (Again s)
    else Ok (Bottom (on_dev (outb (u16 (addr s)) (u8 (count s))) s)).

Definition cmd_modify (s : mon) : res flow :=
  let '(r, s) := gethex_addr 8 (-1) s in
  if negb (r =? 0) then Ok (Again s)
  else
    b ← load_char (mmem s) (addr s);
    let s := hex b 2 (say nl s) in
    let '(r, s) := gethex_count 2 (-1) s in
    if negb (r =? 0) then Ok (Again s)
    else m ← store8 (mmem s) (addr s) (count s); Ok (Bottom (set_mmem s m)).

Definition cmd_interrupt (s : mon) : res flow :=
  let '(r, s) := gethex_addr 2 (-1) s in
  Ok (if negb (r =? 0) then Again s else Bottom (on_mach (software_interrupt (u8 (addr s))) s)).

(** The gates [main] installs, by the names of their handlers. *)
Definition basic_gates (s : mon) : mon :=
  on_dev (idt_set_gate 0x20 (str_bytes "isr_pit") 8 0x8E)
    (on_dev (idt_set_gate 0x0F (str_bytes "isr_default") 8 0x8E)
       (on_dev idt_install (on_dev irq_disable s))).

Definition cmd_install (s : mon) : res flow := Ok (Bottom (on_dev irq_enable (basic_gates s))).

Definition cmd_idtr (s : mon) : res flow :=
  let '(limit, base) := sidt (mdev s) in
  let s := hex limit 4 (say (nl ++ str_bytes "idtr.limit=") s) in
  Ok (Bottom (hex base 8 (say (nl ++ str_bytes "idtr.base=") s))).

Definition cmd_counts (s : mon) : res flow :=
  s ← for_range 0 256 (fun i s =>
    let s := say (if Z.rem i 4 =? 0 then nl else str_bytes "    ") s in
    let s := say (str_bytes ": ") (hex i 2 s) in
    Ok (hex (irq_count (mdev s) i) 8 s)) s;
  Ok (Bottom s).

Definition cmd_fat (s : mon) : res flow :=
  let s := say (nl ++ str_bytes "Initializing... 0x") s in
  let '(r, (m, d)) := FATInitialize (mmem s, mdev s) in
  Ok (Bottom (say nl (hex r 8 (set_mdev (set_mmem s m) d)))).

Definition help_lines : list (list Z) :=
  [ str_bytes "Internal commands:";
    str_bytes "b                           - reboot";
    str_bytes "c <addr>                    - call function";
    str_bytes "d <addr> <count>            - dump range of memory";
    str_bytes "f <addr>                    - fill range of memory";
    str_bytes "i <port>                    - read byte from I/O port";
    str_bytes "m <addr>                    - modify memory location";
    str_bytes "o <port> <byte>             - write byte to I/O port";
    str_bytes "s <addr>                    - " ++ [34] ++ str_bytes "silent" ++ [34] ++
      str_bytes " fill (same as f without echo)" ].

Definition cmd_help (s : mon) : res flow :=
  Ok (Bottom (fold_left (fun s l => say (nl ++ l) s) help_lines s)).

(** The chain of [if]s on the letter. *)
Definition command (fuel : nat) (buf : Z) (s : mon) : res flow :=
  if buf =? 98 then cmd_reboot s
  else if buf =? 99 then cmd_call s
  else if buf =? 100 then cmd_dump fuel s
  else if (buf =? 102) || (buf =? 115) then cmd_fill fuel (buf =? 115) s
  else if buf =? 105 then cmd_in s
  else if buf =? 111 then cmd_out s
  else if buf =? 109 then cmd_modify s
  else if buf =? 119 then cmd_interrupt s
  else if buf =? 120 then cmd_install s
  else if buf =? 121 then cmd_idtr s
  else if buf =? 122 then cmd_counts s
  else if buf =? 112 then cmd_fat s
  else if buf =? 63 then cmd_help s
  else Ok (Bottom s).

(** ** The loop *)
Definition TTY : Z := 0x03F8.
Definition LSR : Z := 5.

Definition wait_char (fuel : nat) (s : mon) : res mon :=
  while_loop fuel (fun s =>
    let '(v, d) := inb (TTY + LSR) (mdev s) in
    Ok (if Z.land v 0x01 =? 0 then inl (set_mdev s d) else inr (set_mdev s d))) s.

(** A round of [while (1)]; [inr] when the machine was reset. *)
Definition round (fuel : nat) (s : mon) : res (mon + mon) :=
  s ← wait_char fuel (say (nl ++ str_bytes ">") s);
  let '(v, d) := inb TTY (mdev s) in
  let c := s8 v in
  r ← command fuel (lowercase c) (on_dev (putcc c) (set_mdev s d));
  Ok (match r with
      | Bottom s => inl (say (str_bytes "Made it to the bottom (now we're here)") s)
      | Again s => inl s
      | Rebooted s => inr s
      end).

(** What [main] prints and installs before it draws. *)
Definition boot_report (s : mon) : res mon :=
  let s := say (nl ++ str_bytes "MiniOS32 Kernel is Active!!!" ++ nl) s in
  let s := say (str_bytes "Copyright (C) 2014" ++ nl) s in
  let s := say (str_bytes "Enter " ++ [34; 63; 34] ++ str_bytes " for help" ++ nl) s in
  let s := say (str_bytes "Boot ROM date = ") s in
  date ← load_bytes 8 (mmem s) 0xFFFF5;
  let s := say (nl ++ str_bytes "EIP = ") (say date s) in
  let s := on_dev lgdt (hex (get_eip (mdev s)) 8 s) in
  let s := on_dev (idt_set_gate 0x21 (str_bytes "isr_keyb") 8 0x8E) (basic_gates s) in
  Ok (on_dev irq_enable s).

(** The triangle with its height and its inscribed circle. *)
Definition draw_triangle (m : mem) : res mem :=
  m ← drawline m 640 250 390 683 255 255 255;
  m ← drawline m 640 250 890 683 255 255 255;
  m ← drawline m 390 683 890 683 255 255 255;
  m ← drawline m 640 250 640 683 255 255 255;
  drawcircle m 640 538 145 255 255 255.

Fixpoint drawtexts (s : gst) (t : list Z) : res gst :=
  match t with
  | [] => Ok s
  | c :: t' => s ← drawtext s c; drawtexts s t'
  end.

(** The banners, the greeting and the first caret. *)
Definition welcome (s : gst) : res gst :=
  m ← fillrect (gmem s) 0 0 1280 28 255 0 0;
  m ← fillrect m 0 996 1280 28 255 0 0;
  s ← drawtexts (mk_gst m 480 6) (str_bytes "WELCOME TO THE OS");
  drawtext (set_cursor s 0 35) 95.

(** [main] up to the given number of rounds of its endless loop. *)
Definition main (fuel rounds : nat) (s : mon) : res mon :=
  s ← boot_report s;
  m ← draw_triangle (mmem s);
  g ← welcome (set_gmem (screen s) m);
  while_loop (S rounds) (fun '(n, s) =>
    match n with
    | O => Ok (inr s)
    | S n' => r ← round fuel s; Ok (match r with inl s => inl (n', s) | inr s => inr s end)
    end) (rounds, set_screen s g).

(** ** The default interrupt handler *)
Record ISR_Stack_Frame := mk_isf { gs : Z; error_code : Z; eip : Z; cs : Z; eflags : Z }.

(** [y] is the address of the frame; 32 words of the stack from there are shown,
    and the machine is reset. *)
Definition isr_default (num : Z) (isf : ISR_Stack_Frame) (y : Z) (s : mon) : res mon :=
  let field t v n s := hex v n (say (nl ++ str_bytes t) s) in
  let s := field "sizeof( ISR_Stack_Frame ) = "%string sizeof_ISR_Stack_Frame 8 s in
  let s := field "num = "%string num 2 s in
  let s := field "isf.gs = "%string (gs isf) 4 s in
  let s := field "error code = "%string (error_code isf) 2 s in
  let s := field "isf.eip:"%string (eip isf) 8 s in
  let s := field "isf.cs = "%string (cs isf) 4 s in
  let s := field "isf.eflags = "%string (eflags isf) 8 s in
  let s := say (nl ++ str_bytes "Stack Frame:") s in
  s ← for_range 0 32 (fun i s =>
    let s := say [32] (hex i 2 (say nl s)) in
    let s := say (str_bytes ": ") (hex (y + 4 * i) 8 s) in
    v ← load_le 4 (mmem s) (y + 4 * i);
    Ok (hex v 8 s)) s;
  Ok (on_dev reset s).

(** ** What the console shows and what is typed *)

(** The text printed so far, and the digits of a number. *)
Class HexConsole := {
  out : D -> list Z;
  hex_digits : Z -> Z -> list Z;
  out_printss t d : out (printss t d) = out d ++ t;
  out_printhex v n d : out (printhex v n d) = out d ++ hex_digits v n
}.

(** The bytes that will be typed before something that is not one: [gethex] of two
    digits takes them in order, into the low byte of its variable. *)
Class HexInput := {
  typed : D -> list Z;
  gethex_byte echo old d b bs : typed d = b :: bs ->
    exists v d', gethex 2 echo old d = (0, v, d') /\ u8 v = b /\ typed d' = bs;
  gethex_end echo old d : typed d = [] ->
    exists r v d', gethex 2 echo old d = (r, v, d') /\ r <> 0;
  typed_printss t d : typed (printss t d) = typed d;
  typed_printhex v n d : typed (printhex v n d) = typed d
}.

Context {HC : HexConsole} {HI : HexInput}.

(** A row of the dump of the bytes [l] at [a], and all of them. *)
Definition row_text (a : Z) (l : list Z) : list Z :=
  nl ++ hex_digits a 8 ++ [32] ++ flat_map (fun b => hex_digits (u32 (s8 b)) 2 ++ [32]) l ++ l.

Fixpoint rows_text (n : nat) (a : Z) (l : list Z) : list Z :=
  match n with
  | O => []
  | S n' => row_text a (take 16 l) ++ rows_text n' (a + 16) (drop 16 l)
  end.

Definition sum (l : list Z) : Z := fold_right Z.add 0 l.

(** *** Lemmas *)
Lemma s8_add c b : s8 (s8 c + s8 b) = s8 (c + b).
Proof. width_lia. Qed.

Lemma bytes_at_take_drop m p l k :
  (k <= length l)%nat -> bytes_at m p l ->
  bytes_at m p (take k l) /\ bytes_at m (p + Z.of_nat k) (drop k l).
Proof.
  intros Hk Hl. rewrite <- (take_drop k l) in Hl. apply bytes_at_app in Hl as [H1 H2].
  split; [done|]. by rewrite length_take_le in H2.
Qed.

Definition byte (b : Z) : Prop := 0 <= b < 256.

(** The two loops over a row, in the middle of it. *)
Lemma dump_hex_loop l : forall i s,
  bytes_at (mmem s) (addr s) l -> 0 <= addr s -> addr s + Z.of_nat (length l) < 2 ^ 32 ->
  exists d, for_loop (length l) i (fun i s =>
      b ← load_char (mmem s) (addr s);
      Ok (set_addr (say [32] (hex b 2 s)) (u32 (addr s + 1)))) s =
    Ok (mk_mon (screen s) (addr s + Z.of_nat (length l)) (count s) d) /\
    out d = out (mdev s) ++ flat_map (fun b => hex_digits (u32 (s8 b)) 2 ++ [32]) l.
Proof.
  induction l as [|b l IH]; intros i s Hb H0 Hl; cbn [length for_loop].
  - exists (mdev s). simpl. rewrite Z.add_0_r, app_nil_r. by destruct s.
  - apply bytes_at_cons in Hb as [Hb Hr]. simpl in Hl.
    rewrite (load_char_ok _ _ b) by done. cbn [mbind res_bind]. rewrite wrap_small by lia.
    edestruct (IH (i + 1) (set_addr (say [32] (hex (s8 b) 2 s)) (addr s + 1)))
      as (d & -> & Ho); [exact Hr|simpl; lia..|].
    exists d. split; [simpl; do 2 f_equal; lia|]. rewrite Ho. simpl.
    rewrite out_printss, out_printhex. by rewrite <- !app_assoc.
Qed.

Lemma dump_chars_loop l : forall i s c,
  bytes_at (mmem s) (addr s) l -> Forall byte l -> 0 <= addr s ->
  addr s + Z.of_nat (length l) < 2 ^ 32 ->
  exists d, for_loop (length l) i (fun i '(s, checksum) =>
      b ← load_char (mmem s) (addr s);
      Ok (set_addr (say [u8 b] s) (u32 (addr s + 1)), s8 (checksum + b))) (s, s8 c) =
    Ok (mk_mon (screen s) (addr s + Z.of_nat (length l)) (count s) d, s8 (c + sum l)) /\
    out d = out (mdev s) ++ l.
Proof.
  induction l as [|b l IH]; intros i s c Hb Hr H0 Hl; cbn [length for_loop].
  - exists (mdev s). simpl. rewrite !Z.add_0_r, app_nil_r. by destruct s.
  - apply bytes_at_cons in Hb as [Hb Ht]. simpl in Hl. apply list.Forall_cons in Hr as [Hbb Hr].
    rewrite (load_char_ok _ _ b) by done. cbn [mbind res_bind].
    rewrite (wrap_small 32), s8_add, swrap_wrap, wrap_small by (done || lia).
    edestruct (IH (i + 1) (set_addr (say [b] s) (addr s + 1)) (c + b))
      as (d & -> & Ho); [exact Ht|done|simpl; lia..|].
    exists d. split; [simpl; do 3 f_equal; lia|]. rewrite Ho. simpl.
    rewrite out_printss. by rewrite <- !app_assoc.
Qed.

Lemma dump_row_ok s l c :
  length l = 16%nat -> bytes_at (mmem s) (addr s) l -> Forall byte l ->
  0 <= addr s -> addr s + 16 < 2 ^ 32 ->
  exists d, dump_row s (s8 c) =
    Ok (mk_mon (screen s) (addr s + 16) (count s - 16) d, s8 (c + sum l)) /\
    out d = out (mdev s) ++ row_text (addr s) l.
Proof.
  intros L Hb Hr H0 Ha. unfold dump_row, dump_hex, dump_chars, for_range.
  change (Z.to_nat (16 - 0)) with 16%nat. rewrite <- L.
  set (s1 := say [32] (hex (addr s) 8 (say nl s))).
  destruct (dump_hex_loop l 0 s1 Hb H0 ltac:(simpl; lia)) as (d1 & -> & O1). cbn [mbind res_bind].
  set (s2 := set_addr _ _). assert (addr s2 = addr s) as A2.
  { unfold s2. simpl. rewrite L. rewrite wrap_small by lia. lia. }
  destruct (dump_chars_loop l 0 s2 c) as (d2 & -> & O2);
    [rewrite A2; exact Hb|done|lia|rewrite A2; lia|].
  cbn [mbind res_bind]. exists d2. rewrite A2, L. split; [done|].
  rewrite O2. simpl. rewrite O1. simpl. rewrite out_printss, out_printhex, out_printss.
  unfold row_text. rewrite (wrap_small 32 (addr s)) by lia. by rewrite <- !app_assoc.
Qed.

Lemma dump_rows_ok n : forall fuel s l c,
  length l = (16 * n)%nat -> bytes_at (mmem s) (addr s) l -> Forall byte l ->
  0 <= addr s -> addr s + 16 * Z.of_nat n < 2 ^ 32 ->
  16 * (Z.of_nat n - 1) < count s <= 16 * Z.of_nat n -> (n < fuel)%nat ->
  exists d, while_loop fuel (fun '(s, checksum) =>
      if 0 <? count s then x ← dump_row s checksum; Ok (inl x) else Ok (inr (s, checksum))) (s, s8 c) =
    Ok (mk_mon (screen s) (addr s + 16 * Z.of_nat n) (count s - 16 * Z.of_nat n) d, s8 (c + sum l)) /\
    out d = out (mdev s) ++ rows_text n (addr s) l.
Proof.
  induction n as [|n IH]; intros fuel s l c L Hb Hr H0 Ha Hc Hf;
    (destruct fuel as [|fuel]; [lia|]); cbn [while_loop].
  - zbool. destruct l; [|done]. exists (mdev s). simpl.
    rewrite !Z.add_0_r, Z.sub_0_r, app_nil_r. by destruct s.
  - zbool. destruct (bytes_at_take_drop _ _ l 16 ltac:(lia) Hb) as [B1 B2].
    destruct (dump_row_ok s (take 16 l) c) as (d & -> & O1);
      [rewrite length_take; lia|done|by apply Forall_take|lia..|]. cbn [mbind res_bind].
    edestruct (IH fuel (mk_mon (screen s) (addr s + 16) (count s - 16) d) (drop 16 l)
      (c + sum (take 16 l))) as (d' & -> & O2);
      [rewrite length_drop; lia|exact B2|by apply Forall_drop|simpl; lia..|].
    exists d'. simpl. split.
    + do 3 f_equal; [lia..|]. rewrite <- (take_drop 16 l) at 3.
      unfold sum. rewrite foldr_app. generalize (foldr Z.add 0 (drop 16 l)). intros z.
      clear. rewrite <- Z.add_assoc. f_equal. induction (take 16 l) as [|x t IH]; simpl; lia.
    + rewrite O2. simpl. rewrite O1. by rewrite <- app_assoc.
Qed.

Lemma align_16 a : 0 <= a < 2 ^ 32 -> Z.land a 0xFFFFFFF0 = a - a mod 16.
Proof.
  intros Ha. transitivity (Z.shiftl (Z.shiftr a 4) 4).
  - change 0xFFFFFFF0 with (Z.shiftl (Z.ones 28) 4). apply Z.bits_inj'. intros i Hi.
    rewrite Z.land_spec, !Z.shiftl_spec by done. destruct (Z.lt_ge_cases i 4).
    + by rewrite !(Z.testbit_neg_r _ (i - 4)), andb_false_r by lia.
    + rewrite Z.shiftr_spec, Z.sub_add by lia. rewrite Z.testbit_ones_nonneg by lia.
      destruct (Z.ltb_spec (i - 4) 28); [apply andb_true_r|].
      by rewrite (testbit_above 32 a) by lia.
  - rewrite Z.shiftl_mul_pow2, Z.shiftr_div_pow2 by lia. change (2 ^ 4) with 16.
    Z.div_mod_to_equations. lia.
Qed.

Lemma fill_head_ok silent i s :
  addr (fill_head silent i s) = addr s /\ mmem (fill_head silent i s) = mmem s /\
  typed (mdev (fill_head silent i s)) = typed (mdev s).
Proof.
  unfold fill_head. destruct (_ && _); [|done]. simpl. by rewrite typed_printhex, typed_printss.
Qed.

Lemma fill_round_end silent s i :
  typed (mdev s) = [] -> exists s', fill_round silent (s, i) = Ok (inr s') /\ mmem s' = mmem s.
Proof.
  intros Ht. unfold fill_round. destruct (fill_head_ok silent i s) as (_ & M1 & T1). rewrite Ht in T1.
  unfold gethex_count.
  destruct (gethex_end (if silent then 0 else -1) (u32 (count (fill_head silent i s))) _ T1)
    as (r & v & d & -> & Hr).
  rewrite (proj2 (Z.eqb_neq r 0)) by done. eexists. split; [reflexivity|]. exact M1.
Qed.

Lemma fill_round_byte silent s i b bs :
  typed (mdev s) = b :: bs -> is_Some (mmem s !! addr s) -> 0 <= i < 2 ^ 31 - 1 ->
  exists s', fill_round silent (s, i) = Ok (inl (s', i + 1)) /\ typed (mdev s') = bs /\
    addr s' = u32 (addr s + 1) /\ mmem s' = <[addr s := b]> (mmem s).
Proof.
  intros Ht Hm Hi. unfold fill_round. destruct (fill_head_ok silent i s) as (A1 & M1 & T1).
  rewrite Ht in T1. unfold gethex_count.
  destruct (gethex_byte (if silent then 0 else -1) (u32 (count (fill_head silent i s))) _ b bs T1)
    as (v & d & -> & Hv & Hd).
  change (0 =? 0) with true. cbn [negb]. unfold mmem in *. cbn [screen addr count set_count set_mdev].
  rewrite A1, M1, store8_ok by done. cbn [mbind res_bind]. rewrite int32_ok by lia.
  cbn [mbind res_bind]. eexists. split; [reflexivity|]. simpl.
  replace (u8 (u32 (s32 v))) with b by (rewrite <- Hv; clear; width_lia). done.
Qed.

Lemma monitor_fill_loop silent bs : forall i fuel s,
  typed (mdev s) = bs -> 0 <= i -> i + Z.of_nat (length bs) < 2 ^ 31 ->
  0 <= addr s -> addr s + Z.of_nat (length bs) < 2 ^ 32 -> (length bs < fuel)%nat ->
  mapped (mmem s) (addr s) (Z.of_nat (length bs)) ->
  exists s', while_loop fuel (fill_round silent) (s, i) = Ok s' /\
    mmem s' = write_list (mmem s) (addr s) bs.
Proof.
  induction bs as [|b bs IH]; intros i fuel s Ht Hi Hi31 Ha Ha32 Hf Hm;
    (destruct fuel as [|fuel]; [simpl in Hf; lia|]); cbn [while_loop].
  - destruct (fill_round_end silent s i Ht) as (s' & -> & M). by exists s'.
  - simpl in Hi31, Ha32, Hf. assert (H0 : is_Some (mmem s !! addr s))
      by (rewrite <- (Z.add_0_r (addr s)); apply Hm; simpl; lia).
    destruct (fill_round_byte silent s i b bs Ht H0 ltac:(lia)) as (s1 & -> & T1 & A1 & M1).
    rewrite wrap_small in A1 by lia. cbn [mbind res_bind].
    destruct (IH (i + 1) fuel s1 T1) as (s' & -> & M'); [lia..| |].
    + intros j Hj. rewrite M1, A1, lookup_insert_ne by lia.
      replace (addr s + 1 + j) with (addr s + (1 + j)) by lia. apply Hm. simpl. lia.
    + exists s'. split; [done|]. by rewrite M', M1, A1.
Qed.

(** The drawing routines have no loop that could run out of fuel. *)
Lemma bind_no_fuel {X Y} (r : res X) (f : X -> res Y) :
  r <> Fuel -> (forall x, f x <> Fuel) -> (r ≫= f) <> Fuel.
Proof. destruct r; simpl; auto; done. Qed.

Lemma for_range_no_fuel {S} a b (f : Z -> S -> res S) s :
  (forall i s, f i s <> Fuel) -> for_range a b f s <> Fuel.
Proof.
  intros Hf. unfold for_range. generalize (Z.to_nat (b - a)) as n. intros n. revert a s.
  induction n as [|n IH]; intros i s; [done|].
  simpl. by apply bind_no_fuel.
Qed.

Lemma int32_no_fuel x : int32 x <> Fuel.
Proof. destruct (int32_cases x) as [-> | ->]; done. Qed.

Lemma store8_no_fuel m a v : store8 m a v <> Fuel.
Proof. unfold store8. by destruct (m !! a). Qed.

Lemma setpixel_no_fuel m x y b g r : setpixel m x y b g r <> Fuel.
Proof.
  unfold setpixel, pixel_offset, store_pixel, video_store.
  repeat (apply bind_no_fuel; intros); auto using int32_no_fuel, store8_no_fuel; done.
Qed.

Lemma line_coord_no_fuel from delta len start p : line_coord from delta len start p <> Fuel.
Proof.
  unfold line_coord, int_div. repeat (apply bind_no_fuel; intros); auto using int32_no_fuel.
  destruct (_ =? _); auto using int32_no_fuel; done.
Qed.

Lemma drawline_no_fuel m x1 y1 x2 y2 b g r : drawline m x1 y1 x2 y2 b g r <> Fuel.
Proof.
  assert (Ha : forall x, int_abs x <> Fuel)
    by (intros x; unfold int_abs; destruct (_ <? _); auto using int32_no_fuel; done).
  unfold drawline. do 4 (apply bind_no_fuel; [auto using int32_no_fuel|intros]).
  destruct (_ <=? _); (destruct (_ <? _)); apply for_range_no_fuel; intros;
    (apply bind_no_fuel; [apply line_coord_no_fuel|intros]);
    (apply bind_no_fuel; [apply setpixel_no_fuel|intros]);
    (apply bind_no_fuel; [apply int32_no_fuel|done]).
Qed.

Lemma bind_undef {X Y} (r : res X) (f : X -> res Y) :
  r <> Fuel -> (forall x, f x = Undef) -> (r ≫= f) = Undef.
Proof. destruct r; simpl; auto; done. Qed.

Lemma load8_no_fuel m a : load8 m a <> Fuel.
Proof. unfold load8. by destruct (m !! a). Qed.

Lemma boot_report_no_fuel s : boot_report s <> Fuel.
Proof.
  unfold boot_report. apply bind_no_fuel; [|done]. generalize 8%nat, 0xFFFF5.
  intros n. induction n as [|n IH]; intros a; simpl; [done|].
  apply bind_no_fuel; [apply load8_no_fuel|intros b]. by apply bind_no_fuel.
Qed.

(** ** Properties *)

(** C20. A dump shows the rows of 16 bytes that the range touches, each with its
    address, its bytes in hexadecimal and its bytes as characters, and ends with
    the sum of all bytes of those rows, as a [char]; memory does not change. *)
Theorem monitor_dump (fuel : nat) (s : mon) (a n : Z) (d1 d2 : D) (l : list Z) :
  let base := a - a mod 16 in
  let rows := Z.to_nat ((n + a mod 16 + 15) / 16) in
  gethex 8 (-1) (addr s) (mdev s) = (0, a, d1) ->
  gethex 8 (-1) (u32 (count s)) d1 = (0, n, d2) ->
  0 <= a < 2 ^ 32 -> 0 <= n < 2 ^ 31 - 15 ->
  length l = (16 * rows)%nat -> Forall byte l -> bytes_at (mmem s) base l ->
  base + Z.of_nat (length l) < 2 ^ 32 -> (rows < fuel)%nat ->
  exists s', cmd_dump fuel s = Ok (Bottom s') /\ screen s' = screen s /\
    out (mdev s') = out d2 ++ rows_text rows base l ++ nl ++ str_bytes "Checksum = " ++
                    hex_digits (u32 (s8 (sum l))) 2.
Proof.
  intros base rows E1 E2 Ha Hn L Hr Hb Hend Hf.
  pose proof (Z.mod_pos_bound a 16 ltac:(lia)) as Hm.
  assert (Hrows : Z.of_nat rows = (n + a mod 16 + 15) / 16)
    by (unfold rows; rewrite Z2Nat.id; [done|apply Z.div_pos; lia]).
  assert (Hdiv : 16 * (Z.of_nat rows - 1) < n + a mod 16 <= 16 * Z.of_nat rows)
    by (rewrite Hrows; Z.div_mod_to_equations; lia).
  unfold cmd_dump, gethex_addr, gethex_count. rewrite E1. cbn [negb Z.eqb count mdev set_addr set_mdev].
  change (0 =? 0) with true. cbn [negb count mdev set_addr set_mdev]. rewrite E2.
  change (0 =? 0) with true. cbn [negb].
  set (s1 := set_addr _ _).
  assert (A1 : addr s1 = base).
  { unfold s1. cbn [addr set_addr set_count set_mdev]. rewrite wrap_small by lia.
    by apply align_16. }
  assert (C1 : count s1 = n + a mod 16).
  { unfold s1. cbn [addr set_addr count set_count set_mdev]. rewrite (wrap_small 32 a) by lia.
    change 0xF with (Z.ones 4). rewrite Z.land_ones by lia. change (2 ^ 4) with 16.
    rewrite (swrap_small 32 n), (wrap_small 32 n), swrap_small by lia. done. }
  unfold dump_rows.
  destruct (dump_rows_ok rows fuel s1 l 0) as (d & E & O);
    [done|by rewrite A1|done|rewrite A1; unfold base; Z.div_mod_to_equations; lia
    |rewrite A1; lia|by rewrite C1|done|].
  change (s8 0) with 0 in E. rewrite E. cbn [mbind res_bind]. eexists. split; [reflexivity|]. split; [done|].
  simpl. rewrite out_printhex, out_printss, O, A1. simpl. by rewrite <- !app_assoc.
Qed.

(** C21. The fill command stores the bytes typed, in order, from the address rounded
    down to a multiple of 16, until something that is not a byte is typed. *)
Theorem monitor_fill (fuel : nat) (silent : bool) (s : mon) (a : Z) (d : D) :
  gethex 8 (if silent then 0 else -1) (addr s) (mdev s) = (0, a, d) ->
  let base := a - a mod 16 in let n := Z.of_nat (length (typed d)) in
  0 <= a -> base + n < 2 ^ 32 -> n < 2 ^ 31 -> a < 2 ^ 32 -> (length (typed d) < fuel)%nat ->
  mapped (mmem s) base n ->
  exists s', cmd_fill fuel silent s = Ok (Bottom s') /\
    mmem s' = write_list (mmem s) base (typed d).
Proof.
  intros E base n Ha Hn Hn31 Ha32 Hf Hm. unfold cmd_fill, gethex_addr. rewrite E.
  change (0 =? 0) with true. cbn [negb]. set (s1 := set_addr _ _).
  assert (A1 : addr s1 = base).
  { unfold s1. cbn [addr set_addr set_mdev]. rewrite wrap_small by lia. by apply align_16. }
  destruct (monitor_fill_loop silent (typed d) 0 fuel s1) as (s2 & E2 & M2); try done; try lia.
  - unfold base in A1. rewrite A1. Z.div_mod_to_equations. lia.
  - by rewrite A1.
  - rewrite E2. exists s2. split; [done|]. by rewrite M2, A1.
Qed.

(** In the abstract machine of C the boot never reaches the command loop: the
    circle inside the triangle takes [sqrt(0)], which returns no value. *)
Theorem main_undefined (fuel rounds : nat) (s : mon) : main fuel rounds s = Undef.
Proof.
  unfold main. apply bind_undef; [apply boot_report_no_fuel|intros s'].
  assert (draw_triangle (mmem s') = Undef) as ->; [|done]. unfold draw_triangle.
  do 4 (apply bind_undef; [apply drawline_no_fuel|intros]). by apply drawcircle_undefined.
Qed.

End Monitor.

(** ** Witnesses *)

(** A machine with a queue of typed numbers and the text printed so far; numbers
    are shown as one character. *)
Record demo := mk_demo { dqueue : list Z; dout : list Z }.

#[local] Instance demo_ports : PortIO demo :=
  { inb _ d := (0, d); outb _ _ d := d; inw _ d := (0, d); outw _ _ d := d }.

#[local] Instance demo_print : Console demo :=
  { printss t d := mk_demo (dqueue d) (dout d ++ t) }.

#[local] Instance demo_monitor : MonitorEnv demo := {
  printhex v n d := mk_demo (dqueue d) (dout d ++ [v]);
  putcc _ d := d; lowercase c := c;
  gethex _ _ old d := match dqueue d with
                      | [] => (1, old, d)
                      | v :: q => (0, v, mk_demo q (dout d))
                      end;
  get_eip _ := 0; lgdt d := d; irq_disable d := d; irq_enable d := d; idt_install d := d;
  idt_set_gate _ _ _ _ d := d; reset d := d; call_addr _ x := x; software_interrupt _ x := x;
  sidt _ := (0, 0); irq_count _ _ := 0; FATInitialize x := (0, x); sizeof_ISR_Stack_Frame := 64
}.

#[local] Instance demo_hex : HexConsole (D := demo).
Proof. by refine {| out d := dout d; hex_digits v n := [v] |}. Defined.

#[local] Instance demo_input : HexInput (D := demo).
Proof.
  refine {| typed d := map u8 (dqueue d) |}; [| |done..].
  - intros echo old [[|v q] o] b bs [= <- <-]. by exists v, (mk_demo q o).
  - intros echo old [[|v q] o]; [|done]. intros _. by eexists 1, _, _.
Defined.

(** 32 bytes at 0x100, of which [d 108 9] touches both rows. *)
Definition demo_bytes : list Z := seqZ 240 16 ++ seqZ 65 16.
Definition demo_mon (q : list Z) : mon (D := demo) :=
  mk_mon (mk_gst (mem_of 0x100 demo_bytes) 0 0) 0 0 (mk_demo q []).

Lemma monitor_dump_witness :
  exists s', cmd_dump 3 (demo_mon [0x108; 9]) = Ok (Bottom s') /\
    screen s' = screen (demo_mon []) /\
    dout (mdev s') = rows_text 2 0x100 demo_bytes ++ nl ++ str_bytes "Checksum = " ++ [0].
Proof.
  destruct (monitor_dump 3 (demo_mon [0x108; 9]) 0x108 9 (mk_demo [9] []) (mk_demo [] []) demo_bytes)
    as (s' & E & S & O);
    [done|done|lia|lia|done| |apply write_list_bytes_at|done|vm_compute; lia|].
  - apply list.Forall_forall. intros b Hb. unfold demo_bytes in Hb.
    rewrite elem_of_app, !elem_of_seqZ in Hb. unfold byte. lia.
  - exists s'. split; [exact E|]. split; [exact S|]. etransitivity; [exact O|]. by vm_compute.
Defined.

Lemma monitor_fill_witness :
  exists s', cmd_fill 4 true (demo_mon [0x108; 1; 0x102; 3]) = Ok (Bottom s') /\
    mmem s' = write_list (mem_of 0x100 demo_bytes) 0x100 [1; 2; 3].
Proof.
  destruct (monitor_fill 4 true (demo_mon [0x108; 1; 0x102; 3]) 0x108 (mk_demo [1; 0x102; 3] []))
    as (s' & E & M); [done|lia|done|done|lia|simpl; lia| |].
  - eapply (mapped_sub _ 0x100 32); [|vm_compute; discriminate|vm_compute; discriminate].
    apply (bytes_at_mapped _ _ demo_bytes), write_list_bytes_at.
  - exists s'. split; [exact E|]. etransitivity; [exact M|]. by vm_compute.
Defined.
