(* ===== verification/History.v ===== *)
(** Programs that talk to the rest of the machine, with the history of their calls.

    A program of the monad [M] runs on a state [D] of everything outside and a list
    of the events it caused; it returns a value, stops for good ([None]: a call of
    [exit], a loop that never ends), or has no defined behaviour.  [runs m P] says
    what a run adds to the history. *)

From S2P Require Import Prelude.

Section History.
Context {D event : Type}.

Record world := mk_world { ext : D; history : list event }.

(** [None] is a call of [exit(0)]. *)
Definition M (A : Type) : Type := world -> res (option A * world).

Definition ret {A} (a : A) : M A := fun w => Ok (Some a, w).
Definition exit {A} : M A := fun w => Ok (None, w).
Definition undef {A} : M A := fun _ => Undef.
Definition lift {A} (r : res A) : M A := fun w => a ← r; Ok (Some a, w).

Definition bind {A B} (m : M A) (f : A -> M B) : M B := fun w =>
  '(o, w) ← m w;
  match o with Some a => f a w | None => Ok (None, w) end.


(** A call with no answer, and one with an answer. *)
Definition act (e : event) (f : D -> D) : M unit := fun w =>
  Ok (Some tt, mk_world (f (ext w)) (history w ++ [e])).
Definition ask {A} (e : A -> event) (f : D -> A * D) : M A := fun w =>
  let '(a, d) := f (ext w) in Ok (Some a, mk_world d (history w ++ [e a])).

(** A loop that waits for input. *)
Fixpoint loop {R} (fuel : nat) (body : M (option R)) : M R :=
  match fuel with
  | O => fun _ => Fuel
  | S fuel' => bind body (fun o => match o with Some r => ret r | None => loop fuel' body end)
  end.

(** Every run of [m] that returns or exits adds a piece to the history of which
    [P] holds, together with what it answers. *)
Definition runs {A} (m : M A) (P : option A -> list event -> Prop) : Prop :=
  forall w o w', m w = Ok (o, w') -> exists t, history w' = history w ++ t /\ P o t.

Lemma runs_mono {A} (m : M A) (P Q : option A -> list event -> Prop) :
  runs m P -> (forall o t, P o t -> Q o t) -> runs m Q.
Proof. intros H HPQ w o w' E. destruct (H _ _ _ E) as (t & Et & Ht). eauto. Qed.

Lemma runs_bind {A B} (m : M A) (f : A -> M B) (P : option A -> list event -> Prop) Q :
  runs m P -> (forall a t, P (Some a) t -> runs (f a) (fun o t' => Q o (t ++ t'))) ->
  (forall t, P None t -> Q None t) -> runs (bind m f) Q.
Proof.
  intros Hm Hf Hn w o w' E. unfold bind in E. apply res_bind_ok in E as ([oa w1] & E1 & E2).
  destruct (Hm _ _ _ E1) as (t1 & H1 & P1). destruct oa as [a|].
  - destruct (Hf a t1 P1 _ _ _ E2) as (t2 & H2 & P2). exists (t1 ++ t2).
    by rewrite H2, H1, app_assoc.
  - injection E2 as <- <-. eauto.
Qed.

Lemma runs_ret {A} (a : A) (P : option A -> list event -> Prop) : P (Some a) [] -> runs (ret a) P.
Proof. intros HP w o w' [= <- <-]. exists []. by rewrite app_nil_r. Qed.

Lemma runs_exit {A} (P : option A -> list event -> Prop) : P None [] -> runs exit P.
Proof. intros HP w o w' [= <- <-]. exists []. by rewrite app_nil_r. Qed.

Lemma runs_act e f (P : option unit -> list event -> Prop) : P (Some tt) [e] -> runs (act e f) P.
Proof. intros HP w o w' [= <- <-]. by exists [e]. Qed.

Lemma runs_ask {A} (e : A -> event) f (P : option A -> list event -> Prop) :
  (forall a, P (Some a) [e a]) -> runs (ask e f) P.
Proof.
  intros HP w o w'. unfold ask. destruct (f (ext w)) as [a d]. intros [= <- <-]. by exists [e a].
Qed.

(** The history of a loop: the rounds that went on, and the last one. *)
Lemma runs_loop {R} (body : M (option R)) (I : list event -> Prop) (P : option R -> list event -> Prop) fuel :
  runs body (fun o t => match o with Some None => I t | Some (Some r) => P (Some r) t | None => P None t end) ->
  (forall o t t', I t -> P o t' -> P o (t ++ t')) ->
  runs (loop fuel body) P.
Proof.
  intros Hb HI. induction fuel as [|fuel IH]; [by intros w o w'|]. simpl.
  eapply runs_bind; [exact Hb| |done]. intros [r|] t Ht; simpl in Ht.
  - apply runs_ret. by rewrite app_nil_r.
  - eapply runs_mono; [exact IH|]. eauto.
Qed.

(** The first event of a program is an act or an answer. *)
Lemma runs_act_bind {B} e f (k : M B) (Q : option B -> list event -> Prop) :
  runs k (fun o t => Q o (e :: t)) -> runs (bind (act e f) (fun _ => k)) Q.
Proof.
  intros H. apply (runs_bind _ _ (fun o t => o = Some tt /\ t = [e])).
  - by apply runs_act.
  - intros a t [_ ->]. exact H.
  - by intros t [? _].
Qed.

Lemma runs_ask_bind {A B} (e : A -> event) f (k : A -> M B) (Q : option B -> list event -> Prop) :
  (forall a, runs (k a) (fun o t => Q o (e a :: t))) -> runs (bind (ask e f) k) Q.
Proof.
  intros H. apply (runs_bind _ _ (fun o t => exists a, o = Some a /\ t = [e a])).
  - apply runs_ask. eauto.
  - intros a t (? & [= <-] & ->). apply H.
  - by intros t (? & ? & _).
Qed.

(** [m] always ends, and then as [P] says. *)
Definition ends {A} (m : M A) (P : option A -> list event -> Prop) : Prop :=
  forall w, exists o w' t, m w = Ok (o, w') /\ history w' = history w ++ t /\ P o t.

Lemma ends_mono {A} (m : M A) (P Q : option A -> list event -> Prop) :
  ends m P -> (forall o t, P o t -> Q o t) -> ends m Q.
Proof. intros H HPQ w. destruct (H w) as (o & w' & t & E & Et & Ht). eauto 10. Qed.

Lemma ends_bind {A B} (m : M A) (f : A -> M B) (P : option A -> list event -> Prop) Q :
  ends m P -> (forall a t, P (Some a) t -> ends (f a) (fun o t' => Q o (t ++ t'))) ->
  (forall t, P None t -> Q None t) -> ends (bind m f) Q.
Proof.
  intros Hm Hf Hn w. destruct (Hm w) as (oa & w1 & t1 & E1 & H1 & P1). unfold bind. rewrite E1.
  destruct oa as [a|]; cbn [mbind res_bind]; [|eauto 10].
  destruct (Hf a t1 P1 w1) as (o & w2 & t2 & E2 & H2 & P2). exists o, w2, (t1 ++ t2).
  by rewrite H2, H1, app_assoc.
Qed.

Lemma ends_ret {A} (a : A) (P : option A -> list event -> Prop) : P (Some a) [] -> ends (ret a) P.
Proof. intros HP w. exists (Some a), w, []. by rewrite app_nil_r. Qed.

Lemma ends_exit {A} (P : option A -> list event -> Prop) : P None [] -> ends exit P.
Proof. intros HP w. exists None, w, []. by rewrite app_nil_r. Qed.

Lemma ends_act e f (P : option unit -> list event -> Prop) : P (Some tt) [e] -> ends (act e f) P.
Proof. intros HP w. by eexists (Some tt), _, [e]. Qed.

Lemma ends_ask {A} (e : A -> event) f (P : option A -> list event -> Prop) :
  (forall a, P (Some a) [e a]) -> ends (ask e f) P.
Proof.
  intros HP w. unfold ask. destruct (f (ext w)) as [a d]. by eexists (Some a), _, [e a].
Qed.

Lemma ends_act_bind {B} e f (k : M B) (Q : option B -> list event -> Prop) :
  ends k (fun o t => Q o (e :: t)) -> ends (bind (act e f) (fun _ => k)) Q.
Proof.
  intros H. apply (ends_bind _ _ (fun o t => o = Some tt /\ t = [e])).
  - by apply ends_act.
  - intros a t [_ ->]. exact H.
  - by intros t [? _].
Qed.

Lemma ends_ask_bind {A B} (e : A -> event) f (k : A -> M B) (Q : option B -> list event -> Prop) :
  (forall a, ends (k a) (fun o t => Q o (e a :: t))) -> ends (bind (ask e f) k) Q.
Proof.
  intros H. apply (ends_bind _ _ (fun o t => exists a, o = Some a /\ t = [e a])).
  - apply ends_ask. eauto.
  - intros a t (? & [= <-] & ->). apply H.
  - by intros t (? & ? & _).
Qed.
End History.

Declare Scope history_scope.
Delimit Scope history_scope with history.
Notation "x <- m ;; k" := (bind m (fun x => k)) (at level 100, m at next level, right associativity) : history_scope.
Notation "m ;;; k" := (bind m (fun _ => k)) (at level 100, right associativity) : history_scope.

Arguments world : clear implicits.
Arguments M : clear implicits.
