(* ===== verification/Boot.v ===== *)
(** The boot sequences: [kmain.c], and the entry point, the start of the drivers and
    the test device of [kernel/main.c].

    What they call is not part of the repository: every call is an event of a
    history, and the calls that answer something are questions to the machine; a
    call that need not return answers whether it does.
    [Module Kmain] is the boot of [kmain.c], which stops in one of three endless
    loops; [Module Late] the one of [kernel/main.c] with its waiting loops;
    [Module Device] the test device from its registration to a read. *)

From S2P Require Import Prelude Mem CString History Display Login.

Local Open Scope history_scope.

Module Kmain.

(** ** [kmain.c] *)
Inductive stream := SCREEN | LOG.

Inductive call :=
  | clear_screen
  | fprintf (to : stream) (fmt : list Z) (args : list arg)
  | serial_init
  | print_multiboot_info (to : stream) (mbinfo : Z)
  | initialize_gdt | initialize_idt | interrupt | pic_init | initialize_tss
  | initialize_filesystem (module : Z)
  | create_process (file : Z).

Inductive query :=
  | get_elf_section (mbinfo : Z) (name : list Z)
  | load_symbol_table (symtab strtab : Z)
  | initialize_page_allocator (kernel_memory : list Z) (mbinfo : Z)
  | initialize_kernel_page_directory
  | num_present_pages (pd : Z)
  | read_word (address : Z)
  | malloc (size : Z)
  | address_of_local
  | current_stack_pointer
  | first_module (mbinfo : Z)
  | get_file (name : list Z).

(** [Spins] is an endless loop. *)
Inductive event := Called (c : call) | Asked (q : query) (answer : Z) | Spins.

Class Machine (D : Type) := { do_call : call -> D -> D; do_query : query -> D -> Z * D }.

Section Kmain.
Context {D : Type} `{!Machine D}.

Local Abbreviation M := (History.M D event).

Definition do (c : call) : M unit := act (Called c) (do_call c).
Definition query_ (q : query) : M Z := ask (Asked q) (do_query q).
Definition spin {A} : M A := act Spins id ;;; exit.

Definition log (fmt : String.string) (args : list arg) : M unit := do (fprintf LOG (str_bytes fmt ++ [10]) args).
Arguments log fmt%_string args.

(** A stage: its message, what it does, and [done]. *)
Definition finished : M unit := log "  - done" [].

Definition welcome_rows : list (list Z) :=
  [str_bytes "                                                                                ";
   str_bytes "                                                                                ";
   str_bytes "                                                                                ";
   str_bytes "                                                                                ";
   str_bytes "                              | |                  | |                          ";
   str_bytes "                   ___   ___  | |_    __ _    ___  | | __                       ";
   str_bytes "                  / __| / __| | __|  / _` |  / __| | |/ /                       ";
   str_bytes "                 | (__  \__ \ | |_  | (_| | | (__  |   <                        ";
   str_bytes "                  \___| |___/  \__|  \__,_|  \___| |_|\_\                       ";
   str_bytes "                                                                                ";
   str_bytes "                                                                                ";
   str_bytes "                             ____     _____                                     ";
   str_bytes "                            / __ \   / ____|                                    ";
   str_bytes "                           | |  | | | (___                                      ";
   str_bytes "                           | |  | |  \___ \                                     ";
   str_bytes "                           | |__| |  ____) |                                    ";
   str_bytes "                            \____/  |_____/                                     ";
   str_bytes "                                                                                ";
   str_bytes "                                                                                ";
   str_bytes "                                                                                ";
   str_bytes "                                                                                ";
   str_bytes "                                                                                ";
   str_bytes "                                                                                ";
   str_bytes "                                                                                ";
   str_bytes "                                                                                "].

Definition welcome_string : list Z := concat welcome_rows.

Definition trigger_page_fault : M Z := query_ (read_word 0x400000).

(** [sizeof(struct test_struct_t)] *)
Definition TEST_STRUCT_SIZE : Z := 12.

Definition banner : list Z :=
  [10] ++ replicate 20 45 ++ [10] ++ str_bytes "cstackOS is booting!" ++ [10] ++ replicate 20 45 ++ [10].

(** The compiler may evaluate the two arguments in either order. *)
Definition load_symbols (strtab_first : bool) (mbinfo : Z) : M unit :=
  let symtab := query_ (get_elf_section mbinfo (str_bytes ".symtab")) in
  let strtab := query_ (get_elf_section mbinfo (str_bytes ".strtab")) in
  log "- Initializing symbol table..." [] ;;;
  sections <- (if strtab_first then b <- strtab ;; a <- symtab ;; ret (a, b)
               else a <- symtab ;; b <- strtab ;; ret (a, b)) ;;
  ok <- query_ (load_symbol_table sections.1 sections.2) ;;
  if ok =? 0 then log "ERROR: Could not initialize symbol table." [] ;;; spin else finished.

Definition init_tables : M unit :=
  log "- Initializing global descriptor table..." [] ;;; do initialize_gdt ;;; finished ;;;
  log "- Initializing interrupt descriptor table..." [] ;;; do initialize_idt ;;; finished ;;;
  log "- Issuing test interrupt..." [] ;;; do interrupt ;;; finished ;;;
  log "- Initializing programable interrupt controller..." [] ;;; do pic_init ;;; finished.

Definition init_pages (kernel_memory : list Z) (mbinfo : Z) : M unit :=
  log "- Initializing page allocator..." [] ;;;
  free_pages <- query_ (initialize_page_allocator kernel_memory mbinfo) ;;
  finished ;;;
  log "  - %i free pages (%i MB)" [ANum free_pages; ANum (u32 free_pages / 256)] ;;;
  log "- Initializing page directory..." [] ;;;
  pd <- query_ initialize_kernel_page_directory ;;
  finished ;;;
  log "  - Address of page directory: %x" [ANum (u32 pd)] ;;;
  num_pages <- query_ (num_present_pages pd) ;;
  log "  - %i present pages" [ANum num_pages] ;;;
  log "- Triggering a page fault..." [] ;;;
  value <- trigger_page_fault ;;
  finished ;;;
  log "  - value at unmapped address was %x" [ANum value].

Definition init_rest : M unit :=
  log "- Initializing task state segment..." [] ;;; do initialize_tss ;;; finished ;;;
  log "- Dynamically allocating a struct..." [] ;;;
  test <- query_ (malloc TEST_STRUCT_SIZE) ;;
  finished ;;;
  log "  - address (on heap) is: %x" [ANum (u32 test)] ;;;
  local <- query_ address_of_local ;;
  log "  - local variable (on stack) at: %x" [ANum (u32 local)] ;;;
  sp <- query_ current_stack_pointer ;;
  log "  - stack pointer is: %x" [ANum (u32 sp)] ;;;
  log "- Testing format strings..." [] ;;;
  log "  - %%s -> %s, %%c -> %c, %%x -> %x, %%X -> %X, %%u -> %u, %%i -> %i, %%o -> %o"
    [ALit (str_bytes "test"); ANum 65; ANum 0xDEADBEEF; ANum 0xDEADBEEF; ANum 0; ANum (-12345); ANum 12345].

Definition start_shell (mbinfo : Z) : M unit :=
  log "- Loading file system from GRUB module..." [] ;;;
  module <- query_ (first_module mbinfo) ;;
  do (initialize_filesystem module) ;;;
  finished ;;;
  file <- query_ (get_file (str_bytes "shell.bin")) ;;
  if file =? 0 then log "ERROR: could not find file %s" [ALit (str_bytes "shell.bin")] ;;; spin
  else
    log "- Creating a user process..." [] ;;;
    do (create_process file) ;;;
    finished.

Definition kmain (DEBUG strtab_first : bool) (kernel_memory : list Z) (ebx : Z) : M unit :=
  do clear_screen ;;;
  do (fprintf SCREEN welcome_string []) ;;;
  do serial_init ;;;
  do (fprintf LOG (banner ++ [10]) []) ;;;
  (if DEBUG then
     log "
Multiboot info passed to kernel from GRUB:" [] ;;;
     do (print_multiboot_info LOG ebx) ;;;
     log "" []
   else ret tt) ;;;
  load_symbols strtab_first ebx ;;;
  init_tables ;;;
  init_pages kernel_memory ebx ;;;
  init_rest ;;;
  start_shell ebx ;;;
  spin.

(** *** The order of the boot *)

(** Prints leave the machine as it is prepared. *)
Definition is_print (e : event) : bool :=
  match e with Called (fprintf _ _ _) | Called (print_multiboot_info _ _) => true | _ => false end.

Definition steps (t : list event) : list event := filter (fun e => is_print e = false) t.

(** The boot, without its prints: the stages up to the symbol table, up to the file
    system, and the process. *)
Definition symbols (sf : bool) (mb symtab strtab ok : Z) : list event :=
  let a := Asked (get_elf_section mb (str_bytes ".symtab")) symtab in
  let b := Asked (get_elf_section mb (str_bytes ".strtab")) strtab in
  [Called clear_screen; Called serial_init] ++ (if sf then [b; a] else [a; b]) ++
  [Asked (load_symbol_table symtab strtab) ok].

Definition tables : list event :=
  [Called initialize_gdt; Called initialize_idt; Called interrupt; Called pic_init].

Definition pages (km : list Z) (mb free pd num value : Z) : list event :=
  [Asked (initialize_page_allocator km mb) free; Asked initialize_kernel_page_directory pd;
   Asked (num_present_pages pd) num; Asked (read_word 0x400000) value].

Definition rest (test local sp : Z) : list event :=
  [Called initialize_tss; Asked (malloc TEST_STRUCT_SIZE) test; Asked address_of_local local;
   Asked current_stack_pointer sp].

Definition filesystem (mb module file : Z) : list event :=
  [Asked (first_module mb) module; Called (initialize_filesystem module);
   Asked (get_file (str_bytes "shell.bin")) file].

Inductive boot_path (sf : bool) (km : list Z) (mb : Z) : list event -> Prop :=
  | no_symbols a b : boot_path sf km mb (symbols sf mb a b 0 ++ [Spins])
  | no_file a b ok f pd n v p l sp m :
      ok <> 0 ->
      boot_path sf km mb (symbols sf mb a b ok ++ tables ++ pages km mb f pd n v ++ rest p l sp ++
                       filesystem mb m 0 ++ [Spins])
  | running a b ok f pd n v p l sp m file :
      ok <> 0 -> file <> 0 ->
      boot_path sf km mb (symbols sf mb a b ok ++ tables ++ pages km mb f pd n v ++ rest p l sp ++
                       filesystem mb m file ++ [Called (create_process file); Spins]).

Ltac ends_steps := repeat first
  [ apply ends_act_bind | apply ends_ask_bind; intros ? | apply ends_act | apply ends_exit | apply ends_ret ].

Lemma load_symbols_steps sf mb :
  ends (load_symbols sf mb) (fun o t => exists a b ok,
    Called clear_screen :: Called serial_init :: steps t =
      symbols sf mb a b ok ++ (if o is Some _ then [] else [Spins]) /\ (o = None <-> ok = 0)).
Proof.
  unfold load_symbols. apply ends_act_bind. set (mk := fun a b => if sf
    then [Asked (get_elf_section mb (str_bytes ".strtab")) b; Asked (get_elf_section mb (str_bytes ".symtab")) a]
    else [Asked (get_elf_section mb (str_bytes ".symtab")) a; Asked (get_elf_section mb (str_bytes ".strtab")) b]).
  apply (ends_bind _ _ (fun o t => exists a b, o = Some (a, b) /\ t = mk a b)).
  - unfold mk. destruct sf; ends_steps; by do 2 eexists.
  - intros [? ?] ? (a & b & [= -> ->] & ->). apply ends_ask_bind. intros ok. cbn [fst snd].
    case_bool; ends_steps; exists a, b, ok; unfold mk, symbols; destruct sf; (split; [reflexivity|]); done.
  - by intros ? (? & ? & ? & _).
Qed.

Lemma init_tables_steps : ends init_tables (fun o t => o = Some tt /\ steps t = tables).
Proof. unfold init_tables, finished, log, do. ends_steps. done. Qed.

Lemma init_pages_steps km mb :
  ends (init_pages km mb) (fun o t => o = Some tt /\ exists f pd n v, steps t = pages km mb f pd n v).
Proof. unfold init_pages, finished, log, do, query_. ends_steps. split; [done|]. by do 4 eexists. Qed.

Lemma init_rest_steps : ends init_rest (fun o t => o = Some tt /\ exists p l sp, steps t = rest p l sp).
Proof. unfold init_rest, finished, log, do, query_. ends_steps. split; [done|]. by do 3 eexists. Qed.

Lemma start_shell_steps mb :
  ends (start_shell mb) (fun o t => exists m file,
    steps t = filesystem mb m file ++ (if o is Some _ then [Called (create_process file)] else [Spins]) /\
    (o = None <-> file = 0)).
Proof.
  unfold start_shell. do 5 (apply ends_act_bind || (apply ends_ask_bind; intros ?)).
  case_bool; ends_steps; do 2 eexists; (split; [reflexivity|]); done.
Qed.

Lemma steps_app t1 t2 : steps (t1 ++ t2) = steps t1 ++ steps t2.
Proof. apply filter_app. Qed.

Lemma kmain_path DEBUG sf km ebx :
  ends (kmain DEBUG sf km ebx) (fun o t => o = None /\ boot_path sf km ebx (steps t)).
Proof.
  unfold kmain. do 4 apply ends_act_bind.
  apply (ends_bind _ _ (fun o t => o = Some tt /\ steps t = [])); [destruct DEBUG; unfold log, do; ends_steps; done| |by intros ? []].
  intros _ t0 [_ H0]. eapply ends_bind; [apply load_symbols_steps| |].
  2:{ intros t1 (a & b & ok & H1 & Hok). split; [done|]. rewrite (proj1 Hok eq_refl) in H1.
      change (boot_path sf km ebx (Called clear_screen :: Called serial_init :: steps (t0 ++ t1))).
      rewrite steps_app, H0. simpl. rewrite H1. apply no_symbols. }
  intros [] t1 (a & b & ok & H1 & Hok). eapply ends_bind; [apply init_tables_steps| |by intros ? []].
  intros _ t2 [_ H2]. eapply ends_bind; [apply init_pages_steps| |by intros ? []].
  intros _ t3 [_ (f & pd & n & v & H3)]. eapply ends_bind; [apply init_rest_steps| |by intros ? []].
  intros _ t4 [_ (p & l & sp & H4)].
  assert (ok <> 0) as Hok' by (intros E; by apply Hok in E).
  assert (forall t, Called clear_screen :: Called serial_init :: steps (t0 ++ t1 ++ t2 ++ t3 ++ t4 ++ t) =
    symbols sf ebx a b ok ++ tables ++ pages km ebx f pd n v ++ rest p l sp ++ steps t) as Hpath.
  { intros t. rewrite !steps_app, H0, H2, H3, H4. cbv iota in H1. rewrite app_nil_r in H1. by rewrite <- H1. }
  eapply ends_bind; [apply start_shell_steps| |].
  - intros [] t5 (m & file & H5 & Hf). unfold spin. ends_steps. split; [done|].
    change (boot_path sf km ebx (Called clear_screen :: Called serial_init ::
      steps (t0 ++ t1 ++ t2 ++ t3 ++ t4 ++ t5 ++ [Spins]))).
    rewrite Hpath, steps_app, H5. apply running; [done|]. intros E. by apply Hf in E.
  - intros t5 (m & file & H5 & Hf). split; [done|].
    change (boot_path sf km ebx (Called clear_screen :: Called serial_init ::
      steps (t0 ++ t1 ++ t2 ++ t3 ++ t4 ++ t5))).
    rewrite Hpath, H5, (proj1 Hf eq_refl). by apply no_file.
Qed.

Ltac list_find := first [apply list_elem_of_here | apply list_elem_of_further; list_find].

(** What must have happened before a process is created from [file]. *)
Definition prepared (mb file : Z) (t : list event) : Prop :=
  file <> 0 /\ Asked (get_file (str_bytes "shell.bin")) file ∈ t /\
  (exists symtab strtab ok, ok <> 0 /\ Asked (load_symbol_table symtab strtab) ok ∈ t) /\
  (exists module, Asked (first_module mb) module ∈ t /\ Called (initialize_filesystem module) ∈ t) /\
  (exists pd, Asked initialize_kernel_page_directory pd ∈ t) /\
  Forall (fun c => Called c ∈ t) [serial_init; initialize_gdt; initialize_idt; pic_init; initialize_tss].

Lemma prepared_mono mb file t t' : (forall e, e ∈ t -> e ∈ t') -> prepared mb file t -> prepared mb file t'.
Proof.
  intros H (Hf & H1 & (a & b & ok & Hok & H2) & (m & H3 & H4) & (pd & H5) & H6).
  split_and!; eauto 10. eapply list.Forall_impl; [exact H6|]. eauto.
Qed.

Lemma boot_path_prepared sf km mb t1 file t2 :
  boot_path sf km mb (t1 ++ Called (create_process file) :: t2) -> prepared mb file t1 /\ t2 = [Spins].
Proof.
  intros H. unfold symbols in *. destruct sf; inversion H as [a b E|a b ok f pd n v p l sp m Hok E|a b ok f pd n v p l sp m fl Hok Hfl E].
  all: repeat (destruct t1 as [|? t1]; simplify_eq/=; try discriminate).
  all: split; [|done]; split; [done|]; split; [list_find|].
  all: split; [exists a, b, ok; split; [done|list_find]|].
  all: split; [exists m; split; list_find|]; split; [exists pd; list_find|].
  all: repeat (constructor; [list_find|]); constructor.
Qed.

(** Nothing but the two error answers stops the boot before its process. *)
Lemma boot_path_runs sf km mb t :
  boot_path sf km mb t -> (forall a b, Asked (load_symbol_table a b) 0 ∉ t) ->
  Asked (get_file (str_bytes "shell.bin")) 0 ∉ t -> exists file, Called (create_process file) ∈ t.
Proof.
  intros [a b|a b ok f pd n v p l sp m Hok|a b ok f pd n v p l sp m file Hok Hf] H1 H2.
  - destruct (H1 a b). unfold symbols. destruct sf; simpl; list_find.
  - destruct H2. unfold symbols. destruct sf; simpl; list_find.
  - exists file. unfold symbols. destruct sf; simpl; list_find.
Qed.

(** C22. The boot of [kmain.c] ends, whatever the machine answers, in an endless loop; a
    process is created at most once, as the last thing, from a file that was
    found, and after the symbol table was loaded, the descriptor tables, the
    interrupt controller and the pages were set up and the file system was
    mounted from the boot loader's module; and one is created unless the symbol
    table cannot be loaded or the file is not found. *)
Theorem kmain_creates_process_last (DEBUG strtab_first : bool) (km : list Z) (ebx : Z) (w : world D event) :
  exists w' t, kmain DEBUG strtab_first km ebx w = Ok (None, w') /\ history w' = history w ++ t /\
    last (steps t) = Some Spins /\
    (forall t1 file t2, t = t1 ++ Called (create_process file) :: t2 ->
       prepared ebx file t1 /\ steps t2 = [Spins]) /\
    ((forall a b, Asked (load_symbol_table a b) 0 ∉ t) ->
     Asked (get_file (str_bytes "shell.bin")) 0 ∉ t -> exists file, Called (create_process file) ∈ t).
Proof.
  destruct (kmain_path DEBUG strtab_first km ebx w) as (o & w' & t & E & Ht & -> & Hp).
  assert (forall e, e ∈ steps t -> e ∈ t) as Hsub by (by intros e [_ ?]%list_elem_of_filter).
  exists w', t. split; [done|]. split; [done|]. split; [destruct Hp; by destruct strtab_first|]. split.
  - intros t1 file t2 ->. rewrite steps_app in Hp. apply boot_path_prepared in Hp as [H1 H2].
    split; [|done]. eapply prepared_mono; [|exact H1]. intros e. by intros [_ ?]%list_elem_of_filter.
  - intros H1 H2. destruct (boot_path_runs _ _ _ _ Hp) as [file Hf]; eauto.
    + intros a b H. by eapply H1, Hsub.
Qed.
End Kmain.

End Kmain.

Module Late.

(** ** [kernel/main.c]: [kernel_main] and [late_init] *)

(** The tasks; [_test] reads the global [cu_pid] that [late_init] sets. *)
Inductive task :=
  | keyboard_init | vfs_init | loader_init | __cursor_updater | device_init | create_test_device
  | elf_init | rtc_init | fdc_init | ata_init | module_init | pci_init | __login | _test (cu_pid : Z).

Inductive call :=
  | display_setcurrent_registered
  | Report (r : report)
  | mm_init (kernel_end : Z)
  | gdt_init | idt_init | exceptions_init | hal_init | pic_init | pit_init | sti
  | paging_init | syscall_init
  | schedule_noirq
  | EXPORT_SYMBOL (name : list Z)
  | tasking_print_all
  | _kill
  | idiv_eax (eax : Z).

(** [START] answers the number of the new task.  Two calls need not return:
    [tasking_init], when it starts the tasks and [late_init] with them, and
    [START_AND_WAIT], which returns when the task has ended; they answer 0 when they do
    not. *)
Inductive query :=
  | eax
  | tasking_init
  | START (name : list Z) (t : task)
  | START_AND_WAIT (name : list Z) (t : task)
  | is_pid_running (pid : Z).

(** [Spins] is an endless loop. *)
Inductive event := Called (c : call) | Asked (q : query) (answer : Z) | Spins.

Class Machine (D : Type) := { do_call : call -> D -> D; do_query : query -> D -> Z * D }.

Section Late.
Context {D : Type} `{!Machine D}.

Local Abbreviation M := (History.M D event).

Definition do (c : call) : M unit := act (Called c) (do_call c).
Definition query_ (q : query) : M Z := ask (Asked q) (do_query q).

(** The calls of a macro of [display.h]; its endless loop is the end. *)
Fixpoint expand (l : list report) : M unit :=
  match l with
  | [] => ret tt
  | Forever :: _ => act Spins id ;;; exit
  | r :: l' => do (Report r) ;;; expand l'
  end.

(** [MODULE("MAIN")], and the name the compiler is given for the file. *)
Definition MODULE : list Z := str_bytes "MAIN".
Variable __FILE__ : list Z.

Definition print (fmt : String.string) (args : list arg) : M unit :=
  expand (mprint MODULE (str_bytes fmt ++ [10]) args).
Arguments print fmt%_string args.

Definition panic_at (line : Z) (fmt : String.string) : M unit :=
  expand (panic (mk_place __FILE__ line (str_bytes "kernel_main")) (str_bytes fmt) []).
Arguments panic_at line fmt%_string.

(** [kernel_base] and [kernel_end] are symbols of the linker script. *)
Definition kernel_main (kernel_base kernel_end : Z) : M unit :=
  a <- query_ eax ;;
  do display_setcurrent_registered ;;;
  print "Welcome to LevOS 4.0, very unstable!" [] ;;;
  print "Kernel base is 0x%x,  end is 0x%x" [ANum kernel_base; ANum kernel_end] ;;;
  (if a =? 0x1337 then print "Assembly link established." []
   else panic_at 215 "Couldn't establish assembly link!") ;;;
  do (mm_init kernel_end) ;;;
  do gdt_init ;;;
  do idt_init ;;; do exceptions_init ;;;
  do hal_init ;;; do pic_init ;;; do pit_init ;;;
  do sti ;;;
  print "Interrupts were enabled, beware." [] ;;;
  do paging_init ;;;
  do syscall_init ;;;
  returned <- query_ tasking_init ;;
  if returned =? 0 then exit
  else panic_at 246 "Reached end of main(), but tasking was not started.".

(** The task behind [ps]; [_kill] ends it. *)
Definition __ps : M unit := do tasking_print_all ;;; do _kill ;;; exit.

(** [movl $0, %eax; idiv %eax]: the instruction raises the divide error, and the
    function returns if its handler does. *)
Definition sig_test : M unit := do (idiv_eax 0).

(** The routine whose name [late_init] exports to the modules. *)
Definition __test : M unit := do (Report (kprintf (str_bytes "Module system test." ++ [10]) [])).

Definition start (name : String.string) (t : task) : M Z := query_ (START (str_bytes name) t).
Definition start_and_wait (name : String.string) (t : task) : M unit :=
  ended <- query_ (START_AND_WAIT (str_bytes name) t) ;;
  if ended =? 0 then exit else ret tt.
Arguments start name%_string t.
Arguments start_and_wait name%_string t.

(** [while(is_pid_running(pid)) schedule_noirq();] *)
Definition wait_pid (fuel : nat) (pid : Z) : M unit :=
  loop fuel
    (running <- query_ (is_pid_running pid) ;;
     if running =? 0 then ret (Some tt) else do schedule_noirq ;;; ret None).

Definition CRASHED : list Z := [10; 10] ++ str_bytes "The terminal has crashed. Restarting it..." ++ [10; 10].

(** The given number of rounds of the endless loop at the end. *)
Fixpoint terminal (rounds : nat) (cu_pid : Z) : M unit :=
  match rounds with
  | O => ret tt
  | S rounds' => start_and_wait "_test" (_test cu_pid) ;;; expand (kerror CRASHED []) ;;; terminal rounds' cu_pid
  end.

Definition late_init (fuel rounds : nat) : M unit :=
  start "kbd_init" keyboard_init ;;;
  start "vfs_init" vfs_init ;;;
  start "loader_init" loader_init ;;;
  cu_pid <- start "cursor_update" __cursor_updater ;;
  pid <- start "devicemm" device_init ;;
  wait_pid fuel pid ;;;
  start "testdev" create_test_device ;;;
  start "elf_init" elf_init ;;;
  start "rtc_init" rtc_init ;;;
  start_and_wait "fdc_init" fdc_init ;;;
  start_and_wait "ata_init" ata_init ;;;
  start "mod_init" module_init ;;;
  pid <- start "pci_init" pci_init ;;
  wait_pid fuel pid ;;;
  do (EXPORT_SYMBOL (str_bytes "__test")) ;;;
  start_and_wait "login" __login ;;;
  terminal rounds cu_pid.

(** *** What was started, and whose end was waited for *)
Inductive step := Started (t : task) | Ended (t : task).

(** The tasks started and seen to end, by a poll that is answered by no or by the return
    of [START_AND_WAIT]; [pids] are the numbers of the started tasks, the last
    one first. *)
Fixpoint steps (pids : list (Z * task)) (t : list event) : list step :=
  match t with
  | [] => []
  | Asked (START _ k) pid :: t' => Started k :: steps ((pid, k) :: pids) t'
  | Asked (START_AND_WAIT _ k) r :: t' => Started k :: (if r =? 0 then [] else [Ended k]) ++ steps pids t'
  | Asked (is_pid_running pid) r :: t' =>
      (if r =? 0 then
         match List.find (fun x => x.1 =? pid) pids with Some x => [Ended x.2] | None => [] end
       else []) ++ steps pids t'
  | _ :: t' => steps pids t'
  end.

(** What [late_init] comes to. *)
Definition bring_up (cu_pid : Z) (rounds : nat) : list step :=
  [Started keyboard_init; Started vfs_init; Started loader_init; Started __cursor_updater;
   Started device_init; Ended device_init; Started create_test_device; Started elf_init; Started rtc_init;
   Started fdc_init; Ended fdc_init; Started ata_init; Ended ata_init; Started module_init;
   Started pci_init; Ended pci_init; Started __login; Ended __login] ++
  concat (replicate rounds [Started (_test cu_pid); Ended (_test cu_pid)]).

(** The run of [m] goes through the steps [l], or stops on the way. *)
Definition follows {A} (pids : list (Z * task)) (m : M A) (l : list step) : Prop :=
  runs m (fun o t => steps pids t `prefix_of` l /\ (is_Some o -> steps pids t = l)).

Lemma follows_ret pids {A} (a : A) : follows pids (ret a) [].
Proof. by apply runs_ret. Qed.

Lemma follows_start pids {A} name t (k : Z -> M A) l :
  (forall pid, follows ((pid, t) :: pids) (k pid) l) -> follows pids (pid <- start name t ;; k pid) (Started t :: l).
Proof.
  intros H. apply runs_ask_bind. intros pid. eapply runs_mono; [exact (H pid)|].
  intros o t' [H1 H2]. cbn [steps]. split; [by apply prefix_cons|]. intros Ho. by rewrite H2.
Qed.

Lemma follows_start_and_wait pids {A} name t (k : M A) l :
  follows pids k l -> follows pids (start_and_wait name t ;;; k) (Started t :: Ended t :: l).
Proof.
  intros H. unfold start_and_wait.
  eapply (runs_bind _ _ (fun o u => exists r, u = [Asked (START_AND_WAIT (str_bytes name) t) r] /\
    (o = None <-> r = 0))).
  - apply runs_ask_bind. intros r. case_bool; [by apply runs_exit; exists r|].
    apply runs_ret. by exists r.
  - intros [] u (r & -> & Hr). assert (r <> 0) by (intros E; by apply Hr in E).
    eapply runs_mono; [exact H|]. intros o t' [H1 H2]. cbn [steps app]. zbool.
    split; [by do 2 apply prefix_cons|]. intros Ho. by rewrite H2.
  - intros u (r & -> & Hr). rewrite (proj1 Hr eq_refl). split; [|by intros []].
    cbn. apply prefix_cons, prefix_nil.
Qed.

(** A wait adds polls of one task to the history, the last one answered by no. *)
Lemma follows_wait pids {A} fuel pid t (k : M A) l :
  follows ((pid, t) :: pids) k l -> follows ((pid, t) :: pids) (wait_pid fuel pid ;;; k) (Ended t :: l).
Proof.
  intros H. set (ps := (pid, t) :: pids) in *.
  eapply (runs_bind _ _ (fun o u => o = Some tt /\ forall u', steps ps (u ++ u') = Ended t :: steps ps u')).
  - unfold wait_pid. eapply (runs_loop _ (fun u => forall u', steps ps (u ++ u') = steps ps u')).
    + apply runs_ask_bind. intros r. case_bool.
      * apply runs_ret. split; [done|]. subst r. intros u'. unfold ps. cbn [steps app List.find fst snd]. by zbool.
      * apply runs_act_bind, runs_ret. intros u'. cbn [steps app]. by zbool.
    + intros o u u1 Hu [-> H1]. split; [done|]. intros u'. by rewrite <- app_assoc, Hu, H1.
  - intros [] u [_ Hu]. eapply runs_mono; [exact H|]. intros o u' [H1 H2]. rewrite Hu.
    split; [by apply prefix_cons|]. intros Ho. by rewrite H2.
  - by intros u [? _].
Qed.

Lemma follows_do pids {A} c (k : M A) l : follows pids k l -> follows pids (do c ;;; k) l.
Proof. intros H. apply runs_act_bind. eapply runs_mono; [exact H|]. by intros o t. Qed.

Lemma follows_terminal pids rounds cu_pid :
  follows pids (terminal rounds cu_pid) (concat (replicate rounds [Started (_test cu_pid); Ended (_test cu_pid)])).
Proof.
  induction rounds as [|n IH]; simpl; [apply follows_ret|]. apply follows_start_and_wait.
  eapply (runs_bind _ _ (fun o t => o = Some tt /\ forall t', steps pids (t ++ t') = steps pids t')).
  - do 2 apply runs_act_bind. by apply runs_ret.
  - intros [] t [_ Ht]. eapply runs_mono; [exact IH|]. intros o t'. by rewrite Ht.
  - by intros t [? _].
Qed.

(** *** The order of [kernel_main] *)

(** The calls that set the machine up. *)
Definition initialiser (e : event) : option call :=
  match e with
  | Called (Report _) | Called (EXPORT_SYMBOL _) | Called schedule_noirq => None
  | Called c => Some c
  | _ => None
  end.

(** What a panic in the given line of [kernel_main] adds to a history. *)
Definition panics (n : Z) (t : list event) : Prop :=
  exists message, t = (Called ∘ Report <$> [set_task 0;
    kprintf PANIC [ALit __FILE__; ANum n; ALit (str_bytes "kernel_main")]; kprintf message []]) ++ [Spins].

Lemma panic_ends n fmt : ends (panic_at n fmt) (fun o t => o = None /\ panics n t).
Proof.
  unfold panic_at, panic. do 4 apply ends_act_bind. apply ends_exit. split; [done|]. by eexists.
Qed.

Lemma print_ends {B} fmt args (k : M B) (Q : option B -> list event -> Prop) :
  ends k (fun o t => forall e, initialiser e = None -> Q o (e :: t)) -> ends (print fmt args ;;; k) Q.
Proof.
  intros H. eapply (ends_bind _ _ (fun o t => o = Some tt /\ exists e, t = [e] /\ initialiser e = None)).
  - unfold print, mprint. apply ends_act_bind, ends_ret. eauto.
  - intros a t (_ & e & -> & He). eapply ends_mono; [exact H|]. intros o t Ht. by apply Ht.
  - by intros t [? _].
Qed.

(** The initialisers behind the display. *)
Definition initialisers (kernel_end : Z) : list call :=
  [mm_init kernel_end; gdt_init; idt_init; exceptions_init; hal_init; pic_init; pit_init; sti;
   paging_init; syscall_init].

(** C23. [kernel_main] panics, after nothing but the display was set up, when the assembly
    link is broken.  Otherwise every initialiser runs once, in order, the interrupts being
    enabled after the descriptor tables, the exceptions, the interrupt controller
    and the timer, and [tasking_init] comes last; only if it returns there is
    a panic, as the last thing. *)
Theorem kernel_main_starts_tasking (kernel_base kernel_end : Z) (w : world D event) :
  exists w' a t1 t2, kernel_main kernel_base kernel_end w = Ok (None, w') /\
    history w' = history w ++ Asked eax a :: t1 ++ t2 /\
    if a =? 0x1337 then
      omap initialiser t1 = display_setcurrent_registered :: initialisers kernel_end /\
      exists r, if r =? 0 then t2 = [Asked tasking_init r]
                else exists t3, t2 = Asked tasking_init r :: t3 /\ panics 246 t3
    else omap initialiser t1 = [display_setcurrent_registered] /\ panics 215 t2.
Proof.
  cut (ends (kernel_main kernel_base kernel_end) (fun o h => o = None /\ exists a t1 t2, h = Asked eax a :: t1 ++ t2 /\
    if a =? 0x1337 then
      omap initialiser t1 = display_setcurrent_registered :: initialisers kernel_end /\
      exists r, if r =? 0 then t2 = [Asked tasking_init r]
                else exists t3, t2 = Asked tasking_init r :: t3 /\ panics 246 t3
    else omap initialiser t1 = [display_setcurrent_registered] /\ panics 215 t2)).
  { intros H. destruct (H w) as (o & w' & h & E & Ht & -> & a & t1 & t2 & -> & Hp). eauto 10. }
  unfold kernel_main. apply ends_ask_bind. intros a. apply ends_act_bind. do 2 apply print_ends.
  destruct (Z.eqb_spec a 0x1337) as [->|Ha].
  - apply print_ends. do 8 apply ends_act_bind. apply print_ends. do 2 apply ends_act_bind.
    apply ends_ask_bind. intros r.
    eapply (ends_mono _ (fun o t => o = None /\ if r =? 0 then t = [] else panics 246 t)).
    { case_bool; [by apply ends_exit|apply panic_ends]. }
    intros o t (-> & Hp) e4 H4 e3 H3 e2 H2 e1 H1. split; [done|].
    eexists _, [_; _; _; _; _; _; _; _; _; _; _; _; _; _; _], (Asked tasking_init r :: t).
    split; [reflexivity|]. change (0x1337 =? 0x1337) with true. cbv iota. split.
    + cbn [omap list_omap]. by rewrite H1, H2, H3, H4.
    + exists r. destruct (r =? 0); [by subst t|by exists t].
  - eapply ends_bind; [apply panic_ends|by intros ? ? []|].
    intros t (_ & Hp) e2 H2 e1 H1. split; [done|]. eexists _, [_; _; _], t. split; [reflexivity|].
    zbool. split; [|done]. cbn [omap list_omap]. by rewrite H1, H2.
Qed.

(** C40. [late_init] starts the tasks in one order and waits for the ends of the device
    manager, of the floppy and the disk driver and of the PCI driver, each right
    after it was started, before the login; the terminal is started again each time
    it ended.  A run that does not come to the end, because a task it waits for never
    ends, has gone through a first part of the same steps. *)
Theorem late_init_steps (fuel rounds : nat) (w w' : world D event) o :
  late_init fuel rounds w = Ok (o, w') ->
  exists cu_pid t, history w' = history w ++ t /\ steps [] t `prefix_of` bring_up cu_pid rounds /\
    (is_Some o -> steps [] t = bring_up cu_pid rounds).
Proof.
  intros E. cut (runs (late_init fuel rounds) (fun o t => exists cu_pid,
    steps [] t `prefix_of` bring_up cu_pid rounds /\ (is_Some o -> steps [] t = bring_up cu_pid rounds))).
  { intros H. destruct (H _ _ _ E) as (t & Et & cu & Ht). eauto. }
  clear E. unfold late_init, bring_up.
  do 3 (apply runs_ask_bind; intros ?). apply runs_ask_bind. intros cu.
  match goal with |- runs ?m _ => assert (forall pids, follows pids m
    (drop 4 (bring_up cu rounds))) as H end.
  - intros pids. apply follows_start. intros p1. apply follows_wait.
    do 3 (apply follows_start; intros ?). do 2 apply follows_start_and_wait.
    apply follows_start. intros ?. apply follows_start. intros p2. apply follows_wait.
    apply follows_do, follows_start_and_wait, follows_terminal.
  - eapply runs_mono; [apply H|]. intros o' t [H1 H2]. exists cu. cbn [steps]. split.
    + do 4 apply prefix_cons. exact H1.
    + intros Ho. by rewrite H2.
Qed.
End Late.

(** A machine that numbers its tasks; only the tasks 5 and 10, the device manager
    and the PCI driver, are over when they are asked for. *)
#[export] Instance demo_machine : Machine Z := {
  do_call _ d := d;
  do_query q d :=
    match q with
    | eax => (0x1337, d)
    | tasking_init => (0, d)
    | START _ _ => (d + 1, d + 1)
    | START_AND_WAIT _ _ => (1, d)
    | is_pid_running pid => (if (pid =? 5) || (pid =? 10) then 0 else 1, d)
    end
}.

(** The login starts although the keyboard driver, task 1, is still running. *)
Lemma late_init_steps_witness :
  exists w' cu_pid, late_init 1 2 (mk_world 0 []) = Ok (Some tt, w') /\
    (do_query (is_pid_running 1) (ext w')).1 = 1 /\
    steps [] (history w') = bring_up cu_pid 2.
Proof.
  destruct (late_init 1 2 (mk_world 0 [])) as [[o w']| |] eqn:E; [|vm_compute in E; discriminate..].
  assert (o = Some tt) as -> by (vm_compute in E; by injection E as <- _).
  destruct (late_init_steps 1 2 (mk_world 0 []) w' _ E) as (cu & t & Ht & _ & Hs).
  exists w', cu. split; [done|]. split; [done|]. simpl in Ht. rewrite Ht. apply Hs. by eexists.
Defined.

End Late.

Module Device.

(** ** [kernel/main.c]: the test device, from its registration to a read *)

Inductive device_type := DEVICE_CHAR.

(** [device_t], with its [read] a function on memory: buffer, offset and length. *)
Record device := mk_device {
  name : list Z; unique_id : Z; dev_type : device_type; read : Z -> Z -> Z -> mem -> res mem }.

(** The allocator, the device table and the console; a device is handed over as
    what its pointer points to. *)
Class DeviceEnv (D : Type) := {
  device_size : Z;
  malloc : Z -> mem * D -> Z * (mem * D);
  device_add : device -> mem * D -> Z * (mem * D);
  device_get : Z -> D -> option device;
  kprintf : list Z -> list Z -> mem * D -> mem * D;
  _kill : mem * D -> mem * D
}.

Section Device.
Context {D : Type} `{!DeviceEnv D}.

Definition testdev (fuel : nat) : device :=
  mk_device (str_bytes "/dev/levex") 0x1337 DEVICE_CHAR
    (fun buffer offset len m => TestDevice.test_device_read fuel m buffer len).

(** The answer is what the global [levex_id] becomes. *)
Definition create_test_device (fuel : nat) (x : mem * D) : Z * (mem * D) :=
  let '(_, x) := malloc device_size x in
  let '(levex_id, x) := device_add (testdev fuel) x in
  (levex_id, _kill x).

(** A null device has no defined use. *)
Definition __read (levex_id : Z) (x : mem * D) : res (mem * D) :=
  let '(buffer, x) := malloc 32 x in
  match device_get levex_id x.2 with
  | None => Undef
  | Some dev =>
      m ← read dev buffer 0 32 x.1;
      Ok (_kill (kprintf (str_bytes "%s" ++ [10]) [buffer] (m, x.2)))
  end.

Definition __malloc_bug (x : mem * D) : mem * D := _kill (malloc 0x1FFFFFFF x).2.

(** What the task relies on: allocated bytes are usable, and a device that was added
    is found under its number until it is removed. *)
Class DeviceLaws := {
  malloc_mapped n x : 0 <= n < 2 ^ 31 -> mapped (malloc n x).2.1 (malloc n x).1 n;
  malloc_keeps i n x : device_get i (malloc n x).2.2 = device_get i x.2;
  kill_keeps i x : device_get i (_kill x).2 = device_get i x.2;
  add_get dev x : device_get (device_add dev x).1 (device_add dev x).2.2 = Some dev
}.

(** Once the test device was created, the task [__read] prints the 31 letters its
    read stores before the terminator. *)
Theorem read_prints_device_text `{!DeviceLaws} (fuel : nat) (x : mem * D) :
  (31 < fuel)%nat ->
  let '(levex_id, x1) := create_test_device fuel x in
  exists buffer m d,
    __read levex_id x1 = Ok (_kill (kprintf (str_bytes "%s" ++ [10]) [buffer] (m, d))) /\
    cstring m buffer (str_bytes "XLEVEXLEVEXLEVEXLEVEXLEVEXLEVEX").
Proof.
  intros Hf. unfold create_test_device.
  destruct (malloc device_size x) as [q x0] eqn:E0.
  pose proof (add_get (testdev fuel) x0) as Hadd.
  destruct (device_add (testdev fuel) x0) as [id x1] eqn:E1. simpl in Hadd.
  unfold __read. pose proof (malloc_mapped 32 (_kill x1) ltac:(lia)) as Hm.
  pose proof (malloc_keeps id 32 (_kill x1)) as Hk.
  destruct (malloc 32 (_kill x1)) as [p [m d]]. simpl in Hm, Hk |- *.
  rewrite Hk, kill_keeps, Hadd. cbn [read testdev fst snd].
  destruct (TestDevice.test_device_read_fills fuel m p 31) as [Hread _]; [lia|lia|].
  change (Z.of_nat 31 + 1) with 32 in Hread. rewrite (Hread Hm). cbn [mbind res_bind].
  eexists p, _, d. split; [reflexivity|]. split; [|apply write_list_bytes_at].
  repeat (constructor; [by vm_compute|]). constructor.
Qed.
End Device.

(** An allocator that hands out 4096 bytes further each time, a table of devices,
    and a console that keeps what it was given. *)
Record demo := mk_demo { next : Z; table : gmap Z device; shown : list (list Z * list Z) }.

#[export] Instance demo_env : DeviceEnv demo := {
  device_size := 20;
  malloc n x :=
    let p := next x.2 in
    (p, (write_list x.1 p (replicate (Z.to_nat n) 0), mk_demo (p + 4096) (table x.2) (shown x.2)));
  device_add dev x := (7, (x.1, mk_demo (next x.2) (<[7 := dev]> (table x.2)) (shown x.2)));
  device_get i d := table d !! i;
  kprintf fmt args x := (x.1, mk_demo (next x.2) (table x.2) ((fmt, args) :: shown x.2));
  _kill x := x
}.

#[export] Instance demo_laws : DeviceLaws (D := demo).
Proof.
  split; [|done|done|].
  - intros n x Hn. cbn [malloc demo_env fst snd].
    pose proof (bytes_at_mapped _ _ _ (write_list_bytes_at x.1 (next x.2) (replicate (Z.to_nat n) 0))) as H.
    by rewrite length_replicate, Z2Nat.id in H by lia.
  - intros dev x. apply lookup_insert_eq.
Qed.

Lemma read_prints_device_text_witness :
  let '(levex_id, x1) := create_test_device 32 (∅, mk_demo 0x10000 ∅ []) in
  levex_id = 7 /\
  exists buffer m d,
    __read levex_id x1 = Ok (_kill (kprintf (str_bytes "%s" ++ [10]) [buffer] (m, d))) /\
    cstring m buffer (str_bytes "XLEVEXLEVEXLEVEXLEVEXLEVEXLEVEX").
Proof.
  split; [reflexivity|].
  exact (read_prints_device_text 32 (∅, mk_demo 0x10000 ∅ []) ltac:(lia)).
Defined.

End Device.
