(* ===== verification/Drafts.v ===== *)
(** [kernel.c]: the drafts of an entry point.

    The file has five of them and one helper, written one after the other; the
    closing brace that the second [_start] lacks is read as present.  Everything
    they call is outside the repository and is an event of a history; the division
    instruction of the second [_start] is one as well. *)

From S2P Require Import Prelude Mem History Display Graphics.

Local Open Scope history_scope.

Inductive call :=
  | init_video (addr : Z)
  | isr_install | irq_install | acpi_install | init_paging | init_signal | serial_install
  | kprint (s : list Z)
  | terminal_clear
  | printf (s : list Z)
  | terminal_setcolor (color : Z)
  | initialize_console
  | puts (s : list Z)
  | set_text_color (fg bg : Z)
  | puthex (n : Z)
  | SetIDTR
  | T_ClearScreen (con : Z)
  | T_PutText (con : Z) (s : list Z)
  | T_Printf (con : Z) (fmt : list Z) (args : list arg)
  | div_instruction (dx ax divisor : Z).

(** [TerminalBackendB8000()] answers a pointer; [Spins] is an endless loop. *)
Inductive event := Called (c : call) | TerminalBackendB8000 (con : Z) | Spins.

Class Machine (D : Type) := { do_call : call -> D -> D; backend : D -> Z * D }.

Section Drafts.
Context {D : Type} `{!Machine D}.

Local Abbreviation M := (History.M D event).

Definition do (c : call) : M unit := act (Called c) (do_call c).
Definition spin : M unit := act Spins id ;;; exit.

(** The constants of the console's colours are not in the repository. *)
Variables RED LIGHT_GREY WHITE BLACK : Z.

Definition kernel_main_video (addr : Z) : M unit :=
  do (init_video addr) ;;;
  do isr_install ;;;
  do irq_install ;;;
  do acpi_install ;;;
  do init_paging ;;;
  do init_signal ;;;
  do serial_install ;;;
  do (kprint (str_bytes "Boot success." ++ [10; 10])) ;;;
  do (kprint (str_bytes "88os comes with ABSOLUTELY NO WARRANTY," ++ [10] ++
              str_bytes "to the extent permitted by applicable law." ++ [10])) ;;;
  do (kprint ([10] ++ str_bytes "Type 'help' to get started" ++ [10] ++ str_bytes "> ")).

Fixpoint newlines (n : nat) : M unit :=
  match n with O => ret tt | S n' => do (printf [10]) ;;; newlines n' end.

Definition show_logo : M unit :=
  do terminal_clear ;;;
  do (printf (replicate 8 10)) ;;;
  do (terminal_setcolor 10) ;;;
  newlines 7 ;;;
  do (terminal_setcolor 15).

Definition kernel_main_console : M unit :=
  do initialize_console ;;;
  do (puts (str_bytes "Hello, World!" ++ [10])) ;;;
  do (set_text_color RED LIGHT_GREY) ;;;
  do (puts ([9] ++ str_bytes "Welcome to my OS!" ++ [10])) ;;;
  do (set_text_color WHITE BLACK) ;;;
  do (puts (str_bytes "The address for video memory is: ")) ;;;
  do (puthex 0xb8000) ;;;
  spin.

Definition _start_idtr (kernel_location : Z) : M unit := do SetIDTR.

Definition _start_backend (kernel_location : Z) : M unit :=
  do SetIDTR ;;;
  con <- ask TerminalBackendB8000 backend ;;
  do (T_ClearScreen con) ;;;
  do (T_PutText con (replicate 29 97 ++ [13; 9; 9] ++ str_bytes "XXXX" ++ [10])) ;;;
  do (T_Printf con (str_bytes "%p %x %i %s %c %u" ++ [10])
        [APtr con; ANum 0x41424344; ANum (-1234); ALit (str_bytes "alamakota"); ANum 88; ANum 1234567890123]) ;;;
  do (div_instruction 0 0 0) ;;;
  do (T_PutText con (str_bytes "It came back!")) ;;;
  spin.
End Drafts.

(** [int] division, undefined by zero and for the quotient that does not fit. *)
Definition div (a b : Z) : res Z := int_div a b.

(** [*video_memory = 'X'] *)
Definition main (m : mem) : res mem := store8 m 0xb8000 88.

(** The quotient is truncated; the two undefined cases are all. *)
Lemma div_cases a b :
  - 2 ^ 31 <= a < 2 ^ 31 -> - 2 ^ 31 <= b < 2 ^ 31 ->
  div a b = if decide (b = 0 \/ a = - 2 ^ 31 /\ b = -1) then Undef else Ok (Z.quot a b).
Proof.
  intros Ha Hb. unfold div, int_div. destruct (Z.eqb_spec b 0) as [->|Hne].
  - by rewrite decide_True by auto.
  - destruct (decide _) as [[?|[-> ->]]|Hd]; [done|by vm_compute|]. apply int32_ok.
    pose proof (Z.quot_abs a b Hne) as E. rewrite Z.quot_div_nonneg in E by lia.
    destruct (Z.eq_dec b (-1)) as [->|Hb1]; [change (-1) with (- (1)); rewrite Z.quot_opp_r, Z.quot_1_r by lia; lia|].
    destruct (Z.eq_dec b 1) as [->|Hb2]; [rewrite Z.quot_1_r; lia|].
    assert (Z.abs a / Z.abs b <= 2 ^ 30) as Hd2; [|clear Hd; lia].
    transitivity (2 ^ 31 / Z.abs b); [apply Z.div_le_mono; lia|].
    change (2 ^ 30) with (2 ^ 31 / 2). apply Z.div_le_compat_l; lia.
Qed.
