(* ===== verification/Installer.v ===== *)
(** [install.cpp]: the installer.

    A [std::string] is the list of its bytes.  The installer talks to its user,
    to libparted, to the file system and to the other programs it starts, none of
    which is in the repository: [OsApi] has an operation for each call, over the
    state [D] of everything outside, and the installer's own state pairs [D] with
    the history of its calls.  The functions are written in the monad [M] of that
    state, which also has [exit]; a loop that waits for input is bounded by a
    fuel argument. *)

From S2P Require Import Prelude Mem CString History.

Local Open Scope history_scope.

(** ** Strings *)

Definition endl : list Z := [10].

(** [ostream << n] for a number that is not negative. *)
Fixpoint dec_digits (fuel : nat) (n : Z) : list Z :=
  match fuel with
  | O => []
  | S fuel' => (if n <? 10 then [] else dec_digits fuel' (n / 10)) ++ [48 + n mod 10]
  end.

Definition dec (n : Z) : list Z := dec_digits 20 n.

Definition human_size (size : Z) : list Z :=
  if size <? 1024 then dec size ++ str_bytes " Bytes"
  else if size <? 1048576 then dec (size / 1024) ++ str_bytes " KB"
  else if size <? 1073741824 then dec (size / 1048576) ++ str_bytes " MB"
  else if size <? 1099511627776 then dec (size / 1073741824) ++ str_bytes " GB"
  else dec (size / 1099511627776) ++ str_bytes " TB".

(** [str.find(from, pos)]: the first place from [pos] on where [from] stands. *)
Fixpoint is_prefix (p s : list Z) : bool :=
  match p, s with
  | [], _ => true
  | x :: p', y :: s' => (x =? y) && is_prefix p' s'
  | _, [] => false
  end.

Fixpoint find (from s : list Z) : option nat :=
  if is_prefix from s then Some O
  else match s with [] => None | _ :: s' => S <$> find from s' end.

Definition find_at (from str : list Z) (pos : nat) : option nat :=
  if (pos <=? length str)%nat then Nat.add pos <$> find from (drop pos str) else None.

(** [str.replace(pos, len, to)] *)
Definition replace (str : list Z) (pos len : nat) (to : list Z) : list Z :=
  take pos str ++ to ++ drop (pos + len) str.

Fixpoint replace_loop (fuel : nat) (str from to : list Z) (start_pos : nat) : res (list Z) :=
  match fuel with
  | O => Fuel
  | S fuel' =>
      match find_at from str start_pos with
      | None => Ok str
      | Some p => replace_loop fuel' (replace str p (length from) to) from to (p + length to)
      end
  end.

Definition replace_in_string (str from to : list Z) : res (list Z) :=
  if bool_decide (from = []) then Ok str
  else replace_loop (S (length str)) str from to 0.

(** [ss >> partno]: blanks, a sign and digits; 0 when there is no number, and the
    nearest [int] when it is too large.  At the end of the line before any character
    nothing is stored ([None]). *)
Fixpoint skip_spaces (s : list Z) : list Z :=
  match s with
  | c :: s' => if (c =? 32) || ((9 <=? c) && (c <=? 13)) then skip_spaces s' else s
  | [] => []
  end.

Fixpoint leading_digits (s : list Z) : list Z :=
  match s with
  | c :: s' => if (48 <=? c) && (c <=? 57) then c :: leading_digits s' else []
  | [] => []
  end.

Definition clamp (n : Z) : Z := Z.max (- 2 ^ 31) (Z.min n (2 ^ 31 - 1)).

Definition extract_int (s : list Z) : option Z :=
  match skip_spaces s with
  | c :: s' => Some (
      if c =? 45 then clamp (- dec_value (leading_digits s'))
      else if c =? 43 then clamp (dec_value (leading_digits s'))
      else clamp (dec_value (leading_digits (c :: s'))))
  | [] => None
  end.

(** ** The outside *)

(** What the code reads of libparted's structures; a null pointer is [None], for
    [partitions] the one [ped_disk_new] answers. *)
Record PedPartition := mk_part { num : Z; geom_length : Z; fs_type : option (list Z) }.
Record PedDevice := mk_device {
  dpath : list Z; sector_size : Z; disk_type : option (list Z); partitions : option (list PedPartition) }.

Class OsApi (D : Type) := {
  x_getline : D -> list Z * D;
  x_devices : D -> list PedDevice * D;
  x_format : list Z -> list Z -> D -> D;
  x_mount : list Z -> list Z -> list Z -> D -> D;
  x_spawn : list Z -> list (list Z) -> D -> Z * D;
  x_wait : Z -> D -> D;
  x_kill : Z -> D -> D;
  x_setenv : list Z -> list Z -> D -> D;
  (** [_getenv(name, value, size)]: its answer and the string then in [value], if
      there is a terminated one. *)
  x_getenv : list Z -> Z -> D -> (Z * option (list Z)) * D;
  x_read_file : list Z -> D -> list Z * D;
  x_write_file : list Z -> list Z -> D -> D;
  x_dir : list Z -> D -> list (list Z) * D;
  x_uuid : D -> list Z * D
}.

(** The calls that leave a mark in the history. *)
Inductive event :=
  | Cout (s : list Z)
  | Line (s : list Z)
  | Probe
  | Format (type path : list Z)
  | Mount (mountpoint path type : list Z)
  | Spawn (pid : Z) (cmd : list Z) (args : list (list Z))
  | Wait (pid : Z)
  | Kill (pid : Z)
  | SetEnv (name value : list Z)
  | GetEnv (name : list Z)
  | ReadFile (file : list Z)
  | WriteFile (file content : list Z)
  | ReadDir (dir : list Z)
  | Uuid (s : list Z).

Section Installer.
Context {D : Type} `{!OsApi D}.

Local Abbreviation M := (History.M D event).
Local Abbreviation world := (History.world D event).

Definition cout (s : list Z) : M unit := act (Cout s) id.
Definition getline : M (list Z) := ask Line x_getline.
Definition _format (type path : list Z) : M unit := act (Format type path) (x_format type path).
Definition _mount (mp path type : list Z) : M unit := act (Mount mp path type) (x_mount mp path type).
Definition _spawn (cmd : list Z) (args : list (list Z)) : M Z :=
  ask (fun pid => Spawn pid cmd args) (x_spawn cmd args).
Definition _wait (pid : Z) : M unit := act (Wait pid) (x_wait pid).
Definition _kill (pid : Z) : M unit := act (Kill pid) (x_kill pid).
Definition _setenv (name value : list Z) : M unit := act (SetEnv name value) (x_setenv name value).
Definition _getenv (name : list Z) (size : Z) : M (Z * option (list Z)) :=
  ask (fun _ => GetEnv name) (x_getenv name size).
Definition read_file (file : list Z) : M (list Z) := ask (fun _ => ReadFile file) (x_read_file file).
Definition write_file (file content : list Z) : M unit :=
  act (WriteFile file content) (x_write_file file content).
Definition read_dir (dir : list Z) : M (list (list Z)) := ask (fun _ => ReadDir dir) (x_dir dir).
Definition uuid_generate : M (list Z) := ask Uuid x_uuid.

(** ** The installer *)
Record partition_info := mk_info { path : list Z; devicepath : list Z; fs : list Z }.

(** The second call of a long variable stores it into the 128 bytes of [value] again,
    beyond their end, and the result is taken from a buffer nothing was stored in. *)
Definition get_env (name : list Z) : M (list Z) :=
  x <- _getenv name 128 ;;
  let '(size, value) := x in
  match value with
  | None => undef
  | Some value =>
      if 128 <? size then _getenv name size ;;; undef
      else ret (if size =? 0 then [] else value)
  end.

(** [line[0]], which is the terminator of an empty line. *)
Definition first_char (line : list Z) : Z := hd 0 line.

Definition answer (def : Z) (line : list Z) : option bool :=
  let c := first_char line in
  if (c =? 121) || (c =? 89) then Some true
  else if (c =? 110) || (c =? 78) then Some false
  else if (c =? 0) && (def =? 121) then Some true
  else if (c =? 0) && (def =? 110) then Some false
  else None.

Definition choices (def : Z) : list Z :=
  if def =? 121 then str_bytes "(Y/n)"
  else if def =? 110 then str_bytes "(y/N)" else str_bytes "(y/n)".

Definition yesno (fuel : nat) (message : list Z) (def : Z) : M bool :=
  cout (message ++ endl) ;;;
  loop fuel (cout (choices def) ;;; line <- getline ;; ret (answer def line)).

(** The table of the partitions the user can choose, and the counter. *)
Definition selection : Type := Z * gmap Z partition_info.

Definition fs_name (p : PedPartition) : list Z :=
  match fs_type p with Some n => n | None => str_bytes "unformatted" end.

Definition list_partition (d : PedDevice) (p : PedPartition) (x : selection) : M selection :=
  let '(counter, selectmap) := x in
  if 0 <? num p then
    let size := u64 (geom_length p * sector_size d) in
    let dev := dpath d ++ str_bytes "P" ++ dec (num p - 1) in
    let info := mk_info dev (dpath d) (fs_name p) in
    let index := counter + 1 in
    cout (dec index ++ str_bytes ": " ++ dev ++ str_bytes ": " ++ human_size size ++ [32] ++
          fs_name p ++ endl) ;;;
    ret (index, <[index := info]> selectmap)
  else ret x.

Fixpoint list_partitions (d : PedDevice) (ps : list PedPartition) (x : selection) : M selection :=
  match ps with
  | [] => ret x
  | p :: ps' => x <- list_partition d p x ;; list_partitions d ps' x
  end.

Definition list_device (d : PedDevice) (x : selection) : M selection :=
  cout (dpath d ++ str_bytes ":" ++ endl) ;;;
  match disk_type d with
  | None => undef
  | Some t =>
      if bool_decide (t = str_bytes "msdos") then
        match partitions d with Some ps => list_partitions d ps x | None => undef end
      else cout (str_bytes "Missing or incompatible partition table." ++ endl) ;;; ret x
  end.

Fixpoint list_devices (ds : list PedDevice) (x : selection) : M selection :=
  match ds with
  | [] => ret x
  | d :: ds' => x <- list_device d x ;; list_devices ds' x
  end.

Definition select_round (selectmap : gmap Z partition_info) : M (option partition_info) :=
  line <- getline ;;
  if first_char line =? 113 then exit
  else
    match extract_int line with
    | Some partno => ret (if 0 <? partno then selectmap !! partno else None)
    | None => undef
    end.

Definition FORMAT_NEW : list Z := str_bytes
  "This partition does not have a compatible filesystem. Format it? (This WILL destroy all data in the partition!)".
Definition FORMAT_OLD : list Z := str_bytes
  "Format partition? (This WILL destroy all data in the partition!)".

Definition offer_format (fuel : nat) (part : partition_info) : M unit :=
  if negb (bool_decide (fs part = str_bytes "fat16")) && negb (bool_decide (fs part = str_bytes "fat32")) then
    y <- yesno fuel FORMAT_NEW 110 ;;
    if y : bool then _format (str_bytes "FAT") (path part) else exit
  else
    y <- yesno fuel FORMAT_OLD 110 ;;
    if y : bool then _format (str_bytes "FAT") (path part) else ret tt.

Definition select_partition (fuel : nat) : M partition_info :=
  cout (str_bytes "Please select a partition to install to:" ++ endl) ;;;
  ds <- ask (fun _ => Probe) x_devices ;;
  x <- list_devices ds (0, ∅) ;;
  cout endl ;;;
  cout (str_bytes "Select a partition by number or 'q' to quit (use 'parted' to create/modify partitions)." ++ endl) ;;;
  part <- loop fuel (select_round x.2) ;;
  offer_format fuel part ;;;
  ret part.

Definition mount_partition (part : partition_info) : M (list Z) :=
  _mount (str_bytes "hdd") (path part) (str_bytes "FAT") ;;; ret (str_bytes "hdd").

Definition install_package (packageFile dest : list Z) : M unit :=
  sysdrive <- get_env (str_bytes "SYSTEMDRIVE") ;;
  pid <- _spawn (sysdrive ++ str_bytes ":/os/cmd/package.elx")
           [str_bytes "install"; packageFile; dest] ;;
  _wait pid.

Definition copy_files (mountpoint : list Z) : M bool :=
  cout (str_bytes "Copying files..." ++ endl) ;;;
  sysdrive <- get_env (str_bytes "SYSTEMDRIVE") ;;
  install_package (sysdrive ++ str_bytes ":/packages/base.pkf") (mountpoint ++ str_bytes ":/os") ;;;
  install_package (sysdrive ++ str_bytes ":/packages/kernel.pkf") (mountpoint ++ str_bytes ":/os/boot") ;;;
  install_package (sysdrive ++ str_bytes ":/packages/install.pkf")
    (mountpoint ++ str_bytes ":/os/install") ;;;
  ret true.

Definition replace_in_file (file placeholder replacement : list Z) : M unit :=
  str <- read_file file ;;
  str <- lift (replace_in_string str placeholder replacement) ;;
  write_file file str.

Definition make_tar (dir tar : list Z) : M unit :=
  sysdrive <- get_env (str_bytes "SYSTEMDRIVE") ;;
  cwd <- get_env (str_bytes "CWD") ;;
  _setenv (str_bytes "CWD") dir ;;;
  files <- read_dir dir ;;
  pid <- _spawn (sysdrive ++ str_bytes ":/os/cmd/tar.elx") (str_bytes "cvf" :: tar :: files) ;;
  _wait pid ;;;
  _setenv (str_bytes "CWD") cwd.

Definition configure_install (mountpoint : list Z) (part : partition_info) : M unit :=
  cout (str_bytes "Configuring install..." ++ endl) ;;;
  let configpath := mountpoint ++ str_bytes ":/os/boot/initfs/config.ini" in
  replace_in_file configpath (str_bytes "$DRIVE$") mountpoint ;;;
  replace_in_file configpath (str_bytes "$DEVICE$") (path part) ;;;
  cout (str_bytes "Building init.tar..." ++ endl) ;;;
  make_tar (mountpoint ++ str_bytes ":/os/boot/initfs") (mountpoint ++ str_bytes ":/os/boot/init.tar").

Definition MBR_QUESTION : list Z := str_bytes
  "Do you want to install GRUB to this drive's MBR? (Choose 'yes' unless you have another bootloader that you can configure.)".

Definition grub_pc : list Z := str_bytes "/os/boot/grub/i386-pc".

Definition mkimargs (loadcfgpath : list Z) : list (list Z) :=
  [str_bytes "-O"; str_bytes "i386-pc"; str_bytes "-d"; grub_pc; str_bytes "--prefix=" ++ grub_pc;
   str_bytes "-o"; grub_pc ++ str_bytes "/core.img"; str_bytes "biosdisk"; str_bytes "msdospart";
   str_bytes "part_msdos"; str_bytes "fat"; str_bytes "search"; str_bytes "configfile";
   str_bytes "multiboot"; str_bytes "-c"; loadcfgpath].

Definition biosargs (target : list Z) : list (list Z) :=
  [str_bytes "-vv"; str_bytes "-d"; grub_pc; target].

Definition run (cmd : list Z) (args : list (list Z)) : M unit :=
  pid <- _spawn cmd args ;; _wait pid.

Definition install_grub (fuel : nat) (mountpoint : list Z) (part : partition_info) : M bool :=
  cout (str_bytes "Installing GRUB (bootloader)..." ++ endl) ;;;
  let loadcfgpath := mountpoint ++ str_bytes ":/os/boot/grub/load_cfg" in
  uuidc <- uuid_generate ;;
  write_file (mountpoint ++ str_bytes ":/os/boot/" ++ uuidc ++ str_bytes ".id")
    (str_bytes "This file identifies this installation during boot." ++ endl) ;;;
  replace_in_file loadcfgpath (str_bytes "$UUID$") uuidc ;;;
  cwd <- get_env (str_bytes "CWD") ;;
  _setenv (str_bytes "CWD") (mountpoint ++ str_bytes ":/") ;;;
  run (mountpoint ++ str_bytes ":/os/boot/grub/grubmkim.elx") (mkimargs loadcfgpath) ;;;
  let bios := mountpoint ++ str_bytes ":/os/boot/grub/grubbios.elx" in
  run bios (biosargs (path part)) ;;;
  y <- yesno fuel MBR_QUESTION 121 ;;
  (if y : bool then run bios (biosargs (devicepath part)) else ret tt) ;;;
  _setenv (str_bytes "CWD") cwd ;;;
  ret true.

Definition write_answers (mountpoint : list Z) (part : partition_info) (rootinstall : bool) : M unit :=
  let setuppath := mountpoint ++ str_bytes ":/os/install/setup.ini" in
  replace_in_file setuppath (str_bytes "$DEVICE$") (devicepath part) ;;;
  replace_in_file setuppath (str_bytes "$PART$") (path part) ;;;
  replace_in_file setuppath (str_bytes "$FS$") (fs part) ;;;
  replace_in_file setuppath (str_bytes "$DRIVE$") mountpoint ;;;
  replace_in_file setuppath (str_bytes "$MBR$")
    (if rootinstall then str_bytes "true" else str_bytes "false").

(** [asprintf("%i", n)] *)
Definition int_dec (n : Z) : list Z := if n <? 0 then 45 :: dec (- n) else dec n.

Definition setup_registry : M Z :=
  sysdrive <- get_env (str_bytes "SYSTEMDRIVE") ;;
  regpid <- _spawn (sysdrive ++ str_bytes ":/os/system/registry.elx")
              [str_bytes "-f"; str_bytes ":memory:"] ;;
  _setenv (str_bytes "REGISTRY_PID") (int_dec regpid) ;;;
  ret regpid.

Definition finalise_registry (mountpoint : list Z) (registry_pid : Z) : M unit :=
  run (mountpoint ++ str_bytes ":/os/cmd/reg.elx")
    [str_bytes "backup"; mountpoint ++ str_bytes ":/os/config/registry.db"] ;;;
  _kill registry_pid.

Definition main (fuel : nat) : M Z :=
  cout (str_bytes "OS Installer" ++ endl ++ endl) ;;;
  partition <- select_partition fuel ;;
  mountpoint <- mount_partition partition ;;
  regpid <- setup_registry ;;
  copied <- copy_files mountpoint ;;
  (if copied : bool then
     configure_install mountpoint partition ;;;
     rootinstall <- install_grub fuel mountpoint partition ;;
     write_answers mountpoint partition rootinstall ;;;
     finalise_registry mountpoint regpid
   else _kill regpid) ;;;
  ret 0.

(** ** Runs and their histories *)

(** Nothing is formatted and nobody is killed. *)
Definition calm (e : event) : Prop :=
  match e with Format _ _ | Kill _ => False | _ => True end.

Definition quiet {A} (m : M A) : Prop := runs m (fun _ => Forall calm).

Lemma quiet_bind {A B} (m : M A) (f : A -> M B) :
  quiet m -> (forall a, quiet (f a)) -> quiet (bind m f).
Proof.
  intros Hm Hf. eapply runs_bind; [exact Hm| |done]. intros a t Ht.
  eapply runs_mono; [apply Hf|]. intros o t'. simpl. intros Ht'. by apply Forall_app.
Qed.

(** A quiet call before the rest. *)
Lemma runs_quiet {A B} (m : M A) (f : A -> M B) Q :
  quiet m -> (forall a t, Forall calm t -> runs (f a) (fun o t' => Q o (t ++ t'))) ->
  (forall t, Forall calm t -> Q None t) -> runs (bind m f) Q.
Proof. intros Hm Hf Hn. by eapply runs_bind. Qed.

Lemma quiet_ret {A} (a : A) : quiet (ret a).
Proof. by apply runs_ret. Qed.

Lemma quiet_exit {A} : quiet (exit : M A).
Proof. by apply runs_exit. Qed.

Lemma quiet_undef {A} : quiet (undef : M A).
Proof. by intros w o w'. Qed.

Lemma quiet_lift {A} (r : res A) : quiet (lift r).
Proof.
  intros w o w' E. apply res_bind_ok in E as (a & _ & [= <- <-]). exists []. by rewrite app_nil_r.
Qed.

Lemma quiet_act e f : calm e -> quiet (act e f).
Proof. intros He. apply runs_act. by constructor. Qed.

Lemma quiet_ask {A} (e : A -> event) f : (forall a, calm (e a)) -> quiet (ask e f).
Proof. intros He. apply runs_ask. intros a. by constructor. Qed.

Lemma quiet_loop {R} fuel (body : M (option R)) : quiet body -> quiet (loop fuel body).
Proof.
  intros Hb. apply runs_loop with (I := Forall calm); [|intros; by apply Forall_app].
  eapply runs_mono; [exact Hb|]. by intros [[r|]|] t.
Qed.

(** Walk through the calls of a function. *)
Ltac quiet_step :=
  match goal with
  | |- quiet (bind _ _) => apply quiet_bind; [|intros ?]
  | |- quiet (ret _) => apply quiet_ret
  | |- quiet exit => apply quiet_exit
  | |- quiet undef => apply quiet_undef
  | |- quiet (lift _) => apply quiet_lift
  | |- quiet (act _ _) => by apply quiet_act
  | |- quiet (ask _ _) => by apply quiet_ask
  | |- quiet (loop _ _) => apply quiet_loop
  | |- quiet (if ?b then _ else _) => destruct b
  | |- quiet (let '(_, _) := ?x in _) => destruct x
  | |- quiet (match ?x with Some _ => _ | None => _ end) => destruct x
  end.
Ltac quiet_tac := repeat (progress (repeat quiet_step; eauto with installer)).

Create HintDb installer.

Lemma quiet_get_env name : quiet (get_env name).
Proof. unfold get_env, _getenv. quiet_tac. Qed.
#[local] Hint Resolve quiet_get_env : installer.

(** *** Questions *)

(** What a question shows and reads while the user types [ls]. *)
Definition dialogue (def : Z) (ls : list (list Z)) : list event :=
  flat_map (fun l => [Cout (choices def); Line l]) ls.

Definition question (message : list Z) (def : Z) (ls : list (list Z)) : list event :=
  Cout (message ++ endl) :: dialogue def ls.

(** [l] is the first line that answers. *)
Definition answered (def : Z) (ls : list (list Z)) (l : list Z) (b : bool) : Prop :=
  Forall (fun l' => answer def l' = None) ls /\ answer def l = Some b.

Lemma dialogue_app def ls ls' : dialogue def (ls ++ ls') = dialogue def ls ++ dialogue def ls'.
Proof. apply flat_map_app. Qed.

Lemma calm_dialogue def ls : Forall calm (dialogue def ls).
Proof. induction ls; simpl; by repeat constructor. Qed.

Lemma calm_question message def ls : Forall calm (question message def ls).
Proof. constructor; [done|apply calm_dialogue]. Qed.

Lemma yesno_runs fuel message def :
  runs (yesno fuel message def) (fun o t => exists ls l b,
    o = Some b /\ t = question message def (ls ++ [l]) /\ answered def ls l b).
Proof.
  unfold yesno, cout, getline. apply runs_act_bind.
  eapply runs_mono; [eapply runs_loop with
    (I := fun t => exists ls, t = dialogue def ls /\ Forall (fun l => answer def l = None) ls)
    (P := fun o t => exists ls l b, o = Some b /\ t = dialogue def (ls ++ [l]) /\ answered def ls l b)|].
  - apply runs_act_bind, runs_ask_bind. intros l. apply runs_ret.
    destruct (answer def l) as [b|] eqn:E.
    + exists [], l, b. by repeat constructor.
    + exists [l]. split; [done|]. by repeat constructor.
  - intros o t t' (ls & -> & Hn) (ls' & l & b & -> & -> & Hn' & Hb). exists (ls ++ ls'), l, b.
    split; [done|]. rewrite <- app_assoc, (dialogue_app def ls). split; [done|].
    split; [by apply Forall_app|done].
  - simpl. intros o t (ls & l & b & -> & -> & H). by exists ls, l, b.
Qed.

Lemma quiet_yesno fuel message def : quiet (yesno fuel message def).
Proof.
  eapply runs_mono; [apply yesno_runs|]. intros o t (ls & l & b & _ & -> & _). apply calm_question.
Qed.
#[local] Hint Resolve quiet_yesno : installer.

(** *** The list of partitions *)
Definition listing (index : Z) (info : partition_info) (size : Z) : event :=
  Cout (dec index ++ str_bytes ": " ++ path info ++ str_bytes ": " ++ human_size size ++ [32] ++ fs info ++ endl).

(** Every new entry of the table has been shown. *)
Definition shown (x : selection) (o : option selection) (t : list event) : Prop :=
  Forall calm t /\ forall x', o = Some x' -> forall n info, x'.2 !! n = Some info ->
    x.2 !! n = Some info \/ exists size, listing n info size ∈ t.

Lemma shown_refl x t : Forall calm t -> shown x (Some x) t.
Proof. intros Ht. split; [done|]. intros x' [= <-] n info Hn. by left. Qed.

Lemma shown_bind {m : M selection} {f : selection -> M selection} x :
  runs m (shown x) -> (forall y, runs (f y) (shown y)) -> runs (bind m f) (shown x).
Proof.
  intros Hm Hf. eapply runs_bind; [exact Hm| |by intros t [Ht _]]. intros y t [Ht Hy].
  eapply runs_mono; [apply Hf|]. intros o t' [Ht' Hz]. split; [by apply Forall_app|].
  intros x' -> n info Hn. destruct (Hz _ eq_refl n info Hn) as [Hn'|[size Hs]].
  - destruct (Hy _ eq_refl n info Hn') as [|[size Hs]]; [by left|].
    right. exists size. apply elem_of_app. by left.
  - right. exists size. apply elem_of_app. by right.
Qed.

Lemma shown_after {A} (m : M A) (k : M selection) x :
  quiet m -> runs k (shown x) -> runs (m ;;; k) (shown x).
Proof.
  intros Hm Hk. eapply runs_quiet; [exact Hm|intros a t Ht|done]. eapply runs_mono; [exact Hk|].
  intros o t' [Ht' Hs]. split; [by apply Forall_app|]. intros x' E n info Hn.
  destruct (Hs x' E n info Hn) as [|[size Hz]]; [by left|]. right. exists size. apply elem_of_app. by right.
Qed.

Lemma list_partitions_shown d ps : forall x, runs (list_partitions d ps x) (shown x).
Proof.
  induction ps as [|p ps IH]; intros x; simpl; [apply runs_ret, shown_refl; constructor|].
  apply shown_bind; [|done]. unfold list_partition, cout. destruct x as [counter selectmap].
  destruct (0 <? num p); [|apply runs_ret, shown_refl; constructor].
  apply runs_act_bind, runs_ret. split; [by repeat constructor|]. intros x' [= <-] n info. cbn [snd].
  destruct (decide (n = counter + 1)) as [->|Hne].
  - rewrite lookup_insert_eq. intros [= <-]. right. eexists. apply list_elem_of_singleton.
    unfold listing. cbn [path fs]. done.
  - rewrite lookup_insert_ne by done. by left.
Qed.

Lemma list_devices_shown ds : forall x, runs (list_devices ds x) (shown x).
Proof.
  induction ds as [|d ds IH]; intros x; simpl; [apply runs_ret, shown_refl; constructor|].
  apply shown_bind; [|done]. unfold list_device, cout. apply shown_after; [by apply quiet_act|].
  destruct (disk_type d) as [t|]; [|by intros w o w'].
  destruct (bool_decide _).
  - destruct (partitions d); [apply list_partitions_shown|by intros w o w'].
  - apply shown_after; [by apply quiet_act|]. apply runs_ret, shown_refl. constructor.
Qed.

Lemma quiet_run cmd args : quiet (run cmd args).
Proof. unfold run, _spawn, _wait. quiet_tac. Qed.
#[local] Hint Resolve quiet_run : installer.

Lemma quiet_install_package f d : quiet (install_package f d).
Proof. unfold install_package, _spawn, _wait. quiet_tac. Qed.
#[local] Hint Resolve quiet_install_package : installer.

Lemma quiet_copy_files mp : quiet (copy_files mp).
Proof. unfold copy_files, cout. quiet_tac. Qed.
#[local] Hint Resolve quiet_copy_files : installer.

Lemma quiet_replace_in_file f p r : quiet (replace_in_file f p r).
Proof. unfold replace_in_file, read_file, write_file. quiet_tac. Qed.
#[local] Hint Resolve quiet_replace_in_file : installer.

Lemma quiet_configure_install mp part : quiet (configure_install mp part).
Proof. unfold configure_install, make_tar, cout, _setenv, read_dir, _spawn, _wait. quiet_tac. Qed.
#[local] Hint Resolve quiet_configure_install : installer.

Lemma quiet_install_grub fuel mp part : quiet (install_grub fuel mp part).
Proof. unfold install_grub, cout, uuid_generate, write_file, _setenv. quiet_tac. Qed.
#[local] Hint Resolve quiet_install_grub : installer.

Lemma quiet_write_answers mp part b : quiet (write_answers mp part b).
Proof. unfold write_answers. quiet_tac. Qed.
#[local] Hint Resolve quiet_write_answers : installer.

(** *** Where the user is asked *)
Definition yes (line : list Z) : Prop := first_char line = 121 \/ first_char line = 89.

Lemma answer_true line : answer 110 line = Some true -> yes line.
Proof.
  unfold answer, yes. destruct ((_ =? 121) || _) eqn:E; [lia|].
  destruct ((_ =? 110) || _); [done|].
  change (110 =? 121) with false. rewrite andb_false_r. by destruct (_ && _).
Qed.

(** The question about a partition. *)
Definition format_question (part : partition_info) : list Z :=
  if negb (bool_decide (fs part = str_bytes "fat16")) && negb (bool_decide (fs part = str_bytes "fat32"))
  then FORMAT_NEW else FORMAT_OLD.

(** A history that ends with the line that chooses a partition, from the list that
    was shown. *)
Definition chosen (part : partition_info) (t : list event) : Prop :=
  exists t0 sel n size, t = t0 ++ [Line sel] /\ extract_int sel = Some n /\ listing n part size ∈ t0.

(** ... and then with a yes to the question about it, and the format. *)
Definition consented (part : partition_info) (t : list event) : Prop :=
  exists t0 ls l, chosen part t0 /\ Forall calm t0 /\ answered 110 ls l true /\
    t = t0 ++ question (format_question part) 110 (ls ++ [l]) ++ [Format (str_bytes "FAT") (path part)].

Definition selected (o : option partition_info) (t : list event) : Prop :=
  Forall calm t \/ exists part, o = Some part /\ consented part t.

Lemma offer_format_runs fuel part t0 : chosen part t0 -> Forall calm t0 ->
  runs (offer_format fuel part) (fun o t => Forall calm t \/ (o = Some tt /\ consented part (t0 ++ t))).
Proof.
  intros Hc H0.
  assert (Hq : forall m : M unit, quiet m ->
    runs (y <- yesno fuel (format_question part) 110 ;; if y : bool then _format (str_bytes "FAT") (path part) else m)
      (fun o t => Forall calm t \/ (o = Some tt /\ consented part (t0 ++ t)))).
  { intros m Hm. eapply runs_bind; [apply yesno_runs| |by intros t (ls & l & b & ? & _)].
    intros y t (ls & l & b & [= <-] & -> & Ha). destruct y.
    - apply runs_act. right. split; [done|]. by exists t0, ls, l.
    - eapply runs_mono; [exact Hm|]. intros o t' Ht'. left. apply Forall_app. split; [apply calm_question|done]. }
  unfold offer_format. unfold format_question in Hq.
  destruct (negb _ && negb _); apply Hq; [apply quiet_exit|apply quiet_ret].
Qed.

Lemma select_loop_runs fuel (selectmap : gmap Z partition_info) :
  runs (loop fuel (select_round selectmap)) (fun o t => Forall calm t /\ forall part, o = Some part ->
    exists t0 sel n, t = t0 ++ [Line sel] /\ extract_int sel = Some n /\ selectmap !! n = Some part).
Proof.
  eapply runs_loop with (I := Forall calm).
  - unfold select_round, getline. apply runs_ask_bind. intros sel.
    destruct (first_char sel =? 113); [by apply runs_exit; repeat constructor|].
    destruct (extract_int sel) as [n|] eqn:En; [|by intros w o w'].
    apply runs_ret. destruct (0 <? n); [|by repeat constructor].
    destruct (selectmap !! n) as [part|] eqn:Ep; [|by repeat constructor].
    split; [by repeat constructor|]. intros part' [= <-]. by exists [], sel, n.
  - intros o t t' Ht [Ht' Hp]. split; [by apply Forall_app|]. intros part E.
    destruct (Hp part E) as (t0 & sel & n & -> & ?). exists (t ++ t0), sel, n. by rewrite app_assoc.
Qed.

Lemma select_partition_runs fuel : runs (select_partition fuel) selected.
Proof.
  assert (Hq : forall o t, Forall calm t -> selected o t) by (intros; by left).
  unfold select_partition, cout.
  eapply runs_quiet; [by apply quiet_act|intros ? t1 H1|auto].
  eapply runs_quiet; [by apply quiet_ask|intros ds t2 H2|intros; by apply Hq, Forall_app].
  eapply runs_bind; [apply list_devices_shown|intros x t3 [H3 Hx]|intros t [? _]; apply Hq; by rewrite !Forall_app].
  eapply runs_quiet; [by apply quiet_act|intros ? t4 H4|intros; apply Hq; by rewrite !Forall_app].
  eapply runs_quiet; [by apply quiet_act|intros ? t5 H5|intros; apply Hq; by rewrite !Forall_app].
  eapply runs_bind; [apply select_loop_runs|intros part t6 [H6 Hp]|intros t [? _]; apply Hq; by rewrite !Forall_app].
  destruct (Hp part eq_refl) as (t7 & sel & n & -> & En & Em).
  set (t0 := t1 ++ t2 ++ t3 ++ t4 ++ t5 ++ t7 ++ [Line sel]).
  assert (Hc : chosen part t0).
  { destruct (Hx x eq_refl n part Em) as [?|[size Hs]]; [done|].
    exists (t1 ++ t2 ++ t3 ++ t4 ++ t5 ++ t7), sel, n, size. unfold t0. rewrite <- !app_assoc.
    split; [done|]. split; [done|]. rewrite !elem_of_app. tauto. }
  assert (H0 : Forall calm t0) by (unfold t0; by rewrite !Forall_app in *).
  eapply runs_bind; [by apply (offer_format_runs fuel part t0)| |].
  - intros ? t8 H8. apply runs_ret. rewrite app_nil_r.
    replace (t1 ++ t2 ++ t3 ++ t4 ++ t5 ++ (t7 ++ [Line sel]) ++ t8) with (t0 ++ t8)
      by (unfold t0; by rewrite <- !app_assoc).
    destruct H8 as [H8|[_ H8]]; [apply Hq; by apply Forall_app|]. right. by exists part.
  - intros t8 [H8|[? _]]; [|done]. apply Hq. unfold t0 in H0. rewrite !Forall_app in *. tauto.
Qed.

(** *** The whole installation *)
Definition registry_cmd (drive : list Z) : list Z := drive ++ str_bytes ":/os/system/registry.elx".
Definition start_registry (pid : Z) (drive : list Z) : event :=
  Spawn pid (registry_cmd drive) [str_bytes "-f"; str_bytes ":memory:"].

(** The backup of the registry, which is waited for. *)
Definition backup (mp : list Z) (b : Z) : list event :=
  [Spawn b (mp ++ str_bytes ":/os/cmd/reg.elx") [str_bytes "backup"; mp ++ str_bytes ":/os/config/registry.db"];
   Wait b].

Lemma setup_registry_runs :
  runs setup_registry (fun o t => Forall calm t /\ forall pid, o = Some pid ->
    exists t1 drive t2, t = t1 ++ start_registry pid drive :: t2).
Proof.
  unfold setup_registry. eapply runs_quiet; [apply quiet_get_env|intros drive t1 H1|done].
  unfold _spawn, _setenv. apply runs_ask_bind. intros pid. apply runs_act_bind, runs_ret. split.
  - apply Forall_app. split; [done|]. by repeat constructor.
  - intros pid' [= <-]. by eexists t1, drive, _.
Qed.

Lemma copy_files_runs mp : runs (copy_files mp) (fun o t => Forall calm t /\ forall b, o = Some b -> b = true).
Proof.
  unfold copy_files, cout. eapply runs_quiet; [by apply quiet_act|intros ? t1 H1|done].
  eapply runs_quiet; [apply quiet_get_env|intros drive t2 H2|intros; split; [by rewrite !Forall_app|done]].
  do 3 (eapply runs_quiet;
    [apply quiet_install_package|intros ? ? ?|intros; split; [by rewrite !Forall_app|done]]).
  apply runs_ret. split; [by rewrite !Forall_app|]. by intros b [= <-].
Qed.

Lemma finalise_registry_runs mp pid :
  runs (finalise_registry mp pid) (fun o t => o = Some tt /\ exists b, t = backup mp b ++ [Kill pid]).
Proof.
  unfold finalise_registry, run. eapply runs_bind with
    (P := fun o t => o = Some tt /\ exists b, t = backup mp b).
  - unfold _spawn, _wait. apply runs_ask_bind. intros b. apply runs_act. split; [done|]. by exists b.
  - intros ? t [_ [b ->]]. apply runs_act. split; [done|]. by exists b.
  - by intros t [? _].
Qed.

(** From the mount on: the registry is started, and killed at the very end. *)
Definition finished (mp : list Z) (o : option Z) (t : list event) : Prop :=
  (o = None /\ Forall calm t) \/
  (o = Some 0 /\ exists t1 pid drive t2 b,
    t = t1 ++ start_registry pid drive :: t2 ++ backup mp b ++ [Kill pid] /\
    Forall calm t1 /\ Forall calm t2).

Lemma install_runs fuel part mp :
  runs (regpid <- setup_registry ;;
        copied <- copy_files mp ;;
        (if copied : bool then
           configure_install mp part ;;;
           rootinstall <- install_grub fuel mp part ;;
           write_answers mp part rootinstall ;;;
           finalise_registry mp regpid
         else _kill regpid) ;;;
        ret 0) (finished mp).
Proof.
  eapply runs_bind; [apply setup_registry_runs|intros pid t1 [H1 Hs]|intros t [H _]; by left].
  eapply runs_bind; [apply copy_files_runs|intros copied t2 [H2 Hc]|
    intros t [H _]; left; split; [done|by apply Forall_app]].
  rewrite (Hc copied eq_refl).
  eapply runs_bind with (P := fun o t => (Forall calm t /\ o = None) \/
    exists t0 b, Forall calm t0 /\ t = t0 ++ backup mp b ++ [Kill pid] /\ o = Some tt).
  - eapply runs_quiet; [apply quiet_configure_install|intros ? t3 H3|by left].
    eapply runs_quiet; [apply quiet_install_grub|intros b t4 H4|intros; left; by rewrite !Forall_app].
    eapply runs_quiet; [apply quiet_write_answers|intros ? t5 H5|intros; left; by rewrite !Forall_app].
    eapply runs_mono; [apply finalise_registry_runs|]. intros o t [-> [b' ->]]. right.
    exists (t3 ++ t4 ++ t5), b'. rewrite <- !app_assoc. split; [by rewrite !Forall_app|done].
  - intros ? t3 [[_ ?]|(t0 & b & H0 & -> & _)]; [done|]. apply runs_ret. right. split; [done|].
    destruct (Hs pid eq_refl) as (ta & drive & tb & ->).
    apply Forall_app in H1 as [Ha [_ Hb]%list.Forall_cons].
    exists ta, pid, drive, (tb ++ t2 ++ t0), b. rewrite app_nil_r, <- !app_assoc. simpl.
    split; [done|]. split; [done|]. by rewrite !Forall_app.
  - intros t [[Ht _]|(? & ? & _ & _ & ?)]; [|done]. left. by rewrite !Forall_app.
Qed.

Definition hdd : list Z := str_bytes "hdd".
Definition mounted (p : list Z) : event := Mount hdd p (str_bytes "FAT").

Lemma main_runs fuel :
  runs (main fuel) (fun o t => (o = None /\ Forall calm t) \/
    exists part t1 t2, t = t1 ++ mounted (path part) :: t2 /\ finished hdd o t2 /\
      (Forall calm t1 \/ consented part t1)).
Proof.
  unfold main, cout. eapply runs_quiet; [by apply quiet_act|intros ? t1 H1|by left].
  eapply runs_bind; [apply select_partition_runs|intros part t2 H2|].
  - unfold mount_partition.
    eapply runs_bind; [apply runs_bind with (P := fun o t => o = Some tt /\ t = [mounted (path part)])
      (Q := fun o t => o = Some hdd /\ t = [mounted (path part)])| |].
    + by apply runs_act.
    + intros ? t [_ ->]. by apply runs_ret.
    + by intros t [? _].
    + intros mp t [[= ->] ->]. eapply runs_mono; [apply install_runs|]. intros o t3 H3. right.
      exists part, (t1 ++ t2), t3. rewrite <- app_assoc. split; [done|]. split; [done|].
      destruct H2 as [H2|(part' & [= <-] & t0 & ls & l & (t4 & sel & n & size & -> & En & Hs) & H0 & Ha & ->)];
        [left; by apply Forall_app|].
      right. exists (t1 ++ t4 ++ [Line sel]), ls, l. rewrite <- !app_assoc.
      split; [exists (t1 ++ t4), sel, n, size; rewrite <- app_assoc; split; [done|split; [done|apply elem_of_app; by right]]|].
      split; [by rewrite !Forall_app in *|done].
    + by intros t [? _].
  - intros t [Ht|(? & ? & _)]; [|done]. left. split; [done|]. by apply Forall_app.
Qed.

(** *** Waiting for an answer *)

(** The lines the user will type; at the end of the input [getline] answers empty
    lines. *)
Class LineQueue := {
  lines : D -> list (list Z);
  getline_end d : lines d = [] -> exists d', x_getline d = ([], d') /\ lines d' = [];
  getline_line d l ls : lines d = l :: ls -> exists d', x_getline d = (l, d') /\ lines d' = ls
}.
Context {LQ : LineQueue}.

(** The answer of the first line that is one. *)
Fixpoint first_answer (def : Z) (ls : list (list Z)) : option bool :=
  match ls with
  | [] => answer def []
  | l :: ls' => match answer def l with Some b => Some b | None => first_answer def ls' end
  end.

Definition asked (def : Z) (l : list Z) (d : D) (w : world) : world :=
  mk_world d ((history w ++ [Cout (choices def)]) ++ [Line l]).

Lemma loop_answer fuel def l d w :
  x_getline (ext w) = (l, d) ->
  loop (S fuel) (cout (choices def) ;;; line <- getline ;; ret (answer def line)) w =
    match answer def l with
    | Some b => Ok (Some b, asked def l d w)
    | None => loop fuel (cout (choices def) ;;; line <- getline ;; ret (answer def line)) (asked def l d w)
    end.
Proof.
  intros E. cbn [loop]. set (rest := loop fuel _).
  unfold bind, cout, act, getline, ask, id. cbn -[answer]. rewrite E. cbn -[answer].
  by destruct (answer def l).
Qed.

Lemma yesno_end fuel def : forall w,
  lines (ext w) = [] -> answer def [] = None ->
  loop fuel (cout (choices def) ;;; line <- getline ;; ret (answer def line)) w = Fuel.
Proof.
  induction fuel as [|fuel IH]; intros w Hl Ha; [done|].
  destruct (getline_end _ Hl) as (d & E & Hd). rewrite (loop_answer _ _ _ _ _ E), Ha. by apply IH.
Qed.

(** The lines a question reads: up to the first that answers, or all of them and
    then the end of the input. *)
Definition consumed (before read after : list (list Z)) : Prop :=
  before = read ++ after \/ (read = before ++ [[]] /\ after = []).

Lemma yesno_loop_ok def qs : forall fuel w,
  lines (ext w) = qs -> (length qs < fuel)%nat ->
  match first_answer def qs with
  | Some b => exists w' ls l,
      loop fuel (cout (choices def) ;;; line <- getline ;; ret (answer def line)) w = Ok (Some b, w') /\
      history w' = history w ++ dialogue def (ls ++ [l]) /\ answered def ls l b /\
      consumed qs (ls ++ [l]) (lines (ext w'))
  | None => loop fuel (cout (choices def) ;;; line <- getline ;; ret (answer def line)) w = Fuel
  end.
Proof.
  induction qs as [|q qs IH]; intros fuel w Hl Hf; (destruct fuel as [|fuel]; [lia|]); cbn [first_answer].
  - destruct (answer def []) as [b|] eqn:Ea; [|by apply yesno_end].
    destruct (getline_end _ Hl) as (d & E & Hd). rewrite (loop_answer _ _ _ _ _ E), Ea.
    eexists _, [], []. split; [reflexivity|]. cbn [asked history ext]. rewrite <- app_assoc.
    split; [done|]. split; [by repeat constructor|]. by right.
  - destruct (getline_line _ _ _ Hl) as (d & E & Hd). rewrite (loop_answer _ _ _ _ _ E).
    destruct (answer def q) as [b|] eqn:Ea.
    + eexists _, [], q. split; [reflexivity|]. cbn [asked history ext]. rewrite <- app_assoc.
      split; [done|]. split; [by repeat constructor|]. left. by rewrite Hd.
    + specialize (IH fuel (asked def q d w) Hd ltac:(simpl in Hf; lia)).
      destruct (first_answer def qs) as [b|]; [|done].
      destruct IH as (w' & ls & l & -> & Hh & [Hn Hb] & Hc). exists w', (q :: ls), l. split; [done|].
      cbn [asked history] in Hh. rewrite Hh, <- !app_assoc. split; [done|].
      split; [split; [by constructor|done]|].
      destruct Hc as [-> |[Hr Ha]]; [by left|right]. cbn [app]. by rewrite Hr.
Qed.

End Installer.

(** ** Lemmas on strings *)

(** Replacing from left to right: after an occurrence the scan goes on behind it;
    [skip] bytes of the occurrence are still to be passed over. *)
Fixpoint replace_all (from to : list Z) (skip : nat) (s : list Z) : list Z :=
  match s with
  | [] => []
  | c :: s' =>
      match skip with
      | S k => replace_all from to k s'
      | O => if is_prefix from s then to ++ replace_all from to (pred (length from)) s'
             else c :: replace_all from to O s'
      end
  end.

Lemma replace_all_skip from to k : forall s, replace_all from to k s = replace_all from to 0 (drop k s).
Proof.
  induction k as [|k IH]; intros [|c s]; try done. simpl. apply IH.
Qed.

Lemma is_prefix_length p : forall s, is_prefix p s = true -> (length p <= length s)%nat.
Proof.
  induction p as [|x p IH]; intros [|y s] H; simpl in *; try lia; try done.
  apply andb_prop in H as [_ H]. apply IH in H. lia.
Qed.

Lemma find_none from to s : from <> [] -> find from s = None -> replace_all from to 0 s = s.
Proof.
  intros Hne. induction s as [|c s IH]; [done|]. cbn [find replace_all].
  destruct (is_prefix from (c :: s)); [done|]. intros H. f_equal. apply IH.
  by destruct (find from s).
Qed.

Lemma find_some from to s : from <> [] -> forall n, find from s = Some n ->
  (n + length from <= length s)%nat /\
  replace_all from to 0 s = take n s ++ to ++ replace_all from to 0 (drop (n + length from) s).
Proof.
  intros Hne. induction s as [|c s IH]; intros n H; cbn [find] in H.
  - destruct (is_prefix from []) eqn:E; [|done]. by destruct from.
  - destruct (is_prefix from (c :: s)) eqn:E.
    + injection H as <-. split; [by apply is_prefix_length in E|].
      cbn [replace_all]. rewrite E, replace_all_skip. simpl. by destruct from.
    + destruct (find from s) as [k|]; [|done]. injection H as <-.
      destruct (IH k eq_refl) as [Hl Hr]. split; [simpl; lia|].
      cbn [replace_all]. rewrite E, Hr. done.
Qed.

Lemma replace_loop_ok from to : from <> [] -> forall fuel done rest,
  (length rest < fuel)%nat ->
  replace_loop fuel (done ++ rest) from to (length done) = Ok (done ++ replace_all from to 0 rest).
Proof.
  intros Hne. induction fuel as [|fuel IH]; intros dn rest Hf; [lia|]. simpl. unfold find_at.
  rewrite (proj2 (Nat.leb_le _ _)) by (rewrite length_app; lia). rewrite drop_app_length.
  destruct (find from rest) as [n|] eqn:E; simpl.
  - destruct (find_some from to rest Hne n E) as [Hl ->].
    assert (Hn : (0 < length from)%nat) by (destruct from; [done|simpl; lia]).
    unfold replace. rewrite take_app_add, <- app_assoc.
    rewrite <- (Nat.add_assoc (length dn)), drop_app_add.
    replace (dn ++ take n rest ++ to ++ drop (n + length from) rest)
      with ((dn ++ take n rest ++ to) ++ drop (n + length from) rest) by by rewrite <- !app_assoc.
    replace (length dn + n + length to)%nat with (length (dn ++ take n rest ++ to))
      by (rewrite !length_app, length_take_le; lia).
    rewrite IH by (rewrite length_drop; lia). by rewrite <- !app_assoc.
  - by rewrite find_none.
Qed.

Lemma dec_digits_value fuel : forall n, 0 <= n < 10 ^ Z.of_nat fuel -> dec_value (dec_digits fuel n) = n.
Proof.
  induction fuel as [|fuel IH]; intros n Hn; [simpl in Hn; unfold dec_value; simpl; lia|].
  simpl. unfold dec_value. rewrite fold_left_app. simpl.
  rewrite Nat2Z.inj_succ, Z.pow_succ_r in Hn by lia.
  destruct (Z.ltb_spec n 10); simpl; [Z.div_mod_to_equations; lia|].
  change (fold_left _ (dec_digits fuel (n / 10)) 0) with (dec_value (dec_digits fuel (n / 10))).
  rewrite IH by (Z.div_mod_to_equations; lia). Z.div_mod_to_equations. lia.
Qed.

Lemma dec_ok n : 0 <= n < 2 ^ 64 -> dec_value (dec n) = n.
Proof. intros Hn. apply dec_digits_value. simpl. lia. Qed.

Definition units : list (list Z) :=
  [str_bytes " Bytes"; str_bytes " KB"; str_bytes " MB"; str_bytes " GB"; str_bytes " TB"].

(** ** Properties *)

(** C38. [replace_in_string] always terminates, and its loop of [find] and [replace],
    which rescans the growing string from behind each replacement, gives the same
    string as a single pass that copies bytes and replaces the occurrences it
    meets; an empty pattern changes nothing. *)
Theorem replace_in_string_single_pass (str from to : list Z) :
  replace_in_string str from to =
    Ok (if bool_decide (from = []) then str else replace_all from to 0 str).
Proof.
  unfold replace_in_string. case_bool_decide as H; [done|].
  by rewrite (replace_loop_ok from to H _ [] str) by lia.
Qed.

(** [human_size] shows the whole number of the largest unit, up to TB, that fits
    in the size: at least 1 of it (except for bytes) and less than 1024 (except
    for TB). *)
Theorem human_size_units (size : Z) :
  0 <= size < 2 ^ 64 ->
  exists k digits, human_size size = digits ++ nth k units [] /\ (k < 5)%nat /\
    dec_value digits = size / 1024 ^ Z.of_nat k /\
    (k <> 0%nat -> 1024 ^ Z.of_nat k <= size) /\ (k <> 4%nat -> size < 1024 ^ (Z.of_nat k + 1)).
Proof.
  intros Hs. unfold human_size.
  assert (Hd : forall u, 1 <= u -> dec_value (dec (size / u)) = size / u).
  { intros u Hu. apply dec_ok. Z.div_mod_to_equations. nia. }
  repeat match goal with |- context [size <? ?b] => destruct (Z.ltb_spec size b) end;
    [exists 0%nat, (dec size)|exists 1%nat, (dec (size / 1024))|exists 2%nat, (dec (size / 1048576))
    |exists 3%nat, (dec (size / 1073741824))|exists 4%nat, (dec (size / 1099511627776))];
    simpl; (split; [done|]); (split; [lia|]); (split; [|lia]).
  2-5: by apply Hd.
  rewrite Z.div_1_r. by apply dec_ok.
Qed.

Section Runs.
Context {D : Type} `{!OsApi D}.

Definition formats (t : list event) : list (list Z) :=
  omap (fun e => match e with Format _ p => Some p | _ => None end) t.
Definition kills (t : list event) : list Z :=
  omap (fun e => match e with Kill p => Some p | _ => None end) t.

Lemma calm_formats t : Forall calm t -> formats t = [] /\ kills t = [].
Proof. induction 1 as [|e t He Ht [IH1 IH2]]; [done|]. by destruct e. Qed.

Lemma formats_app t t' : formats (t ++ t') = formats t ++ formats t'.
Proof. apply omap_app. Qed.


Lemma finished_formats mp o t : finished mp o t -> formats t = [].
Proof.
  intros [[_ Ht]|(_ & t1 & pid & drive & t2 & b & -> & H1 & H2)]; [by apply calm_formats|].
  rewrite formats_app. cbn. fold (formats (t2 ++ backup mp b ++ [Kill pid])). rewrite formats_app.
  destruct (calm_formats _ H1) as [-> _], (calm_formats _ H2) as [-> _]. done.
Qed.

(** C8. Whatever the user types, the installer formats at most once, and then the
    partition it goes on to mount and install to: the partition was listed under a
    number, the user chose that number, was then asked the question about this
    partition, and again after each line that is no answer, and the line read
    right before the format starts with a yes. *)
Theorem installer_formats_with_consent (fuel : nat) (w w' : world D event) (o : option Z) :
  main fuel w = Ok (o, w') ->
  exists t, history w' = history w ++ t /\
    (formats t = [] \/
     exists t0 sel n part size ls l t2,
       t = t0 ++ Line sel :: question (format_question part) 110 (ls ++ [l]) ++
           Format (str_bytes "FAT") (path part) :: mounted (path part) :: t2 /\
       listing n part size ∈ t0 /\ extract_int sel = Some n /\
       Forall (fun l' => answer 110 l' = None) ls /\ yes l /\ formats t0 = [] /\ formats t2 = []).
Proof.
  intros E. destruct (main_runs fuel w o w' E) as (t & Et & Ht). exists t. split; [done|].
  destruct Ht as [[_ Ht]|(part & t1 & t2 & -> & Hf & [H1|H1])];
    [left; by apply calm_formats|left|right]; apply finished_formats in Hf.
  - rewrite formats_app. cbn. fold (formats t2). rewrite Hf. by destruct (calm_formats _ H1) as [-> _].
  - destruct H1 as (ta & ls & l & (t0 & sel & n & size & -> & En & Hs) & Hc & [Hn Hl] & ->).
    exists t0, sel, n, part, size, ls, l, t2. rewrite <- !app_assoc. split; [done|].
    apply Forall_app in Hc as [Hc _]. repeat (split; [done|]). split; [by apply answer_true|].
    split; [by apply calm_formats|done].
Qed.


Context {LQ : LineQueue}.

(** C37. A question with a default is answered whatever is typed, at the latest by the
    end of the input, and the answer is that of the first line that gives one: the
    question is shown once, the choices before each line that is read, and the lines
    up to the answer are consumed, no others.  Without a default the question is
    asked for ever when no line has an answer. *)
Theorem yesno_answers (fuel : nat) (message : list Z) (def : Z) (w : world D event) :
  (length (lines (ext w)) < fuel)%nat ->
  match first_answer def (lines (ext w)) with
  | Some b => exists w' ls l, yesno fuel message def w = Ok (Some b, w') /\
      history w' = history w ++ question message def (ls ++ [l]) /\ answered def ls l b /\
      consumed (lines (ext w)) (ls ++ [l]) (lines (ext w'))
  | None => yesno fuel message def w = Fuel
  end /\
  (def = 121 \/ def = 110 -> is_Some (first_answer def (lines (ext w)))).
Proof.
  intros Hf. split.
  - pose proof (yesno_loop_ok def (lines (ext w)) fuel
      (mk_world (ext w) (history w ++ [Cout (message ++ endl)])) eq_refl Hf) as H.
    destruct (first_answer def _) as [b|]; [|exact H].
    destruct H as (w' & ls & l & E & Hh & H). exists w', ls, l. split; [exact E|].
    split; [|exact H]. rewrite Hh. cbn [history]. by rewrite <- app_assoc.
  - intros Hd. induction (lines (ext w)) as [|l ls IH]; simpl.
    + by destruct Hd as [-> | ->].
    + destruct (answer def l); [done|]. apply IH. simpl in Hf. lia.
Qed.

End Runs.

Notation "x <- m ;; k" := (bind m (fun x => k)) (at level 100, m at next level, right associativity).
Notation "m ;;; k" := (bind m (fun _ => k)) (at level 100, right associativity).

(** ** Witnesses *)

(** A machine whose user types the lines of a queue, with one disk of one FAT
    partition; files are empty and programs do nothing. *)
#[local] Instance demo_api : OsApi (list (list Z)) := {
  x_getline d := (hd [] d, tl d);
  x_devices d := ([mk_device (str_bytes "hda") 512 (Some (str_bytes "msdos"))
                     (Some [mk_part 1 4096 (Some (str_bytes "fat32"))])], d);
  x_format _ _ d := d; x_mount _ _ _ d := d; x_spawn _ _ d := (7, d); x_wait _ d := d;
  x_kill _ d := d; x_setenv _ _ d := d; x_getenv _ _ d := ((1, Some (str_bytes "c")), d);
  x_read_file _ d := (str_bytes "part=$PART$", d); x_write_file _ _ d := d; x_dir _ d := ([], d);
  x_uuid d := (str_bytes "0", d)
}.

#[local] Instance demo_lines : LineQueue (D := list (list Z)).
Proof.
  refine {| lines := fun d : list (list Z) => d |}; [by intros d ->; eexists|].
  by intros d l ls ->; eexists.
Defined.

Definition demo_world (ls : list (list Z)) : world (list (list Z)) event := mk_world ls [].

(** The user chooses partition 1, has it formatted, and wants no boot record. *)
Definition demo_input : list (list Z) :=
  [str_bytes "3"; str_bytes "1"; str_bytes "maybe"; str_bytes "Yes"; str_bytes "no"].

Lemma installer_formats_with_consent_witness :
  exists w' t0 sel n part size ls l t2, main 10 (demo_world demo_input) = Ok (Some 0, w') /\
    history w' = t0 ++ Line sel :: question (format_question part) 110 (ls ++ [l]) ++
      Format (str_bytes "FAT") (path part) :: mounted (path part) :: t2 /\ listing n part size ∈ t0 /\ yes l.
Proof.
  destruct (main 10 (demo_world demo_input)) as [[o w']| |] eqn:E;
    [|by vm_compute in E|by vm_compute in E].
  assert (o = Some 0) as -> by (vm_compute in E; by injection E as <- _).
  destruct (installer_formats_with_consent 10 _ w' _ E) as (t & Et & [Ht|Ht]).
  - assert (formats (history w') <> []) as F by (vm_compute in E; by injection E as <-).
    rewrite Et in F. exfalso. exact (F Ht).
  - destruct Ht as (t0 & sel & n & part & size & ls & l & t2 & -> & Hs & _ & _ & Hy & _).
    exists w', t0, sel, n, part, size, ls, l, t2. split; [reflexivity|]. split; [exact Et|].
    split; [exact Hs|exact Hy].
Defined.


Lemma yesno_answers_witness :
  (exists w' ls l, yesno 5 [] 110 (demo_world [str_bytes "?"; []; str_bytes "y"]) = Ok (Some false, w') /\
     history w' = question [] 110 (ls ++ [l]) /\ answered 110 ls l false) /\
  yesno 5 [] 0 (demo_world [str_bytes "?"; []]) = Fuel.
Proof.
  split.
  - destruct (yesno_answers 5 [] 110 (demo_world [str_bytes "?"; []; str_bytes "y"])) as [H _]; [simpl; lia|].
    destruct H as (w' & ls & l & E & Hh & Ha & _). exists w', ls, l. split; [exact E|]. split; [exact Hh|exact Ha].
  - destruct (yesno_answers 5 [] 0 (demo_world [str_bytes "?"; []])) as [H _]; [simpl; lia|exact H].
Defined.

Lemma human_size_units_witness :
  exists k digits, human_size 1610612736 = digits ++ nth k units [] /\ (k < 5)%nat /\
    dec_value digits = 1610612736 / 1024 ^ Z.of_nat k /\
    (k <> 0%nat -> 1024 ^ Z.of_nat k <= 1610612736) /\
    (k <> 4%nat -> 1610612736 < 1024 ^ (Z.of_nat k + 1)).
Proof. apply (human_size_units 1610612736). lia. Defined.

Example human_size_gigabyte : human_size 1610612736 = str_bytes "1 GB".
Proof. reflexivity. Qed.

Example replace_drive :
  replace_in_string (str_bytes "drive=$DRIVE$:/$DRIVE$") (str_bytes "$DRIVE$") (str_bytes "hdd") =
    Ok (str_bytes "drive=hdd:/hdd").
Proof. reflexivity. Qed.
