(* ===== verification/BootDisk.v ===== *)
(** [kernel/src/kernel_main.cpp]: the kernel with the PCI drivers.

    It adds up the usable memory of the boot loader's memory map, allocates its
    managers and drivers, looks for the IDE, AHCI and EHCI controllers, reads the
    first sector of every disk they reach until one carries the signature of the
    sector the machine was booted from, mounts the file system of that disk and
    runs the schedule table for ever.  The C++ classes it uses are not part of the
    repository: they are a class of operations over the rest of the machine; the
    memory map, the boot sector at 0x7c00 and the sector buffer are byte memory.  The
    interrupts, which use the schedule table too, come at the start of each round and
    before each look at a slot. *)

From S2P Require Import Prelude Mem.

(** What is allocated with [memoryManager.malloc(sizeof(...))] and constructed in
    place. *)
Inductive cls :=
  | InterruptManager | DriverManager | TaskManager | PCIController | KeyboardDriver | IDEDriver
  | AHCIDriver | USBDriver | USBMassStorageDevices | EHCIDriver | FileSystem | Desktop
  | PCIDeviceDescriptor | Bitmap | Bytes (n : Z).

(** The disks the code reads: the four IDE positions, and the tables of AHCI disks
    and of USB mass storages. *)
Inductive disk := IdeMaster0 | IdeSlave0 | IdeMaster1 | IdeSlave1 | Sata (j : Z) | Usb (i : Z).

#[export] Instance disk_eq_dec : EqDecision disk.
Proof. solve_decision. Defined.

Record pci_desc := mk_desc { class_id : Z; subclass_id : Z; interface_id : Z }.
Record file := mk_file { Name : list Z; Size : Z }.
Record MemoryMapEntry := mk_entry { baseAddress : Z; elength : Z; etype : Z; acpi_extended : Z }.

(** An entry of the schedule table. *)
Record entry := mk_sched { handlerAddress : Z; free : bool; currentFrame : Z; lastFrame : Z }.

Class KernelCpp (D : Type) := {
  print : list Z -> D -> D;
  malloc : cls -> D -> Z * D;
  mm_free : Z -> D -> D;
  construct : cls -> Z -> list Z -> D -> D;
  invoke : list Z -> list Z -> D -> D;
  GetDescriptor : Z -> Z -> option Z -> D -> pci_desc * D;
  IsEmpty : disk -> D -> bool;
  Read : disk -> Z -> mem * D -> mem * D;
  numDisks : D -> Z;
  numPorts : D -> Z;
  DevicePresent : Z -> D -> bool * D;
  MassStorage : Z -> D -> bool;
  partition2_FSType : mem -> Z -> res Z;
  new_FileSystem : Z -> disk -> Z -> mem * D -> D;
  GetFiles : D -> list file * D;
  ReadFile : file -> Z -> D -> D;
  (** A handler can use [Schedule] like any other code. *)
  call_handler : Z -> bool * list entry * D -> bool * list entry * D;
  (** What the interrupts since the last look at the table have done: the timer
      counts its frames, the drivers schedule handlers. *)
  interrupt : bool * list entry * D -> bool * list entry * D
}.

(** ** The memory map *)

(** Entry [i], read through a pointer to 64-bit words and one to 32-bit words. *)
Definition read_entry (m : mem) (p index0 index1 : Z) : res MemoryMapEntry :=
  b ← load_le 8 m (p + 8 * index0);
  l ← load_le 8 m (p + 8 * (index0 + 1));
  t ← load_le 4 m (p + 4 * index1);
  a ← load_le 4 m (p + 4 * (index1 + 1));
  Ok (mk_entry b l t a).

Fixpoint scan_memory (n : nat) (m : mem) (p index0 index1 amountofRAM : Z) : res (list MemoryMapEntry * Z) :=
  match n with
  | O => Ok ([], amountofRAM)
  | S n' =>
      e ← read_entry m p index0 index1;
      let amountofRAM := if etype e =? 0x1 then u64 (amountofRAM + elength e) else amountofRAM in
      index0 ← int32 (index0 + 3);
      index1 ← int32 (index1 + 6);
      '(es, amount) ← scan_memory n' m p index0 index1 amountofRAM;
      Ok (e :: es, amount)
  end.

Definition ram_mb (amountofRAM : Z) : Z := u32 (amountofRAM / 1024 / 1024).

Section Kernel.
Context {D : Type} `{!KernelCpp D}.

(** ** Allocation and drivers *)

(** A chain of [malloc]s that gives up at the first null pointer. *)
Fixpoint alloc_all (cs : list cls) (d : D) : option (list Z) * D :=
  match cs with
  | [] => (Some [], d)
  | c :: cs' =>
      let '(p, d) := malloc c d in
      if p =? 0 then (None, d)
      else
        let '(ps, d) := alloc_all cs' d in
        (cons p <$> ps, d)
  end.

Definition managers : list cls :=
  [InterruptManager; DriverManager; TaskManager; PCIController; KeyboardDriver; IDEDriver; AHCIDriver;
   USBDriver; USBMassStorageDevices; EHCIDriver; FileSystem; Desktop].

Definition msg (s : String.string) : D -> D := print (str_bytes s ++ [10]).
Arguments msg s%_string.

(** The three controllers: whether the driver pointer is still there. *)
Definition probe_ide (ide_driver ide_descriptor interrupts : Z) (d : D) : bool * D :=
  let '(x, d) := GetDescriptor 0x01 0x01 None d in
  if (class_id x =? 0x01) && (subclass_id x =? 0x01) then
    let d := mm_free ide_descriptor (msg "Initializing IDE Driver" d) in
    let d := construct IDEDriver ide_driver [0x1F0; 0x170; interrupts; 0x0E; 0x0F] d in
    (true, invoke (str_bytes "IDEDriver::Initialize") [ide_driver] d)
  else (false, mm_free ide_descriptor (mm_free ide_driver d)).

Definition probe_ahci (ahci_driver ahci_descriptor pci interrupts : Z) (d : D) : bool * D :=
  let '(x, d) := GetDescriptor 0x01 0x06 None d in
  if (class_id x =? 0x01) && (subclass_id x =? 0x06) then
    let d := msg "Initializing AHCI Driver" d in
    let d := construct AHCIDriver ahci_driver [pci; interrupts; ahci_descriptor] d in
    (true, invoke (str_bytes "AHCIDriver::Initialize") [ahci_driver] d)
  else (false, mm_free ahci_descriptor (mm_free ahci_driver d)).

Definition probe_ehci (ehci_driver ehci_descriptor pci interrupts drivers : Z) (d : D) : bool * D :=
  let '(x, d) := GetDescriptor 0x0C 0x03 (Some 0x20) d in
  if (class_id x =? 0x0C) && (subclass_id x =? 0x03) && (interface_id x =? 0x20) then
    let d := msg "Initializing USB EHCI Controller" d in
    let d := construct EHCIDriver ehci_driver [pci; ehci_descriptor; interrupts] d in
    let d := invoke (str_bytes "DriverManager::Add") [drivers; ehci_driver] d in
    (true, invoke (str_bytes "EHCIDriver::portCanChange") [ehci_driver; 0] d)
  else (false, mm_free ehci_descriptor (mm_free ehci_driver d)).

(** ** The boot disk *)
Definition SIGNATURE_OFFSET : Z := 442.

Record search := mk_search {
  diskIndex : Z; ide_disk : option disk; ahci_disk : option disk; smem : mem; sdev : D }.

Definition set_index (s : search) (n : Z) : search :=
  mk_search n (ide_disk s) (ahci_disk s) (smem s) (sdev s).
Definition set_ide (s : search) (k : disk) : search :=
  mk_search (diskIndex s) (Some k) (ahci_disk s) (smem s) (sdev s).
Definition set_ahci (s : search) (k : disk) : search :=
  mk_search (diskIndex s) (ide_disk s) (Some k) (smem s) (sdev s).
Definition set_sdev (s : search) (d : D) : search :=
  mk_search (diskIndex s) (ide_disk s) (ahci_disk s) (smem s) d.

(** Read the first sector of a disk and compare the signatures. *)
Definition try_disk (k : disk) (index buffer os_signature : Z) (s : search) : res search :=
  let '(m, d) := Read k buffer (smem s, sdev s) in
  let s := mk_search (diskIndex s) (ide_disk s) (ahci_disk s) m d in
  sig ← load_le 4 m (buffer + SIGNATURE_OFFSET);
  Ok (if sig =? os_signature then set_index s index else s).

(** One of the four IDE blocks; the first one is reached with index 0. *)
Definition try_ide (k : disk) (index buffer os_signature : Z) (s : search) : res search :=
  if negb (diskIndex s =? 0) then Ok s
  else if IsEmpty k (sdev s) then Ok s
  else s ← try_disk k index buffer os_signature s; Ok (set_ide s k).

Definition search_ide (buffer os_signature : Z) (s : search) : res search :=
  s ← try_ide IdeMaster0 1 buffer os_signature s;
  s ← try_ide IdeSlave0 2 buffer os_signature s;
  s ← try_ide IdeMaster1 3 buffer os_signature s;
  try_ide IdeSlave1 4 buffer os_signature s.

(** The loops with a [break]: the AHCI disks from number [j] on, and [n] USB mass
    storages from number [i] on. *)
Fixpoint search_ahci (fuel : nat) (j buffer os_signature : Z) (s : search) : res search :=
  match fuel with
  | O => Fuel
  | S fuel' =>
      if j <? numDisks (sdev s) then
        s ← try_disk (Sata j) (5 + j) buffer os_signature (set_ahci s (Sata j));
        if diskIndex s =? 0 then search_ahci fuel' (j + 1) buffer os_signature s else Ok s
      else Ok s
  end.

Fixpoint search_usb (n : nat) (i buffer os_signature : Z) (s : search) : res search :=
  match n with
  | O => Ok s
  | S n' =>
      if negb (MassStorage i (sdev s)) then search_usb n' (i + 1) buffer os_signature s
      else
        s ← try_disk (Usb i) (0x81 + i) buffer os_signature s;
        if diskIndex s =? 0 then search_usb n' (i + 1) buffer os_signature s else Ok s
  end.

Fixpoint check_ports (fuel : nat) (i : Z) (d : D) : res D :=
  match fuel with
  | O => Fuel
  | S fuel' =>
      if i <? numPorts d then
        let '(present, d) := DevicePresent i d in
        check_ports fuel' (i + 1) (if present then invoke (str_bytes "EHCIDriver::CheckPort") [i] d else d)
      else Ok d
  end.

(** The whole search; a controller that was not found is not asked. *)
Definition search_disks (ide ahci ehci : bool) (buffer os_signature : Z) (s : search) : res search :=
  s ← (if ide then search_ide buffer os_signature s else Ok s);
  s ← (if ahci && (diskIndex s =? 0)
       then search_ahci (S (Z.to_nat (numDisks (sdev s)))) 0 buffer os_signature s else Ok s);
  let s := set_sdev s (invoke (str_bytes "DriverManager::ActivateAll") [] (sdev s)) in
  if (diskIndex s =? 0) && ehci then
    let d := msg "Checking for USB Boot.. Please wait..." (sdev s) in
    let d := invoke (str_bytes "Sleep") [40] d in
    d ← check_ports (S (Z.to_nat (numPorts d))) 0 d;
    let d := invoke (str_bytes "EHCIDriver::EnableAsyncSchedule") [] d in
    s ← search_usb 127 0 buffer os_signature (set_sdev s d);
    Ok (set_sdev s (invoke (str_bytes "EHCIDriver::DisableAsyncSchedule") [] (sdev s)))
  else Ok s.

(** Which disk the file system is made on; a null pointer has no defined use. *)
Definition chosen_disk (s : search) : option disk :=
  if 0x80 <? diskIndex s then Some (Usb (diskIndex s - 0x81))
  else if 4 <? diskIndex s then ahci_disk s
  else ide_disk s.

(** ** The desktop background *)

(** [DESKBG0?BMP] in the 8.3 form of the directory; the eighth character is not
    looked at. *)
Definition background_name (n : list Z) : res bool :=
  let at_ i c := x ← array_get n i; Ok (x =? c) in
  let both (r k : res bool) := b ← r; if (b : bool) then k else Ok false in
  both (at_ 0 68) (both (at_ 1 69) (both (at_ 2 83) (both (at_ 3 75) (both (at_ 4 66)
    (both (at_ 5 71) (both (at_ 6 48) (both (at_ 8 66) (both (at_ 9 77) (at_ 10 80))))))))).

Fixpoint background (fs : list file) : res (option file) :=
  match fs with
  | [] => Ok None
  | f :: fs' => b ← background_name (Name f); if b : bool then Ok (Some f) else background fs'
  end.

Definition draw_background (desktop : Z) (d : D) : res D :=
  let '(fs, d) := GetFiles d in
  o ← background fs;
  Ok (match o with
      | None => d
      | Some f =>
          let '(filebuf, d) := malloc (Bytes (u32 (Size f * 2))) d in
          let d := ReadFile f filebuf d in
          let '(bmp, d) := malloc Bitmap d in
          let d := construct Bitmap bmp [filebuf] d in
          invoke (str_bytes "Desktop::DrawImage") [desktop; bmp; 0; 0; 1] d
      end).

(** ** The schedule *)
Record sched := mk_state { ScheduleEnabled : bool; ScheduleEntries : list entry; kdev : D }.

Definition set_enabled (s : sched) (b : bool) : sched := mk_state b (ScheduleEntries s) (kdev s).
Definition set_free (s : sched) (i : nat) : sched :=
  mk_state (ScheduleEnabled s)
    (alter (fun e => mk_sched (handlerAddress e) true (currentFrame e) (lastFrame e)) i
       (ScheduleEntries s)) (kdev s).

Definition run_handler (a : Z) (s : sched) : sched :=
  let '(b, es, d) := call_handler a (ScheduleEnabled s, ScheduleEntries s, kdev s) in mk_state b es d.

Definition interrupted (s : sched) : sched :=
  let '(b, es, d) := interrupt (ScheduleEnabled s, ScheduleEntries s, kdev s) in mk_state b es d.

(** A look at a slot of the table: the entry found there and, when its handler was
    run, the flag and the table the handler found. *)
Record look := mk_look { slot : nat; seen : entry; ran : option (bool * list entry) }.

(** The table from entry [i] on, [n] entries of it, and the looks at them. *)
Fixpoint pass (n i : nat) (s : sched) : res (list look * sched) :=
  match n with
  | O => Ok ([], s)
  | S n' =>
      let s := interrupted s in
      match ScheduleEntries s !! i with
      | None => Undef
      | Some e =>
          if handlerAddress e =? 0 then Ok ([mk_look i e None], s)
          else if free e then '(l, s) ← pass n' (S i) s; Ok (mk_look i e None :: l, s)
          else if lastFrame e <=? currentFrame e then
            let s := set_free (set_enabled s false) i in
            let x := mk_look i e (Some (ScheduleEnabled s, ScheduleEntries s)) in
            let s := run_handler (handlerAddress e) s in
            '(l, s) ← pass n' (S i) (set_enabled s true); Ok (x :: l, s)
          else '(l, s) ← pass n' (S i) s; Ok (mk_look i e None :: l, s)
      end
  end.

(** A round of [while(1)]: whether the schedule was enabled, and the looks. *)
Definition schedule_round (s : sched) : res (bool * list look * sched) :=
  let s := interrupted s in
  if ScheduleEnabled s then '(l, s) ← pass 256 0 s; Ok (true, l, s) else Ok (false, [], s).

Fixpoint schedule (rounds : nat) (s : sched) : res (list (bool * list look) * sched) :=
  match rounds with
  | O => Ok ([], s)
  | S rounds' =>
      '(b, l, s) ← schedule_round s;
      '(log, s) ← schedule rounds' s;
      Ok ((b, l) :: log, s)
  end.

(** ** [kernel_main] *)
Inductive outcome :=
  | Returned (m : mem) (d : D)
  | Scheduling (log : list (bool * list look)) (s : sched).

(** The file system on disk [k], and the keyboard. *)
Definition mount fs (k : disk) buffer keyboard interrupts drivers desktop (m : mem) (d : D) : D :=
  let d := msg "Initializing filesystem..." d in
  let d := new_FileSystem fs k buffer (m, d) in
  let d := construct KeyboardDriver keyboard [interrupts; desktop] d in
  let d := invoke (str_bytes "DriverManager::Add") [drivers; keyboard] d in
  invoke (str_bytes "KeyboardDriver::Activate") [keyboard] d.

(** From the sector buffer on: find the disk, mount it, and start the schedule on
    the table the drivers have filled by then. *)
Definition boot (ide ahci ehci : bool) (buffer fs keyboard interrupts drivers desktop : Z)
    (rounds : nat) (table : bool * list entry) (m : mem) (d : D) : res outcome :=
  os_signature ← load_le 4 m (0x7c00 + SIGNATURE_OFFSET);
  s ← search_disks ide ahci ehci buffer os_signature (mk_search 0 None None m d);
  if diskIndex s =? 0 then
    Ok (Returned (smem s) (print (str_bytes "Boot disk not found! Please reboot your PC") (sdev s)))
  else if negb ehci then Undef
  else
    let d := invoke (str_bytes "EHCIDriver::portCanChange") [1] (sdev s) in
    t ← partition2_FSType (smem s) buffer;
    if negb (t =? 0x07) then Ok (Returned (smem s) (msg "Invalid File System Detected!" d))
    else
      match chosen_disk s with
      | None => Undef
      | Some k =>
          let d := mount fs k buffer keyboard interrupts drivers desktop (smem s) d in
          d ← draw_background desktop d;
          let d := msg "OS Ready. Schedules running..." d in
          '(log, s) ← schedule rounds (mk_state table.1 table.2 d);
          Ok (Scheduling log s)
      end.

(** [kernel_main] with the number of map entries and their address from the boot
    information, the address of the video mode, and up to the given number of
    rounds of its endless loop. *)
Definition kernel_main (no_of_memory_entries memory_entries currentVideoMode : Z) (rounds : nat)
    (table : bool * list entry) (m : mem) (d : D) : res outcome :=
  let d := invoke (str_bytes "clearScreen") [] d in
  '(_, amount) ← scan_memory (Z.to_nat no_of_memory_entries) m memory_entries 0 4 0;
  if ram_mb amount <? 50 then Ok (Returned m d)
  else
    let d := invoke (str_bytes "MemoryManager") [10 * 1024 * 1024; 70 * 1024 * 1024] d in
    match alloc_all managers d with
    | (Some [interrupts; drivers; tasks; pci; keyboard; ide; ahci; usb; storages; ehci; fs; desktop], d) =>
        let d := construct Desktop desktop [currentVideoMode] d in
        let d := msg "Hello World!" d in
        match alloc_all [PCIDeviceDescriptor; PCIDeviceDescriptor; PCIDeviceDescriptor] d with
        | (Some [ahci_desc; ide_desc; ehci_desc], d) =>
            let d := construct TaskManager tasks [] d in
            let d := construct InterruptManager interrupts [] d in
            let d := invoke (str_bytes "InterruptManager::Activate") [interrupts] d in
            let d := construct DriverManager drivers [] d in
            let d := construct PCIController pci [] d in
            let d := construct USBMassStorageDevices storages [] d in
            let '(has_ide, d) := probe_ide ide ide_desc interrupts d in
            let '(has_ahci, d) := probe_ahci ahci ahci_desc pci interrupts d in
            let d := construct USBDriver usb [] d in
            let '(has_ehci, d) := probe_ehci ehci ehci_desc pci interrupts drivers d in
            let '(buffer, d) := malloc (Bytes 512) d in
            boot has_ide has_ahci has_ehci buffer fs keyboard interrupts drivers desktop rounds table m d
        | (_, d) => Ok (Returned m d)
        end
    | (_, d) => Ok (Returned m d)
    end.

End Kernel.

(** ** Specifications *)

(** The 24 bytes of an entry of the memory map, and the usable memory of a map. *)
Definition encode_entry (e : MemoryMapEntry) : list Z :=
  le_bytes 8 (baseAddress e) ++ le_bytes 8 (elength e) ++ le_bytes 4 (etype e) ++ le_bytes 4 (acpi_extended e).

Definition entry_ok (e : MemoryMapEntry) : Prop :=
  0 <= baseAddress e < 2 ^ 64 /\ 0 <= elength e < 2 ^ 64 /\
  0 <= etype e < 2 ^ 32 /\ 0 <= acpi_extended e < 2 ^ 32.

Fixpoint usable (es : list MemoryMapEntry) : Z :=
  match es with
  | [] => 0
  | e :: es' => (if etype e =? 1 then elength e else 0) + usable es'
  end.

(** What the drivers promise to the search: a read leaves in the buffer the first
    sector of the disk that is read, with its signature, and changes neither which disks there are
    nor the number of AHCI disks; looking at the EHCI ports does not change their
    number; and once the asynchronous schedule runs, the USB storages are the
    ones that are plugged in. *)
Class DriverLaws {D : Type} `{!KernelCpp D} (signature : disk -> Z) (plugged : Z -> bool) := {
  first_sector : disk -> list Z;
  read_sector k b m d : bytes_at (Read k b (m, d)).1 b (first_sector k);
  read_signature k b m d : load_le 4 (Read k b (m, d)).1 (b + SIGNATURE_OFFSET) = Ok (signature k);
  read_IsEmpty k b m d k' : IsEmpty k' (Read k b (m, d)).2 = IsEmpty k' d;
  read_numDisks k b m d : numDisks (Read k b (m, d)).2 = numDisks d;
  read_MassStorage k b m d i : MassStorage i (Read k b (m, d)).2 = MassStorage i d;
  present_numPorts i d : numPorts (DevicePresent i d).2 = numPorts d;
  check_numPorts i d : numPorts (invoke (str_bytes "EHCIDriver::CheckPort") [i] d) = numPorts d;
  async_MassStorage i d :
    MassStorage i (invoke (str_bytes "EHCIDriver::EnableAsyncSchedule") [] d) = plugged i
}.

Section Specification.
Context {D : Type} `{!KernelCpp D} (signature : disk -> Z) (plugged : Z -> bool).

(** The disks in the order of the search, with their numbers. *)
Definition ide_slots : list (Z * disk) := [(1, IdeMaster0); (2, IdeSlave0); (3, IdeMaster1); (4, IdeSlave1)].
Definition ahci_disks (j : Z) (n : nat) : list (Z * disk) := (fun i => (5 + i, Sata i)) <$> seqZ j (Z.of_nat n).
Definition usb_disks (i : Z) (n : nat) : list (Z * disk) :=
  (fun i => (0x81 + i, Usb i)) <$> filter (fun i => plugged i = true) (seqZ i (Z.of_nat n)).

Definition candidates (ide ahci ehci : bool) (d : D) : list (Z * disk) :=
  (if ide then filter (fun c => IsEmpty c.2 d = false) ide_slots else []) ++
  (if ahci then ahci_disks 0 (Z.to_nat (numDisks d)) else []) ++
  (if ehci then usb_disks 0 127 else []).

Fixpoint first_boot (os_signature : Z) (cs : list (Z * disk)) : option (Z * disk) :=
  match cs with
  | [] => None
  | c :: cs' => if signature c.2 =? os_signature then Some c else first_boot os_signature cs'
  end.

End Specification.

(** Whether the schedule runs an entry, and the entry after its run. *)
Definition due (e : entry) : bool := negb (free e) && (lastFrame e <=? currentFrame e).
Definition freed (e : entry) : entry := mk_sched (handlerAddress e) true (currentFrame e) (lastFrame e).

(** A pass over the table: what it leaves, and the handlers it runs, in order. *)
Fixpoint pass_entries (es : list entry) : list entry :=
  match es with
  | [] => []
  | e :: es' => if handlerAddress e =? 0 then es else (if due e then freed e else e) :: pass_entries es'
  end.

Fixpoint pass_calls (es : list entry) : list Z :=
  match es with
  | [] => []
  | e :: es' =>
      if handlerAddress e =? 0 then []
      else (if due e then [handlerAddress e] else []) ++ pass_calls es'
  end.

(** ** The memory map adds up *)
Lemma word_at m p n v l :
  0 <= v < 2 ^ (8 * Z.of_nat n) -> bytes_at m p (le_bytes n v ++ l) ->
  load_le n m p = Ok v /\ bytes_at m (p + Z.of_nat n) l.
Proof.
  intros Hv [H1 H2]%bytes_at_app. rewrite le_bytes_length in H2. split; [|done].
  rewrite (load_le_word _ _ _ v H1). by rewrite Z.mod_small.
Qed.

Lemma read_entry_ok m p k e :
  entry_ok e -> bytes_at m (p + 24 * k) (encode_entry e) ->
  read_entry m p (3 * k) (4 + 6 * k) = Ok e.
Proof.
  intros (Hb & Hl & Ht & Ha) H. unfold read_entry, encode_entry in *.
  destruct (word_at _ _ 8 _ _ Hb H) as [E1 H1]. destruct (word_at _ _ 8 _ _ Hl H1) as [E2 H2].
  destruct (word_at _ _ 4 _ _ Ht H2) as [E3 H3].
  rewrite <- (app_nil_r (le_bytes 4 (acpi_extended e))) in H3.
  destruct (word_at _ _ 4 _ _ Ha H3) as [E4 _].
  replace (p + 8 * (3 * k)) with (p + 24 * k) by lia. rewrite E1. cbn [mbind res_bind].
  replace (p + 8 * (3 * k + 1)) with (p + 24 * k + Z.of_nat 8) by lia. rewrite E2. cbn [mbind res_bind].
  replace (p + 4 * (4 + 6 * k)) with (p + 24 * k + Z.of_nat 8 + Z.of_nat 8) by lia.
  rewrite E3. cbn [mbind res_bind].
  replace (p + 4 * (4 + 6 * k + 1)) with (p + 24 * k + Z.of_nat 8 + Z.of_nat 8 + Z.of_nat 4) by lia.
  rewrite E4. by destruct e.
Qed.

Lemma usable_nonneg es : Forall entry_ok es -> 0 <= usable es.
Proof. induction 1 as [|e es (_ & Hl & _) _ IH]; simpl; [done|]. case_bool; lia. Qed.

Lemma scan_memory_from m p es : forall k acc,
  Forall entry_ok es -> 0 <= k -> 6 * (k + Z.of_nat (length es)) + 4 < 2 ^ 31 -> 0 <= acc < 2 ^ 64 ->
  bytes_at m (p + 24 * k) (concat (map encode_entry es)) ->
  scan_memory (length es) m p (3 * k) (4 + 6 * k) acc = Ok (es, u64 (acc + usable es)).
Proof.
  induction es as [|e es IH]; intros k acc Hes Hk Hn Hacc Hm; simpl.
  - by rewrite Z.add_0_r, wrap_small.
  - apply list.Forall_cons in Hes as [He Hes]. cbn [map concat] in Hm. simpl in Hn. apply bytes_at_app in Hm as [Hm1 Hm2].
    rewrite (read_entry_ok m p k e He Hm1). cbn [mbind res_bind].
    rewrite int32_ok by lia. cbn [mbind res_bind]. rewrite int32_ok by lia. cbn [mbind res_bind].
    replace (3 * k + 3) with (3 * (k + 1)) by lia. replace (4 + 6 * k + 6) with (4 + 6 * (k + 1)) by lia.
    assert (length (encode_entry e) = 24%nat) as Hlen by (unfold encode_entry; by rewrite !length_app, !le_bytes_length).
    rewrite Hlen in Hm2.
    rewrite IH; [| done | lia | lia | case_bool; [apply wrap_range; lia|lia] |].
    + cbn [mbind res_bind]. do 2 f_equal. case_bool; [rewrite wrap_add_l|]; f_equal; lia.
    + by replace (p + 24 * (k + 1)) with (p + 24 * k + Z.of_nat 24) by lia.
Qed.

(** ** The search finds the first disk with the signature *)
Section Search.
Context {D : Type} `{!KernelCpp D} (signature : disk -> Z) (plugged : Z -> bool).
Context `{!DriverLaws signature plugged}.
Implicit Types s : search (D := D).

(** The state of the search tells the disk that was found, and the buffer holds its
    first sector. *)
Definition found (b : Z) (s : search (D := D)) (o : option (Z * disk)) : Prop :=
  match o with
  | None => diskIndex s = 0
  | Some (i, k) => 0 < i /\ diskIndex s = i /\ chosen_disk s = Some k /\ bytes_at (smem s) b (first_sector k)
  end.

Local Abbreviation first_boot := (first_boot signature).

Lemma first_boot_app os l1 l2 : first_boot os (l1 ++ l2) = first_boot os l1 ∪ first_boot os l2.
Proof.
  induction l1 as [|c l1 IH]; simpl; [by destruct (first_boot os l2)|].
  destruct (signature c.2 =? os); [by destruct (first_boot os l2)|done].
Qed.

Lemma option_union_assoc {X} (a b c : option X) : a ∪ (b ∪ c) = (a ∪ b) ∪ c.
Proof. by destruct a, b, c. Qed.

(** The controllers still answer as in state [d0]. *)
Definition same_disks (d0 d : D) : Prop :=
  (forall k, IsEmpty k d = IsEmpty k d0) /\ numDisks d = numDisks d0.

Lemma same_disks_read d0 d k b m : same_disks d0 d -> same_disks d0 (Read k b (m, d)).2.
Proof. intros [H1 H2]. split; [intros k'; by rewrite read_IsEmpty, H1|by rewrite read_numDisks]. Qed.

Lemma try_disk_ok k i b os s :
  exists s', try_disk k i b os s = Ok s' /\
    diskIndex s' = (if signature k =? os then i else diskIndex s) /\
    ide_disk s' = ide_disk s /\ ahci_disk s' = ahci_disk s /\ sdev s' = (Read k b (smem s, sdev s)).2 /\
    bytes_at (smem s') b (first_sector k).
Proof.
  unfold try_disk. pose proof (read_signature k b (smem s) (sdev s)) as Hsig.
  pose proof (read_sector k b (smem s) (sdev s)) as Hsec.
  destruct (Read k b (smem s, sdev s)) as [m d]. simpl in *. rewrite Hsig. simpl.
  eexists. split; [reflexivity|]. by destruct (signature k =? os).
Qed.

Lemma try_ide_ok k i b os d0 s o :
  1 <= i <= 4 -> same_disks d0 (sdev s) -> found b s o ->
  exists s', try_ide k i b os s = Ok s' /\ same_disks d0 (sdev s') /\
    found b s' (o ∪ first_boot os (filter (fun c => IsEmpty c.2 d0 = false) [(i, k)])).
Proof.
  intros Hi Hd Hs. unfold try_ide. destruct o as [[i' k']|]; simpl in Hs.
  - destruct Hs as (H0 & Hi' & Hc). rewrite Hi'. zbool. simpl. exists s.
    split_and!; [done..|]. by destruct (first_boot _ _).
  - rewrite Hs, filter_cons, filter_nil. simpl. rewrite (proj1 Hd k).
    destruct (IsEmpty k d0); simpl; [by exists s|].
    destruct (try_disk_ok k i b os s) as (s1 & -> & Ei & _ & _ & Ed & Eb). simpl.
    eexists. split; [reflexivity|]. simpl. rewrite Ed. split; [by apply same_disks_read|].
    destruct (signature k =? os); simpl; [|by rewrite Ei].
    unfold chosen_disk. simpl. rewrite Ei. zbool. split_and!; [lia|done..].
Qed.

Lemma search_ide_ok b os d0 s :
  same_disks d0 (sdev s) -> found b s None ->
  exists s', search_ide b os s = Ok s' /\ same_disks d0 (sdev s') /\
    found b s' (first_boot os (filter (fun c => IsEmpty c.2 d0 = false) ide_slots)).
Proof.
  intros H0 F0. unfold search_ide.
  destruct (try_ide_ok IdeMaster0 1 b os d0 s None) as (s1 & -> & H1 & F1); [lia|done..|].
  cbn [mbind res_bind]. edestruct (try_ide_ok IdeSlave0 2 b os d0 s1) as (s2 & -> & H2 & F2); [lia|done..|].
  cbn [mbind res_bind]. edestruct (try_ide_ok IdeMaster1 3 b os d0 s2) as (s3 & -> & H3 & F3); [lia|done..|].
  cbn [mbind res_bind]. edestruct (try_ide_ok IdeSlave1 4 b os d0 s3) as (s4 & -> & H4 & F4); [lia|done..|].
  exists s4. split; [done|]. split; [done|].
  rewrite (left_id_L None (∪)) in F4.
  replace (filter (fun c => IsEmpty c.2 d0 = false) ide_slots) with
    (filter (fun c => IsEmpty c.2 d0 = false) [(1, IdeMaster0)] ++
     filter (fun c => IsEmpty c.2 d0 = false) [(2, IdeSlave0)] ++
     filter (fun c => IsEmpty c.2 d0 = false) [(3, IdeMaster1)] ++
     filter (fun c => IsEmpty c.2 d0 = false) [(4, IdeSlave1)]).
  - by rewrite !first_boot_app, !option_union_assoc.
  - by rewrite <- !filter_app.
Qed.

Lemma ahci_disks_cons j n : ahci_disks j (S n) = (5 + j, Sata j) :: ahci_disks (j + 1) n.
Proof. unfold ahci_disks. rewrite seqZ_cons by lia. rewrite fmap_cons. do 3 f_equal; lia. Qed.

Lemma search_ahci_ok b os d0 n : forall j s,
  numDisks d0 <= 124 -> Z.of_nat n = Z.max 0 (numDisks d0 - j) -> 0 <= j ->
  same_disks d0 (sdev s) -> found b s None ->
  exists s', search_ahci (S n) j b os s = Ok s' /\ same_disks d0 (sdev s') /\
    found b s' (first_boot os (ahci_disks j n)).
Proof.
  induction n as [|n IH]; intros j s Hmax Hn Hj Hd Hs; cbn [search_ahci]; rewrite (proj2 Hd); zbool.
  - by exists s.
  - destruct (try_disk_ok (Sata j) (5 + j) b os (set_ahci s (Sata j))) as (s1 & -> & Ei & _ & Ea & Ed & Eb).
    cbn [mbind res_bind]. rewrite ahci_disks_cons. simpl in *. rewrite Ei.
    assert (same_disks d0 (sdev s1)) by (rewrite Ed; by apply same_disks_read).
    destruct (signature (Sata j) =? os); simpl.
    + zbool. exists s1. unfold chosen_disk. rewrite Ei. zbool. split_and!; [done|done|lia|done..].
    + rewrite Hs. simpl. apply IH; [done|lia|lia|done|]. simpl. congruence.
Qed.

Lemma usb_disks_cons i n :
  usb_disks plugged i (S n) =
  (if plugged i then [(0x81 + i, Usb i)] else []) ++ usb_disks plugged (i + 1) n.
Proof.
  unfold usb_disks. rewrite seqZ_cons by lia. rewrite filter_cons.
  replace (Z.pred (Z.of_nat (S n))) with (Z.of_nat n) by lia. rewrite <- Z.add_1_r.
  by destruct (plugged i).
Qed.

Lemma search_usb_ok b os n : forall i s,
  0 <= i -> (forall j, MassStorage j (sdev s) = plugged j) -> found b s None ->
  exists s', search_usb n i b os s = Ok s' /\ found b s' (first_boot os (usb_disks plugged i n)).
Proof.
  induction n as [|n IH]; intros i s Hi Hu Hs; cbn [search_usb]; [by exists s|].
  rewrite usb_disks_cons, Hu. destruct (plugged i); simpl; [|apply IH; [lia|done|done]].
  destruct (try_disk_ok (Usb i) (0x81 + i) b os s) as (s1 & -> & Ei & _ & _ & Ed & Eb).
  cbn [mbind res_bind]. rewrite Ei. simpl in Hs. destruct (signature (Usb i) =? os).
  - zbool. exists s1. split; [done|]. simpl. unfold chosen_disk. rewrite Ei. zbool.
    split_and!; [lia|done| |done]. do 2 f_equal. lia.
  - rewrite Hs. apply IH; [lia| |simpl; congruence].
    intros j. rewrite Ed, read_MassStorage. apply Hu.
Qed.

Lemma check_ports_ok n : forall i (d : D),
  Z.of_nat n = Z.max 0 (numPorts d - i) -> exists d', check_ports (S n) i d = Ok d'.
Proof.
  induction n as [|n IH]; intros i d Hn; cbn [check_ports]; zbool; [by eexists|].
  pose proof (present_numPorts i d) as Hp. destruct (DevicePresent i d) as [b d1]. simpl in Hp.
  apply IH. destruct b; rewrite ?check_numPorts; lia.
Qed.

Lemma found_zero b s o : found b s o -> diskIndex s = 0 <-> o = None.
Proof. destruct o as [[i k]|]; simpl; [intros (? & ? & _); split; [lia|done]|done]. Qed.

(** Each stage of the search only runs when no disk was found. *)
Lemma search_ahci_stage (ahci : bool) b os d0 s o :
  numDisks d0 <= 124 -> same_disks d0 (sdev s) -> found b s o ->
  exists s', (if ahci && (diskIndex s =? 0)
              then search_ahci (S (Z.to_nat (numDisks (sdev s)))) 0 b os s else Ok s) = Ok s' /\
    found b s' (o ∪ first_boot os (if ahci then ahci_disks 0 (Z.to_nat (numDisks d0)) else [])).
Proof.
  intros Hmax Hd Hs. pose proof (found_zero _ _ _ Hs) as H0. destruct ahci; cbn [andb].
  - rewrite (proj2 Hd). destruct o as [c|].
    + assert (diskIndex s <> 0) by (intros E; by apply H0 in E). zbool.
      exists s. split; [done|]. by destruct (first_boot _ _).
    + rewrite (proj2 H0 eq_refl). zbool. rewrite (left_id_L None (∪)).
      destruct (search_ahci_ok b os d0 (Z.to_nat (numDisks d0)) 0 s) as (s' & E & _ & F);
        [done|lia|reflexivity|done|exact Hs|by exists s'].
  - exists s. split; [done|]. by destruct o.
Qed.

Lemma search_usb_stage (ehci : bool) n b os s o :
  found b s o ->
  exists s', (if (diskIndex s =? 0) && ehci then
                let d := msg "Checking for USB Boot.. Please wait..." (sdev s) in
                let d := invoke (str_bytes "Sleep") [40] d in
                d ← check_ports (S (Z.to_nat (numPorts d))) 0 d;
                let d := invoke (str_bytes "EHCIDriver::EnableAsyncSchedule") [] d in
                s ← search_usb n 0 b os (set_sdev s d);
                Ok (set_sdev s (invoke (str_bytes "EHCIDriver::DisableAsyncSchedule") [] (sdev s)))
              else Ok s) = Ok s' /\
    found b s' (o ∪ first_boot os (if ehci then usb_disks plugged 0 n else [])).
Proof.
  intros Hs. pose proof (found_zero _ _ _ Hs) as H0. destruct o as [c|].
  - assert (diskIndex s <> 0) by (intros E; by apply H0 in E). zbool.
    exists s. split; [done|]. by destruct (first_boot _ _).
  - rewrite (proj2 H0 eq_refl), (left_id_L None (∪)). zbool. destruct ehci; [|by exists s].
    cbv beta zeta iota delta [andb].
    match goal with |- context [check_ports _ 0 ?d1] => set (d := d1) end.
    destruct (check_ports_ok (Z.to_nat (numPorts d)) 0 d) as (d' & ->); [lia|]. cbn [mbind res_bind].
    edestruct (search_usb_ok b os n 0) as (s' & -> & F);
      [reflexivity|intros j; apply async_MassStorage|exact Hs|].
    cbn [mbind res_bind]. by eexists.
Qed.
Lemma search_disks_ok (ide ahci ehci : bool) buffer os m (d : D) :
  numDisks d <= 124 ->
  exists s, search_disks ide ahci ehci buffer os (mk_search 0 None None m d) = Ok s /\
    found buffer s (first_boot os (candidates plugged ide ahci ehci d)).
Proof.
  intros Hmax. unfold search_disks, candidates. rewrite !first_boot_app.
  assert (exists s1, (if ide then search_ide buffer os (mk_search 0 None None m d)
                      else Ok (mk_search 0 None None m d)) = Ok s1 /\ same_disks d (sdev s1) /\
    found buffer s1 (first_boot os (if ide then filter (fun c => IsEmpty c.2 d = false) ide_slots else [])))
    as (s1 & -> & Hd & F1).
  { destruct ide; [by apply search_ide_ok|by eexists]. }
  cbn [mbind res_bind].
  destruct (search_ahci_stage ahci buffer os d s1 _ Hmax Hd F1) as (s2 & -> & F2).
  cbn [mbind res_bind].
  edestruct (search_usb_stage ehci 127 buffer os
    (set_sdev s2 (invoke (str_bytes "DriverManager::ActivateAll") [] (sdev s2)))) as (s3 & E & F3); [exact F2|].
  exists s3. by rewrite option_union_assoc.
Qed.

End Search.

(** ** Theorems *)

(** C18. The scan of the memory map reads exactly the entries the boot loader wrote and
    adds up the lengths of the usable ones; with less than 50 MB of them
    [kernel_main] only clears the screen and returns. *)
Theorem memory_map_adds_up {D : Type} `{!KernelCpp D} m p es mode rounds table (d : D) :
  Forall entry_ok es -> 6 * Z.of_nat (length es) + 4 < 2 ^ 31 ->
  bytes_at m p (concat (map encode_entry es)) ->
  scan_memory (length es) m p 0 4 0 = Ok (es, u64 (usable es)) /\
  (usable es < 50 * 1024 * 1024 ->
   kernel_main (Z.of_nat (length es)) p mode rounds table m d =
   Ok (Returned m (invoke (str_bytes "clearScreen") [] d))).
Proof.
  intros Hes Hn Hm.
  assert (scan_memory (length es) m p 0 4 0 = Ok (es, u64 (usable es))) as E.
  { apply (scan_memory_from m p es 0 0); [done|done|lia|lia|by rewrite Z.mul_0_r, Z.add_0_r]. }
  split; [done|]. intros Hlt. pose proof (usable_nonneg _ Hes). unfold kernel_main. rewrite Nat2Z.id, E.
  cbn [mbind res_bind]. unfold ram_mb. rewrite (wrap_small 64) by lia.
  rewrite wrap_small by (Z.div_mod_to_equations; lia).
  rewrite (proj2 (Z.ltb_lt _ 50)); [done|]. Z.div_mod_to_equations; lia.
Qed.

(** C5. The search implements its specification: it terminates and its result denotes
    the first disk, of the IDE positions, the AHCI disks and the USB storages in
    this order, whose first sector carries the signature, or no disk when there is
    none; a controller that is absent is skipped. *)
Theorem search_disks_refines {D : Type} `{!KernelCpp D} signature plugged
    `{!DriverLaws signature plugged} (ide ahci ehci : bool) buffer os m (d : D) :
  numDisks d <= 124 ->
  exists s, search_disks ide ahci ehci buffer os (mk_search 0 None None m d) = Ok s /\
    found signature plugged buffer s (first_boot signature os (candidates plugged ide ahci ehci d)).
Proof. intros Hmax. by apply (search_disks_ok signature plugged). Qed.

(** Booting from any disk on a machine without an EHCI controller has no defined
    behaviour: the pointer to its driver is null when the boot disk was found. *)
Theorem boot_needs_ehci {D : Type} `{!KernelCpp D} signature plugged
    `{!DriverLaws signature plugged} ide ahci buffer fs keyboard interrupts drivers desktop
    rounds table os m (d : D) c :
  0 <= os < 2 ^ 32 -> bytes_at m (0x7c00 + SIGNATURE_OFFSET) (le_bytes 4 os) -> numDisks d <= 124 ->
  first_boot signature os (candidates plugged ide ahci false d) = Some c ->
  boot ide ahci false buffer fs keyboard interrupts drivers desktop rounds table m d = Undef.
Proof.
  intros Hos Hm Hmax Hc. unfold boot. rewrite (load_le_word _ _ 4 os Hm).
  rewrite Z.mod_small by done. cbn [mbind res_bind].
  destruct (search_disks_ok signature plugged ide ahci false buffer os m d Hmax) as (s & -> & F).
  rewrite Hc in F. destruct c as [i k]. destruct F as (Hi & Es & _). cbn [mbind res_bind].
  rewrite Es. by zbool.
Qed.

(** ** The schedule table *)



Section Schedule.
Context {D : Type} `{!KernelCpp D}.

(** The table is an array: whatever is stored to it, it keeps its size. *)
Class TableSize := {
  handler_size a t : length (call_handler (D := D) a t).1.2 = length t.1.2;
  interrupt_size t : length (interrupt (D := D) t).1.2 = length t.1.2
}.
Context `{!TableSize}.
Implicit Types s : sched (D := D).




End Schedule.
Arguments TableSize D {_}.

(** *** A table nobody else touches *)
Section Calm.
Context {D : Type} `{!KernelCpp D} (effect : Z -> D -> D).

Hypothesis handlers_leave_table : forall a b es d,
  (call_handler a (b, es, d)).1.2 = es /\ (call_handler a (b, es, d)).2 = effect a d.
Hypothesis no_interrupts : forall t, interrupt (D := D) t = t.

Lemma run_handler_ok a b es (d : D) :
  exists b', run_handler a (mk_state b es d) = mk_state b' es (effect a d).
Proof.
  unfold run_handler. simpl. destruct (handlers_leave_table a b es d) as [H1 H2].
  destruct (call_handler a (b, es, d)) as [[b' es'] d']. simpl in *. subst. by exists b'.
Qed.

Lemma not_interrupted (s : sched (D := D)) : interrupted s = s.
Proof. unfold interrupted. rewrite no_interrupts. by destruct s. Qed.

Lemma alter_middle {X} (f : X -> X) l x r : alter f (length l) (l ++ x :: r) = l ++ f x :: r.
Proof. by rewrite alter_app_r_alt, Nat.sub_diag by lia. Qed.

Lemma pass_from es : forall done_es (d : D), exists looks,
  pass (length es) (length done_es) (mk_state true (done_es ++ es) d) =
  Ok (looks, mk_state true (done_es ++ pass_entries es) (fold_left (fun d a => effect a d) (pass_calls es) d)).
Proof.
  induction es as [|e es IH]; intros l d; [by eexists|]. cbn [length pass pass_entries pass_calls].
  rewrite not_interrupted. cbn [ScheduleEntries]. rewrite list_lookup_middle by done.
  destruct (handlerAddress e =? 0); [by eexists|].
  assert (forall e' d, exists looks, pass (length es) (S (length l)) (mk_state true (l ++ e' :: es) d) =
    Ok (looks, mk_state true (l ++ e' :: pass_entries es) (fold_left (fun d a => effect a d) (pass_calls es) d))) as IH'.
  { intros e' d'. destruct (IH (l ++ [e']) d') as [looks Hp]. exists looks. rewrite length_app in Hp. simpl in Hp.
    rewrite Nat.add_1_r in Hp. by rewrite <- !app_assoc in Hp. }
  unfold due. destruct (free e); simpl; [destruct (IH' e d) as [? ->]; by eexists|].
  destruct (lastFrame e <=? currentFrame e); simpl; [|destruct (IH' e d) as [? ->]; by eexists].
  unfold set_free. simpl. rewrite alter_middle.
  edestruct run_handler_ok as [b' Er]. cbn in Er |- *. rewrite Er. unfold set_enabled. cbn [ScheduleEntries kdev].
  destruct (IH' (freed e) (effect (handlerAddress e) d)) as [? E2]. unfold freed in E2 at 1. rewrite E2. by eexists.
Qed.

Lemma pass_entries_length es : length (pass_entries es) = length es.
Proof. induction es as [|e es IH]; simpl; [done|]. case_bool; simpl; [done|by rewrite IH]. Qed.

Lemma pass_again es : pass_entries (pass_entries es) = pass_entries es /\ pass_calls (pass_entries es) = [].
Proof.
  induction es as [|e es [IH1 IH2]]; simpl; [done|]. destruct (handlerAddress e =? 0) eqn:E; simpl.
  - by rewrite E.
  - assert ((handlerAddress (if due e then freed e else e) =? 0) = false) as -> by (by destruct (due e)).
    assert (due (if due e then freed e else e) = false) as -> by (by destruct (due e) eqn:Ed).
    by rewrite IH1, IH2.
Qed.

(** On a table that neither handlers nor interrupts touch, one round of the schedule runs
    the handlers of exactly the entries that are due, in the order of the table up to
    its first unused entry, marks each of them free and leaves the schedule enabled;
    the next round runs none of them again. *)
Theorem schedule_runs_due_once es (d : D) :
  length es = 256%nat ->
  let d' := fold_left (fun d a => effect a d) (pass_calls es) d in
  exists l1 l2,
  schedule_round (mk_state true es d) = Ok (true, l1, mk_state true (pass_entries es) d') /\
  schedule_round (mk_state true (pass_entries es) d') = Ok (true, l2, mk_state true (pass_entries es) d').
Proof.
  intros Hn d'. unfold schedule_round. rewrite !not_interrupted. cbn [ScheduleEnabled]. rewrite <- Hn.
  destruct (pass_from es [] d) as [l1 E1]. destruct (pass_from (pass_entries es) [] d') as [l2 E2].
  rewrite pass_entries_length in E2. cbn [length app] in E1, E2. exists l1, l2. rewrite E1, E2.
  by rewrite (proj1 (pass_again es)), (proj2 (pass_again es)).
Qed.
End Calm.

(** ** From the search to the schedule *)
Section Outcome.
Context {D : Type} `{!KernelCpp D} (signature : disk -> Z) (plugged : Z -> bool) (fstype : disk -> Z).
Context `{!DriverLaws signature plugged, !TableSize D}.

(** The partition table is in the first sector, and names of the root directory
    have the eleven characters of the 8.3 form. *)
Class BootLaws := {
  sector_FSType k m b : bytes_at m b (first_sector k) -> partition2_FSType m b = Ok (fstype k);
  file_names d : Forall (fun f => length (Name f) = 11%nat) (GetFiles d).1
}.
Context `{!BootLaws}.





End Outcome.

(** ** A machine the theorems apply to

    Two IDE disks, one AHCI disk and the USB storage 3, each with a signature of
    its own; the rest of the machine is the log of the messages and handlers. *)
Definition demo_signature (k : disk) : Z :=
  match k with IdeMaster0 => 11 | IdeSlave1 => 14 | Sata j => 20 + j | Usb i => 40 + i | _ => 0 end.

Definition demo_empty (k : disk) : bool :=
  match k with IdeSlave0 | IdeMaster1 => true | _ => false end.

Definition demo_plugged (i : Z) : bool := i =? 3.

Definition demo_sector (k : disk) : list Z := replicate 442 0 ++ le_bytes 4 (demo_signature k).

#[export] Instance demo_kernel : KernelCpp (list (list Z)) := {
  print s d := s :: d;
  malloc _ d := (0x100000, d);
  mm_free _ d := d;
  construct _ _ _ d := d;
  invoke _ _ d := d;
  GetDescriptor c s _ d := (mk_desc c s 0x20, d);
  IsEmpty k _ := demo_empty k;
  Read k b md := (write_list md.1 b (demo_sector k), md.2);
  numDisks _ := 1;
  numPorts _ := 2;
  DevicePresent i d := (i =? 0, d);
  MassStorage i _ := demo_plugged i;
  partition2_FSType _ _ := Ok 7;
  new_FileSystem _ _ _ md := md.2;
  GetFiles d := ([mk_file (str_bytes "DESKBG01BMP") 1000], d);
  ReadFile _ _ d := d;
  call_handler a t := (true, t.1.2, [a] :: t.2);
  interrupt t := t
}.

#[export] Instance demo_size : TableSize (list (list Z)).
Proof. by split. Qed.

Definition small_signature (k : disk) : Z := demo_signature k mod 2 ^ 32.

#[export] Instance demo_laws : DriverLaws small_signature demo_plugged.
Proof.
  refine {| first_sector := demo_sector |}; try done.
  - intros k b m d. apply write_list_bytes_at.
  - intros k b m d. apply (load_le_word _ _ 4 (demo_signature k)).
    pose proof (write_list_bytes_at m b (demo_sector k)) as H. by apply bytes_at_app in H as [_ H].
Defined.

Definition demo_map : list MemoryMapEntry :=
  [mk_entry 0 0x9FC00 1 0; mk_entry 0x100000 0x1000000 1 0; mk_entry 0xFFFC0000 0x40000 2 0].

Lemma memory_map_adds_up_witness :
  scan_memory 3 (mem_of 0x500 (concat (map encode_entry demo_map))) 0x500 0 4 0 =
    Ok (demo_map, 0x9FC00 + 0x1000000) /\
  kernel_main 3 0x500 0 0 (false, []) (mem_of 0x500 (concat (map encode_entry demo_map))) [] =
    Ok (Returned (mem_of 0x500 (concat (map encode_entry demo_map))) []).
Proof.
  destruct (memory_map_adds_up (mem_of 0x500 (concat (map encode_entry demo_map))) 0x500 demo_map
    0 0 (false, []) []) as [H1 H2].
  - unfold demo_map. repeat (constructor; [unfold entry_ok; cbn; lia|]). constructor.
  - cbn. lia.
  - apply write_list_bytes_at.
  - split; [exact H1|]. apply H2. vm_compute. reflexivity.
Defined.

(** The AHCI disk carries the signature 20. *)
Lemma search_disks_refines_witness :
  exists s, search_disks true true true 0x200 20 (mk_search 0 None None ∅ []) = Ok s /\
    diskIndex s = 5 /\ chosen_disk s = Some (Sata 0).
Proof.
  destruct (search_disks_refines small_signature demo_plugged true true true 0x200 20 ∅ []) as (s & H & F).
  - cbn. lia.
  - exists s. split; [exact H|]. destruct F as (_ & F1 & F2 & _). exact (conj F1 F2).
Defined.

(** The first IDE disk carries the signature 11, and there is no EHCI controller. *)
Lemma boot_needs_ehci_witness :
  boot true true false 0x200 1 2 3 4 5 0 (false, []) (mem_of 0x7DBA (le_bytes 4 11)) [] = Undef.
Proof.
  apply (boot_needs_ehci small_signature demo_plugged) with (os := 11) (c := (1, IdeMaster0)).
  - lia.
  - apply write_list_bytes_at.
  - cbn. lia.
  - reflexivity.
Defined.

Definition demo_table : list entry :=
  [mk_sched 0x2000 false 7 5; mk_sched 0x3000 false 1 5; mk_sched 0x4000 true 9 5; mk_sched 0x5000 false 5 5]
  ++ replicate 252 (mk_sched 0 false 0 0).

Lemma schedule_runs_due_once_witness :
  exists l, schedule_round (mk_state true demo_table []) =
    Ok (true, l, mk_state true (pass_entries demo_table) [[0x5000]; [0x2000]]).
Proof.
  destruct (schedule_runs_due_once (fun a d => [a] :: d) ltac:(done) ltac:(done) demo_table [] eq_refl)
    as (l & _ & E & _).
  exists l. exact E.
Defined.

#[export] Instance demo_boot : BootLaws small_signature demo_plugged (fun _ => 7).
Proof. split; [done|]. intros d. by repeat constructor. Qed.

