(* ===== verification/Layout.v ===== *)
(** Structures of C in memory, as the i386 ABI lays them out.

    A [ctype] is a declaration of a header.  Words of up to four bytes are aligned
    to their size and longer ones to four; a packed structure has no padding.
    [leaves] lists the scalars of a type with their offsets, and [load_fields] and
    [store_fields] read and write all of them, little-endian. *)

From S2P Require Import Prelude Mem.

Inductive ctype :=
  | Word (n : nat)
  | Array (n : nat) (t : ctype)
  | Struct (packed : bool) (fs : list (String.string * ctype))
  | Union (fs : list (String.string * ctype)).

(** The least multiple of [a] that is not below [o]. *)
Definition pad (a o : Z) : Z := (o + a - 1) / a * a.

Fixpoint align (t : ctype) : Z :=
  let max_align := fix go fs := match fs with [] => 1 | f :: fs' => Z.max (align f.2) (go fs') end in
  match t with
  | Word n => Z.min (Z.of_nat n) 4
  | Array _ t => align t
  | Struct packed fs => if packed then 1 else max_align fs
  | Union fs => max_align fs
  end.

(** Where a field of type [t] begins when the ones before it end at [o]. *)
Definition start (packed : bool) (t : ctype) (o : Z) : Z := if packed then o else pad (align t) o.

Fixpoint sizeof (t : ctype) : Z :=
  match t with
  | Word n => Z.of_nat n
  | Array n t => Z.of_nat n * sizeof t
  | Struct packed fs =>
      let fix fields_end o fs :=
        match fs with [] => o | f :: fs' => fields_end (start packed f.2 o + sizeof f.2) fs' end in
      pad (align t) (fields_end 0 fs)
  | Union fs =>
      let fix widest fs := match fs with [] => 0 | f :: fs' => Z.max (sizeof f.2) (widest fs') end in
      pad (align t) (widest fs)
  end.

(** The scalars of a type at offset [o]: the names that lead to each, its offset and
    its number of bytes. *)
Record leaf := mk_leaf { path : list String.string; offset : Z; width : nat }.

Definition under (name : String.string) (l : leaf) : leaf := mk_leaf (name :: path l) (offset l) (width l).

Fixpoint leaves (o : Z) (t : ctype) : list leaf :=
  match t with
  | Word n => [mk_leaf [] o n]
  | Array n t =>
      concat (map (fun i => leaves (o + Z.of_nat i * sizeof t) t) (seq 0 n))
  | Struct packed fs =>
      let fix go e fs :=
        match fs with
        | [] => []
        | f :: fs' =>
            let b := start packed f.2 e in
            map (under f.1) (leaves (o + b) f.2) ++ go (b + sizeof f.2) fs'
        end in
      go 0 fs
  | Union fs =>
      let fix go fs :=
        match fs with [] => [] | f :: fs' => map (under f.1) (leaves o f.2) ++ go fs' end in
      go fs
  end.

Fixpoint load_leaves (m : mem) (p : Z) (ls : list leaf) : res (list Z) :=
  match ls with
  | [] => Ok []
  | l :: ls' =>
      v ← load_le (width l) m (p + offset l);
      vs ← load_leaves m p ls';
      Ok (v :: vs)
  end.

Fixpoint store_leaves (m : mem) (p : Z) (ls : list leaf) (vs : list Z) : res mem :=
  match ls, vs with
  | l :: ls', v :: vs' => m ← store_le (width l) m (p + offset l) v; store_leaves m p ls' vs'
  | _, _ => Ok m
  end.

Definition load_fields (m : mem) (p : Z) (t : ctype) : res (list Z) := load_leaves m p (leaves 0 t).
Definition store_fields (m : mem) (p : Z) (t : ctype) (vs : list Z) : res mem :=
  store_leaves m p (leaves 0 t) vs.

(** A list of leaves that do not overlap, within the bytes from [lo] to [hi]. *)
Fixpoint laid_out (lo hi : Z) (ls : list leaf) : Prop :=
  match ls with
  | [] => lo <= hi
  | l :: ls' => lo <= offset l /\ laid_out (offset l + Z.of_nat (width l)) hi ls'
  end.

Lemma laid_out_le lo hi ls : laid_out lo hi ls -> lo <= hi.
Proof.
  revert lo. induction ls as [|l ls IH]; intros lo H; simpl in *; [done|].
  destruct H as [H1 H2%IH]. lia.
Qed.

(** ** Reading back what was stored *)

(** What a field of [n] bytes keeps of a value. *)
Definition field_value (l : leaf) (v : Z) : Z := v mod 2 ^ (8 * Z.of_nat (width l)).

Lemma load_leaves_ext m m' p lo hi ls :
  laid_out lo hi ls -> (forall a, p + lo <= a < p + hi -> m' !! a = m !! a) ->
  load_leaves m' p ls = load_leaves m p ls.
Proof.
  revert lo. induction ls as [|l ls IH]; intros lo Hl H; simpl; [done|]. destruct Hl as [H1 H2].
  pose proof (laid_out_le _ _ _ H2).
  rewrite (load_le_ext (width l) m m') by (intros a Ha; apply H; lia).
  rewrite (IH _ H2) by (intros a Ha; apply H; lia). done.
Qed.

Lemma store_leaves_ok p hi ls : forall lo vs m,
  laid_out lo hi ls -> length vs = length ls -> mapped m (p + lo) (hi - lo) ->
  exists m', store_leaves m p ls vs = Ok m' /\
    load_leaves m' p ls = Ok (zip_with field_value ls vs) /\
    forall a, ~ (p + lo <= a < p + hi) -> m' !! a = m !! a.
Proof.
  induction ls as [|l ls IH]; intros lo [|v vs] m Hl Hn Hm; try done; simpl; [by exists m|].
  destruct Hl as [H1 H2]. pose proof (laid_out_le _ _ _ H2) as Hle.
  destruct (store_le_wrote (width l) m (p + offset l) v) as (m1 & -> & Hw).
  { eapply mapped_sub; [exact Hm|lia..]. }
  cbn [mbind res_bind].
  destruct (IH (offset l + Z.of_nat (width l)) vs m1 H2) as (m2 & -> & E & Hout); [by injection Hn| |].
  { eapply wrote_mapped; [exact Hw|]. eapply mapped_sub; [exact Hm|lia..]. }
  exists m2. split; [done|]. pose proof (le_bytes_length (width l) v) as Hlen. split.
  - rewrite (load_le_ext (width l) m1 m2) by (intros a Ha; apply Hout; lia).
    rewrite (load_le_word _ _ _ v) by apply Hw. cbn [mbind res_bind]. by rewrite E.
  - intros a Ha. rewrite Hout by lia. destruct Hw as [_ Hw]. apply Hw. lia.
Qed.

(** ** The layout never overlaps *)
Section Induction.
Variable P : ctype -> Prop.
Hypothesis Hword : forall n, P (Word n).
Hypothesis Harray : forall n t, P t -> P (Array n t).
Hypothesis Hstruct : forall packed fs, Forall (fun f => P f.2) fs -> P (Struct packed fs).
Hypothesis Hunion : forall fs, Forall (fun f => P f.2) fs -> P (Union fs).

Fixpoint ctype_nested (t : ctype) : P t :=
  let nested := fix go fs : Forall (fun f : String.string * ctype => P f.2) fs :=
    match fs with
    | [] => @List.Forall_nil _ _
    | f :: fs' => @List.Forall_cons _ _ f fs' (ctype_nested f.2) (go fs')
    end in
  match t with
  | Word n => Hword n
  | Array n t => Harray n t (ctype_nested t)
  | Struct packed fs => Hstruct packed fs (nested fs)
  | Union fs => Hunion fs (nested fs)
  end.
End Induction.

Fixpoint union_free (t : ctype) : bool :=
  match t with
  | Word n => (0 <? n)%nat
  | Array _ t => union_free t
  | Struct _ fs => forallb (fun f => union_free f.2) fs
  | Union _ => false
  end.

Lemma laid_out_app lo mid hi l1 l2 : laid_out lo mid l1 -> laid_out mid hi l2 -> laid_out lo hi (l1 ++ l2).
Proof.
  revert lo. induction l1 as [|l l1 IH]; intros lo H1 H2; simpl in *.
  - destruct l2 as [|l2 ls]; simpl in *; [lia|]. destruct H2. split; [lia|done].
  - destruct H1. split; [done|]. by apply IH.
Qed.

Lemma laid_out_wider lo lo' hi hi' ls : lo' <= lo -> hi <= hi' -> laid_out lo hi ls -> laid_out lo' hi' ls.
Proof.
  revert lo lo'. induction ls as [|l ls IH]; intros lo lo' H1 H2 H; simpl in *; [lia|].
  destruct H as [Ha Hb]. split; [lia|]. by eapply (IH (offset l + Z.of_nat (width l))).
Qed.

Lemma laid_out_under name lo hi ls : laid_out lo hi (map (under name) ls) <-> laid_out lo hi ls.
Proof. revert lo. induction ls as [|l ls IH]; intros lo; simpl; [done|]. by rewrite IH. Qed.

Lemma pad_le a o : 0 < a -> o <= pad a o.
Proof. intros Ha. unfold pad. pose proof (Z.mod_pos_bound (o + a - 1) a Ha). pose proof (Z.div_mod (o + a - 1) a). lia. Qed.

Lemma align_pos t : union_free t = true -> 0 < align t.
Proof.
  induction t as [n|n t IH|packed fs IH|fs IH] using ctype_nested; simpl; intros H; [|auto| |done].
  - apply Nat.ltb_lt in H. lia.
  - destruct packed; [lia|]. clear H. induction IH as [|f fs _ _ IHf]; [lia|]. lia.
Qed.

Lemma start_le packed t o : union_free t = true -> o <= start packed t o.
Proof. intros H. unfold start. destruct packed; [lia|]. by apply pad_le, align_pos. Qed.

Lemma struct_laid_out packed fs : forall o e,
  Forall (fun f : String.string * ctype => forall o, union_free f.2 = true ->
    0 <= sizeof f.2 /\ laid_out o (o + sizeof f.2) (leaves o f.2)) fs ->
  forallb (fun f => union_free f.2) fs = true ->
  let fix fields_end o fs :=
    match fs with [] => o | f :: fs' => fields_end (start packed f.2 o + sizeof f.2) fs' end in
  let fix go e fs :=
    match fs with
    | [] => []
    | f :: fs' => map (under f.1) (leaves (o + start packed f.2 e) f.2) ++ go (start packed f.2 e + sizeof f.2) fs'
    end in
  laid_out (o + e) (o + fields_end e fs) (go e fs) /\ e <= fields_end e fs.
Proof.
  induction fs as [|f fs IH]; intros o e Hfs Hu; [simpl; lia|].
  apply list.Forall_cons in Hfs as [Hf Hfs]. simpl in Hu. apply andb_prop in Hu as [Hu1 Hu2].
  pose proof (start_le packed f.2 e Hu1) as Hs. destruct (Hf (o + start packed f.2 e) Hu1) as [Hsz Hl].
  destruct (IH o (start packed f.2 e + sizeof f.2) Hfs Hu2) as [H1 H2]. split; [|simpl; lia].
  eapply laid_out_app.
  - apply laid_out_under. eapply laid_out_wider; [| |exact Hl]; [lia|reflexivity].
  - by rewrite <- Z.add_assoc.
Qed.

(** The scalars of a type without unions lie one after the other within its size. *)
Lemma leaves_laid_out t : forall o, union_free t = true ->
  0 <= sizeof t /\ laid_out o (o + sizeof t) (leaves o t).
Proof.
  induction t as [n|n t IH|packed fs IH|fs IH] using ctype_nested; intros o H; [..|done].
  - simpl in *. lia.
  - simpl in H. destruct (IH o H) as [Hsz _]. split; [simpl; lia|]. cbn [leaves sizeof].
    cut (forall k, laid_out (o + Z.of_nat k * sizeof t) (o + Z.of_nat (k + n) * sizeof t)
      (concat (map (fun i => leaves (o + Z.of_nat i * sizeof t) t) (seq k n)))).
    { intros Hk. specialize (Hk 0%nat). by rewrite Z.mul_0_l, Z.add_0_r in Hk. }
    induction n as [|n IHn]; intros k; simpl; [lia|].
    eapply laid_out_app; [apply IH, H|]. replace (k + S n)%nat with (S k + n)%nat by lia.
    eapply laid_out_wider; [| |apply (IHn (S k))]; [lia|reflexivity].
  - destruct (struct_laid_out packed fs o 0 IH H) as [H1 H2].
    assert (0 < align (Struct packed fs)) as Ha by (by apply align_pos).
    cbn [sizeof leaves]. pose proof (fun e => pad_le _ e Ha) as Hp. split; [etransitivity; [exact H2|apply Hp]|].
    eapply laid_out_wider; [| |exact H1]; [lia|]. apply Z.add_le_mono_l, Hp.
Qed.

(** The fields of a type without unions are kept apart: all of them are read back,
    truncated to their width, and nothing outside the object changes. *)
Lemma store_load_fields t m p vs :
  union_free t = true -> length vs = length (leaves 0 t) -> mapped m p (sizeof t) ->
  exists m', store_fields m p t vs = Ok m' /\
    load_fields m' p t = Ok (zip_with field_value (leaves 0 t) vs) /\
    forall a, ~ (p <= a < p + sizeof t) -> m' !! a = m !! a.
Proof.
  intros [_ Hl]%(fun H => leaves_laid_out t 0 H) Hn Hm.
  destruct (store_leaves_ok p (sizeof t) (leaves 0 t) 0 vs m Hl Hn) as (m' & E & Hv & Hout).
  - by rewrite Z.add_0_r, Z.sub_0_r.
  - exists m'. split; [done|]. split; [done|]. intros a Ha. apply Hout. lia.
Qed.

(** ** Reading bytes as fields *)

(** The leaves follow one another without a gap. *)
Fixpoint contiguous (o : Z) (ls : list leaf) : bool :=
  match ls with
  | [] => true
  | l :: ls' => (offset l =? o) && contiguous (o + Z.of_nat (width l)) ls'
  end.

Lemma load_contiguous m p ls : forall o vs,
  contiguous o ls = true -> length vs = length ls ->
  bytes_at m (p + o) (concat (zip_with (fun l v => le_bytes (width l) v) ls vs)) ->
  load_leaves m p ls = Ok (zip_with field_value ls vs).
Proof.
  induction ls as [|l ls IH]; intros o [|v vs] Hc Hn H; try done. simpl in *.
  apply andb_prop in Hc as [->%Z.eqb_eq Hc]. apply bytes_at_app in H as [H1 H2].
  rewrite le_bytes_length, <- Z.add_assoc in H2.
  rewrite (load_le_word _ _ _ _ H1). cbn [mbind res_bind].
  by rewrite (IH _ vs Hc (Nat.succ_inj _ _ Hn) H2).
Qed.

Lemma load_le_S n m p :
  load_le (S n) m p = (b ← load8 m p; r ← load_le n m (p + 1); Ok (Z.lor b (Z.shiftl r 8))).
Proof. done. Qed.

(** A long word is its low part and its high part. *)
Lemma load_le_app n k m p :
  load_le (n + k) m p =
    (lo ← load_le n m p; hi ← load_le k m (p + Z.of_nat n); Ok (Z.lor lo (Z.shiftl hi (8 * Z.of_nat n)))).
Proof.
  revert p. induction n as [|n IH]; intros p.
  - simpl. rewrite Z.add_0_r. destruct (load_le k m p); [|done..]. simpl. by rewrite Z.shiftl_0_r.
  - rewrite (load_le_S n), (load_le_S (n + k) m p : load_le (S n + k) m p = _). destruct (load8 m p); [|done..]. cbn [mbind res_bind]. rewrite IH.
    destruct (load_le n m (p + 1)); [|done..]. cbn [mbind res_bind].
    replace (p + 1 + Z.of_nat n) with (p + Z.of_nat (S n)) by lia.
    destruct (load_le k m (p + Z.of_nat (S n))); [|done..]. cbn [mbind res_bind].
    rewrite Z.shiftl_lor, Z.shiftl_shiftl, Z.lor_assoc by lia. do 3 f_equal. lia.
Qed.
