(* ===== verification/Headers.v ===== *)
(** The structures declared in the headers, with their layout in memory.

    [Old] is [include/multiboot.h], [New] is [include/newmultiboot.h]: two
    versions of what a boot loader leaves in memory for the kernel.  The other
    declarations are those of [include/idt.h], [include/idt.c],
    [include/interrupt.h], [include/elf.h], [include/ata.h], [include/driver.h], [include/io.h] and
    [kernel/include/IO/*.h], except the bit fields of [Scancode] in [include/io.h] and
    the two structures that name a member twice.  [unsigned long] and pointers
    have four bytes, [bool] one.  An anonymous member has the empty name.

    The theorems: the two versions of the multiboot structures give the same bytes
    the same meaning, field by field; fields do not overlap where there is no
    union; and the bytes that [Idt.FixedIdt] writes are the gates and wrappers
    that the declarations of [include/idt.h] and of the two other descriptions of a
    gate read. *)

From S2P Require Import Prelude Mem Idt Layout.

Open Scope string_scope.

Definition u8_t := Word 1.
Definition u16_t := Word 2.
Definition u32_t := Word 4.
Definition u64_t := Word 8.
Definition ulong := Word 4.
Definition pointer := Word 4.
Definition bool_t := Word 1.

(** [include/multiboot.h] *)
Module Old.
Definition multiboot_header := Struct false [
  ("magic", ulong); ("flags", ulong); ("checksum", ulong); ("header_addr", ulong);
  ("load_addr", ulong); ("load_end_addr", ulong); ("bss_end_addr", ulong); ("entry_addr", ulong)].

Definition aout_symbol_table := Struct false [
  ("tabsize", ulong); ("strsize", ulong); ("addr", ulong); ("reserved", ulong)].

Definition elf_section_header_table := Struct false [
  ("num", ulong); ("size", ulong); ("addr", ulong); ("shndx", ulong)].

Definition multiboot_info := Struct false [
  ("flags", ulong); ("mem_lower", ulong); ("mem_upper", ulong); ("boot_device", ulong);
  ("cmdline", ulong); ("mods_count", ulong); ("mods_addr", ulong);
  ("u", Union [("aout_sym", aout_symbol_table); ("elf_sec", elf_section_header_table)]);
  ("mmap_length", ulong); ("mmap_addr", ulong)].

Definition module := Struct false [
  ("mod_start", ulong); ("mod_end", ulong); ("string", ulong); ("reserved", ulong)].

Definition memory_map := Struct false [
  ("size", ulong); ("base_addr_low", ulong); ("base_addr_high", ulong);
  ("length_low", ulong); ("length_high", ulong); ("type", ulong)].
End Old.

(** [include/newmultiboot.h] *)
Module New.
Definition multiboot_header := Struct false [
  ("magic", u32_t); ("flags", u32_t); ("checksum", u32_t); ("header_addr", u32_t);
  ("load_addr", u32_t); ("load_end_addr", u32_t); ("bss_end_addr", u32_t); ("entry_addr", u32_t);
  ("mode_type", u32_t); ("width", u32_t); ("height", u32_t); ("depth", u32_t)].

Definition multiboot_aout_symbol_table := Struct false [
  ("tabsize", u32_t); ("strsize", u32_t); ("addr", u32_t); ("reserved", u32_t)].

Definition multiboot_elf_section_header_table := Struct false [
  ("num", u32_t); ("size", u32_t); ("addr", u32_t); ("shndx", u32_t)].

Definition multiboot_info := Struct false [
  ("flags", u32_t); ("mem_lower", u32_t); ("mem_upper", u32_t); ("boot_device", u32_t);
  ("cmdline", u32_t); ("mods_count", u32_t); ("mods_addr", u32_t);
  ("u", Union [("aout_sym", multiboot_aout_symbol_table); ("elf_sec", multiboot_elf_section_header_table)]);
  ("mmap_length", u32_t); ("mmap_addr", u32_t);
  ("drives_length", u32_t); ("drives_addr", u32_t);
  ("config_table", u32_t);
  ("boot_loader_name", u32_t);
  ("apm_table", u32_t);
  ("vbe_control_info", u32_t); ("vbe_mode_info", u32_t);
  ("vbe_mode", u16_t); ("vbe_interface_seg", u16_t); ("vbe_interface_off", u16_t); ("vbe_interface_len", u16_t);
  ("framebuffer_addr", u64_t); ("framebuffer_pitch", u32_t); ("framebuffer_width", u32_t);
  ("framebuffer_height", u32_t); ("framebuffer_bpp", u8_t); ("framebuffer_type", u8_t);
  ("", Union [
    ("", Struct false [("framebuffer_palette_addr", u32_t); ("framebuffer_palette_num_colors", u16_t)]);
    ("", Struct false [
      ("framebuffer_red_field_position", u8_t); ("framebuffer_red_mask_size", u8_t);
      ("framebuffer_green_field_position", u8_t); ("framebuffer_green_mask_size", u8_t);
      ("framebuffer_blue_field_position", u8_t); ("framebuffer_blue_mask_size", u8_t)])])].

Definition multiboot_color := Struct false [("red", u8_t); ("green", u8_t); ("blue", u8_t)].

Definition multiboot_mmap_entry := Struct true [
  ("size", u32_t); ("addr", u64_t); ("len", u64_t); ("type", u32_t)].

Definition multiboot_mod_list := Struct false [
  ("mod_start", u32_t); ("mod_end", u32_t); ("cmdline", u32_t); ("pad", u32_t)].

Definition multiboot_apm_info := Struct false [
  ("version", u16_t); ("cseg", u16_t); ("offset", u32_t); ("cseg_16", u16_t); ("dseg", u16_t);
  ("flags", u16_t); ("cseg_len", u16_t); ("cseg_16_len", u16_t); ("dseg_len", u16_t)].
End New.

(** [include/idt.h] *)
Definition idt_gate_descriptor := Struct true [
  ("offset_low", u16_t); ("segment_selector", u16_t); ("zero", u8_t); ("type_attr", u8_t);
  ("offset_high", u16_t)].

Definition idtr_struct := Struct true [("length", u16_t); ("address", u32_t)].

Definition isr_wrapper_struct := Struct true [
  ("pushad", u8_t); ("cld", u8_t); ("call_far", u8_t); ("isr_addr", u32_t); ("segment", u16_t);
  ("popad", u8_t); ("iretd", u8_t)].

(** [include/idt.c] *)
Definition idt_entry := Struct true [
  ("base_lo", u16_t); ("sel", u16_t); ("always0", u8_t); ("flags", u8_t); ("base_hi", u16_t)].

Definition idt_ptr := Struct true [("limit", u16_t); ("base", u32_t)].

(** [include/interrupt.h] *)
Definition interrupt_frame := Struct true [
  ("isr_esp", u32_t);
  ("gs", u32_t); ("fs", u32_t); ("es", u32_t); ("ds", u32_t);
  ("edi", u32_t); ("esi", u32_t); ("ebp", u32_t); ("_", u32_t); ("ebx", u32_t); ("edx", u32_t); ("ecx", u32_t);
  ("eax", u32_t); ("errorcode", u32_t); ("eip", u32_t); ("cs", u32_t); ("eflags", u32_t);
  ("esp", u32_t); ("ss", u32_t)].

Definition Registers := Struct false [
  ("ds", u32_t);
  ("edi", u32_t); ("esi", u32_t); ("ebp", u32_t); ("esp", u32_t); ("ebx", u32_t); ("edx", u32_t);
  ("ecx", u32_t); ("eax", u32_t);
  ("int_no", u32_t); ("err_code", u32_t);
  ("eip", u32_t); ("cs", u32_t); ("eflags", u32_t); ("useresp", u32_t); ("ss", u32_t)].

(** [kernel/include/IO/interrupts.h] *)
Definition GateDescriptor := Struct true [
  ("handlerAddressLowBits", u16_t); ("gdt_codeSegmentSelector", u16_t); ("reserved", u8_t);
  ("access", u8_t); ("handlerAccessHighBits", u16_t)].

Definition IDTPointer := Struct true [("size", u16_t); ("base", u32_t)].

Definition ScheduleEntry := Struct true [
  ("free", bool_t); ("handlerAddress", pointer); ("currentFrame", u32_t); ("lastFrame", u32_t)].

(** [kernel/include/IO/pci.h] *)
Definition PCIDeviceDescriptor := Struct true [
  ("interrupt_pin", u8_t); ("interrupt_line", u8_t);
  ("bus", u16_t); ("device", u16_t); ("function", u16_t);
  ("vendor_id", u16_t); ("device_id", u16_t);
  ("command", u16_t); ("status", u16_t);
  ("class_id", u8_t); ("subclass_id", u8_t); ("interface_id", u8_t);
  ("revision", u8_t); ("capabilities", u8_t);
  ("bar0", u32_t); ("bar1", u32_t); ("bar2", u32_t); ("bar3", u32_t); ("bar4", u32_t); ("bar5", u32_t)].

(** [include/elf.h]; its section header names a member twice. *)
Definition elf_priv_data := Struct false [("sig", u32_t)].

Definition elf_header := Struct false [
  ("e_ident", Array 16 u8_t); ("e_type", u16_t); ("e_machine", u16_t); ("e_version", u32_t);
  ("e_entery", u32_t); ("e_phoff", u32_t); ("e_shoff", u32_t); ("e_flags", u32_t);
  ("e_ehsize", u16_t); ("e_phentsize", u16_t); ("e_phnum", u16_t); ("e_shentsize", u16_t);
  ("e_shnum", u16_t); ("e_shstrndx", u16_t)].

Definition elf_program_header := Struct false [
  ("p_type", u32_t); ("p_offset", u32_t); ("p_vaddr", u32_t); ("p_paddr", u32_t);
  ("p_filesz", u32_t); ("p_memsz", u32_t); ("p_flags", u32_t); ("p_align", u32_t)].

(** [include/ata.h], [include/driver.h], [include/io.h] *)
Definition ide_private_data := Struct false [("drive", u8_t)].

Definition driver_interface_table := Struct false [("initialize", pointer); ("finalize", pointer)].

Definition driver_interface := Struct false [("name", pointer); ("functions", driver_interface_table)].

Definition pci_device := Struct false [
  ("bus", u8_t); ("device", u8_t); ("class", u16_t); ("vendor", u16_t); ("function", u8_t)].

Close Scope string_scope.

(** The structures without a union. *)
Definition declarations : list ctype := [
  Old.multiboot_header; Old.aout_symbol_table; Old.elf_section_header_table; Old.module; Old.memory_map;
  New.multiboot_header; New.multiboot_aout_symbol_table; New.multiboot_elf_section_header_table;
  New.multiboot_color; New.multiboot_mmap_entry; New.multiboot_mod_list; New.multiboot_apm_info;
  idt_gate_descriptor; idtr_struct; isr_wrapper_struct; idt_entry; idt_ptr; interrupt_frame; Registers;
  GateDescriptor; IDTPointer; ScheduleEntry; PCIDeviceDescriptor; elf_priv_data; elf_header;
  elf_program_header; ide_private_data; driver_interface_table; driver_interface; pci_device].

(** The field of a structure with the given name; a member of a member has one more
    name. *)
Definition load_field (m : mem) (p : Z) (t : ctype) (f : list String.string) : res Z :=
  match List.find (fun l => bool_decide (path l = f)) (leaves 0 t) with
  | Some l => load_le (width l) m (p + offset l)
  | None => Undef
  end.

(** Two words as the halves of one number. *)
Definition load_halves (m : mem) (p : Z) (t : ctype) (low high : String.string) : res Z :=
  l ← load_field m p t [low]; h ← load_field m p t [high]; Ok (Z.lor l (Z.shiftl h 32)).

(** Every field of [old] is the field of [new] with the name [rename] gives it. *)
Definition same_fields (m : mem) (p : Z) (rename : list String.string -> list String.string) (old new : ctype) : Prop :=
  Forall (fun f => load_field m p new (rename f) = load_field m p old f) (map path (leaves 0 old)).

(** [module_t] and [multiboot_module_t] differ in two names. *)
Definition new_module_name (f : list String.string) : list String.string :=
  if bool_decide (f = ["string"%string]) then ["cmdline"%string]
  else if bool_decide (f = ["reserved"%string]) then ["pad"%string] else f.

(** ** Theorems *)

(** Puts the computed leaves of a declaration into the goal. *)
Ltac compute_leaves t :=
  let ls := eval vm_compute in (leaves 0 t) in change (leaves 0 t) with ls.

(** Two fields at the same offset and of the same width. *)
Lemma load_field_at m p t f o n :
  (fun l => (offset l, width l)) <$> List.find (fun l => bool_decide (path l = f)) (leaves 0 t) = Some (o, n) ->
  load_field m p t f = load_le n m (p + o).
Proof. unfold load_field. by destruct (List.find _ _) as [l|]; [intros [= <- <-]|]. Qed.

(** The field of each name, from one declaration and from the other. *)
Lemma same_fields_ok m p rename old new :
  forallb (fun f => bool_decide (
    ((fun l => (offset l, width l)) <$> List.find (fun l => bool_decide (path l = rename f)) (leaves 0 new)) =
    ((fun l => (offset l, width l)) <$> List.find (fun l => bool_decide (path l = f)) (leaves 0 old))))
    (map path (leaves 0 old)) = true ->
  same_fields m p rename old new.
Proof.
  intros H. unfold same_fields. apply list.Forall_forall. intros f Hf. rewrite forallb_forall in H.
  apply list_elem_of_In, H, bool_decide_eq_true in Hf. unfold load_field.
  destruct (List.find _ (leaves 0 new)) as [l|], (List.find _ (leaves 0 old)) as [l'|]; try done.
  simpl in Hf. injection Hf as -> ->. done.
Qed.

(** C25. The two versions of the multiboot declarations describe the same memory, field by
    field.  Each field of the old header, of the old information structure and of
    the two old symbol tables is the field of the same name of the new one; a module
    has the same fields, two of them under new names; an old memory map entry has
    the same size and type, and its pairs of words are the halves of the new
    address and length.  All but the header and the information structure, which
    the new version extends, have the same size. *)
Theorem multiboot_declarations_agree m p :
  same_fields m p id Old.multiboot_header New.multiboot_header /\
  same_fields m p id Old.multiboot_info New.multiboot_info /\
  same_fields m p id Old.aout_symbol_table New.multiboot_aout_symbol_table /\
  same_fields m p id Old.elf_section_header_table New.multiboot_elf_section_header_table /\
  same_fields m p new_module_name Old.module New.multiboot_mod_list /\
  (forall f, f ∈ ["size"; "type"]%string ->
     load_field m p New.multiboot_mmap_entry [f] = load_field m p Old.memory_map [f]) /\
  load_field m p New.multiboot_mmap_entry ["addr"%string] =
    load_halves m p Old.memory_map "base_addr_low" "base_addr_high" /\
  load_field m p New.multiboot_mmap_entry ["len"%string] =
    load_halves m p Old.memory_map "length_low" "length_high" /\
  map sizeof [New.multiboot_aout_symbol_table; New.multiboot_elf_section_header_table;
              New.multiboot_mod_list; New.multiboot_mmap_entry] =
    map sizeof [Old.aout_symbol_table; Old.elf_section_header_table; Old.module; Old.memory_map].
Proof.
  do 5 (split; [apply same_fields_ok; vm_compute; reflexivity|]).
  split; [|split; [|split; [|reflexivity]]].
  - intros f Hf. apply elem_of_cons in Hf as [->|Hf%list_elem_of_singleton]; [|subst f];
      (erewrite !load_field_at by (vm_compute; reflexivity)); reflexivity.
  - unfold load_halves. erewrite !load_field_at by (vm_compute; reflexivity).
    rewrite (load_le_app 4 4), <- !Z.add_assoc. reflexivity.
  - unfold load_halves. erewrite !load_field_at by (vm_compute; reflexivity).
    rewrite (load_le_app 4 4), <- !Z.add_assoc. reflexivity.
Qed.

(** A hundred and twenty bytes of memory, the number of each its address. *)
Definition sample_mem (p : Z) : mem := mem_of p (map Z.of_nat (seq 0 120)).

(** Each structure that is declared without a union keeps its fields apart: values
    stored in its scalars, the elements of its arrays included, are read back
    truncated to their width, and no byte outside of it changes. *)
Theorem declared_fields_kept_apart t m p vs :
  t ∈ declarations -> length vs = length (leaves 0 t) -> mapped m p (sizeof t) ->
  exists m', store_fields m p t vs = Ok m' /\
    load_fields m' p t = Ok (zip_with field_value (leaves 0 t) vs) /\
    forall a, ~ (p <= a < p + sizeof t) -> m' !! a = m !! a.
Proof.
  intros Ht. apply store_load_fields.
  assert (Forall (fun t => union_free t = true) declarations) as H by (by repeat constructor).
  rewrite list.Forall_forall in H. by apply H.
Qed.

Lemma declared_fields_kept_apart_witness :
  exists m', store_fields (sample_mem 0) 0 New.multiboot_mmap_entry [20; 2 ^ 32 + 5; 640; 1] = Ok m' /\
    load_fields m' 0 New.multiboot_mmap_entry = Ok [20; 2 ^ 32 + 5; 640; 1].
Proof.
  destruct (declared_fields_kept_apart New.multiboot_mmap_entry (sample_mem 0) 0 [20; 2 ^ 32 + 5; 640; 1])
    as (m' & E & L & _).
  - unfold declarations. do 9 apply list_elem_of_further. apply list_elem_of_here.
  - reflexivity.
  - intros i Hi. exists i. change (sizeof New.multiboot_mmap_entry) with 24 in Hi.
    unfold sample_mem, mem_of. rewrite <- (Z2Nat.id i) at 1 by lia. apply write_list_lookup.
    rewrite list_lookup_fmap, lookup_seq_lt by lia. simpl. f_equal. lia.
  - exists m'. split; [exact E|]. rewrite L. vm_compute. reflexivity.
Defined.

Section Gates.
Variables PUSHAD_OPCODE CLD_OPCODE CALL_FAR_OPCODE POPAD_OPCODE IRET_OPCODE : Z.

(** A declaration whose fields are those of a gate. *)
Definition gate_layout (t : ctype) : Prop :=
  map (fun l => (offset l, width l)) (leaves 0 t) = [(0, 2%nat); (2, 2%nat); (4, 1%nat); (5, 1%nat); (6, 2%nat)].

Lemma gate_bytes_fields m p off seg ty t :
  gate_layout t -> 0 <= seg < 2 ^ 16 -> 0 <= ty < 2 ^ 8 ->
  bytes_at m p (FixedIdt.gate_bytes off seg ty) ->
  load_fields m p t = Ok [u16 off; seg; 0; ty; u16 (Z.shiftr off 16)].
Proof.
  unfold load_fields, gate_layout. intros Ht Hs Hty H.
  destruct (leaves 0 t) as [|[q1 o1 n1] [|[q2 o2 n2] [|[q3 o3 n3] [|[q4 o4 n4] [|[q5 o5 n5] [|? ?]]]]]];
    try discriminate. injection Ht as -> -> -> -> -> -> -> -> -> ->.
  rewrite (load_contiguous m p _ 0 [u16 off; seg; 0; ty; u16 (Z.shiftr off 16)]) by
    (done || by rewrite Z.add_0_r). simpl zip_with. unfold field_value. simpl width.
  change (2 ^ (8 * Z.of_nat 2)) with (2 ^ 16). change (2 ^ (8 * Z.of_nat 1)) with (2 ^ 8).
  fold (u16 (u16 off)) (u16 (u16 (Z.shiftr off 16))). rewrite !wrap_idemp.
  by rewrite (Z.mod_small seg), (Z.mod_small ty).
Qed.

Lemma wrapper_bytes_fields m p w :
  bytes_at m p (map u8 (FixedIdt.wrapper_bytes w)) ->
  load_fields m p isr_wrapper_struct =
    Ok [u8 (FixedIdt.w_pushad w); u8 (FixedIdt.w_cld w); u8 (FixedIdt.w_call_far w);
        u32 (FixedIdt.w_isr_addr w); u16 (FixedIdt.w_segment w); u8 (FixedIdt.w_popad w);
        u8 (FixedIdt.w_iretd w)].
Proof.
  intros H. unfold load_fields. compute_leaves isr_wrapper_struct.
  erewrite (load_contiguous m p _ 0 [FixedIdt.w_pushad w; FixedIdt.w_cld w; FixedIdt.w_call_far w;
    FixedIdt.w_isr_addr w; FixedIdt.w_segment w; FixedIdt.w_popad w; FixedIdt.w_iretd w]);
    [done..|]. rewrite Z.add_0_r. revert H. simpl. by rewrite !wrap_idemp.
Qed.

Local Abbreviation represents := (FixedIdt.represents PUSHAD_OPCODE CLD_OPCODE CALL_FAR_OPCODE
  POPAD_OPCODE IRET_OPCODE).

(** C24. Installing a routine for vector [n], seen through the declarations: all three
    descriptions of a gate read the address of the wrapper of [n] in two halves, the
    code segment 8, a zero and the attributes; the wrapper calls the routine in that
    segment between saving and restoring the registers. *)
Theorem installed_vector_as_declared s a n isr ty :
  represents s a -> 0 <= n < 256 -> 0 <= isr < 2 ^ 32 -> 0 <= ty < 256 ->
  exists s', FixedIdt.idt_install_interrupt 257 s n isr ty = Ok s' /\
    Forall (fun t => load_fields (FixedIdt.smem s') (FixedIdt.gate_at n) t =
        Ok [FixedIdt.wrapper_at n; 8; 0; ty; 0])
      [idt_gate_descriptor; idt_entry; GateDescriptor] /\
    load_fields (FixedIdt.smem s') (FixedIdt.wrapper_at n) isr_wrapper_struct =
      Ok [u8 PUSHAD_OPCODE; u8 CLD_OPCODE; u8 CALL_FAR_OPCODE; isr; 8; u8 POPAD_OPCODE; u8 IRET_OPCODE].
Proof.
  intros Hrep Hn Hisr Hty. unfold FixedIdt.idt_install_interrupt.
  pose proof Hrep as (_ & Hc & _).
  destruct (FixedIdt.grow_ok _ _ _ _ _ 257 s a n Hrep Hn) as (s1 & -> & _ & M1 & [adr G1] & _); [lia|].
  cbn [mbind res_bind]. rewrite (wrap_small 32 isr) by done.
  destruct (FixedIdt.set_idt_gate_ok s1 (FixedIdt.gate_at n) (FixedIdt.wrapper_at n) 8 ty
    (FixedIdt.tables_gate _ _ M1 Hn)) as (m1 & -> & W1). cbn [mbind res_bind].
  pose proof (wrote_mapped _ _ _ _ _ _ W1 M1) as M2.
  destruct (FixedIdt.set_isr_wrapper_ok (FixedIdt.mk_state m1 (FixedIdt.generic_wrapper s1)
    (FixedIdt.idt_gate_count s1) (FixedIdt.idtr_length s1)) (FixedIdt.wrapper_at n) isr
    (FixedIdt.tables_wrapper _ _ M2 Hn)) as (m2 & -> & W2). cbn [mbind res_bind].
  cbn [FixedIdt.smem FixedIdt.generic_wrapper] in W2. rewrite G1 in W2.
  destruct (FixedIdt.wrapper_at_u32 n Hn) as [Hu _]. rewrite Hu in W1.
  eexists. split; [reflexivity|]. cbn [FixedIdt.smem].
  assert (bytes_at m2 (FixedIdt.gate_at n) (FixedIdt.gate_bytes (FixedIdt.wrapper_at n) 8 ty)) as Hb.
  { eapply wrote_bytes_at; [exact W2| |apply W1]. left. simpl.
    unfold FixedIdt.gate_at, FixedIdt.wrapper_at, FixedIdt.IDT_BASE, FixedIdt.ISR_WRAPPER_BASE,
      FixedIdt.GATE_SIZE, FixedIdt.WRAPPER_SIZE. lia. }
  assert (0 <= FixedIdt.wrapper_at n < 2 ^ 16) as Hw
    by (unfold FixedIdt.wrapper_at, FixedIdt.ISR_WRAPPER_BASE, FixedIdt.WRAPPER_SIZE; lia).
  assert (forall t, gate_layout t -> load_fields m2 (FixedIdt.gate_at n) t =
      Ok [FixedIdt.wrapper_at n; 8; 0; ty; 0]) as Hg.
  { intros t Ht. rewrite (gate_bytes_fields m2 _ (FixedIdt.wrapper_at n) 8 ty t Ht) by done.
    rewrite (wrap_small 16), Z.shiftr_div_pow2, Z.div_small by done. done. }
  split; [by repeat constructor; apply Hg|].
  rewrite (wrapper_bytes_fields m2 _ (FixedIdt.set_isr_addr (FixedIdt.init_generic_wrapper PUSHAD_OPCODE
    CLD_OPCODE CALL_FAR_OPCODE POPAD_OPCODE IRET_OPCODE) isr)) by apply W2. simpl.
  by rewrite (wrap_small 32 isr).
Qed.
End Gates.

Lemma installed_vector_as_declared_witness :
  exists s', FixedIdt.idt_install_interrupt 257
      (FixedIdt.boot_state 0x60 0xFC 0x9A 0x61 0xCF FixedIdt.blank) 33 0x100000 0x8E = Ok s' /\
    load_fields (FixedIdt.smem s') (0x6c00 + 33 * 8) idt_gate_descriptor = Ok [0x7400 + 33 * 11; 8; 0; 0x8E; 0] /\
    load_fields (FixedIdt.smem s') (0x7400 + 33 * 11) isr_wrapper_struct =
      Ok [0x60; 0xFC; 0x9A; 0x100000; 8; 0x61; 0xCF].
Proof.
  destruct (installed_vector_as_declared 0x60 0xFC 0x9A 0x61 0xCF
    (FixedIdt.boot_state 0x60 0xFC 0x9A 0x61 0xCF FixedIdt.blank) ∅ 33 0x100000 0x8E
    (FixedIdt.boot_represents _ _ _ _ _ _ FixedIdt.blank_mapped)) as (s' & E & G & W); [lia..|].
  exists s'. split; [exact E|]. split; [|exact W]. inversion_clear G. done.
Defined.
