(* ===== verification/Io.v ===== *)
(** [include/io.c]: the C functions around the port instructions.

    Each function is one IN or OUT instruction on the registers %eax and %edx; the
    devices on the other side are the interface [Bus].  The constraint ["dN"]
    lets the compiler choose, for a constant port below 256, between loading %dx
    and an immediate operand: [choice] is that choice.  The byte and word
    functions print the operand that was chosen ([%1]); the two long ones always
    print %dx.  The registers before a call are arbitrary, so what a function
    returns or sends must not depend on them.

    [ports] makes these functions the [PortIO] the drivers are written against. *)

From S2P Require Import Prelude Mem Ports Cpu.

(** [system_call] and its numbers come from headers that the repository does not have. *)
Class SystemCalls (D : Type) := {
  system_call : Z -> Z -> Z -> Z -> D -> Z * D;
  SYSCALL_READ : Z;
  SYSCALL_WRITE : Z
}.

Section Io.
Context {D : Type} `{!Bus D, !SystemCalls D}.

Definition outportb (c : choice) (port val : Z) (s : cpu * D) : cpu * D :=
  exec (Out 1 (printed c port)) (pass_value 1 val (pass_port c port s.1), s.2).

Definition inportb (c : choice) (port : Z) (s : cpu * D) : Z * (cpu * D) :=
  result 1 (exec (In 1 (printed c port)) (pass_port c port s.1, s.2)).

Definition inports (c : choice) (port : Z) (s : cpu * D) : Z * (cpu * D) :=
  result 2 (exec (In 2 (printed c port)) (pass_port c port s.1, s.2)).

Definition outports (c : choice) (port data : Z) (s : cpu * D) : cpu * D :=
  exec (Out 2 (printed c port)) (pass_value 2 data (pass_port c port s.1), s.2).

Definition inportl (c : choice) (port : Z) (s : cpu * D) : Z * (cpu * D) :=
  result 4 (exec (In 4 Dx) (pass_port c port s.1, s.2)).

Definition outportl (c : choice) (port data : Z) (s : cpu * D) : cpu * D :=
  exec (Out 4 Dx) (pass_value 4 data (pass_port c port s.1), s.2).

Definition sh_write (fd buffer byte : Z) (d : D) : Z * D := system_call SYSCALL_WRITE fd buffer byte d.
Definition sh_read (fd buffer byte : Z) (d : D) : Z * D := system_call SYSCALL_READ fd buffer byte d.

(** ** What the functions do on the bus *)

Lemma outportb_reaches c port val s :
  0 <= port < 2 ^ 16 -> allowed c port -> (outportb c port val s).2 = bus_out 1 port (u8 val) s.2.
Proof. intros Hp Hc. by apply out_reaches, passed_port. Qed.

(** C26. The byte and word functions reach the port they are given with the value they
    are given, whatever the registers held and whichever operand the compiler
    chose.  The long functions do when the port is passed in %dx; with an immediate
    operand, which their constraint allows below 256, they access the port
    that %dx happens to hold. *)
Theorem port_functions_reach_port c port val r d :
  0 <= port < 2 ^ 16 -> allowed c port ->
  (outportb c port val (r, d)).2 = bus_out 1 port (u8 val) d /\
  (outports c port val (r, d)).2 = bus_out 2 port (u16 val) d /\
  reads 1 port d (inportb c port (r, d)) /\ reads 2 port d (inports c port (r, d)) /\
  match c with
  | InDx => (outportl c port val (r, d)).2 = bus_out 4 port (u32 val) d /\
      reads 4 port d (inportl c port (r, d))
  | Immediate => (outportl c port val (r, d)).2 = bus_out 4 (u16 (edx r)) (u32 val) d /\
      reads 4 (u16 (edx r)) d (inportl c port (r, d))
  end.
Proof.
  intros Hp Hc. pose proof (passed_port c port r Hp Hc) as E.
  split; [|split; [|split; [|split]]].
  - by apply outportb_reaches.
  - by apply out_reaches.
  - by apply exec_in_reads.
  - by apply exec_in_reads.
  - destruct c; (split; [by apply out_reaches|by apply exec_in_reads]).
Qed.

(** The choices the compiler made, per port. *)
Variable pick : Z -> choice.

#[export] Instance ports : PortIO (cpu * D) := {|
  inb port s := inportb (pick port) port s;
  outb port val s := outportb (pick port) port val s;
  inw port s := inports (pick port) port s;
  outw port val s := outports (pick port) port val s
|}.

End Io.

(** A bus that records the writes and answers a read with the port's number. *)
#[export] Instance log_bus : Bus (list (nat * Z * Z)) := {|
  bus_in w port d := (port, d);
  bus_out w port v d := (w, port, v) :: d
|}.

(** The reset of the kernel terminal passes port 0x64 as an immediate; a long write
    to it goes to the port that %dx held. *)
Lemma port_functions_reach_port_witness :
  (outportb Immediate 0x64 0xFE (mk_cpu 7 0x1F7, [])).2 = [(1%nat, 0x64, 0xFE)] /\
  (inportb Immediate 0x64 (mk_cpu 7 0x1F7, [] : list (nat * Z * Z))).1 = 0x64 /\
  (outportl Immediate 0x64 0xFE (mk_cpu 7 0x1F7, [])).2 = [(4%nat, 0x1F7, 0xFE)].
Proof.
  destruct (port_functions_reach_port (D := list (nat * Z * Z)) Immediate 0x64 0xFE (mk_cpu 7 0x1F7) [])
    as (B & _ & [I _] & _ & L & _); [lia|simpl; lia|].
  split; [exact B|]. split; [exact I|exact L].
Defined.
