(* ===== verification/Cursor.v ===== *)
(** The cursor task of [kernel/main.c] ([__cursor_updater]), from the console's cursor
    to the registers of the display controller.

    The task is written against [PortIO]; here it runs on the port functions of
    [include/io.c] ([Io.ports]), that is, on OUT instructions, over the controller
    of [Vga.Crtc]. *)

From S2P Require Import Prelude Mem Ports Cpu Vga Io.

(** A round of [__cursor_updater] for a console cursor at [(cx, cy)]; the task
    keeps [lastpos] between rounds. *)
Definition cursor_update {D : Type} `{!PortIO D} (lastpos cx cy : Z) (d : D) : Z * D :=
  let pos := u16 (cy * 80 + cx) in
  if pos =? lastpos then (lastpos, d)
  else
    let d := outb 0x3D4 0x0F d in
    let d := outb 0x3D5 (Z.land (u8 pos) 0xFF) d in
    let d := outb 0x3D4 0x0E d in
    let d := outb 0x3D5 (Z.land (u8 (Z.shiftr pos 8)) 0xFF) d in
    (pos, d).

Section Cursor.
Context {D : Type} `{!Bus D}.
Variable pick : Z -> choice.
#[local] Existing Instance ports.
#[local] Instance task_ports : PortIO (cpu * D) := ports pick.
Hypothesis index_allowed : allowed (pick 0x3D4) 0x3D4.
Hypothesis data_allowed : allowed (pick 0x3D5) 0x3D5.

(** A moved cursor is four byte writes, the low byte of the position into register
    15 and the high byte into register 14. *)
Lemma cursor_update_writes lastpos cx cy r d :
  let pos := u16 (cy * 80 + cx) in
  pos <> lastpos ->
  (cursor_update lastpos cx cy (r, d)).1 = pos /\
  (cursor_update lastpos cx cy (r, d)).2.2 =
    bus_out 1 0x3D5 (pos / 256) (bus_out 1 0x3D4 14
      (bus_out 1 0x3D5 (pos mod 256) (bus_out 1 0x3D4 15 d))).
Proof.
  intros pos Hne.
  assert (forall p v s, allowed (pick p) p -> 0 <= p < 2 ^ 16 -> (outb p v s).2 = bus_out 1 p (u8 v) s.2) as Hout.
  { intros p v s Ha Hp. by apply outportb_reaches. }
  unfold cursor_update. fold pos. rewrite (proj2 (Z.eqb_neq _ _) Hne). cbn [fst snd]. split; [done|].
  rewrite !Hout by done. cbn [snd]. pose proof (wrap_range 16 (cy * 80 + cx)).
  replace (u8 (Z.land (u8 (Z.shiftr pos 8)) 255)) with (pos / 256); [|].
  - by replace (u8 (Z.land (u8 pos) 255)) with (pos mod 256)
      by (change 255 with (Z.ones 8); rewrite Z.land_ones by lia; unfold wrap; by rewrite !Zmod_mod).
  - change 255 with (Z.ones 8). rewrite Z.land_ones, Z.shiftr_div_pow2 by lia. unfold wrap.
    rewrite !Zmod_mod. symmetry. apply Z.mod_small.
    split; [apply Z.div_pos|apply Z.div_lt_upper_bound]; unfold pos; lia.
Qed.

Context {C : Crtc D}.

(** C28. The cursor task leaves the position of the console's cursor in the controller's
    two registers, high and low byte in their places, and changes no other: the
    task's own port functions pass the value in %al whatever the registers
    held.  Reading the registers back as the [main] of kernel.c does gives
    [cy * 80 + cx] where that code's %al holds the register numbers; a second
    round with the cursor unmoved writes nothing. *)
Theorem cursor_update_roundtrip (lastpos cx cy : Z) (r : cpu) (d : D) (stale : Z -> Z -> D -> cpu) :
  0 <= cx -> 0 <= cy -> cy * 80 + cx < 2 ^ 16 -> cy * 80 + cx <> lastpos ->
  let u := cursor_update lastpos cx cy (r, d) in
  u.1 = cy * 80 + cx /\
  crtc_reg u.2.2 14 * 256 + crtc_reg u.2.2 15 = cy * 80 + cx /\
  (forall k, k <> 14 -> k <> 15 -> crtc_reg u.2.2 k = crtc_reg d k) /\
  ((forall d', al stale REG_SCREEN_CTRL 14 d' = 14) -> (forall d', al stale REG_SCREEN_CTRL 15 d' = 15) ->
   (read_cursor stale u.2.2).1 = cy * 80 + cx) /\
  cursor_update u.1 cx cy u.2 = u.
Proof.
  intros Hx Hy Hp Hne u. set (pos := cy * 80 + cx) in *.
  assert (Epos : u16 (cy * 80 + cx) = pos) by (apply wrap_small; lia).
  destruct (cursor_update_writes lastpos cx cy r d) as [E1 E2]; [by rewrite Epos|].
  fold u in E1, E2. rewrite Epos in E1, E2.
  assert (R : crtc_reg u.2.2 = fupd (fupd (crtc_reg d) 15 (pos mod 256)) 14 (pos / 256)).
  { rewrite E2. set (d1 := bus_out 1 0x3D4 15 d). set (d2 := bus_out 1 0x3D5 (pos mod 256) d1).
    set (d3 := bus_out 1 0x3D4 14 d2).
    destruct (crtc_select 15 d) as [I1 R1]. destruct (crtc_write (pos mod 256) d1) as [I2 R2].
    destruct (crtc_select 14 d2) as [I3 R3]. destruct (crtc_write (pos / 256) d3) as [I4 R4].
    fold d1 in I1, R1. fold d2 in I2, R2. fold d3 in I3, R3. congruence. }
  assert (E14 : crtc_reg u.2.2 14 = pos / 256) by (rewrite R; apply fupd_eq).
  assert (E15 : crtc_reg u.2.2 15 = pos mod 256) by (rewrite R, fupd_ne by done; apply fupd_eq).
  pose proof (Z.div_mod pos 256). pose proof (Z.mod_pos_bound pos 256).
  assert (0 <= pos / 256 < 256) by (Z.div_mod_to_equations; lia).
  split; [done|]. split; [lia|]. split; [|split].
  - intros k H14 H15. rewrite R. by rewrite !fupd_ne.
  - intros Ha Hb. destruct (read_cursor_ok stale u.2.2) as [-> _].
    rewrite Ha, Hb, E14, E15, !(wrap_small 8) by lia. lia.
  - rewrite E1. unfold cursor_update at 1. rewrite Epos, Z.eqb_refl. rewrite <- E1. by destruct u.
Qed.

End Cursor.

(** The cursor at column 5 of line 10. *)
Lemma cursor_update_roundtrip_witness :
  let u := cursor_update (PortIO0 := ports (fun _ => InDx)) 0 5 10 (mk_cpu 7 0x1F7, mk_crtc 0 (fun _ => 0)) in
  u.1 = 805 /\ (read_cursor value_in_al u.2.2).1 = 805.
Proof.
  destruct (cursor_update_roundtrip (fun _ => InDx) I I 0 5 10 (mk_cpu 7 0x1F7)
    (mk_crtc 0 (fun _ => 0)) value_in_al) as (E & _ & _ & R & _); [lia..|].
  split; [exact E|]. apply R; reflexivity.
Defined.
